(* ===== verification/_CoqProject ===== *)
-Q . S2P
Prelude.v
Bytes.v
Digits.v
Codec.v
Types.v
ItchMessages.v
OuchMessages.v
SessionMessages.v
WireStructs.v
Display.v
ItchDisplay.v
OuchDisplay.v
SessionDisplay.v
L2Orderbook.v
OrderbookBuilder.v
ItchParser.v
ParserTest.v
MarketDataClient.v
MarketDataPhases.v
ConfigParser.v
ConfigDisplay.v
Logging.v
OrderManager.v
OrderTable.v
OrderEntryClient.v
TcpClient.v
Syscalls.v
Interleaving.v
SocketCalls.v
MarketDataCalls.v
Sockets.v
ClientCalls.v
TradingClient.v
Transport.v
TcpServer.v
ServerTrace.v
TcpServerCalls.v
ExchangeEmulator.v
EmulatorCalls.v
System.v
