(* ===== verification/Prelude.v ===== *)
(** * Verification of the algocor trading system

    The repository is a low-latency client for an exchange, in C++: a market data side
    that follows a multicast feed and keeps order books, an order entry side that sends
    orders over TCP, and an emulator of the exchange for tests.

      MoldUDP64 packets -> MarketDataClient -> ItchParser -> OrderbookBuilder -> L2Orderbook
      ConfigParser -> BistMarketAccessor <-> TcpClient <- TCP stream -> TcpServer <-> emulator
                            OrderManager

    ** Files

    - Prelude: machine integers ([wrap], [to_signed]), the result of a C++ computation
      ([outcome]: a value, [std::exit], an exception, undefined behaviour), folds of
      fallible steps, sums over finite maps, tactics and hint databases.
    - Bytes: bytes, little-endian objects in memory, <endian.h>, bounds-checked reads.
    - Digits: decimal numerals, as the order tokens and [std::to_string] write them.
    - Codec: a packed struct as a pair of inverse functions between values and bytes; the
      class [CodecLaws], proved by instance resolution for every struct.
    - Types: lib/types.hpp, lib/constants.hpp, ouch_types.hpp, soupbintcp_types.hpp; an
      enumeration is an inductive type with its codes, a strong type is a codec.
    - ItchMessages, OuchMessages, SessionMessages: the packed structs of lib/protocol/,
      each a record of the values its members have in host memory, with its layout.
    - WireStructs: the offset and size constants and the static assertions of all structs,
      the members of each with their places, and the constants of ouch_constants.hpp.
    - Display: [std::ostream] as the messages use it; ItchDisplay, OuchDisplay and
      SessionDisplay: the stream insertion operators of the messages.
    - L2Orderbook: lib/core/l2_orderbook.hpp; the operations on a side are
      [AddOrder_levels], [DeleteOrder_levels], [ReplaceOrder_levels], [ExecuteOrderImpl];
      those of the book have the prefix [L2_].  What comparing an invalidated iterator
      yields is a parameter (class [StaleComparison]).
    - OrderbookBuilder: lib/core/orderbook_builder.hpp; [add_body], [execute_body] and
      [delete_body] are the handlers after the members of the message have been swapped.
    - ItchParser: lib/protocol/itch/itch_parser.hpp, for any instance of class [Builder].
    - ParserTest: test/itch_parser_test.cpp with the script that writes its packet.
    - MarketDataClient: lib/client/market_data_client.cpp; [client_parse] is
      MarketDataClient::parse, [track] its part behind the parser.  MarketDataPhases: the
      machine of three phases that the client refines.  MarketDataCalls: the client with
      its socket, from its constructor to its destructor, as system calls.
    - ConfigParser: lib/utility/config_parser.hpp, for any JSON library (class [JsonLib]);
      ConfigDisplay: its text for the log, for any formatting library (class [FmtLib]).
    - Logging: lib/utility/quill_wrapper.cpp and the macros of overwrite_macros.hpp, for any
      logging library (class [QuillLib]).
    - OrderManager: lib/core/order_manager.hpp.
    - OrderTable: what the order manager promises, a table of orders by token, and the
      refinement that connects the array with it.
    - OrderEntryClient: lib/client/order_entry_client.cpp (BistMarketAccessor).
    - TcpClient: lib/network/tcp_client.cpp; the framing for any instance of class
      [MessageHandler], and [handleMessage] as such an instance, on any platform (class
      [Platform]: how many bytes behind a local struct it tolerates).
    - Syscalls: programs that call the kernel, a free monad over the system calls the code
      uses; a kernel is any function from the calls so far to an answer that respects the
      manual pages; [safe] is the postcondition calculus for all kernels.
    - Interleaving: a program followed along the answers it has seen ([follow]), and two
      programs, the threads of a process, interleaved against one kernel by a schedule.
    - SocketCalls: the socket classes of lib/network/ and lib/utility/thread.cpp as such
      programs.
    - Sockets: the write loops of tcp_socket.cpp and tcp_client_connection.cpp, over the
      kernel's answers and as system calls.
    - ClientCalls: the read loop of the TCP client, with the writes of its handler, as
      system calls.  TradingClient: apps/trading_client.cpp and the life of a
      BistMarketAccessor, whose owner and reading thread are such programs.
    - Transport: a session from the server's write loop to the client's read loop, and the
      write loop run by the client's two threads at once.
    - TcpServer: lib/network/tcp_server.cpp, for any message handler, over what the kernel
      reports.  TcpServerCalls: the same server as system calls, from its constructor to
      its destructor.  ServerTrace: how what the kernel reported, and what was asked of it,
      is read off the trace of such a run.
    - ExchangeEmulator: the handler of apps/exchange_emulator.cpp, and the handshake of
      client and emulator, with the constants of apps/trading_client.cpp.  EmulatorCalls:
      the emulator as system calls.
    - System: the two programs of apps/ together, any number of clients and one emulator, as
      a step relation whose steps are connections, their ends, events of the emulator's loop
      and iterations of a client's read loop; what a read takes is the network's choice.

    ** Conventions

    State is a record that the operations take and return.  An unsigned or signed integer
    is a [Z] and every operation that can leave its width is wrapped as the code's types
    say.  What the program sends is part of the state ([sent], [written], [outgoing]);
    what it receives is an argument.  Undefined behaviour, exceptions and [std::exit] are
    values of [outcome], so a theorem whose conclusion is [Ret] also says that none of
    them happens.  A pointer into a buffer is the list of bytes from there to the end of
    the object.  Log statements are left out, except where their arguments can go wrong.

    ** What the theorems show

    - Order books: every operation refines an update of a finite map from prices to
      quantities and keeps the levels sorted with positive quantities; all other branches
      (missing level, underflow, empty side) are characterised.  Along any well-behaved
      feed the books are exactly the aggregation of the live orders and no handler fails,
      provided that iterators are pointers; by the letter of C++ the orders that open a
      level better than the worst of its side are undefined behaviour ([feed_safe]).  What
      happens on feeds that are not well-behaved is shown as well.
    - Market data: a packet that is encoded and parsed is forwarded unchanged; a client
      that receives the stream from the start stays in sync; one that joins late asks for
      what it missed and, once it was replayed, has the books of all messages.  Whatever
      arrives, the client behaves as a machine of three phases next to a parser
      ([client_refines_machine]): it fails where the machine fails, and its requests are
      ranges that begin later and later and end at the packet it joined with; the books are
      those of the datagrams in the order of their arrival.  The gap check, the 16-bit
      count of a request and the order of application are shown to behave other than
      intended.
    - Order entry: the buffers on the wire are the messages with the current tokens;
      tokens are not reused within a session or across restarts; after any sequence of
      calls the order manager's array is the table of orders by token that it stands for.
    - TCP: framing is independent of the chunks in which the stream arrives, for packets
      that fit the buffer, and the reading loop ends for every finite stream; a session
      crosses the kernel's portions and chunks intact and the client reacts to its packets
      one by one, up to the first whose reaction fails;
      two threads that write at once keep their frames whole only if the kernel takes
      every buffer whole.  The read loop as a program refines the one over chunks for any
      answers of the kernel, and against a server's stream the trading client, under any
      interleaving of its threads, ends having logged in and reacted to every packet, if
      these reactions are defined ([client_session]); a refused connection goes unnoticed, and the destructor waits
      for the server.
    - Wire formats: every struct reads a buffer of its size member by member at the places
      its header gives them, its assertions hold; a logged add order can be read back from its line, a logged execution has its
      numbers the wrong way round.
    - The whole system: for clients with the emulator's credentials, as long as every login
      request arrives in one read, every run of any number of clients and the emulator
      comes to an end in which all sessions are established, and nothing fails on the way
      ([sessions_established]); a login request
      that arrives in two reads is lost for good ([split_login_never_starts]), and an order
      cut at the wrong place can be taken for a logout ([order_taken_for_logout]).
    - Emulator: the invariant of the server's tables and of what it sends, up to the one
      way in which its loop fails ([emulator_invariant]); the login
      handshake succeeds end to end; a rejected login leaves a dangling iterator.  Against
      any kernel the emulator uses only descriptors it holds and gives back all it took,
      and its event loop does, call by call, what the one over reported events does with
      the events its trace shows ([serverLoop_refines]); two of the client's socket
      classes do not keep their descriptors so well.
    - Configuration: the parser succeeds exactly on the files that describe a configuration
      key by key ([describes]), and holds what they describe; an active partition without a
      name is noticed too late; the
      file that the order manager leaves behind is read back at the next start; the text
      of a configuration shows the password.

    ** Bounds and fuel

    Loops over a container are structural.  [process_loop] has fuel one more than the
    bytes in the buffer and consumes at least two per round, so it never runs out (the
    framing theorem returns); [populate_loop] has fuel equal to the size of the vector;
    [to_string] has 20 digits, as many as a [uint64_t]; [startRead n] makes at most [n]
    reads, and the theorems hold for every [n] above the number of chunks.
    [reading_terminates] states the loops of TcpClient without fuel ([read_run]) and that
    one read per byte is enough.  Programs of system calls that wait for the kernel (the
    event loop, reading until EAGAIN, writing until done) need not end in the code either:
    when the fuel is used up they are still waiting ([Block]), and the theorems hold for
    every amount of fuel.  For the client's threads the fuel is shown not to be used up
    before as many calls ([fueled]), and [reader_calls] bounds the calls that a finite
    stream leaves the reading thread to make.  A vector holds at most [max_size] elements;
    less memory than that is not modelled.  Sequence numbers may wrap around in the
    definitions; the theorems about the phases assume that they do not.

    ** Not modelled

    The JSON, formatting and logging libraries, which are classes; libpcap; the benchmark, a
    placeholder that uses nothing of the program.  In System the network delivers the bytes
    of a connection in order, a client's writes are taken whole, and the emulator does not
    end. Of the concurrency of the client what its two threads ask of the kernel is
    modelled: their unsynchronised use of the order manager would be a data race, but the
    application sends orders from the reading thread only, and the owner only logs in and
    out. That a thread can be started is assumed. A message struct has the integer of a
    StrongType for a member of such a type. The receive loop of UdpMulticastSocket does not
    hand its datagrams to the client (the call is commented out); [client_parse] is what
    that call would do. By the letter of C++ every OUCH response overruns a local struct by
    two bytes ([response_overruns_struct]) and its copy reads two bytes behind the packet.
    The session theorems hold for every [Platform]: on [cxx_platform], which tolerates
    nothing, the reaction to a response is undefined behaviour ([react]) and they say so;
    on one that tolerates two bytes a session with responses goes on.  Reads are limited to
    [LONGEST_READ] bytes where the copy might otherwise read behind the client's buffer.
    What quill does with a log statement is not modelled ([QUILL_LOG] is a parameter). *)
From stdpp Require Export base tactics list list_numbers gmap fin_maps strings.
From Stdlib Require Export ZArith Lia.

(** ** Automation *)

(** Facts that operations keep are found by [auto with algocor]; lengths of composed byte
    strings are computed by [autorewrite with algocor_bytes]. *)
Create HintDb algocor discriminated.
Create Rewrite HintDb algocor_bytes.
#[export] Hint Rewrite @length_app @length_take @length_drop @length_replicate : algocor_bytes.

(** ** Machine integers *)

Local Open Scope Z_scope.

(** The value an unsigned [w]-bit object holds after [x] is stored in it. *)
Definition wrap (w x : Z) : Z := x `mod` 2 ^ w.

(** The value a signed (two's complement) [w]-bit object holds. *)
Definition to_signed (w x : Z) : Z :=
  let u := wrap w x in if u <? 2 ^ (w - 1) then u else u - 2 ^ w.

Lemma wrap_bound (w x : Z) : 0 ≤ w → 0 ≤ wrap w x < 2 ^ w.
Proof. intros Hw. apply Z.mod_pos_bound, Z.pow_pos_nonneg; lia. Qed.

Lemma wrap_id (w x : Z) : 0 ≤ x < 2 ^ w → wrap w x = x.
Proof. apply Z.mod_small. Qed.

Lemma wrap_wrap (w x : Z) : wrap w (wrap w x) = wrap w x.
Proof. unfold wrap. by rewrite Zmod_mod. Qed.

Lemma wrap_add_l (w x y : Z) : wrap w (wrap w x + y) = wrap w (x + y).
Proof. unfold wrap. by rewrite Zplus_mod_idemp_l. Qed.

Lemma wrap_add_r (w x y : Z) : wrap w (x + wrap w y) = wrap w (x + y).
Proof. unfold wrap. by rewrite Zplus_mod_idemp_r. Qed.

Lemma wrap_mul_l (w x y : Z) : wrap w (wrap w x * y) = wrap w (x * y).
Proof. unfold wrap. by rewrite Zmult_mod_idemp_l. Qed.

Lemma wrap_sub_l (w x y : Z) : wrap w (wrap w x - y) = wrap w (x - y).
Proof. unfold wrap. by rewrite Zminus_mod_idemp_l. Qed.

(** Subtraction below zero borrows exactly one modulus. *)
Lemma wrap_sub_borrow (w x y : Z) :
  0 ≤ x < 2 ^ w → 0 ≤ y < 2 ^ w → x < y → wrap w (x - y) = x - y + 2 ^ w.
Proof.
  intros Hx Hy Hlt. unfold wrap.
  replace (x - y) with ((x - y + 2 ^ w) + (-1) * 2 ^ w) by ring.
  rewrite Z_mod_plus_full. rewrite Z.mod_small; lia.
Qed.

Lemma pow2_half (w : Z) : 0 < w → 2 ^ w = 2 * 2 ^ (w - 1).
Proof. intros Hw. replace w with (Z.succ (w - 1)) at 1 by lia. apply Z.pow_succ_r; lia. Qed.

Lemma to_signed_bound (w x : Z) :
  0 < w → - 2 ^ (w - 1) ≤ to_signed w x < 2 ^ (w - 1).
Proof.
  intros Hw. unfold to_signed. pose proof (wrap_bound w x). pose proof (pow2_half w Hw).
  destruct (Z.ltb_spec (wrap w x) (2 ^ (w - 1))); lia.
Qed.

Lemma to_signed_id (w x : Z) :
  0 < w → - 2 ^ (w - 1) ≤ x < 2 ^ (w - 1) → to_signed w x = x.
Proof.
  intros Hw Hx. unfold to_signed. pose proof (pow2_half w Hw).
  destruct (Z.ltb_spec x 0).
  - replace (wrap w x) with (x + 2 ^ w).
    + destruct (Z.ltb_spec (x + 2 ^ w) (2 ^ (w - 1))); lia.
    + unfold wrap. replace x with ((x + 2 ^ w) + (-1) * 2 ^ w) at 2 by ring.
      rewrite Z_mod_plus_full, Z.mod_small; lia.
  - rewrite wrap_id by lia. destruct (Z.ltb_spec x (2 ^ (w - 1))); lia.
Qed.

Lemma wrap_to_signed (w x : Z) : 0 < w → wrap w (to_signed w x) = wrap w x.
Proof.
  intros Hw. unfold to_signed. destruct (_ <? _); [apply wrap_wrap |].
  unfold wrap. replace (x `mod` 2 ^ w - 2 ^ w) with (x `mod` 2 ^ w + (-1) * 2 ^ w) by ring.
  by rewrite Z_mod_plus_full, Zmod_mod.
Qed.

(** ** Outcomes of C++ code

    Code returns, ends the process ([std::exit]), throws a C++ exception, or has
    undefined behaviour. *)

Inductive undefined :=
  | OutOfBoundsRead
  | OutOfBoundsWrite
  | InvalidIterator
  | NullPointer
  | DanglingReference.

Inductive outcome (A : Type) :=
  | Ret (a : A)
  | Exit (code : Z)
  | Throw (what : string)
  | Undef (why : undefined).
Arguments Ret {_} _.
Arguments Exit {_} _.
Arguments Throw {_} _.
Arguments Undef {_} _.

#[export] Instance outcome_ret : MRet outcome := @Ret.
#[export] Instance outcome_bind : MBind outcome := λ A B f m,
  match m with
  | Ret a => f a
  | Exit c => Exit c
  | Throw e => Throw e
  | Undef u => Undef u
  end.
#[export] Instance outcome_fmap : FMap outcome := λ A B f m,
  match m with
  | Ret a => Ret (f a)
  | Exit c => Exit c
  | Throw e => Throw e
  | Undef u => Undef u
  end.

#[export] Instance undefined_eq_dec : EqDecision undefined.
Proof. solve_decision. Defined.
#[export] Instance outcome_eq_dec {A} `{EqDecision A} : EqDecision (outcome A).
Proof. solve_decision. Defined.

Definition is_ret {A} (m : outcome A) : bool :=
  match m with Ret _ => true | _ => false end.

(** Run the next step of a computation whose first step has returned. *)
Tactic Notation "run_outcome" := cbn [mbind outcome_bind].
Tactic Notation "run_outcome" "in" hyp(H) := cbn [mbind outcome_bind] in H.

Lemma bind_ret_inv {A B} (m : outcome A) (f : A → outcome B) (b : B) :
  m ≫= f = Ret b → ∃ a, m = Ret a ∧ f a = Ret b.
Proof. destruct m; try discriminate. eauto. Qed.

Lemma bind_ret_l {A B} (a : A) (f : A → outcome B) : Ret a ≫= f = f a.
Proof. done. Qed.

Lemma outcome_bind_assoc {A B C} (m : outcome A) (f : A → outcome B) (g : B → outcome C) :
  (m ≫= f) ≫= g = m ≫= (λ a, f a ≫= g).
Proof. by destruct m. Qed.

(** Left-to-right iteration of an effectful step. *)
Fixpoint fold_outcome {A S} (f : S → A → outcome S) (s : S) (l : list A) : outcome S :=
  match l with
  | [] => Ret s
  | x :: l => f s x ≫= λ s', fold_outcome f s' l
  end.

Lemma fold_outcome_app {A S} (f : S → A → outcome S) (s : S) (l k : list A) :
  fold_outcome f s (l ++ k) = fold_outcome f s l ≫= λ s', fold_outcome f s' k.
Proof.
  revert s. induction l as [|x l IH]; intros s; simpl; [done|].
  by destruct (f s x); simpl.
Qed.

(** An invariant that every step keeps holds of every final state. *)
Lemma fold_outcome_invariant_on {A S} (P : S → Prop) (Q : A → Prop) (f : S → A → outcome S) (l : list A) :
  (∀ s x s', P s → Q x → f s x = Ret s' → P s') → Forall Q l →
  ∀ s s', P s → fold_outcome f s l = Ret s' → P s'.
Proof.
  intros Hstep Hl. induction Hl as [|x l Hx _ IH]; intros s s' Hs Hf; simpl in Hf.
  - by simplify_eq.
  - apply bind_ret_inv in Hf as (s1 & H1 & H2). eauto.
Qed.

Lemma fold_outcome_invariant {A S} (P : S → Prop) (f : S → A → outcome S) (l : list A) :
  (∀ s x s', P s → f s x = Ret s' → P s') →
  ∀ s s', P s → fold_outcome f s l = Ret s' → P s'.
Proof. intros Hstep. apply (fold_outcome_invariant_on P (λ _, True)); [eauto | by apply Forall_true]. Qed.

(** Two outcomes with the same failure, or with related results. *)
Definition same_outcome {A B : Type} (R : A → B → Prop) (x : outcome A) (y : outcome B) : Prop :=
  match x, y with
  | Ret a, Ret b => R a b
  | Exit i, Exit j => i = j
  | Throw w, Throw v => w = v
  | Undef w, Undef v => w = v
  | _, _ => False
  end.

Lemma same_outcome_impl {A B : Type} (R S : A → B → Prop) (x : outcome A) (y : outcome B) :
  same_outcome R x y → (∀ a b, R a b → S a b) → same_outcome S x y.
Proof. intros H HRS. destruct x, y; simpl in *; auto. Qed.

(** Steps that keep two states related do so over any list of inputs. *)
Lemma same_outcome_fold {A B S} (R : A → B → Prop) (f : A → S → outcome A) (g : B → S → outcome B)
    (P : S → Prop) (l : list S) (a : A) (b : B) :
  (∀ a b s, R a b → P s → same_outcome R (f a s) (g b s)) → R a b → Forall P l →
  same_outcome R (fold_outcome f a l) (fold_outcome g b l).
Proof.
  intros Hfg Hr Hl. revert a b Hr. induction Hl as [|s l Hs _ IH]; intros a b Hr; [done|].
  cbn [fold_outcome]. specialize (Hfg a b s Hr Hs).
  destruct (f a s), (g b s); simpl in Hfg; try done; cbn [mbind outcome_bind]; [by apply IH | by subst..].
Qed.

Lemma length_concat_nonempty {X} (ls : list (list X)) :
  Forall (λ l, (0 < length l)%nat) ls → (length ls ≤ length (concat ls))%nat.
Proof. induction 1; simpl; [lia|]. rewrite length_app. lia. Qed.

(** ** Weighted sums over a finite map *)

Section map_sum.
Context {K A : Type} `{Countable K}.
Implicit Types (w : K → A → Z) (m : gmap K A).

Definition map_sum w m : Z := map_fold (λ k x acc, w k x + acc) 0 m.

Lemma map_sum_empty w : map_sum w ∅ = 0.
Proof. done. Qed.

Lemma map_sum_insert w m k x :
  m !! k = None → map_sum w (<[k := x]> m) = w k x + map_sum w m.
Proof. intros Hk. unfold map_sum.
  apply (map_fold_insert_L (λ k x acc, w k x + acc)); [intros; lia | done]. Qed.

Lemma map_sum_delete w m k x :
  m !! k = Some x → map_sum w m = w k x + map_sum w (delete k m).
Proof.
  intros Hk. rewrite <- (insert_delete_id m k x Hk) at 1.
  apply map_sum_insert, lookup_delete_eq.
Qed.

Lemma map_sum_update w m k x y :
  m !! k = Some x → map_sum w (<[k := y]> m) = map_sum w m - w k x + w k y.
Proof.
  intros Hk. rewrite <- insert_delete_eq, map_sum_insert by apply lookup_delete_eq.
  rewrite (map_sum_delete w m k x Hk). lia.
Qed.

Lemma map_sum_nonneg w m : (∀ k x, m !! k = Some x → 0 ≤ w k x) → 0 ≤ map_sum w m.
Proof.
  induction m as [|k x m Hk IH] using map_ind; intros Hw; [done|].
  rewrite map_sum_insert by done.
  assert (0 ≤ w k x) by (apply Hw, lookup_insert_eq).
  assert (0 ≤ map_sum w m); [|lia].
  apply IH. intros k' x' Hk'. apply Hw. rewrite lookup_insert_ne; congruence.
Qed.

Lemma map_sum_ge w m k x :
  (∀ k x, m !! k = Some x → 0 ≤ w k x) → m !! k = Some x → w k x ≤ map_sum w m.
Proof.
  intros Hw Hk. rewrite (map_sum_delete w m k x Hk).
  assert (0 ≤ map_sum w (delete k m)); [|lia].
  apply map_sum_nonneg. intros k' x' [? Hk']%lookup_delete_Some. eauto.
Qed.

Lemma map_sum_pos w m :
  (∀ k x, m !! k = Some x → 0 ≤ w k x) → 0 < map_sum w m → ∃ k x, m !! k = Some x ∧ 0 < w k x.
Proof.
  induction m as [|k x m Hk IH] using map_ind; intros Hw Hpos; [done|].
  rewrite map_sum_insert in Hpos by done.
  destruct (Z.ltb_spec 0 (w k x)); [exists k, x; by rewrite lookup_insert_eq|].
  destruct IH as (k' & x' & Hk' & ?); [|lia|].
  - intros k' x' Hk'. apply Hw. rewrite lookup_insert_ne; congruence.
  - exists k', x'. rewrite lookup_insert_ne; [done | congruence].
Qed.
End map_sum.
