(* ===== verification/Bytes.v ===== *)
(** * Bytes and host memory

    The code runs on a little-endian host (it includes <immintrin.h>), receives
    big-endian network data, overlays packed structs on it and byte-swaps fields with
    the functions of <endian.h>.  This file models a byte, the little-endian loads and
    stores of integer objects, [be16toh] and its siblings, and bounds-checked reads of
    memory, where a read outside the object is undefined behaviour. *)
From S2P Require Import Prelude.
From Stdlib Require Export Strings.Byte.
Local Open Scope Z_scope.

#[export] Instance byte_eq_dec : EqDecision byte := Byte.byte_eq_dec.

(** ** One byte *)

(** The value of an [unsigned char] and of a (signed) [char]. *)
Definition u8 (b : byte) : Z := Z.of_N (Byte.to_N b).
Definition i8 (b : byte) : Z := to_signed 8 (u8 b).

(** The byte that stores the low eight bits of [z]. *)
Definition byte_of_Z (z : Z) : byte :=
  default x00 (Byte.of_N (Z.to_N (wrap 8 z))).

Lemma u8_bound (b : byte) : 0 ≤ u8 b < 256.
Proof. unfold u8. pose proof (Byte.to_N_bounded b). lia. Qed.

Lemma u8_inj (a b : byte) : u8 a = u8 b → a = b.
Proof.
  unfold u8. intros H%N2Z.inj. pose proof (Byte.of_to_N a) as Ha.
  rewrite H, Byte.of_to_N in Ha. by simplify_eq.
Qed.

Lemma u8_byte_of_Z (z : Z) : u8 (byte_of_Z z) = z `mod` 256.
Proof.
  unfold byte_of_Z, u8. pose proof (wrap_bound 8 z ltac:(lia)) as Hb.
  destruct (Byte.of_N (Z.to_N (wrap 8 z))) as [b|] eqn:E.
  - apply Byte.to_of_N in E. simpl. rewrite E, Z2N.id; [done | lia].
  - apply Byte.of_N_None_iff in E. change (2 ^ 8) with 256 in Hb. lia.
Qed.

Lemma byte_of_Z_u8 (b : byte) : byte_of_Z (u8 b) = b.
Proof. apply u8_inj. rewrite u8_byte_of_Z. apply Z.mod_small, u8_bound. Qed.

#[export] Instance byte_countable : Countable byte := inj_countable' u8 byte_of_Z byte_of_Z_u8.

(** ** Integer objects in little-endian memory *)

Fixpoint le_load (bs : list byte) : Z :=
  match bs with
  | [] => 0
  | b :: bs => u8 b + 256 * le_load bs
  end.

Fixpoint le_store (n : nat) (z : Z) : list byte :=
  match n with
  | O => []
  | S n => byte_of_Z z :: le_store n (z / 256)
  end.

Abbreviation bytes_modulus n := (256 ^ Z.of_nat n).

Lemma bytes_modulus_S (n : nat) : bytes_modulus (S n) = 256 * bytes_modulus n.
Proof. rewrite Nat2Z.inj_succ, Z.pow_succ_r; lia. Qed.

Lemma bytes_modulus_pos (n : nat) : 0 < bytes_modulus n.
Proof. apply Z.pow_pos_nonneg; lia. Qed.

Lemma length_le_store (n : nat) (z : Z) : length (le_store n z) = n.
Proof. revert z. induction n as [|n IH]; intros z; simpl; [done | by rewrite IH]. Qed.

Lemma le_load_bound (bs : list byte) : 0 ≤ le_load bs < bytes_modulus (length bs).
Proof.
  induction bs as [|b bs IH]; [by cbn |].
  cbn [le_load length]. rewrite bytes_modulus_S. pose proof (u8_bound b). lia.
Qed.

Lemma le_load_store (n : nat) (z : Z) : le_load (le_store n z) = z `mod` bytes_modulus n.
Proof.
  revert z. induction n as [|n IH]; intros z.
  - simpl. by rewrite Z.mod_1_r.
  - cbn [le_load le_store]. rewrite IH, u8_byte_of_Z, bytes_modulus_S.
    pose proof (bytes_modulus_pos n). rewrite Z.rem_mul_r by lia. lia.
Qed.

Lemma le_store_load (bs : list byte) : le_store (length bs) (le_load bs) = bs.
Proof.
  induction bs as [|b bs IH]; [done|]. cbn [le_load le_store length].
  pose proof (u8_bound b). rewrite (Z.mul_comm 256), Z.div_add by lia.
  rewrite (Z.div_small (u8 b)) by lia. rewrite Z.add_0_l, IH. f_equal.
  apply u8_inj. rewrite u8_byte_of_Z, Z.mod_add by lia. by apply Z.mod_small.
Qed.

Lemma le_load_inj (a b : list byte) : length a = length b → le_load a = le_load b → a = b.
Proof. intros Hl H. by rewrite <- (le_store_load a), Hl, H, le_store_load. Qed.

(** ** Network byte order *)

(** The number a big-endian field holds. *)
Definition be_load (bs : list byte) : Z := foldl (λ acc b, acc * 256 + u8 b) 0 bs.
Definition be_store (n : nat) (z : Z) : list byte := rev (le_store n z).

Lemma be_load_snoc (bs : list byte) (b : byte) : be_load (bs ++ [b]) = be_load bs * 256 + u8 b.
Proof. unfold be_load. by rewrite foldl_app. Qed.

Lemma be_load_rev (bs : list byte) : be_load (rev bs) = le_load bs.
Proof.
  induction bs as [|b bs IH]; [done|]. cbn [rev le_load]. rewrite be_load_snoc, IH. ring.
Qed.

Lemma be_load_le (bs : list byte) : be_load bs = le_load (rev bs).
Proof. by rewrite <- be_load_rev, rev_involutive. Qed.

Lemma be_load_bound (bs : list byte) : 0 ≤ be_load bs < bytes_modulus (length bs).
Proof. rewrite be_load_le. pose proof (le_load_bound (rev bs)) as H. by rewrite length_rev in H. Qed.

Lemma length_be_store (n : nat) (z : Z) : length (be_store n z) = n.
Proof. unfold be_store. by rewrite length_rev, length_le_store. Qed.

Lemma be_load_store (n : nat) (z : Z) : be_load (be_store n z) = z `mod` bytes_modulus n.
Proof. unfold be_store. by rewrite be_load_rev, le_load_store. Qed.

Lemma be_store_load (bs : list byte) : be_store (length bs) (be_load bs) = bs.
Proof.
  unfold be_store. rewrite be_load_le, <- (length_rev bs), le_store_load. apply rev_involutive.
Qed.

(** Byte reversal of an [n]-byte integer. *)
Definition bswap (n : nat) (x : Z) : Z := le_load (rev (le_store n x)).

(** <endian.h> on a little-endian host; each function truncates its argument to its
    own width, as the conversion to its parameter type does. *)
Definition be16toh : Z → Z := bswap 2.
Definition be32toh : Z → Z := bswap 4.
Definition be64toh : Z → Z := bswap 8.
Definition htobe16 : Z → Z := bswap 2.
Definition htobe64 : Z → Z := bswap 8.

Lemma bswap_bound (n : nat) (x : Z) : 0 ≤ bswap n x < bytes_modulus n.
Proof.
  unfold bswap. pose proof (le_load_bound (rev (le_store n x))) as H.
  by rewrite length_rev, length_le_store in H.
Qed.

(** Swapping a field loaded from network memory yields the big-endian number. *)
Lemma bswap_le_load (n : nat) (bs : list byte) : length bs = n → bswap n (le_load bs) = be_load bs.
Proof. intros <-. unfold bswap. by rewrite le_store_load, be_load_le. Qed.

(** Storing a swapped number writes its big-endian bytes. *)
Lemma le_store_bswap (n : nat) (x : Z) : le_store n (bswap n x) = be_store n x.
Proof.
  unfold bswap, be_store. rewrite <- (le_store_load (rev (le_store n x))) at 2.
  by rewrite length_rev, length_le_store.
Qed.

Lemma bswap_involutive (n : nat) (x : Z) : bswap n (bswap n x) = x `mod` bytes_modulus n.
Proof.
  unfold bswap at 1. rewrite le_store_bswap. unfold be_store.
  by rewrite rev_involutive, le_load_store.
Qed.

(** Swapped numbers are equal only if the objects are. *)
Lemma bswap_store_inj (n : nat) (x y : Z) : bswap n x = bswap n y → le_store n x = le_store n y.
Proof.
  unfold bswap. intros H. apply le_load_inj in H; [|by rewrite !length_rev, !length_le_store].
  by rewrite <- (rev_involutive (le_store n x)), H, rev_involutive.
Qed.

(** A swapped number of at most eight bytes fits into 64 bits. *)
Lemma bswap_u64 (n : nat) (x : Z) : (n ≤ 8)%nat → 0 ≤ bswap n x < 2 ^ 64.
Proof.
  intros Hn. pose proof (bswap_bound n x) as [H1 H2]. split; [done|].
  eapply Z.lt_le_trans; [exact H2|]. change (2 ^ 64) with (256 ^ 8). apply Z.pow_le_mono_r; lia.
Qed.

Lemma bswap_swap (n : nat) (x : Z) : 0 ≤ x < bytes_modulus n → bswap n (bswap n x) = x.
Proof. intros H. rewrite bswap_involutive. by apply Z.mod_small. Qed.

(** ** Reading memory

    [mem] is the object a pointer points into, from that pointer to the end of the
    object. *)
Definition slice (off n : nat) (mem : list byte) : list byte := take n (drop off mem).

Definition read_mem (off n : nat) (mem : list byte) : outcome (list byte) :=
  if (off + n <=? length mem)%nat then Ret (slice off n mem) else Undef OutOfBoundsRead.

Lemma length_slice (off n : nat) (mem : list byte) :
  (off + n ≤ length mem)%nat → length (slice off n mem) = n.
Proof. intros H. unfold slice. rewrite length_take, length_drop. lia. Qed.

Lemma read_mem_ok (off n : nat) (mem : list byte) :
  (off + n ≤ length mem)%nat → read_mem off n mem = Ret (slice off n mem).
Proof. intros H. unfold read_mem. by rewrite (proj2 (Nat.leb_le _ _) H). Qed.

Lemma read_mem_ret (off n : nat) (mem bs : list byte) :
  read_mem off n mem = Ret bs → (off + n ≤ length mem)%nat ∧ bs = slice off n mem.
Proof.
  unfold read_mem. destruct (Nat.leb_spec (off + n) (length mem)); intros ?; by simplify_eq.
Qed.

Lemma slice_app_l (off n : nat) (a b : list byte) :
  (off + n ≤ length a)%nat → slice off n (a ++ b) = slice off n a.
Proof.
  intros H. unfold slice. rewrite drop_app_le by lia. rewrite take_app_le; [done|].
  rewrite length_drop. lia.
Qed.

Lemma slice_app_r (off n : nat) (a b : list byte) :
  (length a ≤ off)%nat → slice off n (a ++ b) = slice (off - length a) n b.
Proof. intros H. unfold slice. by rewrite drop_app_ge. Qed.

Lemma slice_all (mem : list byte) : slice 0 (length mem) mem = mem.
Proof. unfold slice. by rewrite drop_0, firstn_all. Qed.

(** Overwrite the bytes of an object from offset [off]. *)
Definition splice (off : nat) (new mem : list byte) : list byte :=
  take off mem ++ new ++ drop (off + length new) mem.

Lemma length_splice (off : nat) (new mem : list byte) :
  (off + length new ≤ length mem)%nat → length (splice off new mem) = length mem.
Proof. intros H. unfold splice. rewrite !length_app, length_take, length_drop. lia. Qed.

Lemma slice_splice (off : nat) (new mem : list byte) :
  (off + length new ≤ length mem)%nat → slice off (length new) (splice off new mem) = new.
Proof.
  intros H. unfold slice, splice. rewrite drop_app_ge; rewrite length_take; [|lia].
  replace (off - off `min` length mem)%nat with 0%nat by lia.
  rewrite drop_0, take_app_le by lia. apply firstn_all.
Qed.

#[export] Hint Rewrite length_le_store length_be_store be_load_store le_load_store : algocor_bytes.
