(* ===== verification/Digits.v ===== *)
(** * Decimal digits

    Characters as digits, the number a string of digits denotes, and [std::to_string] of
    an unsigned number, as the order tokens, the login request and the stream operators
    use them. *)
From S2P Require Import Prelude Bytes.
Local Open Scope Z_scope.

(** ['0' + d] stored in a [char]. *)
Definition digit (d : Z) : byte := byte_of_Z (48 + d).

(** [c - '0'] as an [int]. *)
Definition digit_value (c : byte) : Z := i8 c - 48.

Definition is_digit (c : byte) : Prop := 48 ≤ u8 c ≤ 57.
#[export] Instance is_digit_dec (c : byte) : Decision (is_digit c).
Proof. unfold is_digit. apply _. Defined.

(** The number a string of digits denotes. *)
Fixpoint value (t : list byte) : Z :=
  match t with
  | [] => 0
  | c :: t => digit_value c * 10 ^ Z.of_nat (length t) + value t
  end.

Lemma digit_value_bound (c : byte) : is_digit c → 0 ≤ digit_value c ≤ 9 ∧ digit_value c = u8 c - 48.
Proof.
  unfold is_digit, digit_value, i8. intros H. rewrite to_signed_id by lia. lia.
Qed.

Lemma digit_value_digit (d : Z) : 0 ≤ d ≤ 9 → digit_value (digit d) = d ∧ is_digit (digit d).
Proof.
  intros H. unfold is_digit, digit_value, i8, digit. rewrite u8_byte_of_Z, Z.mod_small by lia.
  rewrite to_signed_id by lia. lia.
Qed.

Lemma digit_nine (c : byte) : is_digit c → Byte.eqb c "9" = (digit_value c =? 9).
Proof.
  intros Hc. destruct (digit_value_bound c Hc) as [_ Hv]. rewrite Hv.
  destruct (Byte.eqb c "9") eqn:E.
  - apply Byte.byte_dec_bl in E as ->. done.
  - symmetry. apply Z.eqb_neq. intros Hu. assert (c = "9"%byte) as -> by (apply u8_inj; change (u8 "9") with 57; lia).
    done.
Qed.

Lemma pow10_S (n : nat) : 10 ^ Z.of_nat (S n) = 10 * 10 ^ Z.of_nat n.
Proof. rewrite Nat2Z.inj_succ, Z.pow_succ_r; lia. Qed.

Lemma pow10_pos (n : nat) : 0 < 10 ^ Z.of_nat n.
Proof. apply Z.pow_pos_nonneg; lia. Qed.

Lemma value_bound (t : list byte) : Forall is_digit t → 0 ≤ value t < 10 ^ Z.of_nat (length t).
Proof.
  induction 1 as [|c t Hc _ IH]; [done|]. cbn [value length]. rewrite pow10_S.
  destruct (digit_value_bound c Hc) as [? _]. nia.
Qed.

Lemma value_app (t u : list byte) : value (t ++ u) = value t * 10 ^ Z.of_nat (length u) + value u.
Proof.
  induction t as [|c t IH]; [done|]. cbn [app value]. rewrite IH, length_app, Nat2Z.inj_add, Z.pow_add_r by lia.
  ring.
Qed.

(** Folding digits into a [w]-bit unsigned integer gives the value modulo [2 ^ w]. *)
Lemma fold_digits (w : Z) (t : list byte) (acc : Z) :
  foldl (λ x c, wrap w (x * 10 + digit_value c)) (wrap w acc) t =
    wrap w (acc * 10 ^ Z.of_nat (length t) + value t).
Proof.
  revert acc. induction t as [|c t IH]; intros acc.
  - cbn [foldl value length]. change (10 ^ Z.of_nat 0) with 1. f_equal. ring.
  - cbn [foldl value length]. rewrite <- (wrap_add_l w (wrap w acc * 10)), wrap_mul_l, wrap_add_l, IH, pow10_S.
    f_equal. ring.
Qed.

(** [std::to_string] of an unsigned number below [10 ^ fuel]. *)
Fixpoint to_string_loop (fuel : nat) (z : Z) (acc : list byte) : list byte :=
  match fuel with
  | O => acc
  | S fuel => if z <? 10 then digit z :: acc else to_string_loop fuel (z / 10) (digit (z `mod` 10) :: acc)
  end.
Definition to_string (z : Z) : list byte := to_string_loop 20 z [].

(** ** The digits of a number *)

Lemma to_string_loop_app (fuel : nat) (z : Z) (acc : list byte) :
  to_string_loop fuel z acc = to_string_loop fuel z [] ++ acc.
Proof.
  revert z acc. induction fuel as [|fuel IH]; intros z acc; [done|]. cbn [to_string_loop].
  destruct (z <? 10); [done|]. rewrite IH, (IH _ [_]), <- (assoc_L (++)). done.
Qed.

(** With enough fuel the loop writes the digits of the number, at least one of them. *)
Lemma to_string_loop_value (fuel : nat) (z : Z) :
  0 ≤ z < 10 ^ Z.of_nat (S fuel) →
  Forall is_digit (to_string_loop (S fuel) z []) ∧ value (to_string_loop (S fuel) z []) = z ∧
  to_string_loop (S fuel) z [] ≠ [].
Proof.
  revert z. induction fuel as [|fuel IH]; intros z Hz; cbn [to_string_loop]; destruct (Z.ltb_spec z 10) as [H|H].
  - destruct (digit_value_digit z) as [Hd Hd']; [lia|]. split_and!; [by constructor | cbn; lia | done].
  - change (10 ^ Z.of_nat 1) with 10 in Hz. lia.
  - destruct (digit_value_digit z) as [Hd Hd']; [lia|]. split_and!; [by constructor | cbn; lia | done].
  - change (if z / 10 <? 10 then _ else _) with (to_string_loop (S fuel) (z / 10) [digit (z `mod` 10)]).
    rewrite to_string_loop_app. rewrite (pow10_S (S fuel)) in Hz.
    pose proof (Z.mod_pos_bound z 10 ltac:(lia)).
    destruct (digit_value_digit (z `mod` 10)) as [Hd Hd']; [lia|].
    destruct (IH (z / 10)) as (Hf & Hv & Hn).
    { split; [apply Z.div_pos; lia | apply Z.div_lt_upper_bound; lia]. }
    split_and!; [apply Forall_app; split; [done | by constructor] | | by destruct (to_string_loop _ _ [])].
    rewrite value_app, Hv. cbn [value length]. rewrite Hd. change (10 ^ Z.of_nat 1) with 10.
    change (10 ^ Z.of_nat 0) with 1. pose proof (Z.div_mod z 10). lia.
Qed.

Lemma to_string_value (z : Z) :
  0 ≤ z < 2 ^ 64 → Forall is_digit (to_string z) ∧ value (to_string z) = z ∧ to_string z ≠ [].
Proof. intros H. apply (to_string_loop_value 19). change (10 ^ Z.of_nat 20) with 100000000000000000000. lia. Qed.
