(* ===== verification/Codec.v ===== *)
(** * Codecs: packed structs as fields over memory

    A packed C++ struct is read by overlaying it on a byte buffer and written by copying
    its object representation.  A [codec] packs the two directions with the size of the
    struct and the range of values its fields can hold; [CodecLaws] says that both
    directions are inverse to each other on those values, so that the codec is a
    bijection between the values in range and the byte strings of the right size.
    Struct codecs are built from field codecs by pairing and by an isomorphism between
    the nested pair and the record, and type class resolution proves their laws. *)
From S2P Require Import Prelude Bytes.
Local Open Scope Z_scope.

Record codec (A : Type) := Codec {
  c_size : nat;
  c_enc : A → list byte;
  c_dec : list byte → option A;
  c_ok : A → bool;
}.
Arguments Codec {_} _ _ _ _.
Arguments c_size {_} _.
Arguments c_enc {_} _ _.
Arguments c_dec {_} _ _.
Arguments c_ok {_} _ _.

Class CodecLaws {A} (c : codec A) : Prop := {
  enc_length (a : A) : c_ok c a = true → length (c_enc c a) = c_size c;
  dec_enc (a : A) : c_ok c a = true → c_dec c (c_enc c a) = Some a;
  dec_total (bs : list byte) : length bs = c_size c → is_Some (c_dec c bs);
  dec_inv (bs : list byte) (a : A) :
    c_dec c bs = Some a → length bs = c_size c ∧ c_ok c a = true ∧ c_enc c a = bs;
}.

(** ** Field codecs *)

(** An unsigned integer object of [n] bytes. *)
Definition uint (n : nat) : codec Z := Codec n
  (le_store n)
  (λ bs, if (length bs =? n)%nat then Some (le_load bs) else None)
  (λ z, (0 <=? z) && (z <? bytes_modulus n)).

(** A signed (two's complement) integer object of [n] bytes. *)
Definition sint (n : nat) : codec Z := Codec n
  (le_store n)
  (λ bs, if (length bs =? n)%nat then Some (to_signed (8 * Z.of_nat n) (le_load bs)) else None)
  (λ z, to_signed (8 * Z.of_nat n) z =? z).

(** One [char], or an enumeration whose underlying type has one byte. *)
Definition char1 : codec byte := Codec 1
  (λ b, [b])
  (λ bs, match bs with [b] => Some b | _ => None end)
  (λ _, true).

(** A [std::array<char, n>]. *)
Definition chars (n : nat) : codec (list byte) := Codec n
  (λ bs, bs)
  (λ bs, if (length bs =? n)%nat then Some bs else None)
  (λ bs, (length bs =? n)%nat).

(** Two members in a row, without padding. *)
Definition pairc {A B} (ca : codec A) (cb : codec B) : codec (A * B) := Codec
  (c_size ca + c_size cb)
  (λ ab, c_enc ca ab.1 ++ c_enc cb ab.2)
  (λ bs, a ← c_dec ca (take (c_size ca) bs); b ← c_dec cb (drop (c_size ca) bs); Some (a, b))
  (λ ab, c_ok ca ab.1 && c_ok cb ab.2).

(** A record as the tuple of its fields. *)
Definition isoc {A B} (c : codec A) (f : A → B) (g : B → A) : codec B := Codec
  (c_size c)
  (λ b, c_enc c (g b))
  (λ bs, f <$> c_dec c bs)
  (λ b, c_ok c (g b)).

Infix "⊗" := pairc (at level 60, right associativity).

#[export] Instance uint_laws (n : nat) : CodecLaws (uint n).
Proof.
  split; simpl.
  - intros a _. apply length_le_store.
  - intros a Ha. rewrite length_le_store, Nat.eqb_refl, le_load_store, Z.mod_small; [done | lia].
  - intros bs ->. rewrite Nat.eqb_refl. by eexists.
  - intros bs a H. destruct (Nat.eqb_spec (length bs) n) as [<-|]; simplify_eq.
    pose proof (le_load_bound bs). rewrite le_store_load. split_and!; [done | lia | done].
Qed.

(** A swapped number is in the range of its object. *)
Lemma uint_ok_bswap (n : nat) (x : Z) : c_ok (uint n) (bswap n x) = true.
Proof.
  cbn [c_ok uint]. rewrite andb_true_iff, Z.leb_le, Z.ltb_lt. apply bswap_bound.
Qed.

Lemma bytes_modulus_pow2 (n : nat) : bytes_modulus n = 2 ^ (8 * Z.of_nat n).
Proof. rewrite Z.pow_mul_r by lia. done. Qed.

Lemma le_store_mod (n : nat) (x y : Z) :
  x `mod` bytes_modulus n = y `mod` bytes_modulus n → le_store n x = le_store n y.
Proof.
  intros H. apply le_load_inj; rewrite ?length_le_store; [done|]. by rewrite !le_load_store.
Qed.

Lemma le_store_to_signed (n : nat) (x : Z) :
  (0 < n)%nat → le_store n (to_signed (8 * Z.of_nat n) x) = le_store n x.
Proof.
  intros Hn. apply le_store_mod. rewrite bytes_modulus_pow2.
  apply (wrap_to_signed (8 * Z.of_nat n) x). lia.
Qed.

Lemma to_signed_mod (w x y : Z) : wrap w x = wrap w y → to_signed w x = to_signed w y.
Proof. unfold to_signed. by intros ->. Qed.

Lemma sint_ok (n : nat) (z : Z) : c_ok (sint (S n)) (to_signed (8 * Z.of_nat (S n)) z) = true.
Proof. apply Z.eqb_eq, to_signed_mod, wrap_to_signed. lia. Qed.

(** A signed 32-bit member that holds a number in network byte order. *)
Lemma be32_signed (px : Z) : be32toh (to_signed 32 (be32toh px)) = px `mod` 2 ^ 32.
Proof.
  unfold be32toh, bswap. rewrite (le_store_to_signed 4) by lia. apply (bswap_involutive 4).
Qed.

#[export] Instance sint_laws (n : nat) : CodecLaws (sint (S n)).
Proof.
  unfold sint. set (w := 8 * Z.of_nat (S n)). assert (0 < w) by lia.
  assert (Hw : bytes_modulus (S n) = 2 ^ w) by apply bytes_modulus_pow2.
  split; cbn [c_size c_enc c_dec c_ok].
  - intros a _. apply length_le_store.
  - intros a Ha%Z.eqb_eq. rewrite length_le_store, Nat.eqb_refl, le_load_store, Hw.
    f_equal. rewrite <- Ha at 2. apply to_signed_mod, wrap_wrap.
  - intros bs ->. rewrite Nat.eqb_refl. by eexists.
  - intros bs a H'. destruct (Nat.eqb_spec (length bs) (S n)) as [Hl|]; simplify_eq.
    split_and!; [done | |].
    + apply Z.eqb_eq, to_signed_mod, wrap_to_signed. done.
    + unfold w. rewrite le_store_to_signed by lia. rewrite <- Hl. apply le_store_load.
Qed.

#[export] Instance char1_laws : CodecLaws char1.
Proof.
  split; simpl; try done.
  - intros [|b [|]] ?; [done | by eexists | done].
  - intros [|b [|]] a ?; by simplify_eq.
Qed.

#[export] Instance chars_laws (n : nat) : CodecLaws (chars n).
Proof.
  split; simpl.
  - intros a Ha. by apply Nat.eqb_eq.
  - intros a ->. done.
  - intros bs ->. rewrite Nat.eqb_refl. by eexists.
  - intros bs a H. destruct (Nat.eqb_spec (length bs) n) as [<-|]; simplify_eq.
    by rewrite Nat.eqb_refl.
Qed.

#[export] Instance pairc_laws {A B} (ca : codec A) (cb : codec B) :
  CodecLaws ca → CodecLaws cb → CodecLaws (ca ⊗ cb).
Proof.
  intros La Lb. split; simpl.
  - intros [a b] [Ha Hb]%andb_true_iff. simpl in *. rewrite length_app. by rewrite !enc_length.
  - intros [a b] [Ha Hb]%andb_true_iff. simpl in *.
    rewrite take_app_length', drop_app_length' by (symmetry; by apply enc_length).
    by rewrite !dec_enc.
  - intros bs Hl.
    destruct (dec_total (c:=ca) (take (c_size ca) bs)) as [a ->]; [rewrite length_take; lia|].
    destruct (dec_total (c:=cb) (drop (c_size ca) bs)) as [b ->]; [rewrite length_drop; lia|].
    by eexists.
  - intros bs [a b] H.
    destruct (c_dec ca _) as [a'|] eqn:Ha; simpl in H; [|done].
    destruct (c_dec cb _) as [b'|] eqn:Hb; simpl in H; [|done]. simplify_eq.
    apply dec_inv in Ha as (Hla & Hoa & Hea). apply dec_inv in Hb as (Hlb & Hob & Heb).
    rewrite length_take in Hla. rewrite length_drop in Hlb. simpl.
    rewrite Hoa, Hob, Hea, Heb, take_drop. split_and!; [lia | done | done].
Qed.

Lemma isoc_laws {A B} (c : codec A) (f : A → B) (g : B → A) :
  CodecLaws c → (∀ a, g (f a) = a) → (∀ b, f (g b) = b) → CodecLaws (isoc c f g).
Proof.
  intros L Hgf Hfg. split; simpl.
  - intros b Hb. by apply enc_length.
  - intros b Hb. rewrite dec_enc by done. simpl. by rewrite Hfg.
  - intros bs [a ->]%dec_total. by eexists.
  - intros bs b H. apply fmap_Some in H as (a & Ha & ->). rewrite Hgf. by apply dec_inv.
Qed.

(** Laws of a struct codec: the field codecs' laws and record eta. *)
Ltac solve_codec := apply isoc_laws; [apply _ | by intros; destr_tuple | by intros []]
with destr_tuple := repeat match goal with p : (_ * _)%type |- _ => destruct p end; reflexivity.

(** Projections of a decoded pair: the first member is decoded from the first bytes, the
    rest from what follows them. *)
Lemma pairc_dec_inv {A B} (ca : codec A) (cb : codec B) (bs : list byte) (a : A) (b : B) :
  c_dec (ca ⊗ cb) bs = Some (a, b) →
  c_dec ca (take (c_size ca) bs) = Some a ∧ c_dec cb (drop (c_size ca) bs) = Some b.
Proof.
  simpl. intros H. destruct (c_dec ca _) eqn:Ha; simpl in H; [|done].
  destruct (c_dec cb _) eqn:Hb; simpl in H; by simplify_eq.
Qed.

(** Read a struct at an offset of an object, as [reinterpret_cast] followed by reads of
    all its members does. *)
Definition overlay {A} (c : codec A) (off : nat) (mem : list byte) : outcome A :=
  bs ← read_mem off (c_size c) mem;
  match c_dec c bs with
  | Some a => Ret a
  | None => Undef OutOfBoundsRead
  end.

Lemma overlay_enc {A} (c : codec A) `{!CodecLaws c} (a : A) (pre post : list byte) :
  c_ok c a = true → overlay c (length pre) (pre ++ c_enc c a ++ post) = Ret a.
Proof.
  intros Ha. unfold overlay. rewrite read_mem_ok.
  2: { rewrite !length_app, enc_length by done. lia. }
  rewrite slice_app_r, Nat.sub_diag, slice_app_l by (rewrite ?enc_length; done || lia).
  rewrite <- (enc_length a Ha), slice_all. simpl. by rewrite dec_enc.
Qed.

Lemma overlay_total {A} (c : codec A) `{!CodecLaws c} (off : nat) (mem : list byte) :
  (off + c_size c ≤ length mem)%nat →
  ∃ a, overlay c off mem = Ret a ∧ c_dec c (slice off (c_size c) mem) = Some a.
Proof.
  intros H. unfold overlay. rewrite read_mem_ok by done.
  destruct (dec_total (c:=c) (slice off (c_size c) mem)) as [a Ha]; [by apply length_slice|].
  exists a. split; [|done]. simpl. by rewrite Ha.
Qed.

Lemma overlay_undef {A} (c : codec A) (off : nat) (mem : list byte) :
  (length mem < off + c_size c)%nat → overlay c off mem = Undef OutOfBoundsRead.
Proof.
  intros H. unfold overlay, read_mem. by rewrite (proj2 (Nat.leb_gt _ _) H).
Qed.

(** ** Fields of a nested pair *)

(** A codec reads its members at increasing offsets of the buffer. *)
Lemma dec_slice_pairc {A B} (ca : codec A) (cb : codec B) (off : nat) (bs : list byte) (ab : A * B) :
  c_dec (ca ⊗ cb) (drop off bs) = Some ab →
  c_dec ca (slice off (c_size ca) bs) = Some ab.1 ∧
  c_dec cb (drop (off + c_size ca)%nat bs) = Some ab.2.
Proof.
  destruct ab as [a b]. intros [Ha Hb]%pairc_dec_inv. by rewrite drop_drop in Hb.
Qed.

Lemma dec_isoc {A B} (c : codec A) (f : A → B) (g : B → A) (bs : list byte) (b : B) :
  c_dec (isoc c f g) bs = Some b → ∃ a, c_dec c bs = Some a ∧ b = f a.
Proof. simpl. intros (a & Ha & ->)%fmap_Some. eauto. Qed.

Lemma dec_uint (n : nat) (bs : list byte) (z : Z) :
  c_dec (uint n) bs = Some z → z = le_load bs ∧ bswap n z = be_load bs.
Proof.
  simpl. intros H. destruct (Nat.eqb_spec (length bs) n); [|done]. simplify_eq.
  by rewrite bswap_le_load.
Qed.

Lemma dec_sint (n : nat) (bs : list byte) (z : Z) :
  (0 < n)%nat → c_dec (sint n) bs = Some z → bswap n z = be_load bs.
Proof.
  simpl. intros Hn H. destruct (Nat.eqb_spec (length bs) n); [|done]. simplify_eq.
  unfold bswap. rewrite le_store_to_signed by done. apply (bswap_le_load (length bs) bs eq_refl).
Qed.

Lemma dec_char1 (off : nat) (bs : list byte) (b : byte) :
  c_dec char1 (slice off 1 bs) = Some b → bs !! off = Some b.
Proof.
  unfold slice. destruct (drop off bs) as [|c l] eqn:E; intros H; simpl in H; simplify_eq.
  by rewrite <- (Nat.add_0_r off), <- lookup_drop, E.
Qed.

Lemma dec_chars (n : nat) (bs a : list byte) : c_dec (chars n) bs = Some a → a = bs.
Proof. simpl. intros H. by destruct (length bs =? n)%nat; simplify_eq. Qed.

Lemma slice_to_end (off n : nat) (bs : list byte) :
  length (drop off bs) = n → drop off bs = slice off n bs.
Proof. intros <-. unfold slice. by rewrite firstn_all. Qed.

(** Peel the members off a decoded struct; the last one fills the rest of the buffer. *)
Ltac peel_members H :=
  lazymatch type of H with
  | c_dec (_ ⊗ _) (drop _ _) = Some _ =>
      let Ha := fresh "Hm" in
      apply dec_slice_pairc in H as [Ha H]; peel_members H
  | c_dec _ (drop _ _) = Some _ =>
      rewrite (slice_to_end _ _ _ (proj1 (dec_inv _ _ H))) in H
  end.

(** A statement about one member, from the hypothesis that decoded it. *)
Ltac read_member :=
  match goal with
  | H : c_dec _ _ = Some ?z |- _ !! _ = Some ?z => exact (dec_char1 _ _ _ H)
  | H : c_dec _ _ = Some ?z |- _ ?z = be_load _ => exact (proj2 (dec_uint _ _ _ H))
  | H : c_dec _ _ = Some ?z |- _ ?z = be_load _ => exact (dec_sint _ _ _ (Nat.lt_0_succ _) H)
  | H : c_dec _ _ = Some ?z |- ?z = slice _ _ _ => exact (dec_chars _ _ _ H)
  end.

(** Solve a layout statement: the size of the struct, then every member in turn. *)
Ltac struct_layout :=
  let Hd := fresh "Hd" in
  let Hp := fresh "Hp" in
  let p := fresh "p" in
  intros Hd;
  split; [exact (proj1 (dec_inv _ _ Hd))|];
  apply dec_isoc in Hd as (p & Hp & ->);
  rewrite <- (drop_0 _) in Hp;
  peel_members Hp;
  repeat match goal with q : (_ * _)%type |- _ => destruct q end;
  cbn [fst snd] in *;
  repeat match goal with |- _ ∧ _ => split end; read_member.
