(* ===== verification/Types.v ===== *)
(** * Wire types

    Models lib/types.hpp, lib/strong_type.hpp, lib/constants.hpp,
    lib/protocol/ouch/ouch_types.hpp and lib/protocol/soupbintcp/soupbintcp_types.hpp:
    the enumerations with their codes, and the codecs of the strong integer types and
    character arrays that packed structs are made of.  An enumeration of namespace
    [algocor] keeps its name, one of [protocol::ouch] gets the prefix Ouch.  A struct
    member of an enumeration type holds whatever byte was received ([reinterpret_cast]
    and [memcpy] do not validate it), so in the messages such a member is a [byte] and
    [of_code] is the partial conversion back. *)
From S2P Require Import Prelude Bytes Codec.
Local Open Scope Z_scope.

(** ** Enumerations *)

(** A C++ scoped enumeration: its underlying integer type, its enumerators and the
    integer each stands for. *)
Class CxxEnum (E : Type) := {
  underlying_size : nat;
  underlying_signed : bool;
  code : E → Z;
  enumerators : list E;
}.
#[global] Hint Mode CxxEnum ! : typeclass_instances.

(** The enumerator with a given code: the first one declared. *)
Definition of_code {E} `{CxxEnum E} (z : Z) : option E :=
  List.find (λ e, code e =? z) enumerators.

(** The value is in the range of the underlying type. *)
Definition code_fits (size : nat) (signed : bool) (z : Z) : bool :=
  if signed then to_signed (8 * Z.of_nat size) z =? z
  else (0 <=? z) && (z <? bytes_modulus size).

(** Well-formed: every enumerator is listed and representable. *)
Class CxxEnumWf (E : Type) `{CxxEnum E} : Prop := {
  enumerators_complete (e : E) : e ∈ enumerators;
  code_in_range (e : E) : code_fits (underlying_size (E:=E)) (underlying_signed (E:=E)) (code e) = true;
}.

(** No two enumerators share a code. *)
Class DistinctCodes (E : Type) `{CxxEnum E} : Prop :=
  code_inj (e1 e2 : E) : code e1 = code e2 → e1 = e2.

Ltac solve_enum_wf := split; intros []; first [reflexivity | cbn; set_solver].
Ltac solve_distinct := intros [] []; first [reflexivity | intros H; exfalso; revert H; vm_compute; discriminate].

Section enum_facts.
Context {E : Type} `{CxxEnumWf E}.

(** A known code always decodes, to an enumerator with that code. *)
Lemma of_code_total (e : E) : ∃ e' : E, of_code (code e) = Some e' ∧ code e' = code e.
Proof.
  unfold of_code. destruct (List.find _ _) as [e'|] eqn:F.
  - apply List.find_some in F as [_ F%Z.eqb_eq]. eauto.
  - apply List.find_none with (x := e) in F; [by apply Z.eqb_neq in F|].
    apply list_elem_of_In, enumerators_complete.
Qed.

Lemma code_of_code (z : Z) (e : E) : of_code z = Some e → code e = z.
Proof. intros F. by apply List.find_some in F as [_ F%Z.eqb_eq]. Qed.

Lemma of_code_code `{!DistinctCodes E} (e : E) : of_code (code e) = Some e.
Proof. destruct (of_code_total e) as (e' & -> & Hc). f_equal. by apply code_inj. Qed.
End enum_facts.

(** The byte that stores an enumerator whose underlying type has one byte. *)
Definition enum_byte {E} `{CxxEnum E} (e : E) : byte := byte_of_Z (code e).

(** [enum class MessageType : char]. *)
Inductive MessageType :=
  | MessageType_AddOrder | MessageType_AddOrderWithMPID | MessageType_OrderDelete | MessageType_OrderExecuted
  | MessageType_OrderExecutedWithPrice | MessageType_OrderReplace | MessageType_Trade | MessageType_EquilibriumPriceUpdate
  | MessageType_OrderbookFlush | MessageType_Seconds | MessageType_OrderbookDirectory | MessageType_CombinationOrderbookLeg
  | MessageType_TickSizeTableEntry | MessageType_ShortSellStatus | MessageType_SystemEvent
  | MessageType_OrderbookState.

#[export] Instance MessageType_eq_dec : EqDecision MessageType.
Proof. solve_decision. Defined.

Definition MessageType_code (e : MessageType) : Z :=
  match e with
  | MessageType_AddOrder => u8 "A"
  | MessageType_AddOrderWithMPID => u8 "F"
  | MessageType_OrderDelete => u8 "D"
  | MessageType_OrderExecuted => u8 "E"
  | MessageType_OrderExecutedWithPrice => u8 "C"
  | MessageType_OrderReplace => u8 "U"
  | MessageType_Trade => u8 "P"
  | MessageType_EquilibriumPriceUpdate => u8 "Z"
  | MessageType_OrderbookFlush => u8 "Y"
  | MessageType_Seconds => u8 "T"
  | MessageType_OrderbookDirectory => u8 "R"
  | MessageType_CombinationOrderbookLeg => u8 "M"
  | MessageType_TickSizeTableEntry => u8 "L"
  | MessageType_ShortSellStatus => u8 "V"
  | MessageType_SystemEvent => u8 "S"
  | MessageType_OrderbookState => u8 "O"
  end.

#[export] Instance MessageType_enum : CxxEnum MessageType := {|
  underlying_size := 1;
  underlying_signed := true;
  code := MessageType_code;
  enumerators := [
    MessageType_AddOrder; MessageType_AddOrderWithMPID; MessageType_OrderDelete;
    MessageType_OrderExecuted; MessageType_OrderExecutedWithPrice; MessageType_OrderReplace;
    MessageType_Trade; MessageType_EquilibriumPriceUpdate; MessageType_OrderbookFlush;
    MessageType_Seconds; MessageType_OrderbookDirectory; MessageType_CombinationOrderbookLeg;
    MessageType_TickSizeTableEntry; MessageType_ShortSellStatus; MessageType_SystemEvent;
    MessageType_OrderbookState]
|}.

(** [enum class Side : char]. *)
Inductive Side :=
  | Side_Buy | Side_Sell.

#[export] Instance Side_eq_dec : EqDecision Side.
Proof. solve_decision. Defined.

Definition Side_code (e : Side) : Z :=
  match e with
  | Side_Buy => u8 "B"
  | Side_Sell => u8 "S"
  end.

#[export] Instance Side_enum : CxxEnum Side := {|
  underlying_size := 1;
  underlying_signed := true;
  code := Side_code;
  enumerators := [
    Side_Buy; Side_Sell]
|}.

(** [enum class PutOrCall : uint8_t]. *)
Inductive PutOrCall :=
  | PutOrCall_Call | PutOrCall_Put.

#[export] Instance PutOrCall_eq_dec : EqDecision PutOrCall.
Proof. solve_decision. Defined.

Definition PutOrCall_code (e : PutOrCall) : Z :=
  match e with
  | PutOrCall_Call => 1
  | PutOrCall_Put => 2
  end.

#[export] Instance PutOrCall_enum : CxxEnum PutOrCall := {|
  underlying_size := 1;
  underlying_signed := false;
  code := PutOrCall_code;
  enumerators := [
    PutOrCall_Call; PutOrCall_Put]
|}.

(** [enum class LegSide : char]. *)
Inductive LegSide :=
  | LegSide_AsDefined | LegSide_Opposite.

#[export] Instance LegSide_eq_dec : EqDecision LegSide.
Proof. solve_decision. Defined.

Definition LegSide_code (e : LegSide) : Z :=
  match e with
  | LegSide_AsDefined => u8 "B"
  | LegSide_Opposite => u8 "C"
  end.

#[export] Instance LegSide_enum : CxxEnum LegSide := {|
  underlying_size := 1;
  underlying_signed := true;
  code := LegSide_code;
  enumerators := [
    LegSide_AsDefined; LegSide_Opposite]
|}.

(** [enum class LotType : uint8_t]. *)
Inductive LotType :=
  | LotType_RoundLot.

#[export] Instance LotType_eq_dec : EqDecision LotType.
Proof. solve_decision. Defined.

Definition LotType_code (e : LotType) : Z :=
  match e with
  | LotType_RoundLot => 2
  end.

#[export] Instance LotType_enum : CxxEnum LotType := {|
  underlying_size := 1;
  underlying_signed := false;
  code := LotType_code;
  enumerators := [
    LotType_RoundLot]
|}.

(** [enum class FinancialProduct : uint8_t]. *)
Inductive FinancialProduct :=
  | FinancialProduct_Option | FinancialProduct_Forward | FinancialProduct_Future | FinancialProduct_FRA
  | FinancialProduct_Cash | FinancialProduct_Payment | FinancialProduct_ExchangeRate | FinancialProduct_InterestRateSwap
  | FinancialProduct_REPO | FinancialProduct_SyntheticBoxLeg_Reference | FinancialProduct_StandardCombination
  | FinancialProduct_Guarantee | FinancialProduct_OTCGeneral | FinancialProduct_EquityWarrant
  | FinancialProduct_SecurityLending | FinancialProduct_Certificate.

#[export] Instance FinancialProduct_eq_dec : EqDecision FinancialProduct.
Proof. solve_decision. Defined.

Definition FinancialProduct_code (e : FinancialProduct) : Z :=
  match e with
  | FinancialProduct_Option => 1
  | FinancialProduct_Forward => 2
  | FinancialProduct_Future => 3
  | FinancialProduct_FRA => 4
  | FinancialProduct_Cash => 5
  | FinancialProduct_Payment => 6
  | FinancialProduct_ExchangeRate => 7
  | FinancialProduct_InterestRateSwap => 8
  | FinancialProduct_REPO => 9
  | FinancialProduct_SyntheticBoxLeg_Reference => 10
  | FinancialProduct_StandardCombination => 11
  | FinancialProduct_Guarantee => 12
  | FinancialProduct_OTCGeneral => 13
  | FinancialProduct_EquityWarrant => 14
  | FinancialProduct_SecurityLending => 15
  | FinancialProduct_Certificate => 18
  end.

#[export] Instance FinancialProduct_enum : CxxEnum FinancialProduct := {|
  underlying_size := 1;
  underlying_signed := false;
  code := FinancialProduct_code;
  enumerators := [
    FinancialProduct_Option; FinancialProduct_Forward; FinancialProduct_Future;
    FinancialProduct_FRA; FinancialProduct_Cash; FinancialProduct_Payment;
    FinancialProduct_ExchangeRate; FinancialProduct_InterestRateSwap; FinancialProduct_REPO;
    FinancialProduct_SyntheticBoxLeg_Reference; FinancialProduct_StandardCombination;
    FinancialProduct_Guarantee; FinancialProduct_OTCGeneral; FinancialProduct_EquityWarrant;
    FinancialProduct_SecurityLending; FinancialProduct_Certificate]
|}.

(** [enum class ShortSellRestriction : uint8_t]. *)
Inductive ShortSellRestriction :=
  | ShortSellRestriction_Allowed | ShortSellRestriction_Prohibited.

#[export] Instance ShortSellRestriction_eq_dec : EqDecision ShortSellRestriction.
Proof. solve_decision. Defined.

Definition ShortSellRestriction_code (e : ShortSellRestriction) : Z :=
  match e with
  | ShortSellRestriction_Allowed => 1
  | ShortSellRestriction_Prohibited => 2
  end.

#[export] Instance ShortSellRestriction_enum : CxxEnum ShortSellRestriction := {|
  underlying_size := 1;
  underlying_signed := false;
  code := ShortSellRestriction_code;
  enumerators := [
    ShortSellRestriction_Allowed; ShortSellRestriction_Prohibited]
|}.

(** [enum class ShortSellValidation : uint8_t]. *)
Inductive ShortSellValidation :=
  | ShortSellValidation_NoValidation | ShortSellValidation_PriceGreaterOrEqualToLTP | ShortSellValidation_NotAllowed.

#[export] Instance ShortSellValidation_eq_dec : EqDecision ShortSellValidation.
Proof. solve_decision. Defined.

Definition ShortSellValidation_code (e : ShortSellValidation) : Z :=
  match e with
  | ShortSellValidation_NoValidation => 0
  | ShortSellValidation_PriceGreaterOrEqualToLTP => 1
  | ShortSellValidation_NotAllowed => 2
  end.

#[export] Instance ShortSellValidation_enum : CxxEnum ShortSellValidation := {|
  underlying_size := 1;
  underlying_signed := false;
  code := ShortSellValidation_code;
  enumerators := [
    ShortSellValidation_NoValidation; ShortSellValidation_PriceGreaterOrEqualToLTP;
    ShortSellValidation_NotAllowed]
|}.

(** [enum class EventCode : char]. *)
Inductive EventCode :=
  | EventCode_StartOfMessages | EventCode_EndOfMessages.

#[export] Instance EventCode_eq_dec : EqDecision EventCode.
Proof. solve_decision. Defined.

Definition EventCode_code (e : EventCode) : Z :=
  match e with
  | EventCode_StartOfMessages => u8 "O"
  | EventCode_EndOfMessages => u8 "C"
  end.

#[export] Instance EventCode_enum : CxxEnum EventCode := {|
  underlying_size := 1;
  underlying_signed := true;
  code := EventCode_code;
  enumerators := [
    EventCode_StartOfMessages; EventCode_EndOfMessages]
|}.

(** [enum class OccurredAtCross : char]. *)
Inductive OccurredAtCross :=
  | OccurredAtCross_Yes | OccurredAtCross_No.

#[export] Instance OccurredAtCross_eq_dec : EqDecision OccurredAtCross.
Proof. solve_decision. Defined.

Definition OccurredAtCross_code (e : OccurredAtCross) : Z :=
  match e with
  | OccurredAtCross_Yes => u8 "Y"
  | OccurredAtCross_No => u8 "N"
  end.

#[export] Instance OccurredAtCross_enum : CxxEnum OccurredAtCross := {|
  underlying_size := 1;
  underlying_signed := true;
  code := OccurredAtCross_code;
  enumerators := [
    OccurredAtCross_Yes; OccurredAtCross_No]
|}.

(** [enum class Printable : char]. *)
Inductive Printable :=
  | Printable_Yes | Printable_No.

#[export] Instance Printable_eq_dec : EqDecision Printable.
Proof. solve_decision. Defined.

Definition Printable_code (e : Printable) : Z :=
  match e with
  | Printable_Yes => u8 "Y"
  | Printable_No => u8 "N"
  end.

#[export] Instance Printable_enum : CxxEnum Printable := {|
  underlying_size := 1;
  underlying_signed := true;
  code := Printable_code;
  enumerators := [
    Printable_Yes; Printable_No]
|}.

(** [enum class ProductType : uint32_t]. *)
Inductive ProductType :=
  | ProductType_UNKNOWN_PRODUCT | ProductType_OPTION | ProductType_FORWARD | ProductType_FUTURE
  | ProductType_FRA | ProductType_CASH | ProductType_PAYMENT | ProductType_EXCHANGE_RATE | ProductType_INTEREST_RATE_SWAP
  | ProductType_REPO | ProductType_SYNTHETIC_BOX_LEG_REFERENCE | ProductType_STANDARD_COMBINATION
  | ProductType_GUARANTEE | ProductType_OTC_GENRAL | ProductType_EQUITY_WARRANT | ProductType_SECURITY_LENDING
  | ProductType_CERTIFICATE.

#[export] Instance ProductType_eq_dec : EqDecision ProductType.
Proof. solve_decision. Defined.

Definition ProductType_code (e : ProductType) : Z :=
  match e with
  | ProductType_UNKNOWN_PRODUCT => 0
  | ProductType_OPTION => 1
  | ProductType_FORWARD => 2
  | ProductType_FUTURE => 3
  | ProductType_FRA => 4
  | ProductType_CASH => 5
  | ProductType_PAYMENT => 6
  | ProductType_EXCHANGE_RATE => 7
  | ProductType_INTEREST_RATE_SWAP => 8
  | ProductType_REPO => 9
  | ProductType_SYNTHETIC_BOX_LEG_REFERENCE => 10
  | ProductType_STANDARD_COMBINATION => 11
  | ProductType_GUARANTEE => 12
  | ProductType_OTC_GENRAL => 13
  | ProductType_EQUITY_WARRANT => 14
  | ProductType_SECURITY_LENDING => 15
  | ProductType_CERTIFICATE => 18
  end.

#[export] Instance ProductType_enum : CxxEnum ProductType := {|
  underlying_size := 4;
  underlying_signed := false;
  code := ProductType_code;
  enumerators := [
    ProductType_UNKNOWN_PRODUCT; ProductType_OPTION; ProductType_FORWARD; ProductType_FUTURE;
    ProductType_FRA; ProductType_CASH; ProductType_PAYMENT; ProductType_EXCHANGE_RATE;
    ProductType_INTEREST_RATE_SWAP; ProductType_REPO; ProductType_SYNTHETIC_BOX_LEG_REFERENCE;
    ProductType_STANDARD_COMBINATION; ProductType_GUARANTEE; ProductType_OTC_GENRAL;
    ProductType_EQUITY_WARRANT; ProductType_SECURITY_LENDING; ProductType_CERTIFICATE]
|}.

(** [enum class TradingStatus : uint32_t]. *)
Inductive TradingStatus :=
  | TradingStatus_TRADING_STATUS_UNKNOWN | TradingStatus_TRADING_STATUS_OPEN | TradingStatus_TRADING_STATUS_OPEN_EXTENDED
  | TradingStatus_TRADING_STATUS_CLOSE | TradingStatus_TRADING_STATUS_QUOTE | TradingStatus_TRADING_STATUS_QUOTE_OPEN
  | TradingStatus_TRADING_STATUS_QUOTE_CLOSE | TradingStatus_TRADING_STATUS_QUOTE_CIRCUIT_BREAKER
  | TradingStatus_TRADING_STATUS_SUSPEND | TradingStatus_TRADING_STATUS_LAST_TRADING_PHASE
  | TradingStatus_TRADING_STATUS_HALTED | TradingStatus_TRADING_STATUS_PRE_OPEN | TradingStatus_TRADING_STATUS_PRE_CLOSE
  | TradingStatus_TRADING_STATUS_POST_TRADING | TradingStatus_TRADING_STATUS_OPENNING_OR_CLOSING.

#[export] Instance TradingStatus_eq_dec : EqDecision TradingStatus.
Proof. solve_decision. Defined.

Definition TradingStatus_code (e : TradingStatus) : Z :=
  match e with
  | TradingStatus_TRADING_STATUS_UNKNOWN => 0
  | TradingStatus_TRADING_STATUS_OPEN => 1
  | TradingStatus_TRADING_STATUS_OPEN_EXTENDED => 2
  | TradingStatus_TRADING_STATUS_CLOSE => 3
  | TradingStatus_TRADING_STATUS_QUOTE => 4
  | TradingStatus_TRADING_STATUS_QUOTE_OPEN => 5
  | TradingStatus_TRADING_STATUS_QUOTE_CLOSE => 6
  | TradingStatus_TRADING_STATUS_QUOTE_CIRCUIT_BREAKER => 7
  | TradingStatus_TRADING_STATUS_SUSPEND => 8
  | TradingStatus_TRADING_STATUS_LAST_TRADING_PHASE => 9
  | TradingStatus_TRADING_STATUS_HALTED => 10
  | TradingStatus_TRADING_STATUS_PRE_OPEN => 11
  | TradingStatus_TRADING_STATUS_PRE_CLOSE => 12
  | TradingStatus_TRADING_STATUS_POST_TRADING => 13
  | TradingStatus_TRADING_STATUS_OPENNING_OR_CLOSING => 14
  end.

#[export] Instance TradingStatus_enum : CxxEnum TradingStatus := {|
  underlying_size := 4;
  underlying_signed := false;
  code := TradingStatus_code;
  enumerators := [
    TradingStatus_TRADING_STATUS_UNKNOWN; TradingStatus_TRADING_STATUS_OPEN;
    TradingStatus_TRADING_STATUS_OPEN_EXTENDED; TradingStatus_TRADING_STATUS_CLOSE;
    TradingStatus_TRADING_STATUS_QUOTE; TradingStatus_TRADING_STATUS_QUOTE_OPEN;
    TradingStatus_TRADING_STATUS_QUOTE_CLOSE; TradingStatus_TRADING_STATUS_QUOTE_CIRCUIT_BREAKER;
    TradingStatus_TRADING_STATUS_SUSPEND; TradingStatus_TRADING_STATUS_LAST_TRADING_PHASE;
    TradingStatus_TRADING_STATUS_HALTED; TradingStatus_TRADING_STATUS_PRE_OPEN;
    TradingStatus_TRADING_STATUS_PRE_CLOSE; TradingStatus_TRADING_STATUS_POST_TRADING;
    TradingStatus_TRADING_STATUS_OPENNING_OR_CLOSING]
|}.

(** [enum class ImbalanceDirection : uint32_t]. *)
Inductive ImbalanceDirection :=
  | ImbalanceDirection_UNDEFINED | ImbalanceDirection_BUY | ImbalanceDirection_SELL | ImbalanceDirection_NONE.

#[export] Instance ImbalanceDirection_eq_dec : EqDecision ImbalanceDirection.
Proof. solve_decision. Defined.

Definition ImbalanceDirection_code (e : ImbalanceDirection) : Z :=
  match e with
  | ImbalanceDirection_UNDEFINED => 0
  | ImbalanceDirection_BUY => 1
  | ImbalanceDirection_SELL => 2
  | ImbalanceDirection_NONE => 3
  end.

#[export] Instance ImbalanceDirection_enum : CxxEnum ImbalanceDirection := {|
  underlying_size := 4;
  underlying_signed := false;
  code := ImbalanceDirection_code;
  enumerators := [
    ImbalanceDirection_UNDEFINED; ImbalanceDirection_BUY; ImbalanceDirection_SELL;
    ImbalanceDirection_NONE]
|}.

(** [enum class ClientCategory : uint8_t]. *)
Inductive ClientCategory :=
  | ClientCategory_Client | ClientCategory_House | ClientCategory_Fund | ClientCategory_InvestmentTrust
  | ClientCategory_PrimaryDealerGovt | ClientCategory_PrimaryDealerCorp | ClientCategory_PortfolioMgmtCompany.

#[export] Instance ClientCategory_eq_dec : EqDecision ClientCategory.
Proof. solve_decision. Defined.

Definition ClientCategory_code (e : ClientCategory) : Z :=
  match e with
  | ClientCategory_Client => 1
  | ClientCategory_House => 2
  | ClientCategory_Fund => 7
  | ClientCategory_InvestmentTrust => 9
  | ClientCategory_PrimaryDealerGovt => 10
  | ClientCategory_PrimaryDealerCorp => 11
  | ClientCategory_PortfolioMgmtCompany => 12
  end.

#[export] Instance ClientCategory_enum : CxxEnum ClientCategory := {|
  underlying_size := 1;
  underlying_signed := false;
  code := ClientCategory_code;
  enumerators := [
    ClientCategory_Client; ClientCategory_House; ClientCategory_Fund;
    ClientCategory_InvestmentTrust; ClientCategory_PrimaryDealerGovt;
    ClientCategory_PrimaryDealerCorp; ClientCategory_PortfolioMgmtCompany]
|}.

(** [enum class OffHours : uint8_t]. *)
Inductive OffHours :=
  | OffHours_NormalHours | OffHours_OffHour.

#[export] Instance OffHours_eq_dec : EqDecision OffHours.
Proof. solve_decision. Defined.

Definition OffHours_code (e : OffHours) : Z :=
  match e with
  | OffHours_NormalHours => 0
  | OffHours_OffHour => 1
  end.

#[export] Instance OffHours_enum : CxxEnum OffHours := {|
  underlying_size := 1;
  underlying_signed := false;
  code := OffHours_code;
  enumerators := [
    OffHours_NormalHours; OffHours_OffHour]
|}.

(** [enum class OrderState : uint8_t]. *)
Inductive OrderState :=
  | OrderState_OnBook | OrderState_NotOnBook | OrderState_Paused.

#[export] Instance OrderState_eq_dec : EqDecision OrderState.
Proof. solve_decision. Defined.

Definition OrderState_code (e : OrderState) : Z :=
  match e with
  | OrderState_OnBook => 1
  | OrderState_NotOnBook => 2
  | OrderState_Paused => 98
  end.

#[export] Instance OrderState_enum : CxxEnum OrderState := {|
  underlying_size := 1;
  underlying_signed := false;
  code := OrderState_code;
  enumerators := [
    OrderState_OnBook; OrderState_NotOnBook; OrderState_Paused]
|}.

(** [enum class CancelReason : uint8_t]. *)
Inductive CancelReason :=
  | CancelReason_wqe | CancelReason_asd.

#[export] Instance CancelReason_eq_dec : EqDecision CancelReason.
Proof. solve_decision. Defined.

Definition CancelReason_code (e : CancelReason) : Z :=
  match e with
  | CancelReason_wqe => 0
  | CancelReason_asd => 1
  end.

#[export] Instance CancelReason_enum : CxxEnum CancelReason := {|
  underlying_size := 1;
  underlying_signed := false;
  code := CancelReason_code;
  enumerators := [
    CancelReason_wqe; CancelReason_asd]
|}.

(** [enum class TimeInForce : uint8_t]. *)
Inductive TimeInForce :=
  | TimeInForce_Day | TimeInForce_ImmediateOrCancel | TimeInForce_FillOrKill.

#[export] Instance TimeInForce_eq_dec : EqDecision TimeInForce.
Proof. solve_decision. Defined.

Definition TimeInForce_code (e : TimeInForce) : Z :=
  match e with
  | TimeInForce_Day => 0
  | TimeInForce_ImmediateOrCancel => 1
  | TimeInForce_FillOrKill => 2
  end.

#[export] Instance TimeInForce_enum : CxxEnum TimeInForce := {|
  underlying_size := 1;
  underlying_signed := false;
  code := TimeInForce_code;
  enumerators := [
    TimeInForce_Day; TimeInForce_ImmediateOrCancel; TimeInForce_FillOrKill]
|}.

(** [enum class OpenClose : uint8_t]. *)
Inductive OpenClose :=
  | OpenClose_Default | OpenClose_Open | OpenClose_Close.

#[export] Instance OpenClose_eq_dec : EqDecision OpenClose.
Proof. solve_decision. Defined.

Definition OpenClose_code (e : OpenClose) : Z :=
  match e with
  | OpenClose_Default => 0
  | OpenClose_Open => 1
  | OpenClose_Close => 2
  end.

#[export] Instance OpenClose_enum : CxxEnum OpenClose := {|
  underlying_size := 1;
  underlying_signed := false;
  code := OpenClose_code;
  enumerators := [
    OpenClose_Default; OpenClose_Open; OpenClose_Close]
|}.

(** [enum class RejectCode : int32_t]. *)
Inductive RejectCode :=
  | RejectCode_blabla | RejectCode_asd.

#[export] Instance RejectCode_eq_dec : EqDecision RejectCode.
Proof. solve_decision. Defined.

Definition RejectCode_code (e : RejectCode) : Z :=
  match e with
  | RejectCode_blabla => (-800105)
  | RejectCode_asd => (-800104)
  end.

#[export] Instance RejectCode_enum : CxxEnum RejectCode := {|
  underlying_size := 4;
  underlying_signed := true;
  code := RejectCode_code;
  enumerators := [
    RejectCode_blabla; RejectCode_asd]
|}.

(** *** OUCH enumerations *)

(** [enum class MessageType : char]. *)
Inductive OuchMessageType :=
  | OuchMessageType_EnterOrder | OuchMessageType_ReplaceOrder | OuchMessageType_CancelOrder
  | OuchMessageType_CancelByOrderId | OuchMessageType_MassQuote | OuchMessageType_OrderAccepted
  | OuchMessageType_OrderRejected | OuchMessageType_OrderReplaced | OuchMessageType_OrderCanceled
  | OuchMessageType_OrderExecuted | OuchMessageType_MassQuoteAcknowledgement | OuchMessageType_MassQuoteRejection.

#[export] Instance OuchMessageType_eq_dec : EqDecision OuchMessageType.
Proof. solve_decision. Defined.

Definition OuchMessageType_code (e : OuchMessageType) : Z :=
  match e with
  | OuchMessageType_EnterOrder => u8 "O"
  | OuchMessageType_ReplaceOrder => u8 "U"
  | OuchMessageType_CancelOrder => u8 "X"
  | OuchMessageType_CancelByOrderId => u8 "Y"
  | OuchMessageType_MassQuote => u8 "Q"
  | OuchMessageType_OrderAccepted => u8 "A"
  | OuchMessageType_OrderRejected => u8 "J"
  | OuchMessageType_OrderReplaced => u8 "U"
  | OuchMessageType_OrderCanceled => u8 "C"
  | OuchMessageType_OrderExecuted => u8 "E"
  | OuchMessageType_MassQuoteAcknowledgement => u8 "K"
  | OuchMessageType_MassQuoteRejection => u8 "R"
  end.

#[export] Instance OuchMessageType_enum : CxxEnum OuchMessageType := {|
  underlying_size := 1;
  underlying_signed := true;
  code := OuchMessageType_code;
  enumerators := [
    OuchMessageType_EnterOrder; OuchMessageType_ReplaceOrder; OuchMessageType_CancelOrder;
    OuchMessageType_CancelByOrderId; OuchMessageType_MassQuote; OuchMessageType_OrderAccepted;
    OuchMessageType_OrderRejected; OuchMessageType_OrderReplaced; OuchMessageType_OrderCanceled;
    OuchMessageType_OrderExecuted; OuchMessageType_MassQuoteAcknowledgement;
    OuchMessageType_MassQuoteRejection]
|}.

(** [enum class OpenClose : uint8_t]. *)
Inductive OuchOpenClose :=
  | OuchOpenClose_NoChange | OuchOpenClose_Open | OuchOpenClose_CloseNet | OuchOpenClose_DefaultForTheAccount.

#[export] Instance OuchOpenClose_eq_dec : EqDecision OuchOpenClose.
Proof. solve_decision. Defined.

Definition OuchOpenClose_code (e : OuchOpenClose) : Z :=
  match e with
  | OuchOpenClose_NoChange => 0
  | OuchOpenClose_Open => 1
  | OuchOpenClose_CloseNet => 2
  | OuchOpenClose_DefaultForTheAccount => 4
  end.

#[export] Instance OuchOpenClose_enum : CxxEnum OuchOpenClose := {|
  underlying_size := 1;
  underlying_signed := false;
  code := OuchOpenClose_code;
  enumerators := [
    OuchOpenClose_NoChange; OuchOpenClose_Open; OuchOpenClose_CloseNet;
    OuchOpenClose_DefaultForTheAccount]
|}.

(** [enum class ClientCategory : uint8_t]. *)
Inductive OuchClientCategory :=
  | OuchClientCategory_NoChange | OuchClientCategory_Client | OuchClientCategory_House | OuchClientCategory_Fund
  | OuchClientCategory_InvestmentTrust | OuchClientCategory_PrimaryDealerGovt | OuchClientCategory_PrimaryDealerCorp
  | OuchClientCategory_PortfolioMgmtCompany | OuchClientCategory_Error.

#[export] Instance OuchClientCategory_eq_dec : EqDecision OuchClientCategory.
Proof. solve_decision. Defined.

Definition OuchClientCategory_code (e : OuchClientCategory) : Z :=
  match e with
  | OuchClientCategory_NoChange => 0
  | OuchClientCategory_Client => 1
  | OuchClientCategory_House => 2
  | OuchClientCategory_Fund => 7
  | OuchClientCategory_InvestmentTrust => 9
  | OuchClientCategory_PrimaryDealerGovt => 10
  | OuchClientCategory_PrimaryDealerCorp => 11
  | OuchClientCategory_PortfolioMgmtCompany => 12
  | OuchClientCategory_Error => 13
  end.

#[export] Instance OuchClientCategory_enum : CxxEnum OuchClientCategory := {|
  underlying_size := 1;
  underlying_signed := false;
  code := OuchClientCategory_code;
  enumerators := [
    OuchClientCategory_NoChange; OuchClientCategory_Client; OuchClientCategory_House;
    OuchClientCategory_Fund; OuchClientCategory_InvestmentTrust;
    OuchClientCategory_PrimaryDealerGovt; OuchClientCategory_PrimaryDealerCorp;
    OuchClientCategory_PortfolioMgmtCompany; OuchClientCategory_Error]
|}.

(** [enum class TimeInForce : uint8_t]. *)
Inductive OuchTimeInForce :=
  | OuchTimeInForce_Day | OuchTimeInForce_ImmediateOrCancel | OuchTimeInForce_FillOrKill | OuchTimeInForce_ERROR.

#[export] Instance OuchTimeInForce_eq_dec : EqDecision OuchTimeInForce.
Proof. solve_decision. Defined.

Definition OuchTimeInForce_code (e : OuchTimeInForce) : Z :=
  match e with
  | OuchTimeInForce_Day => 0
  | OuchTimeInForce_ImmediateOrCancel => 3
  | OuchTimeInForce_FillOrKill => 4
  | OuchTimeInForce_ERROR => 255
  end.

#[export] Instance OuchTimeInForce_enum : CxxEnum OuchTimeInForce := {|
  underlying_size := 1;
  underlying_signed := false;
  code := OuchTimeInForce_code;
  enumerators := [
    OuchTimeInForce_Day; OuchTimeInForce_ImmediateOrCancel; OuchTimeInForce_FillOrKill;
    OuchTimeInForce_ERROR]
|}.

(** [enum class OffHours : uint8_t]. *)
Inductive OuchOffHours :=
  | OuchOffHours_OffHoursOrders | OuchOffHours_NormalHours.

#[export] Instance OuchOffHours_eq_dec : EqDecision OuchOffHours.
Proof. solve_decision. Defined.

Definition OuchOffHours_code (e : OuchOffHours) : Z :=
  match e with
  | OuchOffHours_OffHoursOrders => 1
  | OuchOffHours_NormalHours => 0
  end.

#[export] Instance OuchOffHours_enum : CxxEnum OuchOffHours := {|
  underlying_size := 1;
  underlying_signed := false;
  code := OuchOffHours_code;
  enumerators := [
    OuchOffHours_OffHoursOrders; OuchOffHours_NormalHours]
|}.

(** [enum class OrderState : uint8_t]. *)
Inductive OuchOrderState :=
  | OuchOrderState_OnBook | OuchOrderState_NotOnBook | OuchOrderState_Paused | OuchOrderState_OUCHOrderOwnershipLost.

#[export] Instance OuchOrderState_eq_dec : EqDecision OuchOrderState.
Proof. solve_decision. Defined.

Definition OuchOrderState_code (e : OuchOrderState) : Z :=
  match e with
  | OuchOrderState_OnBook => 1
  | OuchOrderState_NotOnBook => 2
  | OuchOrderState_Paused => 98
  | OuchOrderState_OUCHOrderOwnershipLost => 99
  end.

#[export] Instance OuchOrderState_enum : CxxEnum OuchOrderState := {|
  underlying_size := 1;
  underlying_signed := false;
  code := OuchOrderState_code;
  enumerators := [
    OuchOrderState_OnBook; OuchOrderState_NotOnBook; OuchOrderState_Paused;
    OuchOrderState_OUCHOrderOwnershipLost]
|}.

(** [enum class CancelReason : uint8_t]. *)
Inductive OuchCancelReason :=
  | OuchCancelReason_CanceledByUser | OuchCancelReason_Trade | OuchCancelReason_Inactivate
  | OuchCancelReason_ReplacedByUser | OuchCancelReason_New | OuchCancelReason_ConvertedBySystem
  | OuchCancelReason_CanceledBySystem | OuchCancelReason_CanceledByProxy | OuchCancelReason_BaitRecalculated
  | OuchCancelReason_TriggeredBySystem | OuchCancelReason_RefreshedBySystem | OuchCancelReason_CanceledBySystemLimitChange
  | OuchCancelReason_LinkedLegCanceled | OuchCancelReason_LinkedLegModified | OuchCancelReason_Expired
  | OuchCancelReason_CanceledDueToISS | OuchCancelReason_InactivatedDueToISS | OuchCancelReason_InactivatedDueToPurge
  | OuchCancelReason_InactivatedDayOrder | OuchCancelReason_InactivatedDueToDeList | OuchCancelReason_InactivatedDueToExpiry
  | OuchCancelReason_InactivatedDueToOutsideLimits | OuchCancelReason_TransferOfOwnership | OuchCancelReason_NewInactive
  | OuchCancelReason_Reloaded | OuchCancelReason_ReloadedIntraday | OuchCancelReason_CanceledAfterAuction
  | OuchCancelReason_InactivatedDueToOutsidePriceLimits | OuchCancelReason_ActivatedDueToOutsideLimits
  | OuchCancelReason_TriggerOnSessionOrderTriggered | OuchCancelReason_UndisclosedQuantityOrderConverted
  | OuchCancelReason_InactivatedDueToOrderValue | OuchCancelReason_CanceledBySystemDeltaProtection
  | OuchCancelReason_CanceledBySystemQuantityProtection | OuchCancelReason_InternalCrossingDelete
  | OuchCancelReason_CanceledDueToParticipantBlockOnMarket | OuchCancelReason_InactivatedDueToParticipantBlockOnMarket
  | OuchCancelReason_Paused | OuchCancelReason_ActivatedPausedOrder | OuchCancelReason_LinkedLegActivated
  | OuchCancelReason_DeletedPTRMmisc | OuchCancelReason_DeletedPTRMuserlimitsauto | OuchCancelReason_DeletedPTRMuserlimitsmanual
  | OuchCancelReason_DeletedPTRMmarketlimits | OuchCancelReason_DeletedPTRMinvestorlimits | OuchCancelReason_DeletedPTRMmarginbreach
  | OuchCancelReason_DeletedPTRMparticipantsuspension | OuchCancelReason_DeletedPTRMmrasuspension
  | OuchCancelReason_DeletedPTRMmcasuspension | OuchCancelReason_DeletedPTRMtasuspension.

#[export] Instance OuchCancelReason_eq_dec : EqDecision OuchCancelReason.
Proof. solve_decision. Defined.

Definition OuchCancelReason_code (e : OuchCancelReason) : Z :=
  match e with
  | OuchCancelReason_CanceledByUser => 1
  | OuchCancelReason_Trade => 3
  | OuchCancelReason_Inactivate => 4
  | OuchCancelReason_ReplacedByUser => 5
  | OuchCancelReason_New => 6
  | OuchCancelReason_ConvertedBySystem => 8
  | OuchCancelReason_CanceledBySystem => 9
  | OuchCancelReason_CanceledByProxy => 10
  | OuchCancelReason_BaitRecalculated => 11
  | OuchCancelReason_TriggeredBySystem => 12
  | OuchCancelReason_RefreshedBySystem => 13
  | OuchCancelReason_CanceledBySystemLimitChange => 15
  | OuchCancelReason_LinkedLegCanceled => 17
  | OuchCancelReason_LinkedLegModified => 18
  | OuchCancelReason_Expired => 19
  | OuchCancelReason_CanceledDueToISS => 20
  | OuchCancelReason_InactivatedDueToISS => 21
  | OuchCancelReason_InactivatedDueToPurge => 23
  | OuchCancelReason_InactivatedDayOrder => 24
  | OuchCancelReason_InactivatedDueToDeList => 25
  | OuchCancelReason_InactivatedDueToExpiry => 26
  | OuchCancelReason_InactivatedDueToOutsideLimits => 27
  | OuchCancelReason_TransferOfOwnership => 28
  | OuchCancelReason_NewInactive => 29
  | OuchCancelReason_Reloaded => 30
  | OuchCancelReason_ReloadedIntraday => 31
  | OuchCancelReason_CanceledAfterAuction => 34
  | OuchCancelReason_InactivatedDueToOutsidePriceLimits => 35
  | OuchCancelReason_ActivatedDueToOutsideLimits => 36
  | OuchCancelReason_TriggerOnSessionOrderTriggered => 37
  | OuchCancelReason_UndisclosedQuantityOrderConverted => 39
  | OuchCancelReason_InactivatedDueToOrderValue => 40
  | OuchCancelReason_CanceledBySystemDeltaProtection => 41
  | OuchCancelReason_CanceledBySystemQuantityProtection => 42
  | OuchCancelReason_InternalCrossingDelete => 43
  | OuchCancelReason_CanceledDueToParticipantBlockOnMarket => 44
  | OuchCancelReason_InactivatedDueToParticipantBlockOnMarket => 45
  | OuchCancelReason_Paused => 52
  | OuchCancelReason_ActivatedPausedOrder => 53
  | OuchCancelReason_LinkedLegActivated => 56
  | OuchCancelReason_DeletedPTRMmisc => 115
  | OuchCancelReason_DeletedPTRMuserlimitsauto => 116
  | OuchCancelReason_DeletedPTRMuserlimitsmanual => 117
  | OuchCancelReason_DeletedPTRMmarketlimits => 118
  | OuchCancelReason_DeletedPTRMinvestorlimits => 119
  | OuchCancelReason_DeletedPTRMmarginbreach => 120
  | OuchCancelReason_DeletedPTRMparticipantsuspension => 121
  | OuchCancelReason_DeletedPTRMmrasuspension => 122
  | OuchCancelReason_DeletedPTRMmcasuspension => 123
  | OuchCancelReason_DeletedPTRMtasuspension => 124
  end.

#[export] Instance OuchCancelReason_enum : CxxEnum OuchCancelReason := {|
  underlying_size := 1;
  underlying_signed := false;
  code := OuchCancelReason_code;
  enumerators := [
    OuchCancelReason_CanceledByUser; OuchCancelReason_Trade; OuchCancelReason_Inactivate;
    OuchCancelReason_ReplacedByUser; OuchCancelReason_New; OuchCancelReason_ConvertedBySystem;
    OuchCancelReason_CanceledBySystem; OuchCancelReason_CanceledByProxy;
    OuchCancelReason_BaitRecalculated; OuchCancelReason_TriggeredBySystem;
    OuchCancelReason_RefreshedBySystem; OuchCancelReason_CanceledBySystemLimitChange;
    OuchCancelReason_LinkedLegCanceled; OuchCancelReason_LinkedLegModified;
    OuchCancelReason_Expired; OuchCancelReason_CanceledDueToISS;
    OuchCancelReason_InactivatedDueToISS; OuchCancelReason_InactivatedDueToPurge;
    OuchCancelReason_InactivatedDayOrder; OuchCancelReason_InactivatedDueToDeList;
    OuchCancelReason_InactivatedDueToExpiry; OuchCancelReason_InactivatedDueToOutsideLimits;
    OuchCancelReason_TransferOfOwnership; OuchCancelReason_NewInactive;
    OuchCancelReason_Reloaded; OuchCancelReason_ReloadedIntraday;
    OuchCancelReason_CanceledAfterAuction; OuchCancelReason_InactivatedDueToOutsidePriceLimits;
    OuchCancelReason_ActivatedDueToOutsideLimits;
    OuchCancelReason_TriggerOnSessionOrderTriggered;
    OuchCancelReason_UndisclosedQuantityOrderConverted;
    OuchCancelReason_InactivatedDueToOrderValue;
    OuchCancelReason_CanceledBySystemDeltaProtection;
    OuchCancelReason_CanceledBySystemQuantityProtection; OuchCancelReason_InternalCrossingDelete;
    OuchCancelReason_CanceledDueToParticipantBlockOnMarket;
    OuchCancelReason_InactivatedDueToParticipantBlockOnMarket; OuchCancelReason_Paused;
    OuchCancelReason_ActivatedPausedOrder; OuchCancelReason_LinkedLegActivated;
    OuchCancelReason_DeletedPTRMmisc; OuchCancelReason_DeletedPTRMuserlimitsauto;
    OuchCancelReason_DeletedPTRMuserlimitsmanual; OuchCancelReason_DeletedPTRMmarketlimits;
    OuchCancelReason_DeletedPTRMinvestorlimits; OuchCancelReason_DeletedPTRMmarginbreach;
    OuchCancelReason_DeletedPTRMparticipantsuspension; OuchCancelReason_DeletedPTRMmrasuspension;
    OuchCancelReason_DeletedPTRMmcasuspension; OuchCancelReason_DeletedPTRMtasuspension]
|}.

(** [enum class QUOTESTATUS : uint32_t]. *)
Inductive OuchQUOTESTATUS :=
  | OuchQUOTESTATUS_Accepted | OuchQUOTESTATUS_Updated | OuchQUOTESTATUS_Canceled | OuchQUOTESTATUS_UnsolicitedUpdate
  | OuchQUOTESTATUS_UnsolicitedCancel | OuchQUOTESTATUS_Traded.

#[export] Instance OuchQUOTESTATUS_eq_dec : EqDecision OuchQUOTESTATUS.
Proof. solve_decision. Defined.

Definition OuchQUOTESTATUS_code (e : OuchQUOTESTATUS) : Z :=
  match e with
  | OuchQUOTESTATUS_Accepted => 0
  | OuchQUOTESTATUS_Updated => 1
  | OuchQUOTESTATUS_Canceled => 2
  | OuchQUOTESTATUS_UnsolicitedUpdate => 3
  | OuchQUOTESTATUS_UnsolicitedCancel => 4
  | OuchQUOTESTATUS_Traded => 5
  end.

#[export] Instance OuchQUOTESTATUS_enum : CxxEnum OuchQUOTESTATUS := {|
  underlying_size := 4;
  underlying_signed := false;
  code := OuchQUOTESTATUS_code;
  enumerators := [
    OuchQUOTESTATUS_Accepted; OuchQUOTESTATUS_Updated; OuchQUOTESTATUS_Canceled;
    OuchQUOTESTATUS_UnsolicitedUpdate; OuchQUOTESTATUS_UnsolicitedCancel; OuchQUOTESTATUS_Traded]
|}.

(** *** SoupBinTCP enumerations *)

(** [enum class PacketType : char]. *)
Inductive PacketType :=
  | PacketType_Debug | PacketType_LoginAccepted | PacketType_LoginRejected | PacketType_SequencedData
  | PacketType_ServerHeartbeat | PacketType_EndOfSession | PacketType_LoginRequest | PacketType_UnsequencedData
  | PacketType_ClientHeartbeat | PacketType_LogoutRequest.

#[export] Instance PacketType_eq_dec : EqDecision PacketType.
Proof. solve_decision. Defined.

Definition PacketType_code (e : PacketType) : Z :=
  match e with
  | PacketType_Debug => u8 "+"
  | PacketType_LoginAccepted => u8 "A"
  | PacketType_LoginRejected => u8 "J"
  | PacketType_SequencedData => u8 "S"
  | PacketType_ServerHeartbeat => u8 "H"
  | PacketType_EndOfSession => u8 "Z"
  | PacketType_LoginRequest => u8 "L"
  | PacketType_UnsequencedData => u8 "U"
  | PacketType_ClientHeartbeat => u8 "R"
  | PacketType_LogoutRequest => u8 "O"
  end.

#[export] Instance PacketType_enum : CxxEnum PacketType := {|
  underlying_size := 1;
  underlying_signed := true;
  code := PacketType_code;
  enumerators := [
    PacketType_Debug; PacketType_LoginAccepted; PacketType_LoginRejected;
    PacketType_SequencedData; PacketType_ServerHeartbeat; PacketType_EndOfSession;
    PacketType_LoginRequest; PacketType_UnsequencedData; PacketType_ClientHeartbeat;
    PacketType_LogoutRequest]
|}.

(** [enum class RejectReasonCode : char]. *)
Inductive RejectReasonCode :=
  | RejectReasonCode_NotAuthorized | RejectReasonCode_SessionNotAvailable.

#[export] Instance RejectReasonCode_eq_dec : EqDecision RejectReasonCode.
Proof. solve_decision. Defined.

Definition RejectReasonCode_code (e : RejectReasonCode) : Z :=
  match e with
  | RejectReasonCode_NotAuthorized => u8 "A"
  | RejectReasonCode_SessionNotAvailable => u8 "S"
  end.

#[export] Instance RejectReasonCode_enum : CxxEnum RejectReasonCode := {|
  underlying_size := 1;
  underlying_signed := true;
  code := RejectReasonCode_code;
  enumerators := [
    RejectReasonCode_NotAuthorized; RejectReasonCode_SessionNotAvailable]
|}.

#[export] Instance MessageType_wf : CxxEnumWf MessageType.
Proof. solve_enum_wf. Qed.
#[export] Instance MessageType_distinct : DistinctCodes MessageType.
Proof. solve_distinct. Qed.
#[export] Instance Side_wf : CxxEnumWf Side.
Proof. solve_enum_wf. Qed.
#[export] Instance Side_distinct : DistinctCodes Side.
Proof. solve_distinct. Qed.
#[export] Instance PutOrCall_wf : CxxEnumWf PutOrCall.
Proof. solve_enum_wf. Qed.
#[export] Instance PutOrCall_distinct : DistinctCodes PutOrCall.
Proof. solve_distinct. Qed.
#[export] Instance LegSide_wf : CxxEnumWf LegSide.
Proof. solve_enum_wf. Qed.
#[export] Instance LegSide_distinct : DistinctCodes LegSide.
Proof. solve_distinct. Qed.
#[export] Instance LotType_wf : CxxEnumWf LotType.
Proof. solve_enum_wf. Qed.
#[export] Instance LotType_distinct : DistinctCodes LotType.
Proof. solve_distinct. Qed.
#[export] Instance FinancialProduct_wf : CxxEnumWf FinancialProduct.
Proof. solve_enum_wf. Qed.
#[export] Instance FinancialProduct_distinct : DistinctCodes FinancialProduct.
Proof. solve_distinct. Qed.
#[export] Instance ShortSellRestriction_wf : CxxEnumWf ShortSellRestriction.
Proof. solve_enum_wf. Qed.
#[export] Instance ShortSellRestriction_distinct : DistinctCodes ShortSellRestriction.
Proof. solve_distinct. Qed.
#[export] Instance ShortSellValidation_wf : CxxEnumWf ShortSellValidation.
Proof. solve_enum_wf. Qed.
#[export] Instance ShortSellValidation_distinct : DistinctCodes ShortSellValidation.
Proof. solve_distinct. Qed.
#[export] Instance EventCode_wf : CxxEnumWf EventCode.
Proof. solve_enum_wf. Qed.
#[export] Instance EventCode_distinct : DistinctCodes EventCode.
Proof. solve_distinct. Qed.
#[export] Instance OccurredAtCross_wf : CxxEnumWf OccurredAtCross.
Proof. solve_enum_wf. Qed.
#[export] Instance OccurredAtCross_distinct : DistinctCodes OccurredAtCross.
Proof. solve_distinct. Qed.
#[export] Instance Printable_wf : CxxEnumWf Printable.
Proof. solve_enum_wf. Qed.
#[export] Instance Printable_distinct : DistinctCodes Printable.
Proof. solve_distinct. Qed.
#[export] Instance RejectCode_wf : CxxEnumWf RejectCode.
Proof. solve_enum_wf. Qed.
#[export] Instance RejectCode_distinct : DistinctCodes RejectCode.
Proof. solve_distinct. Qed.
#[export] Instance OuchMessageType_wf : CxxEnumWf OuchMessageType.
Proof. solve_enum_wf. Qed.
#[export] Instance OuchOpenClose_wf : CxxEnumWf OuchOpenClose.
Proof. solve_enum_wf. Qed.
#[export] Instance OuchOpenClose_distinct : DistinctCodes OuchOpenClose.
Proof. solve_distinct. Qed.
#[export] Instance OuchClientCategory_wf : CxxEnumWf OuchClientCategory.
Proof. solve_enum_wf. Qed.
#[export] Instance OuchClientCategory_distinct : DistinctCodes OuchClientCategory.
Proof. solve_distinct. Qed.
#[export] Instance OuchTimeInForce_wf : CxxEnumWf OuchTimeInForce.
Proof. solve_enum_wf. Qed.
#[export] Instance OuchTimeInForce_distinct : DistinctCodes OuchTimeInForce.
Proof. solve_distinct. Qed.
#[export] Instance OuchOffHours_wf : CxxEnumWf OuchOffHours.
Proof. solve_enum_wf. Qed.
#[export] Instance OuchOffHours_distinct : DistinctCodes OuchOffHours.
Proof. solve_distinct. Qed.
#[export] Instance OuchOrderState_wf : CxxEnumWf OuchOrderState.
Proof. solve_enum_wf. Qed.
#[export] Instance OuchOrderState_distinct : DistinctCodes OuchOrderState.
Proof. solve_distinct. Qed.
#[export] Instance OuchCancelReason_wf : CxxEnumWf OuchCancelReason.
Proof. solve_enum_wf. Qed.
#[export] Instance OuchCancelReason_distinct : DistinctCodes OuchCancelReason.
Proof. solve_distinct. Qed.
#[export] Instance ProductType_wf : CxxEnumWf ProductType.
Proof. solve_enum_wf. Qed.
#[export] Instance ProductType_distinct : DistinctCodes ProductType.
Proof. solve_distinct. Qed.
#[export] Instance TradingStatus_wf : CxxEnumWf TradingStatus.
Proof. solve_enum_wf. Qed.
#[export] Instance TradingStatus_distinct : DistinctCodes TradingStatus.
Proof. solve_distinct. Qed.
#[export] Instance ImbalanceDirection_wf : CxxEnumWf ImbalanceDirection.
Proof. solve_enum_wf. Qed.
#[export] Instance ImbalanceDirection_distinct : DistinctCodes ImbalanceDirection.
Proof. solve_distinct. Qed.
#[export] Instance ClientCategory_wf : CxxEnumWf ClientCategory.
Proof. solve_enum_wf. Qed.
#[export] Instance ClientCategory_distinct : DistinctCodes ClientCategory.
Proof. solve_distinct. Qed.
#[export] Instance OffHours_wf : CxxEnumWf OffHours.
Proof. solve_enum_wf. Qed.
#[export] Instance OffHours_distinct : DistinctCodes OffHours.
Proof. solve_distinct. Qed.
#[export] Instance OrderState_wf : CxxEnumWf OrderState.
Proof. solve_enum_wf. Qed.
#[export] Instance OrderState_distinct : DistinctCodes OrderState.
Proof. solve_distinct. Qed.
#[export] Instance CancelReason_wf : CxxEnumWf CancelReason.
Proof. solve_enum_wf. Qed.
#[export] Instance CancelReason_distinct : DistinctCodes CancelReason.
Proof. solve_distinct. Qed.
#[export] Instance TimeInForce_wf : CxxEnumWf TimeInForce.
Proof. solve_enum_wf. Qed.
#[export] Instance TimeInForce_distinct : DistinctCodes TimeInForce.
Proof. solve_distinct. Qed.
#[export] Instance OpenClose_wf : CxxEnumWf OpenClose.
Proof. solve_enum_wf. Qed.
#[export] Instance OpenClose_distinct : DistinctCodes OpenClose.
Proof. solve_distinct. Qed.
#[export] Instance OuchQUOTESTATUS_wf : CxxEnumWf OuchQUOTESTATUS.
Proof. solve_enum_wf. Qed.
#[export] Instance OuchQUOTESTATUS_distinct : DistinctCodes OuchQUOTESTATUS.
Proof. solve_distinct. Qed.
#[export] Instance PacketType_wf : CxxEnumWf PacketType.
Proof. solve_enum_wf. Qed.
#[export] Instance PacketType_distinct : DistinctCodes PacketType.
Proof. solve_distinct. Qed.
#[export] Instance RejectReasonCode_wf : CxxEnumWf RejectReasonCode.
Proof. solve_enum_wf. Qed.
#[export] Instance RejectReasonCode_distinct : DistinctCodes RejectReasonCode.
Proof. solve_distinct. Qed.

(** ** Strong integer types

    [StrongType<T, Tag>] wraps an integer object of type [T] and converts to it, by its
    operator or by [get]: as an object it is that integer ([StrongType_codec]), and the
    structs use the codec of [T] for a member of such a type. *)
Record StrongType := Build_StrongType { strong_val : Z }.

Definition StrongType_operator_T (s : StrongType) : Z := strong_val s.
Definition StrongType_get (s : StrongType) : Z := strong_val s.
Definition StrongType_codec (T : codec Z) : codec StrongType := isoc T Build_StrongType strong_val.

#[export] Instance StrongType_laws (T : codec Z) : CodecLaws T → CodecLaws (StrongType_codec T).
Proof. intros L. apply isoc_laws; [apply _ | done | by intros []]. Qed.

(** What is read as a strong type converts to what is read as its integer. *)
Lemma StrongType_transparent (T : codec Z) (bs : list byte) :
  StrongType_operator_T <$> c_dec (StrongType_codec T) bs = c_dec T bs ∧
  StrongType_get <$> c_dec (StrongType_codec T) bs = c_dec T bs.
Proof. unfold StrongType_codec, isoc. cbn [c_dec]. by destruct (c_dec T bs). Qed.

Definition SessionName : codec (list byte) := chars 10.
Definition ORDER_TOKEN_LENGTH : nat := 14.
Definition OrderToken : codec (list byte) := chars ORDER_TOKEN_LENGTH.
Definition CLIENT_ACCOUNT_LENGTH : nat := 16.
Definition ClientAccount : codec (list byte) := chars CLIENT_ACCOUNT_LENGTH.
Definition CUSTOMER_INFO_LENGTH : nat := 15.
Definition CustomerInfo : codec (list byte) := chars CUSTOMER_INFO_LENGTH.
Definition EXCHANGE_INFO_LENGTH : nat := 32.
Definition ExchangeInfo : codec (list byte) := chars EXCHANGE_INFO_LENGTH.
Definition TimestampNanoseconds : codec Z := uint 4.
Definition TimestampOuchNanoseconds : codec Z := uint 8.
Definition MatchId : codec Z := uint 8.
Definition OUCH_MATCH_ID_LENGTH : nat := 12.
Definition OuchMatchId : codec (list byte) := chars OUCH_MATCH_ID_LENGTH.
Definition ComboGroupId : codec Z := uint 4.
Definition Quantity : codec Z := uint 8.
Definition OrderbookId : codec Z := uint 4.
Definition OrderId : codec Z := uint 8.
Definition Price : codec Z := sint 4.
Definition OrderAttributes : codec Z := uint 2.
Definition NumberOfDecimalsInPrice : codec Z := uint 2.
Definition LotSize : codec Z := uint 4.
Definition NominalValue : codec Z := uint 8.
Definition NumberOfLegs : codec Z := uint 1.
Definition ExpirationDate : codec Z := uint 4.
Definition LegRatio : codec Z := uint 4.
Definition TickSize : codec Z := uint 8.
Definition OrderbookPosition : codec Z := uint 4.
Definition Second : codec Z := uint 4.
Definition SequenceNumber : codec Z := uint 8.
Definition MessageCount : codec Z := uint 2.
Definition MessageLength : codec Z := uint 2.
Definition Port : codec Z := uint 2.

(** An enumeration member of one byte. *)
Definition enum1 : codec byte := char1.

(** *** SoupBinTCP member types *)
Definition PacketLength : codec Z := uint 2.
Definition Username : codec (list byte) := chars 6.
Definition Password : codec (list byte) := chars 10.
Definition SequenceNumberByteArray : codec (list byte) := chars 20.

(** *** lib/constants.hpp *)
Definition MSG_TYPE_OFFSET : nat := 0.
Definition TIMESTAMP_NANOSECONDS_OFFSET : nat := (MSG_TYPE_OFFSET + c_size enum1)%nat.

#[export] Instance SessionName_laws : CodecLaws SessionName.
Proof. unfold SessionName; apply _. Qed.
#[export] Instance OrderToken_laws : CodecLaws OrderToken.
Proof. unfold OrderToken; apply _. Qed.
#[export] Instance ClientAccount_laws : CodecLaws ClientAccount.
Proof. unfold ClientAccount; apply _. Qed.
#[export] Instance CustomerInfo_laws : CodecLaws CustomerInfo.
Proof. unfold CustomerInfo; apply _. Qed.
#[export] Instance ExchangeInfo_laws : CodecLaws ExchangeInfo.
Proof. unfold ExchangeInfo; apply _. Qed.
#[export] Instance TimestampNanoseconds_laws : CodecLaws TimestampNanoseconds.
Proof. unfold TimestampNanoseconds; apply _. Qed.
#[export] Instance TimestampOuchNanoseconds_laws : CodecLaws TimestampOuchNanoseconds.
Proof. unfold TimestampOuchNanoseconds; apply _. Qed.
#[export] Instance MatchId_laws : CodecLaws MatchId.
Proof. unfold MatchId; apply _. Qed.
#[export] Instance OuchMatchId_laws : CodecLaws OuchMatchId.
Proof. unfold OuchMatchId; apply _. Qed.
#[export] Instance ComboGroupId_laws : CodecLaws ComboGroupId.
Proof. unfold ComboGroupId; apply _. Qed.
#[export] Instance Quantity_laws : CodecLaws Quantity.
Proof. unfold Quantity; apply _. Qed.
#[export] Instance OrderbookId_laws : CodecLaws OrderbookId.
Proof. unfold OrderbookId; apply _. Qed.
#[export] Instance OrderId_laws : CodecLaws OrderId.
Proof. unfold OrderId; apply _. Qed.
#[export] Instance Price_laws : CodecLaws Price.
Proof. unfold Price; apply _. Qed.
#[export] Instance OrderAttributes_laws : CodecLaws OrderAttributes.
Proof. unfold OrderAttributes; apply _. Qed.
#[export] Instance NumberOfDecimalsInPrice_laws : CodecLaws NumberOfDecimalsInPrice.
Proof. unfold NumberOfDecimalsInPrice; apply _. Qed.
#[export] Instance LotSize_laws : CodecLaws LotSize.
Proof. unfold LotSize; apply _. Qed.
#[export] Instance NominalValue_laws : CodecLaws NominalValue.
Proof. unfold NominalValue; apply _. Qed.
#[export] Instance NumberOfLegs_laws : CodecLaws NumberOfLegs.
Proof. unfold NumberOfLegs; apply _. Qed.
#[export] Instance ExpirationDate_laws : CodecLaws ExpirationDate.
Proof. unfold ExpirationDate; apply _. Qed.
#[export] Instance LegRatio_laws : CodecLaws LegRatio.
Proof. unfold LegRatio; apply _. Qed.
#[export] Instance TickSize_laws : CodecLaws TickSize.
Proof. unfold TickSize; apply _. Qed.
#[export] Instance OrderbookPosition_laws : CodecLaws OrderbookPosition.
Proof. unfold OrderbookPosition; apply _. Qed.
#[export] Instance Second_laws : CodecLaws Second.
Proof. unfold Second; apply _. Qed.
#[export] Instance SequenceNumber_laws : CodecLaws SequenceNumber.
Proof. unfold SequenceNumber; apply _. Qed.
#[export] Instance MessageCount_laws : CodecLaws MessageCount.
Proof. unfold MessageCount; apply _. Qed.
#[export] Instance MessageLength_laws : CodecLaws MessageLength.
Proof. unfold MessageLength; apply _. Qed.
#[export] Instance Port_laws : CodecLaws Port.
Proof. unfold Port; apply _. Qed.
#[export] Instance enum1_laws : CodecLaws enum1.
Proof. unfold enum1; apply _. Qed.
#[export] Instance PacketLength_laws : CodecLaws PacketLength.
Proof. unfold PacketLength; apply _. Qed.
#[export] Instance Username_laws : CodecLaws Username.
Proof. unfold Username; apply _. Qed.
#[export] Instance Password_laws : CodecLaws Password.
Proof. unfold Password; apply _. Qed.
#[export] Instance SequenceNumberByteArray_laws : CodecLaws SequenceNumberByteArray.
Proof. unfold SequenceNumberByteArray; apply _. Qed.
