(* ===== verification/ItchMessages.v ===== *)
(** * ITCH messages

    Models the headers of lib/protocol/itch/: for every message, the offset constants of
    namespace [constants], the packed struct as a record of its members' values in host
    memory, and the struct's codec.  [X_layout] shows that the codec reads every member
    at the declared offset, that byte-swapping an integer member gives the big-endian
    number on the wire, and that the struct has the declared size; the values of the
    offsets are those of the static assertions, which WireStructs.v models.  The stream
    insertion operators are in ItchDisplay.v. *)
From S2P Require Import Prelude Bytes Codec Types.
Local Open Scope nat_scope.

(** ** AddOrder  (itch_add_order.hpp) *)

Definition ADD_ORDER_MSG_ORDER_ID_OFFSET : nat :=
  TIMESTAMP_NANOSECONDS_OFFSET + c_size TimestampNanoseconds.
Definition ADD_ORDER_MSG_ORDERBOOK_ID_OFFSET : nat :=
  ADD_ORDER_MSG_ORDER_ID_OFFSET + c_size OrderId.
Definition ADD_ORDER_MSG_SIDE_OFFSET : nat :=
  ADD_ORDER_MSG_ORDERBOOK_ID_OFFSET + c_size OrderbookId.
Definition ADD_ORDER_MSG_ORDERBOOK_POS_OFFSET : nat := ADD_ORDER_MSG_SIDE_OFFSET + c_size enum1.
Definition ADD_ORDER_MSG_QUANTITY_OFFSET : nat :=
  ADD_ORDER_MSG_ORDERBOOK_POS_OFFSET + c_size OrderbookPosition.
Definition ADD_ORDER_MSG_PRICE_OFFSET : nat := ADD_ORDER_MSG_QUANTITY_OFFSET + c_size Quantity.
Definition ADD_ORDER_MSG_ORDER_ATTR_OFFSET : nat := ADD_ORDER_MSG_PRICE_OFFSET + c_size Price.
Definition ADD_ORDER_MSG_LOT_TYPE_OFFSET : nat :=
  ADD_ORDER_MSG_ORDER_ATTR_OFFSET + c_size OrderAttributes.
Definition ADD_ORDER_MSG_SIZE : nat := ADD_ORDER_MSG_LOT_TYPE_OFFSET + c_size enum1.

Record AddOrder := Build_AddOrder {
  ao_type : byte;
  ao_nanoseconds : Z;
  ao_order_id : Z;
  ao_orderbook_id : Z;
  ao_side : byte;
  ao_orderbook_position : Z;
  ao_quantity : Z;
  ao_price : Z;
  ao_order_attributes : Z;
  ao_lot_type : byte;
}.

Definition AddOrder_codec : codec AddOrder := isoc
  (enum1 ⊗ TimestampNanoseconds ⊗ OrderId ⊗ OrderbookId ⊗ enum1 ⊗ OrderbookPosition ⊗
   Quantity ⊗ Price ⊗ OrderAttributes ⊗ enum1)
  (λ '(type, (nanoseconds, (order_id, (orderbook_id, (side, (orderbook_position,
     (quantity, (price, (order_attributes, lot_type))))))))),
     Build_AddOrder type nanoseconds order_id orderbook_id side orderbook_position
       quantity price order_attributes lot_type)
  (λ m, (ao_type m, (ao_nanoseconds m, (ao_order_id m, (ao_orderbook_id m, (ao_side m,
     (ao_orderbook_position m, (ao_quantity m, (ao_price m, (ao_order_attributes m,
     ao_lot_type m)))))))))).

#[export] Instance AddOrder_laws : CodecLaws AddOrder_codec.
Proof. solve_codec. Qed.

Lemma AddOrder_layout (bs : list byte) (m : AddOrder) :
  c_dec AddOrder_codec bs = Some m →
  length bs = ADD_ORDER_MSG_SIZE ∧
  bs !! MSG_TYPE_OFFSET = Some (ao_type m) ∧
  be32toh (ao_nanoseconds m) = be_load (slice TIMESTAMP_NANOSECONDS_OFFSET 4 bs) ∧
  be64toh (ao_order_id m) = be_load (slice ADD_ORDER_MSG_ORDER_ID_OFFSET 8 bs) ∧
  be32toh (ao_orderbook_id m) = be_load (slice ADD_ORDER_MSG_ORDERBOOK_ID_OFFSET 4 bs) ∧
  bs !! ADD_ORDER_MSG_SIDE_OFFSET = Some (ao_side m) ∧
  be32toh (ao_orderbook_position m) = be_load (slice ADD_ORDER_MSG_ORDERBOOK_POS_OFFSET 4 bs) ∧
  be64toh (ao_quantity m) = be_load (slice ADD_ORDER_MSG_QUANTITY_OFFSET 8 bs) ∧
  be32toh (ao_price m) = be_load (slice ADD_ORDER_MSG_PRICE_OFFSET 4 bs) ∧
  be16toh (ao_order_attributes m) = be_load (slice ADD_ORDER_MSG_ORDER_ATTR_OFFSET 2 bs) ∧
  bs !! ADD_ORDER_MSG_LOT_TYPE_OFFSET = Some (ao_lot_type m).
Proof. struct_layout. Qed.

(** ** AddOrderWithMPID  (itch_add_order_with_mpid.hpp) *)

Definition ADD_ORDER_WITH_MPID_MSG_ORDER_ID_OFFSET : nat :=
  TIMESTAMP_NANOSECONDS_OFFSET + c_size TimestampNanoseconds.
Definition ADD_ORDER_WITH_MPID_MSG_ORDERBOOK_ID_OFFSET : nat :=
  ADD_ORDER_WITH_MPID_MSG_ORDER_ID_OFFSET + c_size OrderId.
Definition ADD_ORDER_WITH_MPID_MSG_SIDE_OFFSET : nat :=
  ADD_ORDER_WITH_MPID_MSG_ORDERBOOK_ID_OFFSET + c_size OrderbookId.
Definition ADD_ORDER_WITH_MPID_MSG_ORDERBOOK_POS_OFFSET : nat :=
  ADD_ORDER_WITH_MPID_MSG_SIDE_OFFSET + c_size enum1.
Definition ADD_ORDER_WITH_MPID_MSG_QUANTITY_OFFSET : nat :=
  ADD_ORDER_WITH_MPID_MSG_ORDERBOOK_POS_OFFSET + c_size OrderbookPosition.
Definition ADD_ORDER_WITH_MPID_MSG_PRICE_OFFSET : nat :=
  ADD_ORDER_WITH_MPID_MSG_QUANTITY_OFFSET + c_size Quantity.
Definition ADD_ORDER_WITH_MPID_MSG_ORDER_ATTR_OFFSET : nat :=
  ADD_ORDER_WITH_MPID_MSG_PRICE_OFFSET + c_size Price.
Definition ADD_ORDER_WITH_MPID_MSG_LOT_TYPE_OFFSET : nat :=
  ADD_ORDER_WITH_MPID_MSG_ORDER_ATTR_OFFSET + c_size OrderAttributes.
Definition ADD_ORDER_WITH_MPID_MSG_PARTICIPANT_ID_OFFSET : nat :=
  ADD_ORDER_WITH_MPID_MSG_LOT_TYPE_OFFSET + c_size enum1.
Definition PARTICIPANT_ID_SIZE : nat := 7.
Definition ADD_ORDER_WITH_MPID_MSG_SIZE : nat :=
  ADD_ORDER_WITH_MPID_MSG_PARTICIPANT_ID_OFFSET + PARTICIPANT_ID_SIZE.

Record AddOrderWithMPID := Build_AddOrderWithMPID {
  aom_type : byte;
  aom_nanoseconds : Z;
  aom_order_id : Z;
  aom_orderbook_id : Z;
  aom_side : byte;
  aom_orderbook_position : Z;
  aom_quantity : Z;
  aom_price : Z;
  aom_order_attributes : Z;
  aom_lot_type : byte;
  aom_participant_id : list byte;
}.

Definition AddOrderWithMPID_codec : codec AddOrderWithMPID := isoc
  (enum1 ⊗ TimestampNanoseconds ⊗ OrderId ⊗ OrderbookId ⊗ enum1 ⊗ OrderbookPosition ⊗
   Quantity ⊗ Price ⊗ OrderAttributes ⊗ enum1 ⊗ chars PARTICIPANT_ID_SIZE)
  (λ '(type, (nanoseconds, (order_id, (orderbook_id, (side, (orderbook_position,
     (quantity, (price, (order_attributes, (lot_type, participant_id)))))))))),
     Build_AddOrderWithMPID type nanoseconds order_id orderbook_id side
       orderbook_position quantity price order_attributes lot_type participant_id)
  (λ m, (aom_type m, (aom_nanoseconds m, (aom_order_id m, (aom_orderbook_id m, (aom_side
     m, (aom_orderbook_position m, (aom_quantity m, (aom_price m, (aom_order_attributes
     m, (aom_lot_type m, aom_participant_id m))))))))))).

#[export] Instance AddOrderWithMPID_laws : CodecLaws AddOrderWithMPID_codec.
Proof. solve_codec. Qed.

Lemma AddOrderWithMPID_layout (bs : list byte) (m : AddOrderWithMPID) :
  c_dec AddOrderWithMPID_codec bs = Some m →
  length bs = ADD_ORDER_WITH_MPID_MSG_SIZE ∧
  bs !! MSG_TYPE_OFFSET = Some (aom_type m) ∧
  be32toh (aom_nanoseconds m) = be_load (slice TIMESTAMP_NANOSECONDS_OFFSET 4 bs) ∧
  be64toh (aom_order_id m) = be_load (slice ADD_ORDER_WITH_MPID_MSG_ORDER_ID_OFFSET 8 bs) ∧
  be32toh (aom_orderbook_id m) = be_load (slice ADD_ORDER_WITH_MPID_MSG_ORDERBOOK_ID_OFFSET 4 bs) ∧
  bs !! ADD_ORDER_WITH_MPID_MSG_SIDE_OFFSET = Some (aom_side m) ∧
  be32toh (aom_orderbook_position m) = be_load (slice ADD_ORDER_WITH_MPID_MSG_ORDERBOOK_POS_OFFSET 4 bs) ∧
  be64toh (aom_quantity m) = be_load (slice ADD_ORDER_WITH_MPID_MSG_QUANTITY_OFFSET 8 bs) ∧
  be32toh (aom_price m) = be_load (slice ADD_ORDER_WITH_MPID_MSG_PRICE_OFFSET 4 bs) ∧
  be16toh (aom_order_attributes m) = be_load (slice ADD_ORDER_WITH_MPID_MSG_ORDER_ATTR_OFFSET 2 bs) ∧
  bs !! ADD_ORDER_WITH_MPID_MSG_LOT_TYPE_OFFSET = Some (aom_lot_type m) ∧
  aom_participant_id m = slice ADD_ORDER_WITH_MPID_MSG_PARTICIPANT_ID_OFFSET PARTICIPANT_ID_SIZE bs.
Proof. struct_layout. Qed.

(** ** OrderDelete  (itch_order_delete.hpp) *)

Definition ORDER_DELETE_MSG_ORDER_ID_OFFSET : nat :=
  TIMESTAMP_NANOSECONDS_OFFSET + c_size TimestampNanoseconds.
Definition ORDER_DELETE_MSG_ORDERBOOK_ID_OFFSET : nat :=
  ORDER_DELETE_MSG_ORDER_ID_OFFSET + c_size OrderId.
Definition ORDER_DELETE_MSG_SIDE_OFFSET : nat :=
  ORDER_DELETE_MSG_ORDERBOOK_ID_OFFSET + c_size OrderbookId.
Definition ORDER_DELETE_MSG_SIZE : nat := ORDER_DELETE_MSG_SIDE_OFFSET + c_size enum1.

Record OrderDelete := Build_OrderDelete {
  od_type : byte;
  od_nanoseconds : Z;
  od_order_id : Z;
  od_orderbook_id : Z;
  od_side : byte;
}.

Definition OrderDelete_codec : codec OrderDelete := isoc
  (enum1 ⊗ TimestampNanoseconds ⊗ OrderId ⊗ OrderbookId ⊗ enum1)
  (λ '(type, (nanoseconds, (order_id, (orderbook_id, side)))),
     Build_OrderDelete type nanoseconds order_id orderbook_id side)
  (λ m, (od_type m, (od_nanoseconds m, (od_order_id m, (od_orderbook_id m, od_side m))))).

#[export] Instance OrderDelete_laws : CodecLaws OrderDelete_codec.
Proof. solve_codec. Qed.

Lemma OrderDelete_layout (bs : list byte) (m : OrderDelete) :
  c_dec OrderDelete_codec bs = Some m →
  length bs = ORDER_DELETE_MSG_SIZE ∧
  bs !! MSG_TYPE_OFFSET = Some (od_type m) ∧
  be32toh (od_nanoseconds m) = be_load (slice TIMESTAMP_NANOSECONDS_OFFSET 4 bs) ∧
  be64toh (od_order_id m) = be_load (slice ORDER_DELETE_MSG_ORDER_ID_OFFSET 8 bs) ∧
  be32toh (od_orderbook_id m) = be_load (slice ORDER_DELETE_MSG_ORDERBOOK_ID_OFFSET 4 bs) ∧
  bs !! ORDER_DELETE_MSG_SIDE_OFFSET = Some (od_side m).
Proof. struct_layout. Qed.

(** ** OrderExecuted  (itch_order_executed.hpp) *)

Definition ORDER_EXEC_MSG_RESERVED1_SIZE : nat := 7.
Definition ORDER_EXEC_MSG_RESERVED2_SIZE : nat := 7.
Definition ORDER_EXEC_MSG_ORDER_ID_OFFSET : nat :=
  TIMESTAMP_NANOSECONDS_OFFSET + c_size TimestampNanoseconds.
Definition ORDER_EXEC_MSG_ORDERBOOK_ID_OFFSET : nat :=
  ORDER_EXEC_MSG_ORDER_ID_OFFSET + c_size OrderId.
Definition ORDER_EXEC_MSG_SIDE_OFFSET : nat :=
  ORDER_EXEC_MSG_ORDERBOOK_ID_OFFSET + c_size OrderbookId.
Definition ORDER_EXEC_MSG_EXEC_QTY_OFFSET : nat := ORDER_EXEC_MSG_SIDE_OFFSET + c_size enum1.
Definition ORDER_EXEC_MSG_MATCH_ID_OFFSET : nat :=
  ORDER_EXEC_MSG_EXEC_QTY_OFFSET + c_size Quantity.
Definition ORDER_EXEC_MSG_COMBO_GROUP_ID_OFFSET : nat :=
  ORDER_EXEC_MSG_MATCH_ID_OFFSET + c_size MatchId.
Definition ORDER_EXEC_MSG_SIZE : nat :=
  ORDER_EXEC_MSG_COMBO_GROUP_ID_OFFSET + c_size ComboGroupId + ORDER_EXEC_MSG_RESERVED1_SIZE + ORDER_EXEC_MSG_RESERVED2_SIZE.

Record OrderExecuted := Build_OrderExecuted {
  oe_type : byte;
  oe_nanoseconds : Z;
  oe_order_id : Z;
  oe_orderbook_id : Z;
  oe_side : byte;
  oe_quantity : Z;
  oe_match_id : Z;
  oe_combo_group_id : Z;
  oe_reserved1 : list byte;
  oe_reserved2 : list byte;
}.

Definition OrderExecuted_codec : codec OrderExecuted := isoc
  (enum1 ⊗ TimestampNanoseconds ⊗ OrderId ⊗ OrderbookId ⊗ enum1 ⊗ Quantity ⊗ MatchId ⊗
   ComboGroupId ⊗ chars 7 ⊗ chars 7)
  (λ '(type, (nanoseconds, (order_id, (orderbook_id, (side, (quantity, (match_id,
     (combo_group_id, (reserved1, reserved2))))))))),
     Build_OrderExecuted type nanoseconds order_id orderbook_id side quantity
       match_id combo_group_id reserved1 reserved2)
  (λ m, (oe_type m, (oe_nanoseconds m, (oe_order_id m, (oe_orderbook_id m, (oe_side m,
     (oe_quantity m, (oe_match_id m, (oe_combo_group_id m, (oe_reserved1 m,
     oe_reserved2 m)))))))))).

#[export] Instance OrderExecuted_laws : CodecLaws OrderExecuted_codec.
Proof. solve_codec. Qed.

Lemma OrderExecuted_layout (bs : list byte) (m : OrderExecuted) :
  c_dec OrderExecuted_codec bs = Some m →
  length bs = ORDER_EXEC_MSG_SIZE ∧
  bs !! MSG_TYPE_OFFSET = Some (oe_type m) ∧
  be32toh (oe_nanoseconds m) = be_load (slice TIMESTAMP_NANOSECONDS_OFFSET 4 bs) ∧
  be64toh (oe_order_id m) = be_load (slice ORDER_EXEC_MSG_ORDER_ID_OFFSET 8 bs) ∧
  be32toh (oe_orderbook_id m) = be_load (slice ORDER_EXEC_MSG_ORDERBOOK_ID_OFFSET 4 bs) ∧
  bs !! ORDER_EXEC_MSG_SIDE_OFFSET = Some (oe_side m) ∧
  be64toh (oe_quantity m) = be_load (slice ORDER_EXEC_MSG_EXEC_QTY_OFFSET 8 bs) ∧
  be64toh (oe_match_id m) = be_load (slice ORDER_EXEC_MSG_MATCH_ID_OFFSET 8 bs) ∧
  be32toh (oe_combo_group_id m) = be_load (slice ORDER_EXEC_MSG_COMBO_GROUP_ID_OFFSET 4 bs) ∧
  oe_reserved1 m = slice 38 7 bs ∧
  oe_reserved2 m = slice 45 7 bs.
Proof. struct_layout. Qed.

(** ** OrderExecutedWithPrice  (itch_order_executed_with_price.hpp) *)

Definition ORDER_EXEC_WITH_PX_MSG_RESERVED1_SIZE : nat := 7.
Definition ORDER_EXEC_WITH_PX_MSG_RESERVED2_SIZE : nat := 7.
Definition ORDER_EXEC_WITH_PX_MSG_ORDER_ID_OFFSET : nat :=
  TIMESTAMP_NANOSECONDS_OFFSET + c_size TimestampNanoseconds.
Definition ORDER_EXEC_WITH_PX_MSG_ORDERBOOK_ID_OFFSET : nat :=
  ORDER_EXEC_WITH_PX_MSG_ORDER_ID_OFFSET + c_size OrderId.
Definition ORDER_EXEC_WITH_PX_MSG_SIDE_OFFSET : nat :=
  ORDER_EXEC_WITH_PX_MSG_ORDERBOOK_ID_OFFSET + c_size OrderbookId.
Definition ORDER_EXEC_WITH_PX_MSG_EXEC_QTY_OFFSET : nat :=
  ORDER_EXEC_WITH_PX_MSG_SIDE_OFFSET + c_size enum1.
Definition ORDER_EXEC_WITH_PX_MSG_MATCH_ID_OFFSET : nat :=
  ORDER_EXEC_WITH_PX_MSG_EXEC_QTY_OFFSET + c_size Quantity.
Definition ORDER_EXEC_WITH_PX_MSG_COMBO_GROUP_ID_OFFSET : nat :=
  ORDER_EXEC_WITH_PX_MSG_MATCH_ID_OFFSET + c_size MatchId.
Definition ORDER_EXEC_WITH_PX_MSG_TRADE_PX_OFFSET : nat :=
  ORDER_EXEC_WITH_PX_MSG_COMBO_GROUP_ID_OFFSET + c_size ComboGroupId + ORDER_EXEC_WITH_PX_MSG_RESERVED1_SIZE + ORDER_EXEC_WITH_PX_MSG_RESERVED2_SIZE.
Definition ORDER_EXEC_WITH_PX_MSG_OCCURRED_AT_CROSS_OFFSET : nat :=
  ORDER_EXEC_WITH_PX_MSG_TRADE_PX_OFFSET + c_size Price.
Definition ORDER_EXEC_WITH_PX_MSG_PRINTABLE_OFFSET : nat :=
  ORDER_EXEC_WITH_PX_MSG_OCCURRED_AT_CROSS_OFFSET + c_size enum1.
Definition ORDER_EXEC_WITH_PX_MSG_SIZE : nat :=
  ORDER_EXEC_WITH_PX_MSG_PRINTABLE_OFFSET + c_size enum1.

Record OrderExecutedWithPrice := Build_OrderExecutedWithPrice {
  oep_type : byte;
  oep_nanoseconds : Z;
  oep_order_id : Z;
  oep_orderbook_id : Z;
  oep_side : byte;
  oep_quantity : Z;
  oep_match_id : Z;
  oep_combo_group_id : Z;
  oep_reserved1 : list byte;
  oep_reserved2 : list byte;
  oep_trade_price : Z;
  oep_occurred_at_cross : byte;
  oep_printable : byte;
}.

Definition OrderExecutedWithPrice_codec : codec OrderExecutedWithPrice := isoc
  (enum1 ⊗ TimestampNanoseconds ⊗ OrderId ⊗ OrderbookId ⊗ enum1 ⊗ Quantity ⊗ MatchId ⊗
   ComboGroupId ⊗ chars ORDER_EXEC_WITH_PX_MSG_RESERVED1_SIZE ⊗ chars
   ORDER_EXEC_WITH_PX_MSG_RESERVED2_SIZE ⊗ Price ⊗ enum1 ⊗ enum1)
  (λ '(type, (nanoseconds, (order_id, (orderbook_id, (side, (quantity, (match_id,
     (combo_group_id, (reserved1, (reserved2, (trade_price, (occurred_at_cross,
     printable)))))))))))),
     Build_OrderExecutedWithPrice type nanoseconds order_id orderbook_id side
       quantity match_id combo_group_id reserved1 reserved2 trade_price
       occurred_at_cross printable)
  (λ m, (oep_type m, (oep_nanoseconds m, (oep_order_id m, (oep_orderbook_id m, (oep_side
     m, (oep_quantity m, (oep_match_id m, (oep_combo_group_id m, (oep_reserved1 m,
     (oep_reserved2 m, (oep_trade_price m, (oep_occurred_at_cross m, oep_printable
     m))))))))))))).

#[export] Instance OrderExecutedWithPrice_laws : CodecLaws OrderExecutedWithPrice_codec.
Proof. solve_codec. Qed.

Lemma OrderExecutedWithPrice_layout (bs : list byte) (m : OrderExecutedWithPrice) :
  c_dec OrderExecutedWithPrice_codec bs = Some m →
  length bs = ORDER_EXEC_WITH_PX_MSG_SIZE ∧
  bs !! MSG_TYPE_OFFSET = Some (oep_type m) ∧
  be32toh (oep_nanoseconds m) = be_load (slice TIMESTAMP_NANOSECONDS_OFFSET 4 bs) ∧
  be64toh (oep_order_id m) = be_load (slice ORDER_EXEC_WITH_PX_MSG_ORDER_ID_OFFSET 8 bs) ∧
  be32toh (oep_orderbook_id m) = be_load (slice ORDER_EXEC_WITH_PX_MSG_ORDERBOOK_ID_OFFSET 4 bs) ∧
  bs !! ORDER_EXEC_WITH_PX_MSG_SIDE_OFFSET = Some (oep_side m) ∧
  be64toh (oep_quantity m) = be_load (slice ORDER_EXEC_WITH_PX_MSG_EXEC_QTY_OFFSET 8 bs) ∧
  be64toh (oep_match_id m) = be_load (slice ORDER_EXEC_WITH_PX_MSG_MATCH_ID_OFFSET 8 bs) ∧
  be32toh (oep_combo_group_id m) = be_load (slice ORDER_EXEC_WITH_PX_MSG_COMBO_GROUP_ID_OFFSET 4 bs) ∧
  oep_reserved1 m = slice 38 ORDER_EXEC_WITH_PX_MSG_RESERVED1_SIZE bs ∧
  oep_reserved2 m = slice 45 ORDER_EXEC_WITH_PX_MSG_RESERVED2_SIZE bs ∧
  be32toh (oep_trade_price m) = be_load (slice ORDER_EXEC_WITH_PX_MSG_TRADE_PX_OFFSET 4 bs) ∧
  bs !! ORDER_EXEC_WITH_PX_MSG_OCCURRED_AT_CROSS_OFFSET = Some (oep_occurred_at_cross m) ∧
  bs !! ORDER_EXEC_WITH_PX_MSG_PRINTABLE_OFFSET = Some (oep_printable m).
Proof. struct_layout. Qed.

(** ** OrderReplace  (itch_order_replace.hpp) *)

Definition REPLACE_ORDER_MSG_ORDER_ID_OFFSET : nat :=
  TIMESTAMP_NANOSECONDS_OFFSET + c_size TimestampNanoseconds.
Definition REPLACE_ORDER_MSG_ORDERBOOK_ID_OFFSET : nat :=
  REPLACE_ORDER_MSG_ORDER_ID_OFFSET + c_size OrderId.
Definition REPLACE_ORDER_MSG_SIDE_OFFSET : nat :=
  REPLACE_ORDER_MSG_ORDERBOOK_ID_OFFSET + c_size OrderbookId.
Definition REPLACE_ORDER_MSG_ORDERBOOK_POS_OFFSET : nat :=
  REPLACE_ORDER_MSG_SIDE_OFFSET + c_size enum1.
Definition REPLACE_ORDER_MSG_QUANTITY_OFFSET : nat :=
  REPLACE_ORDER_MSG_ORDERBOOK_POS_OFFSET + c_size OrderbookPosition.
Definition REPLACE_ORDER_MSG_PRICE_OFFSET : nat :=
  REPLACE_ORDER_MSG_QUANTITY_OFFSET + c_size Quantity.
Definition REPLACE_ORDER_MSG_ORDER_ATTR_OFFSET : nat :=
  REPLACE_ORDER_MSG_PRICE_OFFSET + c_size Price.
Definition REPLACE_ORDER_MSG_SIZE : nat :=
  REPLACE_ORDER_MSG_ORDER_ATTR_OFFSET + c_size OrderAttributes.

Record OrderReplace := Build_OrderReplace {
  orp_type : byte;
  orp_nanoseconds : Z;
  orp_order_id : Z;
  orp_orderbook_id : Z;
  orp_side : byte;
  orp_orderbook_position : Z;
  orp_quantity : Z;
  orp_price : Z;
  orp_order_attributes : Z;
}.

Definition OrderReplace_codec : codec OrderReplace := isoc
  (enum1 ⊗ TimestampNanoseconds ⊗ OrderId ⊗ OrderbookId ⊗ enum1 ⊗ OrderbookPosition ⊗
   Quantity ⊗ Price ⊗ OrderAttributes)
  (λ '(type, (nanoseconds, (order_id, (orderbook_id, (side, (orderbook_position,
     (quantity, (price, order_attributes)))))))),
     Build_OrderReplace type nanoseconds order_id orderbook_id side
       orderbook_position quantity price order_attributes)
  (λ m, (orp_type m, (orp_nanoseconds m, (orp_order_id m, (orp_orderbook_id m, (orp_side
     m, (orp_orderbook_position m, (orp_quantity m, (orp_price m, orp_order_attributes
     m))))))))).

#[export] Instance OrderReplace_laws : CodecLaws OrderReplace_codec.
Proof. solve_codec. Qed.

Lemma OrderReplace_layout (bs : list byte) (m : OrderReplace) :
  c_dec OrderReplace_codec bs = Some m →
  length bs = REPLACE_ORDER_MSG_SIZE ∧
  bs !! MSG_TYPE_OFFSET = Some (orp_type m) ∧
  be32toh (orp_nanoseconds m) = be_load (slice TIMESTAMP_NANOSECONDS_OFFSET 4 bs) ∧
  be64toh (orp_order_id m) = be_load (slice REPLACE_ORDER_MSG_ORDER_ID_OFFSET 8 bs) ∧
  be32toh (orp_orderbook_id m) = be_load (slice REPLACE_ORDER_MSG_ORDERBOOK_ID_OFFSET 4 bs) ∧
  bs !! REPLACE_ORDER_MSG_SIDE_OFFSET = Some (orp_side m) ∧
  be32toh (orp_orderbook_position m) = be_load (slice REPLACE_ORDER_MSG_ORDERBOOK_POS_OFFSET 4 bs) ∧
  be64toh (orp_quantity m) = be_load (slice REPLACE_ORDER_MSG_QUANTITY_OFFSET 8 bs) ∧
  be32toh (orp_price m) = be_load (slice REPLACE_ORDER_MSG_PRICE_OFFSET 4 bs) ∧
  be16toh (orp_order_attributes m) = be_load (slice REPLACE_ORDER_MSG_ORDER_ATTR_OFFSET 2 bs).
Proof. struct_layout. Qed.

(** ** Trade  (itch_trade.hpp) *)

Definition TRADE_MSG_RESERVED1_SIZE : nat := 7.
Definition TRADE_MSG_RESERVED2_SIZE : nat := 7.
Definition TRADE_MSG_MATCH_ID_OFFSET : nat :=
  TIMESTAMP_NANOSECONDS_OFFSET + c_size TimestampNanoseconds.
Definition TRADE_MSG_COMBO_GROUP_ID_OFFSET : nat := TRADE_MSG_MATCH_ID_OFFSET + c_size MatchId.
Definition TRADE_MSG_SIDE_OFFSET : nat := TRADE_MSG_COMBO_GROUP_ID_OFFSET + c_size ComboGroupId.
Definition TRADE_MSG_QUANTITY_OFFSET : nat := TRADE_MSG_SIDE_OFFSET + c_size enum1.
Definition TRADE_MSG_ORDERBOOK_ID_OFFSET : nat := TRADE_MSG_QUANTITY_OFFSET + c_size Quantity.
Definition TRADE_MSG_TRADE_PRICE_OFFSET : nat :=
  TRADE_MSG_ORDERBOOK_ID_OFFSET + c_size OrderbookId.
Definition TRADE_MSG_PRINTABLE_OFFSET : nat :=
  TRADE_MSG_TRADE_PRICE_OFFSET + c_size Price + TRADE_MSG_RESERVED1_SIZE + TRADE_MSG_RESERVED2_SIZE.
Definition TRADE_MSG_OCCURRED_AT_CROSS_OFFSET : nat := TRADE_MSG_PRINTABLE_OFFSET + c_size enum1.
Definition TRADE_MSG_SIZE : nat := TRADE_MSG_OCCURRED_AT_CROSS_OFFSET + c_size enum1.

Record Trade := Build_Trade {
  tr_type : byte;
  tr_nanoseconds : Z;
  tr_match_id : Z;
  tr_combo_group_id : Z;
  tr_side : byte;
  tr_quantity : Z;
  tr_orderbook_id : Z;
  tr_trade_price : Z;
  tr_reserved1 : list byte;
  tr_reserved2 : list byte;
  tr_printable : byte;
  tr_occurred_at_cross : byte;
}.

Definition Trade_codec : codec Trade := isoc
  (enum1 ⊗ TimestampNanoseconds ⊗ MatchId ⊗ ComboGroupId ⊗ enum1 ⊗ Quantity ⊗ OrderbookId
   ⊗ Price ⊗ chars TRADE_MSG_RESERVED1_SIZE ⊗ chars TRADE_MSG_RESERVED2_SIZE ⊗ enum1 ⊗
   enum1)
  (λ '(type, (nanoseconds, (match_id, (combo_group_id, (side, (quantity, (orderbook_id,
     (trade_price, (reserved1, (reserved2, (printable, occurred_at_cross))))))))))),
     Build_Trade type nanoseconds match_id combo_group_id side quantity orderbook_id
       trade_price reserved1 reserved2 printable occurred_at_cross)
  (λ m, (tr_type m, (tr_nanoseconds m, (tr_match_id m, (tr_combo_group_id m, (tr_side m,
     (tr_quantity m, (tr_orderbook_id m, (tr_trade_price m, (tr_reserved1 m,
     (tr_reserved2 m, (tr_printable m, tr_occurred_at_cross m)))))))))))).

#[export] Instance Trade_laws : CodecLaws Trade_codec.
Proof. solve_codec. Qed.

Lemma Trade_layout (bs : list byte) (m : Trade) :
  c_dec Trade_codec bs = Some m →
  length bs = TRADE_MSG_SIZE ∧
  bs !! MSG_TYPE_OFFSET = Some (tr_type m) ∧
  be32toh (tr_nanoseconds m) = be_load (slice TIMESTAMP_NANOSECONDS_OFFSET 4 bs) ∧
  be64toh (tr_match_id m) = be_load (slice TRADE_MSG_MATCH_ID_OFFSET 8 bs) ∧
  be32toh (tr_combo_group_id m) = be_load (slice TRADE_MSG_COMBO_GROUP_ID_OFFSET 4 bs) ∧
  bs !! TRADE_MSG_SIDE_OFFSET = Some (tr_side m) ∧
  be64toh (tr_quantity m) = be_load (slice TRADE_MSG_QUANTITY_OFFSET 8 bs) ∧
  be32toh (tr_orderbook_id m) = be_load (slice TRADE_MSG_ORDERBOOK_ID_OFFSET 4 bs) ∧
  be32toh (tr_trade_price m) = be_load (slice TRADE_MSG_TRADE_PRICE_OFFSET 4 bs) ∧
  tr_reserved1 m = slice 34 TRADE_MSG_RESERVED1_SIZE bs ∧
  tr_reserved2 m = slice 41 TRADE_MSG_RESERVED2_SIZE bs ∧
  bs !! TRADE_MSG_PRINTABLE_OFFSET = Some (tr_printable m) ∧
  bs !! TRADE_MSG_OCCURRED_AT_CROSS_OFFSET = Some (tr_occurred_at_cross m).
Proof. struct_layout. Qed.

(** ** EquilibriumPriceUpdate  (itch_equilibrium_price_update.hpp) *)

Definition EQUILIBRIUM_PRICE_UPDATE_MSG_ORDERBOOK_ID_OFFSET : nat :=
  TIMESTAMP_NANOSECONDS_OFFSET + c_size TimestampNanoseconds.
Definition EQUILIBRIUM_PRICE_UPDATE_MSG_AVAILABLE_BID_QTY_EQUI_PX_OFFSET : nat :=
  EQUILIBRIUM_PRICE_UPDATE_MSG_ORDERBOOK_ID_OFFSET + c_size OrderbookId.
Definition EQUILIBRIUM_PRICE_UPDATE_MSG_AVAILABLE_ASK_QTY_EQUI_PX_OFFSET : nat :=
  EQUILIBRIUM_PRICE_UPDATE_MSG_AVAILABLE_BID_QTY_EQUI_PX_OFFSET + c_size Quantity.
Definition EQUILIBRIUM_PRICE_UPDATE_MSG_EQUI_PX_OFFSET : nat :=
  EQUILIBRIUM_PRICE_UPDATE_MSG_AVAILABLE_ASK_QTY_EQUI_PX_OFFSET + c_size Quantity.
Definition EQUILIBRIUM_PRICE_UPDATE_MSG_BEST_BID_PRICE_OFFSET : nat :=
  EQUILIBRIUM_PRICE_UPDATE_MSG_EQUI_PX_OFFSET + c_size Price.
Definition EQUILIBRIUM_PRICE_UPDATE_MSG_BEST_ASK_PRICE_OFFSET : nat :=
  EQUILIBRIUM_PRICE_UPDATE_MSG_BEST_BID_PRICE_OFFSET + c_size Price.
Definition EQUILIBRIUM_PRICE_UPDATE_MSG_BEST_BID_QTY_OFFSET : nat :=
  EQUILIBRIUM_PRICE_UPDATE_MSG_BEST_ASK_PRICE_OFFSET + c_size Price.
Definition EQUILIBRIUM_PRICE_UPDATE_MSG_BEST_ASK_QTY_OFFSET : nat :=
  EQUILIBRIUM_PRICE_UPDATE_MSG_BEST_BID_QTY_OFFSET + c_size Quantity.
Definition EQUILIBRIUM_PRICE_UPDATE_MSG_SIZE : nat :=
  EQUILIBRIUM_PRICE_UPDATE_MSG_BEST_ASK_QTY_OFFSET + c_size Quantity.

Record EquilibriumPriceUpdate := Build_EquilibriumPriceUpdate {
  epu_type : byte;
  epu_nanoseconds : Z;
  epu_orderbook_id : Z;
  epu_available_bid_quantity : Z;
  epu_available_ask_quantity : Z;
  epu_equilibrium_price : Z;
  epu_best_bid_price : Z;
  epu_best_ask_price : Z;
  epu_best_bid_quantity : Z;
  epu_best_ask_quantity : Z;
}.

Definition EquilibriumPriceUpdate_codec : codec EquilibriumPriceUpdate := isoc
  (enum1 ⊗ TimestampNanoseconds ⊗ OrderbookId ⊗ Quantity ⊗ Quantity ⊗ Price ⊗ Price ⊗
   Price ⊗ Quantity ⊗ Quantity)
  (λ '(type, (nanoseconds, (orderbook_id, (available_bid_quantity,
     (available_ask_quantity, (equilibrium_price, (best_bid_price, (best_ask_price,
     (best_bid_quantity, best_ask_quantity))))))))),
     Build_EquilibriumPriceUpdate type nanoseconds orderbook_id
       available_bid_quantity available_ask_quantity equilibrium_price best_bid_price
       best_ask_price best_bid_quantity best_ask_quantity)
  (λ m, (epu_type m, (epu_nanoseconds m, (epu_orderbook_id m, (epu_available_bid_quantity
     m, (epu_available_ask_quantity m, (epu_equilibrium_price m, (epu_best_bid_price m,
     (epu_best_ask_price m, (epu_best_bid_quantity m, epu_best_ask_quantity m)))))))))).

#[export] Instance EquilibriumPriceUpdate_laws : CodecLaws EquilibriumPriceUpdate_codec.
Proof. solve_codec. Qed.

Lemma EquilibriumPriceUpdate_layout (bs : list byte) (m : EquilibriumPriceUpdate) :
  c_dec EquilibriumPriceUpdate_codec bs = Some m →
  length bs = EQUILIBRIUM_PRICE_UPDATE_MSG_SIZE ∧
  bs !! MSG_TYPE_OFFSET = Some (epu_type m) ∧
  be32toh (epu_nanoseconds m) = be_load (slice TIMESTAMP_NANOSECONDS_OFFSET 4 bs) ∧
  be32toh (epu_orderbook_id m) = be_load (slice EQUILIBRIUM_PRICE_UPDATE_MSG_ORDERBOOK_ID_OFFSET 4 bs) ∧
  be64toh (epu_available_bid_quantity m) = be_load (slice EQUILIBRIUM_PRICE_UPDATE_MSG_AVAILABLE_BID_QTY_EQUI_PX_OFFSET 8 bs) ∧
  be64toh (epu_available_ask_quantity m) = be_load (slice EQUILIBRIUM_PRICE_UPDATE_MSG_AVAILABLE_ASK_QTY_EQUI_PX_OFFSET 8 bs) ∧
  be32toh (epu_equilibrium_price m) = be_load (slice EQUILIBRIUM_PRICE_UPDATE_MSG_EQUI_PX_OFFSET 4 bs) ∧
  be32toh (epu_best_bid_price m) = be_load (slice EQUILIBRIUM_PRICE_UPDATE_MSG_BEST_BID_PRICE_OFFSET 4 bs) ∧
  be32toh (epu_best_ask_price m) = be_load (slice EQUILIBRIUM_PRICE_UPDATE_MSG_BEST_ASK_PRICE_OFFSET 4 bs) ∧
  be64toh (epu_best_bid_quantity m) = be_load (slice EQUILIBRIUM_PRICE_UPDATE_MSG_BEST_BID_QTY_OFFSET 8 bs) ∧
  be64toh (epu_best_ask_quantity m) = be_load (slice EQUILIBRIUM_PRICE_UPDATE_MSG_BEST_ASK_QTY_OFFSET 8 bs).
Proof. struct_layout. Qed.

(** ** OrderbookFlush  (itch_orderbook_flush.hpp) *)

Definition ORDERBOOK_FLUSH_MSG_ORDERBOOK_ID_OFFSET : nat :=
  TIMESTAMP_NANOSECONDS_OFFSET + c_size TimestampNanoseconds.
Definition ORDERBOOK_FLUSH_MSG_SIZE : nat :=
  ORDERBOOK_FLUSH_MSG_ORDERBOOK_ID_OFFSET + c_size OrderbookId.

Record OrderbookFlush := Build_OrderbookFlush {
  obf_type : byte;
  obf_nanoseconds : Z;
  obf_orderbook_id : Z;
}.

Definition OrderbookFlush_codec : codec OrderbookFlush := isoc
  (enum1 ⊗ TimestampNanoseconds ⊗ OrderbookId)
  (λ '(type, (nanoseconds, orderbook_id)),
     Build_OrderbookFlush type nanoseconds orderbook_id)
  (λ m, (obf_type m, (obf_nanoseconds m, obf_orderbook_id m))).

#[export] Instance OrderbookFlush_laws : CodecLaws OrderbookFlush_codec.
Proof. solve_codec. Qed.

Lemma OrderbookFlush_layout (bs : list byte) (m : OrderbookFlush) :
  c_dec OrderbookFlush_codec bs = Some m →
  length bs = ORDERBOOK_FLUSH_MSG_SIZE ∧
  bs !! MSG_TYPE_OFFSET = Some (obf_type m) ∧
  be32toh (obf_nanoseconds m) = be_load (slice TIMESTAMP_NANOSECONDS_OFFSET 4 bs) ∧
  be32toh (obf_orderbook_id m) = be_load (slice ORDERBOOK_FLUSH_MSG_ORDERBOOK_ID_OFFSET 4 bs).
Proof. struct_layout. Qed.

(** ** Seconds  (itch_seconds.hpp) *)

Definition SECONDS_MSG_SIZE : nat := TIMESTAMP_NANOSECONDS_OFFSET + c_size Second.

Record Seconds := Build_Seconds {
  sec_type : byte;
  sec_second : Z;
}.

Definition Seconds_codec : codec Seconds := isoc
  (enum1 ⊗ TimestampNanoseconds)
  (λ '(type, second),
     Build_Seconds type second)
  (λ m, (sec_type m, sec_second m)).

#[export] Instance Seconds_laws : CodecLaws Seconds_codec.
Proof. solve_codec. Qed.

Lemma Seconds_layout (bs : list byte) (m : Seconds) :
  c_dec Seconds_codec bs = Some m →
  length bs = SECONDS_MSG_SIZE ∧
  bs !! MSG_TYPE_OFFSET = Some (sec_type m) ∧
  be32toh (sec_second m) = be_load (slice TIMESTAMP_NANOSECONDS_OFFSET 4 bs).
Proof. struct_layout. Qed.

(** ** OrderBookDirectory  (itch_orderbook_directory.hpp) *)

Definition ORDERBOOK_DIRECTORY_MSG_ORDERBOOK_ID_OFFSET : nat :=
  TIMESTAMP_NANOSECONDS_OFFSET + c_size TimestampNanoseconds.
Definition ORDERBOOK_DIRECTORY_MSG_SYMBOL_OFFSET : nat :=
  ORDERBOOK_DIRECTORY_MSG_ORDERBOOK_ID_OFFSET + c_size OrderbookId.
Definition SYMBOL_LENGTH : nat := 32.
Definition ORDERBOOK_DIRECTORY_MSG_LONG_NAME_OFFSET : nat :=
  ORDERBOOK_DIRECTORY_MSG_SYMBOL_OFFSET + SYMBOL_LENGTH.
Definition LONG_NAME_LENGTH : nat := 32.
Definition ORDERBOOK_DIRECTORY_MSG_ISIN_OFFSET : nat :=
  ORDERBOOK_DIRECTORY_MSG_LONG_NAME_OFFSET + LONG_NAME_LENGTH.
Definition ISIN_LENGTH : nat := 12.
Definition ORDERBOOK_DIRECTORY_MSG_FINANCIAL_PRODUCT_OFFSET : nat :=
  ORDERBOOK_DIRECTORY_MSG_ISIN_OFFSET + ISIN_LENGTH.
Definition ORDERBOOK_DIRECTORY_MSG_TRADING_CURRENCY_OFFSET : nat :=
  ORDERBOOK_DIRECTORY_MSG_FINANCIAL_PRODUCT_OFFSET + c_size enum1.
Definition TRADING_CURRENCY_LENGTH : nat := 3.
Definition ORDERBOOK_DIRECTORY_MSG_NUM_DECIMALS_IN_PRICE_OFFSET : nat :=
  ORDERBOOK_DIRECTORY_MSG_TRADING_CURRENCY_OFFSET + TRADING_CURRENCY_LENGTH.
Definition ORDERBOOK_DIRECTORY_MSG_NUM_DECIMALS_IN_NOMINAL_VAL_OFFSET : nat :=
  ORDERBOOK_DIRECTORY_MSG_NUM_DECIMALS_IN_PRICE_OFFSET + c_size NumberOfDecimalsInPrice.
Definition ORDERBOOK_DIRECTORY_MSG_ODD_LOT_SIZE_OFFSET : nat :=
  ORDERBOOK_DIRECTORY_MSG_NUM_DECIMALS_IN_NOMINAL_VAL_OFFSET + c_size NumberOfDecimalsInPrice.
Definition ORDERBOOK_DIRECTORY_MSG_ROUND_LOT_SIZE_OFFSET : nat :=
  ORDERBOOK_DIRECTORY_MSG_ODD_LOT_SIZE_OFFSET + c_size LotSize.
Definition ORDERBOOK_DIRECTORY_MSG_BLOCK_LOT_SIZE_OFFSET : nat :=
  ORDERBOOK_DIRECTORY_MSG_ROUND_LOT_SIZE_OFFSET + c_size LotSize.
Definition ORDERBOOK_DIRECTORY_MSG_NOMINAL_VAL_OFFSET : nat :=
  ORDERBOOK_DIRECTORY_MSG_BLOCK_LOT_SIZE_OFFSET + c_size LotSize.
Definition ORDERBOOK_DIRECTORY_MSG_NUM_OF_LEGS_OFFSET : nat :=
  ORDERBOOK_DIRECTORY_MSG_NOMINAL_VAL_OFFSET + c_size NominalValue.
Definition ORDERBOOK_DIRECTORY_MSG_UNDERLYING_ORDERBOOK_ID_OFFSET : nat :=
  ORDERBOOK_DIRECTORY_MSG_NUM_OF_LEGS_OFFSET + c_size NumberOfLegs.
Definition ORDERBOOK_DIRECTORY_MSG_STRIKE_PRICE_OFFSET : nat :=
  ORDERBOOK_DIRECTORY_MSG_UNDERLYING_ORDERBOOK_ID_OFFSET + c_size OrderbookId.
Definition ORDERBOOK_DIRECTORY_MSG_EXPIRATION_DATE_OFFSET : nat :=
  ORDERBOOK_DIRECTORY_MSG_STRIKE_PRICE_OFFSET + c_size Price.
Definition ORDERBOOK_DIRECTORY_MSG_NUM_OF_DECIMALS_IN_STRIKE_PRICE_OFFSET : nat :=
  ORDERBOOK_DIRECTORY_MSG_EXPIRATION_DATE_OFFSET + c_size ExpirationDate.
Definition ORDERBOOK_DIRECTORY_MSG_PUT_OR_CALL_OFFSET : nat :=
  ORDERBOOK_DIRECTORY_MSG_NUM_OF_DECIMALS_IN_STRIKE_PRICE_OFFSET + c_size NumberOfDecimalsInPrice.
Definition ORDERBOOK_DIRECTORY_MSG_SIZE : nat :=
  ORDERBOOK_DIRECTORY_MSG_PUT_OR_CALL_OFFSET + c_size enum1.

Record OrderBookDirectory := Build_OrderBookDirectory {
  obd_type : byte;
  obd_nanoseconds : Z;
  obd_orderbook_id : Z;
  obd_symbol : list byte;
  obd_long_name : list byte;
  obd_isin : list byte;
  obd_financial_product : byte;
  obd_trading_currency : list byte;
  obd_num_decimals_in_price : Z;
  obd_num_decimals_in_nominal_price : Z;
  obd_odd_lot_size : Z;
  obd_round_lot_size : Z;
  obd_block_lot_size : Z;
  obd_nominal_value : Z;
  obd_num_legs : Z;
  obd_underlying_orderbook_id : Z;
  obd_strike_price : Z;
  obd_expiration_date : Z;
  obd_num_decimals_in_strike_price : Z;
  obd_put_or_call : byte;
}.

Definition OrderBookDirectory_codec : codec OrderBookDirectory := isoc
  (enum1 ⊗ TimestampNanoseconds ⊗ OrderbookId ⊗ chars SYMBOL_LENGTH ⊗ chars
   LONG_NAME_LENGTH ⊗ chars ISIN_LENGTH ⊗ enum1 ⊗ chars TRADING_CURRENCY_LENGTH ⊗
   NumberOfDecimalsInPrice ⊗ NumberOfDecimalsInPrice ⊗ LotSize ⊗ LotSize ⊗ LotSize ⊗
   NominalValue ⊗ NumberOfLegs ⊗ OrderbookId ⊗ Price ⊗ ExpirationDate ⊗
   NumberOfDecimalsInPrice ⊗ enum1)
  (λ '(type, (nanoseconds, (orderbook_id, (symbol, (long_name, (isin,
     (financial_product, (trading_currency, (num_decimals_in_price,
     (num_decimals_in_nominal_price, (odd_lot_size, (round_lot_size, (block_lot_size,
     (nominal_value, (num_legs, (underlying_orderbook_id, (strike_price,
     (expiration_date, (num_decimals_in_strike_price, put_or_call))))))))))))))))))),
     Build_OrderBookDirectory type nanoseconds orderbook_id symbol long_name isin
       financial_product trading_currency num_decimals_in_price
       num_decimals_in_nominal_price odd_lot_size round_lot_size block_lot_size
       nominal_value num_legs underlying_orderbook_id strike_price expiration_date
       num_decimals_in_strike_price put_or_call)
  (λ m, (obd_type m, (obd_nanoseconds m, (obd_orderbook_id m, (obd_symbol m,
     (obd_long_name m, (obd_isin m, (obd_financial_product m, (obd_trading_currency m,
     (obd_num_decimals_in_price m, (obd_num_decimals_in_nominal_price m,
     (obd_odd_lot_size m, (obd_round_lot_size m, (obd_block_lot_size m,
     (obd_nominal_value m, (obd_num_legs m, (obd_underlying_orderbook_id m,
     (obd_strike_price m, (obd_expiration_date m, (obd_num_decimals_in_strike_price m,
     obd_put_or_call m)))))))))))))))))))).

#[export] Instance OrderBookDirectory_laws : CodecLaws OrderBookDirectory_codec.
Proof. solve_codec. Qed.

Lemma OrderBookDirectory_layout (bs : list byte) (m : OrderBookDirectory) :
  c_dec OrderBookDirectory_codec bs = Some m →
  length bs = ORDERBOOK_DIRECTORY_MSG_SIZE ∧
  bs !! MSG_TYPE_OFFSET = Some (obd_type m) ∧
  be32toh (obd_nanoseconds m) = be_load (slice TIMESTAMP_NANOSECONDS_OFFSET 4 bs) ∧
  be32toh (obd_orderbook_id m) = be_load (slice ORDERBOOK_DIRECTORY_MSG_ORDERBOOK_ID_OFFSET 4 bs) ∧
  obd_symbol m = slice ORDERBOOK_DIRECTORY_MSG_SYMBOL_OFFSET SYMBOL_LENGTH bs ∧
  obd_long_name m = slice ORDERBOOK_DIRECTORY_MSG_LONG_NAME_OFFSET LONG_NAME_LENGTH bs ∧
  obd_isin m = slice ORDERBOOK_DIRECTORY_MSG_ISIN_OFFSET ISIN_LENGTH bs ∧
  bs !! ORDERBOOK_DIRECTORY_MSG_FINANCIAL_PRODUCT_OFFSET = Some (obd_financial_product m) ∧
  obd_trading_currency m = slice ORDERBOOK_DIRECTORY_MSG_TRADING_CURRENCY_OFFSET TRADING_CURRENCY_LENGTH bs ∧
  be16toh (obd_num_decimals_in_price m) = be_load (slice ORDERBOOK_DIRECTORY_MSG_NUM_DECIMALS_IN_PRICE_OFFSET 2 bs) ∧
  be16toh (obd_num_decimals_in_nominal_price m) = be_load (slice ORDERBOOK_DIRECTORY_MSG_NUM_DECIMALS_IN_NOMINAL_VAL_OFFSET 2 bs) ∧
  be32toh (obd_odd_lot_size m) = be_load (slice ORDERBOOK_DIRECTORY_MSG_ODD_LOT_SIZE_OFFSET 4 bs) ∧
  be32toh (obd_round_lot_size m) = be_load (slice ORDERBOOK_DIRECTORY_MSG_ROUND_LOT_SIZE_OFFSET 4 bs) ∧
  be32toh (obd_block_lot_size m) = be_load (slice ORDERBOOK_DIRECTORY_MSG_BLOCK_LOT_SIZE_OFFSET 4 bs) ∧
  be64toh (obd_nominal_value m) = be_load (slice ORDERBOOK_DIRECTORY_MSG_NOMINAL_VAL_OFFSET 8 bs) ∧
  bswap 1 (obd_num_legs m) = be_load (slice ORDERBOOK_DIRECTORY_MSG_NUM_OF_LEGS_OFFSET 1 bs) ∧
  be32toh (obd_underlying_orderbook_id m) = be_load (slice ORDERBOOK_DIRECTORY_MSG_UNDERLYING_ORDERBOOK_ID_OFFSET 4 bs) ∧
  be32toh (obd_strike_price m) = be_load (slice ORDERBOOK_DIRECTORY_MSG_STRIKE_PRICE_OFFSET 4 bs) ∧
  be32toh (obd_expiration_date m) = be_load (slice ORDERBOOK_DIRECTORY_MSG_EXPIRATION_DATE_OFFSET 4 bs) ∧
  be16toh (obd_num_decimals_in_strike_price m) = be_load (slice ORDERBOOK_DIRECTORY_MSG_NUM_OF_DECIMALS_IN_STRIKE_PRICE_OFFSET 2 bs) ∧
  bs !! ORDERBOOK_DIRECTORY_MSG_PUT_OR_CALL_OFFSET = Some (obd_put_or_call m).
Proof. struct_layout. Qed.

(** ** CombinationOrderbookLeg  (itch_combination_orderbook_leg.hpp) *)

Definition COMBO_ORDERBOOK_LEG_MSG_COMBO_ORDERBOOK_ID_OFFSET : nat :=
  TIMESTAMP_NANOSECONDS_OFFSET + c_size TimestampNanoseconds.
Definition COMBO_ORDERBOOK_LEG_MSG_LEG_ORDERBOOK_ID_OFFSET : nat :=
  COMBO_ORDERBOOK_LEG_MSG_COMBO_ORDERBOOK_ID_OFFSET + c_size OrderbookId.
Definition COMBO_ORDERBOOK_LEG_MSG_LEG_SIDE_OFFSET : nat :=
  COMBO_ORDERBOOK_LEG_MSG_LEG_ORDERBOOK_ID_OFFSET + c_size OrderbookId.
Definition COMBO_ORDERBOOK_LEG_MSG_LEG_RATIO_OFFSET : nat :=
  COMBO_ORDERBOOK_LEG_MSG_LEG_SIDE_OFFSET + c_size enum1.
Definition COMBO_ORDERBOOK_LEG_MSG_SIZE : nat :=
  COMBO_ORDERBOOK_LEG_MSG_LEG_RATIO_OFFSET + c_size LegRatio.

Record CombinationOrderbookLeg := Build_CombinationOrderbookLeg {
  col_type : byte;
  col_nanoseconds : Z;
  col_combination_orderbook_id : Z;
  col_leg_orderbook_id : Z;
  col_leg_side : byte;
  col_leg_ratio : Z;
}.

Definition CombinationOrderbookLeg_codec : codec CombinationOrderbookLeg := isoc
  (enum1 ⊗ TimestampNanoseconds ⊗ OrderbookId ⊗ OrderbookId ⊗ enum1 ⊗ LegRatio)
  (λ '(type, (nanoseconds, (combination_orderbook_id, (leg_orderbook_id, (leg_side,
     leg_ratio))))),
     Build_CombinationOrderbookLeg type nanoseconds combination_orderbook_id
       leg_orderbook_id leg_side leg_ratio)
  (λ m, (col_type m, (col_nanoseconds m, (col_combination_orderbook_id m,
     (col_leg_orderbook_id m, (col_leg_side m, col_leg_ratio m)))))).

#[export] Instance CombinationOrderbookLeg_laws : CodecLaws CombinationOrderbookLeg_codec.
Proof. solve_codec. Qed.

Lemma CombinationOrderbookLeg_layout (bs : list byte) (m : CombinationOrderbookLeg) :
  c_dec CombinationOrderbookLeg_codec bs = Some m →
  length bs = COMBO_ORDERBOOK_LEG_MSG_SIZE ∧
  bs !! MSG_TYPE_OFFSET = Some (col_type m) ∧
  be32toh (col_nanoseconds m) = be_load (slice TIMESTAMP_NANOSECONDS_OFFSET 4 bs) ∧
  be32toh (col_combination_orderbook_id m) = be_load (slice COMBO_ORDERBOOK_LEG_MSG_COMBO_ORDERBOOK_ID_OFFSET 4 bs) ∧
  be32toh (col_leg_orderbook_id m) = be_load (slice COMBO_ORDERBOOK_LEG_MSG_LEG_ORDERBOOK_ID_OFFSET 4 bs) ∧
  bs !! COMBO_ORDERBOOK_LEG_MSG_LEG_SIDE_OFFSET = Some (col_leg_side m) ∧
  be32toh (col_leg_ratio m) = be_load (slice COMBO_ORDERBOOK_LEG_MSG_LEG_RATIO_OFFSET 4 bs).
Proof. struct_layout. Qed.

(** ** TickSizeTableEntry  (itch_tick_size_table_entry.hpp) *)

Definition TICK_SIZE_MSG_ORDERBOOK_ID_OFFSET : nat :=
  TIMESTAMP_NANOSECONDS_OFFSET + c_size TimestampNanoseconds.
Definition TICK_SIZE_MSG_TICK_SIZE_OFFSET : nat :=
  TICK_SIZE_MSG_ORDERBOOK_ID_OFFSET + c_size OrderbookId.
Definition TICK_SIZE_MSG_PRICE_FROM_OFFSET : nat :=
  TICK_SIZE_MSG_TICK_SIZE_OFFSET + c_size TickSize.
Definition TICK_SIZE_MSG_PRICE_TO_OFFSET : nat := TICK_SIZE_MSG_PRICE_FROM_OFFSET + c_size Price.
Definition TICK_SIZE_MSG_SIZE : nat := TICK_SIZE_MSG_PRICE_TO_OFFSET + c_size Price.

Record TickSizeTableEntry := Build_TickSizeTableEntry {
  tse_type : byte;
  tse_nanoseconds : Z;
  tse_orderbook_id : Z;
  tse_tick_size : Z;
  tse_price_from : Z;
  tse_price_to : Z;
}.

Definition TickSizeTableEntry_codec : codec TickSizeTableEntry := isoc
  (enum1 ⊗ TimestampNanoseconds ⊗ OrderbookId ⊗ TickSize ⊗ Price ⊗ Price)
  (λ '(type, (nanoseconds, (orderbook_id, (tick_size, (price_from, price_to))))),
     Build_TickSizeTableEntry type nanoseconds orderbook_id tick_size price_from
       price_to)
  (λ m, (tse_type m, (tse_nanoseconds m, (tse_orderbook_id m, (tse_tick_size m,
     (tse_price_from m, tse_price_to m)))))).

#[export] Instance TickSizeTableEntry_laws : CodecLaws TickSizeTableEntry_codec.
Proof. solve_codec. Qed.

Lemma TickSizeTableEntry_layout (bs : list byte) (m : TickSizeTableEntry) :
  c_dec TickSizeTableEntry_codec bs = Some m →
  length bs = TICK_SIZE_MSG_SIZE ∧
  bs !! MSG_TYPE_OFFSET = Some (tse_type m) ∧
  be32toh (tse_nanoseconds m) = be_load (slice TIMESTAMP_NANOSECONDS_OFFSET 4 bs) ∧
  be32toh (tse_orderbook_id m) = be_load (slice TICK_SIZE_MSG_ORDERBOOK_ID_OFFSET 4 bs) ∧
  be64toh (tse_tick_size m) = be_load (slice TICK_SIZE_MSG_TICK_SIZE_OFFSET 8 bs) ∧
  be32toh (tse_price_from m) = be_load (slice TICK_SIZE_MSG_PRICE_FROM_OFFSET 4 bs) ∧
  be32toh (tse_price_to m) = be_load (slice TICK_SIZE_MSG_PRICE_TO_OFFSET 4 bs).
Proof. struct_layout. Qed.

(** ** ShortSellStatus  (itch_short_sell_status.hpp) *)

Definition SHORT_SELL_MSG_ORDERBOOK_ID_OFFSET : nat :=
  TIMESTAMP_NANOSECONDS_OFFSET + c_size TimestampNanoseconds.
Definition SHORT_SELL_MSG_RESTRICTION_OFFSET : nat :=
  SHORT_SELL_MSG_ORDERBOOK_ID_OFFSET + c_size OrderbookId.
Definition SHORT_SELL_MSG_VALIDATION_OFFSET : nat := SHORT_SELL_MSG_RESTRICTION_OFFSET + 1.
Definition SHORT_SELL_MSG_SIZE : nat := SHORT_SELL_MSG_VALIDATION_OFFSET + 1.

Record ShortSellStatus := Build_ShortSellStatus {
  sss_type : byte;
  sss_nanoseconds : Z;
  sss_orderbook_id : Z;
  sss_short_sell_restriction : byte;
  sss_short_sell_validation : byte;
}.

Definition ShortSellStatus_codec : codec ShortSellStatus := isoc
  (enum1 ⊗ TimestampNanoseconds ⊗ OrderbookId ⊗ enum1 ⊗ enum1)
  (λ '(type, (nanoseconds, (orderbook_id, (short_sell_restriction,
     short_sell_validation)))),
     Build_ShortSellStatus type nanoseconds orderbook_id short_sell_restriction
       short_sell_validation)
  (λ m, (sss_type m, (sss_nanoseconds m, (sss_orderbook_id m, (sss_short_sell_restriction
     m, sss_short_sell_validation m))))).

#[export] Instance ShortSellStatus_laws : CodecLaws ShortSellStatus_codec.
Proof. solve_codec. Qed.

Lemma ShortSellStatus_layout (bs : list byte) (m : ShortSellStatus) :
  c_dec ShortSellStatus_codec bs = Some m →
  length bs = SHORT_SELL_MSG_SIZE ∧
  bs !! MSG_TYPE_OFFSET = Some (sss_type m) ∧
  be32toh (sss_nanoseconds m) = be_load (slice TIMESTAMP_NANOSECONDS_OFFSET 4 bs) ∧
  be32toh (sss_orderbook_id m) = be_load (slice SHORT_SELL_MSG_ORDERBOOK_ID_OFFSET 4 bs) ∧
  bs !! SHORT_SELL_MSG_RESTRICTION_OFFSET = Some (sss_short_sell_restriction m) ∧
  bs !! SHORT_SELL_MSG_VALIDATION_OFFSET = Some (sss_short_sell_validation m).
Proof. struct_layout. Qed.

(** ** SystemEvent  (itch_system_event.hpp) *)

Definition SYSTEM_EVENT_MSG_EVENT_CODE_OFFSET : nat :=
  TIMESTAMP_NANOSECONDS_OFFSET + c_size TimestampNanoseconds.
Definition SYSTEM_EVENT_MSG_SIZE : nat := SYSTEM_EVENT_MSG_EVENT_CODE_OFFSET + c_size enum1.

Record SystemEvent := Build_SystemEvent {
  se_type : byte;
  se_nanoseconds : Z;
  se_event_code : byte;
}.

Definition SystemEvent_codec : codec SystemEvent := isoc
  (enum1 ⊗ TimestampNanoseconds ⊗ enum1)
  (λ '(type, (nanoseconds, event_code)),
     Build_SystemEvent type nanoseconds event_code)
  (λ m, (se_type m, (se_nanoseconds m, se_event_code m))).

#[export] Instance SystemEvent_laws : CodecLaws SystemEvent_codec.
Proof. solve_codec. Qed.

Lemma SystemEvent_layout (bs : list byte) (m : SystemEvent) :
  c_dec SystemEvent_codec bs = Some m →
  length bs = SYSTEM_EVENT_MSG_SIZE ∧
  bs !! MSG_TYPE_OFFSET = Some (se_type m) ∧
  be32toh (se_nanoseconds m) = be_load (slice TIMESTAMP_NANOSECONDS_OFFSET 4 bs) ∧
  bs !! SYSTEM_EVENT_MSG_EVENT_CODE_OFFSET = Some (se_event_code m).
Proof. struct_layout. Qed.

(** ** OrderBookState  (itch_orderbook_state.hpp) *)

Definition ORDERBOOK_STATE_MSG_ORDERBOOK_ID_OFFSET : nat :=
  TIMESTAMP_NANOSECONDS_OFFSET + c_size TimestampNanoseconds.
Definition ORDERBOOK_STATE_MSG_STATE_NAME_OFFSET : nat :=
  ORDERBOOK_STATE_MSG_ORDERBOOK_ID_OFFSET + c_size OrderbookId.
Definition STATE_NAME_LENGTH : nat := 20.
Definition ORDERBOOK_STATE_MSG_SIZE : nat :=
  ORDERBOOK_STATE_MSG_STATE_NAME_OFFSET + STATE_NAME_LENGTH.

Record OrderBookState := Build_OrderBookState {
  obs_type : byte;
  obs_nanoseconds : Z;
  obs_orderbook_id : Z;
  obs_state_name : list byte;
}.

Definition OrderBookState_codec : codec OrderBookState := isoc
  (enum1 ⊗ TimestampNanoseconds ⊗ OrderbookId ⊗ chars STATE_NAME_LENGTH)
  (λ '(type, (nanoseconds, (orderbook_id, state_name))),
     Build_OrderBookState type nanoseconds orderbook_id state_name)
  (λ m, (obs_type m, (obs_nanoseconds m, (obs_orderbook_id m, obs_state_name m)))).

#[export] Instance OrderBookState_laws : CodecLaws OrderBookState_codec.
Proof. solve_codec. Qed.

Lemma OrderBookState_layout (bs : list byte) (m : OrderBookState) :
  c_dec OrderBookState_codec bs = Some m →
  length bs = ORDERBOOK_STATE_MSG_SIZE ∧
  bs !! MSG_TYPE_OFFSET = Some (obs_type m) ∧
  be32toh (obs_nanoseconds m) = be_load (slice TIMESTAMP_NANOSECONDS_OFFSET 4 bs) ∧
  be32toh (obs_orderbook_id m) = be_load (slice ORDERBOOK_STATE_MSG_ORDERBOOK_ID_OFFSET 4 bs) ∧
  obs_state_name m = slice ORDERBOOK_STATE_MSG_STATE_NAME_OFFSET STATE_NAME_LENGTH bs.
Proof. struct_layout. Qed.
