(* ===== verification/OuchMessages.v ===== *)
(** * OUCH messages

    Models the headers of lib/protocol/ouch/: the packed struct of every message as a
    record of its members' values in host memory, its codec, and its layout (offset and
    byte order of every member, total size as statically asserted).  The executed message
    is called [OuchOrderExecuted] here, apart from the ITCH message of the same name. *)
From S2P Require Import Prelude Bytes Codec Types.
Local Open Scope nat_scope.

(** A member of type [RejectCode], whose underlying type is [int32_t]. *)
Definition RejectCode_field : codec Z := sint 4.
#[export] Instance RejectCode_field_laws : CodecLaws RejectCode_field.
Proof. unfold RejectCode_field; apply _. Qed.

(** ** EnterOrder  (ouch_enter_order.hpp) *)

Record EnterOrder := Build_EnterOrder {
  eo_type : byte;
  eo_order_token : list byte;
  eo_orderbook_id : Z;
  eo_side : byte;
  eo_quantity : Z;
  eo_price : Z;
  eo_time_in_force : byte;
  eo_open_close : byte;
  eo_client_account : list byte;
  eo_customer_info : list byte;
  eo_exchange_info : list byte;
  eo_display_quantity : Z;
  eo_client_category : byte;
  eo_offhours : byte;
  eo_reserved : list byte;
}.

Definition EnterOrder_codec : codec EnterOrder := isoc
  (enum1 ⊗ OrderToken ⊗ OrderbookId ⊗ enum1 ⊗ Quantity ⊗ Price ⊗ enum1 ⊗ enum1 ⊗
   ClientAccount ⊗ CustomerInfo ⊗ ExchangeInfo ⊗ Quantity ⊗ enum1 ⊗ enum1 ⊗ chars 7)
  (λ '(type, (order_token, (orderbook_id, (side, (quantity, (price, (time_in_force,
     (open_close, (client_account, (customer_info, (exchange_info, (display_quantity,
     (client_category, (offhours, reserved)))))))))))))),
     Build_EnterOrder type order_token orderbook_id side quantity price time_in_force
       open_close client_account customer_info exchange_info display_quantity
       client_category offhours reserved)
  (λ m, (eo_type m, (eo_order_token m, (eo_orderbook_id m, (eo_side m, (eo_quantity m,
     (eo_price m, (eo_time_in_force m, (eo_open_close m, (eo_client_account m,
     (eo_customer_info m, (eo_exchange_info m, (eo_display_quantity m,
     (eo_client_category m, (eo_offhours m, eo_reserved m))))))))))))))).

#[export] Instance EnterOrder_laws : CodecLaws EnterOrder_codec.
Proof. solve_codec. Qed.

Lemma EnterOrder_layout (bs : list byte) (m : EnterOrder) :
  c_dec EnterOrder_codec bs = Some m →
  length bs = 114 ∧
  bs !! 0 = Some (eo_type m) ∧
  eo_order_token m = slice 1 14 bs ∧
  be32toh (eo_orderbook_id m) = be_load (slice 15 4 bs) ∧
  bs !! 19 = Some (eo_side m) ∧
  be64toh (eo_quantity m) = be_load (slice 20 8 bs) ∧
  be32toh (eo_price m) = be_load (slice 28 4 bs) ∧
  bs !! 32 = Some (eo_time_in_force m) ∧
  bs !! 33 = Some (eo_open_close m) ∧
  eo_client_account m = slice 34 16 bs ∧
  eo_customer_info m = slice 50 15 bs ∧
  eo_exchange_info m = slice 65 32 bs ∧
  be64toh (eo_display_quantity m) = be_load (slice 97 8 bs) ∧
  bs !! 105 = Some (eo_client_category m) ∧
  bs !! 106 = Some (eo_offhours m) ∧
  eo_reserved m = slice 107 7 bs.
Proof. struct_layout. Qed.

(** ** ReplaceOrder  (ouch_replace_order.hpp) *)

Record ReplaceOrder := Build_ReplaceOrder {
  ro_type : byte;
  ro_existing_order_token : list byte;
  ro_replacement_order_token : list byte;
  ro_quantity : Z;
  ro_price : Z;
  ro_open_close : byte;
  ro_client_account : list byte;
  ro_customer_info : list byte;
  ro_exchange_info : list byte;
  ro_display_quantity : Z;
  ro_client_category : byte;
  ro_reserved : list byte;
}.

Definition ReplaceOrder_codec : codec ReplaceOrder := isoc
  (enum1 ⊗ OrderToken ⊗ OrderToken ⊗ Quantity ⊗ Price ⊗ enum1 ⊗ ClientAccount ⊗
   CustomerInfo ⊗ ExchangeInfo ⊗ Quantity ⊗ enum1 ⊗ chars 8)
  (λ '(type, (existing_order_token, (replacement_order_token, (quantity, (price,
     (open_close, (client_account, (customer_info, (exchange_info, (display_quantity,
     (client_category, reserved))))))))))),
     Build_ReplaceOrder type existing_order_token replacement_order_token quantity
       price open_close client_account customer_info exchange_info display_quantity
       client_category reserved)
  (λ m, (ro_type m, (ro_existing_order_token m, (ro_replacement_order_token m,
     (ro_quantity m, (ro_price m, (ro_open_close m, (ro_client_account m,
     (ro_customer_info m, (ro_exchange_info m, (ro_display_quantity m,
     (ro_client_category m, ro_reserved m)))))))))))).

#[export] Instance ReplaceOrder_laws : CodecLaws ReplaceOrder_codec.
Proof. solve_codec. Qed.

Lemma ReplaceOrder_layout (bs : list byte) (m : ReplaceOrder) :
  c_dec ReplaceOrder_codec bs = Some m →
  length bs = 122 ∧
  bs !! 0 = Some (ro_type m) ∧
  ro_existing_order_token m = slice 1 14 bs ∧
  ro_replacement_order_token m = slice 15 14 bs ∧
  be64toh (ro_quantity m) = be_load (slice 29 8 bs) ∧
  be32toh (ro_price m) = be_load (slice 37 4 bs) ∧
  bs !! 41 = Some (ro_open_close m) ∧
  ro_client_account m = slice 42 16 bs ∧
  ro_customer_info m = slice 58 15 bs ∧
  ro_exchange_info m = slice 73 32 bs ∧
  be64toh (ro_display_quantity m) = be_load (slice 105 8 bs) ∧
  bs !! 113 = Some (ro_client_category m) ∧
  ro_reserved m = slice 114 8 bs.
Proof. struct_layout. Qed.

(** ** CancelOrder  (ouch_cancel_order.hpp) *)

Record CancelOrder := Build_CancelOrder {
  co_type : byte;
  co_order_token : list byte;
}.

Definition CancelOrder_codec : codec CancelOrder := isoc
  (enum1 ⊗ OrderToken)
  (λ '(type, order_token),
     Build_CancelOrder type order_token)
  (λ m, (co_type m, co_order_token m)).

#[export] Instance CancelOrder_laws : CodecLaws CancelOrder_codec.
Proof. solve_codec. Qed.

Lemma CancelOrder_layout (bs : list byte) (m : CancelOrder) :
  c_dec CancelOrder_codec bs = Some m →
  length bs = 15 ∧
  bs !! 0 = Some (co_type m) ∧
  co_order_token m = slice 1 14 bs.
Proof. struct_layout. Qed.

(** ** CancelOrderByOrderId  (ouch_cancel_by_order_id.hpp) *)

Record CancelOrderByOrderId := Build_CancelOrderByOrderId {
  coi_type : byte;
  coi_orderbook_id : Z;
  coi_side : byte;
  coi_order_id : Z;
}.

Definition CancelOrderByOrderId_codec : codec CancelOrderByOrderId := isoc
  (enum1 ⊗ OrderbookId ⊗ enum1 ⊗ OrderId)
  (λ '(type, (orderbook_id, (side, order_id))),
     Build_CancelOrderByOrderId type orderbook_id side order_id)
  (λ m, (coi_type m, (coi_orderbook_id m, (coi_side m, coi_order_id m)))).

#[export] Instance CancelOrderByOrderId_laws : CodecLaws CancelOrderByOrderId_codec.
Proof. solve_codec. Qed.

Lemma CancelOrderByOrderId_layout (bs : list byte) (m : CancelOrderByOrderId) :
  c_dec CancelOrderByOrderId_codec bs = Some m →
  length bs = 14 ∧
  bs !! 0 = Some (coi_type m) ∧
  be32toh (coi_orderbook_id m) = be_load (slice 1 4 bs) ∧
  bs !! 5 = Some (coi_side m) ∧
  be64toh (coi_order_id m) = be_load (slice 6 8 bs).
Proof. struct_layout. Qed.

(** ** OrderAccepted  (ouch_order_accepted.hpp) *)

Record OrderAccepted := Build_OrderAccepted {
  oa_type : byte;
  oa_timestamp : Z;
  oa_order_token : list byte;
  oa_orderbook_id : Z;
  oa_side : byte;
  oa_order_id : Z;
  oa_quantity : Z;
  oa_price : Z;
  oa_time_in_force : byte;
  oa_open_close : byte;
  oa_client_account : list byte;
  oa_order_state : byte;
  oa_customer_info : list byte;
  oa_exchange_info : list byte;
  oa_pre_trade_quantity : Z;
  oa_display_quantity : Z;
  oa_client_category : byte;
  oa_offhours : byte;
  oa_reserved : list byte;
}.

Definition OrderAccepted_codec : codec OrderAccepted := isoc
  (enum1 ⊗ TimestampOuchNanoseconds ⊗ OrderToken ⊗ OrderbookId ⊗ enum1 ⊗ OrderId ⊗
   Quantity ⊗ Price ⊗ enum1 ⊗ enum1 ⊗ ClientAccount ⊗ enum1 ⊗ CustomerInfo ⊗
   ExchangeInfo ⊗ Quantity ⊗ Quantity ⊗ enum1 ⊗ enum1 ⊗ chars 3)
  (λ '(type, (timestamp, (order_token, (orderbook_id, (side, (order_id, (quantity,
     (price, (time_in_force, (open_close, (client_account, (order_state,
     (customer_info, (exchange_info, (pre_trade_quantity, (display_quantity,
     (client_category, (offhours, reserved)))))))))))))))))),
     Build_OrderAccepted type timestamp order_token orderbook_id side order_id
       quantity price time_in_force open_close client_account order_state customer_info
       exchange_info pre_trade_quantity display_quantity client_category offhours
       reserved)
  (λ m, (oa_type m, (oa_timestamp m, (oa_order_token m, (oa_orderbook_id m, (oa_side m,
     (oa_order_id m, (oa_quantity m, (oa_price m, (oa_time_in_force m, (oa_open_close
     m, (oa_client_account m, (oa_order_state m, (oa_customer_info m, (oa_exchange_info
     m, (oa_pre_trade_quantity m, (oa_display_quantity m, (oa_client_category m,
     (oa_offhours m, oa_reserved m))))))))))))))))))).

#[export] Instance OrderAccepted_laws : CodecLaws OrderAccepted_codec.
Proof. solve_codec. Qed.

Lemma OrderAccepted_layout (bs : list byte) (m : OrderAccepted) :
  c_dec OrderAccepted_codec bs = Some m →
  length bs = 135 ∧
  bs !! 0 = Some (oa_type m) ∧
  be64toh (oa_timestamp m) = be_load (slice 1 8 bs) ∧
  oa_order_token m = slice 9 14 bs ∧
  be32toh (oa_orderbook_id m) = be_load (slice 23 4 bs) ∧
  bs !! 27 = Some (oa_side m) ∧
  be64toh (oa_order_id m) = be_load (slice 28 8 bs) ∧
  be64toh (oa_quantity m) = be_load (slice 36 8 bs) ∧
  be32toh (oa_price m) = be_load (slice 44 4 bs) ∧
  bs !! 48 = Some (oa_time_in_force m) ∧
  bs !! 49 = Some (oa_open_close m) ∧
  oa_client_account m = slice 50 16 bs ∧
  bs !! 66 = Some (oa_order_state m) ∧
  oa_customer_info m = slice 67 15 bs ∧
  oa_exchange_info m = slice 82 32 bs ∧
  be64toh (oa_pre_trade_quantity m) = be_load (slice 114 8 bs) ∧
  be64toh (oa_display_quantity m) = be_load (slice 122 8 bs) ∧
  bs !! 130 = Some (oa_client_category m) ∧
  bs !! 131 = Some (oa_offhours m) ∧
  oa_reserved m = slice 132 3 bs.
Proof. struct_layout. Qed.

(** ** OrderCanceled  (ouch_order_canceled.hpp) *)

Record OrderCanceled := Build_OrderCanceled {
  oc_type : byte;
  oc_timestamp : Z;
  oc_order_token : list byte;
  oc_orderbook_id : Z;
  oc_side : byte;
  oc_order_id : Z;
  oc_cancel_reason : byte;
}.

Definition OrderCanceled_codec : codec OrderCanceled := isoc
  (enum1 ⊗ TimestampOuchNanoseconds ⊗ OrderToken ⊗ OrderbookId ⊗ enum1 ⊗ OrderId ⊗
   enum1)
  (λ '(type, (timestamp, (order_token, (orderbook_id, (side, (order_id,
     cancel_reason)))))),
     Build_OrderCanceled type timestamp order_token orderbook_id side order_id
       cancel_reason)
  (λ m, (oc_type m, (oc_timestamp m, (oc_order_token m, (oc_orderbook_id m, (oc_side m,
     (oc_order_id m, oc_cancel_reason m))))))).

#[export] Instance OrderCanceled_laws : CodecLaws OrderCanceled_codec.
Proof. solve_codec. Qed.

Lemma OrderCanceled_layout (bs : list byte) (m : OrderCanceled) :
  c_dec OrderCanceled_codec bs = Some m →
  length bs = 37 ∧
  bs !! 0 = Some (oc_type m) ∧
  be64toh (oc_timestamp m) = be_load (slice 1 8 bs) ∧
  oc_order_token m = slice 9 14 bs ∧
  be32toh (oc_orderbook_id m) = be_load (slice 23 4 bs) ∧
  bs !! 27 = Some (oc_side m) ∧
  be64toh (oc_order_id m) = be_load (slice 28 8 bs) ∧
  bs !! 36 = Some (oc_cancel_reason m).
Proof. struct_layout. Qed.

(** ** OuchOrderExecuted  (ouch_order_executed.hpp) *)

Record OuchOrderExecuted := Build_OuchOrderExecuted {
  ox_type : byte;
  ox_timestamp : Z;
  ox_order_token : list byte;
  ox_orderbook_id : Z;
  ox_traded_quantity : Z;
  ox_trade_price : Z;
  ox_match_id : list byte;
  ox_client_category : byte;
  ox_reserved : list byte;
}.

Definition OuchOrderExecuted_codec : codec OuchOrderExecuted := isoc
  (enum1 ⊗ TimestampOuchNanoseconds ⊗ OrderToken ⊗ OrderbookId ⊗ Quantity ⊗ Price ⊗
   OuchMatchId ⊗ enum1 ⊗ chars 16)
  (λ '(type, (timestamp, (order_token, (orderbook_id, (traded_quantity, (trade_price,
     (match_id, (client_category, reserved)))))))),
     Build_OuchOrderExecuted type timestamp order_token orderbook_id traded_quantity
       trade_price match_id client_category reserved)
  (λ m, (ox_type m, (ox_timestamp m, (ox_order_token m, (ox_orderbook_id m,
     (ox_traded_quantity m, (ox_trade_price m, (ox_match_id m, (ox_client_category m,
     ox_reserved m))))))))).

#[export] Instance OuchOrderExecuted_laws : CodecLaws OuchOrderExecuted_codec.
Proof. solve_codec. Qed.

Lemma OuchOrderExecuted_layout (bs : list byte) (m : OuchOrderExecuted) :
  c_dec OuchOrderExecuted_codec bs = Some m →
  length bs = 68 ∧
  bs !! 0 = Some (ox_type m) ∧
  be64toh (ox_timestamp m) = be_load (slice 1 8 bs) ∧
  ox_order_token m = slice 9 14 bs ∧
  be32toh (ox_orderbook_id m) = be_load (slice 23 4 bs) ∧
  be64toh (ox_traded_quantity m) = be_load (slice 27 8 bs) ∧
  be32toh (ox_trade_price m) = be_load (slice 35 4 bs) ∧
  ox_match_id m = slice 39 12 bs ∧
  bs !! 51 = Some (ox_client_category m) ∧
  ox_reserved m = slice 52 16 bs.
Proof. struct_layout. Qed.

(** ** OrderRejected  (ouch_order_rejected.hpp) *)

Record OrderRejected := Build_OrderRejected {
  oj_type : byte;
  oj_timestamp : Z;
  oj_order_token : list byte;
  oj_reject_code : Z;
}.

Definition OrderRejected_codec : codec OrderRejected := isoc
  (enum1 ⊗ TimestampOuchNanoseconds ⊗ OrderToken ⊗ RejectCode_field)
  (λ '(type, (timestamp, (order_token, reject_code))),
     Build_OrderRejected type timestamp order_token reject_code)
  (λ m, (oj_type m, (oj_timestamp m, (oj_order_token m, oj_reject_code m)))).

#[export] Instance OrderRejected_laws : CodecLaws OrderRejected_codec.
Proof. solve_codec. Qed.

Lemma OrderRejected_layout (bs : list byte) (m : OrderRejected) :
  c_dec OrderRejected_codec bs = Some m →
  length bs = 27 ∧
  bs !! 0 = Some (oj_type m) ∧
  be64toh (oj_timestamp m) = be_load (slice 1 8 bs) ∧
  oj_order_token m = slice 9 14 bs ∧
  be32toh (oj_reject_code m) = be_load (slice 23 4 bs).
Proof. struct_layout. Qed.

(** ** OrderReplaced  (ouch_order_replaced.hpp) *)

Record OrderReplaced := Build_OrderReplaced {
  orr_type : byte;
  orr_timestamp : Z;
  orr_replacement_order_token : list byte;
  orr_previous_order_token : list byte;
  orr_orderbook_id : Z;
  orr_side : byte;
  orr_order_id : Z;
  orr_quantity : Z;
  orr_price : Z;
  orr_time_in_force : byte;
  orr_open_close : byte;
  orr_client_account : list byte;
  orr_order_state : byte;
  orr_customer_info : list byte;
  orr_exchange_info : list byte;
  orr_pre_trade_quantity : Z;
  orr_display_quantity : Z;
  orr_client_category : byte;
}.

Definition OrderReplaced_codec : codec OrderReplaced := isoc
  (enum1 ⊗ TimestampOuchNanoseconds ⊗ OrderToken ⊗ OrderToken ⊗ OrderbookId ⊗ enum1 ⊗
   OrderId ⊗ Quantity ⊗ Price ⊗ enum1 ⊗ enum1 ⊗ ClientAccount ⊗ enum1 ⊗ CustomerInfo ⊗
   ExchangeInfo ⊗ Quantity ⊗ Quantity ⊗ enum1)
  (λ '(type, (timestamp, (replacement_order_token, (previous_order_token, (orderbook_id,
     (side, (order_id, (quantity, (price, (time_in_force, (open_close, (client_account,
     (order_state, (customer_info, (exchange_info, (pre_trade_quantity,
     (display_quantity, client_category))))))))))))))))),
     Build_OrderReplaced type timestamp replacement_order_token previous_order_token
       orderbook_id side order_id quantity price time_in_force open_close
       client_account order_state customer_info exchange_info pre_trade_quantity
       display_quantity client_category)
  (λ m, (orr_type m, (orr_timestamp m, (orr_replacement_order_token m,
     (orr_previous_order_token m, (orr_orderbook_id m, (orr_side m, (orr_order_id m,
     (orr_quantity m, (orr_price m, (orr_time_in_force m, (orr_open_close m,
     (orr_client_account m, (orr_order_state m, (orr_customer_info m,
     (orr_exchange_info m, (orr_pre_trade_quantity m, (orr_display_quantity m,
     orr_client_category m)))))))))))))))))).

#[export] Instance OrderReplaced_laws : CodecLaws OrderReplaced_codec.
Proof. solve_codec. Qed.

Lemma OrderReplaced_layout (bs : list byte) (m : OrderReplaced) :
  c_dec OrderReplaced_codec bs = Some m →
  length bs = 145 ∧
  bs !! 0 = Some (orr_type m) ∧
  be64toh (orr_timestamp m) = be_load (slice 1 8 bs) ∧
  orr_replacement_order_token m = slice 9 14 bs ∧
  orr_previous_order_token m = slice 23 14 bs ∧
  be32toh (orr_orderbook_id m) = be_load (slice 37 4 bs) ∧
  bs !! 41 = Some (orr_side m) ∧
  be64toh (orr_order_id m) = be_load (slice 42 8 bs) ∧
  be64toh (orr_quantity m) = be_load (slice 50 8 bs) ∧
  be32toh (orr_price m) = be_load (slice 58 4 bs) ∧
  bs !! 62 = Some (orr_time_in_force m) ∧
  bs !! 63 = Some (orr_open_close m) ∧
  orr_client_account m = slice 64 16 bs ∧
  bs !! 80 = Some (orr_order_state m) ∧
  orr_customer_info m = slice 81 15 bs ∧
  orr_exchange_info m = slice 96 32 bs ∧
  be64toh (orr_pre_trade_quantity m) = be_load (slice 128 8 bs) ∧
  be64toh (orr_display_quantity m) = be_load (slice 136 8 bs) ∧
  bs !! 144 = Some (orr_client_category m).
Proof. struct_layout. Qed.
