(* ===== verification/SessionMessages.v ===== *)
(** * Session layer messages

    Models the headers of lib/protocol/soupbintcp/ (TCP order entry sessions) and
    lib/protocol/moldudp64/ (UDP market data packets): packed structs, codecs and
    layouts, as for the ITCH and OUCH messages.  A flexible array member ([char data[]])
    occupies no bytes of its struct and has no field here: the bytes that follow are
    reached through memory. *)
From S2P Require Import Prelude Bytes Codec Types.
Local Open Scope nat_scope.

(** ** ClientHeartbeat  (soupbintcp_client_heartbeat.hpp) *)

Record ClientHeartbeat := Build_ClientHeartbeat {
  ch_packetLength : Z;
  ch_packetType : byte;
}.

Definition ClientHeartbeat_codec : codec ClientHeartbeat := isoc
  (PacketLength ⊗ enum1)
  (λ '(packetLength, packetType),
     Build_ClientHeartbeat packetLength packetType)
  (λ m, (ch_packetLength m, ch_packetType m)).

#[export] Instance ClientHeartbeat_laws : CodecLaws ClientHeartbeat_codec.
Proof. solve_codec. Qed.

Lemma ClientHeartbeat_layout (bs : list byte) (m : ClientHeartbeat) :
  c_dec ClientHeartbeat_codec bs = Some m →
  length bs = 3 ∧
  be16toh (ch_packetLength m) = be_load (slice 0 2 bs) ∧
  bs !! 2 = Some (ch_packetType m).
Proof. struct_layout. Qed.

(** ** EndOfSession  (soupbintcp_end_of_session.hpp) *)

Record EndOfSession := Build_EndOfSession {
  es_packetLength : Z;
  es_packetType : byte;
}.

Definition EndOfSession_codec : codec EndOfSession := isoc
  (PacketLength ⊗ enum1)
  (λ '(packetLength, packetType),
     Build_EndOfSession packetLength packetType)
  (λ m, (es_packetLength m, es_packetType m)).

#[export] Instance EndOfSession_laws : CodecLaws EndOfSession_codec.
Proof. solve_codec. Qed.

Lemma EndOfSession_layout (bs : list byte) (m : EndOfSession) :
  c_dec EndOfSession_codec bs = Some m →
  length bs = 3 ∧
  be16toh (es_packetLength m) = be_load (slice 0 2 bs) ∧
  bs !! 2 = Some (es_packetType m).
Proof. struct_layout. Qed.

(** ** LoginAccepted  (soupbintcp_login_accepted.hpp) *)

Record LoginAccepted := Build_LoginAccepted {
  la_packetLength : Z;
  la_packetType : byte;
  la_session_name : list byte;
  la_sequenceNumber : list byte;
}.

Definition LoginAccepted_codec : codec LoginAccepted := isoc
  (PacketLength ⊗ enum1 ⊗ SessionName ⊗ SequenceNumberByteArray)
  (λ '(packetLength, (packetType, (session_name, sequenceNumber))),
     Build_LoginAccepted packetLength packetType session_name sequenceNumber)
  (λ m, (la_packetLength m, (la_packetType m, (la_session_name m, la_sequenceNumber m)))).

#[export] Instance LoginAccepted_laws : CodecLaws LoginAccepted_codec.
Proof. solve_codec. Qed.

Lemma LoginAccepted_layout (bs : list byte) (m : LoginAccepted) :
  c_dec LoginAccepted_codec bs = Some m →
  length bs = 33 ∧
  be16toh (la_packetLength m) = be_load (slice 0 2 bs) ∧
  bs !! 2 = Some (la_packetType m) ∧
  la_session_name m = slice 3 10 bs ∧
  la_sequenceNumber m = slice 13 20 bs.
Proof. struct_layout. Qed.

(** ** LoginRejected  (soupbintcp_login_rejected.hpp) *)

Record LoginRejected := Build_LoginRejected {
  lj_packetLength : Z;
  lj_packetType : byte;
  lj_reject_reason_code : byte;
}.

Definition LoginRejected_codec : codec LoginRejected := isoc
  (PacketLength ⊗ enum1 ⊗ enum1)
  (λ '(packetLength, (packetType, reject_reason_code)),
     Build_LoginRejected packetLength packetType reject_reason_code)
  (λ m, (lj_packetLength m, (lj_packetType m, lj_reject_reason_code m))).

#[export] Instance LoginRejected_laws : CodecLaws LoginRejected_codec.
Proof. solve_codec. Qed.

Lemma LoginRejected_layout (bs : list byte) (m : LoginRejected) :
  c_dec LoginRejected_codec bs = Some m →
  length bs = 4 ∧
  be16toh (lj_packetLength m) = be_load (slice 0 2 bs) ∧
  bs !! 2 = Some (lj_packetType m) ∧
  bs !! 3 = Some (lj_reject_reason_code m).
Proof. struct_layout. Qed.

(** ** LoginRequest  (soupbintcp_login_request.hpp) *)

Record LoginRequest := Build_LoginRequest {
  lr_packetLength : Z;
  lr_packetType : byte;
  lr_username : list byte;
  lr_password : list byte;
  lr_sessionName : list byte;
  lr_sequenceNumber : list byte;
}.

Definition LoginRequest_codec : codec LoginRequest := isoc
  (PacketLength ⊗ enum1 ⊗ Username ⊗ Password ⊗ SessionName ⊗ SequenceNumberByteArray)
  (λ '(packetLength, (packetType, (username, (password, (sessionName,
     sequenceNumber))))),
     Build_LoginRequest packetLength packetType username password sessionName
       sequenceNumber)
  (λ m, (lr_packetLength m, (lr_packetType m, (lr_username m, (lr_password m,
     (lr_sessionName m, lr_sequenceNumber m)))))).

#[export] Instance LoginRequest_laws : CodecLaws LoginRequest_codec.
Proof. solve_codec. Qed.

Lemma LoginRequest_layout (bs : list byte) (m : LoginRequest) :
  c_dec LoginRequest_codec bs = Some m →
  length bs = 49 ∧
  be16toh (lr_packetLength m) = be_load (slice 0 2 bs) ∧
  bs !! 2 = Some (lr_packetType m) ∧
  lr_username m = slice 3 6 bs ∧
  lr_password m = slice 9 10 bs ∧
  lr_sessionName m = slice 19 10 bs ∧
  lr_sequenceNumber m = slice 29 20 bs.
Proof. struct_layout. Qed.

(** ** LogoutRequest  (soupbintcp_logout_request.hpp) *)

Record LogoutRequest := Build_LogoutRequest {
  lo_packetLength : Z;
  lo_packetType : byte;
}.

Definition LogoutRequest_codec : codec LogoutRequest := isoc
  (PacketLength ⊗ enum1)
  (λ '(packetLength, packetType),
     Build_LogoutRequest packetLength packetType)
  (λ m, (lo_packetLength m, lo_packetType m)).

#[export] Instance LogoutRequest_laws : CodecLaws LogoutRequest_codec.
Proof. solve_codec. Qed.

Lemma LogoutRequest_layout (bs : list byte) (m : LogoutRequest) :
  c_dec LogoutRequest_codec bs = Some m →
  length bs = 3 ∧
  be16toh (lo_packetLength m) = be_load (slice 0 2 bs) ∧
  bs !! 2 = Some (lo_packetType m).
Proof. struct_layout. Qed.

(** ** SequencedData  (soupbintcp_sequenced_data.hpp) *)

Record SequencedData := Build_SequencedData {
  sd_packetLength : Z;
  sd_packetType : byte;
}.

Definition SequencedData_codec : codec SequencedData := isoc
  (PacketLength ⊗ enum1)
  (λ '(packetLength, packetType),
     Build_SequencedData packetLength packetType)
  (λ m, (sd_packetLength m, sd_packetType m)).

#[export] Instance SequencedData_laws : CodecLaws SequencedData_codec.
Proof. solve_codec. Qed.

Lemma SequencedData_layout (bs : list byte) (m : SequencedData) :
  c_dec SequencedData_codec bs = Some m →
  length bs = 3 ∧
  be16toh (sd_packetLength m) = be_load (slice 0 2 bs) ∧
  bs !! 2 = Some (sd_packetType m).
Proof. struct_layout. Qed.

(** ** ServerHeartbeat  (soupbintcp_server_heartbeat.hpp) *)

Record ServerHeartbeat := Build_ServerHeartbeat {
  sh_packetLength : Z;
  sh_packetType : byte;
}.

Definition ServerHeartbeat_codec : codec ServerHeartbeat := isoc
  (PacketLength ⊗ enum1)
  (λ '(packetLength, packetType),
     Build_ServerHeartbeat packetLength packetType)
  (λ m, (sh_packetLength m, sh_packetType m)).

#[export] Instance ServerHeartbeat_laws : CodecLaws ServerHeartbeat_codec.
Proof. solve_codec. Qed.

Lemma ServerHeartbeat_layout (bs : list byte) (m : ServerHeartbeat) :
  c_dec ServerHeartbeat_codec bs = Some m →
  length bs = 3 ∧
  be16toh (sh_packetLength m) = be_load (slice 0 2 bs) ∧
  bs !! 2 = Some (sh_packetType m).
Proof. struct_layout. Qed.

(** ** UnsequencedData  (soupbintcp_unsequenced_data.hpp) *)

Record UnsequencedData := Build_UnsequencedData {
  ud_packetLength : Z;
  ud_packetType : byte;
}.

Definition UnsequencedData_codec : codec UnsequencedData := isoc
  (PacketLength ⊗ enum1)
  (λ '(packetLength, packetType),
     Build_UnsequencedData packetLength packetType)
  (λ m, (ud_packetLength m, ud_packetType m)).

#[export] Instance UnsequencedData_laws : CodecLaws UnsequencedData_codec.
Proof. solve_codec. Qed.

Lemma UnsequencedData_layout (bs : list byte) (m : UnsequencedData) :
  c_dec UnsequencedData_codec bs = Some m →
  length bs = 3 ∧
  be16toh (ud_packetLength m) = be_load (slice 0 2 bs) ∧
  bs !! 2 = Some (ud_packetType m).
Proof. struct_layout. Qed.

(** ** MoldUDP64 *)

(** ** DownstreamHeader  (moldudp64_downstream_header.hpp) *)

Record DownstreamHeader := Build_DownstreamHeader {
  dh_session : list byte;
  dh_sequence_number : Z;
  dh_message_count : Z;
}.

Definition DownstreamHeader_codec : codec DownstreamHeader := isoc
  (SessionName ⊗ SequenceNumber ⊗ MessageCount)
  (λ '(session, (sequence_number, message_count)),
     Build_DownstreamHeader session sequence_number message_count)
  (λ m, (dh_session m, (dh_sequence_number m, dh_message_count m))).

#[export] Instance DownstreamHeader_laws : CodecLaws DownstreamHeader_codec.
Proof. solve_codec. Qed.

Lemma DownstreamHeader_layout (bs : list byte) (m : DownstreamHeader) :
  c_dec DownstreamHeader_codec bs = Some m →
  length bs = 20 ∧
  dh_session m = slice 0 10 bs ∧
  be64toh (dh_sequence_number m) = be_load (slice 10 8 bs) ∧
  be16toh (dh_message_count m) = be_load (slice 18 2 bs).
Proof. struct_layout. Qed.

(** ** MessageBlock  (moldudp64_message_block.hpp) *)

Record MessageBlock := Build_MessageBlock {
  mb_length : Z;
}.

Definition MessageBlock_codec : codec MessageBlock :=
  isoc MessageLength Build_MessageBlock mb_length.

#[export] Instance MessageBlock_laws : CodecLaws MessageBlock_codec.
Proof. solve_codec. Qed.

Lemma MessageBlock_layout (bs : list byte) (m : MessageBlock) :
  c_dec MessageBlock_codec bs = Some m →
  length bs = 2 ∧
  be16toh (mb_length m) = be_load (slice 0 2 bs).
Proof. struct_layout. Qed.
