(* ===== verification/WireStructs.v ===== *)
(** * The packed structs as a whole

    The static assertions of the headers of lib/protocol/ as executable definitions, the
    members of all packed structs with their places in the struct, written down apart from
    the codecs, and what reinterpreting a buffer as any of the structs gives.
    ([std::is_trivial_v] and [std::is_standard_layout_v] have no counterpart: a record of
    integers and byte strings with a codec is both.)  The character constants of
    lib/protocol/ouch/ouch_constants.hpp repeat the enumeration [PacketType]. *)
From S2P Require Import Prelude Bytes Codec Types ItchMessages OuchMessages SessionMessages.
Local Open Scope nat_scope.

(** ** Static assertions

    [X_offset_asserts] are those about the constants, [X_size_assert] the one about
    [sizeof(X)]. *)

Definition AddOrder_offset_asserts : bool :=
  (ADD_ORDER_MSG_ORDER_ID_OFFSET =? 5) && (ADD_ORDER_MSG_ORDERBOOK_ID_OFFSET =? 13) &&
  (ADD_ORDER_MSG_SIDE_OFFSET =? 17) && (ADD_ORDER_MSG_ORDERBOOK_POS_OFFSET =? 18) &&
  (ADD_ORDER_MSG_QUANTITY_OFFSET =? 22) && (ADD_ORDER_MSG_PRICE_OFFSET =? 30) &&
  (ADD_ORDER_MSG_ORDER_ATTR_OFFSET =? 34) && (ADD_ORDER_MSG_LOT_TYPE_OFFSET =? 36) &&
  (ADD_ORDER_MSG_SIZE =? 37).

Definition AddOrder_size_assert : bool := ADD_ORDER_MSG_SIZE =? c_size AddOrder_codec.

Definition AddOrderWithMPID_offset_asserts : bool :=
  (ADD_ORDER_WITH_MPID_MSG_ORDER_ID_OFFSET =? 5) &&
  (ADD_ORDER_WITH_MPID_MSG_ORDERBOOK_ID_OFFSET =? 13) &&
  (ADD_ORDER_WITH_MPID_MSG_SIDE_OFFSET =? 17) &&
  (ADD_ORDER_WITH_MPID_MSG_ORDERBOOK_POS_OFFSET =? 18) &&
  (ADD_ORDER_WITH_MPID_MSG_QUANTITY_OFFSET =? 22) &&
  (ADD_ORDER_WITH_MPID_MSG_PRICE_OFFSET =? 30) &&
  (ADD_ORDER_WITH_MPID_MSG_ORDER_ATTR_OFFSET =? 34) &&
  (ADD_ORDER_WITH_MPID_MSG_LOT_TYPE_OFFSET =? 36) &&
  (ADD_ORDER_WITH_MPID_MSG_PARTICIPANT_ID_OFFSET =? 37) && (ADD_ORDER_WITH_MPID_MSG_SIZE =? 44).

Definition AddOrderWithMPID_size_assert : bool := ADD_ORDER_WITH_MPID_MSG_SIZE =? c_size AddOrderWithMPID_codec.

Definition CombinationOrderbookLeg_offset_asserts : bool :=
  (COMBO_ORDERBOOK_LEG_MSG_COMBO_ORDERBOOK_ID_OFFSET =? 5) &&
  (COMBO_ORDERBOOK_LEG_MSG_LEG_ORDERBOOK_ID_OFFSET =? 9) &&
  (COMBO_ORDERBOOK_LEG_MSG_LEG_SIDE_OFFSET =? 13) &&
  (COMBO_ORDERBOOK_LEG_MSG_LEG_RATIO_OFFSET =? 14) && (COMBO_ORDERBOOK_LEG_MSG_SIZE =? 18).

Definition CombinationOrderbookLeg_size_assert : bool := COMBO_ORDERBOOK_LEG_MSG_SIZE =? c_size CombinationOrderbookLeg_codec.

Definition EquilibriumPriceUpdate_offset_asserts : bool :=
  (EQUILIBRIUM_PRICE_UPDATE_MSG_ORDERBOOK_ID_OFFSET =? 5) &&
  (EQUILIBRIUM_PRICE_UPDATE_MSG_AVAILABLE_BID_QTY_EQUI_PX_OFFSET =? 9) &&
  (EQUILIBRIUM_PRICE_UPDATE_MSG_AVAILABLE_ASK_QTY_EQUI_PX_OFFSET =? 17) &&
  (EQUILIBRIUM_PRICE_UPDATE_MSG_EQUI_PX_OFFSET =? 25) &&
  (EQUILIBRIUM_PRICE_UPDATE_MSG_BEST_BID_PRICE_OFFSET =? 29) &&
  (EQUILIBRIUM_PRICE_UPDATE_MSG_BEST_ASK_PRICE_OFFSET =? 33) &&
  (EQUILIBRIUM_PRICE_UPDATE_MSG_BEST_BID_QTY_OFFSET =? 37) &&
  (EQUILIBRIUM_PRICE_UPDATE_MSG_BEST_ASK_QTY_OFFSET =? 45) &&
  (EQUILIBRIUM_PRICE_UPDATE_MSG_SIZE =? 53).

Definition EquilibriumPriceUpdate_size_assert : bool := EQUILIBRIUM_PRICE_UPDATE_MSG_SIZE =? c_size EquilibriumPriceUpdate_codec.

Definition OrderDelete_offset_asserts : bool :=
  (ORDER_DELETE_MSG_ORDER_ID_OFFSET =? 5) && (ORDER_DELETE_MSG_ORDERBOOK_ID_OFFSET =? 13) &&
  (ORDER_DELETE_MSG_SIDE_OFFSET =? 17) && (ORDER_DELETE_MSG_SIZE =? 18).

Definition OrderDelete_size_assert : bool := ORDER_DELETE_MSG_SIZE =? c_size OrderDelete_codec.

Definition OrderExecuted_offset_asserts : bool :=
  (ORDER_EXEC_MSG_ORDER_ID_OFFSET =? 5) && (ORDER_EXEC_MSG_ORDERBOOK_ID_OFFSET =? 13) &&
  (ORDER_EXEC_MSG_SIDE_OFFSET =? 17) && (ORDER_EXEC_MSG_EXEC_QTY_OFFSET =? 18) &&
  (ORDER_EXEC_MSG_MATCH_ID_OFFSET =? 26) && (ORDER_EXEC_MSG_COMBO_GROUP_ID_OFFSET =? 34).

Definition OrderExecuted_size_assert : bool := ORDER_EXEC_MSG_SIZE =? c_size OrderExecuted_codec.

Definition OrderExecutedWithPrice_offset_asserts : bool :=
  (ORDER_EXEC_WITH_PX_MSG_ORDER_ID_OFFSET =? 5) &&
  (ORDER_EXEC_WITH_PX_MSG_ORDERBOOK_ID_OFFSET =? 13) &&
  (ORDER_EXEC_WITH_PX_MSG_SIDE_OFFSET =? 17) && (ORDER_EXEC_WITH_PX_MSG_EXEC_QTY_OFFSET =? 18) &&
  (ORDER_EXEC_WITH_PX_MSG_MATCH_ID_OFFSET =? 26) &&
  (ORDER_EXEC_WITH_PX_MSG_COMBO_GROUP_ID_OFFSET =? 34) &&
  (ORDER_EXEC_WITH_PX_MSG_TRADE_PX_OFFSET =? 52) &&
  (ORDER_EXEC_WITH_PX_MSG_OCCURRED_AT_CROSS_OFFSET =? 56) &&
  (ORDER_EXEC_WITH_PX_MSG_PRINTABLE_OFFSET =? 57) && (ORDER_EXEC_WITH_PX_MSG_SIZE =? 58).

Definition OrderExecutedWithPrice_size_assert : bool := ORDER_EXEC_WITH_PX_MSG_SIZE =? c_size OrderExecutedWithPrice_codec.

Definition OrderReplace_offset_asserts : bool :=
  (REPLACE_ORDER_MSG_ORDER_ID_OFFSET =? 5) && (REPLACE_ORDER_MSG_ORDERBOOK_ID_OFFSET =? 13) &&
  (REPLACE_ORDER_MSG_SIDE_OFFSET =? 17) && (REPLACE_ORDER_MSG_ORDERBOOK_POS_OFFSET =? 18) &&
  (REPLACE_ORDER_MSG_QUANTITY_OFFSET =? 22) && (REPLACE_ORDER_MSG_PRICE_OFFSET =? 30) &&
  (REPLACE_ORDER_MSG_ORDER_ATTR_OFFSET =? 34) && (REPLACE_ORDER_MSG_SIZE =? 36).

Definition OrderReplace_size_assert : bool := REPLACE_ORDER_MSG_SIZE =? c_size OrderReplace_codec.

Definition OrderBookDirectory_offset_asserts : bool :=
  (ORDERBOOK_DIRECTORY_MSG_ORDERBOOK_ID_OFFSET =? 5) &&
  (ORDERBOOK_DIRECTORY_MSG_SYMBOL_OFFSET =? 9) &&
  (ORDERBOOK_DIRECTORY_MSG_LONG_NAME_OFFSET =? 41) &&
  (ORDERBOOK_DIRECTORY_MSG_ISIN_OFFSET =? 73) &&
  (ORDERBOOK_DIRECTORY_MSG_FINANCIAL_PRODUCT_OFFSET =? 85) &&
  (ORDERBOOK_DIRECTORY_MSG_TRADING_CURRENCY_OFFSET =? 86) &&
  (ORDERBOOK_DIRECTORY_MSG_NUM_DECIMALS_IN_PRICE_OFFSET =? 89) &&
  (ORDERBOOK_DIRECTORY_MSG_NUM_DECIMALS_IN_NOMINAL_VAL_OFFSET =? 91) &&
  (ORDERBOOK_DIRECTORY_MSG_ODD_LOT_SIZE_OFFSET =? 93) &&
  (ORDERBOOK_DIRECTORY_MSG_ROUND_LOT_SIZE_OFFSET =? 97) &&
  (ORDERBOOK_DIRECTORY_MSG_BLOCK_LOT_SIZE_OFFSET =? 101) &&
  (ORDERBOOK_DIRECTORY_MSG_NOMINAL_VAL_OFFSET =? 105) &&
  (ORDERBOOK_DIRECTORY_MSG_NUM_OF_LEGS_OFFSET =? 113) &&
  (ORDERBOOK_DIRECTORY_MSG_UNDERLYING_ORDERBOOK_ID_OFFSET =? 114) &&
  (ORDERBOOK_DIRECTORY_MSG_STRIKE_PRICE_OFFSET =? 118) &&
  (ORDERBOOK_DIRECTORY_MSG_EXPIRATION_DATE_OFFSET =? 122) &&
  (ORDERBOOK_DIRECTORY_MSG_NUM_OF_DECIMALS_IN_STRIKE_PRICE_OFFSET =? 126) &&
  (ORDERBOOK_DIRECTORY_MSG_PUT_OR_CALL_OFFSET =? 128) && (ORDERBOOK_DIRECTORY_MSG_SIZE =? 129).

Definition OrderBookDirectory_size_assert : bool := ORDERBOOK_DIRECTORY_MSG_SIZE =? c_size OrderBookDirectory_codec.

Definition OrderbookFlush_offset_asserts : bool :=
  (ORDERBOOK_FLUSH_MSG_ORDERBOOK_ID_OFFSET =? 5) && (ORDERBOOK_FLUSH_MSG_SIZE =? 9).

Definition OrderbookFlush_size_assert : bool := ORDERBOOK_FLUSH_MSG_SIZE =? c_size OrderbookFlush_codec.

Definition OrderBookState_offset_asserts : bool :=
  (ORDERBOOK_STATE_MSG_ORDERBOOK_ID_OFFSET =? 5) &&
  (ORDERBOOK_STATE_MSG_STATE_NAME_OFFSET =? 9) && (ORDERBOOK_STATE_MSG_SIZE =? 29).

Definition OrderBookState_size_assert : bool := ORDERBOOK_STATE_MSG_SIZE =? c_size OrderBookState_codec.

Definition Seconds_offset_asserts : bool :=
  (SECONDS_MSG_SIZE =? 5).

Definition Seconds_size_assert : bool := SECONDS_MSG_SIZE =? c_size Seconds_codec.

Definition ShortSellStatus_offset_asserts : bool :=
  (SHORT_SELL_MSG_ORDERBOOK_ID_OFFSET =? 5) && (SHORT_SELL_MSG_RESTRICTION_OFFSET =? 9) &&
  (SHORT_SELL_MSG_VALIDATION_OFFSET =? 10) && (SHORT_SELL_MSG_SIZE =? 11).

Definition ShortSellStatus_size_assert : bool := SHORT_SELL_MSG_SIZE =? c_size ShortSellStatus_codec.

Definition SystemEvent_offset_asserts : bool :=
  (SYSTEM_EVENT_MSG_EVENT_CODE_OFFSET =? 5) && (SYSTEM_EVENT_MSG_SIZE =? 6).

Definition SystemEvent_size_assert : bool := SYSTEM_EVENT_MSG_SIZE =? c_size SystemEvent_codec.

Definition TickSizeTableEntry_offset_asserts : bool :=
  (TICK_SIZE_MSG_ORDERBOOK_ID_OFFSET =? 5) && (TICK_SIZE_MSG_TICK_SIZE_OFFSET =? 9) &&
  (TICK_SIZE_MSG_PRICE_FROM_OFFSET =? 17) && (TICK_SIZE_MSG_PRICE_TO_OFFSET =? 21) &&
  (TICK_SIZE_MSG_SIZE =? 25).

Definition TickSizeTableEntry_size_assert : bool := TICK_SIZE_MSG_SIZE =? c_size TickSizeTableEntry_codec.

Definition Trade_offset_asserts : bool :=
  (TRADE_MSG_MATCH_ID_OFFSET =? 5) && (TRADE_MSG_COMBO_GROUP_ID_OFFSET =? 13) &&
  (TRADE_MSG_SIDE_OFFSET =? 17) && (TRADE_MSG_QUANTITY_OFFSET =? 18) &&
  (TRADE_MSG_ORDERBOOK_ID_OFFSET =? 26) && (TRADE_MSG_TRADE_PRICE_OFFSET =? 30) &&
  (TRADE_MSG_PRINTABLE_OFFSET =? 48) && (TRADE_MSG_OCCURRED_AT_CROSS_OFFSET =? 49) &&
  (TRADE_MSG_SIZE =? 50).

Definition Trade_size_assert : bool := TRADE_MSG_SIZE =? c_size Trade_codec.

Definition CancelOrderByOrderId_size_assert : bool := c_size CancelOrderByOrderId_codec =? 14.

Definition CancelOrder_size_assert : bool := c_size CancelOrder_codec =? 15.

Definition EnterOrder_size_assert : bool := c_size EnterOrder_codec =? 114.

Definition OrderAccepted_size_assert : bool := c_size OrderAccepted_codec =? 135.

Definition OrderCanceled_size_assert : bool := c_size OrderCanceled_codec =? 37.

Definition OuchOrderExecuted_size_assert : bool := c_size OuchOrderExecuted_codec =? 68.

Definition OrderRejected_size_assert : bool := c_size OrderRejected_codec =? 27.

Definition OrderReplaced_size_assert : bool := c_size OrderReplaced_codec =? 145.

Definition ReplaceOrder_size_assert : bool := c_size ReplaceOrder_codec =? 122.

Definition ClientHeartbeat_size_assert : bool := c_size ClientHeartbeat_codec =? 3.

Definition EndOfSession_size_assert : bool := c_size EndOfSession_codec =? 3.

Definition LoginAccepted_size_assert : bool := c_size LoginAccepted_codec =? 33.

Definition LoginRejected_size_assert : bool := c_size LoginRejected_codec =? 4.

Definition LoginRequest_size_assert : bool := c_size LoginRequest_codec =? 49.

Definition LogoutRequest_size_assert : bool := c_size LogoutRequest_codec =? 3.

Definition SequencedData_size_assert : bool := c_size SequencedData_codec =? 3.

Definition ServerHeartbeat_size_assert : bool := c_size ServerHeartbeat_codec =? 3.

Definition UnsequencedData_size_assert : bool := c_size UnsequencedData_codec =? 3.

Definition DownstreamHeader_size_assert : bool := c_size DownstreamHeader_codec =? 20.

Definition MessageBlock_size_assert : bool := c_size MessageBlock_codec =? 2.

(** ** lib/protocol/ouch/ouch_constants.hpp *)

Definition PACKET_TYPE_DEBUG : byte := "+".
Definition PACKET_TYPE_LOGIN_ACCEPTED : byte := "A".
Definition PACKET_TYPE_LOGIN_REJECTED : byte := "J".
Definition PACKET_TYPE_SEQUENCED_DATA : byte := "S".
Definition PACKET_TYPE_SERVER_HEARTBEAT : byte := "H".
Definition PACKET_TYPE_END_OF_SESSION : byte := "Z".
Definition PACKET_TYPE_LOGIN_REQUEST : byte := "L".
Definition PACKET_TYPE_UNSEQUENCED_DATA : byte := "U".
Definition PACKET_TYPE_CLIENT_HEARTBEAT : byte := "R".
Definition PACKET_TYPE_LOGOUT_REQUEST : byte := "O".
Definition MAX_PACKET_LENGTH : Z := 65535.
Definition LOGIN_REJECT_CODE_NOT_AUTHORIZED : byte := "A".
Definition LOGIN_REJECT_CODE_SESSION_NOT_AVAILABLE : byte := "S".

(** The constants next to the enumerators they repeat. *)
Definition packet_type_constants : list (byte * PacketType) :=
  [(PACKET_TYPE_DEBUG, PacketType_Debug); (PACKET_TYPE_LOGIN_ACCEPTED, PacketType_LoginAccepted);
   (PACKET_TYPE_LOGIN_REJECTED, PacketType_LoginRejected); (PACKET_TYPE_SEQUENCED_DATA, PacketType_SequencedData);
   (PACKET_TYPE_SERVER_HEARTBEAT, PacketType_ServerHeartbeat); (PACKET_TYPE_END_OF_SESSION, PacketType_EndOfSession);
   (PACKET_TYPE_LOGIN_REQUEST, PacketType_LoginRequest); (PACKET_TYPE_UNSEQUENCED_DATA, PacketType_UnsequencedData);
   (PACKET_TYPE_CLIENT_HEARTBEAT, PacketType_ClientHeartbeat); (PACKET_TYPE_LOGOUT_REQUEST, PacketType_LogoutRequest)].

Lemma packet_type_constants_agree :
  packet_type_constants.*2 ≡ₚ enumerators ∧
  Forall (λ '(c, e), c = enum_byte e) packet_type_constants ∧
  (MAX_PACKET_LENGTH = 2 ^ (8 * Z.of_nat (c_size PacketLength)) - 1)%Z.
Proof.
  split; [|split; [by repeat constructor | done]].
  apply NoDup_Permutation; [apply (bool_decide_unpack _); by vm_compute ..|].
  intros e. split; intros _; destruct e; apply (bool_decide_unpack _); by vm_compute.
Qed.

(** ** Members *)

(** A member of a packed struct: where it is and how it is read. *)
Inductive member (A : Type) :=
  | MByte (off : nat) (f : A → byte)
  | MInt (off size : nat) (f : A → Z)
  | MBytes (off size : nat) (f : A → list byte).
Arguments MByte {_} _ _.
Arguments MInt {_} _ _ _.
Arguments MBytes {_} _ _ _.

Definition member_off {A} (x : member A) : nat :=
  match x with MByte off _ | MInt off _ _ | MBytes off _ _ => off end.
Definition member_size {A} (x : member A) : nat :=
  match x with MByte _ _ => 1 | MInt _ size _ | MBytes _ size _ => size end.

(** The member of [v] is the one in the bytes: an integer is big-endian there, so that its
    value in host memory is the number with its bytes swapped. *)
Definition member_reads {A} (bs : list byte) (v : A) (x : member A) : Prop :=
  match x with
  | MByte off f => bs !! off = Some (f v)
  | MInt off size f => bswap size (f v) = be_load (slice off size bs)
  | MBytes off size f => f v = slice off size bs
  end.

(** The members follow each other from [off] to [size] without a gap. *)
Fixpoint tiles {A} (off size : nat) (members : list (member A)) : bool :=
  match members with
  | [] => off =? size
  | x :: members => (member_off x =? off) && tiles (off + member_size x) size members
  end.

Definition AddOrder_members : list (member AddOrder) :=
  [MByte 0 ao_type; MInt 1 4 ao_nanoseconds; MInt 5 8 ao_order_id; MInt 13 4 ao_orderbook_id; MByte 17 ao_side;
   MInt 18 4 ao_orderbook_position; MInt 22 8 ao_quantity; MInt 30 4 ao_price; MInt 34 2 ao_order_attributes;
   MByte 36 ao_lot_type].

Definition AddOrderWithMPID_members : list (member AddOrderWithMPID) :=
  [MByte 0 aom_type; MInt 1 4 aom_nanoseconds; MInt 5 8 aom_order_id; MInt 13 4 aom_orderbook_id;
   MByte 17 aom_side; MInt 18 4 aom_orderbook_position; MInt 22 8 aom_quantity; MInt 30 4 aom_price;
   MInt 34 2 aom_order_attributes; MByte 36 aom_lot_type; MBytes 37 7 aom_participant_id].

Definition OrderDelete_members : list (member OrderDelete) :=
  [MByte 0 od_type; MInt 1 4 od_nanoseconds; MInt 5 8 od_order_id; MInt 13 4 od_orderbook_id; MByte 17 od_side].

Definition OrderExecuted_members : list (member OrderExecuted) :=
  [MByte 0 oe_type; MInt 1 4 oe_nanoseconds; MInt 5 8 oe_order_id; MInt 13 4 oe_orderbook_id; MByte 17 oe_side;
   MInt 18 8 oe_quantity; MInt 26 8 oe_match_id; MInt 34 4 oe_combo_group_id; MBytes 38 7 oe_reserved1;
   MBytes 45 7 oe_reserved2].

Definition OrderExecutedWithPrice_members : list (member OrderExecutedWithPrice) :=
  [MByte 0 oep_type; MInt 1 4 oep_nanoseconds; MInt 5 8 oep_order_id; MInt 13 4 oep_orderbook_id;
   MByte 17 oep_side; MInt 18 8 oep_quantity; MInt 26 8 oep_match_id; MInt 34 4 oep_combo_group_id;
   MBytes 38 7 oep_reserved1; MBytes 45 7 oep_reserved2; MInt 52 4 oep_trade_price;
   MByte 56 oep_occurred_at_cross; MByte 57 oep_printable].

Definition OrderReplace_members : list (member OrderReplace) :=
  [MByte 0 orp_type; MInt 1 4 orp_nanoseconds; MInt 5 8 orp_order_id; MInt 13 4 orp_orderbook_id;
   MByte 17 orp_side; MInt 18 4 orp_orderbook_position; MInt 22 8 orp_quantity; MInt 30 4 orp_price;
   MInt 34 2 orp_order_attributes].

Definition Trade_members : list (member Trade) :=
  [MByte 0 tr_type; MInt 1 4 tr_nanoseconds; MInt 5 8 tr_match_id; MInt 13 4 tr_combo_group_id;
   MByte 17 tr_side; MInt 18 8 tr_quantity; MInt 26 4 tr_orderbook_id; MInt 30 4 tr_trade_price;
   MBytes 34 7 tr_reserved1; MBytes 41 7 tr_reserved2; MByte 48 tr_printable; MByte 49 tr_occurred_at_cross].

Definition EquilibriumPriceUpdate_members : list (member EquilibriumPriceUpdate) :=
  [MByte 0 epu_type; MInt 1 4 epu_nanoseconds; MInt 5 4 epu_orderbook_id; MInt 9 8 epu_available_bid_quantity;
   MInt 17 8 epu_available_ask_quantity; MInt 25 4 epu_equilibrium_price; MInt 29 4 epu_best_bid_price;
   MInt 33 4 epu_best_ask_price; MInt 37 8 epu_best_bid_quantity; MInt 45 8 epu_best_ask_quantity].

Definition OrderbookFlush_members : list (member OrderbookFlush) :=
  [MByte 0 obf_type; MInt 1 4 obf_nanoseconds; MInt 5 4 obf_orderbook_id].

Definition Seconds_members : list (member Seconds) :=
  [MByte 0 sec_type; MInt 1 4 sec_second].

Definition OrderBookDirectory_members : list (member OrderBookDirectory) :=
  [MByte 0 obd_type; MInt 1 4 obd_nanoseconds; MInt 5 4 obd_orderbook_id; MBytes 9 32 obd_symbol;
   MBytes 41 32 obd_long_name; MBytes 73 12 obd_isin; MByte 85 obd_financial_product;
   MBytes 86 3 obd_trading_currency; MInt 89 2 obd_num_decimals_in_price;
   MInt 91 2 obd_num_decimals_in_nominal_price; MInt 93 4 obd_odd_lot_size; MInt 97 4 obd_round_lot_size;
   MInt 101 4 obd_block_lot_size; MInt 105 8 obd_nominal_value; MInt 113 1 obd_num_legs;
   MInt 114 4 obd_underlying_orderbook_id; MInt 118 4 obd_strike_price; MInt 122 4 obd_expiration_date;
   MInt 126 2 obd_num_decimals_in_strike_price; MByte 128 obd_put_or_call].

Definition CombinationOrderbookLeg_members : list (member CombinationOrderbookLeg) :=
  [MByte 0 col_type; MInt 1 4 col_nanoseconds; MInt 5 4 col_combination_orderbook_id;
   MInt 9 4 col_leg_orderbook_id; MByte 13 col_leg_side; MInt 14 4 col_leg_ratio].

Definition TickSizeTableEntry_members : list (member TickSizeTableEntry) :=
  [MByte 0 tse_type; MInt 1 4 tse_nanoseconds; MInt 5 4 tse_orderbook_id; MInt 9 8 tse_tick_size;
   MInt 17 4 tse_price_from; MInt 21 4 tse_price_to].

Definition ShortSellStatus_members : list (member ShortSellStatus) :=
  [MByte 0 sss_type; MInt 1 4 sss_nanoseconds; MInt 5 4 sss_orderbook_id; MByte 9 sss_short_sell_restriction;
   MByte 10 sss_short_sell_validation].

Definition SystemEvent_members : list (member SystemEvent) :=
  [MByte 0 se_type; MInt 1 4 se_nanoseconds; MByte 5 se_event_code].

Definition OrderBookState_members : list (member OrderBookState) :=
  [MByte 0 obs_type; MInt 1 4 obs_nanoseconds; MInt 5 4 obs_orderbook_id; MBytes 9 20 obs_state_name].

Definition EnterOrder_members : list (member EnterOrder) :=
  [MByte 0 eo_type; MBytes 1 14 eo_order_token; MInt 15 4 eo_orderbook_id; MByte 19 eo_side;
   MInt 20 8 eo_quantity; MInt 28 4 eo_price; MByte 32 eo_time_in_force; MByte 33 eo_open_close;
   MBytes 34 16 eo_client_account; MBytes 50 15 eo_customer_info; MBytes 65 32 eo_exchange_info;
   MInt 97 8 eo_display_quantity; MByte 105 eo_client_category; MByte 106 eo_offhours;
   MBytes 107 7 eo_reserved].

Definition ReplaceOrder_members : list (member ReplaceOrder) :=
  [MByte 0 ro_type; MBytes 1 14 ro_existing_order_token; MBytes 15 14 ro_replacement_order_token;
   MInt 29 8 ro_quantity; MInt 37 4 ro_price; MByte 41 ro_open_close; MBytes 42 16 ro_client_account;
   MBytes 58 15 ro_customer_info; MBytes 73 32 ro_exchange_info; MInt 105 8 ro_display_quantity;
   MByte 113 ro_client_category; MBytes 114 8 ro_reserved].

Definition CancelOrder_members : list (member CancelOrder) :=
  [MByte 0 co_type; MBytes 1 14 co_order_token].

Definition CancelOrderByOrderId_members : list (member CancelOrderByOrderId) :=
  [MByte 0 coi_type; MInt 1 4 coi_orderbook_id; MByte 5 coi_side; MInt 6 8 coi_order_id].

Definition OrderAccepted_members : list (member OrderAccepted) :=
  [MByte 0 oa_type; MInt 1 8 oa_timestamp; MBytes 9 14 oa_order_token; MInt 23 4 oa_orderbook_id;
   MByte 27 oa_side; MInt 28 8 oa_order_id; MInt 36 8 oa_quantity; MInt 44 4 oa_price;
   MByte 48 oa_time_in_force; MByte 49 oa_open_close; MBytes 50 16 oa_client_account; MByte 66 oa_order_state;
   MBytes 67 15 oa_customer_info; MBytes 82 32 oa_exchange_info; MInt 114 8 oa_pre_trade_quantity;
   MInt 122 8 oa_display_quantity; MByte 130 oa_client_category; MByte 131 oa_offhours;
   MBytes 132 3 oa_reserved].

Definition OrderCanceled_members : list (member OrderCanceled) :=
  [MByte 0 oc_type; MInt 1 8 oc_timestamp; MBytes 9 14 oc_order_token; MInt 23 4 oc_orderbook_id;
   MByte 27 oc_side; MInt 28 8 oc_order_id; MByte 36 oc_cancel_reason].

Definition OuchOrderExecuted_members : list (member OuchOrderExecuted) :=
  [MByte 0 ox_type; MInt 1 8 ox_timestamp; MBytes 9 14 ox_order_token; MInt 23 4 ox_orderbook_id;
   MInt 27 8 ox_traded_quantity; MInt 35 4 ox_trade_price; MBytes 39 12 ox_match_id;
   MByte 51 ox_client_category; MBytes 52 16 ox_reserved].

Definition OrderRejected_members : list (member OrderRejected) :=
  [MByte 0 oj_type; MInt 1 8 oj_timestamp; MBytes 9 14 oj_order_token; MInt 23 4 oj_reject_code].

Definition OrderReplaced_members : list (member OrderReplaced) :=
  [MByte 0 orr_type; MInt 1 8 orr_timestamp; MBytes 9 14 orr_replacement_order_token;
   MBytes 23 14 orr_previous_order_token; MInt 37 4 orr_orderbook_id; MByte 41 orr_side;
   MInt 42 8 orr_order_id; MInt 50 8 orr_quantity; MInt 58 4 orr_price; MByte 62 orr_time_in_force;
   MByte 63 orr_open_close; MBytes 64 16 orr_client_account; MByte 80 orr_order_state;
   MBytes 81 15 orr_customer_info; MBytes 96 32 orr_exchange_info; MInt 128 8 orr_pre_trade_quantity;
   MInt 136 8 orr_display_quantity; MByte 144 orr_client_category].

Definition ClientHeartbeat_members : list (member ClientHeartbeat) :=
  [MInt 0 2 ch_packetLength; MByte 2 ch_packetType].

Definition EndOfSession_members : list (member EndOfSession) :=
  [MInt 0 2 es_packetLength; MByte 2 es_packetType].

Definition LoginAccepted_members : list (member LoginAccepted) :=
  [MInt 0 2 la_packetLength; MByte 2 la_packetType; MBytes 3 10 la_session_name;
   MBytes 13 20 la_sequenceNumber].

Definition LoginRejected_members : list (member LoginRejected) :=
  [MInt 0 2 lj_packetLength; MByte 2 lj_packetType; MByte 3 lj_reject_reason_code].

Definition LoginRequest_members : list (member LoginRequest) :=
  [MInt 0 2 lr_packetLength; MByte 2 lr_packetType; MBytes 3 6 lr_username; MBytes 9 10 lr_password;
   MBytes 19 10 lr_sessionName; MBytes 29 20 lr_sequenceNumber].

Definition LogoutRequest_members : list (member LogoutRequest) :=
  [MInt 0 2 lo_packetLength; MByte 2 lo_packetType].

Definition SequencedData_members : list (member SequencedData) :=
  [MInt 0 2 sd_packetLength; MByte 2 sd_packetType].

Definition ServerHeartbeat_members : list (member ServerHeartbeat) :=
  [MInt 0 2 sh_packetLength; MByte 2 sh_packetType].

Definition UnsequencedData_members : list (member UnsequencedData) :=
  [MInt 0 2 ud_packetLength; MByte 2 ud_packetType].

Definition DownstreamHeader_members : list (member DownstreamHeader) :=
  [MBytes 0 10 dh_session; MInt 10 8 dh_sequence_number; MInt 18 2 dh_message_count].

Definition MessageBlock_members : list (member MessageBlock) :=
  [MInt 0 2 mb_length].

(** ** The table *)

(** A packed struct of the program: its values, its layout, its members and its static
    assertions. *)
Record wire_struct := WireStruct {
  ws_type : Type;
  ws_codec : codec ws_type;
  ws_members : list (member ws_type);
  ws_asserts : bool;
}.

Definition wire_structs : list wire_struct :=
  [WireStruct AddOrder AddOrder_codec AddOrder_members (AddOrder_offset_asserts && AddOrder_size_assert);
   WireStruct AddOrderWithMPID AddOrderWithMPID_codec AddOrderWithMPID_members (AddOrderWithMPID_offset_asserts && AddOrderWithMPID_size_assert);
   WireStruct CombinationOrderbookLeg CombinationOrderbookLeg_codec CombinationOrderbookLeg_members (CombinationOrderbookLeg_offset_asserts && CombinationOrderbookLeg_size_assert);
   WireStruct EquilibriumPriceUpdate EquilibriumPriceUpdate_codec EquilibriumPriceUpdate_members (EquilibriumPriceUpdate_offset_asserts && EquilibriumPriceUpdate_size_assert);
   WireStruct OrderDelete OrderDelete_codec OrderDelete_members (OrderDelete_offset_asserts && OrderDelete_size_assert);
   WireStruct OrderExecuted OrderExecuted_codec OrderExecuted_members (OrderExecuted_offset_asserts && OrderExecuted_size_assert);
   WireStruct OrderExecutedWithPrice OrderExecutedWithPrice_codec OrderExecutedWithPrice_members (OrderExecutedWithPrice_offset_asserts && OrderExecutedWithPrice_size_assert);
   WireStruct OrderReplace OrderReplace_codec OrderReplace_members (OrderReplace_offset_asserts && OrderReplace_size_assert);
   WireStruct OrderBookDirectory OrderBookDirectory_codec OrderBookDirectory_members (OrderBookDirectory_offset_asserts && OrderBookDirectory_size_assert);
   WireStruct OrderbookFlush OrderbookFlush_codec OrderbookFlush_members (OrderbookFlush_offset_asserts && OrderbookFlush_size_assert);
   WireStruct OrderBookState OrderBookState_codec OrderBookState_members (OrderBookState_offset_asserts && OrderBookState_size_assert);
   WireStruct Seconds Seconds_codec Seconds_members (Seconds_offset_asserts && Seconds_size_assert);
   WireStruct ShortSellStatus ShortSellStatus_codec ShortSellStatus_members (ShortSellStatus_offset_asserts && ShortSellStatus_size_assert);
   WireStruct SystemEvent SystemEvent_codec SystemEvent_members (SystemEvent_offset_asserts && SystemEvent_size_assert);
   WireStruct TickSizeTableEntry TickSizeTableEntry_codec TickSizeTableEntry_members (TickSizeTableEntry_offset_asserts && TickSizeTableEntry_size_assert);
   WireStruct Trade Trade_codec Trade_members (Trade_offset_asserts && Trade_size_assert);
   WireStruct CancelOrderByOrderId CancelOrderByOrderId_codec CancelOrderByOrderId_members CancelOrderByOrderId_size_assert;
   WireStruct CancelOrder CancelOrder_codec CancelOrder_members CancelOrder_size_assert;
   WireStruct EnterOrder EnterOrder_codec EnterOrder_members EnterOrder_size_assert;
   WireStruct OrderAccepted OrderAccepted_codec OrderAccepted_members OrderAccepted_size_assert;
   WireStruct OrderCanceled OrderCanceled_codec OrderCanceled_members OrderCanceled_size_assert;
   WireStruct OuchOrderExecuted OuchOrderExecuted_codec OuchOrderExecuted_members OuchOrderExecuted_size_assert;
   WireStruct OrderRejected OrderRejected_codec OrderRejected_members OrderRejected_size_assert;
   WireStruct OrderReplaced OrderReplaced_codec OrderReplaced_members OrderReplaced_size_assert;
   WireStruct ReplaceOrder ReplaceOrder_codec ReplaceOrder_members ReplaceOrder_size_assert;
   WireStruct ClientHeartbeat ClientHeartbeat_codec ClientHeartbeat_members ClientHeartbeat_size_assert;
   WireStruct EndOfSession EndOfSession_codec EndOfSession_members EndOfSession_size_assert;
   WireStruct LoginAccepted LoginAccepted_codec LoginAccepted_members LoginAccepted_size_assert;
   WireStruct LoginRejected LoginRejected_codec LoginRejected_members LoginRejected_size_assert;
   WireStruct LoginRequest LoginRequest_codec LoginRequest_members LoginRequest_size_assert;
   WireStruct LogoutRequest LogoutRequest_codec LogoutRequest_members LogoutRequest_size_assert;
   WireStruct SequencedData SequencedData_codec SequencedData_members SequencedData_size_assert;
   WireStruct ServerHeartbeat ServerHeartbeat_codec ServerHeartbeat_members ServerHeartbeat_size_assert;
   WireStruct UnsequencedData UnsequencedData_codec UnsequencedData_members UnsequencedData_size_assert;
   WireStruct DownstreamHeader DownstreamHeader_codec DownstreamHeader_members DownstreamHeader_size_assert;
   WireStruct MessageBlock MessageBlock_codec MessageBlock_members MessageBlock_size_assert].

(** Overlaying a struct on as many bytes as it has yields a value within the ranges of
    its members, each of which is read from its place, and this value determines the
    bytes. *)
Definition overlays (w : wire_struct) : Prop :=
  ∀ bs, length bs = c_size (ws_codec w) →
    ∃ v, c_dec (ws_codec w) bs = Some v ∧ c_ok (ws_codec w) v = true ∧
      Forall (member_reads bs v) (ws_members w) ∧ c_enc (ws_codec w) v = bs ∧
      ∀ v', c_ok (ws_codec w) v' = true → c_enc (ws_codec w) v' = bs → v' = v.

Lemma overlays_layout {A} (c : codec A) (members : list (member A)) (a : bool) :
  CodecLaws c → (∀ bs v, c_dec c bs = Some v → Forall (member_reads bs v) members) →
  overlays (WireStruct A c members a).
Proof.
  intros L Hm bs Hl. simpl in *. destruct (dec_total bs Hl) as [v Hv].
  destruct (dec_inv bs v Hv) as (_ & Hok & Henc). exists v. split_and!; [done|done|by apply Hm|done|].
  intros v' Hok' <-. rewrite dec_enc in Hv by done. by simplify_eq.
Qed.

(** The members of a struct are where its [X_layout] has them. *)
Ltac members_by layout :=
  let bs := fresh in let v := fresh in let H := fresh in
  intros bs v H; apply layout in H; destruct_and? H; repeat constructor; assumption.

(** C19. Every packed struct of the program is read as its header declares it: its static
    assertions hold, its members, listed here with the numbers of bytes before them, fill
    it without a gap, and any buffer of its size reads as exactly one value, whose members
    are the bytes at these places (integers in network byte order) and within their types;
    writing that value gives the buffer back. *)
Theorem wire_structs_typed :
  Forall (λ w, ws_asserts w = true ∧ tiles 0 (c_size (ws_codec w)) (ws_members w) = true ∧ overlays w) wire_structs.
Proof.
  unfold wire_structs. repeat apply Forall_cons_2; try apply Forall_nil_2;
    (split; [reflexivity|]; split; [reflexivity|]; apply overlays_layout; [apply _|]).
  - members_by AddOrder_layout.
  - members_by AddOrderWithMPID_layout.
  - members_by CombinationOrderbookLeg_layout.
  - members_by EquilibriumPriceUpdate_layout.
  - members_by OrderDelete_layout.
  - members_by OrderExecuted_layout.
  - members_by OrderExecutedWithPrice_layout.
  - members_by OrderReplace_layout.
  - members_by OrderBookDirectory_layout.
  - members_by OrderbookFlush_layout.
  - members_by OrderBookState_layout.
  - members_by Seconds_layout.
  - members_by ShortSellStatus_layout.
  - members_by SystemEvent_layout.
  - members_by TickSizeTableEntry_layout.
  - members_by Trade_layout.
  - members_by CancelOrderByOrderId_layout.
  - members_by CancelOrder_layout.
  - members_by EnterOrder_layout.
  - members_by OrderAccepted_layout.
  - members_by OrderCanceled_layout.
  - members_by OuchOrderExecuted_layout.
  - members_by OrderRejected_layout.
  - members_by OrderReplaced_layout.
  - members_by ReplaceOrder_layout.
  - members_by ClientHeartbeat_layout.
  - members_by EndOfSession_layout.
  - members_by LoginAccepted_layout.
  - members_by LoginRejected_layout.
  - members_by LoginRequest_layout.
  - members_by LogoutRequest_layout.
  - members_by SequencedData_layout.
  - members_by ServerHeartbeat_layout.
  - members_by UnsequencedData_layout.
  - members_by DownstreamHeader_layout.
  - members_by MessageBlock_layout.
Qed.
