(* ===== verification/Display.v ===== *)
(** * Stream output

    The messages are logged through their stream insertion operators.  This file models
    what those use of [std::ostream]: the characters written so far, the width that
    [std::setw] leaves for the next formatted output, which pads on the left with blanks
    and resets the width, and unformatted [write].  [magic_enum::enum_name] is the class
    [MagicEnum].  [stream_out_inj] says when a line determines what was written to it. *)
From S2P Require Import Prelude Bytes Digits Types.
Local Open Scope nat_scope.

(** A stream with default flags: right-aligned, filled with blanks, decimal. *)
Record ostream := Build_ostream {
  os_chars : list byte;
  os_width : nat;
}.

(** What is inserted with [<<]: a string literal, a [std::string_view], a [std::string], a
    character, an integer, or the manipulator [std::setw]. *)
Inductive item :=
  | Lit (s : string)
  | Name (s : list byte)
  | Str (s : list byte)
  | Chr (c : byte)
  | Dec (z : Z)
  | Setw (n : nat).

(** The double quote and the newline of a literal. *)
Definition dq : string := String (Ascii.ascii_of_nat 34) EmptyString.
Definition nl : string := String (Ascii.ascii_of_nat 10) EmptyString.

(** The digits of an integer, with a sign if it is negative. *)
Definition decimal (z : Z) : list byte :=
  if (z <? 0)%Z then "-"%byte :: to_string (- z) else to_string z.

Definition item_text (i : item) : list byte :=
  match i with
  | Lit s => String.list_byte_of_string s
  | Name s | Str s => s
  | Chr c => [c]
  | Dec z => decimal z
  | Setw _ => []
  end.

Definition pad (width : nat) (text : list byte) : list byte := replicate (width - length text) " "%byte ++ text.

(** [os << i]. *)
Definition insert_item (os : ostream) (i : item) : ostream :=
  match i with
  | Setw n => Build_ostream (os_chars os) n
  | _ => Build_ostream (os_chars os ++ pad (os_width os) (item_text i)) 0
  end.

(** [os << i1 << ... << in]. *)
Definition stream_out (os : ostream) (items : list item) : ostream := foldl insert_item os items.

(** [os.write(s, n)]: unformatted, the width stays. *)
Definition stream_write (os : ostream) (s : list byte) : ostream := Build_ostream (os_chars os ++ s) (os_width os).

(** [magic_enum::enum_name]: the name of the enumerator a value stands for, or nothing. *)
Class MagicEnum := enum_name : ∀ (E : Type) `{CxxEnum E}, byte → list byte.
#[global] Arguments enum_name {_} _ {_} _.

(** The characters of a C++ identifier. *)
Definition is_ident (c : byte) : Prop :=
  is_digit c ∨ (65 ≤ u8 c ≤ 90)%Z ∨ (97 ≤ u8 c ≤ 122)%Z ∨ c = "_"%byte.
#[export] Instance is_ident_dec (c : byte) : Decision (is_ident c).
Proof. unfold is_ident. apply _. Defined.

(** The byte holds an enumerator that the library can name (its default range ends at 127). *)
Definition nameable (E : Type) `{CxxEnum E} (b : byte) : Prop :=
  (u8 b < 128)%Z ∧ is_Some (of_code (E:=E) (u8 b)).
#[export] Instance nameable_dec (E : Type) `{CxxEnum E} (b : byte) : Decision (nameable E b).
Proof. unfold nameable. apply _. Defined.

(** As documented: the name is an identifier, and enumerators of the same name have the
    same value. *)
Class MagicEnumLaws `{MagicEnum} : Prop := {
  enum_name_ident (E : Type) `{CxxEnum E} (b : byte) : nameable E b → Forall is_ident (enum_name E b);
  enum_name_inj (E : Type) `{CxxEnum E} (b b' : byte) :
    nameable E b → nameable E b' → enum_name E b = enum_name E b' → b = b';
}.

(** ** What was inserted can be read back

    A number or a name has to be followed by a literal that cannot continue it. *)

Definition delimited (l : list item) : bool :=
  match l with
  | [] => true
  | Lit s :: _ =>
      match String.list_byte_of_string s with
      | [] => false
      | c :: _ => bool_decide (¬ is_ident c)
      end
  | _ => false
  end.

(** Numbers of 64 bits and names are delimited, and only numbers are padded. *)
Fixpoint readable (l : list item) : Prop :=
  match l with
  | [] => True
  | Dec z :: l => (0 ≤ z < 2 ^ 64)%Z ∧ delimited l = true ∧ readable l
  | Name s :: l => Forall is_ident s ∧ delimited l = true ∧ readable l
  | Setw _ :: l => match l with Dec _ :: _ => readable l | _ => False end
  | (Lit _ | Str _ | Chr _) :: l => readable l
  end.

(** Two lines of the same format: equal literals and widths, strings of equal length. *)
Inductive same_format : item → item → Prop :=
  | same_lit s : same_format (Lit s) (Lit s)
  | same_name s s' : same_format (Name s) (Name s')
  | same_str s s' : length s = length s' → same_format (Str s) (Str s')
  | same_chr c c' : same_format (Chr c) (Chr c')
  | same_dec z z' : same_format (Dec z) (Dec z')
  | same_setw n : same_format (Setw n) (Setw n).

(** What a list of items adds to a stream whose width is [w]. *)
Fixpoint render (w : nat) (l : list item) : list byte :=
  match l with
  | [] => []
  | Setw n :: l => render n l
  | i :: l => pad w (item_text i) ++ render 0 l
  end.

Lemma stream_out_render (os : ostream) (l : list item) :
  os_chars (stream_out os l) = os_chars os ++ render (os_width os) l.
Proof.
  unfold stream_out. revert os. induction l as [|i l IH]; intros os; cbn [foldl render]; [by rewrite app_nil_r|].
  rewrite IH. destruct i; cbn [insert_item os_chars os_width]; [by rewrite <- (assoc_L (++)) ..|done].
Qed.

Lemma stream_out_app (os : ostream) (l k : list item) : stream_out os (l ++ k) = stream_out (stream_out os l) k.
Proof. apply foldl_app. Qed.

(** The part of a line that [n] items from the [i]-th on write, when no width is pending. *)
Lemma stream_out_middle (os : ostream) (l : list item) (i n : nat) :
  os_width (stream_out os (take i l)) = 0 → os_width (stream_out os (take i l ++ take n (drop i l))) = 0 →
  ∃ before after, os_chars (stream_out os l) = os_chars os ++ before ++ render 0 (take n (drop i l)) ++ after.
Proof.
  intros H1 H2. exists (render (os_width os) (take i l)), (render 0 (drop n (drop i l))).
  rewrite <- (take_drop i l) at 1. rewrite <- (take_drop n (drop i l)) at 1.
  rewrite (assoc_L (++)), stream_out_app, stream_out_render, H2, stream_out_app, stream_out_render, H1, stream_out_render.
  by rewrite <- !(assoc_L (++)).
Qed.

Lemma pad_0 (t : list byte) : pad 0 t = t.
Proof. done. Qed.

(** A maximal prefix of characters of a kind is determined by the whole. *)
Definition starts_outside (P : byte → Prop) (r : list byte) : Prop :=
  match r with [] => True | c :: _ => ¬ P c end.

Lemma prefix_inj (P : byte → Prop) (a a' r r' : list byte) :
  Forall P a → Forall P a' → starts_outside P r → starts_outside P r' → a ++ r = a' ++ r' → a = a' ∧ r = r'.
Proof.
  intros Ha. revert a'. induction Ha as [|c a Hc Ha IH]; intros [|c' a'] Ha' Hr Hr' He; simpl in He.
  - done.
  - subst r. apply Forall_cons in Ha' as [? _]. by destruct Hr.
  - subst r'. by destruct Hr'.
  - apply Forall_cons in Ha' as [_ Ha']. simplify_eq. by destruct (IH a') as [-> ->].
Qed.

Lemma delimited_outside (l : list item) : delimited l = true → starts_outside is_ident (render 0 l).
Proof.
  destruct l as [|[s| | | | |] l]; intros H; try done. cbn [delimited render item_text] in *. rewrite pad_0.
  destruct (String.list_byte_of_string s) as [|c t]; [done|]. by apply bool_decide_eq_true in H.
Qed.

Lemma outside_digit (r : list byte) : starts_outside is_ident r → starts_outside is_digit r.
Proof. destruct r; [done|]. unfold is_ident. simpl. tauto. Qed.

Lemma blank_not_digit : ¬ is_digit " ".
Proof. by apply (bool_decide_unpack _). Qed.

(** The padded digits of a number are determined by the whole. *)
Lemma padded_number_inj (w w' : nat) (z z' : Z) (r r' : list byte) :
  (0 ≤ z < 2 ^ 64)%Z → (0 ≤ z' < 2 ^ 64)%Z → starts_outside is_digit r → starts_outside is_digit r' →
  pad w (decimal z) ++ r = pad w' (decimal z') ++ r' → z = z' ∧ r = r'.
Proof.
  intros Hz Hz' Hr Hr'. unfold pad, decimal. rewrite !(proj2 (Z.ltb_ge _ 0)) by lia.
  destruct (to_string_value z Hz) as (Hf & Hv & Hn). destruct (to_string_value z' Hz') as (Hf' & Hv' & Hn').
  rewrite <- !(assoc_L (++)). intros [_ He]%(prefix_inj (eq " "%byte)).
  - apply (prefix_inj is_digit) in He as [Ht ->]; [|done..]. split; [|done]. by rewrite <- Hv, Ht.
  - by apply Forall_replicate.
  - by apply Forall_replicate.
  - destruct (to_string z); [done|]. apply Forall_cons in Hf as [Hd _]. intros <-. by apply blank_not_digit in Hd.
  - destruct (to_string z'); [done|]. apply Forall_cons in Hf' as [Hd _]. intros <-. by apply blank_not_digit in Hd.
Qed.

(** Two readable lists of the same format that give the same text are equal. *)
Lemma render_inj (l l' : list item) (w : nat) :
  Forall2 same_format l l' → readable l → readable l' →
  (w = 0 ∨ ∃ z t, l = Dec z :: t) → render w l = render w l' → l = l'.
Proof.
  intros Hf. revert w. induction Hf as [|i i' l l' Hi Hl IH]; intros w Hr Hr' Hw He; [done|].
  destruct Hi as [s|s s'|s s' Hlen|c c'|z z'|n].
  1-4: destruct Hw as [->|(? & ? & ?)]; [|done]; cbn [render item_text] in He; rewrite !pad_0 in He.
  - apply app_inv_head in He. f_equal. by eapply (IH 0); [..|left|].
  - destruct Hr as (Hs & Hd & Hr). destruct Hr' as (Hs' & Hd' & Hr').
    apply (prefix_inj is_ident) in He as [-> He]; [|auto using delimited_outside..].
    f_equal. by eapply (IH 0); [..|left|].
  - apply app_inj_1 in He as [-> He]; [|done]. f_equal. by eapply (IH 0); [..|left|].
  - cbn in He. simplify_eq. f_equal. by eapply (IH 0); [..|left|].
  - destruct Hr as (Hz & Hd & Hr). destruct Hr' as (Hz' & Hd' & Hr'). cbn [render item_text] in He.
    apply padded_number_inj in He as [-> He]; [|auto using delimited_outside, outside_digit..].
    f_equal. by eapply (IH 0); [..|left|].
  - cbn [readable render] in *. destruct l as [|[] t]; try done. destruct l' as [|[] t']; try done.
    f_equal. eapply (IH n); [done..|right; eauto|done].
Qed.

(** A stream without a pending width whose text is the same after two lines of the same
    format has been given the same items. *)
Lemma stream_out_inj (os : ostream) (l l' : list item) :
  os_width os = 0 → Forall2 same_format l l' → readable l → readable l' →
  os_chars (stream_out os l) = os_chars (stream_out os l') → l = l'.
Proof.
  intros Hw Hf Hr Hr'. rewrite !stream_out_render, Hw. intros He%app_inv_head. apply (render_inj l l' 0); auto.
Qed.

(** Two lines of a message: the formats agree by construction, the lists are readable if
    the integers have at most 64 bits and the names are those of enumerators. *)
Ltac solve_format := repeat (apply Forall2_cons; split; [by constructor|]); by constructor.
Ltac solve_readable :=
  cbn [readable];
  repeat match goal with
  | |- (0 ≤ _ < 2 ^ 64)%Z => apply (bswap_u64 _ _); lia
  | |- _ ∧ _ => split
  | |- True => exact I
  | |- delimited _ = true => reflexivity
  | |- Forall is_ident _ => by apply enum_name_ident
  end.

(** Names that satisfy the laws: a letter and the value. *)
Definition sample_names : MagicEnum := λ E _ b,
  if decide (nameable E b) then "v"%byte :: to_string (u8 b) else [].

Lemma sample_names_laws : @MagicEnumLaws sample_names.
Proof.
  assert (Hb : ∀ b, (0 ≤ u8 b < 2 ^ 64)%Z) by (intros b; pose proof (u8_bound b); lia).
  split; unfold enum_name, sample_names.
  - intros E HE b Hn. rewrite decide_True by done. constructor; [by apply (bool_decide_unpack _)|].
    destruct (to_string_value (u8 b) (Hb b)) as [Hf _]. eapply Forall_impl; [exact Hf|]. by left.
  - intros E HE b b' Hn Hn' He. rewrite !decide_True in He by done. injection He as He. apply u8_inj.
    destruct (to_string_value (u8 b) (Hb b)) as (_ & <- & _). destruct (to_string_value (u8 b') (Hb b')) as (_ & <- & _).
    by rewrite He.
Qed.
