(* ===== verification/ItchDisplay.v ===== *)
(** * Log lines of the ITCH messages

    The stream insertion operators of the structs of lib/protocol/itch/, item by item. *)
From S2P Require Import Prelude Bytes Codec Types Display ItchMessages.
Local Open Scope Z_scope.

Section display.
Context `{MagicEnum}.

(** itch_add_order.hpp. *)
Definition AddOrder_display (os : ostream) (m : AddOrder) : ostream :=
  stream_out os
    [Lit "{"; Lit "  type: "; Name (enum_name MessageType (ao_type m)); Lit ", nanoseconds: ";
     Setw 10; Dec (be32toh (ao_nanoseconds m)); Lit ", order_id: "; Dec (be64toh (ao_order_id m));
     Lit ", orderbook_id: "; Setw 10; Dec (be32toh (ao_orderbook_id m)); Lit ", side: ";
     Name (enum_name Side (ao_side m)); Lit ", orderbook_position: "; Setw 3;
     Dec (be32toh (ao_orderbook_position m)); Lit ", quantity: "; Setw 6;
     Dec (be64toh (ao_quantity m)); Lit ", price: "; Setw 6; Dec (be32toh (ao_price m));
     Lit ", order_attributes: "; Dec (be16toh (ao_order_attributes m)); Lit ", lot_type: ";
     Name (enum_name LotType (ao_lot_type m)); Lit (" }" +:+ nl)].

(** itch_add_order_with_mpid.hpp. *)
Definition AddOrderWithMPID_display (os : ostream) (m : AddOrderWithMPID) : ostream :=
  stream_out os
    [Lit "{"; Lit "  type: "; Name (enum_name MessageType (aom_type m)); Lit ", nanoseconds: ";
     Setw 10; Dec (be32toh (aom_nanoseconds m)); Lit ", order_id: "; Setw 10;
     Dec (be64toh (aom_order_id m)); Lit ", orderbook_id: "; Setw 10;
     Dec (be32toh (aom_orderbook_id m)); Lit ", side: "; Name (enum_name Side (aom_side m));
     Lit ", orderbook_position: "; Setw 3; Dec (be32toh (aom_orderbook_position m));
     Lit ", quantity: "; Setw 6; Dec (be64toh (aom_quantity m)); Lit ", price: "; Setw 6;
     Dec (be32toh (aom_price m)); Lit ", order_attributes: ";
     Dec (be16toh (aom_order_attributes m)); Lit ", lot_type: ";
     Name (enum_name LotType (aom_lot_type m)); Lit (", participant_id: " +:+ dq);
     Str (aom_participant_id m); Lit dq; Lit (" }" +:+ nl)].

(** itch_combination_orderbook_leg.hpp. *)
Definition CombinationOrderbookLeg_display (os : ostream) (m : CombinationOrderbookLeg) : ostream :=
  stream_out os
    [Lit "{"; Lit "  type: "; Name (enum_name MessageType (col_type m)); Lit ", nanoseconds: ";
     Setw 10; Dec (be32toh (col_nanoseconds m)); Lit ", combination_orderbook_id: "; Setw 10;
     Dec (be32toh (col_combination_orderbook_id m)); Lit ", leg_orderbook_id: "; Setw 10;
     Dec (be32toh (col_leg_orderbook_id m)); Lit ", leg_side: ";
     Name (enum_name LegSide (col_leg_side m)); Lit ", leg_ratio: "; Setw 4;
     Dec (be32toh (col_leg_ratio m)); Lit (" }" +:+ nl)].

(** itch_equilibrium_price_update.hpp. *)
Definition EquilibriumPriceUpdate_display (os : ostream) (m : EquilibriumPriceUpdate) : ostream :=
  stream_out os
    [Lit "{"; Lit "  type: "; Name (enum_name MessageType (epu_type m)); Lit ", nanoseconds: ";
     Setw 10; Dec (be32toh (epu_nanoseconds m)); Lit ", orderbook_id: "; Setw 10;
     Dec (be32toh (epu_orderbook_id m)); Lit ", available_bid_quantity: "; Setw 6;
     Dec (be64toh (epu_available_bid_quantity m)); Lit ", available_ask_quantity: "; Setw 6;
     Dec (be64toh (epu_available_ask_quantity m)); Lit ", equilibrium_price: "; Setw 10;
     Dec (be32toh (epu_equilibrium_price m)); Lit ", best_bid_price: "; Setw 10;
     Dec (be32toh (epu_best_bid_price m)); Lit ", best_ask_price: "; Setw 10;
     Dec (be32toh (epu_best_ask_price m)); Lit ", best_bid_quantity: "; Setw 6;
     Dec (be64toh (epu_best_bid_quantity m)); Lit ", best_ask_quantity: "; Setw 6;
     Dec (be64toh (epu_best_ask_quantity m)); Lit (" }" +:+ nl)].

(** itch_order_delete.hpp. *)
Definition OrderDelete_display (os : ostream) (m : OrderDelete) : ostream :=
  stream_out os
    [Lit "{"; Lit "  type: "; Name (enum_name MessageType (od_type m)); Lit ", nanoseconds: ";
     Setw 10; Dec (be32toh (od_nanoseconds m)); Lit ", order_id: "; Dec (be64toh (od_order_id m));
     Lit ", orderbook_id: "; Setw 10; Dec (be32toh (od_orderbook_id m)); Lit ", side: ";
     Name (enum_name Side (od_side m)); Lit (" }" +:+ nl)].

(** itch_order_executed.hpp. *)
Definition OrderExecuted_display (os : ostream) (m : OrderExecuted) : ostream :=
  stream_out os
    [Lit "{"; Lit "  type: "; Name (enum_name MessageType (oe_type m)); Lit ", nanoseconds: ";
     Setw 10; Dec (be32toh (oe_nanoseconds m)); Lit ", order_id: "; Dec (be64toh (oe_order_id m));
     Lit ", orderbook_id: "; Setw 10; Dec (be32toh (oe_orderbook_id m)); Lit ", side: ";
     Name (enum_name Side (oe_side m)); Lit ", quantity: "; Setw 6; Dec (be64toh (oe_quantity m));
     Lit ", match_id: "; Dec (be64toh (oe_match_id m)); Lit ", combo_group_id: ";
     Dec (be64toh (oe_combo_group_id m)); Lit (" }" +:+ nl)].

(** itch_order_executed_with_price.hpp. *)
Definition OrderExecutedWithPrice_display (os : ostream) (m : OrderExecutedWithPrice) : ostream :=
  stream_out os
    [Lit "{"; Lit "  type: "; Name (enum_name MessageType (oep_type m)); Lit ", nanoseconds: ";
     Setw 10; Dec (be32toh (oep_nanoseconds m)); Lit ", order_id: ";
     Dec (be64toh (oep_order_id m)); Lit ", orderbook_id: "; Setw 10;
     Dec (be32toh (oep_orderbook_id m)); Lit ", side: "; Name (enum_name Side (oep_side m));
     Lit ", quantity: "; Setw 6; Dec (be64toh (oep_quantity m)); Lit ", match_id: ";
     Dec (be64toh (oep_match_id m)); Lit ", combo_group_id: ";
     Dec (be64toh (oep_combo_group_id m)); Lit ", trade_price: "; Setw 6;
     Dec (be32toh (oep_trade_price m)); Lit ", occurred_at_cross: ";
     Name (enum_name OccurredAtCross (oep_occurred_at_cross m)); Lit ", printable: ";
     Name (enum_name Printable (oep_printable m)); Lit (" }" +:+ nl)].

(** itch_order_replace.hpp. *)
Definition OrderReplace_display (os : ostream) (m : OrderReplace) : ostream :=
  stream_out os
    [Lit "{"; Lit "  type: "; Name (enum_name MessageType (orp_type m)); Lit ", nanoseconds: ";
     Setw 10; Dec (be32toh (orp_nanoseconds m)); Lit ", order_id: ";
     Dec (be64toh (orp_order_id m)); Lit ", orderbook_id: "; Setw 10;
     Dec (be32toh (orp_orderbook_id m)); Lit ", side: "; Name (enum_name Side (orp_side m));
     Lit ", orderbook_position: "; Setw 3; Dec (be32toh (orp_orderbook_position m));
     Lit ", quantity: "; Setw 6; Dec (be64toh (orp_quantity m)); Lit ", price: "; Setw 6;
     Dec (be32toh (orp_price m)); Lit ", order_attributes: ";
     Dec (be16toh (orp_order_attributes m)); Lit (" }" +:+ nl)].

(** itch_orderbook_directory.hpp. *)
Definition OrderBookDirectory_display (os : ostream) (m : OrderBookDirectory) : ostream :=
  stream_out os
    [Lit "{"; Lit "  type: "; Name (enum_name MessageType (obd_type m)); Lit ", nanoseconds: ";
     Setw 10; Dec (be32toh (obd_nanoseconds m)); Lit ", orderbook_id: "; Setw 10;
     Dec (be32toh (obd_orderbook_id m)); Lit ", symbol: "; Str (obd_symbol m);
     Lit ", long_name: "; Str (obd_long_name m); Lit ", isin: "; Str (obd_isin m);
     Lit ", financial_product: "; Name (enum_name FinancialProduct (obd_financial_product m));
     Lit ", trading_currency: "; Str (obd_trading_currency m); Lit ", num_decimals_in_price: ";
     Setw 2; Dec (be16toh (obd_num_decimals_in_price m)); Lit ", num_decimals_in_nominal_price: ";
     Setw 2; Dec (be16toh (obd_num_decimals_in_nominal_price m)); Lit ", odd_lot_size: "; Setw 6;
     Dec (be32toh (obd_odd_lot_size m)); Lit ", round_lot_size: "; Setw 6;
     Dec (be32toh (obd_round_lot_size m)); Lit ", block_lot_size: "; Setw 6;
     Dec (be32toh (obd_block_lot_size m)); Lit ", nominal_value: "; Setw 10;
     Dec (be64toh (obd_nominal_value m)); Lit ", num_legs: "; Setw 2;
     Chr (byte_of_Z (obd_num_legs m)); Lit ", underlying_orderbook_id: "; Setw 10;
     Dec (be32toh (obd_underlying_orderbook_id m)); Lit ", strike_price: "; Setw 10;
     Dec (be32toh (obd_strike_price m)); Lit ", expiration_date: "; Setw 10;
     Dec (be32toh (obd_expiration_date m)); Lit ", num_decimals_in_strike_price: "; Setw 2;
     Dec (be16toh (obd_num_decimals_in_strike_price m)); Lit ", put_or_call: ";
     Name (enum_name PutOrCall (obd_put_or_call m)); Lit (" }" +:+ nl)].

(** itch_orderbook_flush.hpp. *)
Definition OrderbookFlush_display (os : ostream) (m : OrderbookFlush) : ostream :=
  stream_out os
    [Lit "{"; Lit "  type: "; Name (enum_name MessageType (obf_type m)); Lit ", nanoseconds: ";
     Setw 10; Dec (be32toh (obf_nanoseconds m)); Lit ", orderbook_id: "; Setw 10;
     Dec (be32toh (obf_orderbook_id m)); Lit (" }" +:+ nl)].

(** itch_orderbook_state.hpp. *)
Definition OrderBookState_display (os : ostream) (m : OrderBookState) : ostream :=
  stream_out os
    [Lit "{"; Lit "  type: "; Name (enum_name MessageType (obs_type m)); Lit ", nanoseconds: ";
     Setw 10; Dec (be32toh (obs_nanoseconds m)); Lit ", orderbook_id: "; Setw 10;
     Dec (be32toh (obs_orderbook_id m)); Lit (", state_name: " +:+ dq); Str (obs_state_name m);
     Lit dq; Lit (" }" +:+ nl)].

(** itch_seconds.hpp. *)
Definition Seconds_display (os : ostream) (m : Seconds) : ostream :=
  stream_out os
    [Lit "{"; Lit "  type: "; Name (enum_name MessageType (sec_type m)); Lit ", second: ";
     Setw 10; Dec (be32toh (sec_second m)); Lit (" }" +:+ nl)].

(** itch_short_sell_status.hpp. *)
Definition ShortSellStatus_display (os : ostream) (m : ShortSellStatus) : ostream :=
  stream_out os
    [Lit "{"; Lit "  type: "; Name (enum_name MessageType (sss_type m)); Lit ", nanoseconds: ";
     Setw 10; Dec (be32toh (sss_nanoseconds m)); Lit ", orderbook_id: "; Setw 10;
     Dec (be32toh (sss_orderbook_id m)); Lit ", short_sell_restriction: ";
     Name (enum_name ShortSellRestriction (sss_short_sell_restriction m));
     Lit ", short_sell_validation: ";
     Name (enum_name ShortSellValidation (sss_short_sell_validation m)); Lit (" }" +:+ nl)].

(** itch_system_event.hpp. *)
Definition SystemEvent_display (os : ostream) (m : SystemEvent) : ostream :=
  stream_out os
    [Lit "{"; Lit "  type: "; Name (enum_name MessageType (se_type m)); Lit ", nanoseconds: ";
     Setw 10; Dec (be32toh (se_nanoseconds m)); Lit ", event_code: ";
     Name (enum_name EventCode (se_event_code m)); Lit (" }" +:+ nl)].

(** itch_tick_size_table_entry.hpp. *)
Definition TickSizeTableEntry_display (os : ostream) (m : TickSizeTableEntry) : ostream :=
  stream_out os
    [Lit "{"; Lit "  type: "; Name (enum_name MessageType (tse_type m)); Lit ", nanoseconds: ";
     Setw 10; Dec (be32toh (tse_nanoseconds m)); Lit ", orderbook_id: "; Setw 10;
     Dec (be32toh (tse_orderbook_id m)); Lit ", tick_size: "; Setw 6;
     Dec (be64toh (tse_tick_size m)); Lit ", price_from: "; Setw 10;
     Dec (be32toh (tse_price_from m)); Lit ", price_to: "; Setw 10;
     Dec (be32toh (tse_price_to m)); Lit (" }" +:+ nl)].

(** itch_trade.hpp. *)
Definition Trade_display (os : ostream) (m : Trade) : ostream :=
  stream_out os
    [Lit "{"; Lit "  type: "; Name (enum_name MessageType (tr_type m)); Lit ", nanoseconds: ";
     Setw 10; Dec (be32toh (tr_nanoseconds m)); Lit ", match_id: "; Setw 10;
     Dec (be64toh (tr_match_id m)); Lit ", combo_group_id: "; Setw 10;
     Dec (be32toh (tr_combo_group_id m)); Lit ", side: "; Name (enum_name Side (tr_side m));
     Lit ", quantity: "; Setw 6; Dec (be64toh (tr_quantity m)); Lit ", orderbook_id: "; Setw 10;
     Dec (be32toh (tr_orderbook_id m)); Lit ", trade_price: "; Setw 10;
     Dec (be32toh (tr_trade_price m)); Lit ", printable: ";
     Name (enum_name Printable (tr_printable m)); Lit ", occurred_at_cross: ";
     Name (enum_name OccurredAtCross (tr_occurred_at_cross m)); Lit (" }" +:+ nl)].

(** ** Properties *)

(** The enumeration members hold values that have a name. *)
Definition AddOrder_nameable (m : AddOrder) : Prop :=
  nameable MessageType (ao_type m) ∧ nameable Side (ao_side m) ∧ nameable LotType (ao_lot_type m).

(** A price is printed as an unsigned number: a negative one appears as [2 ^ 32] more. *)
Lemma negative_price_shown (bs : list byte) (m : AddOrder) (p : Z) :
  c_dec AddOrder_codec bs = Some m → - 2 ^ 31 ≤ p < 0 →
  be_load (slice ADD_ORDER_MSG_PRICE_OFFSET 4 bs) = wrap 32 p → be32toh (ao_price m) = p + 2 ^ 32.
Proof.
  intros Hd Hp Hw. pose proof (AddOrder_layout bs m Hd) as (_ & _ & _ & _ & _ & _ & _ & _ & Hx & _).
  rewrite Hx, Hw. unfold wrap. symmetry. apply (Z.mod_unique _ _ (-1)); lia.
Qed.

(** C20. The log line of an add-order message loses nothing: two received messages that
    differ in any byte, and whose enumeration members have names, give different lines on
    a stream without a pending width. *)
Theorem add_order_line_faithful `{!MagicEnumLaws} (os : ostream) (bs bs' : list byte) (m m' : AddOrder) :
  c_dec AddOrder_codec bs = Some m → c_dec AddOrder_codec bs' = Some m' →
  AddOrder_nameable m → AddOrder_nameable m' → os_width os = 0%nat → bs ≠ bs' →
  os_chars (AddOrder_display os m) ≠ os_chars (AddOrder_display os m').
Proof.
  intros (_ & _ & <-)%dec_inv (_ & _ & <-)%dec_inv (Ht & Hs & Hl) (Ht' & Hs' & Hl') Hw Hne He. apply Hne.
  apply stream_out_inj in He; [|done|solve_format|solve_readable..].
  injection He as E1%enum_name_inj E2%bswap_store_inj E3%bswap_store_inj E4%bswap_store_inj E5%enum_name_inj
    E6%bswap_store_inj E7%bswap_store_inj E8%bswap_store_inj E9%bswap_store_inj E10%enum_name_inj; [|done..].
  cbn [c_enc AddOrder_codec isoc pairc fst snd].
  repeat apply (f_equal2 app); first [assumption | by apply (f_equal (λ b, [b]))].
Qed.

End display.

Definition sample_add_order : AddOrder :=
  Build_AddOrder "A" (bswap 4 17) (bswap 8 4711) (bswap 4 3) "S" (bswap 4 1) (bswap 8 250) (bswap 4 99) (bswap 2 0) x02.

(** The same order for one share more. *)
Definition sample_add_order_larger : AddOrder :=
  Build_AddOrder "A" (bswap 4 17) (bswap 8 4711) (bswap 4 3) "S" (bswap 4 1) (bswap 8 251) (bswap 4 99) (bswap 2 0) x02.

Lemma add_order_line_faithful_witness :
  os_chars (@AddOrder_display sample_names (Build_ostream [] 0) sample_add_order) ≠
  os_chars (@AddOrder_display sample_names (Build_ostream [] 0) sample_add_order_larger).
Proof.
  apply (@add_order_line_faithful sample_names sample_names_laws (Build_ostream [] 0)
    (c_enc AddOrder_codec sample_add_order) (c_enc AddOrder_codec sample_add_order_larger));
    [by vm_compute | by vm_compute | | | done |];
    [split_and!; apply (bool_decide_unpack _); by vm_compute .. |].
  apply (bool_decide_unpack _). by vm_compute.
Defined.
