(* ===== verification/OuchDisplay.v ===== *)
(** * Log lines of the OUCH messages

    The stream insertion operators of the structs of lib/protocol/ouch/, item by item. *)
From S2P Require Import Prelude Bytes Codec Types Display OuchMessages.
Local Open Scope Z_scope.

Section display.
Context `{MagicEnum}.

(** [parseUint64]: the first eight bytes of the match id, as an object of the host. *)
Definition parseUint64 (data : list byte) : Z := le_load (take 8 data).

(** ouch_cancel_by_order_id.hpp. *)
Definition CancelOrderByOrderId_display (os : ostream) (m : CancelOrderByOrderId) : ostream :=
  stream_out os
    [Lit "{"; Lit ("  type: " +:+ dq); Name (enum_name OuchMessageType (coi_type m)); Lit dq;
     Lit ", order_book_id: "; Dec (be32toh (coi_orderbook_id m)); Lit (", side: " +:+ dq);
     Chr (coi_side m); Lit dq; Lit ", order_id: "; Dec (be64toh (coi_order_id m));
     Lit (" }" +:+ nl)].

(** ouch_cancel_order.hpp. *)
Definition CancelOrder_display (os : ostream) (m : CancelOrder) : ostream :=
  stream_out os
    [Lit "{"; Lit "  type: "; Name (enum_name OuchMessageType (co_type m));
     Lit (", order_token: " +:+ dq); Str (co_order_token m); Lit dq; Lit (" }" +:+ nl)].

(** ouch_enter_order.hpp. *)
Definition EnterOrder_display (os : ostream) (m : EnterOrder) : ostream :=
  stream_out os
    [Lit "{"; Lit "  type: "; Name (enum_name OuchMessageType (eo_type m));
     Lit (", order_token: " +:+ dq); Str (eo_order_token m); Lit dq; Lit ", orderbook_id: ";
     Dec (be32toh (eo_orderbook_id m)); Lit ", side: "; Name (enum_name Side (eo_side m));
     Lit ", quantity: "; Dec (be64toh (eo_quantity m)); Lit ", price: ";
     Dec (be32toh (eo_price m)); Lit ", time_in_force: ";
     Name (enum_name OuchTimeInForce (eo_time_in_force m)); Lit ", open_close: ";
     Name (enum_name OuchOpenClose (eo_open_close m)); Lit ", client_account: ";
     Str (eo_client_account m); Lit ", customer_info: "; Str (eo_customer_info m);
     Lit ", exchange_info: "; Str (eo_exchange_info m); Lit ", display_quantity: ";
     Dec (be64toh (eo_display_quantity m)); Lit ", client_category: ";
     Name (enum_name OuchClientCategory (eo_client_category m)); Lit ", offhours: ";
     Name (enum_name OuchOffHours (eo_offhours m)); Lit (", reserved: " +:+ dq);
     Str (eo_reserved m); Lit dq; Lit (" }" +:+ nl)].

(** ouch_order_accepted.hpp. *)
Definition OrderAccepted_display (os : ostream) (m : OrderAccepted) : ostream :=
  stream_out os
    [Lit "{"; Lit "  type: "; Name (enum_name OuchMessageType (oa_type m)); Lit ", timestamp: ";
     Dec (be64toh (oa_timestamp m)); Lit (", order_token: " +:+ dq); Str (oa_order_token m);
     Lit dq; Lit ", orderbook_id: "; Dec (be32toh (oa_orderbook_id m)); Lit ", side: ";
     Name (enum_name Side (oa_side m)); Lit ", order_id: "; Dec (be64toh (oa_order_id m));
     Lit ", quantity: "; Dec (be64toh (oa_quantity m)); Lit ", price: ";
     Dec (be32toh (oa_price m)); Lit ", time_in_force: ";
     Name (enum_name OuchTimeInForce (oa_time_in_force m)); Lit ", open_close: ";
     Name (enum_name OuchOpenClose (oa_open_close m)); Lit (", client_account: " +:+ dq);
     Str (oa_client_account m); Lit dq; Lit ", order_state: ";
     Name (enum_name OuchOrderState (oa_order_state m)); Lit (", customer_info: " +:+ dq);
     Str (oa_customer_info m); Lit dq; Lit (", exchange_info: " +:+ dq); Str (oa_exchange_info m);
     Lit dq; Lit ", pre_trade_quantity: "; Dec (be64toh (oa_pre_trade_quantity m));
     Lit ", display_quantity: "; Dec (be64toh (oa_display_quantity m)); Lit ", client_category: ";
     Name (enum_name OuchClientCategory (oa_client_category m)); Lit ", offhours: ";
     Name (enum_name OuchOffHours (oa_offhours m)); Lit (", reserved: " +:+ dq);
     Str (oa_reserved m); Lit dq; Lit (" }" +:+ nl)].

(** ouch_order_canceled.hpp. *)
Definition OrderCanceled_display (os : ostream) (m : OrderCanceled) : ostream :=
  stream_out os
    [Lit "{"; Lit "  type: "; Name (enum_name OuchMessageType (oc_type m)); Lit ", timestamp: ";
     Dec (oc_timestamp m); Lit (", order_token: " +:+ dq); Str (oc_order_token m); Lit dq;
     Lit ", orderbook_id: "; Dec (oc_orderbook_id m); Lit ", side: ";
     Name (enum_name Side (oc_side m)); Lit ", order_id: "; Dec (oc_order_id m);
     Lit ", cancel_reason: "; Name (enum_name OuchCancelReason (oc_cancel_reason m));
     Lit (" }" +:+ nl)].

(** ouch_order_executed.hpp. *)
Definition OuchOrderExecuted_display (os : ostream) (m : OuchOrderExecuted) : ostream :=
  stream_out os
    [Lit "{"; Lit "  type: "; Name (enum_name OuchMessageType (ox_type m)); Lit ", timestamp: ";
     Dec (ox_timestamp m); Lit (", order_token: " +:+ dq); Str (ox_order_token m); Lit dq;
     Lit ", orderbook_id: "; Dec (ox_orderbook_id m); Lit ", traded_quantity: ";
     Dec (ox_traded_quantity m); Lit ", trade_price: "; Dec (ox_trade_price m);
     Lit ", match_id: "; Dec (parseUint64 (ox_match_id m)); Lit ", client_category: ";
     Name (enum_name OuchClientCategory (ox_client_category m)); Lit (", reserved: " +:+ dq);
     Str (ox_reserved m); Lit dq; Lit (" }" +:+ nl)].

(** ouch_order_rejected.hpp. *)
Definition OrderRejected_display (os : ostream) (m : OrderRejected) : ostream :=
  stream_out os
    [Lit "{"; Lit "  type: '"; Name (enum_name OuchMessageType (oj_type m)); Lit "'";
     Lit ", timestamp: "; Dec (oj_timestamp m); Lit (", order_token: " +:+ dq);
     Str (oj_order_token m); Lit dq; Lit ", reject_code: "; Dec (oj_reject_code m);
     Lit (" }" +:+ nl)].

(** ouch_order_replaced.hpp. *)
Definition OrderReplaced_display (os : ostream) (m : OrderReplaced) : ostream :=
  stream_out os
    [Lit "{"; Lit "  type: '"; Name (enum_name OuchMessageType (orr_type m)); Lit "'";
     Lit ", timestamp: "; Dec (orr_timestamp m); Lit (", replacement_order_token: " +:+ dq);
     Str (orr_replacement_order_token m); Lit dq; Lit (", previous_order_token: " +:+ dq);
     Str (orr_previous_order_token m); Lit dq; Lit ", orderbook_id: "; Dec (orr_orderbook_id m);
     Lit ", side: '"; Name (enum_name Side (orr_side m)); Lit "'"; Lit ", order_id: ";
     Dec (orr_order_id m); Lit ", quantity: "; Dec (orr_quantity m); Lit ", price: ";
     Dec (orr_price m); Lit ", time_in_force: ";
     Name (enum_name OuchTimeInForce (orr_time_in_force m)); Lit ", open_close: ";
     Name (enum_name OuchOpenClose (orr_open_close m)); Lit (", client_account: " +:+ dq);
     Str (orr_client_account m); Lit dq; Lit ", order_state: ";
     Name (enum_name OuchOrderState (orr_order_state m)); Lit (", customer_info: " +:+ dq);
     Str (orr_customer_info m); Lit dq; Lit (", exchange_info: " +:+ dq);
     Str (orr_exchange_info m); Lit dq; Lit ", pre_trade_quantity: ";
     Dec (orr_pre_trade_quantity m); Lit ", display_quantity: "; Dec (orr_display_quantity m);
     Lit ", client_category: "; Name (enum_name OuchClientCategory (orr_client_category m));
     Lit (" }" +:+ nl)].

(** ouch_replace_order.hpp. *)
Definition ReplaceOrder_display (os : ostream) (m : ReplaceOrder) : ostream :=
  stream_out os
    [Lit "{"; Lit ("  type: " +:+ dq); Name (enum_name OuchMessageType (ro_type m)); Lit dq;
     Lit (", existing_order_token: " +:+ dq); Str (ro_existing_order_token m); Lit dq;
     Lit (", replacement_order_token: " +:+ dq); Str (ro_replacement_order_token m); Lit dq;
     Lit ", quantity: "; Dec (be64toh (ro_quantity m)); Lit ", price: ";
     Dec (be32toh (ro_price m)); Lit ", open_close: "; Dec (u8 (ro_open_close m));
     Lit (", client_account: " +:+ dq); Str (ro_client_account m); Lit dq;
     Lit (", customer_info: " +:+ dq); Str (ro_customer_info m); Lit dq;
     Lit (", exchange_info: " +:+ dq); Str (ro_exchange_info m); Lit dq;
     Lit ", display_quantity: "; Dec (be64toh (ro_display_quantity m)); Lit ", client_category: ";
     Dec (u8 (ro_client_category m)); Lit (" }" +:+ nl)].

(** ** Properties *)

(** The log line of an execution shows the traded quantity and the trade price with
    their bytes in the wrong order: what is printed is the byte-reversed number of the
    wire, because the operator leaves out the conversion that the other messages have. *)
Theorem executed_line_byte_swapped (os : ostream) (bs : list byte) (m : OuchOrderExecuted) :
  c_dec OuchOrderExecuted_codec bs = Some m →
  ∃ before after,
    os_chars (OuchOrderExecuted_display os m) =
      os_chars os ++ before ++
      String.list_byte_of_string ", traded_quantity: " ++ decimal (bswap 8 (be_load (slice 27 8 bs))) ++
      String.list_byte_of_string ", trade_price: " ++ decimal (to_signed 32 (bswap 4 (be_load (slice 35 4 bs)))) ++ after.
Proof.
  intros Hd. pose proof (OuchOrderExecuted_layout bs m Hd) as (_ & _ & _ & _ & _ & Hq & Hp & _).
  apply dec_inv in Hd as (_ & Hok & _). cbn [c_ok OuchOrderExecuted_codec isoc pairc fst snd] in Hok.
  rewrite !andb_true_iff in Hok. destruct Hok as (_ & _ & _ & _ & Hqr & Hpr & _).
  rewrite <- Hq, <- Hp. unfold be32toh, be64toh. rewrite bswap_swap, bswap_involutive.
  2: { unfold Quantity in Hqr. cbn [c_ok uint] in Hqr. by rewrite andb_true_iff, Z.leb_le, Z.ltb_lt in Hqr. }
  assert (to_signed 32 (ox_trade_price m `mod` 256 ^ Z.of_nat 4) = ox_trade_price m) as ->.
  { transitivity (to_signed 32 (ox_trade_price m)); [apply to_signed_mod, wrap_wrap | by apply Z.eqb_eq]. }
  unfold OuchOrderExecuted_display. set (items := [_; _; _; _; _; _; _; _; _; _; _; _; _; _; _; _; _; _; _; _; _; _]).
  destruct (stream_out_middle os items 10 4) as (before & after & He); [reflexivity..|].
  exists before, after. rewrite He. subst items. cbn [take drop render item_text]. rewrite !pad_0, app_nil_r.
  by rewrite <- !(assoc_L (++)).
Qed.
End display.

Definition sample_executed : OuchOrderExecuted :=
  Build_OuchOrderExecuted "E" 0 (replicate 14 "0"%byte) (bswap 4 7) (bswap 8 1) (bswap 4 25)
    (replicate 12 x00) x01 (replicate 16 x00).

(** One share at price 25 is logged as 72057594037927936 at 419430400. *)
Lemma executed_line_byte_swapped_witness :
  ∃ before after, os_chars (@OuchOrderExecuted_display sample_names (Build_ostream [] 0) sample_executed) =
    before ++ String.list_byte_of_string ", traded_quantity: 72057594037927936, trade_price: 419430400" ++ after.
Proof.
  destruct (@executed_line_byte_swapped sample_names (Build_ostream [] 0) (c_enc OuchOrderExecuted_codec sample_executed)
    sample_executed) as (a & b & He); [by vm_compute |].
  exists a, b. exact He.
Defined.
