(* ===== verification/SessionDisplay.v ===== *)
(** * Log lines of the SoupBinTCP and MoldUDP64 messages

    The stream insertion operators of the structs of lib/protocol/soupbintcp/ and
    lib/protocol/moldudp64/, item by item. *)
From S2P Require Import Prelude Bytes Codec Types Display SessionMessages.
Local Open Scope Z_scope.

Section display.
Context `{MagicEnum}.

(** soupbintcp_client_heartbeat.hpp. *)
Definition ClientHeartbeat_display (os : ostream) (m : ClientHeartbeat) : ostream :=
  stream_out os
    [Lit "{ packetLength: "; Dec (be32toh (ch_packetLength m)); Lit ", packetType: ";
     Name (enum_name PacketType (ch_packetType m)); Lit (" }" +:+ nl)].

(** soupbintcp_end_of_session.hpp. *)
Definition EndOfSession_display (os : ostream) (m : EndOfSession) : ostream :=
  stream_out os
    [Lit "{ packetLength: "; Dec (es_packetLength m); Lit ", packetType: '";
     Name (enum_name PacketType (es_packetType m)); Lit "' }"].

(** soupbintcp_login_accepted.hpp. *)
Definition LoginAccepted_display (os : ostream) (m : LoginAccepted) : ostream :=
  stream_out os
    [Lit "{ packetLength: "; Dec (la_packetLength m); Lit ", packetType: '";
     Name (enum_name PacketType (la_packetType m)); Lit "'"; Lit (", session_name: " +:+ dq);
     Str (la_session_name m); Lit dq; Lit (", sequenceNumber: " +:+ dq);
     Str (la_sequenceNumber m); Lit dq; Lit " }"].

(** soupbintcp_login_rejected.hpp. *)
Definition LoginRejected_display (os : ostream) (m : LoginRejected) : ostream :=
  stream_out os
    [Lit "{ packetLength: "; Dec (lj_packetLength m); Lit ", packetType: '";
     Name (enum_name PacketType (lj_packetType m)); Lit "'"; Lit ", reject_reason_code: ";
     Name (enum_name RejectReasonCode (lj_reject_reason_code m)); Lit " }"].

(** soupbintcp_login_request.hpp. *)
Definition LoginRequest_display (os : ostream) (m : LoginRequest) : ostream :=
  stream_out os
    [Lit "{ packetLength: "; Dec (be16toh (lr_packetLength m)); Lit ", packetType: ";
     Name (enum_name PacketType (lr_packetType m)); Lit (", username: " +:+ dq);
     Str (lr_username m); Lit dq; Lit (", password: " +:+ dq); Str (lr_password m); Lit dq;
     Lit (", sessionName: " +:+ dq); Str (lr_sessionName m); Lit dq;
     Lit (", sequenceNumber: " +:+ dq); Str (lr_sequenceNumber m); Lit dq; Lit (" }" +:+ nl)].

(** soupbintcp_logout_request.hpp. *)
Definition LogoutRequest_display (os : ostream) (m : LogoutRequest) : ostream :=
  stream_out os
    [Lit "{ packetLength: "; Dec (be16toh (lo_packetLength m)); Lit ", packetType: ";
     Name (enum_name PacketType (lo_packetType m)); Lit (" }" +:+ nl)].

(** soupbintcp_sequenced_data.hpp. *)
Definition SequencedData_display (os : ostream) (m : SequencedData) : ostream :=
  stream_out os
    [Lit "{ packetLength: "; Dec (be16toh (sd_packetLength m)); Lit ", packetType: '";
     Name (enum_name PacketType (sd_packetType m)); Lit "' }"].

(** soupbintcp_server_heartbeat.hpp. *)
Definition ServerHeartbeat_display (os : ostream) (m : ServerHeartbeat) : ostream :=
  stream_out os
    [Lit "{ packetLength: "; Dec (sh_packetLength m); Lit ", packetType: '";
     Name (enum_name PacketType (sh_packetType m)); Lit "' }"].

(** moldudp64_downstream_header.hpp. *)
Definition DownstreamHeader_display (os : ostream) (m : DownstreamHeader) : ostream :=
  stream_out os
    [Lit ("{ session: " +:+ dq); Str (dh_session m); Lit dq; Lit (", sequence_number: " +:+ dq);
     Dec (be64toh (dh_sequence_number m)); Lit dq; Lit ", message_count: ";
     Dec (be16toh (dh_message_count m)); Lit " }"].

(** moldudp64_message_block.hpp. *)
Definition MessageBlock_display (os : ostream) (m : MessageBlock) : ostream :=
  stream_out os
    [Lit "{ length: "; Dec (be32toh (mb_length m)); Lit " }"].

(** soupbintcp_unsequenced_data.hpp.  [mem] is the memory from the struct to the end of the
    object it is in.  The number of characters to write is computed in [size_t]; as a
    [std::streamsize] it must not be negative. *)
Definition UnsequencedData_display (os : ostream) (mem : list byte) : outcome ostream :=
  m ← overlay UnsequencedData_codec 0 mem;
  let os := stream_out os
    [Lit "{ packetLength: "; Dec (be16toh (ud_packetLength m)); Lit ", packetType: ";
     Name (enum_name PacketType (ud_packetType m)); Lit (", raw data: " +:+ dq)] in
  let n := to_signed 64 (be16toh (ud_packetLength m) - Z.of_nat (c_size PacketLength) - Z.of_nat (c_size enum1)) in
  if n <? 0 then Undef OutOfBoundsRead
  else
    raw ← read_mem (c_size UnsequencedData_codec) (Z.to_nat n) mem;
    Ret (stream_out (stream_write os raw) [Lit (dq +:+ " }" +:+ nl)]).

(** ** The raw data of an unsequenced packet

    The length field counts what follows it, so a packet with payload [p] announces
    [1 + length p]; the operator subtracts the sizes of both header fields and writes all
    but the last two characters of the payload. *)
Lemma unsequenced_line_drops_two (os : ostream) (p rest : list byte) :
  2 ≤ Z.of_nat (length p) < 65535 →
  ∃ os', UnsequencedData_display os
      (c_enc UnsequencedData_codec (Build_UnsequencedData (htobe16 (1 + Z.of_nat (length p))) "U") ++ p ++ rest) = Ret os' ∧
    ∃ head, os_chars os' = os_chars os ++ head ++ take (length p - 2) p ++ String.list_byte_of_string (dq +:+ " }" +:+ nl).
Proof.
  intros Hp. set (m := Build_UnsequencedData _ _).
  assert (Hok : c_ok UnsequencedData_codec m = true).
  { cbn [c_ok UnsequencedData_codec isoc pairc fst snd m ud_packetLength ud_packetType].
    rewrite andb_true_iff. split; [apply uint_ok_bswap | done]. }
  unfold UnsequencedData_display. pose proof (overlay_enc UnsequencedData_codec m [] (p ++ rest) Hok) as Ho.
  rewrite app_nil_l in Ho. change (length []) with 0%nat in Ho. rewrite Ho. run_outcome.
  assert (Hn : to_signed 64 (be16toh (ud_packetLength m) - Z.of_nat (c_size PacketLength) - Z.of_nat (c_size enum1)) =
    Z.of_nat (length p - 2)).
  { change (ud_packetLength m) with (htobe16 (1 + Z.of_nat (length p))). unfold be16toh, htobe16.
    rewrite bswap_swap by (change (bytes_modulus 2) with 65536; lia).
    change (Z.of_nat (c_size PacketLength)) with 2. change (Z.of_nat (c_size enum1)) with 1.
    rewrite to_signed_id; lia. }
  cbv zeta. rewrite Hn, (proj2 (Z.ltb_ge _ 0)), Nat2Z.id by lia.
  pose proof (enc_length m Hok) as Hl. rewrite read_mem_ok by (rewrite !length_app, Hl; lia). run_outcome.
  set (items := [_; _; _; _; _]). eexists. split; [reflexivity|]. exists (render (os_width os) items).
  rewrite stream_out_render. change (os_width (stream_write _ _)) with 0%nat. cbn [render item_text stream_write os_chars].
  rewrite stream_out_render, pad_0, app_nil_r.
  rewrite slice_app_r, <- Hl, Nat.sub_diag, slice_app_l by lia. unfold slice. rewrite drop_0.
  by rewrite <- !(assoc_L (++)).
Qed.

(** A copy of the struct alone, as the logging library makes it, has no data behind it. *)
Lemma unsequenced_line_of_copy (os : ostream) (m : UnsequencedData) :
  c_ok UnsequencedData_codec m = true → 3 < be16toh (ud_packetLength m) →
  UnsequencedData_display os (c_enc UnsequencedData_codec m) = Undef OutOfBoundsRead.
Proof.
  intros Hok Hn. unfold UnsequencedData_display. pose proof (overlay_enc UnsequencedData_codec m [] [] Hok) as Ho.
  rewrite app_nil_r, app_nil_l in Ho. change (length []) with 0%nat in Ho. rewrite Ho. run_outcome. cbv zeta.
  change (Z.of_nat (c_size PacketLength)) with 2. change (Z.of_nat (c_size enum1)) with 1.
  pose proof (bswap_u64 2 (ud_packetLength m) ltac:(lia)) as Hb. pose proof (bswap_bound 2 (ud_packetLength m)) as [_ Hb2].
  fold (be16toh (ud_packetLength m)) in Hb, Hb2. change (bytes_modulus 2) with 65536 in Hb2.
  rewrite to_signed_id by lia. rewrite (proj2 (Z.ltb_ge _ 0)) by lia.
  pose proof (enc_length m Hok) as Hl. unfold read_mem. rewrite Hl.
  by rewrite (proj2 (Nat.leb_gt _ _)) by lia.
Qed.
End display.
