(* ===== verification/L2Orderbook.v ===== *)
(** * The aggregated (level 2) order book

    Models lib/core/l2_orderbook.hpp.  A side of the book is the vector [m_bids] or
    [m_asks] of (price, quantity) pairs, worst level first and best level last, which the
    code searches from the end with reverse iterators.  A reverse iterator is modelled by
    its distance from [rbegin()], so that [rend()] is the length of the vector; using
    [rend()] as if it pointed to a level is undefined behaviour.  Quantities are
    [uint64_t] and wrap around.

    After an insertion [AddOrder] still compares the loop's iterator with [rend()], although
    the insertion has invalidated it.  What this comparison yields is a parameter
    ([StaleComparison]): by the letter of C++ it is undefined behaviour; an implementation
    whose iterators are pointers finds a pointer that never was, nor becomes, the start of
    the vector, so that the comparison is false.  The latter is the default; [feed_safe] of
    OrderbookBuilder.v says what the former changes ([L2_AddOrder_checked]).

    The specification is a finite map from prices to quantities ([depth]): the operations
    refine [spec_add] and [spec_reduce] on it and keep the side sorted with positive
    quantities ([side_wf]). *)
From S2P Require Import Prelude Bytes.
From stdpp Require Import sorting.
From Stdlib Require Import Sorting.Sorted.
Local Open Scope Z_scope.

Abbreviation level := (Z * Z)%type.

(** ** Iteration from the best level *)

(** [while (iter != rend() && !stop(iter->first)) ++iter], from [rbegin()]. *)
Fixpoint scan (stop : Z → bool) (rlevels : list level) : nat :=
  match rlevels with
  | [] => 0
  | l :: rlevels => if stop l.1 then 0 else S (scan stop rlevels)
  end.

Definition rend (levels : list level) : nat := length levels.

(** The vector index of the level a dereferenceable reverse iterator points to. *)
Definition rindex (levels : list level) (iter : nat) : nat := length levels - 1 - iter.

(** The level a reverse iterator points to: using [rend()] is undefined behaviour. *)
Definition deref (levels : list level) (iter : nat) : outcome level :=
  if (iter <? rend levels)%nat
  then match levels !! rindex levels iter with Some l => Ret l | None => Undef InvalidIterator end
  else Undef InvalidIterator.

(** [iter != levels.rend() && iter->first == price] *)
Definition at_price (levels : list level) (iter : nat) (price : Z) : bool :=
  match deref levels iter with Ret l => l.1 =? price | _ => false end.

(** [iter->second = qty], for an iterator that points to a level. *)
Definition set_qty (levels : list level) (iter : nat) (qty : Z) : list level :=
  alter (λ l, (l.1, qty)) (rindex levels iter) levels.

(** [auto it = iter.base(); --it; levels.erase(it);] *)
Definition erase (levels : list level) (iter : nat) : list level := delete (rindex levels iter) levels.

(** [levels.insert(iter.base(), l)] *)
Definition insert_base (levels : list level) (iter : nat) (l : level) : list level :=
  let i := (length levels - iter)%nat in take i levels ++ l :: drop i levels.

(** ** The operations on one side *)

Definition GetLevel (levels : list level) (price : Z) : nat :=
  scan (λ px, px =? price) (rev levels).

(** [level_iter == levels.rend()] after [levels.insert] has invalidated [level_iter]. *)
Class StaleComparison := stale_is_rend : outcome bool.

(** Iterators that are pointers, and iterators as the language describes them. *)
#[export] Instance pointer_iterators : StaleComparison := Ret false.
Definition cxx_iterators : StaleComparison := Undef InvalidIterator.

Definition AddOrder_levels `{StaleComparison} (levels : list level) (price qty : Z) (comp : Z → Z → bool) :
    outcome (list level) :=
  match levels with
  | [] => Ret [(price, qty)]
  | _ :: _ =>
      let iter := GetLevel levels price in
      if at_price levels iter price then
        l ← deref levels iter;
        Ret (set_qty levels iter (wrap 64 (l.2 + qty)))
      else
        let level_iter := scan (λ px, comp px price) (rev levels) in
        if (level_iter =? rend levels)%nat then Ret ((price, qty) :: levels)
        else
          let levels := insert_base levels level_iter (price, qty) in
          is_rend ← stale_is_rend;
          Ret (if (is_rend : bool) then (price, qty) :: levels else levels)
  end.

Definition DeleteOrder_levels (levels : list level) (price qty : Z) : outcome (list level) :=
  let iter := GetLevel levels price in
  if negb (at_price levels iter price) then Exit 42
  else
    l ← deref levels iter;
    let q := wrap 64 (l.2 - qty) in
    let levels' := set_qty levels iter q in
    if q <=? 0 then Ret (erase levels' iter) else Ret levels'.

Definition ReplaceOrder_levels `{StaleComparison} (levels : list level) (oldPrice oldQty newPrice newQty : Z)
    (comp : Z → Z → bool) : outcome (list level) :=
  let iter := GetLevel levels oldPrice in
  l ← deref levels iter;
  if oldPrice =? newPrice then Ret (set_qty levels iter (wrap 64 (wrap 64 (l.2 - oldQty) + newQty)))
  else
    let levels' :=
      if oldQty <? l.2 then set_qty levels iter (wrap 64 (l.2 - oldQty)) else erase levels iter in
    AddOrder_levels levels' newPrice newQty comp.

Definition ExecuteOrderImpl (levels : list level) (price qty : Z) : outcome (list level) :=
  let iter := GetLevel levels price in
  l ← deref levels iter;
  if qty <? l.2 then Ret (set_qty levels iter (wrap 64 (l.2 - qty))) else Ret (erase levels iter).

(** ** The book *)

Record L2Orderbook := Build_L2Orderbook { m_bids : list level; m_asks : list level }.

(** The constructor only reserves capacity. *)
Definition L2Orderbook_new : L2Orderbook := Build_L2Orderbook [] [].

(** [std::less] and [std::greater]. *)
Definition less : Z → Z → bool := Z.ltb.
Definition greater : Z → Z → bool := λ a b, b <? a.

(** Any side other than 'B' is the ask side. *)
Definition is_buy (side : byte) : bool := Byte.eqb side "B".

Definition with_bids (b : L2Orderbook) (l : list level) : L2Orderbook := Build_L2Orderbook l (m_asks b).
Definition with_asks (b : L2Orderbook) (l : list level) : L2Orderbook := Build_L2Orderbook (m_bids b) l.

Definition L2_AddOrder `{StaleComparison} (b : L2Orderbook) (side : byte) (price qty : Z) : outcome L2Orderbook :=
  if is_buy side then with_bids b <$> AddOrder_levels (m_bids b) price qty less
  else with_asks b <$> AddOrder_levels (m_asks b) price qty greater.

Definition L2_DeleteOrder (b : L2Orderbook) (side : byte) (price qty : Z) : outcome L2Orderbook :=
  if is_buy side then with_bids b <$> DeleteOrder_levels (m_bids b) price qty
  else with_asks b <$> DeleteOrder_levels (m_asks b) price qty.

Definition L2_ReplaceOrder `{StaleComparison} (b : L2Orderbook) (side : byte) (oldPrice oldQty newPrice newQty : Z) :
    outcome L2Orderbook :=
  if is_buy side then with_bids b <$> ReplaceOrder_levels (m_bids b) oldPrice oldQty newPrice newQty less
  else with_asks b <$> ReplaceOrder_levels (m_asks b) oldPrice oldQty newPrice newQty greater.

Definition L2_ExecuteOrder (b : L2Orderbook) (side : byte) (price qty : Z) : outcome L2Orderbook :=
  if is_buy side then with_bids b <$> ExecuteOrderImpl (m_bids b) price qty
  else with_asks b <$> ExecuteOrderImpl (m_asks b) price qty.

(** [{ m_bids.rbegin()->first, m_asks.rbegin()->first }] *)
Definition GetBestPrices (b : L2Orderbook) : outcome (Z * Z) :=
  bid ← deref (m_bids b) 0;
  ask ← deref (m_asks b) 0;
  Ret (bid.1, ask.1).

Definition INT_MAX : Z := 2147483647.

(** One loop of [Dump]: the flag [bad] and the previous price after visiting [levels]. *)
Fixpoint dump_loop (levels : list level) (prev_price : Z) (bad : bool) : Z * bool :=
  match levels with
  | [] => (prev_price, bad)
  | (px, qty) :: levels => dump_loop levels px (bad || (prev_price <=? px) || (qty =? 0))
  end.

(** Whether [Dump] reports "BAD ORDERBOOK": asks from the worst level, then bids from
    the best one. *)
Definition Dump (b : L2Orderbook) : bool :=
  let '(prev, bad) := dump_loop (m_asks b) INT_MAX false in
  (dump_loop (rev (m_bids b)) prev bad).2.

(** ** Well-formed sides and the depth map *)

(** The comparator of a side orders the prices: [comp a b] when [a] is worse than [b]. *)
Class PriceOrder (comp : Z → Z → bool) : Prop := {
  comp_irrefl (x : Z) : comp x x = false;
  comp_trans (x y z : Z) : comp x y = true → comp y z = true → comp x z = true;
  comp_total (x y : Z) : comp x y = false → comp y x = false → x = y;
}.

#[export] Instance less_order : PriceOrder less.
Proof. split; unfold less; intros; lia. Qed.
#[export] Instance greater_order : PriceOrder greater.
Proof. split; unfold greater; intros; lia. Qed.

Definition worse (comp : Z → Z → bool) (a b : level) : Prop := comp a.1 b.1 = true.
Definition qty_ok (l : level) : Prop := 0 < l.2 < 2 ^ 64.

#[export] Instance worse_dec (comp : Z → Z → bool) : RelDecision (worse comp).
Proof. intros a b. unfold worse. apply _. Defined.
#[export] Instance qty_ok_dec (l : level) : Decision (qty_ok l).
Proof. unfold qty_ok. apply _. Defined.

(** Strictly improving prices and positive quantities. *)
Definition side_wf (comp : Z → Z → bool) (levels : list level) : Prop :=
  StronglySorted (worse comp) levels ∧ Forall qty_ok levels.

#[export] Instance side_wf_dec (comp : Z → Z → bool) (levels : list level) :
  Decision (side_wf comp levels).
Proof. unfold side_wf. apply _. Defined.

(** The specification of a side: the quantity available at each price. *)
Definition depth (levels : list level) : gmap Z Z := list_to_map levels.

(** The quantity at a price, zero when there is no level. *)
Definition qty_at (d : gmap Z Z) (price : Z) : Z := default 0 (d !! price).

Definition spec_add (d : gmap Z Z) (price qty : Z) : gmap Z Z := <[price := qty_at d price + qty]> d.

(** Remove quantity from a price, dropping the level when nothing is left. *)
Definition spec_reduce (d : gmap Z Z) (price qty : Z) : gmap Z Z :=
  if qty <? qty_at d price then <[price := qty_at d price - qty]> d else delete price d.

Lemma qty_at_reduce_ne (d : gmap Z Z) (price price' qty : Z) :
  price ≠ price' → qty_at (spec_reduce d price qty) price' = qty_at d price'.
Proof.
  intros Hne. unfold spec_reduce. destruct (_ <? _); unfold qty_at.
  - by rewrite lookup_insert_ne.
  - by rewrite lookup_delete_ne.
Qed.

(** *** Positions of reverse iterators *)

Lemma scan_split (stop : Z → bool) (levels : list level) :
  ∃ l1 l2, levels = l1 ++ l2 ∧ scan stop (rev levels) = length l2 ∧
    Forall (λ l, stop l.1 = false) l2 ∧
    (l1 = [] ∨ ∃ l1' x, l1 = l1' ++ [x] ∧ stop x.1 = true).
Proof.
  induction levels as [|x levels IH] using rev_ind; [by exists [], []; eauto|].
  rewrite rev_unit. simpl. destruct (stop x.1) eqn:Ex.
  - exists (levels ++ [x]), []. rewrite app_nil_r. eauto 10.
  - destruct IH as (l1 & l2 & -> & -> & Hf & Hl). exists l1, (l2 ++ [x]).
    rewrite app_assoc, length_app, Nat.add_comm, Forall_app, Forall_singleton. eauto.
Qed.

(** [GetLevel] finds the level with the price nearest the end, or returns [rend()]. *)
Lemma GetLevel_cases (levels : list level) (price : Z) :
  (∃ l1 q l2, levels = l1 ++ (price, q) :: l2 ∧ GetLevel levels price = length l2) ∨
  (GetLevel levels price = length levels ∧ price ∉ levels.*1).
Proof.
  unfold GetLevel.
  destruct (scan_split (λ px, px =? price) levels) as (l1 & l2 & -> & -> & Hf & Hl).
  destruct Hl as [-> | (l1' & [p q] & -> & Hx%Z.eqb_eq)].
  - right. split; [done|]. intros ([p q] & -> & Hin)%list_elem_of_fmap.
    rewrite Forall_forall in Hf. apply Hf in Hin. simpl in *. lia.
  - left. simpl in *. subst p. exists l1', q, l2. by rewrite <- app_assoc.
Qed.

Lemma rindex_mid (l1 l2 : list level) (x : level) : rindex (l1 ++ x :: l2) (length l2) = length l1.
Proof. unfold rindex. rewrite length_app. simpl. lia. Qed.

Lemma deref_mid (l1 l2 : list level) (x : level) : deref (l1 ++ x :: l2) (length l2) = Ret x.
Proof.
  unfold deref, rend. rewrite rindex_mid, (list_lookup_middle _ _ _ _ eq_refl), length_app.
  simpl. by rewrite (proj2 (Nat.ltb_lt _ _)) by lia.
Qed.

Lemma deref_rend (levels : list level) : deref levels (length levels) = Undef InvalidIterator.
Proof. unfold deref, rend. by rewrite Nat.ltb_irrefl. Qed.

Lemma deref_cases (levels : list level) (iter : nat) :
  deref levels iter = Undef InvalidIterator ∨ ∃ l, deref levels iter = Ret l.
Proof. unfold deref. destruct (_ <? _)%nat; [destruct (_ !! _)|]; eauto. Qed.

Lemma set_qty_mid (l1 l2 : list level) (p q q' : Z) :
  set_qty (l1 ++ (p, q) :: l2) (length l2) q' = l1 ++ (p, q') :: l2.
Proof. unfold set_qty. rewrite rindex_mid. induction l1; simpl; [done | by f_equal]. Qed.

Lemma erase_mid (l1 l2 : list level) (x : level) : erase (l1 ++ x :: l2) (length l2) = l1 ++ l2.
Proof. unfold erase. rewrite rindex_mid. apply delete_middle. Qed.

Lemma insert_base_app (l1 l2 : list level) (x : level) :
  insert_base (l1 ++ l2) (length l2) x = l1 ++ x :: l2.
Proof.
  unfold insert_base. rewrite length_app, Nat.add_sub. by rewrite take_app_length, drop_app_length.
Qed.

Lemma at_price_mid (l1 l2 : list level) (p q : Z) :
  at_price (l1 ++ (p, q) :: l2) (length l2) p = true.
Proof. unfold at_price. rewrite deref_mid. apply Z.eqb_refl. Qed.

Lemma at_price_rend (levels : list level) (p : Z) : at_price levels (length levels) p = false.
Proof. unfold at_price. by rewrite deref_rend. Qed.

Create Rewrite HintDb book.
#[export] Hint Rewrite deref_mid deref_rend set_qty_mid erase_mid at_price_mid at_price_rend
  insert_base_app : book.

(** *** The depth map of a side *)

Lemma depth_mid (l1 l2 : list level) (p q : Z) :
  NoDup (l1 ++ (p, q) :: l2).*1 →
  depth (l1 ++ (p, q) :: l2) = <[p := q]> (depth (l1 ++ l2)) ∧ depth (l1 ++ l2) !! p = None.
Proof.
  intros Hnd. unfold depth.
  assert (Hp : l1 ++ (p, q) :: l2 ≡ₚ (p, q) :: (l1 ++ l2)) by (by rewrite Permutation_middle).
  rewrite (list_to_map_proper _ _ Hnd Hp). rewrite Hp in Hnd.
  inversion Hnd as [|? ? Hnot _]. split; [done|]. by apply not_elem_of_list_to_map_1.
Qed.

Section side.
Context {comp : Z → Z → bool} `{!PriceOrder comp}.

Lemma side_wf_nodup (levels : list level) : side_wf comp levels → NoDup levels.*1.
Proof.
  intros [Hs _]. induction Hs as [|[p q] levels _ IH Hall]; simpl; constructor; [|done].
  intros ([p' q'] & -> & Hin)%list_elem_of_fmap. rewrite Forall_forall in Hall.
  apply Hall in Hin. unfold worse in Hin. simpl in Hin. by rewrite comp_irrefl in Hin.
Qed.

Lemma side_wf_mid (l1 l2 : list level) (p q q' : Z) :
  side_wf comp (l1 ++ (p, q) :: l2) → 0 < q' < 2 ^ 64 → side_wf comp (l1 ++ (p, q') :: l2).
Proof.
  unfold side_wf. rewrite !StronglySorted_app, !StronglySorted_cons, !Forall_app, !Forall_cons.
  intros ((H1 & H2 & H3 & H4) & H5 & H6 & H7) Hq. split_and!; try done.
  intros x y Hx [-> | Hy]%elem_of_cons; [|set_solver].
  specialize (H1 x (p, q) Hx). unfold worse in *. simpl in *. set_solver.
Qed.

Lemma side_wf_delete (l1 l2 : list level) (x : level) :
  side_wf comp (l1 ++ x :: l2) → side_wf comp (l1 ++ l2).
Proof.
  unfold side_wf. rewrite !StronglySorted_app, !StronglySorted_cons, !Forall_app, !Forall_cons.
  intros ((H1 & H2 & H3 & H4) & H5 & H6 & H7). split_and!; try done. set_solver.
Qed.

(** A new price goes after the levels it improves on and before those that are better. *)
Lemma side_wf_insert (l1 l2 : list level) (p q : Z) :
  side_wf comp (l1 ++ l2) → 0 < q < 2 ^ 64 →
  (∀ l, l ∈ l1 → comp l.1 p = true) → (∀ l, l ∈ l2 → comp p l.1 = true) →
  side_wf comp (l1 ++ (p, q) :: l2).
Proof.
  unfold side_wf. rewrite !StronglySorted_app, !StronglySorted_cons, !Forall_app, !Forall_cons.
  intros ((H1 & H2 & H3) & H4 & H5) Hq Hl Hr. split_and!; try done.
  - intros x y Hx [-> | Hy]%elem_of_cons; [by apply Hl | by apply H1].
  - by apply Forall_forall.
Qed.
End side.

(** ** Refinement of the operations on a side *)

Section side_ops.
Context {comp : Z → Z → bool} `{!PriceOrder comp}.
Implicit Types (levels : list level) (price qty q : Z).

(** Where an operation finds itself after [GetLevel] on a well-formed side. *)
Lemma side_cases levels price :
  side_wf comp levels →
  (∃ l1 q l2, levels = l1 ++ (price, q) :: l2 ∧ GetLevel levels price = length l2 ∧
     depth levels !! price = Some q ∧ 0 < q < 2 ^ 64 ∧
     depth levels = <[price := q]> (depth (l1 ++ l2)) ∧ depth (l1 ++ l2) !! price = None) ∨
  (GetLevel levels price = length levels ∧ depth levels !! price = None).
Proof.
  intros Hwf. destruct (GetLevel_cases levels price) as [(l1 & q & l2 & -> & HG) | [HG Hn]].
  - left. exists l1, q, l2. pose proof (depth_mid l1 l2 price q (side_wf_nodup _ Hwf)) as [Hd Hn].
    rewrite Hd, lookup_insert_eq. destruct Hwf as [_ Hq].
    apply Forall_app in Hq as [_ Hq%Forall_cons]. by destruct Hq.
  - right. split; [done|]. by apply not_elem_of_list_to_map_1.
Qed.

Lemma side_hit levels price :
  side_wf comp levels → is_Some (depth levels !! price) →
  ∃ l1 q l2, levels = l1 ++ (price, q) :: l2 ∧ GetLevel levels price = length l2 ∧
    depth levels !! price = Some q ∧ 0 < q < 2 ^ 64.
Proof.
  intros Hwf Hs. destruct (side_cases levels price Hwf) as [(l1 & q & l2 & ? & ? & ? & ? & _)|[_ Hn]];
    [by exists l1, q, l2|].
  rewrite Hn in Hs. by destruct Hs.
Qed.

Lemma side_miss levels price :
  side_wf comp levels → depth levels !! price = None → GetLevel levels price = length levels.
Proof.
  intros Hwf Hn. destruct (side_cases levels price Hwf) as [(? & ? & ? & _ & _ & Hd & _)|[? _]]; [|done].
  by rewrite Hn in Hd.
Qed.

(** Rewriting one level of a well-formed side. *)
Lemma side_set levels l1 l2 price q q' :
  levels = l1 ++ (price, q) :: l2 → side_wf comp levels → 0 < q' < 2 ^ 64 →
  side_wf comp (l1 ++ (price, q') :: l2) ∧
  depth (l1 ++ (price, q') :: l2) = <[price := q']> (depth levels).
Proof.
  intros -> Hwf Hq. pose proof (side_wf_mid l1 l2 price q q' Hwf Hq) as Hwf'. split; [done|].
  rewrite (proj1 (depth_mid l1 l2 price q (side_wf_nodup _ Hwf))).
  rewrite (proj1 (depth_mid l1 l2 price q' (side_wf_nodup _ Hwf'))). by rewrite insert_insert_eq.
Qed.

Lemma side_erase levels l1 l2 price q :
  levels = l1 ++ (price, q) :: l2 → side_wf comp levels →
  side_wf comp (l1 ++ l2) ∧ depth (l1 ++ l2) = delete price (depth levels).
Proof.
  intros -> Hwf. split; [by eapply side_wf_delete|].
  destruct (depth_mid l1 l2 price q (side_wf_nodup _ Hwf)) as [-> Hn].
  by rewrite delete_insert_eq, delete_id.
Qed.

(** The search for the insertion point of a new price keeps the side sorted. *)
Lemma side_insert levels price qty :
  side_wf comp levels → depth levels !! price = None → 0 < qty < 2 ^ 64 →
  let iter := scan (λ px, comp px price) (rev levels) in
  let levels' := if (iter =? rend levels)%nat then (price, qty) :: levels
                 else insert_base levels iter (price, qty) in
  side_wf comp levels' ∧ depth levels' = <[price := qty]> (depth levels).
Proof.
  intros Hwf Hn Hq iter levels'.
  destruct (scan_split (λ px, comp px price) levels) as (l1 & l2 & -> & Hi & Hf & Hl).
  assert (levels' = l1 ++ (price, qty) :: l2) as ->.
  { unfold levels', iter. rewrite Hi. unfold rend. rewrite length_app.
    destruct (Nat.eqb_spec (length l2) (length l1 + length l2)) as [He|].
    - by destruct l1; [|simpl in He; lia].
    - apply insert_base_app. }
  assert (Hwf' : side_wf comp (l1 ++ (price, qty) :: l2)).
  { apply side_wf_insert; [done..| |].
    - destruct Hl as [-> | (l1' & x & -> & Hx)]; [by intros ? ?%elem_of_nil|].
      intros l [Hin | ->%list_elem_of_singleton]%elem_of_app; [|done].
      apply comp_trans with (y := x.1); [|done].
      destruct Hwf as [Hs _]. rewrite <- app_assoc in Hs.
      eapply (StronglySorted_app_1_elem_of _ _ _ _ _ Hs); set_solver.
    - intros l Hin. rewrite Forall_forall in Hf. specialize (Hf l Hin). simpl in Hf.
      destruct (comp price l.1) eqn:Ec; [done|]. destruct l as [p q]; simpl in *.
      rewrite (comp_total p price Hf Ec) in Hin.
      apply not_elem_of_list_to_map_2 in Hn. destruct Hn.
      apply list_elem_of_fmap. exists (price, q). set_solver. }
  split; [done|]. apply (depth_mid l1 l2 price qty). by apply side_wf_nodup.
Qed.

(** The test for an empty side is an optimisation. *)
Lemma AddOrder_levels_eq levels price qty :
  AddOrder_levels levels price qty comp =
    let iter := GetLevel levels price in
    if at_price levels iter price then
      l ← deref levels iter;
      Ret (set_qty levels iter (wrap 64 (l.2 + qty)))
    else
      let level_iter := scan (λ px, comp px price) (rev levels) in
      Ret (if (level_iter =? rend levels)%nat then (price, qty) :: levels
           else insert_base levels level_iter (price, qty)).
Proof. destruct levels as [|l levels]; [done|]. unfold AddOrder_levels. by destruct (_ =? _)%nat. Qed.

Theorem AddOrder_levels_refines levels price qty :
  side_wf comp levels → 0 < qty → qty_at (depth levels) price + qty < 2 ^ 64 →
  ∃ levels', AddOrder_levels levels price qty comp = Ret levels' ∧
    side_wf comp levels' ∧ depth levels' = spec_add (depth levels) price qty.
Proof.
  intros Hwf Hq Hb. rewrite AddOrder_levels_eq. unfold spec_add, qty_at in *.
  destruct (side_cases levels price Hwf) as [(l1 & q & l2 & -> & HG & Hd & Hq0 & _) | [HG Hn]];
    rewrite HG.
  - rewrite Hd in *. simpl in *. repeat (autorewrite with book; simpl).
    autorewrite with book. rewrite wrap_id by lia. eexists. split; [done|].
    apply (side_set _ _ _ _ q); [done..|lia].
  - rewrite Hn in *. simpl in *. autorewrite with book.
    destruct (side_insert levels price qty Hwf Hn ltac:(lia)) as [Hwf' Hd']. eauto.
Qed.

(** Deleting quantity that the level has; when nothing is left the level goes. *)
Theorem DeleteOrder_levels_refines levels price qty :
  side_wf comp levels → 0 ≤ qty → qty ≤ qty_at (depth levels) price → is_Some (depth levels !! price) →
  ∃ levels', DeleteOrder_levels levels price qty = Ret levels' ∧
    side_wf comp levels' ∧ depth levels' = spec_reduce (depth levels) price qty.
Proof.
  intros Hwf H0 Hle Hs. unfold DeleteOrder_levels, spec_reduce, qty_at in *.
  destruct (side_hit levels price Hwf Hs) as (l1 & q & l2 & -> & -> & Hd & Hq0).
  rewrite Hd in *. simpl in *. repeat (autorewrite with book; simpl).
  rewrite wrap_id by lia. autorewrite with book.
  destruct (Z.leb_spec (q - qty) 0); destruct (Z.ltb_spec qty q); try lia;
    eexists; (split; [done|]).
  - by apply (side_erase _ _ _ _ q).
  - apply (side_set _ _ _ _ q); [done..|lia].
Qed.

Theorem DeleteOrder_levels_missing levels price qty :
  side_wf comp levels → depth levels !! price = None → DeleteOrder_levels levels price qty = Exit 42.
Proof.
  intros Hwf Hn. unfold DeleteOrder_levels. rewrite (side_miss _ _ Hwf Hn). by autorewrite with book.
Qed.

(** Deleting more than the level holds borrows: the level stays, with the quantity that
    the 64-bit subtraction wraps to. *)
Theorem DeleteOrder_levels_underflow levels price qty :
  side_wf comp levels → qty_at (depth levels) price < qty < 2 ^ 64 → is_Some (depth levels !! price) →
  ∃ levels', DeleteOrder_levels levels price qty = Ret levels' ∧ side_wf comp levels' ∧
    depth levels' = <[price := qty_at (depth levels) price - qty + 2 ^ 64]> (depth levels).
Proof.
  intros Hwf Hlt Hs. unfold DeleteOrder_levels, qty_at in *.
  destruct (side_hit levels price Hwf Hs) as (l1 & q & l2 & -> & -> & Hd & Hq0).
  rewrite Hd in *. simpl in *. repeat (autorewrite with book; simpl).
  rewrite wrap_sub_borrow by lia. autorewrite with book.
  destruct (Z.leb_spec (q - qty + 2 ^ 64) 0); [lia|].
  eexists. split; [done|]. apply (side_set _ _ _ _ q); [done..|lia].
Qed.

(** Executing saturates: a level never goes below zero, it is dropped. *)
Theorem ExecuteOrderImpl_refines levels price qty :
  side_wf comp levels → 0 ≤ qty → is_Some (depth levels !! price) →
  ∃ levels', ExecuteOrderImpl levels price qty = Ret levels' ∧
    side_wf comp levels' ∧ depth levels' = spec_reduce (depth levels) price qty.
Proof.
  intros Hwf H0 Hs. unfold ExecuteOrderImpl, spec_reduce, qty_at in *.
  destruct (side_hit levels price Hwf Hs) as (l1 & q & l2 & -> & -> & Hd & Hq0).
  rewrite Hd in *. simpl. repeat (autorewrite with book; simpl).
  autorewrite with book.
  destruct (Z.ltb_spec qty q); eexists; (split; [done|]).
  - rewrite wrap_id by lia. apply (side_set _ _ _ _ q); [done..|lia].
  - by apply (side_erase _ _ _ _ q).
Qed.

Theorem ExecuteOrderImpl_missing levels price qty :
  side_wf comp levels → depth levels !! price = None →
  ExecuteOrderImpl levels price qty = Undef InvalidIterator.
Proof.
  intros Hwf Hn. unfold ExecuteOrderImpl. rewrite (side_miss _ _ Hwf Hn). by autorewrite with book.
Qed.

(** Replacing at the same price exchanges the quantities. *)
Theorem ReplaceOrder_levels_same_price levels price oldQty newQty :
  side_wf comp levels → is_Some (depth levels !! price) →
  0 < qty_at (depth levels) price - oldQty + newQty < 2 ^ 64 →
  ∃ levels', ReplaceOrder_levels levels price oldQty price newQty comp = Ret levels' ∧
    side_wf comp levels' ∧
    depth levels' = <[price := qty_at (depth levels) price - oldQty + newQty]> (depth levels).
Proof.
  intros Hwf Hs Hb. unfold ReplaceOrder_levels, qty_at in *.
  destruct (side_hit levels price Hwf Hs) as (l1 & q & l2 & -> & -> & Hd & Hq0).
  rewrite Hd in *. simpl in *. repeat (autorewrite with book; simpl).
  rewrite Z.eqb_refl. rewrite wrap_add_l, wrap_id by lia.
  eexists. split; [done|]. by apply (side_set _ _ _ _ q).
Qed.

(** Replacing at another price moves quantity from the old level to the new one. *)
Theorem ReplaceOrder_levels_move levels oldPrice oldQty newPrice newQty :
  side_wf comp levels → is_Some (depth levels !! oldPrice) → oldPrice ≠ newPrice →
  0 ≤ oldQty → 0 < newQty → qty_at (depth levels) newPrice + newQty < 2 ^ 64 →
  ∃ levels', ReplaceOrder_levels levels oldPrice oldQty newPrice newQty comp = Ret levels' ∧
    side_wf comp levels' ∧
    depth levels' = spec_add (spec_reduce (depth levels) oldPrice oldQty) newPrice newQty.
Proof.
  intros Hwf Hs Hne H0 Hpos Hb. unfold ReplaceOrder_levels.
  destruct (ExecuteOrderImpl_refines levels oldPrice oldQty Hwf H0 Hs) as (l' & He & Hwf' & Hd).
  unfold ExecuteOrderImpl in He. apply bind_ret_inv in He as (l & Hl & He). rewrite Hl. simpl.
  rewrite (proj2 (Z.eqb_neq _ _) Hne).
  replace (if oldQty <? l.2 then _ else _) with l' by (by destruct (oldQty <? l.2); simplify_eq).
  rewrite <- Hd. apply AddOrder_levels_refines; [done..|].
  by rewrite Hd, qty_at_reduce_ne.
Qed.

(** The price of the last level is the best one. *)
Lemma best_level levels :
  side_wf comp levels → levels ≠ [] →
  ∃ p q, deref levels 0 = Ret (p, q) ∧ depth levels !! p = Some q ∧
    ∀ p', is_Some (depth levels !! p') → p' = p ∨ comp p' p = true.
Proof.
  intros Hwf Hne. destruct levels as [|[p q] l1 _] using rev_ind; [done|].
  exists p, q. pose proof (deref_mid l1 [] (p, q)) as Hde. simpl in Hde.
  pose proof (depth_mid l1 [] p q (side_wf_nodup _ Hwf)) as [Hd Hn]. rewrite app_nil_r in *.
  split; [done|]. rewrite Hd, lookup_insert_eq. split; [done|]. intros p' [q' Hp'].
  destruct (decide (p' = p)); [by left|]. rewrite lookup_insert_ne in Hp' by done. right.
  apply elem_of_list_to_map_2 in Hp'. destruct Hwf as [Hs _].
  apply (StronglySorted_app_1_elem_of (worse comp) l1 [(p, q)] (p', q') (p, q) Hs Hp'). set_solver.
Qed.
End side_ops.

(** ** The book *)

Definition book_wf (b : L2Orderbook) : Prop := side_wf less (m_bids b) ∧ side_wf greater (m_asks b).

#[export] Instance book_wf_dec (b : L2Orderbook) : Decision (book_wf b).
Proof. unfold book_wf. apply _. Defined.

(** The depth of the side a side character selects: true for bids. *)
Definition book_depth (b : L2Orderbook) (buy : bool) : gmap Z Z :=
  depth (if buy then m_bids b else m_asks b).

(** What a book operation on one side promises: a well-formed book whose other side is
    untouched and whose depth on that side is [d]. *)
Definition book_update (b b' : L2Orderbook) (buy : bool) (d : gmap Z Z) : Prop :=
  book_wf b' ∧ book_depth b' buy = d ∧ book_depth b' (negb buy) = book_depth b (negb buy).

Lemma L2Orderbook_new_wf : book_wf L2Orderbook_new.
Proof. repeat constructor. Qed.

(** Lift a refinement theorem of a side to the book. *)
Ltac lift_side lem :=
  let Hb := fresh in let Ha := fresh in
  intros [Hb Ha]; unfold book_update, book_depth, book_wf;
  destruct (is_buy _); simpl; intros;
  [edestruct (lem less less_order) as (? & -> & ? & ?)
  |edestruct (lem greater greater_order) as (? & -> & ? & ?)];
  try eassumption; (eexists; split; [reflexivity | split_and!; done]).

(** *** The letter of C++ *)

(** The price has no level yet, and is better than that of some level of its side, so that
    the new level is not inserted at the beginning. *)
Definition opens_better (b : L2Orderbook) (side : byte) (price : Z) : Prop :=
  let d := book_depth b (is_buy side) in
  d !! price = None ∧ ∃ p, is_Some (d !! p) ∧ if is_buy side then p < price else price < p.

Lemma depth_has_level (levels : list level) (p : Z) : is_Some (depth levels !! p) ↔ p ∈ levels.*1.
Proof.
  unfold depth. split.
  - intros [q Hq]. apply elem_of_list_to_map_2 in Hq. apply list_elem_of_fmap. by exists (p, q).
  - intros Hin. destruct (list_to_map levels !! p) eqn:E; [by eexists|]. by apply not_elem_of_list_to_map_2 in E.
Qed.

Lemma AddOrder_levels_checked (comp : Z → Z → bool) (levels : list level) (price qty : Z) :
  let better := depth levels !! price = None ∧ ∃ p, is_Some (depth levels !! p) ∧ comp p price = true in
  (better ∧ @AddOrder_levels cxx_iterators levels price qty comp = Undef InvalidIterator) ∨
  (¬ better ∧ @AddOrder_levels cxx_iterators levels price qty comp = AddOrder_levels levels price qty comp).
Proof.
  intros better. subst better. destruct levels as [|l0 levels0]; [right; split; [|done]; intros [_ (p & [q Hq] & _)]; done|].
  set (levels := l0 :: levels0). unfold AddOrder_levels at 1 2 3. subst levels. cbv iota. set (levels := l0 :: levels0).
  assert (Hnone : depth levels !! price = None ↔ price ∉ levels.*1).
  { by rewrite <- depth_has_level, eq_None_not_Some. }
  destruct (GetLevel_cases levels price) as [(l1 & q & l2 & Heq & HG)|[HG Hn]].
  - right. rewrite HG, Heq at 1 2. rewrite Heq, at_price_mid. split; [|done].
    intros [H _]. rewrite <- Heq in H. apply Hnone in H. apply H. rewrite Heq, fmap_app. set_solver.
  - rewrite HG, at_price_rend. destruct (scan_split (λ px, comp px price) levels) as (l1 & l2 & Heq & Hsc & Hf & Hl).
    rewrite Hsc. unfold rend. destruct Hl as [->|(l1' & x & -> & Hx)].
    + right. rewrite Heq. cbn [app]. rewrite Nat.eqb_refl. split; [|done].
      intros [_ (p & Hp & Hc)]. apply depth_has_level, list_elem_of_fmap in Hp as (y & -> & Hy).
      rewrite Forall_forall in Hf. by rewrite (Hf y) in Hc.
    + left. assert (Hlt : (length l2 =? length levels)%nat = false).
      { apply Nat.eqb_neq. rewrite Heq, !length_app. simpl. lia. }
      rewrite Hlt. split; [|done]. split; [by apply Hnone|]. exists x.1. split; [|done].
      apply depth_has_level, list_elem_of_fmap. exists x. split; [done|]. rewrite Heq. set_solver.
Qed.

(** An order is undefined behaviour exactly when it opens a level that is not the worst. *)
Lemma L2_AddOrder_checked (b : L2Orderbook) (side : byte) (price qty : Z) :
  (opens_better b side price ∧ @L2_AddOrder cxx_iterators b side price qty = Undef InvalidIterator) ∨
  (¬ opens_better b side price ∧ @L2_AddOrder cxx_iterators b side price qty = L2_AddOrder b side price qty).
Proof.
  unfold opens_better, book_depth, L2_AddOrder. destruct (is_buy side).
  - destruct (AddOrder_levels_checked less (m_bids b) price qty) as [[(Hn & p & Hp & Hc) Hu]|[Hb Hu]]; rewrite Hu.
    + left. split; [|done]. split; [done|]. exists p. split; [done|]. unfold less in Hc. lia.
    + right. split; [|done]. intros (Hn & p & Hp & Hc). apply Hb. split; [done|]. exists p. split; [done|]. unfold less. lia.
  - destruct (AddOrder_levels_checked greater (m_asks b) price qty) as [[(Hn & p & Hp & Hc) Hu]|[Hb Hu]]; rewrite Hu.
    + left. split; [|done]. split; [done|]. exists p. split; [done|]. unfold greater in Hc. lia.
    + right. split; [|done]. intros (Hn & p & Hp & Hc). apply Hb. split; [done|]. exists p. split; [done|]. unfold greater. lia.
Qed.

Lemma L2_AddOrder_refines (b : L2Orderbook) (side : byte) (price qty : Z) :
  book_wf b → 0 < qty → qty_at (book_depth b (is_buy side)) price + qty < 2 ^ 64 →
  ∃ b', L2_AddOrder b side price qty = Ret b' ∧
    book_update b b' (is_buy side) (spec_add (book_depth b (is_buy side)) price qty).
Proof. unfold L2_AddOrder. lift_side @AddOrder_levels_refines. Qed.

Lemma L2_DeleteOrder_refines (b : L2Orderbook) (side : byte) (price qty : Z) :
  book_wf b → 0 ≤ qty → qty ≤ qty_at (book_depth b (is_buy side)) price →
  is_Some (book_depth b (is_buy side) !! price) →
  ∃ b', L2_DeleteOrder b side price qty = Ret b' ∧
    book_update b b' (is_buy side) (spec_reduce (book_depth b (is_buy side)) price qty).
Proof. unfold L2_DeleteOrder. lift_side @DeleteOrder_levels_refines. Qed.

Lemma L2_ExecuteOrder_refines (b : L2Orderbook) (side : byte) (price qty : Z) :
  book_wf b → 0 ≤ qty → is_Some (book_depth b (is_buy side) !! price) →
  ∃ b', L2_ExecuteOrder b side price qty = Ret b' ∧
    book_update b b' (is_buy side) (spec_reduce (book_depth b (is_buy side)) price qty).
Proof. unfold L2_ExecuteOrder. lift_side @ExecuteOrderImpl_refines. Qed.

Lemma L2_ReplaceOrder_refines (b : L2Orderbook) (side : byte) (oldPrice oldQty newPrice newQty : Z) :
  book_wf b → is_Some (book_depth b (is_buy side) !! oldPrice) → oldPrice ≠ newPrice →
  0 ≤ oldQty → 0 < newQty → qty_at (book_depth b (is_buy side)) newPrice + newQty < 2 ^ 64 →
  ∃ b', L2_ReplaceOrder b side oldPrice oldQty newPrice newQty = Ret b' ∧
    book_update b b' (is_buy side)
      (spec_add (spec_reduce (book_depth b (is_buy side)) oldPrice oldQty) newPrice newQty).
Proof. unfold L2_ReplaceOrder. lift_side @ReplaceOrder_levels_move. Qed.

Lemma L2_DeleteOrder_missing (b : L2Orderbook) (side : byte) (price qty : Z) :
  book_wf b → book_depth b (is_buy side) !! price = None → L2_DeleteOrder b side price qty = Exit 42.
Proof.
  intros [Hb Ha]. unfold L2_DeleteOrder, book_depth. destruct (is_buy side); intros Hn.
  - by rewrite (DeleteOrder_levels_missing (comp := less)).
  - by rewrite (DeleteOrder_levels_missing (comp := greater)).
Qed.

Lemma L2_ExecuteOrder_missing (b : L2Orderbook) (side : byte) (price qty : Z) :
  book_wf b → book_depth b (is_buy side) !! price = None →
  L2_ExecuteOrder b side price qty = Undef InvalidIterator.
Proof.
  intros [Hb Ha]. unfold L2_ExecuteOrder, book_depth. destruct (is_buy side); intros Hn.
  - by rewrite (ExecuteOrderImpl_missing (comp := less)).
  - by rewrite (ExecuteOrderImpl_missing (comp := greater)).
Qed.

(** On a well-formed book with two non-empty sides the best prices are the highest bid
    and the lowest ask. *)
Lemma GetBestPrices_best (b : L2Orderbook) :
  book_wf b → m_bids b ≠ [] → m_asks b ≠ [] →
  ∃ bid ask, GetBestPrices b = Ret (bid, ask) ∧
    is_Some (book_depth b true !! bid) ∧ is_Some (book_depth b false !! ask) ∧
    (∀ p, is_Some (book_depth b true !! p) → p ≤ bid) ∧
    (∀ p, is_Some (book_depth b false !! p) → ask ≤ p).
Proof.
  intros [Hb Ha] Hnb Hna.
  destruct (best_level _ Hb Hnb) as (bid & bq & Hdb & Hlb & Hbest).
  destruct (best_level _ Ha Hna) as (ask & aq & Hda & Hla & Hasks).
  exists bid, ask. unfold GetBestPrices. rewrite Hdb, Hda. unfold book_depth.
  split_and!; [done | by eexists | by eexists | |].
  - intros p [-> | Hp]%Hbest; [done|]. unfold less in Hp. lia.
  - intros p [-> | Hp]%Hasks; [done|]. unfold greater in Hp. lia.
Qed.

Lemma GetBestPrices_empty (b : L2Orderbook) :
  m_bids b = [] ∨ m_asks b = [] → GetBestPrices b = Undef InvalidIterator.
Proof.
  unfold GetBestPrices. intros [-> | ->]; [done|].
  by destruct (deref_cases (m_bids b) 0) as [-> | [l ->]].
Qed.

(** *** The consistency check of [Dump] *)

(** Prices strictly fall from [prev] and no quantity is zero. *)
Fixpoint descending (prev : Z) (levels : list level) : bool :=
  match levels with
  | [] => true
  | (px, qty) :: levels => (px <? prev) && negb (qty =? 0) && descending px levels
  end.

Lemma dump_loop_descending (l k : list level) (prev : Z) (bad : bool) :
  (let '(p, bd) := dump_loop l prev bad in (dump_loop k p bd).2) = bad || negb (descending prev (l ++ k)).
Proof.
  revert prev bad. induction l as [|[px q] l IH]; intros prev bad; simpl.
  - revert prev bad. induction k as [|[px q] k IHk]; intros prev bad; simpl; [by rewrite orb_false_r|].
    rewrite IHk, Z.leb_antisym. destruct bad, (px <? prev), (q =? 0); done.
  - rewrite IH, Z.leb_antisym. destruct bad, (px <? prev), (q =? 0); done.
Qed.

Lemma Dump_descending (b : L2Orderbook) :
  Dump b = negb (descending INT_MAX (m_asks b ++ rev (m_bids b))).
Proof. apply (dump_loop_descending (m_asks b) (rev (m_bids b)) INT_MAX false). Qed.

Lemma descending_iff (levels : list level) (prev : Z) :
  descending prev levels = true ↔
  StronglySorted (worse greater) levels ∧ Forall (λ l, l.2 ≠ 0) levels ∧
  Forall (λ l, l.1 < prev) levels.
Proof.
  revert prev. induction levels as [|[px q] levels IH]; intros prev; simpl.
  { split; [|done]. intros _. split_and!; constructor. }
  rewrite !andb_true_iff, IH, Z.ltb_lt, negb_true_iff, Z.eqb_neq, StronglySorted_cons, !Forall_cons.
  unfold worse, greater. simpl. split.
  - intros ((? & ?) & ? & ? & Hlt). split_and!; try done.
    + eapply Forall_impl; [done|]. intros l Hl. simpl in Hl. lia.
    + eapply Forall_impl; [done|]. intros l Hl. simpl in *. lia.
  - intros ((Hlt & ?) & (? & ?) & ? & ?). split_and!; try done.
    eapply Forall_impl; [exact Hlt|]. intros l Hl. simpl in *. lia.
Qed.

(** Every bid is below every ask. *)
Definition uncrossed (b : L2Orderbook) : Prop :=
  ∀ bid ask, is_Some (book_depth b true !! bid) → is_Some (book_depth b false !! ask) → bid < ask.

Lemma elem_of_rev (l : list level) (x : level) : x ∈ rev l ↔ x ∈ l.
Proof. by rewrite !list_elem_of_In, <- in_rev. Qed.

Lemma StronglySorted_rev (R : level → level → Prop) (l : list level) :
  StronglySorted R l → StronglySorted (flip R) (rev l).
Proof.
  induction 1 as [|x l _ IH Hall]; [constructor|]. simpl. apply StronglySorted_app_2; [|done|].
  - intros y z Hy ->%list_elem_of_singleton. rewrite Forall_forall in Hall. apply Hall. by apply elem_of_rev.
  - repeat constructor.
Qed.

Lemma depth_elem (comp : Z → Z → bool) `{!PriceOrder comp} (levels : list level) (l : level) :
  side_wf comp levels → l ∈ levels → depth levels !! l.1 = Some l.2.
Proof.
  intros Hwf Hin. apply elem_of_list_to_map_1; [by apply side_wf_nodup | by destruct l].
Qed.

(** [Dump] is silent exactly on an uncrossed book whose prices are below INT_MAX. *)
Lemma Dump_wf (b : L2Orderbook) :
  book_wf b → Dump b = false ↔
    uncrossed b ∧ Forall (λ l, l.1 < INT_MAX) (m_asks b) ∧ Forall (λ l, l.1 < INT_MAX) (m_bids b).
Proof.
  intros [Hb Ha]. rewrite Dump_descending, negb_false_iff, descending_iff, Forall_app.
  rewrite <- (Forall_reverse _ (m_bids b)). unfold reverse. rewrite <- rev_alt.
  rewrite StronglySorted_app, Forall_app. split.
  - intros ((Hx & _ & _) & _ & H1 & H2). split_and!; [|done..].
    intros bid ask [bq Hbid%elem_of_list_to_map_2] [aq Hask%elem_of_list_to_map_2].
    specialize (Hx (ask, aq) (bid, bq) Hask). unfold worse, greater in Hx. simpl in Hx.
    apply Z.ltb_lt, Hx. by apply elem_of_rev.
  - intros (Hu & H1 & H2). split_and!; try done.
    + intros la lb Hla Hlb. rewrite elem_of_rev in Hlb.
      apply Z.ltb_lt, Hu; [exists lb.2; apply (depth_elem less _ _ Hb Hlb)|].
      exists la.2. apply (depth_elem greater _ _ Ha Hla).
    + apply Ha.
    + apply (StronglySorted_rev (worse less)), Hb.
    + eapply Forall_impl; [apply Ha|]. unfold qty_ok. intros l ?. simpl. lia.
    + apply Forall_forall. intros l Hl. rewrite elem_of_rev in Hl. destruct Hb as [_ Hq].
      rewrite Forall_forall in Hq. specialize (Hq l Hl). unfold qty_ok in Hq. lia.
Qed.

(** ** The operations on every branch *)

Lemma L2_DeleteOrder_underflow (b : L2Orderbook) (side : byte) (price qty : Z) :
  book_wf b → qty_at (book_depth b (is_buy side)) price < qty < 2 ^ 64 →
  is_Some (book_depth b (is_buy side) !! price) →
  ∃ b', L2_DeleteOrder b side price qty = Ret b' ∧
    book_update b b' (is_buy side)
      (<[price := qty_at (book_depth b (is_buy side)) price - qty + 2 ^ 64]> (book_depth b (is_buy side))).
Proof. unfold L2_DeleteOrder. lift_side @DeleteOrder_levels_underflow. Qed.

Lemma L2_ReplaceOrder_same_price (b : L2Orderbook) (side : byte) (price oldQty newQty : Z) :
  book_wf b → is_Some (book_depth b (is_buy side) !! price) →
  0 < qty_at (book_depth b (is_buy side)) price - oldQty + newQty < 2 ^ 64 →
  ∃ b', L2_ReplaceOrder b side price oldQty price newQty = Ret b' ∧
    book_update b b' (is_buy side)
      (<[price := qty_at (book_depth b (is_buy side)) price - oldQty + newQty]> (book_depth b (is_buy side))).
Proof. unfold L2_ReplaceOrder. lift_side @ReplaceOrder_levels_same_price. Qed.

Lemma L2_ReplaceOrder_missing (b : L2Orderbook) (side : byte) (oldPrice oldQty newPrice newQty : Z) :
  book_wf b → book_depth b (is_buy side) !! oldPrice = None →
  L2_ReplaceOrder b side oldPrice oldQty newPrice newQty = Undef InvalidIterator.
Proof.
  intros [Hb Ha]. unfold L2_ReplaceOrder, book_depth, ReplaceOrder_levels. destruct (is_buy side); intros Hn.
  - by rewrite (side_miss (comp := less)), deref_rend.
  - by rewrite (side_miss (comp := greater)), deref_rend.
Qed.

(** The quantity of a level of a well-formed book is a positive [uint64_t]. *)
Lemma book_depth_bound (b : L2Orderbook) (buy : bool) (price q : Z) :
  book_wf b → book_depth b buy !! price = Some q → 0 < q < 2 ^ 64.
Proof.
  intros [[_ Hb] [_ Ha]] Hd%elem_of_list_to_map_2. rewrite Forall_forall in Hb, Ha.
  destruct buy; [by apply (Hb (price, q)) | by apply (Ha (price, q))].
Qed.

(** Replacing within a price. *)
Lemma spec_add_reduce (d : gmap Z Z) (price oldQty newQty : Z) :
  oldQty ≤ qty_at d price →
  spec_add (spec_reduce d price oldQty) price newQty = <[price := qty_at d price - oldQty + newQty]> d.
Proof.
  intros Hle. unfold spec_add, spec_reduce.
  destruct (Z.ltb_spec oldQty (qty_at d price)) as [|Hge]; unfold qty_at at 1.
  - rewrite lookup_insert_eq. simpl. by rewrite insert_insert_eq.
  - rewrite lookup_delete_eq. simpl. rewrite insert_delete_eq. f_equal. lia.
Qed.

(** A book with two bids and an ask, for concrete inputs. *)
Definition sample_book : L2Orderbook := Build_L2Orderbook [(990, 150); (1000, 100)] [(1010, 200)].

Lemma sample_book_wf : book_wf sample_book.
Proof. by apply (bool_decide_unpack _); vm_compute. Qed.

(** ** Properties *)

(** C11. Adding quantity at a price, on either side, keeps the book sorted with positive
    quantities, adds exactly that quantity to that price, whether or not there was a
    level, and touches nothing else. *)
Theorem L2_AddOrder_spec (b : L2Orderbook) (side : byte) (price qty : Z) :
  book_wf b → 0 < qty → qty_at (book_depth b (is_buy side)) price + qty < 2 ^ 64 →
  ∃ b', L2_AddOrder b side price qty = Ret b' ∧
    book_update b b' (is_buy side)
      (<[price := qty_at (book_depth b (is_buy side)) price + qty]> (book_depth b (is_buy side))).
Proof. apply L2_AddOrder_refines. Qed.

Lemma L2_AddOrder_spec_witness :
  ∃ b', L2_AddOrder sample_book "B" 995 7 = Ret b' ∧
    book_update sample_book b' true (<[995 := 7]> (book_depth sample_book true)).
Proof. apply (L2_AddOrder_spec sample_book "B" 995 7); [apply sample_book_wf | lia | vm_compute; done]. Defined.

(** C13. Deleting quantity, on every branch: without a level at the price the process exits
    with status 42; a larger level is reduced and an equal one removed; a smaller one
    survives with the quantity the 64-bit subtraction wraps around to. *)
Theorem L2_DeleteOrder_spec (b : L2Orderbook) (side : byte) (price qty : Z) :
  book_wf b → 0 ≤ qty < 2 ^ 64 →
  let d := book_depth b (is_buy side) in
  match d !! price with
  | None => L2_DeleteOrder b side price qty = Exit 42
  | Some q => ∃ b', L2_DeleteOrder b side price qty = Ret b' ∧
      book_update b b' (is_buy side)
        (if q =? qty then delete price d else <[price := wrap 64 (q - qty)]> d)
  end.
Proof.
  intros Hwf Hq d. destruct (d !! price) as [q|] eqn:Hd; [|by apply L2_DeleteOrder_missing].
  assert (Hqa : qty_at d price = q) by (unfold qty_at; by rewrite Hd).
  pose proof (book_depth_bound b (is_buy side) price q Hwf Hd) as Hb.
  destruct (Z.le_gt_cases qty q).
  - destruct (L2_DeleteOrder_refines b side price qty Hwf) as (b' & Hb' & Hup);
      [lia | fold d; lia | by fold d; rewrite Hd |].
    exists b'. split; [done|]. fold d in Hup. unfold spec_reduce in Hup. rewrite Hqa in Hup.
    destruct (Z.ltb_spec qty q), (Z.eqb_spec q qty); try lia; [|done]. by rewrite wrap_id by lia.
  - destruct (L2_DeleteOrder_underflow b side price qty Hwf) as (b' & Hb' & Hup);
      [fold d; lia | by fold d; rewrite Hd |].
    exists b'. split; [done|]. fold d in Hup. rewrite Hqa in Hup.
    destruct (Z.eqb_spec q qty); [lia|]. by rewrite wrap_sub_borrow by lia.
Qed.

Lemma L2_DeleteOrder_spec_witness :
  L2_DeleteOrder sample_book "S" 1011 5 = Exit 42 ∧
  ∃ b', L2_DeleteOrder sample_book "B" 990 151 = Ret b' ∧
    book_update sample_book b' true (<[990 := 2 ^ 64 - 1]> (book_depth sample_book true)).
Proof.
  split.
  - apply (L2_DeleteOrder_spec sample_book "S" 1011 5); [apply sample_book_wf | lia].
  - apply (L2_DeleteOrder_spec sample_book "B" 990 151); [apply sample_book_wf | lia].
Defined.

(** C12. Executing quantity, on every branch: without a level at the price the code uses
    [rend()] as a level, which is undefined behaviour; otherwise the level is reduced,
    and dropped when the executed quantity reaches or exceeds it (it never wraps). *)
Theorem L2_ExecuteOrder_spec (b : L2Orderbook) (side : byte) (price qty : Z) :
  book_wf b → 0 ≤ qty →
  let d := book_depth b (is_buy side) in
  match d !! price with
  | None => L2_ExecuteOrder b side price qty = Undef InvalidIterator
  | Some q => ∃ b', L2_ExecuteOrder b side price qty = Ret b' ∧
      book_update b b' (is_buy side) (if q <=? qty then delete price d else <[price := q - qty]> d)
  end.
Proof.
  intros Hwf Hq d. destruct (d !! price) as [q|] eqn:Hd; [|by apply L2_ExecuteOrder_missing].
  assert (Hqa : qty_at d price = q) by (unfold qty_at; by rewrite Hd).
  destruct (L2_ExecuteOrder_refines b side price qty Hwf Hq) as (b' & Hb' & Hup); [by fold d; rewrite Hd|].
  exists b'. split; [done|]. fold d in Hup. unfold spec_reduce in Hup. rewrite Hqa in Hup.
  destruct (Z.ltb_spec qty q), (Z.leb_spec q qty); try lia; done.
Qed.

Lemma L2_ExecuteOrder_spec_witness :
  L2_ExecuteOrder sample_book "S" 1011 5 = Undef InvalidIterator ∧
  ∃ b', L2_ExecuteOrder sample_book "B" 1000 101 = Ret b' ∧
    book_update sample_book b' true (delete 1000 (book_depth sample_book true)).
Proof.
  split.
  - apply (L2_ExecuteOrder_spec sample_book "S" 1011 5); [apply sample_book_wf | lia].
  - apply (L2_ExecuteOrder_spec sample_book "B" 1000 101); [apply sample_book_wf | lia].
Defined.

(** C24. Replacing an order: without a level at the old price the behaviour is undefined;
    otherwise the old quantity leaves the old price (whose level goes when nothing is
    left) and the new quantity joins the new price. *)
Theorem L2_ReplaceOrder_spec (b : L2Orderbook) (side : byte) (oldPrice oldQty newPrice newQty : Z) :
  book_wf b → 0 ≤ oldQty → 0 < newQty →
  let d := book_depth b (is_buy side) in
  match d !! oldPrice with
  | None => L2_ReplaceOrder b side oldPrice oldQty newPrice newQty = Undef InvalidIterator
  | Some q =>
      oldQty ≤ q → (if oldPrice =? newPrice then q - oldQty else qty_at d newPrice) + newQty < 2 ^ 64 →
      ∃ b', L2_ReplaceOrder b side oldPrice oldQty newPrice newQty = Ret b' ∧
        book_update b b' (is_buy side) (spec_add (spec_reduce d oldPrice oldQty) newPrice newQty)
  end.
Proof.
  intros Hwf Hold Hnew d. destruct (d !! oldPrice) as [q|] eqn:Hd; [|by apply L2_ReplaceOrder_missing].
  assert (Hqa : qty_at d oldPrice = q) by (unfold qty_at; by rewrite Hd).
  intros Hle Hb. destruct (Z.eqb_spec oldPrice newPrice) as [<-|Hne].
  2: by apply L2_ReplaceOrder_refines.
  destruct (L2_ReplaceOrder_same_price b side oldPrice oldQty newQty Hwf) as (b' & Hb' & Hup);
    [by fold d; rewrite Hd | fold d; lia |].
  exists b'. split; [done|]. fold d in Hup. rewrite Hqa in Hup.
  by rewrite spec_add_reduce, Hqa by (rewrite Hqa; lia).
Qed.

Lemma L2_ReplaceOrder_spec_witness :
  ∃ b', L2_ReplaceOrder sample_book "B" 990 150 1000 20 = Ret b' ∧
    book_update sample_book b' true
      (spec_add (spec_reduce (book_depth sample_book true) 990 150) 1000 20).
Proof.
  refine (L2_ReplaceOrder_spec sample_book "B" 990 150 1000 20 sample_book_wf _ _ _ _);
    [lia | lia | vm_compute; done | vm_compute; done].
Defined.

(** [GetBestPrices] returns the highest bid and the lowest ask when both sides have
    a level, and dereferences [rend()] when a side is empty. *)
Theorem GetBestPrices_spec (b : L2Orderbook) :
  book_wf b →
  (∃ bid ask, GetBestPrices b = Ret (bid, ask) ∧
    is_Some (book_depth b true !! bid) ∧ is_Some (book_depth b false !! ask) ∧
    (∀ p, is_Some (book_depth b true !! p) → p ≤ bid) ∧
    (∀ p, is_Some (book_depth b false !! p) → ask ≤ p)) ∨
  (GetBestPrices b = Undef InvalidIterator ∧ ∃ buy, book_depth b buy = ∅).
Proof.
  intros Hwf. destruct (decide (m_bids b = [])) as [Hb|]; [right|].
  { split; [apply GetBestPrices_empty; by left | exists true]. unfold book_depth. by rewrite Hb. }
  destruct (decide (m_asks b = [])) as [Ha|]; [right | left; by apply GetBestPrices_best].
  split; [apply GetBestPrices_empty; by right | exists false]. unfold book_depth. by rewrite Ha.
Qed.

Lemma GetBestPrices_spec_witness :
  (∃ bid ask, GetBestPrices sample_book = Ret (bid, ask) ∧
    is_Some (book_depth sample_book true !! bid) ∧ is_Some (book_depth sample_book false !! ask) ∧
    (∀ p, is_Some (book_depth sample_book true !! p) → p ≤ bid) ∧
    (∀ p, is_Some (book_depth sample_book false !! p) → ask ≤ p)) ∨
  (GetBestPrices sample_book = Undef InvalidIterator ∧ ∃ buy, book_depth sample_book buy = ∅).
Proof. apply (GetBestPrices_spec sample_book), sample_book_wf. Defined.

(** On a well-formed book [Dump] complains exactly when the book is crossed (a bid at
    or above an ask) or has a level at the largest price. *)
Theorem Dump_spec (b : L2Orderbook) :
  book_wf b → Dump b = false ↔
    uncrossed b ∧ Forall (λ l, l.1 < INT_MAX) (m_asks b) ∧ Forall (λ l, l.1 < INT_MAX) (m_bids b).
Proof. apply Dump_wf. Qed.

Lemma Dump_spec_witness :
  Dump sample_book = false ↔
    uncrossed sample_book ∧ Forall (λ l, l.1 < INT_MAX) (m_asks sample_book) ∧
    Forall (λ l, l.1 < INT_MAX) (m_bids sample_book).
Proof. apply (Dump_spec sample_book), sample_book_wf. Defined.
