(* ===== verification/OrderbookBuilder.v ===== *)
(** * From ITCH messages to order books

    Models lib/core/orderbook_builder.hpp: the class [ConcreteOrderbookBuilder] keeps the
    live orders ([m_orderMap], level 3) and an aggregated book per instrument
    ([m_orderbookMap], level 2), and applies add, execute and delete messages to both.
    Message members are in network byte order and are swapped first.

    [builder_inv] says that the books are exactly the aggregation of the live orders.
    [feed_step] is one message of a well-behaved feed, [feed] a state such a feed reaches; in
    these states no handler ends the process, and none has undefined behaviour but for the
    comparison of an invalidated iterator that L2Orderbook.v describes. *)
From S2P Require Import Prelude Bytes Codec Types ItchMessages L2Orderbook.
Local Open Scope Z_scope.

Record ItchOrder := Build_ItchOrder {
  io_id : Z;
  io_price : Z;
  io_left_qty : Z;
  io_side : byte;
  io_orderbook_id : Z;
}.

#[export] Instance ItchOrder_eq_dec : EqDecision ItchOrder.
Proof. solve_decision. Defined.

(** [std::tuple<uint32_t, uint64_t, char>]: orderbook, order and side. *)
Abbreviation order_key := (Z * Z * byte)%type.

Record OrderbookBuilder := Build_OrderbookBuilder {
  m_orderbookMap : gmap Z L2Orderbook;
  m_orderMap : gmap order_key ItchOrder;
}.

Definition OrderbookBuilder_new : OrderbookBuilder := Build_OrderbookBuilder ∅ ∅.

(** [m_orderbookMap[orderbook_id]]: a missing book is created empty. *)
Definition orderbook (s : OrderbookBuilder) (orderbook_id : Z) : L2Orderbook :=
  default L2Orderbook_new (m_orderbookMap s !! orderbook_id).

(** *** Accessors *)

Definition hasOrder (s : OrderbookBuilder) (orderbook_id order_id : Z) (side : byte) : bool :=
  bool_decide (is_Some (m_orderMap s !! (orderbook_id, order_id, side))).

(** [std::map::at] throws when the key is missing. *)
Definition getOrder (s : OrderbookBuilder) (orderbook_id order_id : Z) (side : byte) : outcome ItchOrder :=
  match m_orderMap s !! (orderbook_id, order_id, side) with
  | Some o => Ret o
  | None => Throw "std::out_of_range"
  end.

Definition getOrderbook (s : OrderbookBuilder) (orderbook_id : Z) : outcome L2Orderbook :=
  match m_orderbookMap s !! orderbook_id with
  | Some b => Ret b
  | None => Throw "std::out_of_range"
  end.

(** *** Handlers: the bodies, after the members have been swapped *)

Definition add_body `{StaleComparison} (s : OrderbookBuilder) (orderbook_id order_id : Z) (side : byte) (price qty : Z) :
    outcome OrderbookBuilder :=
  let order := Build_ItchOrder order_id price qty side orderbook_id in
  let orders := <[(orderbook_id, order_id, side) := order]> (m_orderMap s) in
  book ← L2_AddOrder (orderbook s orderbook_id) side price qty;
  Ret (Build_OrderbookBuilder (<[orderbook_id := book]> (m_orderbookMap s)) orders).

Definition execute_body (s : OrderbookBuilder) (orderbook_id order_id : Z) (side : byte)
    (executed_qty : Z) : outcome OrderbookBuilder :=
  let key := (orderbook_id, order_id, side) in
  match m_orderMap s !! key with
  | None => Ret s
  | Some o =>
      book ← L2_ExecuteOrder (orderbook s orderbook_id) side (io_price o) executed_qty;
      let left_qty := wrap 64 (io_left_qty o - executed_qty) in
      let o' := Build_ItchOrder (io_id o) (io_price o) left_qty (io_side o) (io_orderbook_id o) in
      Ret (Build_OrderbookBuilder (<[orderbook_id := book]> (m_orderbookMap s))
        (if left_qty =? 0 then delete key (m_orderMap s) else <[key := o']> (m_orderMap s)))
  end.

Definition delete_body (s : OrderbookBuilder) (orderbook_id order_id : Z) (side : byte) :
    outcome OrderbookBuilder :=
  let key := (orderbook_id, order_id, side) in
  match m_orderMap s !! key with
  | None => Ret s
  | Some o =>
      book ← L2_DeleteOrder (orderbook s orderbook_id) side (io_price o) (io_left_qty o);
      Ret (Build_OrderbookBuilder (<[orderbook_id := book]> (m_orderbookMap s))
        (delete key (m_orderMap s)))
  end.

(** *** Handlers: the messages as they lie in memory *)

Definition addOrder `{StaleComparison} (s : OrderbookBuilder) (order_add : AddOrder) : outcome OrderbookBuilder :=
  let order_id := be64toh (ao_order_id order_add) in
  let orderbook_id := be32toh (ao_orderbook_id order_add) in
  let price := to_signed 32 (be32toh (ao_price order_add)) in
  let qty := be64toh (ao_quantity order_add) in
  add_body s orderbook_id order_id (ao_side order_add) price qty.

Definition executeOrder (s : OrderbookBuilder) (order_executed : OrderExecuted) :
    outcome OrderbookBuilder :=
  let order_id := be64toh (oe_order_id order_executed) in
  let orderbook_id := be32toh (oe_orderbook_id order_executed) in
  let executed_qty := be64toh (oe_quantity order_executed) in
  execute_body s orderbook_id order_id (oe_side order_executed) executed_qty.

Definition deleteOrder (s : OrderbookBuilder) (order_delete : OrderDelete) : outcome OrderbookBuilder :=
  let order_id := be64toh (od_order_id order_delete) in
  let orderbook_id := be32toh (od_orderbook_id order_delete) in
  delete_body s orderbook_id order_id (od_side order_delete).

(** ** The books aggregate the live orders *)

(** The quantity an order contributes to a price of a side of a book. *)
Definition contribution (orderbook_id : Z) (buy : bool) (price : Z) (k : order_key) (o : ItchOrder) : Z :=
  if (k.1.1 =? orderbook_id) && Bool.eqb (is_buy k.2) buy && (io_price o =? price) then io_left_qty o else 0.

Definition open_qty (orders : gmap order_key ItchOrder) (orderbook_id : Z) (buy : bool) (price : Z) : Z :=
  map_sum (contribution orderbook_id buy price) orders.

Definition order_ok (k : order_key) (o : ItchOrder) : Prop :=
  k = (io_orderbook_id o, io_id o, io_side o) ∧ 0 < io_left_qty o < 2 ^ 64.

(** A level of a book that aggregates [t] units: none for zero. *)
Definition level_of (t : Z) : option Z := if t =? 0 then None else Some t.

Record builder_inv (s : OrderbookBuilder) : Prop := {
  inv_orders (k : order_key) (o : ItchOrder) : m_orderMap s !! k = Some o → order_ok k o;
  inv_books (ob : Z) : book_wf (orderbook s ob);
  inv_depth (ob : Z) (buy : bool) (p : Z) :
    book_depth (orderbook s ob) buy !! p = level_of (open_qty (m_orderMap s) ob buy p);
}.

Lemma builder_new_inv : builder_inv OrderbookBuilder_new.
Proof.
  split; intros.
  - done.
  - unfold orderbook. simpl. rewrite lookup_empty. apply L2Orderbook_new_wf.
  - by destruct buy.
Qed.

Lemma contribution_nonneg (orders : gmap order_key ItchOrder) ob buy p :
  (∀ k o, orders !! k = Some o → order_ok k o) →
  ∀ k o, orders !! k = Some o → 0 ≤ contribution ob buy p k o.
Proof. intros Hok k o Hk. unfold contribution. apply Hok in Hk as [_ ?]. destruct (_ && _); lia. Qed.

Lemma contribution_own ob id side p o :
  io_price o = p → contribution ob (is_buy side) p (ob, id, side) o = io_left_qty o.
Proof. intros <-. unfold contribution. simpl. by rewrite !Z.eqb_refl, eqb_reflx. Qed.

(** An order contributes nothing elsewhere. *)
Lemma contribution_other ob buy p ob' id side o :
  (ob', is_buy side, io_price o) ≠ (ob, buy, p) → contribution ob buy p (ob', id, side) o = 0.
Proof.
  intros Hne. unfold contribution. simpl.
  destruct (Z.eqb_spec ob' ob), (Bool.eqb (is_buy side) buy) eqn:E, (Z.eqb_spec (io_price o) p); try done.
  apply eqb_prop in E. congruence.
Qed.

Lemma qty_at_level (d : gmap Z Z) (p t : Z) : d !! p = level_of t → qty_at d p = t.
Proof. unfold qty_at, level_of. intros ->. destruct (Z.eqb_spec t 0); by subst. Qed.

Section books.
Context (s : OrderbookBuilder) (ob : Z) (book : L2Orderbook) (orders : gmap order_key ItchOrder).
Let s' := Build_OrderbookBuilder (<[ob := book]> (m_orderbookMap s)) orders.

Lemma orderbook_insert_eq : orderbook s' ob = book.
Proof. unfold orderbook. simpl. by rewrite lookup_insert_eq. Qed.

Lemma orderbook_insert_ne ob' : ob ≠ ob' → orderbook s' ob' = orderbook s ob'.
Proof. intros Hne. unfold orderbook. simpl. by rewrite lookup_insert_ne. Qed.

(** Updating one side of one book to depth [d] re-establishes the invariant when the
    open quantity changes at one price only, to what [d] says. *)
Lemma builder_inv_update (side : byte) (p : Z) (d : gmap Z Z) :
  builder_inv s →
  (∀ k o, orders !! k = Some o → order_ok k o) →
  book_update (orderbook s ob) book (is_buy side) d →
  (∀ p', p' ≠ p → d !! p' = book_depth (orderbook s ob) (is_buy side) !! p') →
  d !! p = level_of (open_qty orders ob (is_buy side) p) →
  (∀ ob' buy' p', (ob, is_buy side, p) ≠ (ob', buy', p') →
     open_qty orders ob' buy' p' = open_qty (m_orderMap s) ob' buy' p') →
  builder_inv s'.
Proof.
  intros [_ Hwf Hd] Hok (Hwf' & Hd1 & Hd2) Hne Heq Hopen. split; [exact Hok| |].
  - intros ob'. destruct (decide (ob = ob')) as [<-|].
    + by rewrite orderbook_insert_eq.
    + by rewrite orderbook_insert_ne.
  - intros ob' buy' p'. simpl. destruct (decide (ob = ob')) as [<-|].
    2: { rewrite orderbook_insert_ne, Hopen by congruence. apply Hd. }
    rewrite orderbook_insert_eq. destruct (decide (is_buy side = buy')) as [<-|Hbuy].
    2: { replace buy' with (negb (is_buy side)) by (by destruct (is_buy side), buy').
         rewrite Hd2, Hopen; [apply Hd | by destruct (is_buy side)]. }
    rewrite Hd1. destruct (decide (p' = p)) as [->|]; [done|].
    rewrite Hne by done. rewrite Hopen by congruence. apply Hd.
Qed.
End books.

(** ** Every handler keeps the invariant *)

Section handlers.
Context (s : OrderbookBuilder) (Hinv : builder_inv s).
Implicit Types (ob id price qty : Z) (side : byte) (o : ItchOrder).

(** A live order's level holds at least the order's quantity. *)
Lemma live_order_level ob id side o :
  m_orderMap s !! (ob, id, side) = Some o →
  let t := open_qty (m_orderMap s) ob (is_buy side) (io_price o) in
  io_left_qty o ≤ t ∧ 0 < io_left_qty o < 2 ^ 64 ∧
  book_depth (orderbook s ob) (is_buy side) !! io_price o = Some t ∧
  qty_at (book_depth (orderbook s ob) (is_buy side)) (io_price o) = t.
Proof.
  intros Hk t. destruct Hinv as [Hok _ Hd]. destruct (Hok _ _ Hk) as [_ Hq].
  assert (Hle : io_left_qty o ≤ t).
  { rewrite <- (contribution_own ob id side _ o eq_refl).
    apply map_sum_ge; [by apply contribution_nonneg | done]. }
  specialize (Hd ob (is_buy side) (io_price o)). fold t in Hd.
  rewrite (qty_at_level _ _ _ Hd), Hd. unfold level_of.
  destruct (Z.eqb_spec t 0); [lia|]. split_and!; first [lia | done].
Qed.

Lemma add_body_inv ob id side price qty :
  m_orderMap s !! (ob, id, side) = None →
  0 < qty → open_qty (m_orderMap s) ob (is_buy side) price + qty < 2 ^ 64 →
  ∃ s', add_body s ob id side price qty = Ret s' ∧ builder_inv s' ∧
    m_orderMap s' = <[(ob, id, side) := Build_ItchOrder id price qty side ob]> (m_orderMap s).
Proof.
  intros Hk Hq Hb. pose proof Hinv as [Hok Hwf Hd].
  set (o := Build_ItchOrder id price qty side ob).
  pose proof (qty_at_level _ _ _ (Hd ob (is_buy side) price)) as Hqa.
  assert (0 ≤ open_qty (m_orderMap s) ob (is_buy side) price)
    by (apply map_sum_nonneg; by apply contribution_nonneg).
  destruct (L2_AddOrder_refines (orderbook s ob) side price qty (Hwf ob) Hq) as (b & Hadd & Hup);
    [by rewrite Hqa|].
  unfold add_body. rewrite Hadd. simpl. eexists. split; [done|]. split; [|done].
  apply builder_inv_update with (side := side) (p := price)
    (d := spec_add (book_depth (orderbook s ob) (is_buy side)) price qty); [done | | done | | |].
  - intros k o' [[<- <-] | [_ ?]]%lookup_insert_Some; [|by apply Hok].
    split; [done | simpl; lia].
  - intros p' Hp. unfold spec_add. by rewrite lookup_insert_ne.
  - unfold spec_add. rewrite lookup_insert_eq, Hqa. unfold open_qty.
    rewrite map_sum_insert by done.
    rewrite contribution_own by done. unfold level_of. simpl.
    destruct (Z.eqb_spec (qty + map_sum (contribution ob (is_buy side) price) (m_orderMap s)) 0);
      unfold open_qty in *; [lia | f_equal; lia].
  - intros ob' buy' p' Hne. unfold open_qty. rewrite map_sum_insert by done.
    by rewrite contribution_other.
Qed.

(** Reducing a live order by [qty], or dropping it. *)
Lemma reduce_inv ob id side o qty book orders :
  m_orderMap s !! (ob, id, side) = Some o →
  0 ≤ qty ≤ io_left_qty o →
  orders = (if io_left_qty o - qty =? 0 then delete (ob, id, side) (m_orderMap s)
            else <[(ob, id, side) := Build_ItchOrder (io_id o) (io_price o) (io_left_qty o - qty)
                     (io_side o) (io_orderbook_id o)]> (m_orderMap s)) →
  book_update (orderbook s ob) book (is_buy side)
    (spec_reduce (book_depth (orderbook s ob) (is_buy side)) (io_price o) qty) →
  builder_inv (Build_OrderbookBuilder (<[ob := book]> (m_orderbookMap s)) orders).
Proof.
  intros Hk Hq Ho Hup. pose proof Hinv as [Hok Hwf Hd].
  destruct (live_order_level ob id side o Hk) as (Hle & Hpos & Hlv & Hqa).
  set (o' := Build_ItchOrder (io_id o) (io_price o) (io_left_qty o - qty) (io_side o) (io_orderbook_id o)) in *.
  assert (Hopen : ∀ ob' buy' p', open_qty orders ob' buy' p' =
            open_qty (m_orderMap s) ob' buy' p'
            - contribution ob' buy' p' (ob, id, side) o + contribution ob' buy' p' (ob, id, side) o').
  { intros ob' buy' p'. unfold open_qty. subst orders. destruct (Z.eqb_spec (io_left_qty o - qty) 0) as [Hz|].
    - rewrite (map_sum_delete _ _ _ _ Hk). unfold contribution at 5. simpl. rewrite Hz.
      destruct (_ && _); lia.
    - by rewrite (map_sum_update _ _ _ _ _ Hk). }
  apply builder_inv_update with (side := side) (p := io_price o)
    (d := spec_reduce (book_depth (orderbook s ob) (is_buy side)) (io_price o) qty); [done | | done | | |].
  - subst orders. intros k x. destruct (Z.eqb_spec (io_left_qty o - qty) 0).
    + intros [_ ?]%lookup_delete_Some. by apply Hok.
    + intros [[<- <-] | [_ ?]]%lookup_insert_Some; [|by apply Hok].
      destruct (Hok _ _ Hk) as [Hkey _]. split; [done | simpl; lia].
  - intros p' Hp. unfold spec_reduce. destruct (_ <? _); [by rewrite lookup_insert_ne | by rewrite lookup_delete_ne].
  - rewrite Hopen, !contribution_own by done. simpl. unfold spec_reduce. rewrite Hqa. unfold level_of.
    destruct (Z.ltb_spec qty (open_qty (m_orderMap s) ob (is_buy side) (io_price o))).
    + rewrite lookup_insert_eq. destruct (Z.eqb_spec (open_qty (m_orderMap s) ob (is_buy side) (io_price o)
        - io_left_qty o + (io_left_qty o - qty)) 0); [lia | f_equal; lia].
    + rewrite lookup_delete_eq. destruct (Z.eqb_spec (open_qty (m_orderMap s) ob (is_buy side) (io_price o)
        - io_left_qty o + (io_left_qty o - qty)) 0); [done | lia].
  - intros ob' buy' p' Hne.
    rewrite Hopen, (contribution_other _ _ _ _ _ _ o), (contribution_other _ _ _ _ _ _ o') by done. lia.
Qed.

Lemma execute_body_inv ob id side qty :
  0 ≤ qty → (∀ o, m_orderMap s !! (ob, id, side) = Some o → qty ≤ io_left_qty o) →
  ∃ s', execute_body s ob id side qty = Ret s' ∧ builder_inv s'.
Proof.
  intros Hq Hle. unfold execute_body.
  destruct (m_orderMap s !! (ob, id, side)) as [o|] eqn:Hk; [|by eauto].
  specialize (Hle o eq_refl). destruct (live_order_level ob id side o Hk) as (_ & Hpos & Hlv & _).
  destruct (L2_ExecuteOrder_refines (orderbook s ob) side (io_price o) qty (inv_books s Hinv ob) Hq)
    as (b & -> & Hup); [by rewrite Hlv|].
  simpl. eexists. split; [done|]. rewrite wrap_id by lia.
  by eapply (reduce_inv ob id side o qty).
Qed.

Lemma delete_body_inv ob id side :
  ∃ s', delete_body s ob id side = Ret s' ∧ builder_inv s' ∧
    m_orderMap s' = delete (ob, id, side) (m_orderMap s).
Proof.
  unfold delete_body. destruct (m_orderMap s !! (ob, id, side)) as [o|] eqn:Hk.
  2: { exists s. by rewrite delete_id. }
  destruct (live_order_level ob id side o Hk) as (Hle & Hpos & Hlv & Hqa).
  destruct (L2_DeleteOrder_refines (orderbook s ob) side (io_price o) (io_left_qty o)
    (inv_books s Hinv ob)) as (b & -> & Hup); [lia | by rewrite Hqa | by rewrite Hlv |].
  simpl. eexists. split; [done|]. split; [|done].
  eapply (reduce_inv ob id side o (io_left_qty o)); [done | lia | by rewrite Z.sub_diag | done].
Qed.
End handlers.

(** ** Misbehaving feeds *)

Section misbehaving.
Context (s : OrderbookBuilder) (Hinv : builder_inv s).

(** Executing more than is left of an order that is alone at its price drops the level
    but keeps the order, with the quantity the subtraction wraps around to. *)
Lemma overexecute ob id side o qty :
  m_orderMap s !! (ob, id, side) = Some o →
  open_qty (m_orderMap s) ob (is_buy side) (io_price o) = io_left_qty o →
  io_left_qty o < qty < 2 ^ 64 →
  ∃ s1 o', execute_body s ob id side qty = Ret s1 ∧
    m_orderMap s1 !! (ob, id, side) = Some o' ∧ io_price o' = io_price o ∧
    io_left_qty o' = io_left_qty o - qty + 2 ^ 64 ∧
    book_wf (orderbook s1 ob) ∧ book_depth (orderbook s1 ob) (is_buy side) !! io_price o = None.
Proof.
  intros Hk Hsum Hq. destruct (live_order_level s Hinv ob id side o Hk) as (_ & Hpos & Hlv & Hqa).
  rewrite Hsum in Hqa, Hlv.
  destruct (L2_ExecuteOrder_refines (orderbook s ob) side (io_price o) qty (inv_books s Hinv ob))
    as (b & He & Hwf & Hd & _); [lia | by rewrite Hlv |].
  unfold execute_body. rewrite Hk, He. run_outcome. rewrite wrap_sub_borrow by lia.
  rewrite (proj2 (Z.eqb_neq (io_left_qty o - qty + 2 ^ 64) 0)) by lia.
  eexists _, (Build_ItchOrder (io_id o) (io_price o) (io_left_qty o - qty + 2 ^ 64) (io_side o)
    (io_orderbook_id o)). split; [done|].
  rewrite orderbook_insert_eq, Hd. unfold spec_reduce. rewrite Hqa.
  destruct (Z.ltb_spec qty (io_left_qty o)); [lia|].
  rewrite lookup_delete_eq. simpl. by rewrite lookup_insert_eq.
Qed.

Lemma delete_without_level ob id side o :
  m_orderMap s !! (ob, id, side) = Some o → book_wf (orderbook s ob) →
  book_depth (orderbook s ob) (is_buy side) !! io_price o = None →
  delete_body s ob id side = Exit 42.
Proof.
  intros Hk Hwf Hn. unfold delete_body. by rewrite Hk, L2_DeleteOrder_missing.
Qed.

(** Adding an order under a live key at another price forgets the old order, whose
    quantity stays in the book. *)
Lemma readd ob id side o price qty :
  m_orderMap s !! (ob, id, side) = Some o → io_price o ≠ price → 0 < qty →
  open_qty (m_orderMap s) ob (is_buy side) price + qty < 2 ^ 64 →
  ∃ s1, add_body s ob id side price qty = Ret s1 ∧
    book_depth (orderbook s1 ob) (is_buy side) !! io_price o =
      Some (open_qty (m_orderMap s1) ob (is_buy side) (io_price o) + io_left_qty o).
Proof.
  intros Hk Hne Hq Hb. destruct (live_order_level s Hinv ob id side o Hk) as (_ & Hpos & Hlv & _).
  pose proof (qty_at_level _ _ _ (inv_depth s Hinv ob (is_buy side) price)) as Hqa.
  destruct (L2_AddOrder_refines (orderbook s ob) side price qty (inv_books s Hinv ob) Hq)
    as (b & Ha & _ & Hd & _); [by rewrite Hqa|].
  unfold add_body. rewrite Ha. run_outcome. eexists. split; [done|].
  rewrite orderbook_insert_eq, Hd. unfold spec_add. rewrite lookup_insert_ne, Hlv by done.
  f_equal. unfold open_qty. simpl. rewrite (map_sum_update _ _ _ _ _ Hk).
  rewrite contribution_own by done. rewrite contribution_other by (simpl; congruence). lia.
Qed.
End misbehaving.

(** ** Feeds *)

(** The messages the builder handles. *)
Inductive itch_event :=
  | EvAdd (m : AddOrder)
  | EvExecute (m : OrderExecuted)
  | EvDelete (m : OrderDelete).

Definition apply_event `{StaleComparison} (s : OrderbookBuilder) (ev : itch_event) : outcome OrderbookBuilder :=
  match ev with
  | EvAdd m => addOrder s m
  | EvExecute m => executeOrder s m
  | EvDelete m => deleteOrder s m
  end.

Definition add_key (m : AddOrder) : order_key :=
  (be32toh (ao_orderbook_id m), be64toh (ao_order_id m), ao_side m).
Definition execute_key (m : OrderExecuted) : order_key :=
  (be32toh (oe_orderbook_id m), be64toh (oe_order_id m), oe_side m).
Definition delete_key (m : OrderDelete) : order_key :=
  (be32toh (od_orderbook_id m), be64toh (od_order_id m), od_side m).

(** What a well-behaved exchange sends in a state: a new order has a fresh key and a
    positive quantity that its level can hold; an execution takes no more than is left
    of the order.  Deletes are unrestricted. *)
Definition feed_ok (s : OrderbookBuilder) (ev : itch_event) : Prop :=
  match ev with
  | EvAdd m =>
      m_orderMap s !! add_key m = None ∧ 0 < be64toh (ao_quantity m) ∧
      open_qty (m_orderMap s) (add_key m).1.1 (is_buy (ao_side m))
        (to_signed 32 (be32toh (ao_price m))) + be64toh (ao_quantity m) < 2 ^ 64
  | EvExecute m =>
      match m_orderMap s !! execute_key m with
      | Some o => be64toh (oe_quantity m) ≤ io_left_qty o
      | None => True
      end
  | EvDelete _ => True
  end.

#[export] Instance feed_ok_dec (s : OrderbookBuilder) (ev : itch_event) : Decision (feed_ok s ev).
Proof. unfold feed_ok. destruct ev; [|destruct (_ !! _)|]; apply _. Defined.

Inductive feed_step : OrderbookBuilder → OrderbookBuilder → Prop :=
  | feed_step_event s ev s' : feed_ok s ev → apply_event s ev = Ret s' → feed_step s s'.

(** The states a well-behaved feed leads to from an empty builder. *)
Inductive feed : OrderbookBuilder → Prop :=
  | feed_start : feed OrderbookBuilder_new
  | feed_next s s' : feed s → feed_step s s' → feed s'.

Lemma apply_event_inv (s : OrderbookBuilder) (ev : itch_event) :
  builder_inv s → feed_ok s ev → ∃ s', apply_event s ev = Ret s' ∧ builder_inv s'.
Proof.
  intros Hinv. destruct ev as [m|m|m]; simpl.
  - intros (Hk & Hq & Hb). destruct (add_body_inv s Hinv _ _ _ _ _ Hk Hq Hb) as (s' & Hs' & ? & _). eauto.
  - intros Hle. apply execute_body_inv; [done | apply bswap_bound |].
    intros o Ho. unfold execute_key in Hle. by rewrite Ho in Hle.
  - intros _. unfold deleteOrder.
    destruct (delete_body_inv s Hinv (be32toh (od_orderbook_id m)) (be64toh (od_order_id m)) (od_side m))
      as (s' & ? & ? & _). eauto.
Qed.

Lemma feed_inv (s : OrderbookBuilder) : feed s → builder_inv s.
Proof.
  induction 1 as [|s s' _ IH Hstep]; [apply builder_new_inv|].
  destruct Hstep as [s ev s' Hok Hev]. destruct (apply_event_inv s ev IH Hok) as (s1 & Hs1 & ?).
  rewrite Hev in Hs1. by simplify_eq.
Qed.

Lemma feed_run (evs : list itch_event) (s s' : OrderbookBuilder) :
  feed s → fold_outcome (λ s ev, if decide (feed_ok s ev) then apply_event s ev else Throw "feed") s evs = Ret s' →
  feed s'.
Proof.
  revert s. induction evs as [|ev evs IH]; intros s Hs Hf; simpl in Hf; [by simplify_eq|].
  apply bind_ret_inv in Hf as (s1 & H1 & H2). case_decide; [|done].
  apply (IH s1); [|done]. eapply feed_next; [done | by eapply feed_step_event].
Qed.

(** ** Messages built from host values, for concrete inputs *)

Definition make_add (ob id : Z) (side : byte) (qty price : Z) : AddOrder :=
  Build_AddOrder "A" 0 (bswap 8 id) (bswap 4 ob) side 0 (bswap 8 qty)
    (to_signed 32 (bswap 4 price)) 0 x00.
Definition make_execute (ob id : Z) (side : byte) (qty : Z) : OrderExecuted :=
  Build_OrderExecuted "E" 0 (bswap 8 id) (bswap 4 ob) side (bswap 8 qty) 0 0
    (repeat x00 7) (repeat x00 7).
Definition make_delete (ob id : Z) (side : byte) : OrderDelete :=
  Build_OrderDelete "D" 0 (bswap 8 id) (bswap 4 ob) side.

(** The three orders of the parser test. *)
Definition sample_feed : list itch_event :=
  [EvAdd (make_add 1 1001 "B" 100 1000); EvAdd (make_add 1 1002 "S" 200 1010);
   EvAdd (make_add 1 1003 "B" 150 1020)].

Definition run_feed (evs : list itch_event) : OrderbookBuilder :=
  match fold_outcome apply_event OrderbookBuilder_new evs with Ret s => s | _ => OrderbookBuilder_new end.

Definition sample_state : OrderbookBuilder := run_feed sample_feed.

Lemma sample_state_feed : feed sample_state.
Proof.
  apply (feed_run sample_feed OrderbookBuilder_new); [constructor|]. vm_compute. reflexivity.
Qed.

(** ** Properties *)

(** The message adds an order at a price that has no level and is better than the worst
    level of its side. *)
Definition event_opens_better (s : OrderbookBuilder) (ev : itch_event) : Prop :=
  match ev with
  | EvAdd m =>
      opens_better (orderbook s (be32toh (ao_orderbook_id m))) (ao_side m) (to_signed 32 (be32toh (ao_price m)))
  | EvExecute _ | EvDelete _ => False
  end.

(** C21. In every state that a well-behaved feed reaches ([feed]), the handler of the next
    message returns and neither ends the process nor dereferences what is not there,
    provided that comparing the iterator which [levels.insert] has invalidated compares
    pointers.  By the letter of C++ the very same holds of every message but one kind: an
    order that opens a level better than the worst of its side is undefined behaviour,
    because of this comparison. *)
Theorem feed_safe (s : OrderbookBuilder) (ev : itch_event) :
  feed s → feed_ok s ev →
  ∃ s', apply_event s ev = Ret s' ∧ feed s' ∧
    (event_opens_better s ev ∧ @apply_event cxx_iterators s ev = Undef InvalidIterator ∨
     ¬ event_opens_better s ev ∧ @apply_event cxx_iterators s ev = Ret s').
Proof.
  intros Hs Hok. destruct (apply_event_inv s ev (feed_inv s Hs) Hok) as (s' & Hs' & _).
  exists s'. split; [done|]. split; [eapply feed_next; [done | by eapply feed_step_event]|].
  destruct ev as [m|m|m]; [|right; split; [by intros [] | exact Hs']..]. cbn [apply_event event_opens_better] in *. unfold addOrder, add_body in *.
  destruct (L2_AddOrder_checked (orderbook s (be32toh (ao_orderbook_id m))) (ao_side m)
    (to_signed 32 (be32toh (ao_price m))) (be64toh (ao_quantity m))) as [[Hb ->]|[Hb ->]]; [left|right]; done.
Qed.

(** A bid at a new best price, after the three orders of [sample_feed]. *)
Lemma feed_safe_witness :
  ∃ s', apply_event sample_state (EvAdd (make_add 1 1004 "B" 50 1030)) = Ret s' ∧ feed s' ∧
    @apply_event cxx_iterators sample_state (EvAdd (make_add 1 1004 "B" 50 1030)) = Undef InvalidIterator.
Proof.
  assert (Hok : feed_ok sample_state (EvAdd (make_add 1 1004 "B" 50 1030)))
    by (apply (bool_decide_unpack _); by vm_compute).
  destruct (feed_safe sample_state (EvAdd (make_add 1 1004 "B" 50 1030)) sample_state_feed Hok) as (s' & Hs' & Hf & Hc).
  exists s'. split; [exact Hs'|]. split; [exact Hf|]. destruct Hc as [[_ Hu]|[_ Hr]]; [exact Hu|].
  exfalso. revert Hr. vm_compute. discriminate.
Defined.

(** C1. In every state that a well-behaved feed reaches ([feed]), every book is sorted with
    positive quantities, and each of its levels holds exactly the sum of the quantities
    left of the live orders at that side and price. *)
Theorem feed_books_aggregate (s : OrderbookBuilder) (ob : Z) (buy : bool) (price : Z) :
  feed s → book_wf (orderbook s ob) ∧
    book_depth (orderbook s ob) buy !! price = level_of (open_qty (m_orderMap s) ob buy price).
Proof. intros Hs%feed_inv. split; [by apply inv_books | by apply inv_depth]. Qed.

Lemma feed_books_aggregate_witness :
  book_wf (orderbook sample_state 1) ∧
  book_depth (orderbook sample_state 1) true !! 1020 =
    level_of (open_qty (m_orderMap sample_state) 1 true 1020).
Proof. apply (feed_books_aggregate sample_state 1 true 1020), sample_state_feed. Defined.

(** Whatever a delete message says, in a reachable state it is handled: the order
    leaves the map, a message for an unknown order changes nothing, and neither
    [std::exit(42)] nor an underflow of the level can happen. *)
Theorem deleteOrder_total (s : OrderbookBuilder) (m : OrderDelete) :
  feed s → ∃ s', deleteOrder s m = Ret s' ∧ feed s' ∧
    m_orderMap s' = delete (delete_key m) (m_orderMap s) ∧
    (m_orderMap s !! delete_key m = None → s' = s).
Proof.
  intros Hs. pose proof (feed_inv s Hs) as Hinv.
  destruct (delete_body_inv s Hinv (be32toh (od_orderbook_id m)) (be64toh (od_order_id m)) (od_side m))
    as (s' & Hd & _ & Hm).
  exists s'. split; [exact Hd|]. split; [|split; [exact Hm|]].
  - eapply feed_next; [done|]. by apply (feed_step_event s (EvDelete m)).
  - intros Hn. unfold delete_body in Hd. unfold delete_key in Hn. rewrite Hn in Hd. by simplify_eq.
Qed.

Lemma deleteOrder_total_witness :
  ∃ s', deleteOrder sample_state (make_delete 1 1002 "S") = Ret s' ∧ feed s' ∧
    m_orderMap s' = delete (1, 1002, "S"%byte) (m_orderMap sample_state) ∧
    (m_orderMap sample_state !! (1, 1002, "S"%byte) = None → s' = sample_state).
Proof. apply (deleteOrder_total sample_state (make_delete 1 1002 "S")), sample_state_feed. Defined.

(** An add message of a well-behaved feed is remembered as sent: afterwards the
    builder has the order with its price, side, book and whole quantity, the other orders
    are as before, and the price of its side holds exactly that quantity more. *)
Theorem addOrder_recorded (s : OrderbookBuilder) (m : AddOrder) :
  feed s → feed_ok s (EvAdd m) →
  let ob := be32toh (ao_orderbook_id m) in
  let id := be64toh (ao_order_id m) in
  let price := to_signed 32 (be32toh (ao_price m)) in
  let qty := be64toh (ao_quantity m) in
  ∃ s', addOrder s m = Ret s' ∧
    getOrder s' ob id (ao_side m) = Ret (Build_ItchOrder id price qty (ao_side m) ob) ∧
    (∀ k, k ≠ (ob, id, ao_side m) → m_orderMap s' !! k = m_orderMap s !! k) ∧
    open_qty (m_orderMap s') ob (is_buy (ao_side m)) price =
      open_qty (m_orderMap s) ob (is_buy (ao_side m)) price + qty.
Proof.
  intros Hs (Hk & Hq & Hb) ob id price qty.
  destruct (add_body_inv s (feed_inv s Hs) ob id (ao_side m) price qty Hk Hq Hb) as (s' & Ha & _ & Hm).
  exists s'. split; [exact Ha|]. unfold getOrder. rewrite Hm, lookup_insert_eq. split_and!; [done| |].
  - intros k Hne. by apply lookup_insert_ne.
  - unfold open_qty. rewrite map_sum_insert, contribution_own by done. simpl. lia.
Qed.

Lemma addOrder_recorded_witness :
  ∃ s', addOrder sample_state (make_add 1 1004 "B" 5 1000) = Ret s' ∧
    getOrder s' 1 1004 "B" = Ret (Build_ItchOrder 1004 1000 5 "B" 1) ∧
    (∀ k, k ≠ (1, 1004, "B"%byte) → m_orderMap s' !! k = m_orderMap sample_state !! k) ∧
    open_qty (m_orderMap s') 1 true 1000 = open_qty (m_orderMap sample_state) 1 true 1000 + 5.
Proof.
  apply (addOrder_recorded sample_state (make_add 1 1004 "B" 5 1000)); [apply sample_state_feed|].
  by apply (bool_decide_unpack _); vm_compute.
Defined.

(** C31. An execution beyond what is left is not caught: the level saturates and is
    dropped, but the order survives with a wrapped quantity, so that the delete message
    for it then finds no level and ends the process with status 42. *)
Theorem overexecution_then_delete_exits (s : OrderbookBuilder) (ob id : Z) (side : byte) (o : ItchOrder)
    (qty : Z) :
  feed s → m_orderMap s !! (ob, id, side) = Some o →
  open_qty (m_orderMap s) ob (is_buy side) (io_price o) = io_left_qty o →
  io_left_qty o < qty < 2 ^ 64 →
  ∃ s1, execute_body s ob id side qty = Ret s1 ∧ hasOrder s1 ob id side = true ∧
    delete_body s1 ob id side = Exit 42.
Proof.
  intros Hs Hk Hsum Hq.
  destruct (overexecute s (feed_inv s Hs) ob id side o qty Hk Hsum Hq) as (s1 & o' & He & Hk' & Hp & _ & Hwf & Hn).
  exists s1. split; [done|]. split; [unfold hasOrder; by rewrite Hk'|].
  apply (delete_without_level s1 ob id side o' Hk' Hwf). by rewrite Hp.
Qed.

Lemma overexecution_then_delete_exits_witness :
  ∃ s1, execute_body sample_state 1 1003 "B" 151 = Ret s1 ∧ hasOrder s1 1 1003 "B" = true ∧
    delete_body s1 1 1003 "B" = Exit 42.
Proof.
  apply (overexecution_then_delete_exits sample_state 1 1003 "B" (Build_ItchOrder 1003 1020 150 "B" 1) 151);
    [apply sample_state_feed | vm_compute; reflexivity | vm_compute; reflexivity | simpl; lia].
Defined.

(** A second add under a live key at another price is accepted and leaves phantom
    liquidity: the old price keeps the forgotten order's quantity on top of what the live
    orders there add up to, so the books no longer aggregate the orders. *)
Theorem duplicate_add_phantom (s : OrderbookBuilder) (ob id : Z) (side : byte) (o : ItchOrder)
    (price qty : Z) :
  feed s → m_orderMap s !! (ob, id, side) = Some o → io_price o ≠ price → 0 < qty →
  open_qty (m_orderMap s) ob (is_buy side) price + qty < 2 ^ 64 →
  ∃ s1, add_body s ob id side price qty = Ret s1 ∧ ¬ builder_inv s1 ∧
    book_depth (orderbook s1 ob) (is_buy side) !! io_price o =
      Some (open_qty (m_orderMap s1) ob (is_buy side) (io_price o) + io_left_qty o).
Proof.
  intros Hs%feed_inv Hk Hne Hq Hb.
  destruct (readd s Hs ob id side o price qty Hk Hne Hq Hb) as (s1 & Ha & Hd).
  exists s1. split_and!; [done| |done]. intros [_ _ Hd'].
  specialize (Hd' ob (is_buy side) (io_price o)). rewrite Hd in Hd'.
  destruct (inv_orders s Hs _ _ Hk) as [_ Hpos]. unfold level_of in Hd'.
  destruct (Z.eqb_spec (open_qty (m_orderMap s1) ob (is_buy side) (io_price o)) 0); simplify_eq; lia.
Qed.

Lemma duplicate_add_phantom_witness :
  ∃ s1, add_body sample_state 1 1001 "B" 999 30 = Ret s1 ∧ ¬ builder_inv s1 ∧
    book_depth (orderbook s1 1) true !! 1000 = Some (open_qty (m_orderMap s1) 1 true 1000 + 100).
Proof.
  apply (duplicate_add_phantom sample_state 1 1001 "B" (Build_ItchOrder 1001 1000 100 "B" 1) 999 30);
    [apply sample_state_feed | vm_compute; reflexivity | simpl; lia | lia | vm_compute; done].
Defined.
