(* ===== verification/ItchParser.v ===== *)
(** * Parsing MoldUDP64 packets of ITCH messages

    Models lib/protocol/itch/itch_parser.hpp.  [ItchParser<Builder>] overlays a
    [DownstreamHeader] on the packet, walks over its message blocks and forwards add,
    execute and delete messages to the builder.  The template parameter is the class
    [Builder]; its instances are the builder of OrderbookBuilder and the counting
    mock of test/itch_parser_test.cpp.

    A pointer is the memory from it to the end of the object it points into.  The parser
    never looks at the size it is given, so a read past the end of that memory is
    undefined behaviour; a message counts as read when the reference to it is bound. *)
From S2P Require Import Prelude Bytes Codec Types ItchMessages SessionMessages L2Orderbook OrderbookBuilder.
Local Open Scope Z_scope.

(** ** The builder interface *)

Class Builder (B : Type) := {
  build_add : B → AddOrder → outcome B;
  build_execute : B → OrderExecuted → outcome B;
  build_delete : B → OrderDelete → outcome B;
}.
#[global] Hint Mode Builder ! : typeclass_instances.

Definition forward {B} `{Builder B} (b : B) (ev : itch_event) : outcome B :=
  match ev with
  | EvAdd m => build_add b m
  | EvExecute m => build_execute b m
  | EvDelete m => build_delete b m
  end.

(** What a client may rely on: from a state with [builder_ok], a message that is
    [expected] there is handled and leads to a state with [builder_ok]. *)
Class BuilderContract (B : Type) `{Builder B} := {
  builder_ok : B → Prop;
  expected : B → itch_event → Prop;
  forward_ok (b : B) (ev : itch_event) :
    builder_ok b → expected b ev → ∃ b', forward b ev = Ret b' ∧ builder_ok b';
}.

#[export] Instance ConcreteOrderbookBuilder : Builder OrderbookBuilder := {|
  build_add := addOrder;
  build_execute := executeOrder;
  build_delete := deleteOrder;
|}.

(** The concrete builder keeps the books equal to the aggregated live orders. *)
#[export] Program Instance ConcreteOrderbookBuilder_contract : BuilderContract OrderbookBuilder := {|
  builder_ok := builder_inv;
  expected := feed_ok;
|}.
Next Obligation. exact apply_event_inv. Qed.

Lemma forward_concrete (s : OrderbookBuilder) (ev : itch_event) : forward s ev = apply_event s ev.
Proof. by destruct ev. Qed.

(** The counters of the test's mock. *)
Record MockOrderbookBuilder := Build_MockOrderbookBuilder {
  add_calls : Z;
  exec_calls : Z;
  del_calls : Z;
}.

#[export] Instance MockOrderbookBuilder_builder : Builder MockOrderbookBuilder := {|
  build_add b _ := Ret (Build_MockOrderbookBuilder (add_calls b + 1) (exec_calls b) (del_calls b));
  build_execute b _ := Ret (Build_MockOrderbookBuilder (add_calls b) (exec_calls b + 1) (del_calls b));
  build_delete b _ := Ret (Build_MockOrderbookBuilder (add_calls b) (exec_calls b) (del_calls b + 1));
|}.

(** ** The parser *)

Record ItchParser (B : Type) := Build_ItchParser {
  m_builder : option B;
  m_session : list byte;
}.
Arguments Build_ItchParser {_} _ _.
Arguments m_builder {_} _.
Arguments m_session {_} _.

(** The constructor takes a reference, so the pointer it keeps is not null. *)
Definition ItchParser_new {B} (builder : B) : ItchParser B := Build_ItchParser (Some builder) [].

Definition getSession {B} (p : ItchParser B) : list byte := m_session p.

Section parser.
Context {B : Type} `{Builder B}.
Implicit Types (p : ItchParser B) (mem : list byte).

(** [if (m_builder) m_builder->handler(m)] *)
Definition with_builder {M} (handler : B → M → outcome B) p (m : M) : outcome (ItchParser B) :=
  match m_builder p with
  | Some b => b' ← handler b m; Ret (Build_ItchParser (Some b') (m_session p))
  | None => Ret p
  end.

Definition handleOrderAdd p (m : AddOrder) : outcome (ItchParser B) := with_builder build_add p m.
Definition handleOrderExecution p (m : OrderExecuted) : outcome (ItchParser B) :=
  with_builder build_execute p m.
Definition handleOrderDelete p (m : OrderDelete) : outcome (ItchParser B) :=
  with_builder build_delete p m.

(** The switch on the first byte of a block's data, which starts at [data] in [mem]. *)
Definition handleBlock p mem (data : nat) : outcome (ItchParser B) :=
  tag ← overlay enum1 data mem;
  match of_code (i8 tag) with
  | Some MessageType_AddOrder => m ← overlay AddOrder_codec data mem; handleOrderAdd p m
  | Some MessageType_OrderExecuted =>
      m ← overlay OrderExecuted_codec data mem; handleOrderExecution p m
  | Some MessageType_OrderDelete => m ← overlay OrderDelete_codec data mem; handleOrderDelete p m
  | _ => Ret p
  end.

(** [n] rounds of the loop of [parsePayload]; [offset] is a [uint32_t]. *)
Fixpoint parse_blocks (n : nat) p mem (payload : nat) (offset : Z) : outcome (ItchParser B) :=
  match n with
  | O => Ret p
  | S n =>
      let block := (payload + Z.to_nat offset)%nat in
      b ← overlay MessageBlock_codec block mem;
      let offset' := wrap 32 (offset + (be16toh (mb_length b) + 2)) in
      p' ← handleBlock p mem (block + 2);
      parse_blocks n p' mem payload offset'
  end.

Definition parsePayload p mem (payload : nat) (message_count sequence_number : Z) :
    outcome (ItchParser B) :=
  parse_blocks (Z.to_nat message_count) p mem payload 0.

(** [toStringSession]: the ten characters as a string. *)
Definition toStringSession (token : list byte) : list byte := token.

(** [None] is the null pointer, for which [parse] returns a value-initialized pair. *)
Definition parse p (byte_array : option (list byte)) (size : Z) : outcome (ItchParser B * (Z * Z)) :=
  match byte_array with
  | None => Ret (p, (0, 0))
  | Some mem =>
      header ← overlay DownstreamHeader_codec 0 mem;
      let p := Build_ItchParser (m_builder p) (toStringSession (dh_session header)) in
      p ← parsePayload p mem 20 (be16toh (dh_message_count header)) (be64toh (dh_sequence_number header));
      Ret (p, (be64toh (dh_sequence_number header), be16toh (dh_message_count header)))
  end.
End parser.

(** ** The wire format of a packet *)

(** A message of a packet: one the parser forwards, or the data of another one. *)
Inductive itch_message :=
  | MsgEvent (ev : itch_event)
  | MsgOther (data : list byte).

Definition message_data (m : itch_message) : list byte :=
  match m with
  | MsgEvent (EvAdd m) => c_enc AddOrder_codec m
  | MsgEvent (EvExecute m) => c_enc OrderExecuted_codec m
  | MsgEvent (EvDelete m) => c_enc OrderDelete_codec m
  | MsgOther data => data
  end.

(** The message has the type byte of its kind, its members are in range, and its size
    fits the length field of a block. *)
Definition message_ok (m : itch_message) : bool :=
  match m with
  | MsgEvent (EvAdd m) => c_ok AddOrder_codec m && bool_decide (ao_type m = "A"%byte)
  | MsgEvent (EvExecute m) => c_ok OrderExecuted_codec m && bool_decide (oe_type m = "E"%byte)
  | MsgEvent (EvDelete m) => c_ok OrderDelete_codec m && bool_decide (od_type m = "D"%byte)
  | MsgOther data =>
      (Z.of_nat (length data) <? 2 ^ 16) &&
      match data with
      | tag :: _ => negb (bool_decide (tag ∈ ["A"; "E"; "D"]%byte))
      | [] => false
      end
  end.

Definition encode_block (data : list byte) : list byte := be_store 2 (Z.of_nat (length data)) ++ data.

Definition encode_blocks (ms : list itch_message) : list byte :=
  concat ((λ m, encode_block (message_data m)) <$> ms).

Definition encode_packet (session : list byte) (sequence_number : Z) (ms : list itch_message) : list byte :=
  session ++ be_store 8 sequence_number ++ be_store 2 (Z.of_nat (length ms)) ++ encode_blocks ms.

Section parse_encoded.
Context {B : Type} `{Builder B}.
Implicit Types (p : ItchParser B) (mem : list byte).

Definition on_message p (m : itch_message) : outcome (ItchParser B) :=
  match m with
  | MsgEvent ev => with_builder forward p ev
  | MsgOther _ => Ret p
  end.

Lemma message_data_length (m : itch_message) :
  message_ok m = true → Z.of_nat (length (message_data m)) < 2 ^ 16.
Proof.
  destruct m as [[m|m|m]|data]; cbn [message_data message_ok]; intros [Hm _]%andb_true_iff;
    [by rewrite (enc_length (c := AddOrder_codec) m Hm)
    |by rewrite (enc_length (c := OrderExecuted_codec) m Hm)
    |by rewrite (enc_length (c := OrderDelete_codec) m Hm) | lia].
Qed.

Lemma other_tag (tag : byte) :
  tag ∉ ["A"; "E"; "D"]%byte →
  of_code (E := MessageType) (i8 tag) ≠ Some MessageType_AddOrder ∧
  of_code (E := MessageType) (i8 tag) ≠ Some MessageType_OrderExecuted ∧
  of_code (E := MessageType) (i8 tag) ≠ Some MessageType_OrderDelete.
Proof.
  intros Hn. split_and!; intros Hc%code_of_code; apply Hn; clear Hn.
  all: destruct tag; vm_compute in Hc; try discriminate; set_solver.
Qed.

(** A block dispatches to the handler of its message. *)
Lemma handleBlock_message p (pre post : list byte) (m : itch_message) :
  message_ok m = true →
  handleBlock p (pre ++ message_data m ++ post) (length pre) = on_message p m.
Proof.
  intros Hm.
  assert (Htag : ∀ (tag : byte) (rest : list byte), message_data m = tag :: rest →
            overlay enum1 (length pre) (pre ++ message_data m ++ post) = Ret tag).
  { intros tag rest ->. apply (overlay_enc char1 tag pre (rest ++ post) eq_refl). }
  unfold handleBlock. destruct m as [[m|m|m]|data]; cbn [message_data message_ok] in *.
  1-3: apply andb_true_iff in Hm as [Hm Ht%bool_decide_eq_true].
  1-3: rewrite (Htag _ _ eq_refl), overlay_enc, Ht by (done || apply _); done.
  apply andb_true_iff in Hm as [_ Hm]. destruct data as [|tag rest]; [done|].
  apply negb_true_iff, bool_decide_eq_false in Hm.
  rewrite (Htag _ _ eq_refl). run_outcome. destruct (other_tag tag Hm) as (? & ? & ?).
  by destruct (of_code _) as [[]|].
Qed.

(** Every block is dispatched in turn, as long as the 32-bit offset does not wrap; [k]
    further rounds start after the last block. *)
Lemma parse_blocks_encoded (ms : list itch_message) p (hdr pre post : list byte) (k : nat) :
  Forall (λ m, message_ok m = true) ms →
  Z.of_nat (length pre + length (encode_blocks ms)) < 2 ^ 32 →
  parse_blocks (length ms + k) p (hdr ++ pre ++ encode_blocks ms ++ post) (length hdr)
      (Z.of_nat (length pre)) =
    p' ← fold_outcome on_message p ms;
    parse_blocks k p' (hdr ++ pre ++ encode_blocks ms ++ post) (length hdr)
      (Z.of_nat (length (pre ++ encode_blocks ms))).
Proof.
  intros Hms. revert p pre. induction Hms as [|m ms Hm Hms IH]; intros p pre Hb; [by rewrite app_nil_r|].
  set (d := message_data m). pose proof (message_data_length m Hm) as Hl. fold d in Hl.
  change (encode_blocks (m :: ms)) with (encode_block d ++ encode_blocks ms) in *.
  rewrite length_app in Hb. unfold encode_block in Hb at 1.
  rewrite length_app, length_be_store in Hb.
  cbn [length Nat.add parse_blocks fold_outcome]. rewrite Nat2Z.id.
  set (len := bswap 2 (Z.of_nat (length d))).
  assert (Hlen : be16toh len = Z.of_nat (length d)) by (apply bswap_swap; lia).
  assert (Henc : c_enc MessageBlock_codec (Build_MessageBlock len) = be_store 2 (Z.of_nat (length d)))
    by apply le_store_bswap.
  assert (Hover : overlay MessageBlock_codec (length hdr + length pre)
            (hdr ++ pre ++ (encode_block d ++ encode_blocks ms) ++ post) = Ret (Build_MessageBlock len)).
  { rewrite <- length_app. unfold encode_block. rewrite <- Henc, <- !(assoc_L (++)), (assoc_L (++) hdr pre).
    apply overlay_enc; [apply _|]. apply (uint_ok_bswap 2). }
  rewrite Hover. cbn [mbind outcome_bind mb_length]. rewrite Hlen.
  replace (hdr ++ pre ++ (encode_block d ++ encode_blocks ms) ++ post)
    with ((hdr ++ pre ++ be_store 2 (Z.of_nat (length d))) ++ d ++ (encode_blocks ms ++ post))
    by (unfold encode_block; by rewrite <- !(assoc_L (++))).
  replace (length hdr + length pre + 2)%nat
    with (length (hdr ++ pre ++ be_store 2 (Z.of_nat (length d))))
    by (autorewrite with algocor_bytes; lia).
  unfold d at 2. rewrite (handleBlock_message p _ _ m Hm). fold d. destruct (on_message p m) as [p'|?|?|?]; try done.
  run_outcome.
  replace (wrap 32 (Z.of_nat (length pre) + (Z.of_nat (length d) + 2)))
    with (Z.of_nat (length (pre ++ encode_block d)))
    by (unfold encode_block; rewrite !length_app, length_be_store, wrap_id; lia).
  replace ((hdr ++ pre ++ be_store 2 (Z.of_nat (length d))) ++ d ++ encode_blocks ms ++ post)
    with (hdr ++ (pre ++ encode_block d) ++ encode_blocks ms ++ post)
    by (unfold encode_block; by rewrite <- !(assoc_L (++))).
  rewrite (assoc_L (++) pre (encode_block d)).
  apply IH. unfold encode_block. rewrite !length_app, length_be_store. lia.
Qed.

Lemma encode_blocks_length (ms : list itch_message) :
  Forall (λ m, message_ok m = true) ms →
  Z.of_nat (length (encode_blocks ms)) ≤ 65537 * Z.of_nat (length ms).
Proof.
  induction 1 as [|m ms Hm _ IH]; [done|]. pose proof (message_data_length m Hm).
  change (encode_blocks (m :: ms)) with (encode_block (message_data m) ++ encode_blocks ms).
  unfold encode_block. rewrite !length_app, length_be_store. simpl length. lia.
Qed.

(** [parse] on a header and a payload: it runs the loop on the whole packet. *)
Lemma parse_header p (session : list byte) (seq count : Z) (payload : list byte) (size : Z) :
  length session = 10%nat → 0 ≤ seq < 2 ^ 64 → 0 ≤ count < 2 ^ 16 →
  ∃ hdr, length hdr = 20%nat ∧
    session ++ be_store 8 seq ++ be_store 2 count ++ payload = hdr ++ payload ∧
    parse p (Some (hdr ++ payload)) size =
      (λ p', (p', (seq, count))) <$>
        parse_blocks (Z.to_nat count) (Build_ItchParser (m_builder p) session) (hdr ++ payload) 20 0.
Proof.
  intros Hs Hseq Hc. set (h := Build_DownstreamHeader session (bswap 8 seq) (bswap 2 count)).
  assert (Hh : session ++ be_store 8 seq ++ be_store 2 count ++ payload =
            c_enc DownstreamHeader_codec h ++ payload).
  { unfold h. cbn [c_enc DownstreamHeader_codec isoc pairc SequenceNumber MessageCount uint fst snd
      dh_session dh_sequence_number dh_message_count SessionName chars].
    by rewrite !le_store_bswap, <- !(assoc_L (++)). }
  assert (Hok : c_ok DownstreamHeader_codec h = true).
  { change (((length session =? 10)%nat && (c_ok (uint 8) (bswap 8 seq) &&
      c_ok (uint 2) (bswap 2 count))) = true). by rewrite Hs, !uint_ok_bswap. }
  exists (c_enc DownstreamHeader_codec h). split; [apply (enc_length h Hok)|]. split; [exact Hh|].
  pose proof (overlay_enc DownstreamHeader_codec h [] payload Hok) as Hover.
  change (length []) with 0%nat in Hover. rewrite app_nil_l in Hover.
  unfold parse, parsePayload. rewrite Hover. run_outcome.
  replace (be64toh (dh_sequence_number h)) with seq by (symmetry; by apply (bswap_swap 8)).
  replace (be16toh (dh_message_count h)) with count by (symmetry; by apply (bswap_swap 2)).
  change (toStringSession (dh_session h)) with session. by destruct (parse_blocks _ _ _ _ _).
Qed.

(** The loop, run for [k] more rounds than there are blocks. *)
Lemma parse_blocks_payload (ms : list itch_message) p (hdr post : list byte) (k : nat) :
  length hdr = 20%nat → Forall (λ m, message_ok m = true) ms → Z.of_nat (length ms) < 2 ^ 16 →
  parse_blocks (length ms + k) p (hdr ++ encode_blocks ms ++ post) 20 0 =
    p' ← fold_outcome on_message p ms;
    parse_blocks k p' (hdr ++ encode_blocks ms ++ post) 20 (Z.of_nat (length (encode_blocks ms))).
Proof.
  intros Hl Hms Hn. pose proof (encode_blocks_length ms Hms) as Hlen. rewrite <- Hl.
  apply (parse_blocks_encoded ms p hdr [] post k Hms). rewrite Nat.add_0_l. lia.
Qed.

(** Parsing an encoded packet handles its messages in order and returns its header. *)
Lemma parse_encoded p (session : list byte) (seq : Z) (ms : list itch_message) (post : list byte) (size : Z) :
  length session = 10%nat → 0 ≤ seq < 2 ^ 64 → Z.of_nat (length ms) < 2 ^ 16 →
  Forall (λ m, message_ok m = true) ms →
  parse p (Some (encode_packet session seq ms ++ post)) size =
    (λ p', (p', (seq, Z.of_nat (length ms)))) <$>
      fold_outcome on_message (Build_ItchParser (m_builder p) session) ms.
Proof.
  intros Hs Hseq Hn Hms. unfold encode_packet. rewrite <- !(assoc_L (++)).
  destruct (parse_header p session seq (Z.of_nat (length ms)) (encode_blocks ms ++ post) size)
    as (hdr & Hl & -> & ->); [done | done | lia |].
  rewrite Nat2Z.id, <- (Nat.add_0_r (length ms)) at 1. rewrite parse_blocks_payload by done.
  by destruct (fold_outcome _ _ _).
Qed.

(** With more messages announced than there are, the next block is read past the end. *)
Lemma parse_overcount p p' (session : list byte) (seq count : Z) (ms : list itch_message) (size : Z) :
  length session = 10%nat → 0 ≤ seq < 2 ^ 64 → Z.of_nat (length ms) < count < 2 ^ 16 →
  Forall (λ m, message_ok m = true) ms →
  fold_outcome on_message (Build_ItchParser (m_builder p) session) ms = Ret p' →
  parse p (Some (session ++ be_store 8 seq ++ be_store 2 count ++ encode_blocks ms)) size =
    Undef OutOfBoundsRead.
Proof.
  intros Hs Hseq Hc Hms Hf.
  destruct (parse_header p session seq count (encode_blocks ms) size)
    as (hdr & Hl & -> & ->); [done | done | lia |].
  replace (Z.to_nat count) with (length ms + S (Z.to_nat count - length ms - 1))%nat by lia.
  rewrite <- (app_nil_r (encode_blocks ms)). rewrite parse_blocks_payload by (done || lia).
  rewrite Hf. cbn [mbind outcome_bind parse_blocks]. rewrite overlay_undef; [done|].
  change (c_size MessageBlock_codec) with 2%nat. rewrite app_nil_r, length_app, Nat2Z.id. lia.
Qed.
End parse_encoded.

(** ** Clients of the builder interface *)

Section contract.
Context {B : Type} `{BuilderContract B}.

(** Every message is expected in the state its predecessors lead to. *)
Fixpoint expected_run (b : B) (ms : list itch_message) : Prop :=
  match ms with
  | [] => True
  | MsgEvent ev :: ms => expected b ev ∧ ∀ b', forward b ev = Ret b' → expected_run b' ms
  | MsgOther _ :: ms => expected_run b ms
  end.

Lemma fold_expected (ms : list itch_message) (b : B) (session : list byte) :
  builder_ok b → expected_run b ms →
  ∃ b', fold_outcome on_message (Build_ItchParser (Some b) session) ms =
      Ret (Build_ItchParser (Some b') session) ∧ builder_ok b'.
Proof.
  revert b. induction ms as [|[ev|d] ms IH]; intros b Hb He; simpl in *; [by eauto | | by apply IH].
  destruct He as [He Hr]. destruct (forward_ok b ev Hb He) as (b' & Hf & Hb').
  unfold with_builder. simpl. rewrite Hf. simpl. apply IH; [done | by apply Hr].
Qed.
End contract.

(** The number of messages of each kind. *)
Definition count_kind (kind : itch_event → bool) (ms : list itch_message) : Z :=
  foldr (λ m n, match m with MsgEvent ev => if kind ev then 1 else 0 | MsgOther _ => 0 end + n) 0 ms.
Definition is_add (ev : itch_event) : bool := match ev with EvAdd _ => true | _ => false end.
Definition is_execute (ev : itch_event) : bool := match ev with EvExecute _ => true | _ => false end.
Definition is_delete (ev : itch_event) : bool := match ev with EvDelete _ => true | _ => false end.

Lemma fold_mock (ms : list itch_message) (b : MockOrderbookBuilder) (session : list byte) :
  fold_outcome on_message (Build_ItchParser (Some b) session) ms =
    Ret (Build_ItchParser (Some (Build_MockOrderbookBuilder (add_calls b + count_kind is_add ms)
      (exec_calls b + count_kind is_execute ms) (del_calls b + count_kind is_delete ms))) session).
Proof.
  revert b. induction ms as [|m ms IH]; intros b.
  { unfold count_kind. simpl. rewrite !Z.add_0_r. by destruct b. }
  cbn [fold_outcome]. destruct m as [[m|m|m]|d]; cbn [on_message with_builder m_builder forward build_add
    build_execute build_delete MockOrderbookBuilder_builder mbind outcome_bind]; rewrite IH;
    cbn [count_kind foldr is_add is_execute is_delete add_calls exec_calls del_calls];
    match goal with |- Ret (Build_ItchParser (Some ?x) _) = Ret (Build_ItchParser (Some ?y) _) =>
      replace x with y; [done|] end; f_equal; unfold count_kind; cbn; lia.
Qed.

(** ** The loop with an unbounded offset *)

Section exact_offset.
Context {B : Type} `{Builder B}.

Fixpoint parse_blocks_exact (n : nat) (p : ItchParser B) (mem : list byte) (block : nat) :
    outcome (ItchParser B) :=
  match n with
  | O => Ret p
  | S n =>
      b ← overlay MessageBlock_codec block mem;
      p' ← handleBlock p mem (block + 2);
      parse_blocks_exact n p' mem (block + (Z.to_nat (be16toh (mb_length b)) + 2))
  end.

Lemma parse_blocks_no_wrap (n : nat) (p : ItchParser B) (mem : list byte) (payload : nat) (offset : Z) :
  0 ≤ offset → offset + 65537 * Z.of_nat n < 2 ^ 32 →
  parse_blocks n p mem payload offset = parse_blocks_exact n p mem (payload + Z.to_nat offset).
Proof.
  revert p offset. induction n as [|n IH]; intros p offset H0 Hb; [done|].
  cbn [parse_blocks parse_blocks_exact]. destruct (overlay _ _ _) as [b|?|?|?]; try done.
  run_outcome. destruct (handleBlock _ _ _) as [p'|?|?|?]; try done.
  run_outcome. pose proof (bswap_bound 2 (mb_length b)) as Hl.
  change (bytes_modulus 2) with 65536 in Hl. fold (be16toh (mb_length b)) in Hl.
  rewrite wrap_id by lia. rewrite IH by lia. f_equal. lia.
Qed.
End exact_offset.

(** ** Concrete packets *)

Definition sample_session : list byte := String.list_byte_of_string "SESSION001".

(** Three orders, then a seconds message that the parser ignores. *)
Definition sample_messages : list itch_message :=
  (MsgEvent <$> sample_feed) ++ [MsgOther ["T"; x00; x00; x00; x01]%byte].

Lemma sample_messages_ok : Forall (λ m, message_ok m = true) sample_messages.
Proof. repeat constructor. Qed.

Lemma expected_run_feed (evs : list itch_event) (rest : list itch_message) (s s' : OrderbookBuilder) :
  fold_outcome (λ s ev, if decide (feed_ok s ev) then apply_event s ev else Throw "feed") s evs = Ret s' →
  expected_run s' rest → expected_run s ((MsgEvent <$> evs) ++ rest).
Proof.
  revert s. induction evs as [|ev evs IH]; intros s Hf Hr; simpl in Hf; [by simplify_eq|].
  apply bind_ret_inv in Hf as (s1 & H1 & H2). case_decide; [|done]. simpl. split; [done|].
  intros b' Hb'. rewrite forward_concrete, H1 in Hb'. simplify_eq. by apply IH.
Qed.

Lemma sample_messages_expected : expected_run OrderbookBuilder_new sample_messages.
Proof. apply (expected_run_feed sample_feed _ _ sample_state); [vm_compute; reflexivity | done]. Qed.

(** ** Properties *)

(** C2. Round trip of a packet: whatever the builder, parsing the bytes of a well-formed
    packet forwards exactly its add, execute and delete messages, in order and with all
    members intact, ignores the others, records the session and returns the sequence
    number and message count of the header. *)
Theorem parse_roundtrip {B : Type} `{Builder B} (p : ItchParser B) (session : list byte) (seq : Z)
    (ms : list itch_message) (post : list byte) (size : Z) :
  length session = 10%nat → 0 ≤ seq < 2 ^ 64 → Z.of_nat (length ms) < 2 ^ 16 →
  Forall (λ m, message_ok m = true) ms →
  parse p (Some (encode_packet session seq ms ++ post)) size =
    (λ p', (p', (seq, Z.of_nat (length ms)))) <$>
      fold_outcome on_message (Build_ItchParser (m_builder p) session) ms.
Proof. apply parse_encoded. Qed.

Lemma parse_roundtrip_witness :
  parse (ItchParser_new OrderbookBuilder_new) (Some (encode_packet sample_session 1 sample_messages)) 144 =
  Ret (Build_ItchParser (Some sample_state) sample_session, (1, 4)).
Proof.
  rewrite <- (app_nil_r (encode_packet _ _ _)).
  rewrite (parse_roundtrip (ItchParser_new OrderbookBuilder_new) sample_session 1 sample_messages [] 144);
    [vm_compute; reflexivity | reflexivity | lia | simpl; lia | apply sample_messages_ok].
Defined.

(** A packet whose messages the builder expects is handled completely, for every
    builder that keeps its contract. *)
Theorem parse_safe {B : Type} `{BuilderContract B} (b : B) (session0 session : list byte) (seq : Z)
    (ms : list itch_message) (size : Z) :
  builder_ok b → expected_run b ms →
  length session = 10%nat → 0 ≤ seq < 2 ^ 64 → Z.of_nat (length ms) < 2 ^ 16 →
  Forall (λ m, message_ok m = true) ms →
  ∃ b', parse (Build_ItchParser (Some b) session0) (Some (encode_packet session seq ms)) size =
      Ret (Build_ItchParser (Some b') session, (seq, Z.of_nat (length ms))) ∧ builder_ok b'.
Proof.
  intros Hb He ? ? ? ?. rewrite <- (app_nil_r (encode_packet _ _ _)), parse_encoded by done. simpl.
  destruct (fold_expected ms b session Hb He) as (b' & -> & ?). by exists b'.
Qed.

Lemma parse_safe_witness :
  ∃ b', parse (ItchParser_new OrderbookBuilder_new) (Some (encode_packet sample_session 1 sample_messages)) 144 =
      Ret (Build_ItchParser (Some b') sample_session, (1, 4)) ∧ builder_ok b'.
Proof.
  apply (parse_safe OrderbookBuilder_new [] sample_session 1 sample_messages 144);
    [apply builder_new_inv | apply sample_messages_expected | reflexivity | lia | simpl; lia
    | apply sample_messages_ok].
Defined.

(** With the mock builder of the parser test, a packet increments every counter by the
    number of its messages of that kind. *)
Theorem parse_mock_counts (b : MockOrderbookBuilder) (session0 session : list byte) (seq : Z)
    (ms : list itch_message) (size : Z) :
  length session = 10%nat → 0 ≤ seq < 2 ^ 64 → Z.of_nat (length ms) < 2 ^ 16 →
  Forall (λ m, message_ok m = true) ms →
  parse (Build_ItchParser (Some b) session0) (Some (encode_packet session seq ms)) size =
    Ret (Build_ItchParser (Some (Build_MockOrderbookBuilder (add_calls b + count_kind is_add ms)
      (exec_calls b + count_kind is_execute ms) (del_calls b + count_kind is_delete ms))) session,
      (seq, Z.of_nat (length ms))).
Proof.
  intros. rewrite <- (app_nil_r (encode_packet _ _ _)), parse_encoded by done. simpl. by rewrite fold_mock.
Qed.

Lemma parse_mock_counts_witness :
  parse (ItchParser_new (Build_MockOrderbookBuilder 0 0 0))
    (Some (encode_packet sample_session 1 sample_messages)) 144 =
  Ret (Build_ItchParser (Some (Build_MockOrderbookBuilder 3 0 0)) sample_session, (1, 4)).
Proof.
  apply (parse_mock_counts (Build_MockOrderbookBuilder 0 0 0) [] sample_session 1 sample_messages 144);
    [reflexivity | lia | simpl; lia | apply sample_messages_ok].
Defined.

(** The [uint32_t] offset of [parsePayload] never wraps around, whatever the bytes of
    the payload: a 16-bit count of blocks of at most 65537 bytes stays below 2^32. *)
Theorem parsePayload_no_wrap {B : Type} `{Builder B} (p : ItchParser B) (mem : list byte) (payload : nat)
    (message_count sequence_number : Z) :
  0 ≤ message_count < 2 ^ 16 →
  parsePayload p mem payload message_count sequence_number =
    parse_blocks_exact (Z.to_nat message_count) p mem payload.
Proof.
  intros Hc. unfold parsePayload. rewrite parse_blocks_no_wrap by lia. by rewrite Nat.add_0_r.
Qed.

Lemma parsePayload_no_wrap_witness :
  parsePayload (ItchParser_new (Build_MockOrderbookBuilder 0 0 0)) (repeat x00 4) 0 2 0 =
  parse_blocks_exact 2 (ItchParser_new (Build_MockOrderbookBuilder 0 0 0)) (repeat x00 4) 0.
Proof.
  apply (parsePayload_no_wrap (ItchParser_new (Build_MockOrderbookBuilder 0 0 0)) (repeat x00 4) 0 2 0). lia.
Defined.

(** C36. The parser trusts the header: when it announces more messages than the memory
    holds and the builder accepts those that are there, [parse] reads out of bounds;
    the size it is given does not stop it. *)
Theorem parse_overcount_reads_out_of_bounds {B : Type} `{Builder B} (p p' : ItchParser B)
    (session : list byte) (seq count : Z) (ms : list itch_message) (size : Z) :
  length session = 10%nat → 0 ≤ seq < 2 ^ 64 → Z.of_nat (length ms) < count < 2 ^ 16 →
  Forall (λ m, message_ok m = true) ms →
  fold_outcome on_message (Build_ItchParser (m_builder p) session) ms = Ret p' →
  parse p (Some (session ++ be_store 8 seq ++ be_store 2 count ++ encode_blocks ms)) size =
    Undef OutOfBoundsRead.
Proof. apply parse_overcount. Qed.

Lemma parse_overcount_reads_out_of_bounds_witness :
  parse (ItchParser_new (Build_MockOrderbookBuilder 0 0 0))
    (Some (sample_session ++ be_store 8 1 ++ be_store 2 9 ++ encode_blocks sample_messages)) 144 =
  Undef OutOfBoundsRead.
Proof.
  apply (parse_overcount_reads_out_of_bounds (ItchParser_new (Build_MockOrderbookBuilder 0 0 0))
    (Build_ItchParser (Some (Build_MockOrderbookBuilder 3 0 0)) sample_session)
    sample_session 1 9 sample_messages 144);
    [reflexivity | lia | simpl; lia | apply sample_messages_ok | vm_compute; reflexivity].
Defined.
