(* ===== verification/ParserTest.v ===== *)
(** * The unit tests of the parser

    test/itch_parser_test.cpp, on the packet that tools/generate_dummy_moldudp64_pcap.py
    writes for it.  [make_add_order] and [make_moldudp64_packet] are the functions of that
    script; the Ethernet, IP and UDP headers in front of the packet are any 42 bytes, which
    the tests skip.  A test is the conjunction of its expectations; reading the capture
    file is libpcap's and left out, so the raw packet is an argument.

    The script packs with Python's [struct] what the parser overlays with a C++ struct:
    [generated_order_decodes] says that the two agree on every order in range. *)
From S2P Require Import Prelude Bytes Codec Types ItchMessages SessionMessages L2Orderbook OrderbookBuilder ItchParser.
Local Open Scope Z_scope.

(** ** The generator *)

(** [struct.pack] with format [>cI Q I c I Q I H B]. *)
Definition make_add_order (order_id orderbook_id : Z) (side : byte) (orderbook_pos quantity price : Z) : list byte :=
  ["A"%byte] ++ be_store 4 123456789 ++ be_store 8 order_id ++ be_store 4 orderbook_id ++ [side] ++
  be_store 4 orderbook_pos ++ be_store 8 quantity ++ be_store 4 price ++ be_store 2 0 ++ be_store 1 0.

(** [SESSION_ID.ljust(10, 0)]. *)
Definition SESSION_ID : list byte := String.list_byte_of_string "SESSION1".

Definition make_moldudp64_packet (sequence_number : Z) (messages : list (list byte)) : list byte :=
  let session := SESSION_ID ++ replicate (10 - length SESSION_ID) x00 in
  let msg_count := Z.of_nat (length messages) in
  let header := session ++ be_store 8 sequence_number ++ be_store 2 msg_count in
  header ++ concat ((λ msg, be_store 2 (Z.of_nat (length msg)) ++ msg) <$> messages).

(** The packet of the script's [main]. *)
Definition dummy_packet : list byte :=
  make_moldudp64_packet 1
    [make_add_order 1001 1 "B" 1 100 1000; make_add_order 1002 1 "S" 2 200 1010;
     make_add_order 1003 1 "B" 3 150 1020].

(** ** The tests *)

Definition payload_offset : nat := 14 + 20 + 8.

Record ExpectedOrder := Build_ExpectedOrder {
  eo_orderbook_id : Z;
  eo_order_id : Z;
  eo_side : byte;
  eo_qty : Z;
  eo_price : Z;
}.

Definition expected_orders : list ExpectedOrder :=
  [Build_ExpectedOrder 1 1001 "B" 100 1000; Build_ExpectedOrder 1 1002 "S" 200 1010;
   Build_ExpectedOrder 1 1003 "B" 150 1020].

(** The body of the loop over the expected orders. *)
Definition check_order (builder : OrderbookBuilder) (passed : bool) (eo : ExpectedOrder) : outcome bool :=
  let has := hasOrder builder (eo_orderbook_id eo) (eo_order_id eo) (eo_side eo) in
  order ← getOrder builder (eo_orderbook_id eo) (eo_order_id eo) (eo_side eo);
  Ret (passed && has && (io_left_qty order =? eo_qty eo) && (io_price order =? eo_price eo) &&
       Byte.eqb (io_side order) (eo_side eo) && (io_orderbook_id order =? eo_orderbook_id eo)).

(** [ASSERT_GE] ends a test that fails it. *)
Definition ParseAddOrders (raw_packet : list byte) : outcome bool :=
  if (payload_offset <=? length raw_packet)%nat then
    let payload := drop payload_offset raw_packet in
    '(parser, (seq, msg_count)) ← parse (ItchParser_new OrderbookBuilder_new) (Some payload)
       (Z.of_nat (length raw_packet - payload_offset));
    match m_builder parser with
    | Some builder => fold_outcome (check_order builder) ((seq =? 1) && (msg_count =? 3)) expected_orders
    | None => Undef NullPointer
    end
  else Ret false.

Definition ForwardMessagesToBuilder (raw_packet : list byte) : outcome bool :=
  if (payload_offset <=? length raw_packet)%nat then
    let payload := drop payload_offset raw_packet in
    '(parser, _) ← parse (ItchParser_new (Build_MockOrderbookBuilder 0 0 0)) (Some payload)
       (Z.of_nat (length raw_packet - payload_offset));
    match m_builder parser with
    | Some mock => Ret ((add_calls mock =? 3) && (exec_calls mock =? 0) && (del_calls mock =? 0))
    | None => Undef NullPointer
    end
  else Ret false.

(** ** Lemmas *)

Lemma skip_headers (header payload : list byte) :
  length header = payload_offset →
  (payload_offset <=? length (header ++ payload))%nat = true ∧ drop payload_offset (header ++ payload) = payload.
Proof.
  intros <-. rewrite length_app. split; [apply Nat.leb_le; lia|]. apply drop_app_length.
Qed.

(** The struct the C++ side sees: every member in network byte order. *)
Definition network_order (order_id orderbook_id : Z) (side : byte) (orderbook_pos quantity price : Z) : AddOrder :=
  Build_AddOrder "A" (bswap 4 123456789) (bswap 8 order_id) (bswap 4 orderbook_id) side (bswap 4 orderbook_pos)
    (bswap 8 quantity) (to_signed 32 (bswap 4 price)) (bswap 2 0) x00.

Lemma network_order_enc (order_id orderbook_id orderbook_pos quantity price : Z) (side : byte) :
  c_enc AddOrder_codec (network_order order_id orderbook_id side orderbook_pos quantity price) =
    make_add_order order_id orderbook_id side orderbook_pos quantity price.
Proof.
  change (["A"%byte] ++ le_store 4 (bswap 4 123456789) ++ le_store 8 (bswap 8 order_id) ++
    le_store 4 (bswap 4 orderbook_id) ++ [side] ++ le_store 4 (bswap 4 orderbook_pos) ++
    le_store 8 (bswap 8 quantity) ++ le_store 4 (to_signed 32 (bswap 4 price)) ++ le_store 2 (bswap 2 0) ++ [x00] =
    make_add_order order_id orderbook_id side orderbook_pos quantity price).
  by rewrite (le_store_to_signed 4), !le_store_bswap by lia.
Qed.

Lemma network_order_ok (order_id orderbook_id orderbook_pos quantity price : Z) (side : byte) :
  c_ok AddOrder_codec (network_order order_id orderbook_id side orderbook_pos quantity price) = true.
Proof.
  change ((true && (c_ok (uint 4) (bswap 4 123456789) && (c_ok (uint 8) (bswap 8 order_id) &&
    (c_ok (uint 4) (bswap 4 orderbook_id) && (true && (c_ok (uint 4) (bswap 4 orderbook_pos) &&
    (c_ok (uint 8) (bswap 8 quantity) && (c_ok (sint 4) (to_signed (8 * Z.of_nat 4) (bswap 4 price)) &&
    (c_ok (uint 2) (bswap 2 0) && true))))))))) = true).
  by rewrite !uint_ok_bswap, sint_ok.
Qed.

(** The bytes of a generated order are those of the packed struct with its members in
    network byte order. *)
Theorem generated_order_decodes (order_id orderbook_id orderbook_pos quantity price : Z) (side : byte) :
  0 ≤ order_id < 2 ^ 64 → 0 ≤ orderbook_id < 2 ^ 32 → 0 ≤ orderbook_pos < 2 ^ 32 → 0 ≤ quantity < 2 ^ 64 →
  0 ≤ price < 2 ^ 31 →
  ∃ m, c_dec AddOrder_codec (make_add_order order_id orderbook_id side orderbook_pos quantity price) = Some m ∧
    ao_type m = "A"%byte ∧ ao_side m = side ∧ be64toh (ao_order_id m) = order_id ∧
    be32toh (ao_orderbook_id m) = orderbook_id ∧ be64toh (ao_quantity m) = quantity ∧
    to_signed 32 (be32toh (ao_price m)) = price.
Proof.
  intros H1 H2 H3 H4 H5. exists (network_order order_id orderbook_id side orderbook_pos quantity price).
  split; [rewrite <- network_order_enc; apply dec_enc, network_order_ok|]. cbn [network_order ao_type ao_side
    ao_order_id ao_orderbook_id ao_quantity ao_price]. split_and!; try done; try (by apply bswap_swap).
  change (to_signed 32 (be32toh (to_signed 32 (be32toh price))) = price).
  rewrite be32_signed, Z.mod_small by lia. apply to_signed_id; lia.
Qed.

(** Whatever the lower layers put in front, both tests pass on the packet of the script. *)
Theorem tests_pass (header : list byte) :
  length header = payload_offset →
  ParseAddOrders (header ++ dummy_packet) = Ret true ∧
  ForwardMessagesToBuilder (header ++ dummy_packet) = Ret true.
Proof.
  intros Hl. destruct (skip_headers header dummy_packet Hl) as [Hle Hd].
  unfold ParseAddOrders, ForwardMessagesToBuilder. rewrite Hle, Hd, length_app, Hl.
  replace (payload_offset + length dummy_packet - payload_offset)%nat with (length dummy_packet) by lia.
  split; vm_compute; reflexivity.
Qed.
