(* ===== verification/MarketDataClient.v ===== *)
(** * The market data client: sequencing and recovery

    Models lib/client/market_data_client.hpp and .cpp.  The client parses every packet
    into its order books, then tracks sequence numbers: a client that joins late asks the
    rewinder for everything it missed and waits, in state Rewinding, until the numbers in
    [m_missingSequenceNumbers] (largest first, next one at the back) have all arrived.

    [sent] collects the datagrams given to [UdpMulticastSocket::write].  [track] is the
    part of [parse] after the parser has returned.  Calling [back()] or [front()] on an
    empty vector is undefined behaviour, growing one beyond its maximal size throws.
    [MarketDataPartitionConfig m_config] is in MarketDataCalls.v. *)
From S2P Require Import Prelude Bytes Codec Types.
From S2P Require Import ItchMessages SessionMessages L2Orderbook OrderbookBuilder ItchParser.
Local Open Scope Z_scope.

(** ** State *)

Inductive State :=
  | Initial
  | Joined
  | Snapshotting
  | Rewinding
  | Continuous.

#[export] Instance State_eq_dec : EqDecision State.
Proof. solve_decision. Defined.

Inductive SequenceGapParseResult := NoGap | GapDetected.

#[export] Instance SequenceGapParseResult_eq_dec : EqDecision SequenceGapParseResult.
Proof. solve_decision. Defined.

Record RewindRequest := Build_RewindRequest {
  sequence_number : Z;
  message_count : Z;
}.

Record MarketDataClient := Build_MarketDataClient {
  m_itchParser : ItchParser OrderbookBuilder;
  m_missingSequenceNumbers : list Z;
  m_lastRequestedSequenceNumber : Z;
  m_rewindNeededTillThisSequenceNumberExclusive : Z;
  m_sessionName : list byte;
  m_sessionNameSet : bool;
  m_nextExpectedSeqNo : Z;
  m_state : State;
  sent : list (list byte);
}.

Definition MarketDataClient_new : MarketDataClient := {|
  m_itchParser := ItchParser_new OrderbookBuilder_new;
  m_missingSequenceNumbers := [];
  m_lastRequestedSequenceNumber := 0;
  m_rewindNeededTillThisSequenceNumberExclusive := 0;
  m_sessionName := repeat x00 10;
  m_sessionNameSet := false;
  m_nextExpectedSeqNo := 1;
  m_state := Initial;
  sent := [];
|}.

(** Assignments to one member. *)
Definition set_itchParser (c : MarketDataClient) (p : ItchParser OrderbookBuilder) : MarketDataClient :=
  let 'Build_MarketDataClient _ ms l r n ns e st o := c in Build_MarketDataClient p ms l r n ns e st o.
Definition set_missing (c : MarketDataClient) (ms : list Z) : MarketDataClient :=
  let 'Build_MarketDataClient p _ l r n ns e st o := c in Build_MarketDataClient p ms l r n ns e st o.
Definition set_lastRequested (c : MarketDataClient) (l : Z) : MarketDataClient :=
  let 'Build_MarketDataClient p ms _ r n ns e st o := c in Build_MarketDataClient p ms l r n ns e st o.
Definition set_rewindTill (c : MarketDataClient) (r : Z) : MarketDataClient :=
  let 'Build_MarketDataClient p ms l _ n ns e st o := c in Build_MarketDataClient p ms l r n ns e st o.
Definition set_nextExpected (c : MarketDataClient) (e : Z) : MarketDataClient :=
  let 'Build_MarketDataClient p ms l r n ns _ st o := c in Build_MarketDataClient p ms l r n ns e st o.

(** ** Operations *)

(** The loop of [populateVector]: [i] and [bound] are [size_t], [fuel] bounds the
    iterations by the size of the vector. *)
Fixpoint populate_loop (fuel : nat) (A bound i counter : Z) (res : list Z) : list Z :=
  match fuel with
  | O => res
  | S fuel =>
      if i <? bound
      then populate_loop fuel A bound (wrap 64 (i + 1)) (counter + 1)
             (<[Z.to_nat (i - A) := wrap 64 (A + counter)]> res)
      else res
  end.

Definition populateVector (A B : Z) : list Z :=
  populate_loop (Z.to_nat B) A (wrap 64 (A + B)) A 0 (replicate (Z.to_nat B) 0).

Definition calculateNextSequenceNumber (c : MarketDataClient) (received_sequence_number message_count : Z) :
    MarketDataClient * SequenceGapParseResult :=
  let gap :=
    if negb (m_nextExpectedSeqNo c =? 0) && negb (received_sequence_number =? m_nextExpectedSeqNo c)
    then GapDetected else NoGap in
  (set_nextExpected c (wrap 64 (received_sequence_number + message_count)), gap).

Definition setState (c : MarketDataClient) (state : State) : MarketDataClient :=
  let 'Build_MarketDataClient p ms l r n ns e st o := c in
  if decide (st = state) then c else Build_MarketDataClient p ms l r n ns e state o.

Definition setSessionName (c : MarketDataClient) (session_name : list byte) : MarketDataClient :=
  let 'Build_MarketDataClient p ms l r n ns e st o := c in
  if ns then c else Build_MarketDataClient p ms l r session_name true e st o.

(** [UdpMulticastSocket::write]: a datagram is given to [sendto]. *)
Definition write (c : MarketDataClient) (buffer : list byte) : MarketDataClient :=
  let 'Build_MarketDataClient p ms l r n ns e st o := c in
  Build_MarketDataClient p ms l r n ns e st (o ++ [buffer]).

Definition rewind (c : MarketDataClient) (rewind_request : RewindRequest) : MarketDataClient :=
  let c := setState c Rewinding in
  let header := Build_DownstreamHeader (m_sessionName c)
    (htobe64 (sequence_number rewind_request)) (htobe16 (message_count rewind_request)) in
  write c (c_enc DownstreamHeader_codec header).

Definition requestMissingPackets (c : MarketDataClient)
    (expected_sequence_number received_sequence_number : Z) : MarketDataClient :=
  if expected_sequence_number <? received_sequence_number
  then rewind c (Build_RewindRequest expected_sequence_number
                   (wrap 16 (received_sequence_number - expected_sequence_number)))
  else c.

(** [back()] and [front()] of a vector. *)
Definition back (v : list Z) : outcome Z :=
  match last v with Some x => Ret x | None => Undef OutOfBoundsRead end.
Definition front (v : list Z) : outcome Z :=
  match head v with Some x => Ret x | None => Undef OutOfBoundsRead end.
Definition pop_back (v : list Z) : list Z := take (length v - 1) v.

(** One received number while rewinding. *)
Definition received_one (c : MarketDataClient) (receivedSequenceNumber : Z) : outcome MarketDataClient :=
  b ← back (m_missingSequenceNumbers c);
  if b =? receivedSequenceNumber
  then Ret (set_missing c (pop_back (m_missingSequenceNumbers c)))
  else Ret c.

(** The numbers [n], ..., 1. *)
Fixpoint count_down (n : nat) : list Z :=
  match n with
  | O => []
  | S m => Z.of_nat n :: count_down m
  end.

(** [max_size()] of a vector of [uint64_t]: its bytes have to fit a [ptrdiff_t]. *)
Definition max_size : Z := 2 ^ 60 - 1.

(** [for (uint64_t i = n; i > 0; --i) m_missingSequenceNumbers.push_back(i)]: growing a
    vector beyond [max_size()] throws; less memory than that is not modelled. *)
Definition push_back_down (v : list Z) (n : Z) : outcome (list Z) :=
  if max_size <? Z.of_nat (length v) + n then Throw "std::length_error"
  else Ret (v ++ count_down (Z.to_nat n)).

(** The branch of [parse] for state Rewinding. *)
Definition track_rewinding (c : MarketDataClient) (sequence_number message_count : Z) :
    outcome MarketDataClient :=
  c ← fold_outcome received_one c (populateVector sequence_number message_count);
  match m_missingSequenceNumbers c with
  | [] => Ret (setState c Continuous)
  | _ :: _ =>
      b ← back (m_missingSequenceNumbers c);
      if negb (m_lastRequestedSequenceNumber c =? b) then
        let c := set_lastRequested c b in
        f ← front (m_missingSequenceNumbers c);
        Ret (requestMissingPackets c b (wrap 64 (f + 1)))
      else Ret c
  end.

(** The gap check at the end of [parse]. *)
Definition track_gap (c : MarketDataClient) (sequence_number message_count : Z) : MarketDataClient :=
  if m_rewindNeededTillThisSequenceNumberExclusive c <? sequence_number then
    let '(c, res) := calculateNextSequenceNumber c sequence_number message_count in
    match res with
    | GapDetected => requestMissingPackets c (m_nextExpectedSeqNo c) sequence_number
    | NoGap => c
    end
  else c.

Definition track (c : MarketDataClient) (sequence_number message_count : Z) : outcome MarketDataClient :=
  match m_state c with
  | Rewinding =>
      c ← track_rewinding c sequence_number message_count;
      Ret (track_gap c sequence_number message_count)
  | st =>
      if bool_decide (st = Initial) && negb (sequence_number =? 1) && (m_nextExpectedSeqNo c =? 1) then
        missing ← push_back_down (m_missingSequenceNumbers c) (wrap 64 (sequence_number - 1));
        let c := set_missing c missing in
        let c := set_lastRequested c 1 in
        let c := set_rewindTill c sequence_number in
        Ret (requestMissingPackets c 1 sequence_number)
      else Ret (track_gap c sequence_number message_count)
  end.

Definition client_parse (c : MarketDataClient) (buffer : list byte) (size : Z) : outcome MarketDataClient :=
  '(p, (sequence_number, message_count)) ← parse (m_itchParser c) (Some buffer) size;
  track (set_itchParser c p) sequence_number message_count.

(** [processRewoundPackets]: it parses from the header itself, not from its data. *)
Definition processRewoundPackets (c : MarketDataClient) (header : list byte) : outcome MarketDataClient :=
  h ← overlay DownstreamHeader_codec 0 header;
  p ← parsePayload (m_itchParser c) header 0 (be16toh (dh_message_count h)) (be64toh (dh_sequence_number h));
  Ret (set_itchParser c p).

(** ** The loops *)

Lemma populate_loop_seqZ (A : Z) (fuel : nat) (k : Z) :
  0 ≤ A → 0 ≤ k → A + k + Z.of_nat fuel < 2 ^ 64 →
  populate_loop fuel A (A + k + Z.of_nat fuel) (A + k) k (seqZ A k ++ replicate fuel 0) =
    seqZ A (k + Z.of_nat fuel).
Proof.
  intros HA. revert k. induction fuel as [|fuel IH]; intros k Hk Hb.
  { simpl. by rewrite app_nil_r, Z.add_0_r. }
  cbn [populate_loop replicate]. destruct (Z.ltb_spec (A + k) (A + k + Z.of_nat (S fuel))); [|lia].
  replace (Z.to_nat (A + k - A)) with (length (seqZ A k) + 0)%nat by (rewrite length_seqZ; lia).
  rewrite insert_app_r. cbn [list_insert insert]. rewrite !wrap_id by lia.
  replace (seqZ A k ++ (A + k) :: replicate fuel 0) with (seqZ A (k + 1) ++ replicate fuel 0).
  2: { rewrite (seqZ_app A k 1), <- (assoc_L (++)) by lia. done. }
  replace (A + k + Z.of_nat (S fuel)) with (A + (k + 1) + Z.of_nat fuel) by lia.
  replace (A + k + 1) with (A + (k + 1)) by lia. rewrite IH by lia. f_equal. lia.
Qed.

(** Without wrap-around, [populateVector A B] lists [A], ..., [A + B - 1]. *)
Lemma populateVector_seqZ (A B : Z) : 0 ≤ A → 0 ≤ B → A + B < 2 ^ 64 → populateVector A B = seqZ A B.
Proof.
  intros HA HB Hb. unfold populateVector. rewrite wrap_id by lia.
  pose proof (populate_loop_seqZ A (Z.to_nat B) 0 HA ltac:(lia) ltac:(lia)) as H.
  rewrite Z.add_0_r, Z2Nat.id, Z.add_0_l in H by lia. done.
Qed.

Lemma count_down_seqZ (n : nat) : count_down n = rev (seqZ 1 (Z.of_nat n)).
Proof.
  induction n as [|n IH]; [done|]. cbn [count_down]. rewrite Nat2Z.inj_succ, <- Z.add_1_r.
  rewrite (seqZ_app 1 (Z.of_nat n) 1) by lia. rewrite rev_app_distr, <- IH. simpl. f_equal. lia.
Qed.

Lemma back_snoc (v : list Z) (x : Z) : back (v ++ [x]) = Ret x.
Proof. unfold back. by rewrite last_snoc. Qed.

Lemma pop_back_snoc (v : list Z) (x : Z) : pop_back (v ++ [x]) = v.
Proof.
  unfold pop_back. rewrite length_app. simpl. rewrite Nat.add_sub, take_app_le by lia. apply firstn_all.
Qed.

Lemma front_rev_seqZ (a n : Z) : 0 < n → front (rev (seqZ a n)) = Ret (a + n - 1).
Proof.
  intros Hn. replace n with (n - 1 + 1) at 1 by lia. rewrite seqZ_app, rev_app_distr by lia.
  rewrite (seqZ_cons _ 1), (seqZ_nil _ (Z.pred 1)) by lia. unfold front. simpl. f_equal. lia.
Qed.

(** Receiving the missing numbers in the order in which they are expected. *)
Lemma received_in_order (l keep : list Z) (c : MarketDataClient) :
  m_missingSequenceNumbers c = keep ++ rev l →
  fold_outcome received_one c l = Ret (set_missing c keep).
Proof.
  revert c. induction l as [|x l IH]; intros c Hm.
  { simpl in *. rewrite app_nil_r in Hm. destruct c; simpl in *. by subst. }
  simpl in Hm. rewrite (assoc_L (++)) in Hm. cbn [fold_outcome].
  assert (Hone : received_one c x = Ret (set_missing c (keep ++ rev l))).
  { unfold received_one. rewrite Hm, back_snoc. run_outcome.
    by rewrite Z.eqb_refl, pop_back_snoc. }
  rewrite Hone. run_outcome. rewrite IH by (by destruct c). by destruct c.
Qed.

(** A number that is not the next expected one leaves the vector alone. *)
Lemma received_other (c : MarketDataClient) (b x : Z) :
  back (m_missingSequenceNumbers c) = Ret b → b ≠ x → received_one c x = Ret c.
Proof. intros Hb Hne. unfold received_one. rewrite Hb. simpl. by rewrite (proj2 (Z.eqb_neq _ _) Hne). Qed.

(** ** Recovery *)

(** The datagram that asks for [count] messages from number [from]. *)
Definition request_datagram (name : list byte) (from count : Z) : list byte :=
  c_enc DownstreamHeader_codec (Build_DownstreamHeader name (htobe64 from) (htobe16 (wrap 16 count))).

(** The client waits for the numbers [k], ..., [s - 1] and has asked for them. *)
Record recovering (c : MarketDataClient) (s k : Z) : Prop := {
  rec_state : m_state c = Rewinding;
  rec_missing : m_missingSequenceNumbers c = rev (seqZ k (s - k));
  rec_last : m_lastRequestedSequenceNumber c = k;
  rec_till : m_rewindNeededTillThisSequenceNumberExclusive c = s;
}.

(** The members that recovery does not touch. *)
Definition same_books (c c' : MarketDataClient) : Prop :=
  m_itchParser c' = m_itchParser c ∧ m_sessionName c' = m_sessionName c ∧
  m_nextExpectedSeqNo c' = m_nextExpectedSeqNo c.

Lemma requestMissingPackets_sends (c : MarketDataClient) (e r : Z) :
  e < r →
  let c' := requestMissingPackets c e r in
  m_state c' = Rewinding ∧ sent c' = sent c ++ [request_datagram (m_sessionName c) e (r - e)] ∧
  m_missingSequenceNumbers c' = m_missingSequenceNumbers c ∧
  m_lastRequestedSequenceNumber c' = m_lastRequestedSequenceNumber c ∧
  m_rewindNeededTillThisSequenceNumberExclusive c' = m_rewindNeededTillThisSequenceNumberExclusive c ∧
  same_books c c'.
Proof.
  intros Hlt. unfold requestMissingPackets, rewind. rewrite (proj2 (Z.ltb_lt _ _) Hlt).
  destruct c as [p ms l r' n ns e' st o]. unfold setState. simpl. by case_decide; subst.
Qed.

Lemma push_back_down_ok (v : list Z) (n : Z) :
  Z.of_nat (length v) + n ≤ max_size → push_back_down v n = Ret (v ++ count_down (Z.to_nat n)).
Proof. intros H. unfold push_back_down. by rewrite (proj2 (Z.ltb_ge _ _)). Qed.

(** The first packet of a late joiner: everything before it is requested. *)
Lemma track_initial_sync (c : MarketDataClient) (s n : Z) :
  m_state c = Initial → m_nextExpectedSeqNo c = 1 → m_missingSequenceNumbers c = [] → 1 < s ≤ 2 ^ 60 →
  ∃ c', track c s n = Ret c' ∧ recovering c' s 1 ∧ same_books c c' ∧
    sent c' = sent c ++ [request_datagram (m_sessionName c) 1 (s - 1)].
Proof.
  intros Hst Hne Hms Hs. unfold track. rewrite Hst, Hne, bool_decide_true by done.
  destruct (Z.eqb_spec s 1); [lia|]. rewrite wrap_id by lia. cbn [negb andb].
  rewrite push_back_down_ok by (rewrite Hms; unfold max_size; simpl; lia). run_outcome. rewrite Hms, app_nil_l.
  eexists. split; [done|].
  match goal with |- context [requestMissingPackets ?x 1 s] =>
    destruct (requestMissingPackets_sends x 1 s ltac:(lia)) as (H1 & H2 & H3 & H4 & H5 & H6) end.
  destruct c. simpl in *. subst. split; [split|]; try done.
  - by rewrite H3, count_down_seqZ, Z2Nat.id by lia.

Qed.

(** A replayed packet of [n] messages starting with the next missing number. *)
Lemma track_replay (c : MarketDataClient) (s k n : Z) :
  recovering c s k → 0 ≤ k → 0 < n → k + n ≤ s → s < 2 ^ 64 →
  ∃ c', track c k n = Ret c' ∧ same_books c c' ∧
    if k + n =? s
    then m_state c' = Continuous ∧ m_missingSequenceNumbers c' = [] ∧ sent c' = sent c
    else recovering c' s (k + n) ∧
      sent c' = sent c ++ [request_datagram (m_sessionName c) (k + n) (s - (k + n))].
Proof.
  intros [Hst Hms Hl Ht] Hk Hn Hle Hs. unfold track. rewrite Hst. unfold track_rewinding.
  rewrite populateVector_seqZ by lia.
  replace (s - k) with (n + (s - (k + n))) in Hms by lia. rewrite seqZ_app, rev_app_distr in Hms by lia.
  rewrite (received_in_order _ _ _ Hms). run_outcome.
  assert (Hgap : ∀ c', m_rewindNeededTillThisSequenceNumberExclusive c' = s → track_gap c' k n = c').
  { intros c' Hc'. unfold track_gap. rewrite Hc'. by destruct (Z.ltb_spec s k); [lia|]. }
  destruct (Z.eqb_spec (k + n) s) as [<-|Hne].
  - rewrite Z.sub_diag. destruct c as [p ms l r nm ns e st o]. simpl in *. subst.
    eexists. split; [reflexivity|]. rewrite Hgap by done. done.
  - set (rest := seqZ (k + n) (s - (k + n))).
    assert (Hrest : rest = (k + n) :: seqZ (k + n + 1) (s - (k + n) - 1)).
    { unfold rest. rewrite seqZ_cons by lia. f_equal; f_equal; lia. }
    assert (Hfront : front (rev rest) = Ret (s - 1)).
    { unfold rest. rewrite front_rev_seqZ by lia. f_equal. lia. }
    assert (Hback : back (rev rest) = Ret (k + n)) by (rewrite Hrest; apply back_snoc).
    destruct (rev rest) as [|x xs] eqn:Hrev; [done|].
    replace (m_missingSequenceNumbers (set_missing c (x :: xs))) with (x :: xs) by (by destruct c).
    rewrite Hback. run_outcome.
    replace (m_lastRequestedSequenceNumber (set_missing c (x :: xs))) with k by (by destruct c).
    destruct (Z.eqb_spec k (k + n)); [lia|]. cbn [negb].
    replace (m_missingSequenceNumbers (set_lastRequested (set_missing c (x :: xs)) (k + n)))
      with (x :: xs) by (by destruct c).
    rewrite Hfront. run_outcome. replace (wrap 64 (s - 1 + 1)) with s by (rewrite wrap_id; lia).
    destruct (requestMissingPackets_sends (set_lastRequested (set_missing c (x :: xs)) (k + n)) (k + n) s)
      as (H1 & H2 & H3 & H4 & H5 & H6); [lia|].
    eexists. split; [reflexivity|]. rewrite Hgap by (rewrite H5; by destruct c).
    destruct c as [p ms l r nm ns e st o]. simpl in *. subst.
    split; [done|]. split; [|done]. split; try done. by rewrite H3, <- Hrev.
Qed.

(** ** Streams of packets *)

Definition run_messages {B : Type} `{Builder B} (b : B) (ms : list itch_message) : outcome B :=
  fold_outcome (λ b m, match m with MsgEvent ev => forward b ev | MsgOther _ => Ret b end) b ms.

Lemma on_messages_run {B : Type} `{Builder B} (ms : list itch_message) (b : B) (session : list byte) :
  fold_outcome on_message (Build_ItchParser (Some b) session) ms =
    (λ b', Build_ItchParser (Some b') session) <$> run_messages b ms.
Proof.
  revert b. induction ms as [|[ev|d] ms IH]; intros b; [done | | apply IH].
  cbn [fold_outcome on_message run_messages with_builder m_builder m_session].
  unfold run_messages. cbn [fold_outcome]. destruct (forward b ev); [apply IH | done..].
Qed.

(** A datagram is received. *)
Definition deliver (c : MarketDataClient) (datagram : list byte) : outcome MarketDataClient :=
  client_parse c datagram (Z.of_nat (length datagram)).

Definition packet_ok (ms : list itch_message) : Prop :=
  Forall (λ m, message_ok m = true) ms ∧ Z.of_nat (length ms) < 2 ^ 16.

(** Packets of consecutive messages from number [k] on. *)
Fixpoint stream (session : list byte) (k : Z) (ps : list (list itch_message)) : list (list byte) :=
  match ps with
  | [] => []
  | ms :: ps => encode_packet session k ms :: stream session (k + Z.of_nat (length ms)) ps
  end.

Lemma deliver_encoded (c : MarketDataClient) (session : list byte) (k : Z) (ms : list itch_message)
    (b b' : OrderbookBuilder) :
  m_builder (m_itchParser c) = Some b → run_messages b ms = Ret b' →
  length session = 10%nat → 0 ≤ k < 2 ^ 64 → packet_ok ms →
  deliver c (encode_packet session k ms) =
    track (set_itchParser c (Build_ItchParser (Some b') session)) k (Z.of_nat (length ms)).
Proof.
  intros Hb Hr Hs Hk [Hms Hn]. unfold deliver, client_parse.
  pose proof (parse_encoded (m_itchParser c) session k ms [] (Z.of_nat (length (encode_packet session k ms)))
    Hs Hk Hn Hms) as Hp.
  rewrite app_nil_r in Hp. rewrite Hp, Hb, on_messages_run, Hr. done.
Qed.

Lemma set_itchParser_recovering (c : MarketDataClient) (p : ItchParser OrderbookBuilder) (s k : Z) :
  recovering c s k → recovering (set_itchParser c p) s k.
Proof. intros [? ? ? ?]. by destruct c; split. Qed.

(** The requests a recovering client sends while the packets [ps] are replayed: one after
    each packet that leaves something missing. *)
Fixpoint rerequests (name : list byte) (s k : Z) (ps : list (list itch_message)) : list (list byte) :=
  match ps with
  | [] => []
  | ms :: ps =>
      let k := k + Z.of_nat (length ms) in
      match ps with
      | [] => []
      | _ :: _ => request_datagram name k (s - k) :: rerequests name s k ps
      end
  end.

Section streams.
Context (session : list byte) (Hsession : length session = 10%nat).
Implicit Types (c : MarketDataClient) (ps : list (list itch_message)) (b : OrderbookBuilder).

(** Replaying exactly what is missing, in order and in packets of any size, completes
    the recovery. *)
Lemma replay_completes ps c (s k : Z) b b' :
  recovering c s k → 0 ≤ k → s < 2 ^ 64 →
  m_builder (m_itchParser c) = Some b → run_messages b (concat ps) = Ret b' →
  Forall (λ ms, packet_ok ms ∧ ms ≠ []) ps → ps ≠ [] → k + Z.of_nat (length (concat ps)) = s →
  ∃ c', fold_outcome deliver c (stream session k ps) = Ret c' ∧
    m_state c' = Continuous ∧ m_missingSequenceNumbers c' = [] ∧
    m_builder (m_itchParser c') = Some b' ∧
    sent c' = sent c ++ rerequests (m_sessionName c) s k ps.
Proof.
  intros Hrec Hk0 Hs Hb Hr Hps. revert c k b Hrec Hk0 Hb Hr.
  induction Hps as [|ms ps [Hok Hne] Hps IH]; intros c k b Hrec Hk0 Hb Hr Hne0 Hk; [done|].
  simpl in Hr, Hk. unfold run_messages in Hr. rewrite fold_outcome_app in Hr.
  apply bind_ret_inv in Hr as (b1 & Hr1 & Hr2). rewrite length_app in Hk.
  assert (Hl : 0 < Z.of_nat (length ms)) by (destruct ms; [done | simpl; lia]).
  set (c1 := set_itchParser c (Build_ItchParser (Some b1) session)).
  destruct (track_replay c1 s k (Z.of_nat (length ms))) as (c2 & Ht & (Hp & Hnm & _) & Hc2);
    [by apply set_itchParser_recovering | lia..|].
  cbn [stream fold_outcome]. rewrite (deliver_encoded c session k ms b b1 Hb Hr1 Hsession) by (done || lia).
  fold c1. rewrite Ht. run_outcome.
  assert (Hp1 : m_itchParser c1 = Build_ItchParser (Some b1) session) by (by destruct c).
  assert (Hs1 : sent c1 = sent c ∧ m_sessionName c1 = m_sessionName c) by (by destruct c).
  destruct Hs1 as [Hs1 Hn1].
  destruct ps as [|ms' ps].
  - simpl in Hk, Hr2. rewrite (proj2 (Z.eqb_eq _ _)) in Hc2 by lia. destruct Hc2 as (? & ? & Hsent).
    exists c2. simplify_eq. rewrite Hp, Hp1, Hsent, Hs1. simpl. by rewrite app_nil_r.
  - pose proof Hps as Hps'. apply Forall_cons in Hps' as [[_ Hne'] _].
    assert (0 < length (concat (ms' :: ps)))%nat by (destruct ms'; [done | simpl; lia]).
    rewrite (proj2 (Z.eqb_neq _ _)) in Hc2 by lia. destruct Hc2 as [Hrec2 Hsent].
    destruct (IH c2 (k + Z.of_nat (length ms)) b1 Hrec2) as (c' & Hf & ? & ? & ? & Hsent');
      [lia | by rewrite Hp, Hp1 | exact Hr2 | done | lia |].
    exists c'. rewrite Hf. split_and!; try done.
    rewrite Hsent', Hsent, Hnm, Hn1, Hs1, <- (assoc_L (++)). done.
Qed.
End streams.

(** ** Outside recovery *)

(** The gap check never sends anything: [m_nextExpectedSeqNo] has already moved past the
    received packet when it is passed as the expected number. *)
Lemma track_gap_silent (c : MarketDataClient) (seq n : Z) :
  0 ≤ seq → 0 ≤ n → seq + n < 2 ^ 64 →
  track_gap c seq n =
    if m_rewindNeededTillThisSequenceNumberExclusive c <? seq then set_nextExpected c (seq + n) else c.
Proof.
  intros Hs Hn Hb. unfold track_gap. destruct (_ <? seq); [|done].
  unfold calculateNextSequenceNumber. rewrite wrap_id by lia.
  destruct (_ && _); [|done]. unfold requestMissingPackets.
  replace (m_nextExpectedSeqNo (set_nextExpected c (seq + n))) with (seq + n) by (by destruct c).
  by destruct (Z.ltb_spec (seq + n) seq); [lia|].
Qed.

Lemma track_silent (c : MarketDataClient) (seq n : Z) :
  m_state c ≠ Rewinding → (m_state c = Initial → seq = 1 ∨ m_nextExpectedSeqNo c ≠ 1) →
  0 ≤ seq → 0 ≤ n → seq + n < 2 ^ 64 →
  track c seq n =
    Ret (if m_rewindNeededTillThisSequenceNumberExclusive c <? seq then set_nextExpected c (seq + n) else c).
Proof.
  intros Hst Hi H1 H2 H3. rewrite <- track_gap_silent by done. unfold track.
  destruct (m_state c) eqn:E; try done. rewrite bool_decide_true by done.
  destruct (Hi eq_refl) as [-> | Hne]; [done|]. rewrite (proj2 (Z.eqb_neq _ 1) Hne).
  by rewrite andb_false_r.
Qed.

(** A client that is up to date: next number [k], builder [b], nothing requested. *)
Record in_sync (c : MarketDataClient) (k : Z) (b : OrderbookBuilder) : Prop := {
  sync_state : m_state c = Initial;
  sync_next : m_nextExpectedSeqNo c = k;
  sync_till : m_rewindNeededTillThisSequenceNumberExclusive c = 0;
  sync_sent : sent c = [];
  sync_builder : m_builder (m_itchParser c) = Some b;
}.

Lemma stream_in_sync (session : list byte) (ps : list (list itch_message)) (c : MarketDataClient) (k : Z)
    (b b' : OrderbookBuilder) :
  length session = 10%nat → in_sync c k b → 0 < k → k + Z.of_nat (length (concat ps)) < 2 ^ 64 →
  Forall packet_ok ps → run_messages b (concat ps) = Ret b' →
  ∃ c', fold_outcome deliver c (stream session k ps) = Ret c' ∧
    in_sync c' (k + Z.of_nat (length (concat ps))) b'.
Proof.
  intros Hs Hc Hk Hb Hps. revert c k b Hc Hk Hb. induction Hps as [|ms ps Hok Hps IH]; intros c k b Hc Hk Hb Hr.
  { cbn in Hr. simplify_eq. exists c. split; [done|]. simpl. by rewrite Z.add_0_r. }
  simpl in Hr, Hb. unfold run_messages in Hr. rewrite fold_outcome_app in Hr.
  apply bind_ret_inv in Hr as (b1 & Hr1 & Hr2). rewrite length_app in *.
  destruct Hc as [Hst Hne Ht Hsent Hbu]. cbn [stream fold_outcome].
  rewrite (deliver_encoded c session k ms b b1 Hbu Hr1 Hs) by (done || lia).
  rewrite track_silent; [| by destruct c; simpl in *; subst | | lia..].
  2: { intros _. destruct (decide (k = 1)); [by left | right]. destruct c; simpl in *. congruence. }
  run_outcome.
  destruct (IH (if m_rewindNeededTillThisSequenceNumberExclusive
      (set_itchParser c (Build_ItchParser (Some b1) session)) <? k
      then set_nextExpected (set_itchParser c (Build_ItchParser (Some b1) session)) (k + Z.of_nat (length ms))
      else set_itchParser c (Build_ItchParser (Some b1) session)) (k + Z.of_nat (length ms)) b1)
    as (c' & Hf & Hc'); [| lia | lia | done |].
  - destruct c; simpl in *. subst. destruct (Z.ltb_spec 0 k); [|lia]. by split.
  - exists c'. split; [exact Hf|]. simpl. rewrite length_app.
    by replace (k + Z.of_nat (length ms + length (concat ps)))
      with (k + Z.of_nat (length ms) + Z.of_nat (length (concat ps))) by lia.
Qed.

(** More numbers than are missing: the vector runs empty and [back()] is called on it. *)
Lemma received_overrun (c : MarketDataClient) (l : list Z) (x : Z) (rest : list Z) :
  m_missingSequenceNumbers c = rev l →
  fold_outcome received_one c (l ++ x :: rest) = Undef OutOfBoundsRead.
Proof.
  intros Hm. rewrite fold_outcome_app, (received_in_order l [] c) by done.
  cbn [mbind outcome_bind fold_outcome]. unfold received_one at 2. by destruct c.
Qed.

Lemma MarketDataClient_new_in_sync : in_sync MarketDataClient_new 1 OrderbookBuilder_new.
Proof. by split. Qed.

(** ** Tracking leaves the books alone *)

Lemma length_populateVector (a n : Z) : length (populateVector a n) = Z.to_nat n.
Proof.
  unfold populateVector. assert (Hl : ∀ fuel bound i counter (res : list Z),
    length (populate_loop fuel a bound i counter res) = length res).
  { induction fuel as [|fuel IH]; intros; cbn [populate_loop]; [done|].
    destruct (_ <? _); [|done]. by rewrite IH, length_insert. }
  by rewrite Hl, length_replicate.
Qed.

(** Rewinding keeps the parser, or calls [back()] on an emptied vector, which takes more
    received numbers than are missing. *)
Definition rewound (c : MarketDataClient) (n : nat) (o : outcome MarketDataClient) : Prop :=
  match o with
  | Ret c' => m_itchParser c' = m_itchParser c
  | Undef OutOfBoundsRead => (length (m_missingSequenceNumbers c) < n)%nat
  | _ => False
  end.

Lemma received_one_tracked (c : MarketDataClient) (x : Z) :
  match received_one c x with
  | Ret c' => m_itchParser c' = m_itchParser c ∧ m_state c' = m_state c ∧
      (length (m_missingSequenceNumbers c) ≤ S (length (m_missingSequenceNumbers c')))%nat
  | Undef OutOfBoundsRead => m_missingSequenceNumbers c = []
  | _ => False
  end.
Proof.
  unfold received_one, back. destruct (last (m_missingSequenceNumbers c)) as [b|] eqn:Hl; run_outcome;
    [|by apply last_None in Hl].
  destruct (b =? x); [|split_and!; done || lia]. destruct c; simpl in *. split_and!; [done..|].
  unfold pop_back. rewrite length_take. lia.
Qed.

Lemma received_tracked (l : list Z) (c : MarketDataClient) :
  rewound c (length l) (fold_outcome received_one c l).
Proof.
  revert c. induction l as [|x l IH]; intros c; [done|]. cbn [fold_outcome].
  pose proof (received_one_tracked c x) as Hone.
  destruct (received_one c x) as [c'| | |[]]; run_outcome; try done.
  - destruct Hone as (Hp & Hs & Hlen). specialize (IH c').
    destruct (fold_outcome received_one c' l) as [| | |[]]; simpl in *; try done; [congruence | lia].
  - simpl. rewrite Hone. simpl. lia.
Qed.

Lemma requestMissingPackets_parser (c : MarketDataClient) (e r : Z) :
  m_itchParser (requestMissingPackets c e r) = m_itchParser c.
Proof.
  unfold requestMissingPackets, rewind. destruct (_ <? _); [|done].
  destruct c. unfold setState. simpl. by case_decide.
Qed.

Lemma track_gap_parser (c : MarketDataClient) (seq n : Z) : m_itchParser (track_gap c seq n) = m_itchParser c.
Proof.
  unfold track_gap, calculateNextSequenceNumber. destruct (_ <? seq); [|done].
  destruct (_ && _); [|by destruct c]. rewrite requestMissingPackets_parser. by destruct c.
Qed.

Lemma setState_parser (c : MarketDataClient) (st : State) : m_itchParser (setState c st) = m_itchParser c.
Proof. destruct c. unfold setState. by case_decide. Qed.

Lemma track_rewinding_rewound (c : MarketDataClient) (seq n : Z) :
  rewound c (Z.to_nat n) (track_rewinding c seq n).
Proof.
  unfold track_rewinding. rewrite <- (length_populateVector seq n).
  pose proof (received_tracked (populateVector seq n) c) as Hr.
  destruct (fold_outcome received_one c (populateVector seq n)) as [c'| | |] eqn:Hf; run_outcome; try done.
  simpl in Hr. destruct (m_missingSequenceNumbers c') as [|m ms] eqn:Hm.
  { cbn [rewound]. by rewrite setState_parser. }
  unfold back. destruct (last (m :: ms)) as [b|] eqn:Hb; [|by apply last_None in Hb]. run_outcome.
  destruct (negb _); [|done]. unfold front.
  replace (m_missingSequenceNumbers (set_lastRequested c' b)) with (m :: ms) by (by destruct c'; simpl in *).
  cbn [head]. run_outcome. cbn [rewound]. rewrite requestMissingPackets_parser. by destruct c'.
Qed.

(** How tracking stops a client.  It is rewinding, and a datagram announces more messages
    than are missing; or the number of its first datagram is so large that the missing
    numbers fit no vector, and the number 0 is one, since its predecessor is 2^64 - 1. *)
Definition tracking_stops (c : MarketDataClient) (seq n : Z) (o : outcome MarketDataClient) : Prop :=
  o = Undef OutOfBoundsRead ∧ m_state c = Rewinding ∧ (length (m_missingSequenceNumbers c) < Z.to_nat n)%nat ∨
  o = Throw "std::length_error" ∧ m_state c = Initial ∧ m_nextExpectedSeqNo c = 1 ∧
    max_size < Z.of_nat (length (m_missingSequenceNumbers c)) + wrap 64 (seq - 1).

Lemma track_tracked (c : MarketDataClient) (seq n : Z) :
  (∃ c', track c seq n = Ret c' ∧ m_itchParser c' = m_itchParser c) ∨ tracking_stops c seq n (track c seq n).
Proof.
  unfold track. destruct (m_state c) eqn:Hst.
  1: { rewrite bool_decide_true by done. destruct (negb _); cbn [andb].
       2: { left. eexists. split; [done|]. by rewrite track_gap_parser. }
       destruct (Z.eqb_spec (m_nextExpectedSeqNo c) 1) as [He|].
       2: { left. eexists. split; [done|]. by rewrite track_gap_parser. }
       unfold push_back_down. destruct (Z.ltb_spec max_size
         (Z.of_nat (length (m_missingSequenceNumbers c)) + wrap 64 (seq - 1))) as [Hlt|]; run_outcome.
       - right. by right.
       - left. eexists. split; [done|]. rewrite requestMissingPackets_parser. by destruct c. }
  3: { pose proof (track_rewinding_rewound c seq n) as Hr.
       destruct (track_rewinding c seq n) as [c'| | |[]]; run_outcome; simpl in Hr; try done; [left|right; by left].
       eexists. split; [done|]. by rewrite track_gap_parser. }
  all: left; eexists; split; [done|]; by rewrite track_gap_parser.
Qed.

(** The market data client without its sequence numbers: a datagram is parsed. *)
Definition parse_only (p : ItchParser OrderbookBuilder) (datagram : list byte) : outcome (ItchParser OrderbookBuilder) :=
  '(p, _) ← parse p (Some datagram) (Z.of_nat (length datagram)); Ret p.

(** Tracking stops the client with outcome [o] at one of the datagrams. *)
Definition stopped (c : MarketDataClient) (ds : list (list byte)) (o : outcome MarketDataClient) : Prop :=
  ∃ ds1 d ds2 c1 p seq n, ds = ds1 ++ d :: ds2 ∧ fold_outcome deliver c ds1 = Ret c1 ∧
    parse (m_itchParser c1) (Some d) (Z.of_nat (length d)) = Ret (p, (seq, n)) ∧
    tracking_stops (set_itchParser c1 p) seq n o.

Lemma deliver_parse_only (c : MarketDataClient) (ds : list (list byte)) :
  m_itchParser <$> fold_outcome deliver c ds = fold_outcome parse_only (m_itchParser c) ds ∨
  stopped c ds (fold_outcome deliver c ds).
Proof.
  revert c. induction ds as [|d ds IH]; intros c; [by left|]. cbn [fold_outcome].
  assert (Hd : deliver c d = ('(p, (seq, n)) ← parse (m_itchParser c) (Some d) (Z.of_nat (length d));
    track (set_itchParser c p) seq n)) by done.
  assert (Hp' : parse_only (m_itchParser c) d =
    ('(p, _) ← parse (m_itchParser c) (Some d) (Z.of_nat (length d)); Ret p)) by done.
  destruct (parse (m_itchParser c) (Some d) (Z.of_nat (length d))) as [[p [seq n]]| | |] eqn:Hp;
    cbn [mbind outcome_bind] in Hd, Hp'; rewrite Hd, Hp'; [|by left..].
  destruct (track_tracked (set_itchParser c p) seq n) as [(c' & Htr & Ht)|Hs].
  - rewrite Htr in Hd |- *. run_outcome.
    replace (m_itchParser (set_itchParser c p)) with p in Ht by (by destruct c). rewrite <- Ht.
    destruct (IH c') as [Heq|(ds1 & d' & ds2 & c1 & p' & seq' & n' & -> & Hf & Hrest)]; [by left|right].
    exists (d :: ds1), d', ds2, c1, p', seq', n'. split; [done|]. split; [|done].
    cbn [fold_outcome]. by rewrite Hd.
  - right. exists [], d, ds, c, p, seq, n. split_and!; [done..|].
    destruct Hs as [[Ho Hs]|[Ho Hs]]; rewrite Ho; [by left | by right].
Qed.

(** ** Concrete streams *)

Definition sample_packets : list (list itch_message) :=
  [take 2 sample_messages; drop 2 sample_messages].

Definition sample_delete : list itch_message := [MsgEvent (EvDelete (make_delete 1 1001 "B"))].

Definition run_clean (ms : list itch_message) : OrderbookBuilder :=
  match run_messages OrderbookBuilder_new ms with Ret b => b | _ => OrderbookBuilder_new end.

(** The client that joins when the packet [live], number [s], arrives. *)
Lemma late_join (session : list byte) (s : Z) (live : list itch_message) (ps : list (list itch_message))
    (b' : OrderbookBuilder) :
  length session = 10%nat → 1 < s ≤ 2 ^ 60 → packet_ok live →
  Forall (λ ms, packet_ok ms ∧ ms ≠ []) ps → 1 + Z.of_nat (length (concat ps)) = s →
  run_messages OrderbookBuilder_new (live ++ concat ps) = Ret b' →
  ∃ c', fold_outcome deliver MarketDataClient_new (encode_packet session s live :: stream session 1 ps) = Ret c' ∧
    m_state c' = Continuous ∧ m_missingSequenceNumbers c' = [] ∧
    m_builder (m_itchParser c') = Some b' ∧
    sent c' = request_datagram (repeat x00 10) 1 (s - 1) :: rerequests (repeat x00 10) s 1 ps.
Proof.
  intros Hse Hs Hlive Hps Hl Hr. unfold run_messages in Hr. rewrite fold_outcome_app in Hr.
  apply bind_ret_inv in Hr as (b1 & Hr1 & Hr2). cbn [fold_outcome].
  rewrite (deliver_encoded MarketDataClient_new session s live _ b1 eq_refl Hr1 Hse) by (done || lia).
  destruct (track_initial_sync (set_itchParser MarketDataClient_new (Build_ItchParser (Some b1) session)) s
    (Z.of_nat (length live))) as (c1 & Ht & Hrec & (Hp & Hn & _) & Hsent); [done..|].
  rewrite Ht. run_outcome.
  destruct (replay_completes session Hse ps c1 s 1 b1 b' Hrec) as (c' & Hf & ? & ? & ? & Hs');
    [lia | lia | by rewrite Hp | exact Hr2 | done | intros ->; simpl in *; lia | lia |].
  exists c'. rewrite Hf. split_and!; try done. by rewrite Hs', Hsent, Hn.
Qed.

(** ** Properties *)

(** C5. Recovery completes and loses nothing: a client that joins at packet [s] asks for
    everything before it; once the missing messages 1, ..., [s - 1] have been replayed
    in order, in packets of any size, it is in state Continuous with nothing missing, its
    books are those of the joining packet followed by the replayed messages, and it has
    sent one request after every packet that left something missing. *)
Theorem late_join_recovers (session : list byte) (s : Z) (live : list itch_message)
    (ps : list (list itch_message)) (b' : OrderbookBuilder) :
  length session = 10%nat → 1 < s ≤ 2 ^ 60 → packet_ok live →
  Forall (λ ms, packet_ok ms ∧ ms ≠ []) ps → 1 + Z.of_nat (length (concat ps)) = s →
  run_messages OrderbookBuilder_new (live ++ concat ps) = Ret b' →
  ∃ c', fold_outcome deliver MarketDataClient_new (encode_packet session s live :: stream session 1 ps) = Ret c' ∧
    m_state c' = Continuous ∧ m_missingSequenceNumbers c' = [] ∧
    m_builder (m_itchParser c') = Some b' ∧
    sent c' = request_datagram (repeat x00 10) 1 (s - 1) :: rerequests (repeat x00 10) s 1 ps.
Proof. apply late_join. Qed.

Lemma late_join_recovers_witness :
  ∃ c', fold_outcome deliver MarketDataClient_new
      (encode_packet sample_session 5 [] :: stream sample_session 1 sample_packets) = Ret c' ∧
    m_state c' = Continuous ∧ m_missingSequenceNumbers c' = [] ∧
    m_builder (m_itchParser c') = Some (run_clean sample_messages) ∧
    sent c' = [request_datagram (repeat x00 10) 1 4; request_datagram (repeat x00 10) 3 2].
Proof.
  apply (late_join_recovers sample_session 5 [] sample_packets (run_clean sample_messages)).
  - reflexivity.
  - lia.
  - split; [constructor | simpl; lia].
  - repeat constructor; simpl; discriminate || lia.
  - reflexivity.
  - vm_compute. reflexivity.
Defined.

(** A client that receives the stream from number 1 without loss parses every packet,
    never requests anything, stays in state Initial and expects the next number. *)
Theorem in_order_stream (session : list byte) (ps : list (list itch_message)) (b' : OrderbookBuilder) :
  length session = 10%nat → 1 + Z.of_nat (length (concat ps)) < 2 ^ 64 → Forall packet_ok ps →
  run_messages OrderbookBuilder_new (concat ps) = Ret b' →
  ∃ c', fold_outcome deliver MarketDataClient_new (stream session 1 ps) = Ret c' ∧
    in_sync c' (1 + Z.of_nat (length (concat ps))) b'.
Proof.
  intros. apply (stream_in_sync session ps _ _ OrderbookBuilder_new); [done | apply MarketDataClient_new_in_sync | done..].
Qed.

Lemma in_order_stream_witness :
  ∃ c', fold_outcome deliver MarketDataClient_new (stream sample_session 1 sample_packets) = Ret c' ∧
    in_sync c' 5 (run_clean sample_messages).
Proof.
  apply (in_order_stream sample_session sample_packets (run_clean sample_messages)).
  - reflexivity.
  - simpl. lia.
  - repeat constructor; simpl; lia.
  - vm_compute. reflexivity.
Defined.

(** C14. The books depend on the arrival order alone: for any datagrams, whatever their bytes
    and sequence numbers, the client ends with exactly the parser and books (or the
    failure) of a client without sequence tracking that parses the datagrams as they come;
    nothing is reordered, held back or filtered, duplicates included.  The one exception
    is a client that tracking itself stops: it is rewinding and a datagram announces more
    messages than are missing, so that [back()] is called on the emptied vector; or its
    first datagram has number 0 or one so large that the missing numbers fit no vector. *)
Theorem books_follow_arrival (c : MarketDataClient) (ds : list (list byte)) :
  m_itchParser <$> fold_outcome deliver c ds = fold_outcome parse_only (m_itchParser c) ds ∨
  stopped c ds (fold_outcome deliver c ds).
Proof. apply deliver_parse_only. Qed.

(** A gap in normal flow is never repaired: whatever number arrives, the client only
    moves its expectation behind the received packet; it sends no request and does not
    change state, although the check is meant to request the missing packets. *)
Theorem gap_never_requested (c : MarketDataClient) (seq n : Z) :
  m_state c ≠ Rewinding → (m_state c = Initial → m_nextExpectedSeqNo c ≠ 1) →
  m_rewindNeededTillThisSequenceNumberExclusive c < seq →
  0 ≤ seq → 0 ≤ n → seq + n < 2 ^ 64 →
  ∃ c', track c seq n = Ret c' ∧ sent c' = sent c ∧ m_state c' = m_state c ∧
    m_missingSequenceNumbers c' = m_missingSequenceNumbers c ∧ m_nextExpectedSeqNo c' = seq + n.
Proof.
  intros H1 H2 H3 H4 H5 H6. rewrite track_silent by auto. rewrite (proj2 (Z.ltb_lt _ _) H3).
  eexists. split; [done|]. by destruct c.
Qed.

Lemma gap_never_requested_witness :
  ∃ c', track (set_nextExpected MarketDataClient_new 5) 100 2 = Ret c' ∧ sent c' = [] ∧
    m_state c' = Initial ∧ m_missingSequenceNumbers c' = [] ∧ m_nextExpectedSeqNo c' = 102.
Proof.
  apply (gap_never_requested (set_nextExpected MarketDataClient_new 5) 100 2);
    [discriminate | discriminate | simpl; lia | lia | lia | lia].
Defined.

(** C29. The first request of a late joiner names an all-zero session, because nothing ever
    sets the session name, starts at 1 and carries the number of missing messages modulo
    2^16; with a multiple of 65536 missing it asks for none. *)
Theorem sync_request_truncated (s n : Z) :
  1 < s ≤ 2 ^ 60 →
  ∃ c' d h, track MarketDataClient_new s n = Ret c' ∧ sent c' = [d] ∧
    c_dec DownstreamHeader_codec d = Some h ∧ dh_session h = repeat x00 10 ∧
    be64toh (dh_sequence_number h) = 1 ∧ be16toh (dh_message_count h) = (s - 1) `mod` 2 ^ 16.
Proof.
  intros Hs. destruct (track_initial_sync MarketDataClient_new s n) as (c' & Ht & _ & _ & Hsent); [done..|].
  eexists c', _, (Build_DownstreamHeader (repeat x00 10) (htobe64 1) (htobe16 (wrap 16 (s - 1)))).
  split; [done|]. rewrite Hsent. split; [done|]. split; [|split_and!].
  - apply dec_enc. change ((c_ok (uint 8) (bswap 8 1) && c_ok (uint 2) (bswap 2 (wrap 16 (s - 1)))) = true).
    by rewrite !uint_ok_bswap.
  - done.
  - done.
  - apply (bswap_swap 2), (wrap_bound 16). lia.
Qed.

Lemma sync_request_truncated_witness :
  ∃ c' d h, track MarketDataClient_new 65537 3 = Ret c' ∧ sent c' = [d] ∧
    c_dec DownstreamHeader_codec d = Some h ∧ dh_session h = repeat x00 10 ∧
    be64toh (dh_sequence_number h) = 1 ∧ be16toh (dh_message_count h) = 0.
Proof. apply (sync_request_truncated 65537 3). lia. Defined.

(** A replayed packet that starts at the next missing number but carries more messages
    than are missing runs the vector empty and calls [back()] on it: undefined behaviour. *)
Theorem replay_overrun_undefined (c : MarketDataClient) (s k n : Z) :
  recovering c s k → 0 ≤ k ≤ s → s < k + n < 2 ^ 64 → track c k n = Undef OutOfBoundsRead.
Proof.
  intros [Hst Hms _ _] Hk Hn. unfold track, track_rewinding. rewrite Hst, populateVector_seqZ by lia.
  replace n with (s - k + (1 + (n - (s - k) - 1))) by lia. rewrite seqZ_app by lia.
  rewrite (seqZ_cons (k + (s - k))) by lia. by rewrite (received_overrun _ _ _ _ Hms).
Qed.

Lemma replay_overrun_undefined_witness :
  track (set_rewindTill (set_lastRequested (set_missing (setState MarketDataClient_new Rewinding) [1]) 1) 2) 1 2 =
  Undef OutOfBoundsRead.
Proof. apply (replay_overrun_undefined _ 2 1 2); [split; reflexivity | lia | lia]. Defined.

(** C30. The joining packet is applied before the replayed ones, so messages that depend on
    earlier ones are lost: a client that joins at the delete of an order and then
    recovers the add believes the order is live, while in order it would be gone. *)
Theorem late_join_keeps_deleted_order (session : list byte) (a : AddOrder) (d : OrderDelete) :
  length session = 10%nat → delete_key d = add_key a →
  message_ok (MsgEvent (EvAdd a)) = true → message_ok (MsgEvent (EvDelete d)) = true →
  0 < be64toh (ao_quantity a) →
  ∃ c' b' b, fold_outcome deliver MarketDataClient_new
      [encode_packet session 2 [MsgEvent (EvDelete d)]; encode_packet session 1 [MsgEvent (EvAdd a)]] = Ret c' ∧
    m_state c' = Continuous ∧ m_builder (m_itchParser c') = Some b' ∧
    is_Some (m_orderMap b' !! add_key a) ∧
    run_messages OrderbookBuilder_new [MsgEvent (EvAdd a); MsgEvent (EvDelete d)] = Ret b ∧
    m_orderMap b !! add_key a = None.
Proof.
  intros Hs Hkey Ha Hd Hq.
  assert (Hb : open_qty ∅ (be32toh (ao_orderbook_id a)) (is_buy (ao_side a))
    (to_signed 32 (be32toh (ao_price a))) + be64toh (ao_quantity a) < 2 ^ 64).
  { unfold open_qty. rewrite map_sum_empty. pose proof (bswap_bound 8 (ao_quantity a)) as Hbd.
    change (bytes_modulus 8) with (2 ^ 64) in Hbd. unfold be64toh. lia. }
  destruct (add_body_inv _ builder_new_inv (be32toh (ao_orderbook_id a)) (be64toh (ao_order_id a)) (ao_side a)
    _ _ (lookup_empty _) Hq Hb) as (b1 & Hadd & Hinv & Hm).
  destruct (delete_body_inv _ Hinv (be32toh (od_orderbook_id d)) (be64toh (od_order_id d)) (od_side d))
    as (b & Hdel & _ & Hm').
  assert (Hone : ∀ m, message_ok m = true → packet_ok [m]) by (by intros m ?; repeat constructor).
  destruct (late_join session 2 [MsgEvent (EvDelete d)] [[MsgEvent (EvAdd a)]] b1)
    as (c' & Hc & Hst & _ & Hbu & _); [done | lia | by apply Hone | | done | |].
  - constructor; [split; [by apply Hone | done] | constructor].
  - assert (Hdel0 : deleteOrder OrderbookBuilder_new d = Ret OrderbookBuilder_new)
      by (unfold deleteOrder, delete_body; simpl; by rewrite lookup_empty).
    unfold run_messages. simpl. rewrite Hdel0. simpl. unfold addOrder. by rewrite Hadd.
  - exists c', b1, b. split_and!; try done.
    + rewrite Hm. by rewrite lookup_insert_eq.
    + unfold run_messages. simpl. unfold addOrder. rewrite Hadd. simpl. unfold deleteOrder. by rewrite Hdel.
    + rewrite Hm'. fold (delete_key d). rewrite Hkey. apply lookup_delete_eq.
Qed.

Lemma late_join_keeps_deleted_order_witness :
  ∃ c' b' b, fold_outcome deliver MarketDataClient_new
      [encode_packet sample_session 2 sample_delete;
       encode_packet sample_session 1 [MsgEvent (EvAdd (make_add 1 1001 "B" 100 1000))]] = Ret c' ∧
    m_state c' = Continuous ∧ m_builder (m_itchParser c') = Some b' ∧
    is_Some (m_orderMap b' !! (1, 1001, "B"%byte)) ∧
    run_messages OrderbookBuilder_new
      [MsgEvent (EvAdd (make_add 1 1001 "B" 100 1000)); MsgEvent (EvDelete (make_delete 1 1001 "B"))] = Ret b ∧
    m_orderMap b !! (1, 1001, "B"%byte) = None.
Proof.
  apply (late_join_keeps_deleted_order sample_session (make_add 1 1001 "B" 100 1000) (make_delete 1 1001 "B"));
    [reflexivity | reflexivity | reflexivity | reflexivity | vm_compute; reflexivity].
Defined.
