(* ===== verification/MarketDataPhases.v ===== *)
(** * The market data client as a state machine

    What the sequence tracking of MarketDataClient.v amounts to, for every sequence of
    datagrams: a machine with three phases whose only input is the number and the message
    count of a datagram, and whose only output is the ranges it asks the rewinder for.

    - [Waiting next]: the client has joined; the first datagram that does not start at 1
      makes it recover everything before it.
    - [Recovering till k]: it waits for the messages [k], ..., [till - 1].
    - [Synced]: everything up to the joining packet has arrived.  The client stays there
      and never asks for anything again.

    The states [Joined] and [Snapshotting] of the code are never entered.  The numbers of a
    datagram are assumed not to wrap around 2^64. *)
From stdpp Require Import sorting.
From S2P Require Import Prelude Bytes Codec Types.
From S2P Require Import ItchMessages SessionMessages L2Orderbook OrderbookBuilder ItchParser MarketDataClient.
Local Open Scope Z_scope.

(** ** The machine *)

Inductive phase :=
  | Waiting (next : Z)
  | Recovering (till k : Z)
  | Synced.

#[export] Instance phase_eq_dec : EqDecision phase.
Proof. solve_decision. Defined.

(** A datagram's sequence number and message count; a range asked for: first, count. *)
Abbreviation header := (Z * Z)%type.
Abbreviation range := (Z * Z)%type.

Definition phase_step (p : phase) (h : header) : outcome (phase * list range) :=
  let '(seq, n) := h in
  match p with
  | Waiting next =>
      if (next =? 1) && negb (seq =? 1) then
        if (seq =? 0) || (2 ^ 60 <? seq) then Throw "std::length_error"
        else Ret (Recovering seq 1, [(1, seq - 1)])
      else Ret (Waiting (if seq =? 0 then next else seq + n), [])
  | Recovering till k =>
      if (seq <=? k) && (k <? seq + n) then
        if till <? seq + n then Undef OutOfBoundsRead
        else if seq + n =? till then Ret (Synced, [])
        else Ret (Recovering till (seq + n), [(seq + n, till - (seq + n))])
      else Ret (p, [])
  | Synced => Ret (Synced, [])
  end.

(** The machine with what it has asked for so far. *)
Definition machine_step (m : phase * list range) (h : header) : outcome (phase * list range) :=
  '(p, reqs) ← phase_step m.1 h;
  Ret (p, m.2 ++ reqs).

Definition header_ok (h : header) : Prop := 0 ≤ h.1 ∧ 0 ≤ h.2 ∧ h.1 + h.2 < 2 ^ 64.
#[export] Instance header_ok_dec (h : header) : Decision (header_ok h).
Proof. unfold header_ok. apply _. Defined.

(** ** The client in a phase *)

Definition in_phase (c : MarketDataClient) (p : phase) : Prop :=
  match p with
  | Waiting next =>
      m_state c = Initial ∧ m_missingSequenceNumbers c = [] ∧
      m_rewindNeededTillThisSequenceNumberExclusive c = 0 ∧ m_nextExpectedSeqNo c = next
  | Recovering till k => recovering c till k ∧ 1 ≤ k < till ∧ till ≤ 2 ^ 60
  | Synced => m_state c = Continuous ∧ m_missingSequenceNumbers c = []
  end.

Definition request_of (name : list byte) (r : range) : list byte := request_datagram name r.1 r.2.

(** The client is in the machine's phase and has sent what the machine has asked for. *)
Definition follows (name : list byte) (c : MarketDataClient) (m : phase * list range) : Prop :=
  in_phase c m.1 ∧ m_sessionName c = name ∧ sent c = request_of name <$> m.2.

Lemma received_others (l : list Z) (c : MarketDataClient) (b : Z) :
  back (m_missingSequenceNumbers c) = Ret b → b ∉ l → fold_outcome received_one c l = Ret c.
Proof.
  intros Hb. induction l as [|x l IH]; intros Hn; [done|]. apply not_elem_of_cons in Hn as [Hx Hl].
  cbn [fold_outcome]. rewrite (received_other c b x) by done. run_outcome. by apply IH.
Qed.

Lemma back_missing (c : MarketDataClient) (s k : Z) :
  m_missingSequenceNumbers c = rev (seqZ k (s - k)) → k < s → back (m_missingSequenceNumbers c) = Ret k.
Proof. intros -> Hk. rewrite (seqZ_cons k (s - k)) by lia. apply back_snoc. Qed.

Lemma set_missing_id (c : MarketDataClient) : set_missing c (m_missingSequenceNumbers c) = c.
Proof. by destruct c. Qed.

(** Any run of received numbers against the missing ones. *)
Lemma received_range (c : MarketDataClient) (s k seq n : Z) :
  m_missingSequenceNumbers c = rev (seqZ k (s - k)) → k < s → 0 ≤ n →
  fold_outcome received_one c (seqZ seq n) =
    if (seq <=? k) && (k <? seq + n) then
      if s <? seq + n then Undef OutOfBoundsRead
      else Ret (set_missing c (rev (seqZ (seq + n) (s - (seq + n)))))
    else Ret c.
Proof.
  intros Hm Hk Hn. pose proof (back_missing c s k Hm Hk) as Hb.
  destruct ((seq <=? k) && (k <? seq + n)) eqn:E.
  2: { apply (received_others _ c k Hb). rewrite elem_of_seqZ. lia. }
  apply andb_true_iff in E as [H1%Z.leb_le H2%Z.ltb_lt].
  replace n with ((k - seq) + (seq + n - k)) at 1 by lia. rewrite seqZ_app by lia.
  rewrite fold_outcome_app, (received_others _ c k Hb) by (rewrite elem_of_seqZ; lia). run_outcome.
  replace (seq + (k - seq)) with k by lia. destruct (Z.ltb_spec s (seq + n)) as [Hlt|Hle].
  - replace (seq + n - k) with (s - k + (1 + (seq + n - s - 1))) by lia. rewrite seqZ_app by lia.
    rewrite (seqZ_cons (k + (s - k))) by lia. by apply received_overrun.
  - apply received_in_order. rewrite Hm. replace (s - k) with ((seq + n - k) + (s - (seq + n))) by lia.
    rewrite seqZ_app, rev_app_distr by lia. by replace (k + (seq + n - k)) with (seq + n) by lia.
Qed.

Lemma m_missing_set (c : MarketDataClient) (ms : list Z) : m_missingSequenceNumbers (set_missing c ms) = ms.
Proof. by destruct c. Qed.

(** Behind [till] the gap check only moves the expected number. *)
Lemma track_gap_follows (c : MarketDataClient) (seq n : Z) :
  0 ≤ seq → 0 ≤ n → seq + n < 2 ^ 64 →
  let c' := track_gap c seq n in
  m_state c' = m_state c ∧ m_missingSequenceNumbers c' = m_missingSequenceNumbers c ∧
  m_lastRequestedSequenceNumber c' = m_lastRequestedSequenceNumber c ∧
  m_rewindNeededTillThisSequenceNumberExclusive c' = m_rewindNeededTillThisSequenceNumberExclusive c ∧
  m_sessionName c' = m_sessionName c ∧ sent c' = sent c ∧
  m_nextExpectedSeqNo c' =
    if m_rewindNeededTillThisSequenceNumberExclusive c <? seq then seq + n else m_nextExpectedSeqNo c.
Proof. intros H1 H2 H3. rewrite track_gap_silent by done. destruct (_ <? seq); by destruct c. Qed.

(** Rewinding, for any datagram. *)
Lemma track_rewinding_phase (c : MarketDataClient) (s k seq n : Z) :
  recovering c s k → 1 ≤ k < s → s ≤ 2 ^ 60 → 0 ≤ seq → 0 ≤ n → seq + n < 2 ^ 64 →
  if (seq <=? k) && (k <? seq + n) then
    if s <? seq + n then track_rewinding c seq n = Undef OutOfBoundsRead
    else ∃ c', track_rewinding c seq n = Ret c' ∧ m_sessionName c' = m_sessionName c ∧
      if seq + n =? s then m_state c' = Continuous ∧ m_missingSequenceNumbers c' = [] ∧ sent c' = sent c
      else recovering c' s (seq + n) ∧
        sent c' = sent c ++ [request_datagram (m_sessionName c) (seq + n) (s - (seq + n))]
  else track_rewinding c seq n = Ret c.
Proof.
  intros [Hst Hms Hl Ht] Hk Hs H1 H2 H3. unfold track_rewinding. rewrite populateVector_seqZ by done.
  rewrite (received_range c s k seq n Hms) by lia.
  destruct ((seq <=? k) && (k <? seq + n)) eqn:E; run_outcome.
  2: { rewrite Hms. pose proof (back_missing c s k Hms ltac:(lia)) as Hb. rewrite Hms in Hb. rewrite Hb. run_outcome.
       destruct (rev (seqZ k (s - k))); [done|]. by rewrite Hl, Z.eqb_refl. }
  apply andb_true_iff in E as [E1%Z.leb_le E2%Z.ltb_lt]. destruct (Z.ltb_spec s (seq + n)); [done|]. run_outcome.
  destruct (Z.eqb_spec (seq + n) s) as [Heq|Hne].
  { rewrite (seqZ_nil (seq + n)) by lia. rewrite m_missing_set. cbn [rev]. eexists. split; [done|].
    destruct c. simpl in *. by subst. }
  set (rest := rev (seqZ (seq + n) (s - (seq + n)))). set (c1 := set_missing c rest).
  assert (Hb : back (m_missingSequenceNumbers c1) = Ret (seq + n))
    by (apply (back_missing c1 s); [apply m_missing_set | lia]).
  assert (Hf : front rest = Ret (s - 1)) by (unfold rest; rewrite front_rev_seqZ by lia; f_equal; lia).
  assert (Hm1 : m_missingSequenceNumbers c1 = rest) by apply m_missing_set.
  rewrite Hb, Hm1. destruct rest as [|x xs] eqn:Hrest; [done|]. run_outcome.
  replace (m_lastRequestedSequenceNumber c1) with k by (unfold c1; by destruct c).
  destruct (Z.eqb_spec k (seq + n)); [lia|]. cbn [negb].
  replace (m_missingSequenceNumbers (set_lastRequested c1 (seq + n))) with (x :: xs) by (unfold c1; by destruct c).
  rewrite Hf. run_outcome. replace (wrap 64 (s - 1 + 1)) with s by (rewrite wrap_id; lia).
  destruct (requestMissingPackets_sends (set_lastRequested c1 (seq + n)) (seq + n) s)
    as (R1 & R2 & R3 & R4 & R5 & R6 & R7 & R8); [lia|].
  eexists. split; [done|]. rewrite R2, R7. unfold c1 in *. destruct c as [p ms l r nm ns e st o]. simpl in *. subst.
  split; [done|]. split; [|done]. split; [done | by rewrite R3 | done..].
Qed.

(** One datagram in each phase: the client follows the machine. *)
Section one_datagram.
Context (name : list byte) (seq n : Z) (H1 : 0 ≤ seq) (H2 : 0 ≤ n) (H3 : seq + n < 2 ^ 64).
Implicit Types (c : MarketDataClient) (reqs : list range).

Lemma gap_follows c (p : phase) reqs :
  follows name c (p, reqs) → (∀ next, p ≠ Waiting next) → follows name (track_gap c seq n) (p, reqs).
Proof.
  unfold follows. cbn [fst snd]. intros (Hp & Hn & Hs) Hw.
  destruct (track_gap_follows c seq n H1 H2 H3) as (G1 & G2 & G3 & G4 & G5 & G6 & G7).
  rewrite G5, G6. split; [|done]. destruct p as [next|till k|]; cbn [in_phase] in *; [by destruct (Hw next)| |].
  - destruct Hp as [[Q1 Q2 Q3 Q4] Hk]. split; [split; congruence | done].
  - destruct Hp. split; congruence.
Qed.

Lemma waiting_syncs c reqs :
  follows name c (Waiting 1, reqs) → seq ≠ 1 →
  same_outcome (follows name) (track c seq n) (machine_step (Waiting 1, reqs) (seq, n)).
Proof.
  intros ((Hst & Hms & Ht & He) & Hn & Hsent) Hne. cbn [fst snd] in *.
  unfold track, machine_step. cbn [fst snd phase_step]. rewrite Hst, He, bool_decide_true by done.
  rewrite (proj2 (Z.eqb_neq _ _) Hne). cbn [andb negb Z.eqb Pos.eqb]. unfold push_back_down. rewrite Hms.
  destruct (Z.eqb_spec seq 0) as [->|Hnz]; [done|]. rewrite wrap_id by lia. unfold max_size. cbn [orb length].
  destruct (Z.ltb_spec (2 ^ 60) seq) as [Hbig|Hsmall].
  { by destruct (Z.ltb_spec (2 ^ 60 - 1) (Z.of_nat 0 + (seq - 1))); [|lia]. }
  destruct (Z.ltb_spec (2 ^ 60 - 1) (Z.of_nat 0 + (seq - 1))); [lia|]. run_outcome. rewrite app_nil_l.
  match goal with |- context [requestMissingPackets ?x 1 seq] =>
    destruct (requestMissingPackets_sends x 1 seq ltac:(lia)) as (R1 & R2 & R3 & R4 & R5 & R6 & R7 & R8) end.
  unfold follows. cbn [same_outcome fst snd in_phase]. rewrite R2, R7, fmap_app.
  destruct c as [p0 ms l r nm ns e st o]. simpl in *. subst. split; [|done]. split; [|lia]. split; try done.
  by rewrite R3, count_down_seqZ, Z2Nat.id by lia.
Qed.

Lemma waiting_follows c (next : Z) reqs :
  follows name c (Waiting next, reqs) →
  same_outcome (follows name) (track c seq n) (machine_step (Waiting next, reqs) (seq, n)).
Proof.
  intros Hf. destruct (decide (next = 1 ∧ seq ≠ 1)) as [[-> Hne]|Hno]; [by apply waiting_syncs|].
  destruct Hf as ((Hst & Hms & Ht & He) & Hn & Hsent). cbn [fst snd] in *.
  unfold track, machine_step. cbn [fst snd phase_step]. rewrite Hst, He, bool_decide_true by done.
  assert (Hb : (next =? 1) && negb (seq =? 1) = false) by (destruct (Z.eqb_spec next 1), (Z.eqb_spec seq 1); naive_solver).
  rewrite Hb. rewrite andb_comm in Hb. cbn [andb]. rewrite Hb. run_outcome.
  destruct (track_gap_follows c seq n H1 H2 H3) as (G1 & G2 & G3 & G4 & G5 & G6 & G7).
  unfold follows. cbn [same_outcome fst snd in_phase]. rewrite app_nil_r, G1, G2, G4, G5, G6, G7, Ht, He.
  split_and!; try done. destruct (Z.ltb_spec 0 seq), (Z.eqb_spec seq 0); done || lia.
Qed.

Lemma recovering_follows c (s k : Z) reqs :
  follows name c (Recovering s k, reqs) →
  same_outcome (follows name) (track c seq n) (machine_step (Recovering s k, reqs) (seq, n)).
Proof.
  intros Hf. pose proof Hf as ((Hrec & Hk & Hs) & Hn & Hsent). cbn [fst snd] in *.
  unfold track, machine_step. cbn [fst snd phase_step]. rewrite (rec_state _ _ _ Hrec).
  pose proof (track_rewinding_phase c s k seq n Hrec Hk Hs H1 H2 H3) as Hr.
  destruct ((seq <=? k) && (k <? seq + n)) eqn:E.
  2: { rewrite Hr. run_outcome. cbn [same_outcome]. rewrite app_nil_r. by apply gap_follows. }
  apply andb_true_iff in E as [E1%Z.leb_le E2%Z.ltb_lt].
  destruct (Z.ltb_spec s (seq + n)); [by rewrite Hr|]. destruct Hr as (c' & -> & Hn' & Hc'). run_outcome.
  destruct (Z.eqb_spec (seq + n) s) as [Heq|Hne]; run_outcome; cbn [same_outcome]; (apply gap_follows; [|done]);
    unfold follows; cbn [fst snd in_phase].
  - destruct Hc' as (Hst & Hms & Hsn). rewrite app_nil_r. split_and!; congruence.
  - destruct Hc' as [Hrec' Hsn]. rewrite Hsn, Hn', fmap_app, Hsent, Hn. split; [|done]. split; [done | lia].
Qed.

Lemma synced_follows c reqs :
  follows name c (Synced, reqs) →
  same_outcome (follows name) (track c seq n) (machine_step (Synced, reqs) (seq, n)).
Proof.
  intros Hf. pose proof Hf as ((Hst & _) & _). unfold track, machine_step. rewrite Hst.
  cbn [fst snd phase_step]. replace (bool_decide (Continuous = Initial)) with false by done.
  cbn [andb]. run_outcome. cbn [same_outcome]. rewrite app_nil_r. by apply gap_follows.
Qed.
End one_datagram.

Lemma track_follows (name : list byte) (c : MarketDataClient) (m : phase * list range) (h : header) :
  follows name c m → header_ok h → same_outcome (follows name) (track c h.1 h.2) (machine_step m h).
Proof.
  destruct m as [[next|s k|] reqs], h as [seq n]; intros Hf (H1 & H2 & H3);
    [by apply waiting_follows | by apply recovering_follows | by apply synced_follows].
Qed.

(** ** Datagrams *)

(** The header a datagram announces does not run past the last sequence number. *)
Definition no_wrap (d : list byte) : Prop :=
  match overlay DownstreamHeader_codec 0 d with
  | Ret h => be64toh (dh_sequence_number h) + be16toh (dh_message_count h) < 2 ^ 64
  | _ => True
  end.
#[export] Instance no_wrap_dec (d : list byte) : Decision (no_wrap d).
Proof. unfold no_wrap. destruct (overlay _ _ _); apply _. Defined.

(** The specification: a parser that takes every datagram as it comes, next to the machine. *)
Abbreviation spec_state := (ItchParser OrderbookBuilder * (phase * list range))%type.

Definition spec_step (st : spec_state) (d : list byte) : outcome spec_state :=
  '(p, h) ← parse st.1 (Some d) (Z.of_nat (length d));
  m ← machine_step st.2 h;
  Ret (p, m).

Definition spec_new : spec_state := (ItchParser_new OrderbookBuilder_new, (Waiting 1, [])).

Definition implements (c : MarketDataClient) (st : spec_state) : Prop :=
  m_itchParser c = st.1 ∧ follows (repeat x00 10) c st.2.

Lemma parse_header_ok (p p' : ItchParser OrderbookBuilder) (d : list byte) (h : header) :
  no_wrap d → parse p (Some d) (Z.of_nat (length d)) = Ret (p', h) → header_ok h.
Proof.
  unfold no_wrap, parse. destruct (overlay DownstreamHeader_codec 0 d) as [dh| | |]; [|done..].
  cbn [mbind outcome_bind]. intros Hw (p1 & _ & [= _ <-])%bind_ret_inv. split; cbn [fst snd].
  - apply (bswap_bound 8).
  - split; [apply (bswap_bound 2) | done].
Qed.

Lemma follows_set_itchParser (name : list byte) (c : MarketDataClient) (p : ItchParser OrderbookBuilder)
    (m : phase * list range) :
  follows name c m → follows name (set_itchParser c p) m.
Proof.
  destruct c, m as [[next|s k|] reqs]; intros (Hp & Hn & Hs); split; try done.
  destruct Hp as [[] ?]. done.
Qed.

Lemma deliver_implements (c : MarketDataClient) (st : spec_state) (d : list byte) :
  implements c st → no_wrap d → same_outcome implements (deliver c d) (spec_step st d).
Proof.
  intros [Hp Hf] Hw. unfold deliver, client_parse, spec_step. rewrite Hp.
  destruct (parse st.1 (Some d) (Z.of_nat (length d))) as [[p [seq n]]| | |] eqn:Hd; try done.
  cbn [mbind outcome_bind]. apply parse_header_ok in Hd as Hh; [|done].
  pose proof (track_follows _ _ _ _ (follows_set_itchParser _ c p _ Hf) Hh) as Ht.
  pose proof (track_tracked (set_itchParser c p) seq n) as Hk. cbn [fst snd] in Ht.
  destruct (track (set_itchParser c p) seq n) as [c'| | |] eqn:Htr, (machine_step st.2 (seq, n)); try done.
  split; [|done]. destruct Hk as [(c'' & [= <-] & ->)|[[? _]|[? _]]]; [by destruct c | done..].
Qed.

Lemma new_implements : implements MarketDataClient_new spec_new.
Proof. by split. Qed.

Lemma run_implements (ds : list (list byte)) :
  Forall no_wrap ds →
  same_outcome implements (fold_outcome deliver MarketDataClient_new ds) (fold_outcome spec_step spec_new ds).
Proof. apply same_outcome_fold; [apply deliver_implements | apply new_implements]. Qed.

(** ** What the machine asks for *)











(** ** Properties *)

(** C9. The client refines a machine of three phases, for any datagrams: with the parser of a
    client without sequence tracking next to it, the machine fails where the client
    fails, in the same way, and otherwise ends in the phase of the client, with its
    missing numbers, having asked for exactly the ranges the client has requested.  The
    one assumption is that no datagram announces numbers beyond 2^64 - 1. *)
Theorem client_refines_machine (ds : list (list byte)) :
  Forall no_wrap ds →
  same_outcome implements (fold_outcome deliver MarketDataClient_new ds) (fold_outcome spec_step spec_new ds).
Proof. apply run_implements. Qed.

Abbreviation sample_run :=
  [encode_packet sample_session 5 []; encode_packet sample_session 1 (take 2 sample_messages)].

Lemma client_refines_machine_witness :
  same_outcome implements (fold_outcome deliver MarketDataClient_new sample_run)
    (fold_outcome spec_step spec_new sample_run) ∧
  snd <$> fold_outcome spec_step spec_new sample_run = Ret (Recovering 5 3, [(1, 4); (3, 2)]).
Proof.
  split; [|vm_compute; reflexivity].
  apply (client_refines_machine sample_run). apply (bool_decide_unpack _). by vm_compute.
Defined.


Abbreviation sample_client :=
  (match fold_outcome deliver MarketDataClient_new sample_run with Ret c => c | _ => MarketDataClient_new end).

