(* ===== verification/ConfigParser.v ===== *)
(** * The configuration

    Models lib/utility/config_parser.hpp: the configuration records and [ConfigParser],
    which fills them from a JSON file.

    nlohmann::json is not part of the repository: it is the class [JsonLib], whose
    operations are those the parser calls, and [JsonLaws] is what their documentation
    says about them.  The file is an input: it cannot be opened, does not hold JSON, or
    holds a value.  Every parser returns the object it has modified and the [bool]; an
    exception of the library leaves it as [Throw].  The arguments of a log statement are
    evaluated only when its level is enabled ([log_info]).  The order manager writes with
    the same library: [JsonWriter] and [JsonWriterLaws] are that side of it.

    [describes] says what a file means by its keys alone, and the lemmas of the section
    [parsed] that the parser reads just this. *)
From S2P Require Import Prelude Bytes.
Local Open Scope Z_scope.

Abbreviation cstr := String.list_byte_of_string.

(** ** Configuration records *)

Inductive InstrumentType := Equity | Derivative.
#[export] Instance InstrumentType_eq_dec : EqDecision InstrumentType.
Proof. solve_decision. Defined.

(** Both configurations declare the same enumeration. *)
Record MarketDataPartitionConfig := Build_MarketDataPartitionConfig {
  mdc_name : list byte;
  mdc_instrumentType : InstrumentType;
  mdc_multicast_ip : list byte;
  mdc_multicast_port : Z;
  mdc_multicast_interface_ip : list byte;
  mdc_unicast_request_ip : list byte;
  mdc_unicast_request_port : Z;
  mdc_unicast_destination_ip : list byte;
  mdc_unicast_destination_port : Z;
  mdc_cpu : Z;
}.

Record OrderEntryPartitionConfig := Build_OrderEntryPartitionConfig {
  oec_name : list byte;
  oec_instrumentType : InstrumentType;
  oec_ip : list byte;
  oec_port : Z;
  oec_port_str : list byte;
  oec_username : list byte;
  oec_password : list byte;
}.

Record OrderEntryConfig := Build_OrderEntryConfig {
  oe_client_account : list byte;
  oe_exchange_info : list byte;
  oe_partition_configs : list OrderEntryPartitionConfig;
}.

(** [m_appParams] is not initialized: [None] until it is assigned. *)
Record ConfigParser := Build_ConfigParser {
  m_marketDataConfig : list MarketDataPartitionConfig;
  m_orderEntryConfig : OrderEntryConfig;
  m_appParams : option Z;
}.

Definition ConfigParser_new : ConfigParser := Build_ConfigParser [] (Build_OrderEntryConfig [] [] []) None.

(** Assignments to one member. *)
Definition set_marketData (c : ConfigParser) (l : list MarketDataPartitionConfig) : ConfigParser :=
  Build_ConfigParser l (m_orderEntryConfig c) (m_appParams c).
Definition set_orderEntry (c : ConfigParser) (o : OrderEntryConfig) : ConfigParser :=
  Build_ConfigParser (m_marketDataConfig c) o (m_appParams c).

(** ** The JSON library *)

Class JsonLib (json : Type) := {
  json_contains : json → list byte → bool;        (* contains(key) *)
  json_at : json → list byte → outcome json;      (* operator[](key) const *)
  json_elements : json → list json;               (* the range of a for loop *)
  json_bool : json → outcome bool;                (* get<bool>() *)
  json_string : json → outcome (list byte);       (* get<std::string>() *)
  json_int : json → outcome Z;                    (* the number an integral get<T>() casts to T *)
  json_is_integer : json → bool;                  (* is_number_integer() *)
}.
#[global] Hint Mode JsonLib ! : typeclass_instances.

(** A contained key can be read; a key that is not there cannot (reading it is undefined
    behaviour in an object and an exception elsewhere); an integer can be converted. *)
Class JsonLaws (json : Type) `{JsonLib json} : Prop := {
  at_contained (j : json) (key : list byte) : json_contains j key = true → is_ret (json_at j key) = true;
  at_missing (j : json) (key : list byte) : json_contains j key = false → is_ret (json_at j key) = false;
  int_of_integer (j : json) : json_is_integer j = true → is_ret (json_int j) = true;
}.

(** Writing a file: [j[key] = n] for an unsigned number, [dump(4)], and reading it back
    ([>>], which throws when it is not JSON: [None]). *)
Class JsonWriter (json : Type) `{JsonLib json} := {
  json_null : json;
  json_put : json → list byte → Z → json;
  json_dump : json → list byte;
  json_parse : list byte → option json;
}.
#[global] Hint Mode JsonWriter ! - : typeclass_instances.

(** What was assigned is there, as an integer, and a dump is read as what was dumped. *)
Class JsonWriterLaws (json : Type) `{JsonWriter json} : Prop := {
  put_contains (key : list byte) (n : Z) : json_contains (json_put (json_null : json) key n) key = true;
  put_at (key : list byte) (n : Z) : 0 ≤ n < 2 ^ 64 →
    ∃ v, json_at (json_put (json_null : json) key n) key = Ret v ∧ json_is_integer v = true ∧ json_int v = Ret n;
  parse_dump (key : list byte) (n : Z) : 0 ≤ n < 2 ^ 64 →
    json_parse (json_dump (json_put (json_null : json) key n)) = Some (json_put (json_null : json) key n);
}.

(** What the file holds. *)
Inductive json_file (json : Type) := FileMissing | FileInvalid | FileJson (j : json).
Arguments FileMissing {_}.
Arguments FileInvalid {_}.
Arguments FileJson {_} _.

(** A file with this content, if there is one. *)
Definition read_file {json : Type} `{JsonWriter json} (content : option (list byte)) : json_file json :=
  match content with
  | None => FileMissing
  | Some bytes => match json_parse bytes with Some j => FileJson j | None => FileInvalid end
  end.

(** ** Parsing *)

Section parsing.
Context {json : Type} `{JsonLib json} (log_info : bool).
Implicit Types (c : ConfigParser) (j : json).

Definition has j (keys : list string) : bool := forallb (λ key, json_contains j (cstr key)) keys.

(** [j[key]], converted to a string, a [uint16_t] or an [int]. *)
Definition string_at j (key : string) : outcome (list byte) := v ← json_at j (cstr key); json_string v.
Definition port_at j (key : string) : outcome Z := v ← json_at j (cstr key); wrap 16 <$> json_int v.
Definition int_at j (key : string) : outcome Z := v ← json_at j (cstr key); to_signed 32 <$> json_int v.

(** [LOG_INFO("...", j["name"].get<std::string>())] *)
Definition log_name j : outcome unit :=
  if log_info then _ ← string_at j "name"; Ret tt else Ret tt.

(** [j.contains("is_active") && !j["is_active"].get<bool>()] *)
Definition is_inactive j : outcome bool :=
  if json_contains j (cstr "is_active")
  then v ← json_at j (cstr "is_active"); b ← json_bool v; Ret (negb b)
  else Ret false.

Definition partition_keys : list string :=
  ["name"; "multicast_port"; "unicast_request_port"; "unicast_destination_port"; "cpu"]%string.

Definition market_data_partition (instrument_json : json) (type : InstrumentType) (partition : json) :
    outcome MarketDataPartitionConfig :=
  name ← string_at partition "name";
  multicast_ip ← string_at instrument_json "itch_multicast_ip";
  multicast_interface_ip ← string_at instrument_json "itch_multicast_interface_ip";
  unicast_request_ip ← string_at instrument_json "rewinder_unicast_request_ip";
  unicast_destination_ip ← string_at instrument_json "rewinder_unicast_destination_ip";
  multicast_port ← port_at partition "multicast_port";
  unicast_request_port ← port_at partition "unicast_request_port";
  unicast_destination_port ← port_at partition "unicast_destination_port";
  cpu ← int_at partition "cpu";
  Ret (Build_MarketDataPartitionConfig name type multicast_ip multicast_port multicast_interface_ip
    unicast_request_ip unicast_request_port unicast_destination_ip unicast_destination_port cpu).

Fixpoint partition_loop c (instrument_json : json) (type : InstrumentType) (partitions : list json) :
    outcome (ConfigParser * bool) :=
  match partitions with
  | [] => Ret (c, true)
  | partition :: partitions =>
      inactive ← is_inactive partition;
      _ ← log_name partition;
      if (inactive : bool) then partition_loop c instrument_json type partitions
      else if negb (has partition partition_keys) then Ret (c, false)
      else
        config ← market_data_partition instrument_json type partition;
        partition_loop (set_marketData c (m_marketDataConfig c ++ [config])) instrument_json type partitions
  end.

Definition parseInstrumentConfig c (market_data : json) (type : InstrumentType) (key : string) :
    outcome (ConfigParser * bool) :=
  if negb (json_contains market_data (cstr key)) then Ret (c, false)
  else
    instrument_json ← json_at market_data (cstr key);
    if negb (json_contains instrument_json (cstr "partitions")) then Ret (c, false)
    else
      partitions ← json_at instrument_json (cstr "partitions");
      partition_loop c instrument_json type (json_elements partitions).

Definition entry_keys : list string := ["name"; "ip"; "port"; "username"; "password"]%string.

(** [port_str] is not assigned. *)
Definition order_entry_partition (entry_json : json) (key : string) : outcome OrderEntryPartitionConfig :=
  name ← string_at entry_json "name";
  ip ← string_at entry_json "ip";
  port ← port_at entry_json "port";
  username ← string_at entry_json "username";
  password ← string_at entry_json "password";
  Ret (Build_OrderEntryPartitionConfig name (if decide (key = "equity"%string) then Equity else Derivative)
    ip port [] username password).

Definition push_entry c (config : OrderEntryPartitionConfig) : ConfigParser :=
  let o := m_orderEntryConfig c in
  set_orderEntry c (Build_OrderEntryConfig (oe_client_account o) (oe_exchange_info o)
    (oe_partition_configs o ++ [config])).

Fixpoint entry_loop c (order_entry : json) (keys : list string) : outcome (ConfigParser * bool) :=
  match keys with
  | [] => Ret (c, true)
  | key :: keys =>
      if negb (json_contains order_entry (cstr key)) then Ret (c, false)
      else
        entry_json ← json_at order_entry (cstr key);
        inactive ← is_inactive entry_json;
        _ ← log_name entry_json;
        if (inactive : bool) then entry_loop c order_entry keys
        else if negb (has entry_json entry_keys) then Ret (c, false)
        else
          config ← order_entry_partition entry_json key;
          entry_loop (push_entry c config) order_entry keys
  end.

Definition parseOrderEntryConfig c (order_entry : json) : outcome (ConfigParser * bool) :=
  if negb (has order_entry ["client_account"; "exchange_info"]%string) then Ret (c, false)
  else
    client_account ← string_at order_entry "client_account";
    exchange_info ← string_at order_entry "exchange_info";
    let c := set_orderEntry c (Build_OrderEntryConfig client_account exchange_info
               (oe_partition_configs (m_orderEntryConfig c))) in
    entry_loop c order_entry ["equity"; "derivative"]%string.

(** [if (!step) return false;] *)
Definition and_then (r : outcome (ConfigParser * bool)) (k : ConfigParser → outcome (ConfigParser * bool)) :
    outcome (ConfigParser * bool) :=
  '(c, ok) ← r; if (ok : bool) then k c else Ret (c, false).

Definition parseConfig c (file : json_file json) : outcome (ConfigParser * bool) :=
  match file with
  | FileMissing | FileInvalid => Ret (c, false)
  | FileJson j =>
      if negb (has j ["market_data"; "order_entry"]%string) then Ret (c, false)
      else
        market_data ← json_at j (cstr "market_data");
        and_then (parseInstrumentConfig c market_data Equity "equity") (λ c,
        and_then (parseInstrumentConfig c market_data Derivative "derivative") (λ c,
        order_entry ← json_at j (cstr "order_entry");
        parseOrderEntryConfig c order_entry))
  end.

Definition parseAppParameters c (file : json_file json) : outcome (ConfigParser * bool) :=
  match file with
  | FileMissing | FileInvalid => Ret (c, false)
  | FileJson j =>
      if json_contains j (cstr "last_used_order_token_index") then
        v ← json_at j (cstr "last_used_order_token_index");
        if json_is_integer v then
          n ← json_int v;
          Ret (Build_ConfigParser (m_marketDataConfig c) (m_orderEntryConfig c) (Some (wrap 32 n)), true)
        else Ret (c, false)
      else Ret (c, false)
  end.
End parsing.

(** ** What a configuration file says

    A description of the file by its keys, that uses nothing of the parser. *)

Section described.
Context {json : Type} `{JsonLib json} (log_info : bool).
Implicit Types (j : json).

(** [j] has the string [s], the number [n] or the port [p] under the key. *)
Definition text j (key : string) (s : list byte) : Prop := ∃ v, json_at j (cstr key) = Ret v ∧ json_string v = Ret s.
Definition number j (key : string) (n : Z) : Prop := ∃ v, json_at j (cstr key) = Ret v ∧ json_int v = Ret n.
Definition port j (key : string) (p : Z) : Prop := ∃ n, number j key n ∧ p = n `mod` 2 ^ 16.

(** What has no [is_active] is active. *)
Definition switched_on j : Prop :=
  json_contains j (cstr "is_active") = false ∨ ∃ v, json_at j (cstr "is_active") = Ret v ∧ json_bool v = Ret true.
Definition switched_off j : Prop := ∃ v, json_at j (cstr "is_active") = Ret v ∧ json_bool v = Ret false.

(** A partition takes the addresses of its instrument type; its own are the name, the
    ports and the processor, a number of 32 bits. *)
Record describes_partition (instrument : json) (type : InstrumentType) (partition : json)
    (config : MarketDataPartitionConfig) : Prop := {
  dp_name : text partition "name" (mdc_name config);
  dp_type : mdc_instrumentType config = type;
  dp_multicast_ip : text instrument "itch_multicast_ip" (mdc_multicast_ip config);
  dp_multicast_port : port partition "multicast_port" (mdc_multicast_port config);
  dp_interface_ip : text instrument "itch_multicast_interface_ip" (mdc_multicast_interface_ip config);
  dp_request_ip : text instrument "rewinder_unicast_request_ip" (mdc_unicast_request_ip config);
  dp_request_port : port partition "unicast_request_port" (mdc_unicast_request_port config);
  dp_destination_ip : text instrument "rewinder_unicast_destination_ip" (mdc_unicast_destination_ip config);
  dp_destination_port : port partition "unicast_destination_port" (mdc_unicast_destination_port config);
  dp_cpu : ∃ n, number partition "cpu" n ∧ mdc_cpu config `mod` 2 ^ 32 = n `mod` 2 ^ 32;
  dp_cpu_range : -2 ^ 31 ≤ mdc_cpu config < 2 ^ 31;
}.

Record describes_entry (type : InstrumentType) (entry : json) (config : OrderEntryPartitionConfig) : Prop := {
  de_name : text entry "name" (oec_name config);
  de_type : oec_instrumentType config = type;
  de_ip : text entry "ip" (oec_ip config);
  de_port : port entry "port" (oec_port config);
  de_port_str : oec_port_str config = [];
  de_username : text entry "username" (oec_username config);
  de_password : text entry "password" (oec_password config);
}.

(** One configuration for every item that is switched on, in order.  An item that is
    switched off needs a name too if it is logged that it is skipped. *)
Inductive selected {A B} (value : A → json → Prop) (describes : A → json → B → Prop) : list A → list B → Prop :=
  | selected_nil : selected value describes [] []
  | selected_off x j xs ys :
      value x j → switched_off j → (log_info = true → ∃ s, text j "name" s) →
      selected value describes xs ys → selected value describes (x :: xs) ys
  | selected_on x j y xs ys :
      value x j → switched_on j → describes x j y →
      selected value describes xs ys → selected value describes (x :: xs) (y :: ys).

Definition describes_instrument (market_data : json) (type : InstrumentType) (key : string)
    (configs : list MarketDataPartitionConfig) : Prop :=
  ∃ instrument partitions,
    json_at market_data (cstr key) = Ret instrument ∧ json_at instrument (cstr "partitions") = Ret partitions ∧
    selected (λ partition j, j = partition) (λ _, describes_partition instrument type) (json_elements partitions) configs.

Definition describes_entries (order_entry : json) (configs : list OrderEntryPartitionConfig) : Prop :=
  selected (λ kt j, json_at order_entry (cstr kt.1) = Ret j) (λ kt, describes_entry kt.2)
    [("equity", Equity); ("derivative", Derivative)]%string configs.

(** The configuration [file] describes, added to what [c] holds. *)
Definition describes (file : json) (c c' : ConfigParser) : Prop :=
  ∃ market_data order_entry equities derivatives entries client_account exchange_info,
    json_at file (cstr "market_data") = Ret market_data ∧ json_at file (cstr "order_entry") = Ret order_entry ∧
    describes_instrument market_data Equity "equity" equities ∧
    describes_instrument market_data Derivative "derivative" derivatives ∧
    text order_entry "client_account" client_account ∧ text order_entry "exchange_info" exchange_info ∧
    describes_entries order_entry entries ∧
    m_marketDataConfig c' = m_marketDataConfig c ++ equities ++ derivatives ∧
    m_orderEntryConfig c' = Build_OrderEntryConfig client_account exchange_info
      (oe_partition_configs (m_orderEntryConfig c) ++ entries) ∧
    m_appParams c' = m_appParams c.
End described.

(** ** The parser reads what the file says *)

Section parsed.
Context {json : Type} `{JsonLaws json} (log_info : bool).
Implicit Types (c : ConfigParser) (j : json).

Lemma contains_at j key v : json_at j key = Ret v → json_contains j key = true.
Proof. intros Hv. destruct (json_contains j key) eqn:Hc; [done|]. apply at_missing in Hc. by rewrite Hv in Hc. Qed.

Lemma contains_text j key s : text j key s → json_contains j (cstr key) = true.
Proof. intros (v & Hv & _). by apply contains_at in Hv. Qed.

Lemma contains_number j key n : number j key n → json_contains j (cstr key) = true.
Proof. intros (v & Hv & _). by apply contains_at in Hv. Qed.

Lemma contains_port j key p : port j key p → json_contains j (cstr key) = true.
Proof. intros (n & Hn & _). by apply contains_number in Hn. Qed.

Lemma string_at_text j key s : string_at j key = Ret s ↔ text j key s.
Proof.
  unfold string_at. split; [by intros (v & Hv & Hs)%bind_ret_inv; exists v|]. intros (v & -> & Hs). exact Hs.
Qed.

Lemma port_at_port j key p : port_at j key = Ret p ↔ port j key p.
Proof.
  unfold port_at. split.
  - intros (v & Hv & Hp)%bind_ret_inv. destruct (json_int v) as [n|? |? |?] eqn:Hn; simplify_eq/=. exists n. split; [by exists v | done].
  - intros (n & (v & -> & Hn) & ->). run_outcome. by rewrite Hn.
Qed.

Lemma int_at_number j key i :
  int_at j key = Ret i ↔ (∃ n, number j key n ∧ i `mod` 2 ^ 32 = n `mod` 2 ^ 32) ∧ -2 ^ 31 ≤ i < 2 ^ 31.
Proof.
  unfold int_at. split.
  - intros (v & Hv & Hp)%bind_ret_inv. destruct (json_int v) as [n|? |? |?] eqn:Hn; simplify_eq/=.
    split; [|by apply (to_signed_bound 32)]. exists n. split; [by exists v | by apply (wrap_to_signed 32)].
  - intros [(n & (v & -> & Hn) & He) Hr]. run_outcome. rewrite Hn. cbn. f_equal.
    transitivity (to_signed 32 i); [|by apply to_signed_id]. unfold to_signed, wrap. by rewrite He.
Qed.

Lemma inactive_off j : is_inactive j = Ret true ↔ switched_off j.
Proof.
  unfold is_inactive, switched_off. split.
  - destruct (json_contains _ _); [|done]. intros (v & Hv & (b & Hb & Hn)%bind_ret_inv)%bind_ret_inv.
    exists v. by destruct b.
  - intros (v & Hv & Hb). rewrite (contains_at _ _ _ Hv), Hv. run_outcome. by rewrite Hb.
Qed.

Lemma inactive_on j : is_inactive j = Ret false ↔ switched_on j.
Proof.
  unfold is_inactive, switched_on. split.
  - destruct (json_contains _ _); [|by left]. intros (v & Hv & (b & Hb & Hn)%bind_ret_inv)%bind_ret_inv.
    right. exists v. by destruct b.
  - intros [-> | (v & Hv & Hb)]; [done|]. rewrite (contains_at _ _ _ Hv), Hv. run_outcome. by rewrite Hb.
Qed.

(** What the log statement needs. *)
Lemma log_name_text j : log_name log_info j = Ret tt ↔ (log_info = true → ∃ s, text j "name" s).
Proof.
  unfold log_name. destruct log_info; [|by split]. split.
  - intros (s & Hs & _)%bind_ret_inv _. exists s. by apply string_at_text.
  - intros Hs. destruct (Hs eq_refl) as [s Hn%string_at_text]. by rewrite Hn.
Qed.

Lemma market_data_partition_describes (instrument : json) type j config :
  market_data_partition instrument type j = Ret config ↔ describes_partition instrument type j config.
Proof.
  unfold market_data_partition. split.
  - intros Hm. repeat apply bind_ret_inv in Hm as (? & ?%string_at_text & Hm).
    repeat apply bind_ret_inv in Hm as (? & ?%port_at_port & Hm).
    apply bind_ret_inv in Hm as (? & [? ?]%int_at_number & Hm). simplify_eq. by split.
  - destruct config. intros []; simpl in *; subst.
    repeat (erewrite (proj2 (string_at_text _ _ _)) by eassumption; run_outcome).
    repeat (erewrite (proj2 (port_at_port _ _ _)) by eassumption; run_outcome).
    by erewrite (proj2 (int_at_number _ _ _)).
Qed.

Lemma partition_has_keys (instrument : json) type j config :
  describes_partition instrument type j config → has j partition_keys = true.
Proof.
  intros [Hn _ _ Hm _ _ Hr _ Hd (n & Hc & _) _]. unfold has, partition_keys. cbn [forallb].
  by rewrite (contains_text _ _ _ Hn), (contains_port _ _ _ Hm), (contains_port _ _ _ Hr), (contains_port _ _ _ Hd),
    (contains_number _ _ _ Hc).
Qed.

Lemma order_entry_partition_describes j key config :
  order_entry_partition j key = Ret config ↔
  describes_entry (if decide (key = "equity"%string) then Equity else Derivative) j config.
Proof.
  unfold order_entry_partition. split.
  - intros (name & ?%string_at_text & (ip & ?%string_at_text & (p & ?%port_at_port & Hm)%bind_ret_inv)%bind_ret_inv)%bind_ret_inv.
    repeat apply bind_ret_inv in Hm as (? & ?%string_at_text & Hm). simplify_eq. by split.
  - destruct config. intros []; simpl in *; subst.
    repeat (erewrite (proj2 (string_at_text _ _ _)) by eassumption; run_outcome).
    erewrite (proj2 (port_at_port _ _ _)) by eassumption; run_outcome.
    by repeat (erewrite (proj2 (string_at_text _ _ _)) by eassumption; run_outcome).
Qed.

Lemma entry_has_keys type j config : describes_entry type j config → has j entry_keys = true.
Proof.
  intros [Hn _ Hi Hp _ Hu Hw]. unfold has, entry_keys. cbn [forallb].
  by rewrite (contains_text _ _ _ Hn), (contains_text _ _ _ Hi), (contains_port _ _ _ Hp), (contains_text _ _ _ Hu),
    (contains_text _ _ _ Hw).
Qed.
(** The beginning of both loops: whether the item is active, and the log statement. *)
Lemma active_or_not {A} j (k : bool → outcome A) (r : A) :
  (inactive ← is_inactive j; _ ← log_name log_info j; k inactive) = Ret r ↔
  (log_info = true → ∃ s, text j "name" s) ∧
  (switched_off j ∧ k true = Ret r ∨ switched_on j ∧ k false = Ret r).
Proof.
  rewrite <- log_name_text, <- inactive_off, <- inactive_on. split.
  - intros (i & Hi & ([] & Hn & Hk)%bind_ret_inv)%bind_ret_inv. split; [done|]. rewrite Hi. destruct i; [left|right]; done.
  - intros [Hn [[Hi Hk]|[Hi Hk]]]; rewrite Hi; run_outcome; rewrite Hn; exact Hk.
Qed.

Lemma partition_loop_selected c c' (instrument : json) type partitions :
  partition_loop log_info c instrument type partitions = Ret (c', true) ↔
  ∃ configs, c' = set_marketData c (m_marketDataConfig c ++ configs) ∧
    selected log_info (λ partition j, j = partition) (λ _, describes_partition instrument type) partitions configs.
Proof.
  revert c. induction partitions as [|j ps IH]; intros c; cbn [partition_loop].
  { split.
    - intros [= <-]. exists []. rewrite app_nil_r. split; [by destruct c | constructor].
    - intros (configs & -> & Hs). inversion Hs; subst. rewrite app_nil_r. by destruct c. }
  rewrite active_or_not. split.
  - intros [Hn [[Hoff (configs & Hc & Hs)%IH]|[Hon Hk]]].
    + exists configs. split; [done|]. by apply (selected_off log_info _ _ _ j).
    + destruct (negb _); [done|]. apply bind_ret_inv in Hk as (config & Hp & (configs & -> & Hs)%IH).
      exists (config :: configs). split; [unfold set_marketData; simpl; by rewrite <- (assoc_L (++))|].
      apply (selected_on log_info _ _ _ j); [done..| |done]. by apply market_data_partition_describes.
  - intros (configs & -> & Hs). inversion Hs as [|? ? ? ? -> Hoff Hn Hs'|? ? config ? configs' -> Hon Hp Hs']; subst.
    + split; [done|]. left. split; [done|]. apply IH. by exists configs.
    + split; [intros _; exists (mdc_name config); apply Hp|]. right. split; [done|].
      rewrite (partition_has_keys _ _ _ _ Hp). cbn [negb]. rewrite (proj2 (market_data_partition_describes _ _ _ _) Hp). run_outcome.
      apply IH. exists configs'. split; [|done]. unfold set_marketData; simpl. by rewrite <- (assoc_L (++)).
Qed.

Lemma parseInstrumentConfig_describes c c' (market_data : json) type key :
  parseInstrumentConfig log_info c market_data type key = Ret (c', true) ↔
  ∃ configs, c' = set_marketData c (m_marketDataConfig c ++ configs) ∧
    describes_instrument log_info market_data type key configs.
Proof.
  unfold parseInstrumentConfig, describes_instrument. split.
  - destruct (negb _); [done|]. intros (ij & Hij & Hr)%bind_ret_inv. revert Hr.
    destruct (negb _); [done|]. intros (ps & Hps & (configs & -> & Hs)%partition_loop_selected)%bind_ret_inv.
    exists configs. split; [done|]. by exists ij, ps.
  - intros (configs & Hc & ij & ps & Hij & Hps & Hs). rewrite (contains_at _ _ _ Hij), Hij. cbn [negb]. run_outcome.
    rewrite (contains_at _ _ _ Hps), Hps. cbn [negb]. run_outcome. apply partition_loop_selected. by exists configs.
Qed.

Lemma entry_loop_selected c c' (order_entry : json) keys :
  Forall (λ kt : string * InstrumentType, (if decide (kt.1 = "equity"%string) then Equity else Derivative) = kt.2) keys →
  entry_loop log_info c order_entry keys.*1 = Ret (c', true) ↔
  ∃ configs, c' = set_orderEntry c (Build_OrderEntryConfig (oe_client_account (m_orderEntryConfig c))
      (oe_exchange_info (m_orderEntryConfig c)) (oe_partition_configs (m_orderEntryConfig c) ++ configs)) ∧
    selected log_info (λ kt j, json_at order_entry (cstr kt.1) = Ret j) (λ kt, describes_entry kt.2) keys configs.
Proof.
  intros Hkeys. revert c. induction Hkeys as [|[key type] keys Ht _ IH]; intros c; cbn [entry_loop fmap list_fmap fst snd] in *.
  { split.
    - intros [= <-]. exists []. rewrite app_nil_r. split; [by destruct c as [? [] ?] | constructor].
    - intros (configs & -> & Hs). inversion Hs; subst. rewrite app_nil_r. by destruct c as [? [] ?]. }
  split.
  - destruct (negb _); [done|].
    intros (j & Hj & [Hn [[Hoff (configs & Hc & Hs)%IH]|[Hon Hk]]]%active_or_not)%bind_ret_inv.
    + exists configs. split; [done|]. by apply (selected_off log_info _ _ _ j).
    + revert Hk. destruct (negb _); [done|].
      intros (config & Hp%order_entry_partition_describes & (configs & -> & Hs)%IH)%bind_ret_inv.
      exists (config :: configs). split; [unfold push_entry; simpl; by rewrite <- (assoc_L (++))|].
      apply (selected_on log_info _ _ _ j); [done..| |done]. by rewrite <- Ht.
  - intros (configs & -> & Hs).
    inversion Hs as [|? j ? ? Hj Hoff Hn Hs'|? j config ? configs' Hj Hon Hp Hs']; subst;
      cbn [fst snd] in *; rewrite (contains_at _ _ _ Hj), Hj; cbn [negb]; run_outcome; apply active_or_not.
    + split; [done|]. left. split; [done|]. apply IH. by exists configs.
    + split; [intros _; exists (oec_name config); apply Hp|]. right. split; [done|].
      rewrite (entry_has_keys _ _ _ Hp). cbn [negb]. rewrite (proj2 (order_entry_partition_describes _ _ _) Hp). run_outcome.
      apply IH. exists configs'. split; [|done]. unfold push_entry; simpl. by rewrite <- (assoc_L (++)).
Qed.

Lemma parseOrderEntryConfig_describes c c' (order_entry : json) :
  parseOrderEntryConfig log_info c order_entry = Ret (c', true) ↔
  ∃ client_account exchange_info configs,
    text order_entry "client_account" client_account ∧ text order_entry "exchange_info" exchange_info ∧
    describes_entries log_info order_entry configs ∧
    c' = set_orderEntry c (Build_OrderEntryConfig client_account exchange_info
      (oe_partition_configs (m_orderEntryConfig c) ++ configs)).
Proof.
  unfold parseOrderEntryConfig, describes_entries.
  assert (Hloop : ∀ c, entry_loop log_info c order_entry ["equity"; "derivative"]%string = Ret (c', true) ↔ _)
    by (intros c0; apply (entry_loop_selected c0 c' order_entry [("equity", Equity); ("derivative", Derivative)]%string);
        by repeat constructor).
  split.
  - destruct (negb _); [done|].
    intros (ca & Hca%string_at_text & (ei & Hei%string_at_text & (configs & -> & Hs)%Hloop)%bind_ret_inv)%bind_ret_inv.
    by exists ca, ei, configs.
  - intros (ca & ei & configs & Hca & Hei & Hs & ->). unfold has. cbn [forallb].
    rewrite (contains_text _ _ _ Hca), (contains_text _ _ _ Hei). cbn [negb andb].
    rewrite (proj2 (string_at_text _ _ _) Hca), (proj2 (string_at_text _ _ _) Hei). run_outcome.
    apply Hloop. by exists configs.
Qed.

Lemma and_then_true (r : outcome (ConfigParser * bool)) k c' :
  and_then r k = Ret (c', true) ↔ ∃ c, r = Ret (c, true) ∧ k c = Ret (c', true).
Proof.
  unfold and_then. split.
  - intros ([c []] & Hr & Hk)%bind_ret_inv; [by exists c | done].
  - intros (c & -> & Hk). exact Hk.
Qed.
End parsed.

(** ** A concrete JSON library *)

Inductive sample_json :=
  | JNull
  | JBool (b : bool)
  | JInt (z : Z)
  | JString (s : list byte)
  | JArray (l : list sample_json)
  | JObject (l : list (list byte * sample_json)).

Fixpoint member (l : list (list byte * sample_json)) (key : list byte) : option sample_json :=
  match l with
  | [] => None
  | (k, v) :: l => if decide (k = key) then Some v else member l key
  end.

#[export] Instance sample_json_lib : JsonLib sample_json := {|
  json_contains j key :=
    match j with JObject l => match member l key with Some _ => true | None => false end | _ => false end;
  json_at j key :=
    match j with
    | JObject l => match member l key with Some v => Ret v | None => Undef InvalidIterator end
    | _ => Throw "type_error"
    end;
  json_elements j := match j with JNull => [] | JArray l => l | JObject l => snd <$> l | _ => [j] end;
  json_bool j := match j with JBool b => Ret b | _ => Throw "type_error" end;
  json_string j := match j with JString s => Ret s | _ => Throw "type_error" end;
  json_int j := match j with JInt z => Ret z | JBool b => Ret (Z.b2z b) | _ => Throw "type_error" end;
  json_is_integer j := match j with JInt _ => true | _ => false end;
|}.

#[export] Instance sample_json_laws : JsonLaws sample_json.
Proof.
  split.
  - intros j key. destruct j; simpl; try done. by destruct (member _ _).
  - intros j key. destruct j; simpl; try done. by destruct (member _ _).
  - intros j. by destruct j.
Qed.

(** Numbers of an object with one member are written as eight bytes before the key. *)
#[export] Instance sample_json_writer : JsonWriter sample_json := {|
  json_null := JNull;
  json_put j key n := match j with JObject l => JObject ((key, JInt n) :: l) | _ => JObject [(key, JInt n)] end;
  json_dump j := match j with JObject [(key, JInt n)] => le_store 8 n ++ key | _ => [] end;
  json_parse bytes := Some (JObject [(drop 8 bytes, JInt (le_load (take 8 bytes)))]);
|}.

#[export] Instance sample_json_writer_laws : JsonWriterLaws sample_json.
Proof.
  split; cbn [json_put json_null json_dump json_parse json_contains json_at json_is_integer json_int
    sample_json_writer sample_json_lib member].
  - intros key n. by rewrite decide_True.
  - intros key n _. exists (JInt n). by rewrite decide_True.
  - intros key n Hn. rewrite drop_app_length', take_app_length' by (by rewrite length_le_store).
    rewrite le_load_store. change (bytes_modulus 8) with (2 ^ 64). by rewrite Z.mod_small.
Qed.

Definition obj (l : list (string * sample_json)) : sample_json := JObject ((λ p, (cstr p.1, p.2)) <$> l).
Definition str (s : string) : sample_json := JString (cstr s).

Definition sample_partition (name : string) (port : Z) : sample_json :=
  obj [("name", str name); ("multicast_port", JInt port); ("unicast_request_port", JInt (port + 1));
       ("unicast_destination_port", JInt (port + 2)); ("cpu", JInt 1)]%string.
Definition sample_inactive : sample_json := obj [("name", str "Equity-2"); ("is_active", JBool false)]%string.
Definition sample_instrument (partitions : list sample_json) : sample_json :=
  obj [("itch_multicast_ip", str "233.113.216.65"); ("itch_multicast_interface_ip", str "10.46.117.197");
       ("rewinder_unicast_request_ip", str "10.46.117.198"); ("rewinder_unicast_destination_ip", str "194.0.142.71");
       ("partitions", JArray partitions)]%string.
Definition sample_entry (name : string) (is_active : bool) : sample_json :=
  obj [("name", str name); ("ip", str "10.57.3.57"); ("port", JInt 21501); ("username", str "USER");
       ("password", str "PWD"); ("is_active", JBool is_active)]%string.
Definition sample_file : sample_json :=
  obj [("market_data", obj [("equity", sample_instrument [sample_partition "Equity-1" (2 ^ 16 + 21001); sample_inactive]);
                            ("derivative", sample_instrument [])]);
       ("order_entry", obj [("client_account", str "TEST"); ("exchange_info", str "INFO");
                            ("equity", sample_entry "OUCH-1" true); ("derivative", sample_entry "OUCH-2" false)])]%string.

Definition sample_parsed : ConfigParser := Eval vm_compute in
  match parseConfig true ConfigParser_new (FileJson sample_file) with Ret (c, _) => c | _ => ConfigParser_new end.

(** ** Properties *)

(** C28. The configuration is read exactly when the file describes one, and then it is the
    one the file describes ([describes]), key by key: a configuration for every partition
    whose [is_active] is not false, equities before derivatives and in the order of the
    file, with the addresses of its instrument type and its own name, processor and ports,
    which are taken modulo 2^16; a configuration for either order entry that is active
    likewise; and the account and the exchange info.  What the parser held before stays in
    front.  With logging on, what is skipped needs a name too.  [JsonLaws] is the documented
    behaviour of the JSON library. *)
Theorem parseConfig_collects {json : Type} `{JsonLaws json} (log_info : bool) (c c' : ConfigParser) (file : json) :
  parseConfig log_info c (FileJson file) = Ret (c', true) ↔ describes log_info file c c'.
Proof.
  unfold parseConfig, describes. split.
  - destruct (negb _); [done|]. intros (md & Hmd & Hr)%bind_ret_inv.
    apply and_then_true in Hr as (c1 & (eqs & -> & He)%parseInstrumentConfig_describes & Hr).
    apply and_then_true in Hr as (c2 & (ders & -> & Hd)%parseInstrumentConfig_describes & Hr).
    apply bind_ret_inv in Hr as (oe & Hoe & (ca & ei & ens & ? & ? & ? & ->)%parseOrderEntryConfig_describes).
    exists md, oe, eqs, ders, ens, ca, ei. split_and!; try done. simpl. by rewrite (assoc_L (++)).
  - intros (md & oe & eqs & ders & ens & ca & ei & Hmd & Hoe & He & Hd & Hca & Hei & Hen & Hm & Ho & Ha).
    unfold has. cbn [forallb]. rewrite (contains_at _ _ _ Hmd), (contains_at _ _ _ Hoe), Hmd. cbn [negb andb]. run_outcome.
    apply and_then_true. eexists. split; [apply parseInstrumentConfig_describes; by exists eqs|].
    apply and_then_true. eexists. split; [apply parseInstrumentConfig_describes; by exists ders|].
    rewrite Hoe. run_outcome. apply parseOrderEntryConfig_describes. exists ca, ei, ens. split_and!; [done..|].
    destruct c'; simpl in *. subst. unfold set_orderEntry, set_marketData. simpl. by rewrite (assoc_L (++)).
Qed.

(** The active partition and the active entry of [sample_file], whose first port is beyond
    2^16. *)
Lemma parseConfig_collects_witness :
  sample_parsed = Build_ConfigParser
    [Build_MarketDataPartitionConfig (cstr "Equity-1") Equity (cstr "233.113.216.65") 21001 (cstr "10.46.117.197")
       (cstr "10.46.117.198") 21002 (cstr "194.0.142.71") 21003 1]
    (Build_OrderEntryConfig (cstr "TEST") (cstr "INFO")
       [Build_OrderEntryPartitionConfig (cstr "OUCH-1") Equity (cstr "10.57.3.57") 21501 [] (cstr "USER") (cstr "PWD")])
    None ∧
  describes true sample_file ConfigParser_new sample_parsed.
Proof.
  split; [by vm_compute|]. apply (parseConfig_collects true ConfigParser_new sample_parsed sample_file). by vm_compute.
Defined.

(** C40. The check for a missing name comes too late: an active partition without a name is
    only reported as such when logging is off; with logging on, the log statement before
    the check reads the missing member, which is undefined behaviour in an object and an
    exception elsewhere, so that the loop returns nothing. *)
Theorem missing_name {json : Type} `{JsonLaws json} (c : ConfigParser) (instrument_json partition : json)
    (type : InstrumentType) (partitions : list json) :
  is_inactive partition = Ret false → json_contains partition (cstr "name") = false →
  partition_loop false c instrument_json type (partition :: partitions) = Ret (c, false) ∧
  is_ret (partition_loop true c instrument_json type (partition :: partitions)) = false.
Proof.
  intros Ha Hn. cbn [partition_loop]. rewrite Ha. cbn [mbind outcome_bind log_name]. split.
  - unfold has. cbn [forallb partition_keys]. by rewrite Hn.
  - unfold string_at. pose proof (at_missing partition (cstr "name") Hn) as Hm.
    by destruct (json_at partition (cstr "name")).
Qed.

Lemma missing_name_witness :
  let partition := obj [("multicast_port", JInt 21001)]%string in
  partition_loop false ConfigParser_new JNull Equity [partition] = Ret (ConfigParser_new, false) ∧
  is_ret (partition_loop true ConfigParser_new JNull Equity [partition]) = false.
Proof.
  intros partition. apply (missing_name ConfigParser_new JNull partition Equity []); by vm_compute.
Defined.
