(* ===== verification/ConfigDisplay.v ===== *)
(** * What the configuration looks like in the log

    The [toString] functions of lib/utility/config_parser.hpp, [printConfig] and the
    getters.  The fmt library, which also formats the log statements, is not part of the
    repository: it is the class [FmtLib]; [FmtLaws] says what its documentation says about
    replacement fields. *)
From S2P Require Import Prelude Bytes Digits ConfigParser.
Local Open Scope Z_scope.

(** ** The formatting library *)

Inductive fmt_arg := ArgString (s : list byte) | ArgInt (z : Z).

(** [fmt::format] of a format string and its arguments. *)
Class FmtLib := fmt_format : list byte → list fmt_arg → list byte.

(** The text of an argument in a plain field. *)
Definition text (a : fmt_arg) : list byte :=
  match a with
  | ArgString s => s
  | ArgInt z => if z <? 0 then "-"%byte :: to_string (- z) else to_string z
  end.

(** A format string with a field between any two of its pieces, and its result. *)
Fixpoint template (first : list byte) (pieces : list (list byte)) : list byte :=
  match pieces with
  | [] => first
  | p :: pieces => first ++ cstr "{}" ++ template p pieces
  end.

Fixpoint fill (first : list byte) (rest : list (fmt_arg * list byte)) : list byte :=
  match rest with
  | [] => first
  | (a, p) :: rest => first ++ text a ++ fill p rest
  end.

Definition no_brace (p : list byte) : Prop := "{"%byte ∉ p.
#[export] Instance no_brace_dec (p : list byte) : Decision (no_brace p).
Proof. unfold no_brace. apply _. Defined.

(** The fields are replaced by the arguments, in order. *)
Class FmtLaws `{FmtLib} : Prop :=
  format_fields (first : list byte) (rest : list (fmt_arg * list byte)) :
    Forall no_brace (first :: (snd <$> rest)) →
    fmt_format (template first (snd <$> rest)) (fst <$> rest) = fill first rest.

(** ** The configuration *)

(** [type == InstrumentType::Equity ? "Equity" : "Derivative"] *)
Definition type_name (t : InstrumentType) : list byte :=
  match t with Equity => cstr "Equity" | Derivative => cstr "Derivative" end.

Section display.
Context `{FmtLib}.

Definition market_data_format : list byte :=
  cstr "Name: {}, Type: {}, Multicast IP: {}, Multicast Port: {}, " ++
  cstr "Multicast Interface IP: {}, Unicast Request IP: {}, " ++
  cstr "Unicast Request Port: {}, Unicast Destination IP: {}, " ++
  cstr "Unicast Destination Port: {}, CPU: {}".

Definition market_data_args (p : MarketDataPartitionConfig) : list fmt_arg :=
  [ArgString (mdc_name p); ArgString (type_name (mdc_instrumentType p)); ArgString (mdc_multicast_ip p);
   ArgInt (mdc_multicast_port p); ArgString (mdc_multicast_interface_ip p); ArgString (mdc_unicast_request_ip p);
   ArgInt (mdc_unicast_request_port p); ArgString (mdc_unicast_destination_ip p);
   ArgInt (mdc_unicast_destination_port p); ArgInt (mdc_cpu p)].

(** [MarketDataPartitionConfig::toString] *)
Definition MarketData_toString (p : MarketDataPartitionConfig) : list byte :=
  fmt_format market_data_format (market_data_args p).

Definition order_entry_args (e : OrderEntryPartitionConfig) : list fmt_arg :=
  [ArgString (oec_name e); ArgString (type_name (oec_instrumentType e)); ArgString (oec_ip e); ArgInt (oec_port e);
   ArgString (oec_username e); ArgString (oec_password e)].

(** [OrderEntryPartitionConfig::toString] *)
Definition OrderEntry_toString (e : OrderEntryPartitionConfig) : list byte :=
  fmt_format (cstr "Name: {}, Type: {}, IP: {}, Port: {}, Username: {}, Password: {}") (order_entry_args e).

Definition market_data_line (p : MarketDataPartitionConfig) : list byte :=
  fmt_format
    (cstr "Market Data Partition: {}, Type: {}, Multicast IP: {}, Port: {}, Interface IP: {}, " ++
     cstr "Unicast Request IP: {}, Request Port: {}, Destination IP: {}, Destination Port: {}, CPU: {}")
    (market_data_args p).

Definition order_entry_line (e : OrderEntryPartitionConfig) : list byte :=
  fmt_format (cstr "Order Entry Partition: {}, Type: {}, IP: {}, Port: {}, Username: {}, Password: {}")
    (order_entry_args e).

(** [printConfig]: the lines it logs. *)
Definition printConfig (c : ConfigParser) : list (list byte) :=
  (market_data_line <$> m_marketDataConfig c) ++
  [fmt_format (cstr "Client Account: {}") [ArgString (oe_client_account (m_orderEntryConfig c))];
   fmt_format (cstr "Exchange Info: {}") [ArgString (oe_exchange_info (m_orderEntryConfig c))]] ++
  (order_entry_line <$> oe_partition_configs (m_orderEntryConfig c)).
End display.

(** The getters; [m_appParams] may not have been initialized. *)
Definition getMarketDataPartitionConfigs (c : ConfigParser) : list MarketDataPartitionConfig := m_marketDataConfig c.
Definition getOrderEntryConfig (c : ConfigParser) : OrderEntryConfig := m_orderEntryConfig c.
Definition getAppParameters (c : ConfigParser) : option Z := m_appParams c.

(** ** A concrete formatting library *)

Fixpoint sample_format (s : list byte) (args : list fmt_arg) : list byte :=
  match s with
  | [] => []
  | x7b :: x7d :: s => match args with a :: args => text a ++ sample_format s args | [] => [] end
  | c :: s => c :: sample_format s args
  end.
#[export] Instance sample_fmt : FmtLib := sample_format.

Lemma sample_format_piece (p s : list byte) (args : list fmt_arg) :
  no_brace p → sample_format (p ++ s) args = p ++ sample_format s args.
Proof.
  induction p as [|c p IH]; intros Hp; [done|]. apply not_elem_of_cons in Hp as [Hc Hp].
  cbn [app]. rewrite <- (IH Hp). by destruct c.
Qed.

#[export] Instance sample_fmt_laws : FmtLaws.
Proof.
  intros first rest. change (@fmt_format sample_fmt) with sample_format. revert first.
  induction rest as [|[a p] rest IH]; intros first Hf; cbn [fmap list_fmap fst snd template fill];
    apply Forall_cons in Hf as [Hfirst Hf].
  - rewrite <- (app_nil_r first) at 1. rewrite sample_format_piece by done. by rewrite app_nil_r.
  - rewrite sample_format_piece by done. f_equal. change (cstr "{}" ++ ?x) with (x7b :: x7d :: x).
    cbn [sample_format]. f_equal. by apply IH.
Qed.

(** ** Properties *)

Section laws.
Context `{FmtLaws}.

(** The order entry configuration as text, every member in its place. *)
Lemma order_entry_text (e : OrderEntryPartitionConfig) (prefix : string) :
  no_brace (cstr prefix) →
  fmt_format (cstr prefix ++ cstr "{}, Type: {}, IP: {}, Port: {}, Username: {}, Password: {}") (order_entry_args e) =
    cstr prefix ++ oec_name e ++ cstr ", Type: " ++ type_name (oec_instrumentType e) ++ cstr ", IP: " ++ oec_ip e ++
    cstr ", Port: " ++ text (ArgInt (oec_port e)) ++ cstr ", Username: " ++ oec_username e ++ cstr ", Password: " ++
    oec_password e.
Proof.
  intros Hp. pose proof (format_fields (cstr prefix)
    [(ArgString (oec_name e), cstr ", Type: "); (ArgString (type_name (oec_instrumentType e)), cstr ", IP: ");
     (ArgString (oec_ip e), cstr ", Port: "); (ArgInt (oec_port e), cstr ", Username: ");
     (ArgString (oec_username e), cstr ", Password: "); (ArgString (oec_password e), [])]) as Hf.
  etransitivity; [exact (Hf ltac:(constructor; [exact Hp|]; apply (bool_decide_unpack _); vm_compute; exact I))|].
  cbn [fill text]. by rewrite app_nil_r.
Qed.
End laws.

(** The password is logged: the text of an order entry configuration, which the client
    logs whenever it names its partition, and the line [printConfig] logs for it, show all
    its members in order, and the password in clear at the end. *)
Theorem password_logged `{FmtLaws} (c : ConfigParser) (e : OrderEntryPartitionConfig) :
  e ∈ oe_partition_configs (getOrderEntryConfig c) →
  ∃ text_of : list byte,
    OrderEntry_toString e = cstr "Name: " ++ text_of ++ cstr ", Password: " ++ oec_password e ∧
    cstr "Order Entry Partition: " ++ text_of ++ cstr ", Password: " ++ oec_password e ∈ printConfig c.
Proof.
  intros He. exists (oec_name e ++ cstr ", Type: " ++ type_name (oec_instrumentType e) ++ cstr ", IP: " ++ oec_ip e ++
    cstr ", Port: " ++ text (ArgInt (oec_port e)) ++ cstr ", Username: " ++ oec_username e). split.
  - pose proof (order_entry_text e "Name: ") as Ht. unfold OrderEntry_toString.
    etransitivity; [apply Ht; apply (bool_decide_unpack _); vm_compute; exact I|]. by rewrite <- !(assoc_L (++)).
  - pose proof (order_entry_text e "Order Entry Partition: ") as Ht.
    assert (Hline : order_entry_line e = cstr "Order Entry Partition: " ++ (oec_name e ++ cstr ", Type: " ++
      type_name (oec_instrumentType e) ++ cstr ", IP: " ++ oec_ip e ++ cstr ", Port: " ++ text (ArgInt (oec_port e)) ++
      cstr ", Username: " ++ oec_username e) ++ cstr ", Password: " ++ oec_password e).
    { etransitivity; [apply Ht; apply (bool_decide_unpack _); vm_compute; exact I|]. by rewrite <- !(assoc_L (++)). }
    rewrite <- Hline. unfold printConfig. apply elem_of_app. right. apply elem_of_app. right.
    by apply list_elem_of_fmap_2.
Qed.

Definition sample_entry : OrderEntryPartitionConfig :=
  Build_OrderEntryPartitionConfig (cstr "P1") Equity (cstr "10.0.0.1") 6642 [] (cstr "USER") (cstr "SECRET").

Lemma password_logged_witness :
  let c := push_entry ConfigParser_new sample_entry in
  ∃ text_of : list byte,
    OrderEntry_toString sample_entry = cstr "Name: " ++ text_of ++ cstr ", Password: SECRET" ∧
    cstr "Order Entry Partition: " ++ text_of ++ cstr ", Password: SECRET" ∈ printConfig c.
Proof.
  intros c. apply (password_logged c sample_entry). constructor.
Defined.
