(* ===== verification/Logging.v ===== *)
(** * Logging

    lib/utility/quill_wrapper.cpp, which sets up the logger, the macros of
    lib/utility/overwrite_macros.hpp that log through it, and [EXPECT] of
    lib/core/l2_orderbook.hpp, which only logs.

    quill is not part of the repository: it is the class [QuillLib], whose operations are
    the functions and macros of quill that the wrapper and its macros call, on a state [W]
    of the library.  Nothing is assumed of them. *)
From S2P Require Import Prelude Bytes ConfigParser ConfigDisplay.
Local Open Scope Z_scope.

(** [quill::LogLevel], as far as it is used, in its order. *)
Inductive LogLevel := TraceL3 | TraceL2 | TraceL1 | Debug | Info | Warning | Error.
#[export] Instance LogLevel_eq_dec : EqDecision LogLevel.
Proof. solve_decision. Defined.
Definition severity (l : LogLevel) : Z :=
  match l with TraceL3 => 0 | TraceL2 => 1 | TraceL1 => 2 | Debug => 3 | Info => 4 | Warning => 5 | Error => 6 end.

Record FileSinkConfig := Build_FileSinkConfig { open_mode : byte; append_start_date_time : bool }.
Record PatternFormatterOptions := Build_PatternFormatterOptions {
  format_pattern : list byte;
  timestamp_pattern : list byte;
  gmt_time : bool;
}.

(** A log statement that has been accepted: its level, format string and arguments. *)
Abbreviation logged := (LogLevel * list byte * list fmt_arg)%type.

(** [QUILL_LOG] is the macro QUILL_LOG_<level>: it gets a pointer to a logger, which may be
    null, and arguments whose evaluation may fail. *)
Class QuillLib (W sink logger : Type) := {
  Backend_start : W → W;
  create_or_get_sink : W → list byte → FileSinkConfig → W * sink;
  create_or_get_logger : W → list byte → sink → PatternFormatterOptions → W * logger;
  set_log_level : W → logger → LogLevel → W;
  QUILL_LOG : LogLevel → W → option logger → list byte → outcome (list fmt_arg) → outcome W;
}.

(** ** The global logger *)

Section logging.
Context {W sink logger : Type} `{QuillLib W sink logger}.

(** The library and [global_logger_a], which is null until [setup_quill] has run. *)
Record logging := Build_logging { quill : W; global_logger_a : option logger }.

Definition setup_quill (log_file : list byte) (level : LogLevel) (st : logging) : logging :=
  let w := Backend_start (quill st) in
  let '(w, file_sink) := create_or_get_sink w log_file (Build_FileSinkConfig "w" true) in
  let '(w, l) := create_or_get_logger w (cstr "root") file_sink (Build_PatternFormatterOptions
    (cstr "%(time) [%(thread_id)] %(short_source_location:<28) LOG_%(log_level:<9) %(logger:<12) %(message)")
    (cstr "%H:%M:%S.%Qns") true) in
  Build_logging (set_log_level w l level) (Some l).

(** The macros log through the global logger. *)
Definition with_quill (st : logging) (w : W) : logging := Build_logging w (global_logger_a st).

Abbreviation log_macro := (list byte → outcome (list fmt_arg) → logging → outcome logging).

Definition LOG_INFO : log_macro := λ fmt args st, with_quill st <$> QUILL_LOG Info (quill st) (global_logger_a st) fmt args.
Definition LOG_WARNING : log_macro := λ fmt args st, with_quill st <$> QUILL_LOG Warning (quill st) (global_logger_a st) fmt args.
Definition LOG_ERROR : log_macro := λ fmt args st, with_quill st <$> QUILL_LOG Error (quill st) (global_logger_a st) fmt args.
Definition LOG_DEBUG : log_macro := λ fmt args st, with_quill st <$> QUILL_LOG Debug (quill st) (global_logger_a st) fmt args.
Definition LOG_TRACE_L1 : log_macro := λ fmt args st, with_quill st <$> QUILL_LOG TraceL1 (quill st) (global_logger_a st) fmt args.
Definition LOG_TRACE_L2 : log_macro := λ fmt args st, with_quill st <$> QUILL_LOG TraceL2 (quill st) (global_logger_a st) fmt args.
Definition LOG_TRACE_L3 : log_macro := λ fmt args st, with_quill st <$> QUILL_LOG TraceL3 (quill st) (global_logger_a st) fmt args.

Definition HandleError (st : logging) : outcome logging := LOG_ERROR (cstr "Error being handled.") (Ret []) st.

(** [EXPECT(cond)] *)
Definition EXPECT (cond : bool) (st : logging) : outcome logging := if negb cond then HandleError st else Ret st.

End logging.
Arguments logging _ _ : clear implicits.

(** ** A concrete library: one logger, with a level and a queue *)

Record sample_quill := Build_sample_quill { sq_level : LogLevel; sq_queue : list logged }.

#[export] Instance sample_quill_lib : QuillLib sample_quill unit unit := {|
  Backend_start w := w;
  create_or_get_sink w _ _ := (w, tt);
  create_or_get_logger w _ _ _ := (w, tt);
  set_log_level w _ level := Build_sample_quill level (sq_queue w);
  QUILL_LOG level w l fmt args :=
    match l with
    | None => Undef NullPointer
    | Some _ =>
        if severity (sq_level w) <=? severity level
        then args ← args; Ret (Build_sample_quill (sq_level w) (sq_queue w ++ [(level, fmt, args)]))
        else Ret w
    end;
|}.

Definition sample_logging : logging sample_quill unit := Build_logging (Build_sample_quill Error []) None.

(** After the set-up every macro is logged at its own level, and an [EXPECT] that does not
    hold as an error; before it, both go through a null pointer. *)
Example sample_levels :
  let run (m : logging sample_quill unit → outcome (logging sample_quill unit)) :=
    (λ st, (sq_queue (quill st)).*1.*1) <$> m (setup_quill (cstr "log.txt") TraceL3 sample_logging) in
  run (LOG_INFO [] (Ret [])) = Ret [Info] ∧ run (LOG_WARNING [] (Ret [])) = Ret [Warning] ∧
  run (LOG_ERROR [] (Ret [])) = Ret [Error] ∧ run (LOG_DEBUG [] (Ret [])) = Ret [Debug] ∧
  run (LOG_TRACE_L1 [] (Ret [])) = Ret [TraceL1] ∧ run (LOG_TRACE_L2 [] (Ret [])) = Ret [TraceL2] ∧
  run (LOG_TRACE_L3 [] (Ret [])) = Ret [TraceL3] ∧ run (EXPECT false) = Ret [Error] ∧ run (EXPECT true) = Ret [] ∧
  LOG_INFO [] (Ret []) sample_logging = Undef NullPointer ∧ EXPECT false sample_logging = Undef NullPointer.
Proof. by vm_compute. Qed.
