(* ===== verification/OrderManager.v ===== *)
(** * The order manager

    Models lib/core/order_manager.hpp: the orders of an OUCH session in an array indexed
    by the decimal value of their token, the generator of order tokens, and the pending
    replacements.  A token is 14 characters; its arithmetic is that of [char] (signed),
    [int], [uint32_t] and [size_t] as written.  The file the destructor
    writes and the constructor reads is made with the JSON library of ConfigParser.v.
    Logging is left out. *)
From S2P Require Import Prelude Bytes Digits ConfigParser.
Local Open Scope Z_scope.

Definition ORDERS_SIZE : Z := Z.shiftl 1 10.

Abbreviation token := (list byte).

Record Order := Build_Order {
  quantity : Z;
  orderbook_id : Z;
  price : Z;
  side : byte;
  is_valid : bool;
}.

#[export] Instance Order_eq_dec : EqDecision Order.
Proof. solve_decision. Defined.

Record OrderManager := Build_OrderManager {
  m_orders : list Order;
  m_token : token;
  m_originalToReplacementTokens : list (token * token);
}.

(** ** Tokens *)

(** The constructor's loop: the last [n] characters, from the last one on. *)
Fixpoint token_digits (n : nat) (index : Z) (acc : token) : token :=
  match n with
  | O => acc
  | S n => token_digits n (Z.quot index 10) (digit (Z.rem index 10) :: acc)
  end.

(** The initial value of [m_orders]: value-initialized members, [is_valid] true. *)
Definition Order_new : Order := Build_Order 0 0 0 x00 true.

Definition OrderManager_new (last_order_token_index : Z) : OrderManager := {|
  m_orders := replicate (Z.to_nat ORDERS_SIZE) Order_new;
  m_token := token_digits 14 (to_signed 32 (wrap 32 (last_order_token_index + 1))) [];
  m_originalToReplacementTokens := [];
|}.

(** [last_used_order_token_index], which the destructor saves: a [uint32_t]. *)
Definition last_used_order_token_index (m : OrderManager) : Z :=
  foldl (λ token_index c, wrap 32 (token_index * 10 + digit_value c)) 0 (m_token m).

(** The destructor: what it writes to app_parameters.json, if the file can be opened. *)
Definition OrderManager_delete {json : Type} `{JsonWriter json} (m : OrderManager) (is_open : bool) : option (list byte) :=
  let j := json_put (json_null : json) (cstr "last_used_order_token_index") (last_used_order_token_index m) in
  if is_open then Some (json_dump j) else None.

(** [toString] and [printToken]: the token as a string, and as it is logged. *)
Definition toString (t : token) : list byte :=
  foldl (λ str i, <[i := default x00 (t !! i)]> str) (replicate (length t) x00) (seq 0 (length t)).

Definition printToken (t : token) : list byte := cstr "Token: " ++ toString t.

Definition parse_order_token_decimal (t : token) : Z :=
  foldl (λ index c, wrap 64 (index * 10 + digit_value c)) 0 t.

(** The loop of [nextToken], from the last character to the first: the new characters
    and the carry that leaves them. *)
Fixpoint next_digits (t : token) : token * Z :=
  match t with
  | [] => ([], 1)
  | c :: t =>
      let '(t', carry) := next_digits t in
      let is_nine := if Byte.eqb c "9" then 1 else 0 in
      (digit (Z.rem (digit_value c + carry) 10) :: t', is_nine)
  end.

Definition nextToken (m : OrderManager) : OrderManager * token :=
  let t := (next_digits (m_token m)).1 in
  (Build_OrderManager (m_orders m) t (m_originalToReplacementTokens m), t).

(** ** Orders *)

Definition withinRange (m : OrderManager) (index : Z) : bool :=
  negb (Z.of_nat (length (m_orders m)) <=? index).

(** The index behind the pointer [getOrder] returns; [None] is the null pointer. *)
Definition getOrder (m : OrderManager) (t : token) : option nat :=
  let index := parse_order_token_decimal t in
  if negb (withinRange m index) then None else Some (Z.to_nat index).

Definition update_order (m : OrderManager) (i : nat) (f : Order → Order) : OrderManager :=
  Build_OrderManager (alter f i (m_orders m)) (m_token m) (m_originalToReplacementTokens m).

Definition orderAccepted (m : OrderManager) (t : token) (qty ob px : Z) (sd : byte) : OrderManager :=
  let index := parse_order_token_decimal t in
  if negb (withinRange m index) then m
  else update_order m (Z.to_nat index) (λ o, Build_Order qty ob px sd (is_valid o)).

(** The loop [for (size_t i = size() - 1; i >= 0; --i)] over the pending replacements,
    last one first.  Its condition always holds: when nothing matches, [i] wraps around
    and the vector is read out of bounds. *)
Fixpoint find_original (rev_pending : list (token * token)) (replacement_token : token) : outcome token :=
  match rev_pending with
  | [] => Undef OutOfBoundsRead
  | (original, replacement) :: l =>
      if decide (replacement = replacement_token) then Ret original else find_original l replacement_token
  end.

(** [original_order_token.empty()] is false for an array of 14 characters. *)
Definition orderReplaced (m : OrderManager) (replacement_token : token) (px : Z) : outcome OrderManager :=
  original_order_token ← find_original (rev (m_originalToReplacementTokens m)) replacement_token;
  match getOrder m original_order_token with
  | None => Ret m
  | Some i => Ret (update_order m i (λ o, Build_Order (quantity o) (orderbook_id o) px (side o) (is_valid o)))
  end.

Definition pendingReplace (m : OrderManager) (original_order_token replacement_order_token : token) :
    OrderManager :=
  Build_OrderManager (m_orders m) (m_token m)
    (m_originalToReplacementTokens m ++ [(original_order_token, replacement_order_token)]).

Definition orderExecuted (m : OrderManager) (t : token) (traded_qty : Z) : OrderManager :=
  match getOrder m t with
  | None => m
  | Some i => update_order m i (λ o,
      let q := wrap 64 (quantity o - traded_qty) in
      Build_Order q (orderbook_id o) (price o) (side o) (if q =? 0 then false else is_valid o))
  end.

Definition orderDeleted (m : OrderManager) (t : token) : OrderManager :=
  match getOrder m t with
  | None => m
  | Some i => update_order m i (λ o, Build_Order (quantity o) (orderbook_id o) (price o) (side o) false)
  end.

(** ** The value of a token *)

Definition token_ok (t : token) : Prop := length t = 14%nat ∧ Forall is_digit t.
#[export] Instance token_ok_dec (t : token) : Decision (token_ok t).
Proof. unfold token_ok. apply _. Defined.

Lemma parse_value (t : token) : token_ok t → parse_order_token_decimal t = value t.
Proof.
  intros [Hl Ht]. unfold parse_order_token_decimal. pose proof (value_bound t Ht) as Hb. rewrite Hl in Hb.
  pose proof (fold_digits 64 t 0) as H. change (wrap 64 0) with 0 in H. rewrite H, Z.mul_0_l, Z.add_0_l.
  apply wrap_id. lia.
Qed.

Lemma token_digits_app (n : nat) (index : Z) (acc : token) :
  token_digits n index acc = token_digits n index [] ++ acc.
Proof.
  revert index acc. induction n as [|n IH]; intros index acc; [done|]. cbn [token_digits].
  rewrite IH, (IH _ [_]), <- (assoc_L (++)). done.
Qed.

Lemma token_digits_value (n : nat) (index : Z) :
  0 ≤ index →
  length (token_digits n index []) = n ∧ Forall is_digit (token_digits n index []) ∧
  value (token_digits n index []) = index `mod` 10 ^ Z.of_nat n.
Proof.
  revert index. induction n as [|n IH]; intros index Hi.
  { simpl. by rewrite Z.mod_1_r. }
  cbn [token_digits]. rewrite token_digits_app, Z.quot_div_nonneg, Z.rem_mod_nonneg by lia.
  pose proof (Z.mod_pos_bound index 10 ltac:(lia)).
  destruct (digit_value_digit (index `mod` 10)) as [Hd Hd']; [lia|].
  destruct (IH (index / 10)) as (Hl & Hf & Hv); [apply Z.div_pos; lia|].
  split_and!.
  - rewrite length_app, Hl. simpl. lia.
  - apply Forall_app. split; [done | by constructor].
  - rewrite value_app, Hv. cbn [value length]. rewrite Hd. change (10 ^ Z.of_nat 1) with 10.
    change (10 ^ Z.of_nat 0) with 1. rewrite pow10_S, Z.rem_mul_r by (try apply pow10_pos; lia). lia.
Qed.

(** ** The token generator *)

Definition nines (t : token) : Z := match t with [] => 1 | c :: _ => if digit_value c =? 9 then 1 else 0 end.

(** What [nextToken] adds on top of one: ten times the weight of every 9 that is followed
    by another digit, because such a 9 passes a carry on without having received one. *)
Fixpoint spurious (t : token) : Z :=
  match t with
  | [] => 0
  | c :: t =>
      (if (digit_value c =? 9) && (nines t =? 0) then 10 ^ Z.of_nat (S (length t)) else 0) + spurious t
  end.

Lemma spurious_nonneg (t : token) : 0 ≤ spurious t.
Proof.
  induction t as [|c t IH]; [done|]. cbn [spurious]. pose proof (pow10_pos (S (length t))).
  destruct (_ && _); lia.
Qed.

Lemma next_digits_value (t : token) :
  Forall is_digit t →
  length (next_digits t).1 = length t ∧ Forall is_digit (next_digits t).1 ∧
  (next_digits t).2 = nines t ∧
  value (next_digits t).1 + nines t * 10 ^ Z.of_nat (length t) = value t + 1 + spurious t.
Proof.
  induction 1 as [|c t Hc Ht IH]; [done|]. cbn [next_digits]. destruct (next_digits t) as [t' carry].
  cbn [fst snd] in *. destruct IH as (Hl & Hf & -> & Hv). destruct (digit_value_bound c Hc) as [Hd _].
  assert (Hn : nines t = 0 ∨ nines t = 1) by (destruct t; simpl; [|destruct (_ =? _)]; auto).
  set (d := digit_value c) in *. rewrite (digit_nine c Hc). fold d.
  rewrite Z.rem_mod_nonneg by lia. pose proof (Z.mod_pos_bound (d + nines t) 10 ltac:(lia)).
  destruct (digit_value_digit ((d + nines t) `mod` 10)) as [Hd' Hok]; [lia|].
  split_and!; [by simpl; rewrite Hl | by constructor | done |].
  cbn [value length nines spurious]. fold d. rewrite Hd', Hl, pow10_S.
  set (P := 10 ^ Z.of_nat (length t)) in *.
  assert (Hcase : (d + nines t) `mod` 10 = if (d =? 9) && (nines t =? 1) then 0 else d + nines t).
  { clearbody d. destruct (Z.eqb_spec d 9), Hn as [Hn | Hn]; rewrite Hn; subst; try reflexivity;
      cbn [andb]; apply Z.mod_small; lia. }
  rewrite Hcase. clearbody d P.
  destruct (Z.eqb_spec d 9), Hn as [Hn | Hn]; rewrite Hn in *; try subst d; cbn [andb Z.eqb Pos.eqb]; lia.
Qed.

(** ** Well-formed managers *)

Lemma alter_insert {A} (f : A → A) (i : nat) (l : list A) (x : A) :
  l !! i = Some x → alter f i l = <[i := f x]> l.
Proof.
  intros Hi. apply list_eq. intros j. destruct (decide (i = j)) as [<-|Hne].
  - rewrite list_lookup_alter_eq, Hi, list_lookup_insert_eq; [done|]. by eapply lookup_lt_Some.
  - by rewrite list_lookup_alter_ne, list_lookup_insert_ne.
Qed.

Record manager_ok (m : OrderManager) : Prop := {
  ok_orders : length (m_orders m) = Z.to_nat ORDERS_SIZE;
  ok_token : token_ok (m_token m);
}.

Lemma update_order_ok (m : OrderManager) (i : nat) (f : Order → Order) : manager_ok m → manager_ok (update_order m i f).
Proof. intros [Ho Ht]. split; [|done]. simpl. by rewrite length_alter. Qed.

Lemma OrderManager_new_ok (last : Z) : 0 ≤ last < 2 ^ 31 - 1 → manager_ok (OrderManager_new last).
Proof.
  intros Hl. split; [apply length_replicate|]. unfold OrderManager_new. cbn [m_token].
  rewrite to_signed_id by (rewrite ?wrap_id; lia). rewrite wrap_id by lia.
  destruct (token_digits_value 14 (last + 1)) as (? & ? & _); [lia | done].
Qed.

Lemma nextToken_ok (m : OrderManager) : manager_ok m → manager_ok (nextToken m).1 ∧ token_ok (nextToken m).2.
Proof.
  intros [Ho [Hl Ht]]. destruct (next_digits_value (m_token m) Ht) as (Hl' & Hf & _).
  assert (token_ok (next_digits (m_token m)).1) by (split; [by rewrite Hl', Hl | done]).
  by split; [split|].
Qed.

Lemma getOrder_value (m : OrderManager) (t : token) :
  manager_ok m → token_ok t →
  getOrder m t = if value t <? ORDERS_SIZE then Some (Z.to_nat (value t)) else None.
Proof.
  intros [Ho _] Ht. unfold getOrder, withinRange. rewrite parse_value, Ho by done.
  replace (Z.of_nat (Z.to_nat ORDERS_SIZE)) with ORDERS_SIZE by done.
  rewrite Z.leb_antisym, negb_involutive. by destruct (_ <? _).
Qed.

Lemma find_original_last (l : list (token * token)) (original replacement : token) :
  find_original (rev (l ++ [(original, replacement)])) replacement = Ret original.
Proof. rewrite rev_app_distr. simpl. by rewrite decide_True. Qed.

Lemma find_original_none (l : list (token * token)) (replacement : token) :
  replacement ∉ l.*2 → find_original (rev l) replacement = Undef OutOfBoundsRead.
Proof.
  intros Hn. assert (Hr : Forall (λ p, p.2 ≠ replacement) (rev l)).
  { apply Forall_forall. intros p Hp Heq. apply Hn. rewrite <- Heq. apply list_elem_of_fmap_2.
    apply list_elem_of_In, in_rev. by apply list_elem_of_In. }
  induction Hr as [|[o r] k Hne _ IH]; [done|]. simpl in *. by rewrite decide_False.
Qed.

(** [n] calls of [nextToken]: the tokens it returns. *)
Fixpoint take_tokens (n : nat) (m : OrderManager) : list token :=
  match n with
  | O => []
  | S n => (nextToken m).2 :: take_tokens n (nextToken m).1
  end.

Lemma nextToken_value (m : OrderManager) :
  manager_ok m →
  value (nextToken m).2 + nines (m_token m) * 10 ^ 14 = value (m_token m) + 1 + spurious (m_token m).
Proof.
  intros [_ [Hl Ht]]. destruct (next_digits_value (m_token m) Ht) as (_ & _ & _ & Hv). by rewrite Hl in Hv.
Qed.

(** While the first digit is not 9, no call can wrap around. *)
Lemma nextToken_increases (m : OrderManager) :
  manager_ok m → nines (m_token m) = 0 → value (m_token m) < value (nextToken m).2.
Proof.
  intros Hm Hn. pose proof (nextToken_value m Hm) as Hv. pose proof (spurious_nonneg (m_token m)).
  rewrite Hn in Hv. lia.
Qed.

(** The tokens returned by consecutive calls, as long as none of the calls wraps. *)
Fixpoint no_overflow (n : nat) (m : OrderManager) : bool :=
  match n with
  | O => true
  | S n => (nines (m_token m) =? 0) && no_overflow n (nextToken m).1
  end.

Lemma take_tokens_above (n : nat) (m : OrderManager) :
  manager_ok m → no_overflow n m = true →
  NoDup (take_tokens n m) ∧ Forall (λ t, value (m_token m) < value t) (take_tokens n m).
Proof.
  revert m. induction n as [|n IH]; intros m Hm Ho; [by repeat constructor|].
  cbn [take_tokens no_overflow] in *. apply andb_true_iff in Ho as [Hn%Z.eqb_eq Ho].
  pose proof (nextToken_increases m Hm Hn) as Hlt.
  destruct (IH (nextToken m).1 (proj1 (nextToken_ok m Hm)) Ho) as [Hnd Hall].
  change (m_token (nextToken m).1) with (nextToken m).2 in Hall. split.
  - constructor; [|done]. intros Hin. rewrite Forall_forall in Hall. specialize (Hall _ Hin). lia.
  - constructor; [done|]. eapply Forall_impl; [exact Hall|]. intros t Ht. cbv beta in Ht |- *. lia.
Qed.

Definition sample_manager : OrderManager := OrderManager_new 0.
Definition sample_token : token := Eval vm_compute in (nextToken sample_manager).2.

Lemma sample_manager_ok : manager_ok sample_manager.
Proof. apply OrderManager_new_ok. lia. Qed.

Lemma sample_token_ok : token_ok sample_token.
Proof. by apply (bool_decide_unpack _); vm_compute. Qed.

(** ** Properties *)

(** What [nextToken] computes: from a well-formed manager the result is again 14 digits;
    as a number modulo 10^14 it is the previous token plus one, plus ten times the weight
    of every digit 9 that is followed by a digit other than 9. *)
Theorem nextToken_spec (m : OrderManager) :
  manager_ok m →
  manager_ok (nextToken m).1 ∧ token_ok (nextToken m).2 ∧
  value (nextToken m).2 = (value (m_token m) + 1 + spurious (m_token m)) `mod` 10 ^ 14.
Proof.
  intros Hm. destruct (nextToken_ok m Hm) as [Hm' Ht']. split_and!; try done.
  rewrite <- (nextToken_value m Hm), Z.mod_add by lia. symmetry. apply Z.mod_small.
  destruct Ht' as [Hl Hf]. pose proof (value_bound _ Hf) as Hb. by rewrite Hl in Hb.
Qed.

Lemma nextToken_spec_witness :
  manager_ok (nextToken sample_manager).1 ∧ token_ok (nextToken sample_manager).2 ∧
  value (nextToken sample_manager).2 = 2.
Proof. apply (nextToken_spec sample_manager), sample_manager_ok. Defined.

(** The branch-free increment is not an increment: the carry is passed on by every 9,
    also by one that received none, so the token after 90 is 191.  A fresh session
    therefore has only 122 tokens that index the array of 1024 orders. *)
Theorem nextToken_skips :
  value (nth 88 (take_tokens 90 sample_manager) []) = 90 ∧
  value (nth 89 (take_tokens 90 sample_manager) []) = 191 ∧
  length (filter (λ t, value t < ORDERS_SIZE) (take_tokens 500 sample_manager)) = 122%nat.
Proof. vm_compute. done. Qed.

(** C23. Tokens are not reused: consecutive calls return pairwise different tokens, each
    larger than the ones before, as long as the first digit has not reached 9. *)
Theorem tokens_unique (n : nat) (m : OrderManager) :
  manager_ok m → no_overflow n m = true →
  NoDup (take_tokens n m) ∧ Forall (λ t, value (m_token m) < value t) (take_tokens n m).
Proof. apply take_tokens_above. Qed.

Lemma tokens_unique_witness :
  NoDup (take_tokens 300 sample_manager) ∧ Forall (λ t, 1 < value t) (take_tokens 300 sample_manager).
Proof. apply (tokens_unique 300 sample_manager); [apply sample_manager_ok | vm_compute; reflexivity]. Defined.

Lemma initial_token (last : Z) :
  0 ≤ last < 2 ^ 31 - 1 →
  token_ok (m_token (OrderManager_new last)) ∧ value (m_token (OrderManager_new last)) = last + 1.
Proof.
  intros Hl. pose proof (ok_token _ (OrderManager_new_ok last Hl)) as Ht. split; [done|].
  unfold OrderManager_new. cbn [m_token].
  rewrite to_signed_id by (rewrite ?wrap_id; lia). rewrite wrap_id by lia.
  destruct (token_digits_value 14 (last + 1)) as (_ & _ & ->); [lia|]. apply Z.mod_small. lia.
Qed.

(** The index the destructor saves is the value of the current token modulo 2^32. *)
Lemma saved_index (m : OrderManager) :
  manager_ok m → last_used_order_token_index m = value (m_token m) `mod` 2 ^ 32.
Proof.
  intros [_ [_ Ht]]. unfold last_used_order_token_index. pose proof (fold_digits 32 (m_token m) 0) as H.
  change (wrap 32 0) with 0 in H. by rewrite H, Z.mul_0_l, Z.add_0_l.
Qed.

(** [toString] copies the token. *)
Lemma toString_token (t : token) : toString t = t.
Proof.
  unfold toString.
  assert (Hloop : ∀ k, (k ≤ length t)%nat →
    foldl (λ str i, <[i := default x00 (t !! i)]> str) (replicate (length t) x00) (seq 0 k) =
    take k t ++ replicate (length t - k) x00).
  { induction k as [|k IH]; intros Hk; [by rewrite Nat.sub_0_r|].
    rewrite seq_S, foldl_snoc, IH, Nat.add_0_l by lia.
    destruct (lookup_lt_is_Some_2 t k) as [c Hc]; [lia|]. rewrite Hc. cbn [default from_option id].
    rewrite (take_S_r _ _ _ Hc), <- (assoc_L (++)).
    replace (length t - k)%nat with (S (length t - S k)) by lia. cbn [replicate].
    rewrite insert_app_r_alt by (rewrite length_take; lia).
    by replace (k - length (take k t))%nat with 0%nat by (rewrite length_take; lia). }
  rewrite Hloop by done. by rewrite firstn_all, Nat.sub_diag, app_nil_r.
Qed.

(** Decimal round trip: the constructor writes the number after the last used one as
    14 digits, which [parse_order_token_decimal] reads back. *)
Theorem initial_token_roundtrip (last : Z) :
  0 ≤ last < 2 ^ 31 - 1 →
  token_ok (m_token (OrderManager_new last)) ∧
  parse_order_token_decimal (m_token (OrderManager_new last)) = last + 1.
Proof. intros Hl. destruct (initial_token last Hl) as [Ht Hv]. by rewrite parse_value. Qed.

Lemma initial_token_roundtrip_witness :
  token_ok (m_token (OrderManager_new 122)) ∧ parse_order_token_decimal (m_token (OrderManager_new 122)) = 123.
Proof. apply (initial_token_roundtrip 122). lia. Defined.

(** C27. Tokens are not reused after a restart: the file the destructor writes is accepted by
    [parseAppParameters], and a new order manager that is given the number read from it
    starts one above the last token of the old one and so returns none of the old tokens
    again, as long as the old one stayed below 2^31 - 1 and the new one does not
    overflow. *)
Theorem restart_continues {json : Type} `{JsonWriterLaws json} (m : OrderManager) (c : ConfigParser) (n : nat) :
  manager_ok m → value (m_token m) < 2 ^ 31 - 1 →
  ∃ bytes c' last, OrderManager_delete (json := json) m true = Some bytes ∧
    parseAppParameters c (read_file (json := json) (Some bytes)) = Ret (c', true) ∧ m_appParams c' = Some last ∧
    value (m_token (OrderManager_new last)) = value (m_token m) + 1 ∧
    (no_overflow n (OrderManager_new last) = true →
      Forall (λ t, value (m_token m) < value t) (take_tokens n (OrderManager_new last))).
Proof.
  intros Hm Hv. pose proof (value_bound _ (proj2 (ok_token m Hm))) as [Hv0 _].
  assert (Hlast : last_used_order_token_index m = value (m_token m)) by (rewrite saved_index by done; apply Z.mod_small; lia).
  destruct (put_at (cstr "last_used_order_token_index") (value (m_token m))) as (v & Ha & Hi & Hz); [lia|].
  eexists _, _, (value (m_token m)). split; [reflexivity|]. rewrite Hlast. unfold read_file.
  rewrite parse_dump by lia. unfold parseAppParameters. rewrite put_contains, Ha. run_outcome. rewrite Hi, Hz. run_outcome.
  rewrite wrap_id by lia. split; [done|]. split; [done|].
  destruct (initial_token (value (m_token m))) as [_ Hnew]; [lia|]. rewrite Hnew. split; [done|]. intros Hno.
  pose proof (OrderManager_new_ok (value (m_token m)) ltac:(lia)) as Hok.
  destruct (take_tokens_above n _ Hok Hno) as [_ Hall]. rewrite Hnew in Hall.
  eapply Forall_impl; [exact Hall|]. intros t Ht. cbv beta in Ht |- *. lia.
Qed.

Lemma restart_continues_witness :
  ∃ bytes c' last, OrderManager_delete (json := sample_json) sample_manager true = Some bytes ∧
    parseAppParameters ConfigParser_new (read_file (json := sample_json) (Some bytes)) = Ret (c', true) ∧
    m_appParams c' = Some last ∧ value (m_token (OrderManager_new last)) = 2 ∧
    (no_overflow 50 (OrderManager_new last) = true →
      Forall (λ t, 1 < value t) (take_tokens 50 (OrderManager_new last))).
Proof.
  apply (restart_continues (json := sample_json) sample_manager ConfigParser_new 50);
    [apply sample_manager_ok | by vm_compute].
Defined.

(** An accepted order is stored at the index its token denotes and at no other; a token
    of 1024 or more is ignored.  An order that was invalidated before stays invalid. *)
Theorem orderAccepted_spec (m : OrderManager) (t : token) (qty ob px : Z) (sd : byte) :
  manager_ok m → token_ok t →
  manager_ok (orderAccepted m t qty ob px sd) ∧
  if value t <? ORDERS_SIZE
  then ∃ o, m_orders m !! Z.to_nat (value t) = Some o ∧
    m_orders (orderAccepted m t qty ob px sd) =
      <[Z.to_nat (value t) := Build_Order qty ob px sd (is_valid o)]> (m_orders m)
  else orderAccepted m t qty ob px sd = m.
Proof.
  intros Hm Ht. pose proof Hm as [Ho _]. unfold orderAccepted, withinRange.
  rewrite parse_value, Ho by done. change (Z.of_nat (Z.to_nat ORDERS_SIZE)) with ORDERS_SIZE.
  rewrite Z.leb_antisym, negb_involutive.
  destruct (Z.ltb_spec (value t) ORDERS_SIZE) as [Hlt|]; [|done]. cbn [negb].
  split; [by apply update_order_ok|].
  destruct Ht as [_ Hf]. pose proof (value_bound t Hf).
  destruct (lookup_lt_is_Some_2 (m_orders m) (Z.to_nat (value t))) as [o Hk]; [rewrite Ho; lia|].
  exists o. split; [done|]. simpl. by rewrite (alter_insert _ _ _ _ Hk).
Qed.

Lemma orderAccepted_spec_witness :
  manager_ok (orderAccepted sample_manager sample_token 50 7 100 "B") ∧
  ∃ o, m_orders sample_manager !! 2%nat = Some o ∧
    m_orders (orderAccepted sample_manager sample_token 50 7 100 "B") =
      <[2%nat := Build_Order 50 7 100 "B" (is_valid o)]> (m_orders sample_manager).
Proof.
  apply (orderAccepted_spec sample_manager sample_token 50 7 100 "B");
    [apply sample_manager_ok | apply sample_token_ok].
Defined.

(** An execution takes the traded quantity off the order of its token, modulo 2^64, and
    invalidates the order exactly when the result is zero; a token out of range is
    ignored. *)
Theorem orderExecuted_spec (m : OrderManager) (t : token) (traded : Z) :
  manager_ok m → token_ok t →
  manager_ok (orderExecuted m t traded) ∧
  if value t <? ORDERS_SIZE
  then ∃ o, m_orders m !! Z.to_nat (value t) = Some o ∧
    m_orders (orderExecuted m t traded) !! Z.to_nat (value t) =
      Some (Build_Order ((quantity o - traded) `mod` 2 ^ 64) (orderbook_id o) (price o) (side o)
        (negb ((quantity o - traded) `mod` 2 ^ 64 =? 0) && is_valid o)) ∧
    ∀ i, i ≠ Z.to_nat (value t) → m_orders (orderExecuted m t traded) !! i = m_orders m !! i
  else orderExecuted m t traded = m.
Proof.
  intros Hm Ht. pose proof Hm as [Ho _]. unfold orderExecuted. rewrite getOrder_value by done.
  destruct (Z.ltb_spec (value t) ORDERS_SIZE) as [Hlt|]; [|done]. split; [by apply update_order_ok|].
  destruct Ht as [_ Hf]. pose proof (value_bound t Hf).
  destruct (lookup_lt_is_Some_2 (m_orders m) (Z.to_nat (value t))) as [o Hk]; [rewrite Ho; lia|].
  exists o. split; [done|]. simpl. split.
  - rewrite list_lookup_alter_eq, Hk. simpl. do 2 f_equal. unfold wrap. by destruct (_ =? 0).
  - intros i Hi. by apply list_lookup_alter_ne.
Qed.

Lemma orderExecuted_spec_witness :
  let m := orderAccepted sample_manager sample_token 50 7 100 "B" in
  manager_ok (orderExecuted m sample_token 50) ∧
  ∃ o, m_orders m !! 2%nat = Some o ∧
    m_orders (orderExecuted m sample_token 50) !! 2%nat =
      Some (Build_Order ((quantity o - 50) `mod` 2 ^ 64) (orderbook_id o) (price o) (side o)
        (negb ((quantity o - 50) `mod` 2 ^ 64 =? 0) && is_valid o)) ∧
    ∀ i, i ≠ 2%nat → m_orders (orderExecuted m sample_token 50) !! i = m_orders m !! i.
Proof.
  apply (orderExecuted_spec (orderAccepted sample_manager sample_token 50 7 100 "B") sample_token 50);
    [|apply sample_token_ok].
  unfold orderAccepted. destruct (negb _); [apply sample_manager_ok | apply update_order_ok, sample_manager_ok].
Defined.

(** A replaced order: the last pending replacement gives the original token, whose order
    gets the new price.  Without a pending replacement the search never ends: it runs
    below index zero and reads the vector out of bounds. *)
Theorem orderReplaced_spec (m : OrderManager) (original replacement : token) (px : Z) :
  (replacement ∉ (m_originalToReplacementTokens m).*2 →
   orderReplaced m replacement px = Undef OutOfBoundsRead) ∧
  (manager_ok m → token_ok original →
   ∃ m', orderReplaced (pendingReplace m original replacement) replacement px = Ret m' ∧ manager_ok m' ∧
     m_orders m' =
       if value original <? ORDERS_SIZE
       then alter (λ o, Build_Order (quantity o) (orderbook_id o) px (side o) (is_valid o))
              (Z.to_nat (value original)) (m_orders m)
       else m_orders m).
Proof.
  split.
  - intros Hn. unfold orderReplaced. by rewrite find_original_none.
  - intros Hm Ht. unfold orderReplaced, pendingReplace. cbn [m_originalToReplacementTokens].
    rewrite find_original_last. run_outcome.
    assert (Hm' : manager_ok (pendingReplace m original replacement)) by (destruct Hm; by split).
    fold (pendingReplace m original replacement). rewrite getOrder_value by done.
    destruct (_ <? _); eexists; (split; [done|]); (split; [|done]); [by apply update_order_ok | done].
Qed.

Lemma orderReplaced_spec_witness :
  orderReplaced sample_manager sample_token 775 = Undef OutOfBoundsRead ∧
  ∃ m', orderReplaced (pendingReplace sample_manager sample_token (m_token sample_manager))
      (m_token sample_manager) 775 = Ret m' ∧ manager_ok m' ∧
    m_orders m' =
      alter (λ o, Build_Order (quantity o) (orderbook_id o) 775 (side o) (is_valid o)) 2%nat (m_orders sample_manager).
Proof.
  split.
  - apply (orderReplaced_spec sample_manager sample_token sample_token 775). by apply not_elem_of_nil.
  - apply (orderReplaced_spec sample_manager sample_token (m_token sample_manager) 775);
      [apply sample_manager_ok | apply sample_token_ok].
Defined.
