(* ===== verification/OrderTable.v ===== *)
(** * What the order manager promises

    The specification of the order manager of OrderManager.v and the proof that the array
    implements it.  The specification is a table of orders by token and a map from each
    replacement token to the original it was last announced for: no indices, no decimal
    arithmetic, no vector searched from the back.  A token is a token of a session:
    fourteen digits, of which the array admits the first 1024. *)
From S2P Require Import Prelude Bytes Digits ConfigParser OrderManager.
Local Open Scope Z_scope.

(** ** The operations *)

Inductive order_op :=
  | OpNext
  | OpAccepted (t : token) (qty ob px : Z) (sd : byte)
  | OpPending (original replacement : token)
  | OpReplaced (replacement : token) (px : Z)
  | OpExecuted (t : token) (traded : Z)
  | OpDeleted (t : token).

(** A call of the order manager. *)
Definition run_op (m : OrderManager) (op : order_op) : outcome OrderManager :=
  match op with
  | OpNext => Ret (nextToken m).1
  | OpAccepted t qty ob px sd => Ret (orderAccepted m t qty ob px sd)
  | OpPending original replacement => Ret (pendingReplace m original replacement)
  | OpReplaced replacement px => orderReplaced m replacement px
  | OpExecuted t traded => Ret (orderExecuted m t traded)
  | OpDeleted t => Ret (orderDeleted m t)
  end.

(** The tokens by which a call names orders are tokens of a session. *)
Definition op_ok (op : order_op) : Prop :=
  match op with
  | OpNext | OpReplaced _ _ => True
  | OpAccepted t _ _ _ _ | OpPending t _ | OpExecuted t _ | OpDeleted t => token_ok t
  end.
#[export] Instance op_ok_dec (op : order_op) : Decision (op_ok op).
Proof. destruct op; apply _. Defined.

(** ** The table *)

Record OrderTable := Build_OrderTable {
  t_orders : gmap token Order;
  t_pending : gmap token token;
}.

Definition table_new : OrderTable := Build_OrderTable ∅ ∅.

Definition order_at (s : OrderTable) (t : token) : Order := default Order_new (t_orders s !! t).

Definition admitted (t : token) : bool := value t <? ORDERS_SIZE.

Definition amend (s : OrderTable) (t : token) (f : Order → Order) : OrderTable :=
  if admitted t then Build_OrderTable (<[t := f (order_at s t)]> (t_orders s)) (t_pending s) else s.

Definition with_price (px : Z) (o : Order) : Order :=
  Build_Order (quantity o) (orderbook_id o) px (side o) (is_valid o).

Definition invalidated (o : Order) : Order :=
  Build_Order (quantity o) (orderbook_id o) (price o) (side o) false.

(** The traded quantity leaves the order, which is invalid once nothing is left of it. *)
Definition traded_off (traded : Z) (o : Order) : Order :=
  let rest := (quantity o - traded) `mod` 2 ^ 64 in
  Build_Order rest (orderbook_id o) (price o) (side o) (negb (rest =? 0) && is_valid o).

Definition table_op (s : OrderTable) (op : order_op) : outcome OrderTable :=
  match op with
  | OpNext => Ret s
  | OpAccepted t qty ob px sd => Ret (amend s t (λ o, Build_Order qty ob px sd (is_valid o)))
  | OpPending original replacement =>
      Ret (Build_OrderTable (t_orders s) (<[replacement := original]> (t_pending s)))
  | OpReplaced replacement px =>
      match t_pending s !! replacement with
      | Some original => Ret (amend s original (with_price px))
      | None => Undef OutOfBoundsRead
      end
  | OpExecuted t traded => Ret (amend s t (traded_off traded))
  | OpDeleted t => Ret (amend s t invalidated)
  end.

(** ** The refinement *)

(** The array holds the order of every admitted token at the token's value, and the search
    from the back finds the original of every pending replacement. *)
Record implements (m : OrderManager) (s : OrderTable) : Prop := {
  impl_ok : manager_ok m;
  impl_order : ∀ t, token_ok t → admitted t = true → m_orders m !! Z.to_nat (value t) = Some (order_at s t);
  impl_pending : ∀ r, find_original (rev (m_originalToReplacementTokens m)) r =
    match t_pending s !! r with Some o => Ret o | None => Undef OutOfBoundsRead end;
  impl_originals : ∀ r o, t_pending s !! r = Some o → token_ok o;
}.

(** A token is its decimal value. *)
Lemma digits_inj (t u : list byte) :
  Forall is_digit t → Forall is_digit u → length t = length u → value t = value u → t = u.
Proof.
  intros Ht. revert u. induction Ht as [|c t Hc Ht IH]; intros u Hu Hl Hv; [by destruct u|].
  destruct Hu as [|d u Hd Hu]; [done|]. injection Hl as Hl. cbn [value] in Hv. rewrite Hl in Hv.
  destruct (digit_value_bound c Hc) as [Hcb Hcv], (digit_value_bound d Hd) as [Hdb Hdv].
  pose proof (value_bound t Ht) as Hbt. pose proof (value_bound u Hu) as Hbu. rewrite Hl in Hbt.
  set (P := 10 ^ Z.of_nat (length u)) in *.
  assert (Heq : digit_value c = digit_value d) by nia.
  rewrite (IH u Hu Hl) by nia. f_equal. rewrite <- (byte_of_Z_u8 c), <- (byte_of_Z_u8 d). f_equal. lia.
Qed.

Lemma token_value_inj (t u : token) : token_ok t → token_ok u → value t = value u → t = u.
Proof. intros [? ?] [? ?]. apply digits_inj; congruence. Qed.

Lemma implements_order (m : OrderManager) (s : OrderTable) (t : token) :
  implements m s → token_ok t →
  getOrder m t = if admitted t then Some (Z.to_nat (value t)) else None.
Proof. intros [Hm _ _ _] Ht. by apply getOrder_value. Qed.

(** An order amended in the array is the order amended in the table. *)
Lemma amend_implements (m : OrderManager) (s : OrderTable) (t : token) (f g : Order → Order) :
  implements m s → token_ok t → (∀ o, f o = g o) →
  implements (if admitted t then update_order m (Z.to_nat (value t)) f else m) (amend s t g).
Proof.
  intros Hi Ht Hfg. unfold amend. destruct (admitted t) eqn:Ha; [|done]. destruct Hi as [Hm Ho Hp Hor].
  split; [by apply update_order_ok | | done..]. intros u Hu Hau. cbn [m_orders update_order].
  unfold order_at. cbn [t_orders]. destruct (decide (u = t)) as [->|Hne].
  - rewrite list_lookup_alter_eq, lookup_insert_eq, (Ho t Ht Ha). simpl. by rewrite Hfg.
  - rewrite lookup_insert_ne by done. rewrite list_lookup_alter_ne; [by apply Ho|].
    intros Heq. apply Hne, token_value_inj; [done..|].
    pose proof (value_bound u (proj2 Hu)). pose proof (value_bound t (proj2 Ht)). lia.
Qed.

Lemma orderAccepted_update (m : OrderManager) (t : token) (qty ob px : Z) (sd : byte) :
  manager_ok m → token_ok t →
  orderAccepted m t qty ob px sd =
    if admitted t then update_order m (Z.to_nat (value t)) (λ o, Build_Order qty ob px sd (is_valid o)) else m.
Proof.
  intros [Ho _] Ht. unfold orderAccepted, withinRange, admitted. rewrite parse_value, Ho by done.
  change (Z.of_nat (Z.to_nat ORDERS_SIZE)) with ORDERS_SIZE. rewrite Z.leb_antisym, negb_involutive.
  by destruct (_ <? _).
Qed.

Lemma pending_implements (m : OrderManager) (s : OrderTable) (original replacement : token) :
  implements m s → token_ok original →
  implements (pendingReplace m original replacement)
    (Build_OrderTable (t_orders s) (<[replacement := original]> (t_pending s))).
Proof.
  intros [[Hl Ht] Ho Hp Hor] Hok. split; [by split | done | |].
  - intros r. cbn [m_originalToReplacementTokens pendingReplace t_pending]. rewrite rev_app_distr. simpl.
    destruct (decide (replacement = r)) as [<-|Hne]; [by rewrite lookup_insert_eq|].
    by rewrite lookup_insert_ne.
  - intros r o. cbn [t_pending]. destruct (decide (replacement = r)) as [<-|Hne].
    + rewrite lookup_insert_eq. by intros [= <-].
    + rewrite lookup_insert_ne by done. apply Hor.
Qed.

Lemma table_new_implements (last : Z) :
  0 ≤ last < 2 ^ 31 - 1 → implements (OrderManager_new last) table_new.
Proof.
  intros Hl. split; [by apply OrderManager_new_ok | | done | by intros ? ?].
  intros t Ht Ha. change (order_at table_new t) with Order_new. apply lookup_replicate_2.
  apply Z.ltb_lt in Ha. pose proof (value_bound t (proj2 Ht)). lia.
Qed.

Lemma run_op_implements (m : OrderManager) (s : OrderTable) (op : order_op) :
  implements m s → op_ok op → same_outcome implements (run_op m op) (table_op s op).
Proof.
  intros Hi. destruct op as [|t qty ob px sd|original replacement|replacement px|t traded|t]; intros Hok;
    cbn [run_op table_op same_outcome].
  - destruct Hi as [Hm Ho Hp Hor]. split; [by apply nextToken_ok | done..].
  - rewrite orderAccepted_update by (done || apply Hi). by apply amend_implements.
  - by apply pending_implements.
  - unfold orderReplaced. rewrite (impl_pending _ _ Hi). destruct (t_pending s !! replacement) as [original|] eqn:Hr;
      [|done]. run_outcome. pose proof (impl_originals _ _ Hi _ _ Hr) as Ht. rewrite (implements_order _ _ _ Hi Ht).
    pose proof (amend_implements m s original _ (with_price px) Hi Ht (λ _, eq_refl)) as Ha.
    by destruct (admitted original).
  - unfold orderExecuted. rewrite (implements_order _ _ _ Hi Hok).
    pose proof (amend_implements m s t (λ o, let q := wrap 64 (quantity o - traded) in
      Build_Order q (orderbook_id o) (price o) (side o) (if q =? 0 then false else is_valid o))
      (traded_off traded) Hi Hok) as Ha.
    destruct (admitted t) eqn:E; [apply Ha | unfold amend; by rewrite E].
    intros o. unfold traded_off, wrap. by destruct (_ =? 0).
  - unfold orderDeleted. rewrite (implements_order _ _ _ Hi Hok).
    pose proof (amend_implements m s t _ invalidated Hi Hok (λ _, eq_refl)) as Ha.
    by destruct (admitted t).
Qed.

Lemma run_ops_implement (ops : list order_op) (m : OrderManager) (s : OrderTable) :
  implements m s → Forall op_ok ops →
  same_outcome implements (fold_outcome run_op m ops) (fold_outcome table_op s ops).
Proof. intros Hi Hops. by apply (same_outcome_fold _ _ _ op_ok); [apply run_op_implements|..]. Qed.

(** Only a replacement nobody announced fails. *)
Lemma table_op_fails (op : order_op) (s : OrderTable) :
  (∃ s', table_op s op = Ret s') ∨
  table_op s op = Undef OutOfBoundsRead ∧ ∃ r px, op = OpReplaced r px ∧ t_pending s !! r = None.
Proof.
  destruct op as [| | |r px| |]; simpl; try (by left; eexists).
  destruct (t_pending s !! r) eqn:Hr; [by left; eexists | right; naive_solver].
Qed.

Lemma table_fails (ops : list order_op) (s : OrderTable) :
  (∃ s', fold_outcome table_op s ops = Ret s') ∨
  fold_outcome table_op s ops = Undef OutOfBoundsRead ∧
  ∃ ops1 r px ops2 s1, ops = ops1 ++ OpReplaced r px :: ops2 ∧
    fold_outcome table_op s ops1 = Ret s1 ∧ t_pending s1 !! r = None.
Proof.
  revert s. induction ops as [|op ops IH]; intros s; [by left; eexists|]. cbn [fold_outcome].
  destruct (table_op_fails op s) as [[s' Hop]|[Hop (r & px & -> & Hr)]]; rewrite Hop; cbn [mbind outcome_bind].
  - destruct (IH s') as [|[Hu (ops1 & r & px & ops2 & s1 & -> & Hf & Hr)]]; [by left|right].
    split; [done|]. exists (op :: ops1), r, px, ops2, s1. split_and!; [done | | done].
    cbn [fold_outcome]. by rewrite Hop.
  - right. split; [done|]. by exists [], r, px, ops, s.
Qed.

(** ** Properties *)

(** C8. The array of orders implements a table of orders by token.  After any sequence of
    calls, from a fresh order manager: an admitted token (below 1024) finds in the array
    exactly what the table holds for it, so that two orders never share a place, a
    replacement reprices the original that was announced last for it, an execution takes
    the traded quantity off (modulo 2^64) and invalidates an order of which nothing is
    left, and an invalid order stays invalid, also when its token is accepted again;
    tokens of 1024 and more leave no trace.  A replacement nobody announced is undefined
    behaviour in the code, and the only call that can fail. *)
Theorem manager_refines (last : Z) (ops : list order_op) :
  0 ≤ last < 2 ^ 31 - 1 → Forall op_ok ops →
  match fold_outcome run_op (OrderManager_new last) ops with
  | Ret m => ∃ s, fold_outcome table_op table_new ops = Ret s ∧ manager_ok m ∧
      ∀ t, token_ok t → (λ i, m_orders m !! i) <$> getOrder m t =
        if admitted t then Some (Some (order_at s t)) else None
  | o => o = Undef OutOfBoundsRead ∧ fold_outcome table_op table_new ops = Undef OutOfBoundsRead ∧
      ∃ ops1 r px ops2 s, ops = ops1 ++ OpReplaced r px :: ops2 ∧
        fold_outcome table_op table_new ops1 = Ret s ∧ t_pending s !! r = None
  end.
Proof.
  intros Hl Hops. pose proof (run_ops_implement ops _ _ (table_new_implements last Hl) Hops) as Hs.
  pose proof (table_fails ops table_new) as Hf.
  destruct Hf as [[s Hf]|[Hf Hw]]; rewrite Hf in *;
    destruct (fold_outcome run_op _ ops) as [m| | |]; simpl in Hs; try done; [|by subst].
  exists s. split; [done|]. split; [apply Hs|]. intros t Ht. rewrite (implements_order _ _ _ Hs Ht).
  destruct (admitted t) eqn:Ha; [|done]. simpl. f_equal. by apply (impl_order _ _ Hs).
Qed.

(** Two orders, one of them replaced, the other executed in two steps. *)
Definition sample_ops : list order_op :=
  let t1 := digit <$> [0; 0; 0; 0; 0; 0; 0; 0; 0; 0; 0; 0; 0; 2] in
  let t2 := digit <$> [0; 0; 0; 0; 0; 0; 0; 0; 0; 0; 0; 0; 0; 3] in
  let t3 := digit <$> [0; 0; 0; 0; 0; 0; 0; 0; 0; 0; 0; 0; 0; 4] in
  [OpNext; OpAccepted t1 50 7 100 "B"; OpNext; OpAccepted t2 30 7 105 "S"; OpNext; OpPending t1 t3;
   OpReplaced t3 99; OpExecuted t2 10; OpExecuted t2 20; OpDeleted t1].

Lemma manager_refines_witness :
  match fold_outcome run_op (OrderManager_new 0) sample_ops with
  | Ret m => ∃ s, fold_outcome table_op table_new sample_ops = Ret s ∧ manager_ok m ∧
      ∀ t, token_ok t → (λ i, m_orders m !! i) <$> getOrder m t =
        if admitted t then Some (Some (order_at s t)) else None
  | o => o = Undef OutOfBoundsRead ∧ fold_outcome table_op table_new sample_ops = Undef OutOfBoundsRead ∧
      ∃ ops1 r px ops2 s, sample_ops = ops1 ++ OpReplaced r px :: ops2 ∧
        fold_outcome table_op table_new ops1 = Ret s ∧ t_pending s !! r = None
  end.
Proof.
  apply (manager_refines 0 sample_ops); [lia | by apply (bool_decide_unpack _); vm_compute].
Defined.

(** Both orders of the sample end at their new prices, and neither is live. *)
Example sample_ops_end :
  (λ m, take 3 (drop 2 (m_orders m))) <$> fold_outcome run_op (OrderManager_new 0) sample_ops =
    Ret [Build_Order 50 7 99 "B" false; Build_Order 0 7 105 "S" false; Order_new].
Proof. vm_compute. reflexivity. Qed.
