(* ===== verification/OrderEntryClient.v ===== *)
(** * The order entry client

    Models lib/client/order_entry_client.hpp and .cpp, [class BistMarketAccessor]: it
    logs in and out, and sends enter, replace and cancel messages.  For each of the three
    it keeps a buffer with the SoupBinTCP header and the OUCH message; the constructor
    fills in what never changes, a send overlays the message struct and sets the rest.

    A string is its bytes.  [written] collects the buffers given to [TcpClient::write].
    The constructor's thread runs the read loop of TcpClient. *)
From S2P Require Import Prelude Bytes Digits Codec Types OuchMessages SessionMessages ConfigParser OrderManager.
Local Open Scope Z_scope.

(** ** Helpers *)

Definition toPaddedArray (n : nat) (input : list byte) (pad : byte) : list byte :=
  let k := (length input `min` n)%nat in
  take k input ++ drop k (replicate n pad).

(** [toByteArray]: the object representation. *)
Definition toByteArray {A} (c : codec A) (obj : A) : list byte := c_enc c obj.

(** [std::memcpy] of a whole object into a byte array. *)
Definition memcpy_into (off : nat) (obj buf : list byte) : outcome (list byte) :=
  if (off + length obj <=? length buf)%nat then Ret (splice off obj buf) else Undef OutOfBoundsWrite.

(** Assignments through a struct overlaid on a buffer. *)
Definition update_struct {A} (c : codec A) (off : nat) (f : A → A) (buf : list byte) : outcome (list byte) :=
  m ← overlay c off buf;
  Ret (splice off (c_enc c (f m)) buf).

(** ** State *)

Inductive AccessorState := AccContinuous | AccDisconnected | AccReconnecting.
#[export] Instance AccessorState_eq_dec : EqDecision AccessorState.
Proof. solve_decision. Defined.

Record BistMarketAccessor := Build_BistMarketAccessor {
  m_partition : OrderEntryPartitionConfig;
  m_clientAccount : list byte;
  m_exchangeInfo : list byte;
  m_orderManager : OrderManager;
  m_sequenceNumber : Z;
  m_sessionName : list byte;
  m_accState : AccessorState;
  m_enterOrderByteArray : list byte;
  m_replaceOrderByteArray : list byte;
  m_cancelOrderByteArray : list byte;
  written : list (list byte);
}.

(** Assignments to one member. *)
Definition set_orderManager (a : BistMarketAccessor) (om : OrderManager) : BistMarketAccessor :=
  let 'Build_BistMarketAccessor p ca ei _ sn ss st eb rb cb w := a in
  Build_BistMarketAccessor p ca ei om sn ss st eb rb cb w.
Definition set_session (a : BistMarketAccessor) (st : AccessorState) (ss : list byte) : BistMarketAccessor :=
  let 'Build_BistMarketAccessor p ca ei om sn _ _ eb rb cb w := a in
  Build_BistMarketAccessor p ca ei om sn ss st eb rb cb w.
Definition set_enterBuffer (a : BistMarketAccessor) (eb : list byte) : BistMarketAccessor :=
  let 'Build_BistMarketAccessor p ca ei om sn ss st _ rb cb w := a in
  Build_BistMarketAccessor p ca ei om sn ss st eb rb cb w.
Definition set_replaceBuffer (a : BistMarketAccessor) (rb : list byte) : BistMarketAccessor :=
  let 'Build_BistMarketAccessor p ca ei om sn ss st eb _ cb w := a in
  Build_BistMarketAccessor p ca ei om sn ss st eb rb cb w.
Definition set_cancelBuffer (a : BistMarketAccessor) (cb : list byte) : BistMarketAccessor :=
  let 'Build_BistMarketAccessor p ca ei om sn ss st eb rb _ w := a in
  Build_BistMarketAccessor p ca ei om sn ss st eb rb cb w.

(** [m_tcpClient.write] *)
Definition client_write (a : BistMarketAccessor) (buffer : list byte) : BistMarketAccessor :=
  let 'Build_BistMarketAccessor p ca ei om sn ss st eb rb cb w := a in
  Build_BistMarketAccessor p ca ei om sn ss st eb rb cb (w ++ [buffer]).

(** ** Login and logout *)

Definition USERNAME_LENGTH : nat := 6.
Definition PASSWORD_LENGTH : nat := 10.
Definition SESSION_NAME_LENGTH : nat := 10.
Definition REQUESTED_SEQUENCE_NUMBER_LENGTH : nat := 20.
Definition LOGIN_REQUEST_PACKET_LENGTH : nat :=
  1 + USERNAME_LENGTH + PASSWORD_LENGTH + SESSION_NAME_LENGTH + REQUESTED_SEQUENCE_NUMBER_LENGTH.

Definition login_request (a : BistMarketAccessor) : LoginRequest := {|
  lr_packetLength := htobe16 (Z.of_nat LOGIN_REQUEST_PACKET_LENGTH);
  lr_packetType := enum_byte PacketType_LoginRequest;
  lr_username := toPaddedArray USERNAME_LENGTH (oec_username (m_partition a)) " ";
  lr_password := toPaddedArray PASSWORD_LENGTH (oec_password (m_partition a)) " ";
  lr_sessionName := toPaddedArray SESSION_NAME_LENGTH (m_sessionName a) " ";
  lr_sequenceNumber :=
    toPaddedArray REQUESTED_SEQUENCE_NUMBER_LENGTH (to_string (wrap 64 (m_sequenceNumber a + 1))) " ";
|}.

Definition login (a : BistMarketAccessor) : BistMarketAccessor :=
  client_write a (toByteArray LoginRequest_codec (login_request a)).

Definition logout_request : LogoutRequest :=
  Build_LogoutRequest (htobe16 3) (enum_byte PacketType_LogoutRequest).

Definition logout (a : BistMarketAccessor) : BistMarketAccessor :=
  client_write a (toByteArray LogoutRequest_codec logout_request).

(** ** The prepared buffers *)

Definition unsequenced_header (payload_size : nat) : UnsequencedData :=
  Build_UnsequencedData
    (htobe16 (Z.of_nat (c_size UnsequencedData_codec + payload_size - c_size PacketLength)))
    (enum_byte PacketType_UnsequencedData).

(** The loop that copies [m_exchangeInfo] into the array member, without a bound. *)
Definition copy_exchange_info (info arr : list byte) : outcome (list byte) := memcpy_into 0 info arr.

(** [EnterOrder enter_order {}] with the constant members set. *)
Definition enter_order_template (exchange_info : list byte) : EnterOrder := {|
  eo_type := enum_byte OuchMessageType_EnterOrder;
  eo_order_token := repeat x00 14;
  eo_orderbook_id := 0;
  eo_side := x00;
  eo_quantity := 0;
  eo_price := 0;
  eo_time_in_force := enum_byte OuchTimeInForce_Day;
  eo_open_close := enum_byte OuchOpenClose_DefaultForTheAccount;
  eo_client_account := repeat x00 16;
  eo_customer_info := repeat x00 15;
  eo_exchange_info := exchange_info;
  eo_display_quantity := be64toh 0;
  eo_client_category := enum_byte OuchClientCategory_Client;
  eo_offhours := enum_byte OuchOffHours_NormalHours;
  eo_reserved := repeat x00 7;
|}.

(** Header, then message, into a buffer. *)
Definition fill_buffer {A} (c : codec A) (m : A) (buf : list byte) : outcome (list byte) :=
  buf ← memcpy_into 0 (c_enc UnsequencedData_codec (unsequenced_header (c_size c))) buf;
  memcpy_into (c_size UnsequencedData_codec) (c_enc c m) buf.

Definition prepareEnterOrderBuffer (a : BistMarketAccessor) : outcome BistMarketAccessor :=
  info ← copy_exchange_info (m_exchangeInfo a) (repeat x00 32);
  set_enterBuffer a <$> fill_buffer EnterOrder_codec (enter_order_template info) (m_enterOrderByteArray a).

Definition replace_order_template : ReplaceOrder := {|
  ro_type := enum_byte OuchMessageType_ReplaceOrder;
  ro_existing_order_token := repeat x00 14;
  ro_replacement_order_token := repeat x00 14;
  ro_quantity := be64toh 0;
  ro_price := 0;
  ro_open_close := enum_byte OuchOpenClose_DefaultForTheAccount;
  ro_client_account := repeat x00 16;
  ro_customer_info := repeat x00 15;
  ro_exchange_info := repeat x00 32;
  ro_display_quantity := be64toh 0;
  ro_client_category := enum_byte OuchClientCategory_NoChange;
  ro_reserved := repeat x00 8;
|}.

Definition prepareReplaceOrderBuffer (a : BistMarketAccessor) : outcome BistMarketAccessor :=
  set_replaceBuffer a <$> fill_buffer ReplaceOrder_codec replace_order_template (m_replaceOrderByteArray a).

Definition cancel_order_template : CancelOrder :=
  Build_CancelOrder (enum_byte OuchMessageType_CancelOrder) (repeat x00 14).

Definition prepareCancelOrderBuffer (a : BistMarketAccessor) : outcome BistMarketAccessor :=
  set_cancelBuffer a <$> fill_buffer CancelOrder_codec cancel_order_template (m_cancelOrderByteArray a).

Definition BistMarketAccessor_new (partition : OrderEntryPartitionConfig) (client_account exchange_info : list byte)
    (last_order_token_index : Z) : outcome BistMarketAccessor :=
  let zeros {A} (c : codec A) := repeat x00 (c_size UnsequencedData_codec + c_size c) in
  let a := {|
    m_partition := partition;
    m_clientAccount := client_account;
    m_exchangeInfo := exchange_info;
    m_orderManager := OrderManager_new (wrap 32 last_order_token_index);
    m_sequenceNumber := 0;
    m_sessionName := [];
    m_accState := AccDisconnected;
    m_enterOrderByteArray := zeros EnterOrder_codec;
    m_replaceOrderByteArray := zeros ReplaceOrder_codec;
    m_cancelOrderByteArray := zeros CancelOrder_codec;
    written := [];
  |} in
  a ← prepareEnterOrderBuffer a;
  a ← prepareReplaceOrderBuffer a;
  prepareCancelOrderBuffer a.

(** ** Sending *)

Definition set_enter_order (t : token) (ob : Z) (sd : byte) (qty px : Z) (m : EnterOrder) : EnterOrder := {|
  eo_type := eo_type m;
  eo_order_token := t;
  eo_orderbook_id := be32toh ob;
  eo_side := sd;
  eo_quantity := be64toh qty;
  eo_price := to_signed 32 (be32toh px);
  eo_time_in_force := eo_time_in_force m;
  eo_open_close := eo_open_close m;
  eo_client_account := eo_client_account m;
  eo_customer_info := eo_customer_info m;
  eo_exchange_info := eo_exchange_info m;
  eo_display_quantity := eo_display_quantity m;
  eo_client_category := eo_client_category m;
  eo_offhours := eo_offhours m;
  eo_reserved := eo_reserved m;
|}.

Definition sendEnterOrder (a : BistMarketAccessor) (ob : Z) (sd : byte) (qty px : Z) : outcome BistMarketAccessor :=
  let '(om, t) := nextToken (m_orderManager a) in
  let a := set_orderManager a om in
  buf ← update_struct EnterOrder_codec (c_size UnsequencedData_codec) (set_enter_order t ob sd qty px)
          (m_enterOrderByteArray a);
  let a := set_enterBuffer a buf in
  Ret (client_write a (m_enterOrderByteArray a)).

Definition set_replace_order (original replacement : token) (px : Z) (m : ReplaceOrder) : ReplaceOrder := {|
  ro_type := ro_type m;
  ro_existing_order_token := original;
  ro_replacement_order_token := replacement;
  ro_quantity := ro_quantity m;
  ro_price := to_signed 32 (be32toh px);
  ro_open_close := ro_open_close m;
  ro_client_account := ro_client_account m;
  ro_customer_info := ro_customer_info m;
  ro_exchange_info := ro_exchange_info m;
  ro_display_quantity := ro_display_quantity m;
  ro_client_category := ro_client_category m;
  ro_reserved := ro_reserved m;
|}.

Definition sendReplaceOrder (a : BistMarketAccessor) (original_order_token : token) (px : Z) :
    outcome BistMarketAccessor :=
  let '(om, replacement_token) := nextToken (m_orderManager a) in
  let a := set_orderManager a (pendingReplace om original_order_token replacement_token) in
  buf ← update_struct ReplaceOrder_codec (c_size UnsequencedData_codec)
          (set_replace_order original_order_token replacement_token px) (m_replaceOrderByteArray a);
  let a := set_replaceBuffer a buf in
  Ret (client_write a (m_replaceOrderByteArray a)).

Definition sendCancelOrder (a : BistMarketAccessor) (original_order_token : token) : outcome BistMarketAccessor :=
  buf ← update_struct CancelOrder_codec (c_size UnsequencedData_codec)
          (λ m, Build_CancelOrder (co_type m) original_order_token) (m_cancelOrderByteArray a);
  let a := set_cancelBuffer a buf in
  Ret (client_write a (m_cancelOrderByteArray a)).

(** ** Callbacks *)

Definition onLoginAccepted (a : BistMarketAccessor) (login_accepted : LoginAccepted) : outcome BistMarketAccessor :=
  let a := set_session a AccContinuous (la_session_name login_accepted) in
  match oec_instrumentType (m_partition a) with
  | Equity => sendEnterOrder a 78436 (enum_byte Side_Sell) 5000 770000
  | Derivative => Ret a
  end.

Definition onLoginRejected (a : BistMarketAccessor) (login_rejected : LoginRejected) : BistMarketAccessor :=
  set_session a AccDisconnected (m_sessionName a).

(** ** Well-formed accessors *)

(** The bytes of a message in a SoupBinTCP unsequenced data packet. *)
Definition ouch_frame {A} (c : codec A) (m : A) : list byte :=
  c_enc UnsequencedData_codec (unsequenced_header (c_size c)) ++ c_enc c m.

(** The enter order message for an order: the constant members and those of this order. *)
Definition enter_order (info : list byte) (t : token) (ob : Z) (sd : byte) (qty px : Z) : EnterOrder :=
  set_enter_order t ob sd qty px (enter_order_template info).
Definition replace_order (original replacement : token) (px : Z) : ReplaceOrder :=
  set_replace_order original replacement px replace_order_template.
Definition cancel_order (t : token) : CancelOrder :=
  Build_CancelOrder (co_type cancel_order_template) t.

(** The exchange info as the message carries it: padded with zero bytes. *)
Definition padded_info (info : list byte) : list byte := splice 0 info (repeat x00 32).

(** Every buffer holds a message that differs from its template at most in the members a
    send sets; the order manager is well formed. *)
Record accessor_ok (a : BistMarketAccessor) : Prop := {
  acc_manager : manager_ok (m_orderManager a);
  acc_enter : ∃ m, m_enterOrderByteArray a = ouch_frame EnterOrder_codec m ∧ c_ok EnterOrder_codec m = true ∧
    ∀ t ob sd qty px, set_enter_order t ob sd qty px m = enter_order (padded_info (m_exchangeInfo a)) t ob sd qty px;
  acc_replace : ∃ m, m_replaceOrderByteArray a = ouch_frame ReplaceOrder_codec m ∧
    c_ok ReplaceOrder_codec m = true ∧ ∀ o r px, set_replace_order o r px m = replace_order o r px;
  acc_cancel : ∃ m, m_cancelOrderByteArray a = ouch_frame CancelOrder_codec m ∧
    c_ok CancelOrder_codec m = true ∧ co_type m = co_type cancel_order_template;
}.

(** The login request fits its layout, whatever the members of the accessor. *)
Lemma toPaddedArray_length (n : nat) (s : list byte) (pad : byte) : length (toPaddedArray n s pad) = n.
Proof.
  unfold toPaddedArray. autorewrite with algocor_bytes. lia.
Qed.
#[export] Hint Rewrite toPaddedArray_length : algocor_bytes.

Lemma login_request_ok (a : BistMarketAccessor) : c_ok LoginRequest_codec (login_request a) = true.
Proof.
  change ((c_ok (uint 2) (bswap 2 47) && (true &&
    ((length (toPaddedArray 6 (oec_username (m_partition a)) " ") =? 6)%nat &&
     ((length (toPaddedArray 10 (oec_password (m_partition a)) " ") =? 10)%nat &&
      ((length (toPaddedArray 10 (m_sessionName a) " ") =? 10)%nat &&
       (length (toPaddedArray 20 (to_string (wrap 64 (m_sequenceNumber a + 1))) " ") =? 20)%nat))))) = true).
  by rewrite uint_ok_bswap, !toPaddedArray_length.
Qed.

Lemma header_size (n : nat) : length (c_enc UnsequencedData_codec (unsequenced_header n)) = 3%nat.
Proof.
  apply (enc_length (c := UnsequencedData_codec)).
  change ((c_ok (uint 2) (bswap 2 (Z.of_nat (3 + n - 2))) && true) = true).
  by rewrite uint_ok_bswap.
Qed.

Lemma fill_buffer_frame {A} (c : codec A) `{!CodecLaws c} (m : A) (buf : list byte) :
  c_ok c m = true → length buf = (3 + c_size c)%nat → fill_buffer c m buf = Ret (ouch_frame c m).
Proof.
  intros Hm Hb. unfold fill_buffer, memcpy_into, ouch_frame.
  pose proof (header_size (c_size c)) as Hh. set (h := c_enc UnsequencedData_codec _) in *.
  rewrite Hh, Hb. destruct (Nat.leb_spec (0 + 3) (3 + c_size c)); [|lia]. run_outcome.
  rewrite length_splice by lia. rewrite (enc_length m Hm), Hb. change (c_size UnsequencedData_codec) with 3%nat.
  destruct (Nat.leb_spec (3 + c_size c) (3 + c_size c)); [|lia].
  unfold splice. rewrite (enc_length m Hm), take_0, app_nil_l, Hh.
  rewrite take_app_length' by done. do 2 f_equal.
  rewrite drop_ge; [by rewrite app_nil_r|]. rewrite length_app, length_drop. lia.
Qed.

Lemma update_frame {A} (c : codec A) `{!CodecLaws c} (m : A) (f : A → A) :
  c_ok c m = true → c_ok c (f m) = true →
  update_struct c (c_size UnsequencedData_codec) f (ouch_frame c m) = Ret (ouch_frame c (f m)).
Proof.
  intros Hm Hf. unfold update_struct, ouch_frame.
  pose proof (header_size (c_size c)) as Hh. set (h := c_enc UnsequencedData_codec _) in *.
  pose proof (overlay_enc c m h [] Hm) as Ho. rewrite app_nil_r, Hh in Ho.
  change (c_size UnsequencedData_codec) with 3%nat. rewrite Ho. run_outcome.
  unfold splice. rewrite take_app_length', (enc_length (f m) Hf) by done. do 2 f_equal.
  rewrite drop_ge; [by rewrite app_nil_r|]. rewrite length_app, enc_length by done. lia.
Qed.

Lemma enter_order_ok (info : list byte) (t : token) (ob : Z) (sd : byte) (qty px : Z) :
  length info = 32%nat → length t = 14%nat → c_ok EnterOrder_codec (enter_order info t ob sd qty px) = true.
Proof.
  intros Hi Ht.
  change ((c_ok enum1 (enum_byte OuchMessageType_EnterOrder) && (c_ok OrderToken t && (c_ok (uint 4) (bswap 4 ob) &&
    (true && (c_ok (uint 8) (bswap 8 qty) && (c_ok (sint 4) (to_signed (8 * Z.of_nat 4) (bswap 4 px)) &&
    (true && (true && (true && (true && (c_ok ExchangeInfo info && true))))))))))) = true).
  rewrite !uint_ok_bswap, sint_ok. simpl. by rewrite Hi, Ht.
Qed.

Lemma replace_order_ok (o r : token) (px : Z) :
  length o = 14%nat → length r = 14%nat → c_ok ReplaceOrder_codec (replace_order o r px) = true.
Proof.
  intros Ho Hr.
  change ((true && (c_ok OrderToken o && (c_ok OrderToken r && (true &&
    (c_ok (sint 4) (to_signed (8 * Z.of_nat 4) (bswap 4 px)) && true))))) = true).
  rewrite sint_ok. simpl. by rewrite Ho, Hr.
Qed.

Lemma cancel_order_ok (t : token) : length t = 14%nat → c_ok CancelOrder_codec (cancel_order t) = true.
Proof. intros Ht. change ((true && c_ok OrderToken t) = true). simpl. by rewrite Ht. Qed.

(** Project a constructed accessor, without computing buffers. *)
Ltac acc_simpl :=
  cbn [m_partition m_clientAccount m_exchangeInfo m_orderManager m_sequenceNumber m_sessionName m_accState
    m_enterOrderByteArray m_replaceOrderByteArray m_cancelOrderByteArray written set_orderManager set_session
    set_enterBuffer set_replaceBuffer set_cancelBuffer client_write] in *.

Lemma padded_info_length (info : list byte) : (length info ≤ 32)%nat → length (padded_info info) = 32%nat.
Proof. intros H. unfold padded_info. rewrite length_splice; rewrite ?repeat_length; simpl; lia. Qed.

Lemma BistMarketAccessor_new_ok (cfg : OrderEntryPartitionConfig) (ca ei : list byte) (last : Z) :
  0 ≤ last < 2 ^ 31 - 1 → (length ei ≤ 32)%nat →
  ∃ a, BistMarketAccessor_new cfg ca ei last = Ret a ∧ accessor_ok a ∧ m_exchangeInfo a = ei ∧
    m_partition a = cfg ∧ m_accState a = AccDisconnected ∧ written a = [] ∧ m_sessionName a = [] ∧
    m_sequenceNumber a = 0 ∧ m_orderManager a = OrderManager_new last.
Proof.
  intros Hl He. unfold BistMarketAccessor_new, prepareEnterOrderBuffer, copy_exchange_info, memcpy_into at 1.
  cbn [m_exchangeInfo]. rewrite repeat_length. rewrite (proj2 (Nat.leb_le _ _)) by (simpl; lia).
  cbn [mbind outcome_bind m_enterOrderByteArray]. fold (padded_info ei).
  rewrite (fill_buffer_frame EnterOrder_codec);
    [| change ((c_ok ExchangeInfo (padded_info ei) && true) = true); simpl; by rewrite padded_info_length
     | by rewrite repeat_length].
  cbn [fmap outcome_fmap mbind outcome_bind]. unfold prepareReplaceOrderBuffer.
  cbn [m_replaceOrderByteArray set_enterBuffer].
  rewrite (fill_buffer_frame ReplaceOrder_codec) by (rewrite ?repeat_length; done).
  cbn [fmap outcome_fmap mbind outcome_bind]. unfold prepareCancelOrderBuffer.
  cbn [m_cancelOrderByteArray set_replaceBuffer set_enterBuffer].
  rewrite (fill_buffer_frame CancelOrder_codec) by (rewrite ?repeat_length; done).
  cbn [fmap outcome_fmap set_cancelBuffer set_replaceBuffer set_enterBuffer]. rewrite (wrap_id 32) by lia.
  eexists. split; [done|]. split; [|done]. split; acc_simpl.
  - by apply OrderManager_new_ok.
  - eexists. split; [done|]. split; [|done].
    change ((c_ok ExchangeInfo (padded_info ei) && true) = true). simpl. by rewrite padded_info_length.
  - by eexists.
  - by eexists.
Qed.

(** What a send does not change. *)
Definition same_session (a a' : BistMarketAccessor) : Prop :=
  m_partition a' = m_partition a ∧ m_clientAccount a' = m_clientAccount a ∧
  m_exchangeInfo a' = m_exchangeInfo a ∧ m_sequenceNumber a' = m_sequenceNumber a ∧
  m_sessionName a' = m_sessionName a ∧ m_accState a' = m_accState a.

Section sends.
Context (a : BistMarketAccessor) (Hok : accessor_ok a) (Hinfo : (length (m_exchangeInfo a) ≤ 32)%nat).

Let om' := (nextToken (m_orderManager a)).1.
Let t' := (nextToken (m_orderManager a)).2.

Lemma next_ok : manager_ok om' ∧ token_ok t'.
Proof. apply nextToken_ok, Hok. Qed.

Lemma sendEnterOrder_lemma (ob : Z) (sd : byte) (qty px : Z) :
  ∃ a', sendEnterOrder a ob sd qty px = Ret a' ∧ accessor_ok a' ∧ same_session a a' ∧ m_orderManager a' = om' ∧
    written a' = written a ++
      [ouch_frame EnterOrder_codec (enter_order (padded_info (m_exchangeInfo a)) t' ob sd qty px)].
Proof.
  destruct Hok as [Hm (m & He & Hmok & Hset) Hr Hc]. destruct next_ok as [Hom [Ht _]].
  unfold sendEnterOrder. subst om' t'. destruct (nextToken (m_orderManager a)) as [om t]. cbn [fst snd] in *.
  replace (m_enterOrderByteArray (set_orderManager a om)) with (m_enterOrderByteArray a) by (by destruct a).
  rewrite He, update_frame; [| apply _ | done | rewrite Hset; apply enter_order_ok, Ht; by apply padded_info_length].
  rewrite Hset. run_outcome. eexists. split; [done|]. destruct a. acc_simpl.
  split; [split; acc_simpl; [done | | done | done] | done].
  eexists. split; [done|]. split; [apply enter_order_ok, Ht; by apply padded_info_length | done].
Qed.

Lemma sendReplaceOrder_lemma (original : token) (px : Z) :
  length original = 14%nat →
  ∃ a', sendReplaceOrder a original px = Ret a' ∧ accessor_ok a' ∧ same_session a a' ∧
    m_orderManager a' = pendingReplace om' original t' ∧
    written a' = written a ++ [ouch_frame ReplaceOrder_codec (replace_order original t' px)].
Proof.
  intros Ho. destruct Hok as [Hm He (m & Hr & Hmok & Hset) Hc]. destruct next_ok as [Hom [Ht _]].
  unfold sendReplaceOrder. subst om' t'. destruct (nextToken (m_orderManager a)) as [om t]. cbn [fst snd] in *.
  replace (m_replaceOrderByteArray (set_orderManager a (pendingReplace om original t)))
    with (m_replaceOrderByteArray a) by (by destruct a).
  rewrite Hr, update_frame; [| apply _ | done | rewrite Hset; by apply replace_order_ok].
  rewrite Hset. run_outcome. eexists. split; [done|]. destruct a. acc_simpl.
  split; [split; acc_simpl; [by destruct Hom | done | | done] | done].
  eexists. split; [done|]. split; [by apply replace_order_ok | done].
Qed.

Lemma sendCancelOrder_lemma (original : token) :
  length original = 14%nat →
  ∃ a', sendCancelOrder a original = Ret a' ∧ accessor_ok a' ∧ same_session a a' ∧
    m_orderManager a' = m_orderManager a ∧
    written a' = written a ++ [ouch_frame CancelOrder_codec (cancel_order original)].
Proof.
  intros Ho. destruct Hok as [Hm He Hr (m & Hc & Hmok & Hset)]. unfold sendCancelOrder.
  rewrite Hc, update_frame; [| apply _ | done | rewrite Hset; by apply cancel_order_ok].
  rewrite Hset. fold (cancel_order original). run_outcome. eexists. split; [done|].
  destruct a. acc_simpl. split; [split; acc_simpl; [done | done | done |] | done].
  eexists. split; [done|]. split; [by apply cancel_order_ok | done].
Qed.
End sends.

(** ** Sequences of requests *)

Inductive request :=
  | ReqEnter (ob : Z) (sd : byte) (qty px : Z)
  | ReqReplace (original : token) (px : Z)
  | ReqCancel (original : token).

Definition send (a : BistMarketAccessor) (r : request) : outcome BistMarketAccessor :=
  match r with
  | ReqEnter ob sd qty px => sendEnterOrder a ob sd qty px
  | ReqReplace original px => sendReplaceOrder a original px
  | ReqCancel original => sendCancelOrder a original
  end.

Definition request_ok (r : request) : Prop :=
  match r with
  | ReqEnter _ _ _ _ => True
  | ReqReplace original _ | ReqCancel original => length original = 14%nat
  end.
#[export] Instance request_ok_dec (r : request) : Decision (request_ok r).
Proof. unfold request_ok. destruct r; apply _. Defined.

(** What has to go out: every enter and replace request takes the next token. *)
Fixpoint request_frames (info : list byte) (om : OrderManager) (rs : list request) : list (list byte) :=
  match rs with
  | [] => []
  | ReqEnter ob sd qty px :: rs =>
      ouch_frame EnterOrder_codec (enter_order info (nextToken om).2 ob sd qty px) ::
      request_frames info (nextToken om).1 rs
  | ReqReplace original px :: rs =>
      ouch_frame ReplaceOrder_codec (replace_order original (nextToken om).2 px) ::
      request_frames info (nextToken om).1 rs
  | ReqCancel original :: rs =>
      ouch_frame CancelOrder_codec (cancel_order original) :: request_frames info om rs
  end.

Lemma request_frames_token (info : list byte) (om om' : OrderManager) (rs : list request) :
  m_token om = m_token om' → request_frames info om rs = request_frames info om' rs.
Proof.
  revert om om'. induction rs as [|[ob sd qty px|o px|o] rs IH]; intros om om' Ht; cbn [request_frames];
    [done | | | by rewrite (IH om om')].
  all: rewrite (IH (nextToken om).1 (nextToken om').1); unfold nextToken; simpl; by rewrite Ht.
Qed.

Lemma send_all (rs : list request) (a : BistMarketAccessor) :
  accessor_ok a → (length (m_exchangeInfo a) ≤ 32)%nat → Forall request_ok rs →
  ∃ a', fold_outcome send a rs = Ret a' ∧ accessor_ok a' ∧ same_session a a' ∧
    written a' = written a ++ request_frames (padded_info (m_exchangeInfo a)) (m_orderManager a) rs.
Proof.
  intros Hok Hi Hrs. revert a Hok Hi. induction Hrs as [|r rs Hr Hrs IH]; intros a Hok Hi.
  { exists a. rewrite app_nil_r. unfold same_session. by split_and!. }
  assert (Hstep : ∃ a1 om1 f, send a r = Ret a1 ∧ accessor_ok a1 ∧ same_session a a1 ∧
    written a1 = written a ++ [f] ∧ m_token (m_orderManager a1) = m_token om1 ∧
    request_frames (padded_info (m_exchangeInfo a)) (m_orderManager a) (r :: rs) =
      f :: request_frames (padded_info (m_exchangeInfo a)) om1 rs).
  { destruct r as [ob sd qty px|o px|o]; cbn [send request_frames].
    - destruct (sendEnterOrder_lemma a Hok Hi ob sd qty px) as (a1 & ? & ? & ? & Hom & ?).
      eexists _, _, _. split_and!; [done..| |done]. by rewrite Hom.
    - destruct (sendReplaceOrder_lemma a Hok Hi o px Hr) as (a1 & ? & ? & ? & Hom & ?).
      eexists _, _, _. split_and!; [done..| |done]. by rewrite Hom.
    - destruct (sendCancelOrder_lemma a Hok Hi o Hr) as (a1 & ? & ? & ? & Hom & ?).
      eexists _, _, _. split_and!; [done..| |done]. by rewrite Hom. }
  destruct Hstep as (a1 & om1 & f & Hs & Hok1 & Hsame & Hw & Htok & Hfr).
  pose proof Hsame as (S1 & S2 & S3 & S4 & S5 & S6).
  destruct (IH a1 Hok1) as (a' & Hf & Hok' & (T1 & T2 & T3 & T4 & T5 & T6) & Hw'); [by rewrite S3|].
  exists a'. cbn [fold_outcome]. rewrite Hs. run_outcome.
  split; [done|]. split; [done|]. split; [unfold same_session; split_and!; congruence|].
  rewrite Hw', Hw, Hfr, S3, <- (assoc_L (++)). simpl. do 2 f_equal. by apply request_frames_token.
Qed.

(** ** Reading a frame *)

Lemma frame_slice {A} (c : codec A) (m : A) (off n : nat) :
  slice (3 + off) n (ouch_frame c m) = slice off n (c_enc c m).
Proof.
  unfold ouch_frame. pose proof (header_size (c_size c)) as Hh. rewrite slice_app_r by lia.
  f_equal. lia.
Qed.

Lemma frame_lookup {A} (c : codec A) (m : A) (off : nat) : ouch_frame c m !! (3 + off)%nat = c_enc c m !! off.
Proof.
  unfold ouch_frame. pose proof (header_size (c_size c)) as Hh. rewrite lookup_app_r by lia. f_equal. lia.
Qed.

(** The SoupBinTCP header of a frame announces the bytes that follow the length field. *)
Lemma frame_header {A} (c : codec A) `{!CodecLaws c} (m : A) :
  c_ok c m = true → Z.of_nat (c_size c) < 2 ^ 15 →
  length (ouch_frame c m) = (3 + c_size c)%nat ∧
  be_load (slice 0 2 (ouch_frame c m)) = Z.of_nat (c_size c) + 1 ∧
  ouch_frame c m !! 2%nat = Some "U"%byte.
Proof.
  intros Hm Hs. pose proof (header_size (c_size c)) as Hh. unfold ouch_frame.
  rewrite length_app, Hh, enc_length by done. split; [done|].
  rewrite slice_app_l, lookup_app_l by lia.
  assert (Hd : c_dec UnsequencedData_codec (c_enc UnsequencedData_codec (unsequenced_header (c_size c))) =
            Some (unsequenced_header (c_size c))).
  { apply dec_enc. change ((c_ok (uint 2) (bswap 2 (Z.of_nat (3 + c_size c - 2))) && true) = true).
    by rewrite uint_ok_bswap. }
  apply UnsequencedData_layout in Hd as (_ & <- & ->). split; [|done].
  unfold unsequenced_header. cbn [ud_packetLength]. unfold be16toh, htobe16.
  change (c_size UnsequencedData_codec) with 3%nat. change (c_size PacketLength) with 2%nat.
  rewrite bswap_swap; [lia|]. change (bytes_modulus 2) with 65536. lia.
Qed.

(** ** The login response *)

Lemma onLoginAccepted_lemma (a : BistMarketAccessor) (la : LoginAccepted) :
  accessor_ok a → (length (m_exchangeInfo a) ≤ 32)%nat →
  ∃ a', onLoginAccepted a la = Ret a' ∧ accessor_ok a' ∧
    m_accState a' = AccContinuous ∧ m_sessionName a' = la_session_name la ∧
    written a' = written a ++
      match oec_instrumentType (m_partition a) with
      | Equity => [ouch_frame EnterOrder_codec (enter_order (padded_info (m_exchangeInfo a))
          (nextToken (m_orderManager a)).2 78436 "S" 5000 770000)]
      | Derivative => []
      end.
Proof.
  intros Hok Hi. unfold onLoginAccepted.
  replace (m_partition (set_session a AccContinuous (la_session_name la))) with (m_partition a) by (by destruct a).
  assert (Hok1 : accessor_ok (set_session a AccContinuous (la_session_name la)))
    by (destruct Hok, a; by split).
  destruct (oec_instrumentType (m_partition a)).
  - destruct (sendEnterOrder_lemma _ Hok1 ltac:(by destruct a) 78436 (enum_byte Side_Sell) 5000 770000)
      as (a' & Hs & Hok' & (_ & _ & _ & _ & Hss & Hst) & _ & Hw).
    exists a'. destruct a. acc_simpl. by split_and!.
  - eexists. split; [done|]. split; [done|]. destruct a. acc_simpl. by rewrite app_nil_r.
Qed.

(** ** Concrete accessors *)

Definition sample_config : OrderEntryPartitionConfig := {|
  oec_name := String.list_byte_of_string "LOCAL_TEST";
  oec_instrumentType := Equity;
  oec_ip := String.list_byte_of_string "127.0.0.1";
  oec_port := 6642;
  oec_port_str := String.list_byte_of_string "6642";
  oec_username := String.list_byte_of_string "TEST";
  oec_password := String.list_byte_of_string "TEST_PWD";
|}.
Definition sample_client_account : list byte := String.list_byte_of_string "CLIACC".
Definition sample_exchange_info : list byte := String.list_byte_of_string "EXCINFO".

Definition sample_requests : list request :=
  [ReqEnter 78436 "S" 5000 770000; ReqReplace sample_token 775000; ReqCancel sample_token].

(** ** Properties *)

(** C22. From a constructed accessor, any sequence of enter, replace and cancel requests
    succeeds and writes exactly one well-formed packet per request, in order: no member
    of an earlier message shows through the reused buffers, and the enter and replace
    requests carry the consecutive tokens of the order manager. *)
Theorem requests_frames (cfg : OrderEntryPartitionConfig) (ca ei : list byte) (last : Z) (rs : list request) :
  0 ≤ last < 2 ^ 31 - 1 → (length ei ≤ 32)%nat → Forall request_ok rs →
  ∃ a, BistMarketAccessor_new cfg ca ei last ≫= (λ a, fold_outcome send a rs) = Ret a ∧
    written a = request_frames (padded_info ei) (OrderManager_new last) rs.
Proof.
  intros Hl He Hrs.
  destruct (BistMarketAccessor_new_ok cfg ca ei last Hl He) as (a & -> & Hok & Hei & _ & _ & Hw & _ & _ & Hom).
  run_outcome. destruct (send_all rs a Hok) as (a' & -> & _ & _ & Hw'); [by rewrite Hei | done |].
  exists a'. by rewrite Hw', Hw, Hei, Hom.
Qed.

Lemma requests_frames_witness :
  ∃ a, BistMarketAccessor_new sample_config sample_client_account sample_exchange_info 1 ≫=
      (λ a, fold_outcome send a sample_requests) = Ret a ∧
    written a = request_frames (padded_info sample_exchange_info) (OrderManager_new 1) sample_requests.
Proof.
  apply (requests_frames sample_config sample_client_account sample_exchange_info 1 sample_requests);
    [lia | simpl; lia | repeat constructor].
Defined.

(** What an enter order packet looks like on the wire: 117 bytes, a length field of 115,
    type U, then the OUCH message with type O, the token, and order book, side, quantity
    and price in network byte order at their offsets. *)
Theorem enter_order_wire (info : list byte) (t : token) (ob : Z) (sd : byte) (qty px : Z) :
  length info = 32%nat → length t = 14%nat → 0 ≤ ob < 2 ^ 32 → 0 ≤ qty < 2 ^ 32 →
  let f := ouch_frame EnterOrder_codec (enter_order info t ob sd qty px) in
  length f = 117%nat ∧ be_load (slice 0 2 f) = 115 ∧ f !! 2%nat = Some "U"%byte ∧
  f !! 3%nat = Some "O"%byte ∧ slice 4 14 f = t ∧ be_load (slice 18 4 f) = ob ∧ f !! 22%nat = Some sd ∧
  be_load (slice 23 8 f) = qty ∧ be_load (slice 31 4 f) = px `mod` 2 ^ 32 ∧ slice 68 32 f = info.
Proof.
  intros Hi Ht Hob Hq f. pose proof (enter_order_ok info t ob sd qty px Hi Ht) as Hok.
  destruct (frame_header EnterOrder_codec _ Hok) as (H1 & H2 & H3); [done|]. fold f in H1, H2, H3.
  pose proof (EnterOrder_layout _ _ (dec_enc _ Hok)) as Hl.
  destruct Hl as (_ & L0 & L1 & L2 & L3 & L4 & L5 & _ & _ & _ & _ & L6 & _).
  split_and!; [exact H1 | exact H2 | exact H3 | | | | | | |]; unfold f.
  - rewrite (frame_lookup _ _ 0), L0. done.
  - rewrite (frame_slice _ _ 1), <- L1. done.
  - rewrite (frame_slice _ _ 15), <- L2. apply (bswap_swap 4). done.
  - rewrite (frame_lookup _ _ 19), L3. done.
  - rewrite (frame_slice _ _ 20), <- L4. apply (bswap_swap 8). change (bytes_modulus 8) with (2 ^ 64). lia.
  - rewrite (frame_slice _ _ 28), <- L5. apply be32_signed.
  - rewrite (frame_slice _ _ 65), <- L6. done.
Qed.

Lemma enter_order_wire_witness :
  let f := ouch_frame EnterOrder_codec
    (enter_order (padded_info sample_exchange_info) sample_token 78436 "S" 5000 770000) in
  length f = 117%nat ∧ be_load (slice 0 2 f) = 115 ∧ f !! 2%nat = Some "U"%byte ∧
  f !! 3%nat = Some "O"%byte ∧ slice 4 14 f = sample_token ∧ be_load (slice 18 4 f) = 78436 ∧
  f !! 22%nat = Some "S"%byte ∧ be_load (slice 23 8 f) = 5000 ∧ be_load (slice 31 4 f) = 770000 ∧
  slice 68 32 f = padded_info sample_exchange_info.
Proof.
  apply (enter_order_wire (padded_info sample_exchange_info) sample_token 78436 "S" 5000 770000);
    [reflexivity | reflexivity | lia | lia].
Defined.

(** The copy of the exchange info is not bounded: a configured value of more than 32
    characters makes the constructor write past the array. *)
Theorem long_exchange_info_undefined (cfg : OrderEntryPartitionConfig) (ca ei : list byte) (last : Z) :
  (32 < length ei)%nat → BistMarketAccessor_new cfg ca ei last = Undef OutOfBoundsWrite.
Proof.
  intros He. unfold BistMarketAccessor_new, prepareEnterOrderBuffer, copy_exchange_info, memcpy_into at 1.
  cbn [m_exchangeInfo]. rewrite repeat_length. by rewrite (proj2 (Nat.leb_gt _ _)) by (simpl; lia).
Qed.

Lemma long_exchange_info_undefined_witness :
  BistMarketAccessor_new sample_config sample_client_account (repeat "X"%byte 33) 1 = Undef OutOfBoundsWrite.
Proof.
  apply (long_exchange_info_undefined sample_config sample_client_account (repeat "X"%byte 33) 1). simpl. lia.
Defined.

(** A login response: the accessor takes over the session name and becomes Continuous;
    an equity accessor sends exactly one enter order, with the next token, and a
    derivative accessor sends nothing. *)
Theorem onLoginAccepted_spec (a : BistMarketAccessor) (la : LoginAccepted) :
  accessor_ok a → (length (m_exchangeInfo a) ≤ 32)%nat →
  ∃ a', onLoginAccepted a la = Ret a' ∧ accessor_ok a' ∧
    m_accState a' = AccContinuous ∧ m_sessionName a' = la_session_name la ∧
    written a' = written a ++
      match oec_instrumentType (m_partition a) with
      | Equity => [ouch_frame EnterOrder_codec (enter_order (padded_info (m_exchangeInfo a))
          (nextToken (m_orderManager a)).2 78436 "S" 5000 770000)]
      | Derivative => []
      end.
Proof. apply onLoginAccepted_lemma. Qed.

Lemma onLoginAccepted_spec_witness :
  ∃ a a', BistMarketAccessor_new sample_config sample_client_account sample_exchange_info 1 = Ret a ∧
    onLoginAccepted a (Build_LoginAccepted (bswap 2 31) "A" (repeat "S"%byte 10) (repeat " "%byte 20)) = Ret a' ∧
    m_accState a' = AccContinuous ∧ m_sessionName a' = repeat "S"%byte 10.
Proof.
  destruct (BistMarketAccessor_new_ok sample_config sample_client_account sample_exchange_info 1)
    as (a & Ha & Hok & Hei & _); [lia | simpl; lia |].
  destruct (onLoginAccepted_spec a (Build_LoginAccepted (bswap 2 31) "A" (repeat "S"%byte 10) (repeat " "%byte 20)) Hok)
    as (a' & Ha' & _ & Hst & Hss & _); [rewrite Hei; simpl; lia|].
  by exists a, a'.
Defined.
