(* ===== verification/TcpClient.v ===== *)
(** * The TCP client: framing and the OUCH session

    Models lib/network/tcp_client.hpp and .cpp.  [TcpClient] reads the TCP stream into a
    buffer of 4096 bytes, cuts it into length-prefixed packets and hands each to
    [handleMessage]; what is left moves to the front of the buffer.

    The framing is modelled for any message handler (class [MessageHandler]), which gets
    a pointer into the buffer, that is the memory from there to the end of the buffer,
    and a length.  [handleMessage] is its instance for [BistMarketAccessor], on any
    [Platform]; [effect] is what a packet of the server is meant to do to the accessor and
    [react] what it does on the platform.

    The environment is the list of chunks in which the stream becomes available: one
    [read] returns bytes of one chunk, as many as fit.  No chunk means that the peer has
    closed the connection. *)
From S2P Require Import Prelude Bytes Digits Codec Types OuchMessages SessionMessages ConfigParser OrderManager OrderEntryClient.
Local Open Scope Z_scope.

Definition BUFFER_SIZE : nat := 4096.

Class MessageHandler (A : Type) := {
  handle_message : A → list byte → Z → outcome A;
}.
#[global] Hint Mode MessageHandler ! : typeclass_instances.

Record TcpClient (A : Type) := Build_TcpClient {
  m_buffer : list byte;
  m_dataSize : nat;
  m_marketAccessor : A;
}.
Arguments Build_TcpClient {_} _ _ _.
Arguments m_buffer {_} _.
Arguments m_dataSize {_} _.
Arguments m_marketAccessor {_} _.

Definition TcpClient_new {A} (accessor : A) : TcpClient A :=
  Build_TcpClient (repeat x00 BUFFER_SIZE) 0 accessor.

Section client.
Context {A : Type} `{MessageHandler A}.
Implicit Types (c : TcpClient A).

(** The loop of [processBuffer], from [offset]: the accessor and the offset at which it
    stops.  Every round consumes at least two bytes, so [fuel] larger than the number of
    bytes left does not run out ([process_loop_run]). *)
Fixpoint process_loop (fuel : nat) (buffer : list byte) (dataSize offset : nat) (a : A) : outcome (A * nat) :=
  match fuel with
  | O => Throw "out of fuel"
  | S fuel =>
      if (2 <=? dataSize - offset)%nat then
        bs ← read_mem offset 2 buffer;
        let messageLength := be16toh (le_load bs) in
        if (dataSize - offset <? 2 + Z.to_nat messageLength)%nat then Ret (a, offset)
        else
          a ← handle_message a (drop offset buffer) (wrap 16 (2 + messageLength));
          process_loop fuel buffer dataSize (offset + (2 + Z.to_nat messageLength)) a
      else Ret (a, offset)
  end.

Definition processBuffer c : outcome (TcpClient A) :=
  '(a, offset) ← process_loop (S (m_dataSize c)) (m_buffer c) (m_dataSize c) 0 (m_marketAccessor c);
  if (0 <? offset)%nat then
    let rest := (m_dataSize c - offset)%nat in
    Ret (Build_TcpClient (splice 0 (slice offset rest (m_buffer c)) (m_buffer c)) rest a)
  else Ret (Build_TcpClient (m_buffer c) (m_dataSize c) a).

(** [TcpSocket::read] behind the data: the bytes read and the stream that remains. *)
Definition readFromSocket c (chunks : list (list byte)) : TcpClient A * nat * list (list byte) :=
  match chunks with
  | [] => (c, 0%nat, [])
  | chunk :: chunks =>
      let room := (BUFFER_SIZE - m_dataSize c)%nat in
      let got := take room chunk in
      let rest := drop room chunk in
      (Build_TcpClient (splice (m_dataSize c) got (m_buffer c)) (m_dataSize c + length got) (m_marketAccessor c),
       length got, match rest with [] => chunks | _ => rest :: chunks end)
  end.

(** [startRead], for [n] iterations until the stop flag is seen. *)
Fixpoint startRead (n : nat) c (chunks : list (list byte)) : outcome (TcpClient A) :=
  match n with
  | O => Ret c
  | S n =>
      let '(c, bytesRead, chunks) := readFromSocket c chunks in
      if (bytesRead =? 0)%nat then Ret c
      else c ← processBuffer c; startRead n c chunks
  end.
End client.

(** ** The loops without fuel *)

Section loops.
Context {A : Type} `{MessageHandler A}.
Implicit Types (c : TcpClient A).

(** The loop of [processBuffer] as the code runs it: the rounds from [offset] on, ending
    in the accessor and offset, or in the failure that stopped it. *)
Inductive loop_run (buffer : list byte) (dataSize : nat) : nat → A → outcome (A * nat) → Prop :=
  | loop_end offset a :
      (dataSize - offset < 2)%nat → loop_run buffer dataSize offset a (Ret (a, offset))
  | loop_no_length offset a e :
      (2 ≤ dataSize - offset)%nat → read_mem offset 2 buffer = Undef e →
      loop_run buffer dataSize offset a (Undef e)
  | loop_wait offset a bs :
      (2 ≤ dataSize - offset)%nat → read_mem offset 2 buffer = Ret bs →
      (dataSize - offset < 2 + Z.to_nat (be16toh (le_load bs)))%nat →
      loop_run buffer dataSize offset a (Ret (a, offset))
  | loop_stop offset a bs o :
      (2 ≤ dataSize - offset)%nat → read_mem offset 2 buffer = Ret bs →
      (2 + Z.to_nat (be16toh (le_load bs)) ≤ dataSize - offset)%nat →
      handle_message a (drop offset buffer) (wrap 16 (2 + be16toh (le_load bs))) = o →
      (∀ a', o ≠ Ret a') →
      loop_run buffer dataSize offset a (x ← o; Ret (x, offset))
  | loop_round offset a bs a' r :
      (2 ≤ dataSize - offset)%nat → read_mem offset 2 buffer = Ret bs →
      (2 + Z.to_nat (be16toh (le_load bs)) ≤ dataSize - offset)%nat →
      handle_message a (drop offset buffer) (wrap 16 (2 + be16toh (le_load bs))) = Ret a' →
      loop_run buffer dataSize (offset + (2 + Z.to_nat (be16toh (le_load bs)))) a' r →
      loop_run buffer dataSize offset a r.

(** What [processBuffer] leaves behind when its loop stops at [offset]. *)
Definition compact c (r : A * nat) : TcpClient A :=
  let '(a, offset) := r in
  if (0 <? offset)%nat then
    let rest := (m_dataSize c - offset)%nat in
    Build_TcpClient (splice 0 (slice offset rest (m_buffer c)) (m_buffer c)) rest a
  else Build_TcpClient (m_buffer c) (m_dataSize c) a.

(** The loop of [startRead] until the peer has closed the connection. *)
Inductive read_run : TcpClient A → list (list byte) → outcome (TcpClient A) → Prop :=
  | read_end c chunks c' rest :
      readFromSocket c chunks = (c', 0%nat, rest) → read_run c chunks (Ret c')
  | read_stop c chunks c' got rest o :
      readFromSocket c chunks = (c', S got, rest) →
      loop_run (m_buffer c') (m_dataSize c') 0 (m_marketAccessor c') o → (∀ r, o ≠ Ret r) →
      read_run c chunks (r ← o; Ret (compact c' r))
  | read_round c chunks c' got rest r o :
      readFromSocket c chunks = (c', S got, rest) →
      loop_run (m_buffer c') (m_dataSize c') 0 (m_marketAccessor c') (Ret r) →
      read_run (compact c' r) rest o →
      read_run c chunks o.

Lemma process_loop_run (fuel : nat) (buffer : list byte) (dataSize offset : nat) (a : A) :
  (dataSize - offset < fuel)%nat →
  loop_run buffer dataSize offset a (process_loop fuel buffer dataSize offset a).
Proof.
  revert offset a. induction fuel as [|fuel IH]; intros offset a Hf; [lia|]. cbn [process_loop].
  destruct (Nat.leb_spec 2 (dataSize - offset)) as [H2|]; [|by apply loop_end].
  destruct (read_mem offset 2 buffer) as [bs| | |] eqn:Hr; run_outcome; cycle 1.
  { unfold read_mem in Hr. by case_match. }
  { unfold read_mem in Hr. by case_match. }
  { by eapply loop_no_length. }
  destruct (Nat.ltb_spec (dataSize - offset) (2 + Z.to_nat (be16toh (le_load bs)))) as [|Hin];
    [by eapply loop_wait|].
  destruct (handle_message a (drop offset buffer) (wrap 16 (2 + be16toh (le_load bs)))) as [a'| | |] eqn:Hh;
    [run_outcome; eapply loop_round; [done..|]; apply IH; lia | ..];
    by apply (loop_stop _ _ _ _ bs _ H2 Hr Hin Hh).
Qed.

(** Two equations for one expression become one. *)
Ltac same_equation :=
  match goal with
  | H1 : ?x = Ret ?a, H2 : ?x = Ret ?b |- _ =>
      first [unify a b; clear H2 | rewrite H1 in H2; injection H2 as H2; try subst]
  | H1 : ?x = Ret ?a, H2 : ?x = Undef ?b |- _ => congruence
  | H1 : ?x = Ret ?a, H2 : ∀ r, ?x ≠ Ret r |- _ => destruct (H2 a H1)
  end.

Lemma loop_run_det (buffer : list byte) (dataSize offset : nat) (a : A) (r1 r2 : outcome (A * nat)) :
  loop_run buffer dataSize offset a r1 → loop_run buffer dataSize offset a r2 → r1 = r2.
Proof.
  intros H1. revert r2. induction H1; inversion 1; subst; repeat same_equation; try lia; try done; try congruence.
  by auto.
Qed.

(** A round of [startRead] consumes part of the stream. *)
Lemma readFromSocket_consumes c (chunks : list (list byte)) c' (got : nat) (rest : list (list byte)) :
  readFromSocket c chunks = (c', S got, rest) → (length (concat rest) < length (concat chunks))%nat.
Proof.
  unfold readFromSocket. destruct chunks as [|ch chunks]; intros Hr; [done|].
  injection Hr as <- Hg <-. cbn [concat]. rewrite length_app.
  rewrite <- (take_drop (BUFFER_SIZE - m_dataSize c) ch) at 2. rewrite length_app, Hg.
  destruct (drop _ ch); cbn [concat]; rewrite ?length_app; simpl; lia.
Qed.

Lemma processBuffer_compact c :
  processBuffer c = (r ← process_loop (S (m_dataSize c)) (m_buffer c) (m_dataSize c) 0 (m_marketAccessor c);
                     Ret (compact c r)).
Proof. unfold processBuffer, compact. destruct (process_loop _ _ _ _ _) as [[]| | |]; run_outcome; try done; by case_match. Qed.

Lemma startRead_read_run (n : nat) c (chunks : list (list byte)) :
  (length (concat chunks) < n)%nat → read_run c chunks (startRead n c chunks).
Proof.
  revert c chunks. induction n as [|n IH]; intros c chunks Hn; [lia|]. cbn [startRead].
  destruct (readFromSocket c chunks) as [[c' [|got]] rest] eqn:Hr; [by eapply read_end|].
  pose proof (readFromSocket_consumes _ _ _ _ _ Hr) as Hless. cbn [Nat.eqb]. rewrite processBuffer_compact.
  pose proof (process_loop_run (S (m_dataSize c')) (m_buffer c') (m_dataSize c') 0 (m_marketAccessor c')
    ltac:(lia)) as Hl.
  destruct (process_loop _ _ _ _ _) as [r| | |] eqn:Hp; run_outcome;
    [eapply read_round; [done..|]; apply IH; lia | ..];
    exact (read_stop _ _ _ _ _ _ Hr Hl ltac:(done)).
Qed.

Lemma read_run_det c (chunks : list (list byte)) (o1 o2 : outcome (TcpClient A)) :
  read_run c chunks o1 → read_run c chunks o2 → o1 = o2.
Proof.
  intros H1. revert o2. induction H1; inversion 1; subst;
    repeat match goal with
    | Ha : readFromSocket ?x ?y = _, Hb : readFromSocket ?x ?y = _ |- _ =>
        rewrite Ha in Hb; injection Hb as Hb; subst; try done
    | Ha : loop_run _ _ _ _ ?x, Hb : loop_run _ _ _ _ ?y |- _ =>
        pose proof (loop_run_det _ _ _ _ _ _ Ha Hb); clear Ha
    end; naive_solver.
Qed.

End loops.

(** ** The specification of framing *)

(** A packet of the stream: a length field and as many bytes. *)
Definition packet (payload : list byte) : list byte := be_store 2 (Z.of_nat (length payload)) ++ payload.

(** A handler that depends on its packet only, when [lookahead] more bytes follow in the
    buffer: [on_packet] says what it does. *)
Class PacketHandler (A : Type) `{MessageHandler A} := {
  lookahead : nat;
  packet_ok : A → list byte → Prop;
  on_packet : A → list byte → outcome A;
  handle_packet (a : A) (payload rest : list byte) :
    packet_ok a payload → (lookahead ≤ length rest)%nat → Z.of_nat (length payload) + 2 < 2 ^ 16 →
    handle_message a (packet payload ++ rest) (2 + Z.of_nat (length payload)) = on_packet a payload;
}.

Section framing.
Context {A : Type} `{PacketHandler A}.

(** The packets are acceptable one after the other. *)
Fixpoint packets_ok (a : A) (ps : list (list byte)) : Prop :=
  match ps with
  | [] => True
  | p :: ps => packet_ok a p ∧ ∀ a', on_packet a p = Ret a' → packets_ok a' ps
  end.

Lemma packet_length (p : list byte) : length (packet p) = (2 + length p)%nat.
Proof. unfold packet. by autorewrite with algocor_bytes. Qed.

Lemma packet_length_field (p rest : list byte) :
  Z.of_nat (length p) < 2 ^ 16 → be16toh (le_load (slice 0 2 (packet p ++ rest))) = Z.of_nat (length p).
Proof.
  intros Hl. unfold packet. rewrite <- (assoc_L (++)), slice_app_l by (rewrite length_be_store; lia).
  rewrite <- (length_be_store 2 (Z.of_nat (length p))) at 1. rewrite slice_all.
  unfold be16toh. rewrite bswap_le_load by apply length_be_store.
  rewrite be_load_store. apply Z.mod_small. change (bytes_modulus 2) with 65536. lia.
Qed.

(** What is left over does not hold a whole packet. *)
Definition incomplete (bs : list byte) : Prop :=
  (length bs < 2)%nat ∨ (length bs < 2 + Z.to_nat (be16toh (le_load (slice 0 2 bs))))%nat.

Lemma slice_app_here (off n : nat) (pre bs post : list byte) :
  length pre = off → (n ≤ length bs)%nat → slice off n (pre ++ bs ++ post) = slice 0 n bs.
Proof. intros <- Hn. rewrite slice_app_r, Nat.sub_diag by lia. apply slice_app_l. lia. Qed.

Lemma process_loop_packets (ps : list (list byte)) (fuel : nat) (pre tail rest : list byte) (a : A) :
  let data := concat (packet <$> ps) ++ tail in
  packets_ok a ps → Forall (λ p, Z.of_nat (length p) + 2 < 2 ^ 16) ps → incomplete tail →
  (lookahead ≤ length rest)%nat → (length data < fuel)%nat →
  process_loop fuel (pre ++ data ++ rest) (length pre + length data) (length pre) a =
    (λ a', (a', (length pre + length (concat (packet <$> ps)))%nat)) <$> fold_outcome on_packet a ps.
Proof.
  intros data Hok Hps Hinc Hrest Hfuel. subst data.
  revert fuel pre a Hok Hfuel. induction Hps as [|p ps Hp Hps IH]; intros fuel pre a Hok Hfuel.
  - destruct fuel as [|fuel]; [lia|]. cbn [process_loop fmap list_fmap concat app length fold_outcome] in *.
    rewrite Nat.add_0_r. replace (length pre + length tail - length pre)%nat with (length tail) by lia.
    destruct (Nat.leb_spec 2 (length tail)) as [H2|]; [|done].
    rewrite read_mem_ok by (rewrite !length_app; lia). run_outcome.
    rewrite slice_app_here by done. destruct Hinc as [|Hinc]; [lia|].
    by rewrite (proj2 (Nat.ltb_lt _ _) Hinc).
  - destruct fuel as [|fuel]; [lia|].
    change (concat (packet <$> p :: ps)) with (packet p ++ concat (packet <$> ps)) in *.
    set (more := concat (packet <$> ps) ++ tail) in *.
    replace ((packet p ++ concat (packet <$> ps)) ++ tail) with (packet p ++ more) in *
      by (unfold more; by rewrite (assoc_L (++))).
    replace (pre ++ (packet p ++ more) ++ rest) with (pre ++ packet p ++ more ++ rest)
      by (by rewrite (assoc_L (++) (packet p))).
    rewrite (length_app (packet p) more), packet_length in *. destruct Hok as [Hokp Hok].
    cbn [process_loop fold_outcome].
    replace (length pre + (2 + length p + length more) - length pre)%nat with (2 + length p + length more)%nat by lia.
    destruct (Nat.leb_spec 2 (2 + length p + length more)); [|lia].
    rewrite read_mem_ok by (rewrite !length_app, packet_length; lia). run_outcome.
    replace (slice (length pre) 2 (pre ++ packet p ++ more ++ rest)) with (slice 0 2 (packet p ++ more ++ rest)).
    2: { by rewrite (slice_app_r (length pre)), Nat.sub_diag by lia. }
    rewrite packet_length_field, Nat2Z.id by lia.
    destruct (Nat.ltb_spec (2 + length p + length more) (2 + length p)); [lia|].
    rewrite wrap_id by lia. rewrite drop_app_length.
    rewrite handle_packet by (try rewrite length_app; done || lia).
    destruct (on_packet a p) as [a'|?|?|?] eqn:Hon; try done. run_outcome.
    replace (pre ++ packet p ++ more ++ rest) with ((pre ++ packet p) ++ more ++ rest) by (by rewrite <- (assoc_L (++))).
    replace (length pre + (2 + length p))%nat with (length (pre ++ packet p)) by (rewrite length_app, packet_length; lia).
    replace (length pre + (2 + length p + length more))%nat with (length (pre ++ packet p) + length more)%nat
      by (rewrite length_app, packet_length; lia).
    rewrite (IH fuel (pre ++ packet p) a' (Hok a' eq_refl)) by lia.
    destruct (fold_outcome _ _ _); try done. simpl. do 2 f_equal. rewrite !length_app, packet_length. lia.
Qed.

(** ** Chunks *)

(** The buffer starts with [data]; the rest of it is stale. *)
Record holds (c : TcpClient A) (data : list byte) (a : A) : Prop := {
  holds_buffer : length (m_buffer c) = BUFFER_SIZE;
  holds_data : ∃ stale, m_buffer c = data ++ stale;
  holds_size : m_dataSize c = length data;
  holds_accessor : m_marketAccessor c = a;
}.

Lemma splice_prefix (new mem : list byte) :
  (length new ≤ length mem)%nat → splice 0 new mem = new ++ drop (length new) mem.
Proof. intros H'. unfold splice. by rewrite take_0. Qed.

(** What is left of the chunks when the first [room] bytes of a chunk have been read. *)
Definition rest_of (room : nat) (chunk : list byte) (chunks : list (list byte)) : list (list byte) :=
  match drop room chunk with [] => chunks | _ => drop room chunk :: chunks end.

(** A read takes what fits. *)
Lemma read_some (c : TcpClient A) (data chunk : list byte) (chunks : list (list byte)) (a : A) :
  holds c data a → (length data ≤ BUFFER_SIZE)%nat →
  let room := (BUFFER_SIZE - length data)%nat in
  ∃ c', readFromSocket c (chunk :: chunks) = (c', length (take room chunk), rest_of room chunk chunks) ∧
    holds c' (data ++ take room chunk) a.
Proof.
  intros [Hb [stale Hd] Hs Ha] Hfit room. unfold readFromSocket, rest_of. rewrite Hs. fold room.
  set (got := take room chunk). eexists. split; [done|].
  assert (Hl : (length data + length got ≤ length (m_buffer c))%nat) by (unfold got, room; rewrite length_take; lia).
  split; cbn [m_buffer m_dataSize m_marketAccessor].
  - by rewrite length_splice.
  - exists (drop (length data + length got) (m_buffer c)).
    unfold splice. rewrite Hd at 1. by rewrite take_app_length, (assoc_L (++)).
  - by rewrite length_app.
  - done.
Qed.

Lemma read_holds (c : TcpClient A) (data chunk : list byte) (chunks : list (list byte)) (a : A) :
  holds c data a → (length data + length chunk ≤ BUFFER_SIZE)%nat →
  ∃ c', readFromSocket c (chunk :: chunks) = (c', length chunk, chunks) ∧ holds c' (data ++ chunk) a.
Proof.
  intros Hc Hfit. destruct (read_some c data chunk chunks a Hc) as (c' & Hr & Hc'); [lia|].
  unfold rest_of in Hr. rewrite take_ge, drop_ge in * by lia. by exists c'.
Qed.

(** Processing handles the whole packets in the buffer, or fails as their handler does. *)
Lemma process_holds (c : TcpClient A) (ps : list (list byte)) (tail : list byte) (a : A) :
  holds c (concat (packet <$> ps) ++ tail) a → packets_ok a ps →
  Forall (λ p, Z.of_nat (length p) + 2 < 2 ^ 16) ps → incomplete tail →
  (length (concat (packet <$> ps) ++ tail) + lookahead ≤ BUFFER_SIZE)%nat →
  same_outcome (λ a' c', holds c' tail a') (fold_outcome on_packet a ps) (processBuffer c).
Proof.
  intros [Hb [stale Hd] Hs Ha] Hok Hps Hinc Hfit. unfold processBuffer. rewrite Hs, Ha, Hd.
  assert (Hst : (lookahead ≤ length stale)%nat) by (rewrite Hd, length_app in Hb; lia).
  pose proof (process_loop_packets ps (S (length (concat (packet <$> ps) ++ tail))) [] tail stale a
    Hok Hps Hinc Hst ltac:(lia)) as Hl.
  cbn [app length Nat.add] in Hl. rewrite Hl. destruct (fold_outcome on_packet a ps) as [a'| | |]; [|done..].
  cbn [fmap outcome_fmap mbind outcome_bind].
  set (done_ := concat (packet <$> ps)) in *.
  destruct (Nat.ltb_spec 0 (length done_)) as [Hlt|Hz]; cbn [same_outcome].
  - rewrite length_app. replace (length done_ + length tail - length done_)%nat with (length tail) by lia.
    assert (Hsl : slice (length done_) (length tail) ((done_ ++ tail) ++ stale) = tail).
    { rewrite <- (assoc_L (++)), slice_app_here by done. apply slice_all. }
    rewrite Hsl. split; cbn [m_buffer m_dataSize m_marketAccessor]; try done.
    + rewrite length_splice; rewrite <- Hd, Hb; [done|]. rewrite Hd, length_app in Hb. rewrite length_app in Hb. lia.
    + rewrite splice_prefix by (rewrite !length_app; lia). by eexists.
  - destruct done_ as [|]; [|simpl in Hz; lia].
    split; cbn [m_buffer m_dataSize m_marketAccessor]; try done; [by rewrite <- Hd | by eexists].
Qed.

Lemma process_holds_ret (c : TcpClient A) (ps : list (list byte)) (tail : list byte) (a a' : A) :
  holds c (concat (packet <$> ps) ++ tail) a → packets_ok a ps →
  Forall (λ p, Z.of_nat (length p) + 2 < 2 ^ 16) ps → incomplete tail →
  (length (concat (packet <$> ps) ++ tail) + lookahead ≤ BUFFER_SIZE)%nat →
  fold_outcome on_packet a ps = Ret a' →
  ∃ c', processBuffer c = Ret c' ∧ holds c' tail a'.
Proof.
  intros Hc Hok Hps Hinc Hfit Hf. pose proof (process_holds c ps tail a Hc Hok Hps Hinc Hfit) as Hsame.
  rewrite Hf in Hsame. destruct (processBuffer c) as [c'| | |]; try done. by exists c'.
Qed.

(** A prefix of a stream of packets ends within some packet. *)
Lemma split_prefix (ps : list (list byte)) (tail data more : list byte) :
  Forall (λ p, Z.of_nat (length p) + 2 < 2 ^ 16) ps → incomplete tail →
  data ++ more = concat (packet <$> ps) ++ tail →
  ∃ ps1 ps2 t, ps = ps1 ++ ps2 ∧ data = concat (packet <$> ps1) ++ t ∧ incomplete t ∧
    t ++ more = concat (packet <$> ps2) ++ tail.
Proof.
  intros Hps Hinc. revert data. induction Hps as [|p ps Hp Hps IH]; intros data Heq.
  - exists [], [], data. split_and!; try done. simpl in Heq. subst tail. unfold incomplete in *.
    rewrite length_app in Hinc. destruct (Nat.ltb_spec (length data) 2) as [|H2]; [by left|right].
    rewrite slice_app_l in Hinc by lia. lia.
  - change (concat (packet <$> p :: ps)) with (packet p ++ concat (packet <$> ps)) in Heq.
    rewrite <- (assoc_L (++)) in Heq.
    destruct (Nat.leb_spec (length (packet p)) (length data)) as [Hle|Hlt].
    + assert (Hd : data = packet p ++ drop (length (packet p)) data).
      { rewrite <- (take_drop (length (packet p)) data) at 1. f_equal.
        apply (f_equal (take (length (packet p)))) in Heq.
        by rewrite take_app_le, take_app_length in Heq. }
      rewrite Hd, <- (assoc_L (++)) in Heq. apply app_inv_head in Heq.
      destruct (IH _ Heq) as (ps1 & ps2 & t & -> & Ht & ? & ?).
      exists (p :: ps1), ps2, t. split_and!; try done. rewrite Hd, Ht. cbn. by rewrite (assoc_L (++)).
    + exists [], (p :: ps), data. split_and!; try done.
      2: { cbn. by rewrite Heq, (assoc_L (++)). }
      unfold incomplete. destruct (Nat.ltb_spec (length data) 2) as [|H2]; [by left|right].
      pose proof (packet_length_field p (concat (packet <$> ps) ++ tail) ltac:(lia)) as Hf.
      rewrite <- Heq, slice_app_l in Hf by lia. rewrite Hf, Nat2Z.id. by rewrite packet_length in Hlt.
Qed.

Lemma incomplete_no_packet (ps : list (list byte)) (tail : list byte) :
  Forall (λ p, Z.of_nat (length p) + 2 < 2 ^ 16) ps → incomplete (concat (packet <$> ps) ++ tail) → ps = [].
Proof.
  intros Hps Hinc. destruct Hps as [|p ps Hp Hps]; [done|]. exfalso.
  change (concat (packet <$> p :: ps)) with (packet p ++ concat (packet <$> ps)) in Hinc.
  rewrite <- (assoc_L (++)) in Hinc. unfold incomplete in Hinc.
  rewrite packet_length_field, length_app, packet_length, Nat2Z.id in Hinc by lia. lia.
Qed.

Lemma packets_ok_app (ps1 ps2 : list (list byte)) (a a1 : A) :
  packets_ok a (ps1 ++ ps2) → fold_outcome on_packet a ps1 = Ret a1 → packets_ok a ps1 ∧ packets_ok a1 ps2.
Proof.
  revert a. induction ps1 as [|p ps1 IH]; intros a Hok Hf; simpl in Hf; [by simplify_eq|].
  apply bind_ret_inv in Hf as (a' & Ha' & Hf). destruct Hok as [Hp Hok].
  destruct (IH a' (Hok a' Ha') Hf) as [H1 H2]. split; [split; [done|]|done].
  intros a'' Ha''. rewrite Ha' in Ha''. by simplify_eq.
Qed.

Lemma packets_ok_front (ps1 ps2 : list (list byte)) (a : A) : packets_ok a (ps1 ++ ps2) → packets_ok a ps1.
Proof.
  revert a. induction ps1 as [|p ps1 IH]; intros a; [done|]. intros [Hp Hok]. split; [done|]. intros a' Ha'. by apply IH, Hok.
Qed.

(** What is left in the buffer is short of the packet it is the beginning of. *)
Lemma incomplete_short (M : nat) (ps : list (list byte)) (tail t more : list byte) :
  incomplete t → t ++ more = concat (packet <$> ps) ++ tail → (M ≤ BUFFER_SIZE)%nat →
  Forall (λ p, (length (packet p) ≤ M)%nat) ps → (length tail ≤ M)%nat →
  (length t ≤ M)%nat ∧ (more ≠ [] → length t < M)%nat.
Proof.
  intros Ht Heq HM Hps Htl. destruct Hps as [|p ps Hp Hps].
  - simpl in Heq. apply (f_equal length) in Heq. rewrite length_app in Heq. destruct more; simpl in Heq; split; (done || lia).
  - assert (length t < M)%nat; [|lia]. change BUFFER_SIZE with 4096%nat in HM.
    rewrite packet_length in Hp. destruct Ht as [|Ht]; [lia|]. destruct (Nat.ltb_spec (length t) M); [done|]. exfalso.
    change (concat (packet <$> p :: ps)) with (packet p ++ concat (packet <$> ps)) in Heq.
    rewrite <- (assoc_L (++)) in Heq.
    pose proof (packet_length_field p (concat (packet <$> ps) ++ tail)) as Hlf.
    rewrite <- Heq, slice_app_l in Hlf by lia. rewrite Hlf in Ht by lia. lia.
Qed.

(** The chunks can be read in [n] rounds without ever filling the buffer up to where the
    handler would look: a handler that looks at its packet only takes any chunks, which may
    then be read in pieces; otherwise a chunk must leave room behind a part of a packet,
    which is at most [M] bytes long. *)
Definition readable (M n : nat) (chunks : list (list byte)) : Prop :=
  lookahead = 0%nat ∧ (length (concat chunks) ≤ n)%nat ∨
  Forall (λ ch, (M + length ch + lookahead ≤ BUFFER_SIZE)%nat) chunks ∧ (length chunks ≤ n)%nat.

Lemma readable_next (M n : nat) (left ch : list byte) (chunks : list (list byte)) :
  let room := (BUFFER_SIZE - length left)%nat in
  readable M n (ch :: chunks) → (0 < length ch)%nat → Forall (λ ch, (0 < length ch)%nat) chunks →
  (length left ≤ M)%nat → (length left < BUFFER_SIZE)%nat →
  ∃ n', n = S n' ∧ (0 < length (take room ch))%nat ∧
    (length (left ++ take room ch) + lookahead ≤ BUFFER_SIZE)%nat ∧
    take room ch ++ concat (rest_of room ch chunks) = ch ++ concat chunks ∧
    Forall (λ ch, (0 < length ch)%nat) (rest_of room ch chunks) ∧ readable M n' (rest_of room ch chunks).
Proof.
  intros room Hr Hch Hne Hl Hlt.
  assert (Hcat : take room ch ++ concat (rest_of room ch chunks) = ch ++ concat chunks).
  { unfold rest_of. rewrite <- (take_drop room ch) at 3. rewrite <- (assoc_L (++)).
    by destruct (drop room ch). }
  assert (Hpos : (0 < length (take room ch))%nat) by (rewrite length_take; lia).
  assert (Hne' : Forall (λ ch, (0 < length ch)%nat) (rest_of room ch chunks)).
  { unfold rest_of. destruct (drop room ch) eqn:E; [done|]. constructor; [simpl; lia | done]. }
  pose proof (f_equal length Hcat) as Hlen. rewrite !length_app in Hlen. rewrite length_app.
  destruct Hr as [[Hzero Hn]|[Hf Hn]].
  - cbn [concat] in Hn. rewrite length_app in Hn. destruct n as [|n]; [lia|]. exists n.
    split_and!; try done; [|left; split; [done|lia]]. rewrite length_take. lia.
  - destruct n as [|n]; [simpl in Hn; lia|]. exists n. apply Forall_cons in Hf as [Hf Hfs].
    split_and!; try done; [rewrite length_take; lia|]. right. unfold rest_of. rewrite drop_ge by lia.
    split; [done | simpl in Hn; lia].
Qed.

(** However the stream is cut into readable chunks, exactly its packets are handled, in
    order, and the incomplete rest stays in the buffer; or the handler fails on one of
    them, and the loop with it. *)
Lemma startRead_stream (M : nat) (chunks : list (list byte)) (ps : list (list byte)) (left tail : list byte)
    (c : TcpClient A) (a : A) (n : nat) :
  holds c left a → incomplete left → left ++ concat chunks = concat (packet <$> ps) ++ tail → incomplete tail →
  (M ≤ BUFFER_SIZE)%nat → Forall (λ p, (length (packet p) ≤ M)%nat) ps → (length tail ≤ M)%nat →
  Forall (λ ch, (0 < length ch)%nat) chunks → readable M n chunks → packets_ok a ps →
  same_outcome (λ a' c', holds c' tail a') (fold_outcome on_packet a ps) (startRead n c chunks).
Proof.
  intros Hc Hleft Heq Htail HM Hps Htl Hch Hrd Hok.
  revert chunks left ps c a Hc Hleft Heq Hps Hch Hrd Hok.
  induction n as [n IH] using lt_wf_ind; intros chunks left ps c a Hc Hleft Heq Hps Hch Hrd Hok.
  assert (Hsmall : Forall (λ p, Z.of_nat (length p) + 2 < 2 ^ 16) ps).
  { eapply Forall_impl; [exact Hps|]. intros p Hp. cbv beta in Hp. rewrite packet_length in Hp.
    change BUFFER_SIZE with 4096%nat in HM. lia. }
  destruct Hch as [|ch chunks Hch Hne].
  - simpl in Heq. rewrite app_nil_r in Heq. subst left.
    assert (ps = []) as -> by (by eapply incomplete_no_packet). by destruct n.
  - cbn [concat] in Heq. destruct (incomplete_short M ps tail left (ch ++ concat chunks)) as [Hl Hlt]; try done.
    assert (ch ++ concat chunks ≠ []) as Hmore by (by destruct ch; [simpl in Hch; lia|]). specialize (Hlt Hmore).
    destruct (readable_next M n left ch chunks Hrd Hch Hne Hl) as (n' & -> & Hgot & Hfit & Hcat & Hne' & Hrd'); [lia|].
    set (room := (BUFFER_SIZE - length left)%nat) in *.
    destruct (read_some c left ch chunks a Hc) as (c1 & Hr & Hc1); [lia|]. fold room in Hr, Hc1.
    cbn [startRead]. rewrite Hr. rewrite (proj2 (Nat.eqb_neq _ 0)) by lia.
    rewrite <- Hcat, (assoc_L (++)) in Heq.
    destruct (split_prefix ps tail (left ++ take room ch) _ Hsmall Htail Heq) as (ps1 & ps2 & t & -> & Hd & Ht & Hrest).
    apply Forall_app in Hsmall as [Hs1 _]. apply Forall_app in Hps as [_ Hp2].
    rewrite Hd in Hc1, Hfit.
    assert (Hok1 : packets_ok a ps1) by (by eapply packets_ok_front).
    pose proof (process_holds c1 ps1 t a Hc1 Hok1 Hs1 Ht Hfit) as Hsame. rewrite fold_outcome_app.
    destruct (fold_outcome on_packet a ps1) as [a1| | |] eqn:Hf1, (processBuffer c1) as [c2| | |]; try done; run_outcome.
    destruct (packets_ok_app ps1 ps2 a a1 Hok Hf1) as [_ Hok2].
    by apply (IH n' ltac:(lia) _ t).
Qed.
End framing.

(** ** Messages of an order entry session *)

(** How many bytes behind a local struct can be overwritten without harm.  The language
    promises none; a compiler may happen to leave some. *)
Class Platform := struct_slack : nat.

Definition cxx_platform : Platform := 0%nat.

(** [std::memcpy(&object, data + src, n)] into a value-initialized local struct.  Writing
    past the struct, and the [slack] bytes behind it, is undefined behaviour; with
    [slack = 0] this is C++. *)
Definition memcpy_struct {A} (c : codec A) (slack : nat) (data : list byte) (src n : nat) : outcome A :=
  bs ← read_mem src n data;
  if (n <=? c_size c + slack)%nat then
    match c_dec c (take (c_size c) (bs ++ repeat x00 (c_size c - n))) with
    | Some m => Ret m
    | None => Undef OutOfBoundsWrite
    end
  else Undef OutOfBoundsWrite.

Definition is_type {E} `{CxxEnum E} (b : byte) (e : E) : bool := Byte.eqb b (enum_byte e).

(** The branch for sequenced data; [n] is [length - sizeof(PacketType)]. *)
Definition handleSequencedData (slack : nat) (a : BistMarketAccessor) (data : list byte) (n : nat) :
    outcome BistMarketAccessor :=
  payload_type ← overlay enum1 3 data;
  if is_type payload_type OuchMessageType_OrderCanceled then
    m ← memcpy_struct OrderCanceled_codec slack data 3 n;
    Ret a
  else if is_type payload_type OuchMessageType_OrderAccepted then
    m ← memcpy_struct OrderAccepted_codec slack data 3 n;
    let om := orderAccepted (m_orderManager a) (oa_order_token m) (be64toh (oa_quantity m))
                (oa_orderbook_id m) (to_signed 32 (be32toh (oa_price m))) (oa_side m) in
    sendReplaceOrder (set_orderManager a om) (oa_order_token m) 775000
  else if is_type payload_type OuchMessageType_OrderExecuted then
    m ← memcpy_struct OuchOrderExecuted_codec slack data 3 n;
    Ret (set_orderManager a
           (orderExecuted (m_orderManager a) (ox_order_token m) (be64toh (ox_traded_quantity m))))
  else if is_type payload_type OuchMessageType_OrderReplaced then
    m ← memcpy_struct OrderReplaced_codec slack data 3 n;
    sendCancelOrder a (orr_replacement_order_token m)
  else if is_type payload_type OuchMessageType_OrderRejected then
    m ← memcpy_struct OrderRejected_codec slack data 3 n;
    Ret (set_orderManager a (orderDeleted (m_orderManager a) (oj_order_token m)))
  else Ret a.

Definition client_heartbeat : ClientHeartbeat :=
  Build_ClientHeartbeat (be16toh 1) (enum_byte PacketType_ClientHeartbeat).

Definition handleMessage (slack : nat) (a : BistMarketAccessor) (data : list byte) (len : Z) :
    outcome BistMarketAccessor :=
  sequenced_data ← overlay SequencedData_codec 0 data;
  let packet_type := sd_packetType sequenced_data in
  if is_type packet_type PacketType_SequencedData then
    handleSequencedData slack a data (Z.to_nat len - 1)
  else if is_type packet_type PacketType_ServerHeartbeat then
    Ret (client_write a (toByteArray ClientHeartbeat_codec client_heartbeat))
  else if is_type packet_type PacketType_LoginAccepted then
    login_accepted ← memcpy_struct LoginAccepted_codec slack data 0 (Z.to_nat len);
    onLoginAccepted a login_accepted
  else if is_type packet_type PacketType_LoginRejected then
    login_rejected ← memcpy_struct LoginRejected_codec slack data 0 (Z.to_nat len);
    Ret a
  else Ret a.

(** What a server sends, and its payload behind the length field. *)
Inductive server_packet :=
  | SpHeartbeat
  | SpEndOfSession
  | SpLoginAccepted (session seq : list byte)
  | SpLoginRejected (reason : byte)
  | SpCanceled (m : OrderCanceled)
  | SpAccepted (m : OrderAccepted)
  | SpExecuted (m : OuchOrderExecuted)
  | SpReplaced (m : OrderReplaced)
  | SpRejected (m : OrderRejected).

Definition payload_of (sp : server_packet) : list byte :=
  match sp with
  | SpHeartbeat => ["H"%byte]
  | SpEndOfSession => ["Z"%byte]
  | SpLoginAccepted session seq => "A"%byte :: session ++ seq
  | SpLoginRejected reason => ["J"%byte; reason]
  | SpCanceled m => "S"%byte :: c_enc OrderCanceled_codec m
  | SpAccepted m => "S"%byte :: c_enc OrderAccepted_codec m
  | SpExecuted m => "S"%byte :: c_enc OuchOrderExecuted_codec m
  | SpReplaced m => "S"%byte :: c_enc OrderReplaced_codec m
  | SpRejected m => "S"%byte :: c_enc OrderRejected_codec m
  end.

Definition server_packet_ok (sp : server_packet) : bool :=
  match sp with
  | SpHeartbeat | SpEndOfSession | SpLoginRejected _ => true
  | SpLoginAccepted session seq => (length session =? 10)%nat && (length seq =? 20)%nat
  | SpCanceled m => c_ok OrderCanceled_codec m && Byte.eqb (oc_type m) "C"
  | SpAccepted m => c_ok OrderAccepted_codec m && Byte.eqb (oa_type m) "A"
  | SpExecuted m => c_ok OuchOrderExecuted_codec m && Byte.eqb (ox_type m) "E"
  | SpReplaced m => c_ok OrderReplaced_codec m && Byte.eqb (orr_type m) "U"
  | SpRejected m => c_ok OrderRejected_codec m && Byte.eqb (oj_type m) "J"
  end.

(** The packets that carry an OUCH message, which the client copies into a local struct. *)
Definition is_response (sp : server_packet) : bool :=
  match sp with
  | SpCanceled _ | SpAccepted _ | SpExecuted _ | SpReplaced _ | SpRejected _ => true
  | _ => false
  end.

(** What the accessor does about it, once it has been copied. *)
Definition effect (a : BistMarketAccessor) (sp : server_packet) : outcome BistMarketAccessor :=
  match sp with
  | SpHeartbeat => Ret (client_write a (c_enc ClientHeartbeat_codec client_heartbeat))
  | SpEndOfSession | SpLoginRejected _ | SpCanceled _ => Ret a
  | SpLoginAccepted session seq => onLoginAccepted a (Build_LoginAccepted (bswap 2 31) "A" session seq)
  | SpAccepted m =>
      sendReplaceOrder (set_orderManager a
        (orderAccepted (m_orderManager a) (oa_order_token m) (be64toh (oa_quantity m))
           (oa_orderbook_id m) (to_signed 32 (be32toh (oa_price m))) (oa_side m)))
        (oa_order_token m) 775000
  | SpExecuted m => Ret (set_orderManager a
      (orderExecuted (m_orderManager a) (ox_order_token m) (be64toh (ox_traded_quantity m))))
  | SpReplaced m => sendCancelOrder a (orr_replacement_order_token m)
  | SpRejected m => Ret (set_orderManager a (orderDeleted (m_orderManager a) (oj_order_token m)))
  end.

(** What the accessor does about it.  The copy of a response takes two bytes too many. *)
Definition react `{Platform} (a : BistMarketAccessor) (sp : server_packet) : outcome BistMarketAccessor :=
  if is_response sp && (struct_slack <? 2)%nat then Undef OutOfBoundsWrite else effect a sp.

(** ** Handling one packet *)

(** A struct that fits its packet is read as sent; [extra] bytes more are copied. *)
Lemma memcpy_struct_ok {A} (c : codec A) `{!CodecLaws c} (m : A) (slack extra : nat) (pre rest : list byte) :
  c_ok c m = true → (extra ≤ length rest)%nat →
  memcpy_struct c slack (pre ++ c_enc c m ++ rest) (length pre) (c_size c + extra) =
    if (extra <=? slack)%nat then Ret m else Undef OutOfBoundsWrite.
Proof.
  intros Hm Hr. unfold memcpy_struct. pose proof (enc_length m Hm) as Hl.
  rewrite read_mem_ok by (rewrite !length_app, Hl; lia). run_outcome.
  destruct (Nat.leb_spec (c_size c + extra) (c_size c + slack)), (Nat.leb_spec extra slack); try lia; [|done].
  assert (Ht : take (c_size c) (slice (length pre) (c_size c + extra) (pre ++ c_enc c m ++ rest) ++
      repeat x00 (c_size c - (c_size c + extra))) = c_enc c m).
  { rewrite slice_app_r, Nat.sub_diag by lia. unfold slice. rewrite drop_0.
    rewrite take_app_le by (rewrite length_take, length_app; lia).
    rewrite take_take, Nat.min_l, <- Hl by lia. apply take_app_length. }
  by rewrite Ht, (dec_enc m Hm).
Qed.

(** Every sequenced message is copied with two bytes too many. *)
Lemma handle_sequenced {A} (c : codec A) `{!CodecLaws c} (m : A) (slack : nat) (a : BistMarketAccessor)
    (rest : list byte) (tag : byte) (enc' : list byte) :
  c_ok c m = true → c_enc c m = tag :: enc' → (2 ≤ length rest)%nat → Z.of_nat (c_size c) < 2 ^ 15 →
  let payload := "S"%byte :: c_enc c m in
  let data := packet payload ++ rest in
  handleMessage slack a data (2 + Z.of_nat (length payload)) =
    handleSequencedData slack a data (c_size c + 2) ∧
  overlay enum1 3 data = Ret tag ∧
  memcpy_struct c slack data 3 (c_size c + 2) = if (2 <=? slack)%nat then Ret m else Undef OutOfBoundsWrite.
Proof.
  intros Hm He Hr Hs payload data.
  assert (Hlen : length payload = S (c_size c)) by (unfold payload; simpl; by rewrite (enc_length m Hm)).
  set (hdr := be_store 2 (Z.of_nat (length payload)) ++ ["S"%byte]).
  assert (Hdata : data = hdr ++ c_enc c m ++ rest).
  { unfold data, packet, payload, hdr. by rewrite <- !(assoc_L (++)). }
  assert (Hh : length hdr = 3%nat) by (unfold hdr; by autorewrite with algocor_bytes).
  assert (Hsd : ∃ z, overlay SequencedData_codec 0 data = Ret (Build_SequencedData z "S")).
  { exists (bswap 2 (Z.of_nat (length payload))).
    replace data with ([] ++ c_enc SequencedData_codec
      (Build_SequencedData (bswap 2 (Z.of_nat (length payload))) "S") ++ c_enc c m ++ rest).
    - apply (overlay_enc SequencedData_codec _ []).
      change ((c_ok (uint 2) (bswap 2 (Z.of_nat (length payload))) && true) = true). by rewrite uint_ok_bswap.
    - rewrite Hdata. unfold hdr. rewrite app_nil_l. f_equal. cbn [c_enc SequencedData_codec isoc pairc fst snd
        sd_packetLength sd_packetType PacketLength uint enum1 char1]. by rewrite le_store_bswap. }
  destruct Hsd as [z Hsd]. split_and!.
  - unfold handleMessage. rewrite Hsd. cbn [mbind outcome_bind sd_packetType].
    change (is_type "S" PacketType_SequencedData) with true. cbn iota. f_equal. lia.
  - rewrite Hdata, He, <- Hh. apply (overlay_enc char1 tag hdr (enc' ++ rest) eq_refl).
  - rewrite Hdata, <- Hh. by apply memcpy_struct_ok.
Qed.

Lemma handle_login_accepted (slack : nat) (a : BistMarketAccessor) (session seq rest : list byte) :
  length session = 10%nat → length seq = 20%nat →
  handleMessage slack a (packet ("A"%byte :: session ++ seq) ++ rest) (2 + 31) =
    onLoginAccepted a (Build_LoginAccepted (bswap 2 31) "A" session seq).
Proof.
  intros Hs Hq. set (la := Build_LoginAccepted (bswap 2 31) "A" session seq).
  assert (Hok : c_ok LoginAccepted_codec la = true).
  { change ((c_ok (uint 2) (bswap 2 31) && (true && ((length session =? 10)%nat && (length seq =? 20)%nat))) = true).
    by rewrite uint_ok_bswap, Hs, Hq. }
  assert (Hdata : packet ("A"%byte :: session ++ seq) = c_enc LoginAccepted_codec la).
  { unfold packet. cbn [length]. rewrite length_app, Hs, Hq. reflexivity. }
  unfold handleMessage.
  assert (Hsd : overlay SequencedData_codec 0 (packet ("A"%byte :: session ++ seq) ++ rest) =
            Ret (Build_SequencedData (bswap 2 31) "A")).
  { rewrite Hdata. apply (overlay_enc SequencedData_codec (Build_SequencedData (bswap 2 31) "A") []).
    change ((c_ok (uint 2) (bswap 2 31) && true) = true). by rewrite uint_ok_bswap. }
  rewrite Hsd. cbn [mbind outcome_bind sd_packetType].
  change (is_type "A" PacketType_SequencedData) with false.
  change (is_type "A" PacketType_ServerHeartbeat) with false.
  change (is_type "A" PacketType_LoginAccepted) with true. cbn iota.
  pose proof (memcpy_struct_ok LoginAccepted_codec la slack 0 [] rest Hok ltac:(lia)) as Hm.
  rewrite app_nil_l, Nat.add_0_r in Hm. rewrite Hdata.
  change (Z.to_nat (2 + 31)) with (c_size LoginAccepted_codec).
  change (length []) with 0%nat in Hm. by rewrite Hm.
Qed.

(** One case of the switch on sequenced data: read the type, select its branch, copy. *)
Ltac sequenced_case c m :=
  lazymatch goal with
  | Hok : c_ok _ _ = true, Ht : Byte.eqb _ ?tag = true, Hr : (2 ≤ length ?rest)%nat
    |- handleMessage ?slack ?a _ _ = _ =>
      let H1 := fresh in let H2 := fresh in
      destruct (handle_sequenced c m slack a rest _ _ Hok eq_refl Hr) as (-> & H1 & H2); [done|];
      apply Byte.byte_dec_bl in Ht; rewrite Ht in H1;
      unfold handleSequencedData; rewrite H1; run_outcome;
      repeat match goal with
      | |- context [is_type tag ?e] =>
          let b := eval vm_compute in (is_type tag e) in change (is_type tag e) with b
      end; cbn iota; rewrite H2
  end.

(** A server packet has its effect, if the compiler left two bytes where one is needed. *)
Lemma handle_server_packet (slack : nat) (a : BistMarketAccessor) (sp : server_packet) (rest : list byte) :
  server_packet_ok sp = true → (is_response sp = true → 2 ≤ slack)%nat → (2 ≤ length rest)%nat →
  handleMessage slack a (packet (payload_of sp) ++ rest) (2 + Z.of_nat (length (payload_of sp))) = effect a sp.
Proof.
  intros Hok Hs Hr.
  destruct sp as [| |session seq|reason|m|m|m|m|m]; cbn [server_packet_ok payload_of effect is_response] in *;
    try apply andb_true_iff in Hok as [Hok Ht]; try (specialize (Hs eq_refl); apply Nat.leb_le in Hs as Hsl).
  - reflexivity.
  - reflexivity.
  - apply Nat.eqb_eq in Hok, Ht. cbn [length]. rewrite length_app, Hok, Ht. by apply handle_login_accepted.
  - reflexivity.
  - sequenced_case OrderCanceled_codec m. by rewrite Hsl.
  - sequenced_case OrderAccepted_codec m. by rewrite Hsl.
  - sequenced_case OuchOrderExecuted_codec m. by rewrite Hsl.
  - sequenced_case OrderReplaced_codec m. by rewrite Hsl.
  - sequenced_case OrderRejected_codec m. by rewrite Hsl.
Qed.

(** Without the two bytes, every OUCH response overruns its local struct. *)
Lemma handle_response_overrun (slack : nat) (a : BistMarketAccessor) (sp : server_packet) (rest : list byte) :
  server_packet_ok sp = true → is_response sp = true → (slack < 2)%nat → (2 ≤ length rest)%nat →
  handleMessage slack a (packet (payload_of sp) ++ rest) (2 + Z.of_nat (length (payload_of sp))) =
    Undef OutOfBoundsWrite.
Proof.
  intros Hok Hre Hs Hr. apply Nat.leb_gt in Hs as Hsl.
  destruct sp as [| |session seq|reason|m|m|m|m|m]; cbn [server_packet_ok payload_of is_response] in *;
    try done; apply andb_true_iff in Hok as [Hok Ht].
  - sequenced_case OrderCanceled_codec m. by rewrite Hsl.
  - sequenced_case OrderAccepted_codec m. by rewrite Hsl.
  - sequenced_case OuchOrderExecuted_codec m. by rewrite Hsl.
  - sequenced_case OrderReplaced_codec m. by rewrite Hsl.
  - sequenced_case OrderRejected_codec m. by rewrite Hsl.
Qed.

Section platform.
Context `{P : Platform}.

(** The interface for [BistMarketAccessor]. *)
#[global] Instance accessor_handler : MessageHandler BistMarketAccessor := {|
  handle_message := handleMessage struct_slack;
|}.

(** Every server packet is handled as [react] says. *)
Lemma handle_message_react (a : BistMarketAccessor) (sp : server_packet) (rest : list byte) :
  server_packet_ok sp = true → (2 ≤ length rest)%nat →
  handle_message a (packet (payload_of sp) ++ rest) (2 + Z.of_nat (length (payload_of sp))) = react a sp.
Proof.
  intros Hok Hr. change (handle_message a) with (handleMessage struct_slack a). unfold react.
  destruct (is_response sp) eqn:Hre, (Nat.ltb_spec struct_slack 2); cbn [andb];
    try (apply handle_server_packet; [done| |done]; intros; congruence || lia).
  by apply handle_response_overrun.
Qed.

(** A payload a server may send. *)
Definition server_payload (payload : list byte) : Prop :=
  ∃ sp, server_packet_ok sp = true ∧ payload = payload_of sp.

#[global] Program Instance accessor_packets : PacketHandler BistMarketAccessor := {|
  lookahead := 2;
  packet_ok _ payload := server_payload payload;
  on_packet a payload := handle_message a (packet payload ++ [x00; x00]) (2 + Z.of_nat (length payload));
|}.
Next Obligation.
  intros a payload rest (sp & Hok & ->) Hr _. rewrite !handle_message_react; try done; simpl; lia.
Qed.

Lemma on_packet_react (a : BistMarketAccessor) (sp : server_packet) :
  server_packet_ok sp = true → on_packet a (payload_of sp) = react a sp.
Proof. intros Hok. by apply (handle_message_react a sp [x00; x00]). Qed.

Lemma fold_react (sps : list server_packet) (a : BistMarketAccessor) :
  Forall (λ sp, server_packet_ok sp = true) sps →
  fold_outcome on_packet a (payload_of <$> sps) = fold_outcome react a sps ∧
  packets_ok a (payload_of <$> sps).
Proof.
  intros Hall. revert a. induction Hall as [|sp sps Hok Hall IH]; intros a; [done|].
  cbn [fmap list_fmap fold_outcome packets_ok]. rewrite on_packet_react by done. split.
  - destruct (react a sp) as [a'|?|?|?]; try done. apply (IH a').
  - split; [by exists sp|]. intros a' _. apply (IH a').
Qed.
End platform.

(** The longest packet of a server, an [OrderReplaced], and the longest read for which the
    copy of a response stays within the buffer, whatever part of a packet is there. *)
Definition LONGEST_PACKET : nat := 148.
Definition LONGEST_READ : nat := BUFFER_SIZE - LONGEST_PACKET - 2.

Lemma server_packet_length (sp : server_packet) :
  server_packet_ok sp = true → (length (packet (payload_of sp)) ≤ LONGEST_PACKET)%nat.
Proof.
  rewrite packet_length. unfold LONGEST_PACKET.
  destruct sp as [| |session seq|reason|m|m|m|m|m]; cbn [server_packet_ok payload_of length]; try lia;
    intros [Hm Ht]%andb_true_iff.
  - apply Nat.eqb_eq in Hm, Ht. rewrite length_app. lia.
  - rewrite (enc_length (c := OrderCanceled_codec) m Hm). apply Nat.leb_le. reflexivity.
  - rewrite (enc_length (c := OrderAccepted_codec) m Hm). apply Nat.leb_le. reflexivity.
  - rewrite (enc_length (c := OuchOrderExecuted_codec) m Hm). apply Nat.leb_le. reflexivity.
  - rewrite (enc_length (c := OrderReplaced_codec) m Hm). apply Nat.leb_le. reflexivity.
  - rewrite (enc_length (c := OrderRejected_codec) m Hm). apply Nat.leb_le. reflexivity.
Qed.

(** ** A handler that records its packets *)

#[export] Instance recorder : MessageHandler (list (list byte)) := {|
  handle_message log data len := Ret (log ++ [slice 2 (Z.to_nat len - 2) data]);
|}.

#[export] Program Instance recorder_packets : PacketHandler (list (list byte)) := {|
  lookahead := 0;
  packet_ok _ _ := True;
  on_packet log payload := Ret (log ++ [payload]);
|}.
Next Obligation.
  intros log payload rest _ _ _.
  assert (Hs : slice 2 (length payload) (packet payload ++ rest) = payload).
  { unfold packet. rewrite <- (assoc_L (++)), slice_app_here by (rewrite ?length_be_store; lia). apply slice_all. }
  unfold handle_message, recorder.
  by replace (Z.to_nat (2 + Z.of_nat (length payload)) - 2)%nat with (length payload) by lia; rewrite Hs.
Qed.

Lemma recorder_fold (ps log : list (list byte)) :
  fold_outcome on_packet log ps = Ret (log ++ ps) ∧ packets_ok log ps.
Proof.
  revert log. induction ps as [|p ps IH]; intros log; [by rewrite app_nil_r|].
  cbn [fold_outcome packets_ok]. split.
  - change (on_packet log p) with (Ret (log ++ [p])). run_outcome.
    destruct (IH (log ++ [p])) as [-> _]. by rewrite <- (assoc_L (++)).
  - split; [done|]. intros a' [= <-]. apply IH.
Qed.

Lemma TcpClient_new_holds {A} `{PacketHandler A} (a : A) : holds (TcpClient_new a) [] a.
Proof. split; try done. by eexists. Qed.

(** *** A full buffer *)

Lemma process_loop_incomplete {A} `{MessageHandler A} (fuel : nat) (buffer : list byte) (dataSize offset : nat) (a : A) :
  (2 ≤ dataSize - offset)%nat → (offset + 2 ≤ length buffer)%nat →
  (dataSize - offset < 2 + Z.to_nat (be16toh (le_load (slice offset 2 buffer))))%nat →
  process_loop (S fuel) buffer dataSize offset a = Ret (a, offset).
Proof.
  intros H2 Hb Hlt. cbn [process_loop]. apply Nat.leb_le in H2. rewrite H2, read_mem_ok by done.
  run_outcome. apply Nat.ltb_lt in Hlt. by rewrite Hlt.
Qed.

Section full_buffer.
Context {A : Type} `{MessageHandler A} (a : A) (data : list byte) (Hl : length data = BUFFER_SIZE).

Lemma buffer_nonzero : (BUFFER_SIZE =? 0)%nat = false.
Proof. done. Qed.

Lemma read_fills (more : list (list byte)) :
  readFromSocket (TcpClient_new a) (data :: more) = (Build_TcpClient data BUFFER_SIZE a, BUFFER_SIZE, more).
Proof.
  unfold readFromSocket, TcpClient_new. cbn [m_buffer m_dataSize m_marketAccessor].
  rewrite Nat.sub_0_r, take_ge, drop_ge, Hl, Nat.add_0_l by (by rewrite Hl).
  assert (Hs : splice 0 data (repeat x00 BUFFER_SIZE) = data); [|by rewrite Hs].
  unfold splice. rewrite take_0, app_nil_l, drop_ge; [apply app_nil_r|]. by rewrite repeat_length, Hl.
Qed.

Lemma read_no_room (chunk : list byte) (more : list (list byte)) :
  chunk ≠ [] →
  readFromSocket (Build_TcpClient data BUFFER_SIZE a) (chunk :: more) =
    (Build_TcpClient data BUFFER_SIZE a, 0%nat, chunk :: more).
Proof.
  intros Hne. unfold readFromSocket. cbn [m_buffer m_dataSize m_marketAccessor].
  rewrite Nat.sub_diag, take_0, drop_0. cbn [length]. rewrite Nat.add_0_r.
  assert (Hs : splice BUFFER_SIZE [] data = data); [|rewrite Hs; by destruct chunk].
  unfold splice. rewrite app_nil_l, Nat.add_0_r. apply take_drop.
Qed.

Lemma process_oversize :
  4094 < be16toh (le_load (slice 0 2 data)) →
  processBuffer (Build_TcpClient data BUFFER_SIZE a) = Ret (Build_TcpClient data BUFFER_SIZE a).
Proof.
  intros Hbig. unfold processBuffer. cbn [m_buffer m_dataSize m_marketAccessor].
  rewrite process_loop_incomplete; rewrite ?Nat.sub_0_r, ?Hl; [done | unfold BUFFER_SIZE; lia..].
Qed.
End full_buffer.

Definition sample_chunks : list (list byte) := [[x00]; [x03; "a"; "b"; "c"; x00]; [x01; "d"; x00]]%byte.

(** The stream of a server's packets. *)
Definition session_stream (sps : list server_packet) : list byte := concat ((λ sp, packet (payload_of sp)) <$> sps).

(** The pieces in which a stream may arrive. *)
Definition pieces (chunks : list (list byte)) : Prop := Forall (λ ch, (0 < length ch ≤ LONGEST_READ)%nat) chunks.

Lemma pieces_readable `{Platform} (n : nat) (chunks : list (list byte)) :
  pieces chunks → (length chunks ≤ n)%nat →
  Forall (λ ch, (0 < length ch)%nat) chunks ∧ readable (A := BistMarketAccessor) LONGEST_PACKET n chunks.
Proof.
  intros Hch Hn. split; [eapply Forall_impl; [exact Hch|]; simpl; lia|]. right. split; [|done].
  eapply Forall_impl; [exact Hch|]. unfold LONGEST_READ, BUFFER_SIZE, LONGEST_PACKET. simpl. lia.
Qed.

(** The client side of a session, as a lemma for both ends of it. *)
Lemma session_reacts_lemma `{Platform} (a : BistMarketAccessor) (sps : list server_packet) (chunks : list (list byte)) (n : nat) :
  Forall (λ sp, server_packet_ok sp = true) sps → concat chunks = session_stream sps → pieces chunks →
  (length chunks ≤ n)%nat →
  same_outcome (λ a' c', m_marketAccessor c' = a' ∧ m_dataSize c' = 0%nat)
    (fold_outcome react a sps) (startRead n (TcpClient_new a) chunks).
Proof.
  intros Hok Heq Hch Hn. destruct (fold_react sps a Hok) as [Hfr Hp]. destruct (pieces_readable n chunks Hch Hn) as [Hne Hrd].
  pose proof (startRead_stream LONGEST_PACKET chunks (payload_of <$> sps) [] [] (TcpClient_new a) a n) as Hs.
  rewrite Hfr in Hs. eapply same_outcome_impl; [apply Hs; try done|].
  - apply TcpClient_new_holds.
  - left. simpl. lia.
  - rewrite app_nil_r, <- list_fmap_compose. exact Heq.
  - left. simpl. lia.
  - unfold LONGEST_PACKET, BUFFER_SIZE. lia.
  - apply Forall_fmap. eapply Forall_impl; [exact Hok|]. apply server_packet_length.
  - unfold LONGEST_PACKET. simpl. lia.
  - by intros a' c' [_ _ Hz Ha].
Qed.

(** ** Properties *)

(** C4. Framing does not depend on how the stream is cut.  Let the chunks together be a
    sequence of packets and an incomplete rest, each of which fits the buffer.  For a
    handler that looks at its packet only, the chunks may be cut anywhere and be of any
    size; for one that looks [lookahead] bytes further, as the copies of the order entry
    client's do, a chunk must leave room for these behind the longest part of a packet that
    may be waiting in the buffer.  Then exactly the packets are handled, each once and in
    order, and the rest stays in the buffer; and if the handler fails on one of them, the
    loop fails as the handler does. *)
Theorem framing_chunk_independent {A : Type} `{PacketHandler A} (a : A) (ps : list (list byte))
    (tail : list byte) (chunks : list (list byte)) (n : nat) :
  concat chunks = concat (packet <$> ps) ++ tail → incomplete tail →
  Forall (λ p, (length (packet p) ≤ BUFFER_SIZE)%nat) ps → (length tail ≤ BUFFER_SIZE)%nat →
  Forall (λ ch, (0 < length ch)%nat) chunks → (length (concat chunks) < n)%nat →
  (lookahead = 0%nat ∨ ∃ M, Forall (λ p, (length (packet p) ≤ M)%nat) ps ∧ (length tail ≤ M)%nat ∧
     Forall (λ ch, (M + length ch + lookahead ≤ BUFFER_SIZE)%nat) chunks) →
  packets_ok a ps →
  match fold_outcome on_packet a ps with
  | Ret a' => ∃ c', startRead n (TcpClient_new a) chunks = Ret c' ∧ m_marketAccessor c' = a' ∧
      take (m_dataSize c') (m_buffer c') = tail
  | Undef u => startRead n (TcpClient_new a) chunks = Undef u
  | Throw w => startRead n (TcpClient_new a) chunks = Throw w
  | Exit e => startRead n (TcpClient_new a) chunks = Exit e
  end.
Proof.
  intros Heq Hinc Hps Ht Hch Hn Hroom Hok.
  assert (∃ M, (M ≤ BUFFER_SIZE)%nat ∧ Forall (λ p, (length (packet p) ≤ M)%nat) ps ∧ (length tail ≤ M)%nat ∧
    readable M n chunks) as (M & HM & HpM & HtM & Hrd).
  { destruct Hroom as [Hz|(M & HpM & HtM & Hcs)]; [exists BUFFER_SIZE; split_and!; try done; left; split; [done|lia]|].
    exists (M `min` BUFFER_SIZE)%nat. split; [lia|]. split; [|split; [lia|right; split]].
    - eapply Forall_impl; [apply Forall_and; split; [exact HpM | exact Hps]|]. simpl. lia.
    - eapply Forall_impl; [exact Hcs|]. simpl. lia.
    - pose proof (length_concat_nonempty chunks Hch). lia. }
  pose proof (startRead_stream M chunks ps [] tail (TcpClient_new a) a n (TcpClient_new_holds a)
    ltac:(left; simpl; lia) Heq Hinc HM HpM HtM Hch Hrd Hok) as Hs.
  destruct (fold_outcome on_packet a ps) as [a'| | |], (startRead n (TcpClient_new a) chunks) as [c'| | |]; try done;
    cbn [same_outcome] in Hs; [|by subst..].
  destruct Hs as [_ [stale Hb] Hs Ha]. exists c'. split_and!; [done..|]. rewrite Hb, Hs. apply take_app_length.
Qed.

Lemma framing_chunk_independent_witness :
  ∃ c', startRead 10 (TcpClient_new ([] : list (list byte))) sample_chunks = Ret c' ∧
    m_marketAccessor c' = [["a"; "b"; "c"]; ["d"]]%byte ∧ take (m_dataSize c') (m_buffer c') = [x00].
Proof.
  set (ps := [["a"; "b"; "c"]; ["d"]]%byte). destruct (recorder_fold ps []) as [Hf Hok].
  pose proof (framing_chunk_independent [] ps [x00] sample_chunks 10) as H. rewrite Hf in H. apply H.
  - reflexivity.
  - left. simpl. lia.
  - by apply (bool_decide_unpack _); vm_compute.
  - apply (bool_decide_unpack _). by vm_compute.
  - by apply (bool_decide_unpack _); vm_compute.
  - simpl. lia.
  - by left.
  - exact Hok.
Defined.

(** An order entry session: however the server's packets are cut into pieces, the client
    answers them one by one as [react] says. *)
Theorem session_reacts `{Platform} (a a' : BistMarketAccessor) (sps : list server_packet) (chunks : list (list byte)) (n : nat) :
  Forall (λ sp, server_packet_ok sp = true) sps → fold_outcome react a sps = Ret a' →
  concat chunks = session_stream sps → pieces chunks → (length chunks < n)%nat →
  ∃ c', startRead n (TcpClient_new a) chunks = Ret c' ∧ m_marketAccessor c' = a' ∧ m_dataSize c' = 0%nat.
Proof.
  intros Hok Hf Heq Hch Hn. pose proof (session_reacts_lemma a sps chunks n Hok Heq Hch ltac:(lia)) as Hs.
  rewrite Hf in Hs. destruct (startRead _ _ _) as [c'| | |]; try done. by exists c'.
Qed.

(** A platform on which the responses can be copied. *)
Definition padded_platform : Platform := 2%nat.

(** A server that accepts the login, accepts the order, executes part of it, reports the
    cancellation and sends a heartbeat. *)
Definition sample_accepted : OrderAccepted := {|
  oa_type := "A"; oa_timestamp := 0; oa_order_token := sample_token; oa_orderbook_id := bswap 4 78436;
  oa_side := "S"; oa_order_id := 1; oa_quantity := bswap 8 5000; oa_price := to_signed 32 (bswap 4 770000);
  oa_time_in_force := x00; oa_open_close := x04; oa_client_account := repeat x00 16; oa_order_state := x01;
  oa_customer_info := repeat x00 15; oa_exchange_info := repeat x00 32; oa_pre_trade_quantity := 0;
  oa_display_quantity := 0; oa_client_category := x01; oa_offhours := x00; oa_reserved := repeat x00 3;
|}.
Definition sample_executed : OuchOrderExecuted := {|
  ox_type := "E"; ox_timestamp := 0; ox_order_token := sample_token; ox_orderbook_id := bswap 4 78436;
  ox_traded_quantity := bswap 8 2000; ox_trade_price := 0; ox_match_id := repeat x00 12;
  ox_client_category := x01; ox_reserved := repeat x00 16;
|}.
Definition sample_session_packets : list server_packet :=
  [SpLoginAccepted (repeat "S"%byte 10) (repeat " "%byte 20); SpAccepted sample_accepted;
   SpExecuted sample_executed; SpHeartbeat].

Definition sample_accessor : BistMarketAccessor :=
  match BistMarketAccessor_new sample_config sample_client_account sample_exchange_info 0 with
  | Ret a => a
  | _ => Build_BistMarketAccessor sample_config [] [] sample_manager 0 [] AccDisconnected [] [] [] []
  end.

Definition sample_session_end : BistMarketAccessor :=
  match fold_outcome (@react padded_platform) sample_accessor sample_session_packets with Ret a => a | _ => sample_accessor end.

(** One byte, then the rest. *)
Definition sample_session_chunks : list (list byte) :=
  let bytes := session_stream sample_session_packets in
  [take 1 bytes; drop 1 bytes].

Lemma session_reacts_witness :
  ∃ c', startRead (H := @accessor_handler padded_platform) 3 (TcpClient_new sample_accessor) sample_session_chunks = Ret c' ∧
    m_marketAccessor c' = sample_session_end ∧ m_dataSize c' = 0%nat.
Proof.
  apply (@session_reacts padded_platform sample_accessor sample_session_end sample_session_packets sample_session_chunks 3).
  - by apply (bool_decide_unpack _); vm_compute.
  - vm_compute. reflexivity.
  - reflexivity.
  - by apply (bool_decide_unpack _); vm_compute.
  - simpl. lia.
Defined.

(** C15. The reading loop of the client terminates, whatever the message handler does,
    whatever the buffer holds and however the bytes of the peer are cut into chunks: the
    nested loops of [startRead] and [processBuffer], run without any bound ([read_run]),
    come to exactly one end, which the fuelled [startRead] computes as soon as it is given
    one iteration more than the peer sends bytes. *)
Theorem reading_terminates {A : Type} `{MessageHandler A} (c : TcpClient A) (chunks : list (list byte)) (n : nat) :
  (length (concat chunks) < n)%nat →
  read_run c chunks (startRead n c chunks) ∧
  ∀ o, read_run c chunks o → o = startRead n c chunks.
Proof.
  intros Hn. pose proof (startRead_read_run n c chunks Hn) as Hr. split; [done|].
  intros o Ho. by eapply read_run_det.
Qed.

(** By the letter of the language: the session is undefined at its first response. *)
Lemma reading_terminates_witness :
  let read n := startRead (H := @accessor_handler cxx_platform) n (TcpClient_new sample_accessor) sample_session_chunks in
  read 500%nat = Undef OutOfBoundsWrite ∧
  ∀ o, read_run (H := @accessor_handler cxx_platform) (TcpClient_new sample_accessor) sample_session_chunks o →
    o = Undef OutOfBoundsWrite.
Proof.
  intros read. assert (Hu : read 500%nat = Undef OutOfBoundsWrite) by (by vm_compute). split; [exact Hu|].
  intros o Ho. rewrite <- Hu.
  destruct (reading_terminates (H := @accessor_handler cxx_platform) (TcpClient_new sample_accessor) sample_session_chunks 500)
    as [_ H]; [by apply (bool_decide_unpack _); vm_compute | exact (H o Ho)].
Defined.

(** C32. By the letter of the language every OUCH response is undefined behaviour: the code
    copies [length - sizeof(PacketType)] bytes, two more than the message has, into a
    local struct of exactly the message's size. *)
Theorem response_overruns_struct (a : BistMarketAccessor) (sp : server_packet) (rest : list byte) :
  server_packet_ok sp = true → is_response sp = true → (2 ≤ length rest)%nat →
  handleMessage 0 a (packet (payload_of sp) ++ rest) (2 + Z.of_nat (length (payload_of sp))) =
    Undef OutOfBoundsWrite.
Proof. intros ? ? ?. apply handle_response_overrun; done || lia. Qed.

Lemma response_overruns_struct_witness :
  handleMessage 0 sample_accessor (packet (payload_of (SpAccepted sample_accepted)) ++ [x00; x00])
    (2 + Z.of_nat (length (payload_of (SpAccepted sample_accepted)))) = Undef OutOfBoundsWrite.
Proof.
  apply (response_overruns_struct sample_accessor (SpAccepted sample_accepted) [x00; x00]);
    [reflexivity | reflexivity | simpl; lia].
Defined.

(** C33. A packet that cannot fit the buffer stops the client.  For a fresh client whose first
    read fills the buffer with the beginning of such a packet: no packet is ever handled,
    and the next read, into no room, returns zero, which ends the loop as if the peer had
    closed the connection. *)
Theorem oversize_packet_stalls {A : Type} `{MessageHandler A} (a : A) (data : list byte) (more : list (list byte))
    (n : nat) :
  length data = BUFFER_SIZE → 4094 < be16toh (le_load (slice 0 2 data)) →
  ∃ c', startRead (S (S n)) (TcpClient_new a) (data :: [x00] :: more) = Ret c' ∧ m_marketAccessor c' = a ∧
    m_buffer c' = data ∧ m_dataSize c' = BUFFER_SIZE.
Proof.
  intros Hl Hbig. exists (Build_TcpClient data BUFFER_SIZE a). split; [|done].
  cbn [startRead]. rewrite read_fills by done. rewrite buffer_nonzero.
  rewrite process_oversize by done. run_outcome. by rewrite read_no_room.
Qed.

Lemma oversize_packet_stalls_witness :
  let data := be_store 2 5000 ++ repeat x00 4094 in
  ∃ c', startRead 2 (TcpClient_new ([] : list (list byte))) [data; [x00]] = Ret c' ∧
    m_marketAccessor c' = [] ∧ m_buffer c' = data ∧ m_dataSize c' = BUFFER_SIZE.
Proof.
  apply (oversize_packet_stalls [] (be_store 2 5000 ++ repeat x00 4094) [] 0).
  - vm_compute. reflexivity.
  - vm_compute. reflexivity.
Defined.

(** An accepted order is entered into the order manager under its token and answered
    with one replace request for that token, at price 775000 and with the next token. *)
Theorem accepted_order_recorded (a : BistMarketAccessor) (m : OrderAccepted) :
  accessor_ok a → (length (m_exchangeInfo a) ≤ 32)%nat → server_packet_ok (SpAccepted m) = true →
  token_ok (oa_order_token m) → value (oa_order_token m) < ORDERS_SIZE →
  ∃ a' o, effect a (SpAccepted m) = Ret a' ∧ accessor_ok a' ∧
    m_orders (m_orderManager a') !! Z.to_nat (value (oa_order_token m)) = Some o ∧
    quantity o = be64toh (oa_quantity m) ∧ price o = to_signed 32 (be32toh (oa_price m)) ∧
    side o = oa_side m ∧
    written a' = written a ++ [ouch_frame ReplaceOrder_codec
      (replace_order (oa_order_token m) (nextToken (m_orderManager a)).2 775000)].
Proof.
  intros Hok Hi Hm Ht Hv. cbn [effect].
  set (om := orderAccepted _ _ _ _ _ _). set (a1 := set_orderManager a om).
  destruct (acc_manager a Hok) as [Hlen Htok].
  assert (Hidx : (Z.to_nat (value (oa_order_token m)) < length (m_orders (m_orderManager a)))%nat).
  { rewrite Hlen. destruct Ht as [_ Hf]. pose proof (value_bound _ Hf). lia. }
  destruct (lookup_lt_is_Some_2 _ _ Hidx) as [o Ho].
  assert (Hom : om = update_order (m_orderManager a) (Z.to_nat (value (oa_order_token m)))
    (λ o, Build_Order (be64toh (oa_quantity m)) (oa_orderbook_id m) (to_signed 32 (be32toh (oa_price m)))
      (oa_side m) (is_valid o))).
  { unfold om, orderAccepted, withinRange. rewrite parse_value, Hlen by done.
    change (Z.of_nat (Z.to_nat ORDERS_SIZE)) with ORDERS_SIZE. by rewrite (proj2 (Z.leb_gt _ _) Hv). }
  assert (Hok1 : accessor_ok a1).
  { destruct Hok. unfold a1. destruct a. acc_simpl. split; acc_simpl; try done.
    rewrite Hom. by apply update_order_ok. }
  destruct (sendReplaceOrder_lemma a1 Hok1 ltac:(by unfold a1; destruct a) (oa_order_token m) 775000)
    as (a' & Hs & Hok' & _ & Hom' & Hw); [apply Ht|].
  exists a'. rewrite Hs, Hom'.
  assert (Hm1 : m_orderManager a1 = om) by (unfold a1; by destruct a).
  assert (Hw1 : written a1 = written a) by (unfold a1; by destruct a).
  exists (Build_Order (be64toh (oa_quantity m)) (oa_orderbook_id m) (to_signed 32 (be32toh (oa_price m)))
    (oa_side m) (is_valid o)).
  split; [done|]. split; [done|]. split; [|do 3 (split; [done|])].
  - rewrite Hm1, Hom. simpl. by rewrite list_lookup_alter_eq, Ho.
  - rewrite Hw, Hm1, Hw1, Hom. done.
Qed.

Lemma accepted_order_recorded_witness :
  ∃ a a' o, BistMarketAccessor_new sample_config sample_client_account sample_exchange_info 0 = Ret a ∧
    effect a (SpAccepted sample_accepted) = Ret a' ∧
    m_orders (m_orderManager a') !! 2%nat = Some o ∧ quantity o = 5000 ∧ price o = 770000.
Proof.
  destruct (BistMarketAccessor_new_ok sample_config sample_client_account sample_exchange_info 0)
    as (a & Ha & Hok & Hei & _); [lia | simpl; lia |].
  destruct (accepted_order_recorded a sample_accepted Hok) as (a' & o & Hr & _ & Ho & Hq & Hp & _);
    [rewrite Hei; simpl; lia | reflexivity | apply sample_token_ok | vm_compute; reflexivity |].
  exists a, a', o. split; [exact Ha|]. split; [exact Hr|]. split; [exact Ho|].
  split; [rewrite Hq | rewrite Hp]; vm_compute; reflexivity.
Defined.

(** A reported cancellation is only logged: the order manager keeps the order valid,
    although [orderDeleted] is meant to be called upon canceling; likewise a rejected
    login is only printed and leaves the accessor as it is. *)
Theorem cancellation_ignored (slack : nat) (a : BistMarketAccessor) (m : OrderCanceled) (reason : byte)
    (rest : list byte) :
  server_packet_ok (SpCanceled m) = true → (2 ≤ slack)%nat → (2 ≤ length rest)%nat →
  handleMessage slack a (packet (payload_of (SpCanceled m)) ++ rest)
    (2 + Z.of_nat (length (payload_of (SpCanceled m)))) = Ret a ∧
  handleMessage slack a (packet (payload_of (SpLoginRejected reason)) ++ rest) 4 = Ret a.
Proof.
  intros Hm Hs Hr. split; [by apply (handle_server_packet slack a (SpCanceled m))|].
  by apply (handle_server_packet slack a (SpLoginRejected reason)).
Qed.

Definition sample_canceled : OrderCanceled :=
  Build_OrderCanceled "C" 0 sample_token (bswap 4 78436) "S" 1 x01.

Lemma cancellation_ignored_witness :
  handleMessage 2 sample_accessor (packet (payload_of (SpCanceled sample_canceled)) ++ [x00; x00])
    (2 + Z.of_nat (length (payload_of (SpCanceled sample_canceled)))) = Ret sample_accessor ∧
  handleMessage 2 sample_accessor (packet (payload_of (SpLoginRejected "A")) ++ [x00; x00]) 4 =
    Ret sample_accessor.
Proof.
  apply (cancellation_ignored 2 sample_accessor sample_canceled "A" [x00; x00]); [reflexivity | simpl; lia | simpl; lia].
Defined.
