(* ===== verification/Syscalls.v ===== *)
(** * Programs that call the kernel

    The socket classes are mostly system calls.  A program is a tree of calls: what it
    does next depends on the answer of the kernel, about which nothing is assumed but what
    the manual pages say of file descriptors.  [run] executes a program against a kernel
    and records the trace; [safe] is the weakest precondition over all kernels at once,
    and it watches the descriptors of the process: a program may only use and close
    descriptors that are open, and its postcondition speaks of those left open.  The
    postconditions of [safe_log] speak of the calls made as well. *)
From S2P Require Import Prelude Bytes.
Local Open Scope Z_scope.

(** EWOULDBLOCK is EAGAIN on Linux. *)
Inductive errno := EINTR | EAGAIN | EPIPE | EOTHER.
#[export] Instance errno_eq_dec : EqDecision errno.
Proof. solve_decision. Defined.

Inductive sock_type := SOCK_STREAM | SOCK_DGRAM.
Inductive sock_option := SO_REUSEADDR | TCP_NODELAY | TCP_QUICKACK | SO_RCVBUF | SO_SNDBUF.

(** An address is the text it was converted from. *)
Inductive in_addr := INADDR_ANY | InetAddr (text : list byte).

(** What the program asks of the operating system and the C library.  [Sys_stopRequested]
    and [Sys_running] are reads of an atomic flag that another thread or a signal handler
    sets. *)
Inductive syscall :=
  | Sys_socket (type : sock_type)
  | Sys_setsockopt (fd : Z) (option : sock_option) (value : Z)
  | Sys_add_membership (fd : Z) (group interface : in_addr)
  | Sys_multicast_if (fd : Z) (interface : in_addr)
  | Sys_getfl (fd : Z)
  | Sys_setfl (fd : Z) (flags : Z)
  | Sys_bind (fd : Z) (addr : in_addr) (port : Z)
  | Sys_listen (fd : Z)
  | Sys_accept (fd : Z)
  | Sys_connect (fd : Z) (addr : in_addr) (port : Z)
  | Sys_inet_pton (text : list byte)
  | Sys_close (fd : Z)
  | Sys_read (fd : Z) (size : nat)
  | Sys_write (fd : Z) (buffer : list byte)
  | Sys_recvfrom (fd : Z) (size : nat)
  | Sys_sendto (fd : Z) (buffer : list byte) (addr : in_addr) (port : Z)
  | Sys_epoll_create
  | Sys_epoll_add (epfd fd : Z)
  | Sys_epoll_del (epfd fd : Z)
  | Sys_epoll_wait (epfd : Z) (maxevents : nat)
  | Sys_stopRequested
  | Sys_running
  | Sys_setname (name : list byte)
  | Sys_hardware_concurrency
  | Sys_setaffinity (cpus : list Z)
  | Sys_setscheduler (policy priority : Z)
  | Sys_getscheduler.

#[export] Instance sock_type_eq_dec : EqDecision sock_type.
Proof. solve_decision. Defined.
#[export] Instance sock_option_eq_dec : EqDecision sock_option.
Proof. solve_decision. Defined.
#[export] Instance in_addr_eq_dec : EqDecision in_addr.
Proof. solve_decision. Defined.
#[export] Instance syscall_eq_dec : EqDecision syscall.
Proof. solve_decision. Defined.

Record epoll_event := Build_epoll_event { ev_fd : Z; ev_in : bool; ev_hup : bool }.

(** The result of a call, [errno] if it failed, and the data it delivers. *)
Record answer := Build_answer {
  a_res : Z;
  a_errno : errno;
  a_data : list byte;
  a_events : list epoll_event;
}.

(** A program ends with an outcome, or is still in a loop, or makes a call. *)
Inductive prog (A : Type) :=
  | Stop (o : outcome A)
  | Block
  | Call (c : syscall) (k : answer → prog A).
Arguments Stop {_} _.
Arguments Block {_}.
Arguments Call {_} _ _.

#[export] Instance prog_ret : MRet prog := λ A a, Stop (Ret a).
#[export] Instance prog_bind : MBind prog := λ A B f,
  fix bind (p : prog A) : prog B :=
    match p with
    | Stop (Ret a) => f a
    | Stop (Exit c) => Stop (Exit c)
    | Stop (Throw w) => Stop (Throw w)
    | Stop (Undef u) => Stop (Undef u)
    | Block => Block
    | Call c k => Call c (λ a, bind (k a))
    end.

Definition call (c : syscall) : prog answer := Call c (λ a, mret a).
Definition throw {A} (what : string) : prog A := Stop (Throw what).

(** [try { p } catch (...)]: the value, or what was thrown. *)
Fixpoint catch {A} (p : prog A) : prog (A + string) :=
  match p with
  | Stop (Ret a) => Stop (Ret (inl a))
  | Stop (Throw w) => Stop (Ret (inr w))
  | Stop (Exit c) => Stop (Exit c)
  | Stop (Undef u) => Stop (Undef u)
  | Block => Block
  | Call c k => Call c (λ a, catch (k a))
  end.

(** ** Execution *)

Abbreviation trace := (list (syscall * answer)).
Abbreviation kernel := (trace → syscall → answer).

(** Run a program after the calls of [tr]; [None] if it is still in a loop. *)
Fixpoint run {A} (K : kernel) (tr : trace) (p : prog A) : option (outcome A) * trace :=
  match p with
  | Stop o => (Some o, tr)
  | Block => (None, tr)
  | Call c k => let a := K tr c in run K (tr ++ [(c, a)]) (k a)
  end.

Lemma run_bind {A B} (K : kernel) (tr : trace) (p : prog A) (f : A → prog B) :
  run K tr (p ≫= f) =
    match run K tr p with
    | (Some (Ret a), tr') => run K tr' (f a)
    | (Some (Exit c), tr') => (Some (Exit c), tr')
    | (Some (Throw w), tr') => (Some (Throw w), tr')
    | (Some (Undef u), tr') => (Some (Undef u), tr')
    | (None, tr') => (None, tr')
    end.
Proof. revert tr. induction p as [[]| |c k IH]; intros tr; cbn [run mbind prog_bind]; [done..|]. apply IH. Qed.

Lemma run_call {A} (K : kernel) (tr : trace) (c : syscall) (f : answer → prog A) :
  run K tr (call c ≫= f) = run K (tr ++ [(c, K tr c)]) (f (K tr c)).
Proof. done. Qed.

(** ** Descriptors *)

(** The call creates a descriptor. *)
Definition creates (c : syscall) : bool :=
  match c with Sys_socket _ | Sys_accept _ | Sys_epoll_create => true | _ => false end.

(** The descriptors a call works on. *)
Definition uses (c : syscall) : list Z :=
  match c with
  | Sys_setsockopt fd _ _ | Sys_add_membership fd _ _ | Sys_multicast_if fd _ | Sys_getfl fd | Sys_setfl fd _
  | Sys_bind fd _ _ | Sys_listen fd | Sys_accept fd | Sys_connect fd _ _ | Sys_close fd | Sys_read fd _
  | Sys_write fd _ | Sys_recvfrom fd _ | Sys_sendto fd _ _ _ | Sys_epoll_wait fd _ => [fd]
  | Sys_epoll_add epfd fd | Sys_epoll_del epfd fd => [epfd; fd]
  | _ => []
  end.

(** The open descriptors after a call. *)
Definition fd_step (h : gset Z) (c : syscall) (a : answer) : gset Z :=
  match c with
  | Sys_close fd => h ∖ {[fd]}
  | _ => if creates c && (0 <=? a_res a) then {[a_res a]} ∪ h else h
  end.

Definition open_fds (h : gset Z) (tr : trace) : gset Z := foldl (λ h '(c, a), fd_step h c a) h tr.

(** What the manual pages say: a new descriptor is one that is not open, and -1 means that
    there is none; a read delivers
    as many bytes as it says, and no more than there is room; a write takes no more than
    it is given. *)
Definition answer_ok (h : gset Z) (c : syscall) (a : answer) : Prop :=
  (creates c = true → a_res a = -1 ∨ 0 ≤ a_res a ∧ a_res a ∉ h) ∧
  match c with
  | Sys_read _ n | Sys_recvfrom _ n => 0 ≤ a_res a → length (a_data a) = Z.to_nat (a_res a) ∧ (length (a_data a) ≤ n)%nat
  | Sys_write _ buffer => a_res a ≤ Z.of_nat (length buffer)
  | _ => True
  end.

Definition kernel_ok (h : gset Z) (K : kernel) : Prop :=
  ∀ tr c, answer_ok (open_fds h tr) c (K tr c).

(** Every call of the trace works on open descriptors. *)
Fixpoint uses_ok (h : gset Z) (tr : trace) : Prop :=
  match tr with
  | [] => True
  | (c, a) :: tr => Forall (.∈ h) (uses c) ∧ uses_ok (fd_step h c a) tr
  end.

(** ** Weakest preconditions *)

(** How a program may end: with an outcome, or not yet. *)
Abbreviation post A := (gset Z → option (outcome A) → Prop).

Fixpoint safe {A} (h : gset Z) (p : prog A) (Q : post A) : Prop :=
  match p with
  | Stop o => Q h (Some o)
  | Block => Q h None
  | Call c k => Forall (.∈ h) (uses c) ∧ ∀ a, answer_ok h c a → safe (fd_step h c a) (k a) Q
  end.

Lemma open_fds_app (h : gset Z) (tr tr' : trace) : open_fds h (tr ++ tr') = open_fds (open_fds h tr) tr'.
Proof. apply foldl_app. Qed.

(** What is safe runs well against every kernel that answers as documented. *)
Lemma safe_run {A} (h : gset Z) (K : kernel) (tr : trace) (p : prog A) (Q : post A) :
  kernel_ok h K → safe (open_fds h tr) p Q →
  ∃ tr', (run K tr p).2 = tr ++ tr' ∧ uses_ok (open_fds h tr) tr' ∧
    Q (open_fds h (tr ++ tr')) (run K tr p).1.
Proof.
  intros HK. revert tr. induction p as [o| |c k IH]; intros tr Hs; cbn [run].
  1-2: exists []; by rewrite app_nil_r.
  destruct Hs as [Hu Hs]. specialize (Hs (K tr c) (HK tr c)).
  destruct (IH (K tr c) (tr ++ [(c, K tr c)])) as (tr' & Ht & Hus & HQ); [by rewrite open_fds_app|].
  exists ((c, K tr c) :: tr'). rewrite Ht, <- (assoc_L (++)). split_and!; [done| |].
  - split; [done|]. by rewrite open_fds_app in Hus.
  - rewrite <- (assoc_L (++)) in HQ. exact HQ.
Qed.

Lemma safe_mono {A} (h : gset Z) (p : prog A) (Q Q' : post A) :
  safe h p Q → (∀ h r, Q h r → Q' h r) → safe h p Q'.
Proof.
  intros Hs HQ. revert h Hs. induction p as [o| |c k IH]; intros h; cbn [safe]; [apply HQ..|].
  intros [Hu Hs]. split; [done|]. intros a Ha. by apply IH, Hs.
Qed.


Lemma safe_bind {A B} (h : gset Z) (p : prog A) (f : A → prog B) (Q : post B) :
  safe h p (λ h' r, match r with
                    | Some (Ret a) => safe h' (f a) Q
                    | Some (Exit c) => Q h' (Some (Exit c))
                    | Some (Throw w) => Q h' (Some (Throw w))
                    | Some (Undef u) => Q h' (Some (Undef u))
                    | None => Q h' None
                    end) →
  safe h (p ≫= f) Q.
Proof.
  revert h. induction p as [o| |c k IH]; intros h; [by destruct o|done|].
  intros [Hu Hs]. split; [done|]. intros a Ha. by apply IH, Hs.
Qed.

Lemma safe_catch {A} (h : gset Z) (p : prog A) (Q : post (A + string)) :
  safe h p (λ h' r, match r with
                    | Some (Ret a) => Q h' (Some (Ret (inl a)))
                    | Some (Throw w) => Q h' (Some (Ret (inr w)))
                    | Some (Exit c) => Q h' (Some (Exit c))
                    | Some (Undef u) => Q h' (Some (Undef u))
                    | None => Q h' None
                    end) →
  safe h (catch p) Q.
Proof.
  revert h. induction p as [o| |c k IH]; intros h; [by destruct o|done|].
  intros [Hu Hs]. split; [done|]. intros a Ha. by apply IH, Hs.
Qed.

(** ** Rules *)

Lemma safe_ret {A} (h : gset Z) (a : A) (Q : post A) : Q h (Some (Ret a)) → safe h (mret a) Q.
Proof. done. Qed.

Lemma safe_throw {A} (h : gset Z) (what : string) (Q : post A) : Q h (Some (Throw what)) → safe h (throw what) Q.
Proof. done. Qed.

(** A call, and what follows. *)
Lemma safe_call {A} (h : gset Z) (c : syscall) (f : answer → prog A) (Q : post A) :
  Forall (.∈ h) (uses c) → (∀ a, answer_ok h c a → safe (fd_step h c a) (f a) Q) → safe h (call c ≫= f) Q.
Proof. done. Qed.

(** A call that neither creates nor closes a descriptor. *)
Definition neutral (c : syscall) : bool :=
  negb (creates c) && match c with Sys_close _ => false | _ => true end.

Lemma safe_neutral {A} (h : gset Z) (c : syscall) (f : answer → prog A) (Q : post A) :
  neutral c = true → Forall (.∈ h) (uses c) → (∀ a, answer_ok h c a → safe h (f a) Q) → safe h (call c ≫= f) Q.
Proof.
  intros Hn Hu Hf. apply safe_call; [done|]. intros a Ha.
  assert (fd_step h c a = h) as -> by (by destruct c). by apply Hf.
Qed.

Lemma safe_close {A} (h : gset Z) (fd : Z) (f : answer → prog A) (Q : post A) :
  fd ∈ h → (∀ a, safe (h ∖ {[fd]}) (f a) Q) → safe h (call (Sys_close fd) ≫= f) Q.
Proof. intros Hfd Hf. apply safe_call; [by repeat constructor|]. intros a _. apply Hf. Qed.

(** A call that creates a descriptor fails, or the descriptor is new. *)
Lemma safe_create {A} (h : gset Z) (c : syscall) (f : answer → prog A) (Q : post A) :
  creates c = true → Forall (.∈ h) (uses c) →
  (∀ a, a_res a = -1 → safe h (f a) Q) →
  (∀ a, 0 ≤ a_res a → a_res a ∉ h → safe ({[a_res a]} ∪ h) (f a) Q) →
  safe h (call c ≫= f) Q.
Proof.
  intros Hc Hu Hneg Hpos. apply safe_call; [done|]. intros a [Hn _].
  assert (fd_step h c a = if 0 <=? a_res a then {[a_res a]} ∪ h else h) as -> by (by destruct c).
  destruct (Hn Hc) as [Ha|[Ha Hf]].
  - rewrite (proj2 (Z.leb_gt 0 _)) by lia. by apply Hneg.
  - rewrite (proj2 (Z.leb_le 0 _)) by done. by apply Hpos.
Qed.

(** ** Weakest preconditions over the trace

    [safe_log] is [safe] with a postcondition that also speaks of the calls made and of
    their answers, so that what a program computes can be compared with what the kernel
    told it and with what it asked of the kernel. *)
Abbreviation log_post A := (gset Z → option (outcome A) → trace → Prop).

Fixpoint safe_log {A} (h : gset Z) (p : prog A) (Q : log_post A) : Prop :=
  match p with
  | Stop o => Q h (Some o) []
  | Block => Q h None []
  | Call c k =>
      Forall (.∈ h) (uses c) ∧
      ∀ a, answer_ok h c a → safe_log (fd_step h c a) (k a) (λ h' r tr, Q h' r ((c, a) :: tr))
  end.

Lemma safe_log_mono {A} (h : gset Z) (p : prog A) (Q Q' : log_post A) :
  safe_log h p Q → (∀ h r tr, Q h r tr → Q' h r tr) → safe_log h p Q'.
Proof.
  revert h Q Q'. induction p as [o| |c k IH]; intros h Q Q'; cbn [safe_log]; [auto..|].
  intros [Hu Hs] HQ. split; [done|]. intros a Ha. eapply IH; [by apply Hs|]. intros. by apply HQ.
Qed.

(** Without the trace it is [safe]. *)
Lemma safe_log_safe {A} (h : gset Z) (p : prog A) (Q : log_post A) (Q' : post A) :
  safe_log h p Q → (∀ h r tr, Q h r tr → Q' h r) → safe h p Q'.
Proof.
  revert h Q. induction p as [o| |c k IH]; intros h Q; cbn [safe_log safe]; [eauto..|].
  intros [Hu Hs] HQ. split; [done|]. intros a Ha. eapply IH; [by apply Hs|]. intros h1 r tr HQ1. exact (HQ _ _ _ HQ1).
Qed.

Lemma safe_log_bind {A B} (h : gset Z) (p : prog A) (f : A → prog B) (Q : log_post B) :
  safe_log h p (λ h' r tr, match r with
                           | Some (Ret a) => safe_log h' (f a) (λ h'' r' tr', Q h'' r' (tr ++ tr'))
                           | Some (Exit c) => Q h' (Some (Exit c)) tr
                           | Some (Throw w) => Q h' (Some (Throw w)) tr
                           | Some (Undef u) => Q h' (Some (Undef u)) tr
                           | None => Q h' None tr
                           end) →
  safe_log h (p ≫= f) Q.
Proof.
  revert h Q. induction p as [o| |c k IH]; intros h Q; [by destruct o|done|].
  intros [Hu Hs]. split; [done|]. intros a Ha. apply IH. exact (Hs a Ha).
Qed.

(** The trace of a run against a kernel that answers as documented. *)
Lemma safe_log_run {A} (h : gset Z) (K : kernel) (tr : trace) (p : prog A) (Q : log_post A) :
  kernel_ok h K → safe_log (open_fds h tr) p Q →
  ∃ tr', (run K tr p).2 = tr ++ tr' ∧ Q (open_fds h (tr ++ tr')) (run K tr p).1 tr'.
Proof.
  intros HK. revert tr Q. induction p as [o| |c k IH]; intros tr Q Hs; cbn [run].
  1-2: exists []; by rewrite app_nil_r.
  destruct Hs as [Hu Hs]. specialize (Hs (K tr c) (HK tr c)).
  destruct (IH (K tr c) (tr ++ [(c, K tr c)]) (λ h' r tr', Q h' r ((c, K tr c) :: tr'))) as (tr' & Ht & HQ);
    [by rewrite open_fds_app|].
  exists ((c, K tr c) :: tr'). rewrite Ht, <- (assoc_L (++)). split; [done|].
  rewrite <- (assoc_L (++)) in HQ. exact HQ.
Qed.

Lemma safe_log_neutral {A} (h : gset Z) (c : syscall) (f : answer → prog A) (Q : log_post A) :
  neutral c = true → Forall (.∈ h) (uses c) →
  (∀ a, answer_ok h c a → safe_log h (f a) (λ h' r tr, Q h' r ((c, a) :: tr))) → safe_log h (call c ≫= f) Q.
Proof.
  intros Hn Hu Hf. split; [done|]. intros a Ha.
  assert (fd_step h c a = h) as -> by (by destruct c). by apply Hf.
Qed.

Lemma safe_log_close {A} (h : gset Z) (fd : Z) (f : answer → prog A) (Q : log_post A) :
  fd ∈ h → (∀ a, safe_log (h ∖ {[fd]}) (f a) (λ h' r tr, Q h' r ((Sys_close fd, a) :: tr))) →
  safe_log h (call (Sys_close fd) ≫= f) Q.
Proof. intros Hfd Hf. split; [by repeat constructor|]. intros a _. apply Hf. Qed.

Lemma safe_log_create {A} (h : gset Z) (c : syscall) (f : answer → prog A) (Q : log_post A) :
  creates c = true → Forall (.∈ h) (uses c) →
  (∀ a, a_res a = -1 → safe_log h (f a) (λ h' r tr, Q h' r ((c, a) :: tr))) →
  (∀ a, 0 ≤ a_res a → a_res a ∉ h → safe_log ({[a_res a]} ∪ h) (f a) (λ h' r tr, Q h' r ((c, a) :: tr))) →
  safe_log h (call c ≫= f) Q.
Proof.
  intros Hc Hu Hneg Hpos. split; [done|]. intros a [Hn _].
  assert (fd_step h c a = if 0 <=? a_res a then {[a_res a]} ∪ h else h) as -> by (by destruct c).
  destruct (Hn Hc) as [Ha|[Ha Hf]].
  - rewrite (proj2 (Z.leb_gt 0 _)) by lia. by apply Hneg.
  - rewrite (proj2 (Z.leb_le 0 _)) by done. by apply Hpos.
Qed.

(** Membership of the descriptors that a call uses. *)
Ltac fds_open := repeat first [apply Forall_nil_2 | apply Forall_cons_2]; set_solver.

(** One step of a program: a call, a test, its end. *)
Ltac safe_step :=
  lazymatch goal with
  | |- safe _ (if ?b then _ else _) _ => let H := fresh "Hb" in destruct b eqn:H
  | |- safe _ (call (Sys_close _) ≫= _) _ => apply safe_close; [set_solver | intros ?]
  | |- safe _ (call _ ≫= _) _ =>
      first [ apply safe_neutral; [reflexivity | fds_open | intros ? ?]
            | apply safe_create; [reflexivity | fds_open | intros ? ? | intros ? ? ?] ]
  | |- safe _ (mret _) _ => apply safe_ret
  | |- safe _ (throw _) _ => apply safe_throw
  end.
