(* ===== verification/Interleaving.v ===== *)
(** * Two threads and one kernel

    [follow] takes a program of Syscalls.v along a list of calls with their answers, to
    whatever is left of it: what a program does no longer depends on a kernel, but on the
    answers it has seen.  [interleave] runs two programs against one kernel, a schedule
    saying whose call comes next; what each has done is [follow]ed from its own part of
    the trace ([interleave_follow]), so that a theorem about all answers to one thread
    holds for any interleaving with another. *)
From S2P Require Import Prelude Bytes Syscalls.
Local Open Scope Z_scope.

(** ** One program along a trace *)

Fixpoint follow {A} (p : prog A) (tr : trace) {struct tr} : option (prog A) :=
  match tr with
  | [] => Some p
  | (c, a) :: tr =>
      match p with
      | Call c' k => if decide (c = c') then follow (k a) tr else None
      | _ => None
      end
  end.

(** How the program has ended, if it has. *)
Definition result {A} (p : prog A) : option (outcome A) :=
  match p with Stop o => Some o | _ => None end.

(** The part of [answer_ok] that is about data: no call delivers or takes more than it
    was offered. *)
Definition data_ok (ca : syscall * answer) : Prop :=
  match ca.1 with
  | Sys_read _ n | Sys_recvfrom _ n =>
      0 ≤ a_res ca.2 → length (a_data ca.2) = Z.to_nat (a_res ca.2) ∧ (length (a_data ca.2) ≤ n)%nat
  | Sys_write _ buffer => a_res ca.2 ≤ Z.of_nat (length buffer)
  | _ => True
  end.

Lemma answer_data_ok (h : gset Z) (c : syscall) (a : answer) : answer_ok h c a → data_ok (c, a).
Proof. intros [_ H]. by destruct c. Qed.

Section follow.
Context {A B : Type}.
Implicit Types (tr : trace).

Lemma follow_app (p : prog A) tr tr' : follow p (tr ++ tr') = (p' ← follow p tr; follow p' tr').
Proof.
  revert p. induction tr as [|[c a] tr IH]; intros p; [reflexivity|]. cbn [app follow].
  destruct p as [| |c' k]; [done..|]. case_decide; [apply IH | done].
Qed.

Lemma follow_call (c : syscall) (f : answer → prog A) tr (q : prog A) :
  follow (call c ≫= f) tr = Some q →
  tr = [] ∧ q = (call c ≫= f) ∨ ∃ a tr', tr = (c, a) :: tr' ∧ follow (f a) tr' = Some q.
Proof.
  destruct tr as [|[c' a] tr]; [intros [= <-]; by left|]. intros Hf. right. unfold call in Hf. cbn [follow mbind prog_bind] in Hf.
  case_decide; [|done]. subst. by exists a, tr.
Qed.

(** A program either has reached the end of its first part, or is still within it. *)
Lemma follow_bind (p : prog A) (f : A → prog B) tr (q : prog B) :
  follow (p ≫= f) tr = Some q →
  (∃ a tr1 tr2, tr = tr1 ++ tr2 ∧ follow p tr1 = Some (mret a) ∧ follow (f a) tr2 = Some q) ∨
  (∃ p', follow p tr = Some p' ∧ q = (p' ≫= f) ∧ ∀ a, p' ≠ mret a).
Proof.
  revert p. induction tr as [|[c a] tr IH]; intros p Hf.
  - cbn [follow] in *. injection Hf as <-. destruct p as [[a| | |]| |c k]; [|right; by eexists..].
    left. by exists a, [], [].
  - destruct p as [[x| | |]| |c' k]; try done.
    + left. exists x, [], ((c, a) :: tr). done.
    + cbn [follow mbind prog_bind] in Hf |- *. case_decide; [|done].
      destruct (IH (k a) Hf) as [(x & tr1 & tr2 & -> & Hp & Hq)|Hp]; [|by right].
      left. exists x, ((c, a) :: tr1), tr2. split_and!; [done| |done]. cbn [follow]. by rewrite decide_True.
Qed.

Lemma follow_stop (o : outcome A) tr (q : prog A) : follow (Stop o) tr = Some q → tr = [] ∧ q = Stop o.
Proof. by destruct tr as [|[]]; [intros [= <-]|]. Qed.

Lemma follow_block tr (q : prog A) : follow Block tr = Some q → tr = [] ∧ q = Block.
Proof. by destruct tr as [|[]]; [intros [= <-]|]. Qed.

(** A run against a kernel follows its trace, and the answers are the kernel's. *)
Lemma run_follow (h : gset Z) (K : kernel) (p : prog A) tr :
  kernel_ok h K →
  ∃ tr' q, run K tr p = (result q, tr ++ tr') ∧ follow p tr' = Some q ∧ Forall data_ok tr' ∧
    (result q = None → q = Block).
Proof.
  intros HK. revert tr. induction p as [o| |c k IH]; intros tr; cbn [run].
  { exists [], (Stop o). rewrite app_nil_r. split_and!; [done|done|constructor|by intros]. }
  { exists [], Block. rewrite app_nil_r. split_and!; [done|done|constructor|done]. }
  destruct (IH (K tr c) (tr ++ [(c, K tr c)])) as (tr' & q & Hr & Hf & Hd & Hb).
  exists ((c, K tr c) :: tr'), q. rewrite Hr, <- (assoc_L (++)). split; [done|].
  split; [cbn [follow]; by rewrite decide_True|]. split; [|done].
  constructor; [apply (answer_data_ok _ _ _ (HK _ _)) | done].
Qed.

(** The fuel of a program is enough for any [n] calls. *)
Fixpoint fueled (n : nat) (p : prog A) : Prop :=
  match n with
  | O => True
  | S n => match p with
           | Stop _ => True
           | Block => False
           | Call _ k => ∀ a, fueled n (k a)
           end
  end.

Lemma fueled_mono (n : nat) (p : prog A) : fueled (S n) p → fueled n p.
Proof.
  revert p. induction n as [|n IH]; intros p; [done|]. destruct p as [| |c k]; [done..|].
  intros Hk a. apply IH, Hk.
Qed.

(** So it has not been used up after fewer. *)
Lemma fueled_follow (n : nat) (p q : prog A) tr :
  fueled n p → follow p tr = Some q → (length tr < n)%nat → q ≠ Block.
Proof.
  revert n p. induction tr as [|[c a] tr IH]; intros [|n] p Hn Hf Hl; simpl in Hl; try lia.
  - injection Hf as <-. by destruct p.
  - cbn [follow] in Hf. destruct p as [| |c' k]; [done..|]. case_decide; [|done].
    apply (IH n (k a)); [apply Hn | done | lia].
Qed.
End follow.

Lemma fueled_bind {A B} (n : nat) (p : prog A) (f : A → prog B) :
  fueled n p → (∀ a, fueled n (f a)) → fueled n (p ≫= f).
Proof.
  revert p. induction n as [|n IH]; intros p Hp Hf; [done|]. destruct p as [[a| | |]| |c k]; try done; [apply Hf|].
  intros a. apply (IH (k a)); [apply Hp|]. intros b. apply fueled_mono, Hf.
Qed.

Lemma result_ret {A} (p : prog A) (a : A) : result p = Some (Ret a) → p = mret a.
Proof. by destruct p as [o| |]; intros [= ->]. Qed.

(** The end of a first part that has not returned a value. *)
Lemma result_bind {A B} (p : prog A) (f : A → prog B) :
  (∀ a, p ≠ mret a) →
  result (p ≫= f) = match result p with
                    | Some (Exit c) => Some (Exit c)
                    | Some (Throw w) => Some (Throw w)
                    | Some (Undef u) => Some (Undef u)
                    | _ => None
                    end.
Proof. intros Hp. destruct p as [[a| | |]| |c k]; try done. by destruct (Hp a). Qed.

(** ** Shuffles *)

(** [zs] is made of [xs] and [ys], each in its own order. *)
Inductive shuffle {A : Type} : list A → list A → list A → Prop :=
  | shuffle_nil : shuffle [] [] []
  | shuffle_left x xs ys zs : shuffle xs ys zs → shuffle (x :: xs) ys (x :: zs)
  | shuffle_right y xs ys zs : shuffle xs ys zs → shuffle xs (y :: ys) (y :: zs).

Section shuffle.
Context {A : Type}.
Implicit Types (xs ys zs l : list A).

Lemma shuffle_left_all l : shuffle l [] l.
Proof. induction l; by constructor. Qed.

Lemma shuffle_right_all l : shuffle [] l l.
Proof. induction l; by constructor. Qed.

Lemma shuffle_app xs ys zs xs' ys' zs' :
  shuffle xs ys zs → shuffle xs' ys' zs' → shuffle (xs ++ xs') (ys ++ ys') (zs ++ zs').
Proof. intros H H'. induction H; simpl; [done | by constructor..]. Qed.

Lemma shuffle_app_left xs ys zs l : shuffle xs ys zs → shuffle (xs ++ l) ys (zs ++ l).
Proof. intros H. rewrite <- (app_nil_r ys). by apply shuffle_app, shuffle_left_all. Qed.

Lemma shuffle_app_right xs ys zs l : shuffle xs ys zs → shuffle xs (ys ++ l) (zs ++ l).
Proof. intros H. rewrite <- (app_nil_r xs). by apply shuffle_app, shuffle_right_all. Qed.

Lemma shuffle_filter {X : Type} (g : X → A) (P Q : X → Prop) `{!∀ x, Decision (P x), !∀ x, Decision (Q x)} (l : list X) :
  (∀ x, P x ↔ ¬ Q x) → shuffle (g <$> filter P l) (g <$> filter Q l) (g <$> l).
Proof.
  intros HPQ. induction l as [|x l IH]; [constructor|]. rewrite !filter_cons. specialize (HPQ x).
  destruct (decide (P x)), (decide (Q x)); [tauto| | |tauto]; rewrite ?fmap_cons; by constructor.
Qed.

Lemma shuffle_Forall_2 (P : A → Prop) xs ys zs : shuffle xs ys zs → Forall P xs → Forall P ys → Forall P zs.
Proof. intros H. induction H; rewrite ?Forall_cons; naive_solver. Qed.

Lemma shuffle_Forall (P : A → Prop) xs ys zs : shuffle xs ys zs → Forall P zs → Forall P xs ∧ Forall P ys.
Proof. intros H. induction H; rewrite ?Forall_cons; naive_solver. Qed.
End shuffle.

Lemma shuffle_omap {A B : Type} (g : A → option B) (xs ys zs : list A) :
  shuffle xs ys zs → shuffle (omap g xs) (omap g ys) (omap g zs).
Proof.
  intros H. induction H; cbn [omap list_omap]; [constructor|destruct (g x)|destruct (g y)]; (done || by constructor).
Qed.

Lemma shuffle_concat_map {A B : Type} (g : A → list B) (xs ys zs : list A) :
  shuffle xs ys zs → shuffle (xs ≫= g) (ys ≫= g) (zs ≫= g).
Proof.
  intros H. induction H; cbn [mbind list_bind]; [constructor| |].
  - apply (shuffle_app (g x) [] (g x)), IHshuffle. apply shuffle_left_all.
  - apply (shuffle_app [] (g y) (g y)), IHshuffle. apply shuffle_right_all.
Qed.

(** ** Interleaving *)

(** The thread that constructs and uses an object, and the one the object runs. *)
Inductive thread := Owner | Reader.
#[export] Instance thread_eq_dec : EqDecision thread.
Proof. solve_decision. Defined.

Abbreviation tagged := (list (thread * (syscall * answer))).

(** The calls of one thread. *)
Definition part (who : thread) (tg : tagged) : trace := snd <$> filter (λ x, x.1 = who) tg.

Lemma tagged_calls (who : thread) (cs : trace) : snd <$> (pair who <$> cs) = cs.
Proof. induction cs as [|x cs IH]; [done|]. by rewrite !fmap_cons, IH. Qed.

Record threads (A B : Type) := Build_threads { t_owner : prog A; t_reader : prog B; t_calls : tagged }.
Arguments Build_threads {_ _} _ _ _.
Arguments t_owner {_ _} _.
Arguments t_reader {_ _} _.
Arguments t_calls {_ _} _.

(** The next call of a program, answered by the kernel; a program that has ended, or whose
    fuel is used up, makes none. *)
Definition advance {A} (K : kernel) (tr : trace) (p : prog A) : prog A * list (syscall * answer) :=
  match p with
  | Call c k => let a := K tr c in (k a, [(c, a)])
  | _ => (p, [])
  end.

Section interleave.
Context {A B : Type}.
Implicit Types (t : threads A B).

(** One thread's turn; [tr] is what happened before the two began. *)
Definition take_turn (K : kernel) (tr : trace) t (who : thread) : threads A B :=
  let so_far := tr ++ (snd <$> t_calls t) in
  match who with
  | Owner => let '(p, cs) := advance K so_far (t_owner t) in
             Build_threads p (t_reader t) (t_calls t ++ (pair Owner <$> cs))
  | Reader => let '(p, cs) := advance K so_far (t_reader t) in
              Build_threads (t_owner t) p (t_calls t ++ (pair Reader <$> cs))
  end.

Definition interleave (K : kernel) (tr : trace) t (schedule : list thread) : threads A B :=
  foldl (take_turn K tr) t schedule.

Lemma advance_follow {C} (K : kernel) (tr tr0 : trace) (p p0 p' : prog C) cs :
  follow p0 tr0 = Some p → advance K tr p = (p', cs) → follow p0 (tr0 ++ cs) = Some p'.
Proof.
  intros Hf Ha. rewrite follow_app, Hf. cbn [mbind option_bind]. destruct p; injection Ha as <- <-; [done..|].
  cbn [follow]. by rewrite decide_True.
Qed.

Lemma part_snoc (who who' : thread) (tg : tagged) cs :
  part who (tg ++ (pair who' <$> cs)) = part who tg ++ if decide (who' = who) then cs else [].
Proof.
  unfold part. rewrite filter_app, fmap_app. f_equal. induction cs as [|x cs IH]; [by case_decide|].
  rewrite fmap_cons, filter_cons. cbn [fst]. destruct (decide (who' = who)); [by rewrite fmap_cons, IH | done].
Qed.

(** Each thread is where its own calls have taken it. *)
Lemma interleave_follow (K : kernel) (tr : trace) (p : prog A) (q : prog B) (schedule : list thread) :
  let t := interleave K tr (Build_threads p q []) schedule in
  follow p (part Owner (t_calls t)) = Some (t_owner t) ∧ follow q (part Reader (t_calls t)) = Some (t_reader t).
Proof.
  unfold interleave. induction schedule as [|who schedule [IHo IHr]] using rev_ind; [done|].
  rewrite foldl_snoc. cbv zeta. set (t := foldl _ _ schedule) in *. unfold take_turn.
  destruct who; (destruct (advance _ _ _) as [p' cs] eqn:Ha); cbn [t_owner t_reader t_calls];
    rewrite !part_snoc; cbn [decide]; [split|split].
  - rewrite decide_True by done. by apply (advance_follow K (tr ++ (snd <$> t_calls t)) _ (t_owner t)).
  - by rewrite decide_False, app_nil_r.
  - by rewrite decide_False, app_nil_r.
  - rewrite decide_True by done. by apply (advance_follow K (tr ++ (snd <$> t_calls t)) _ (t_reader t)).
Qed.

Lemma parts_shuffle (tg : tagged) : shuffle (part Owner tg) (part Reader tg) (snd <$> tg).
Proof. apply shuffle_filter. intros [[] ?]; simpl; split; (done || by intros []). Qed.

(** The kernel's answers are those of a kernel. *)
Lemma interleave_answers (h : gset Z) (K : kernel) (tr : trace) t (schedule : list thread) :
  kernel_ok h K → Forall data_ok (snd <$> t_calls t) →
  Forall data_ok (snd <$> t_calls (interleave K tr t schedule)).
Proof.
  intros HK. unfold interleave. revert t. induction schedule as [|who schedule IH]; intros t Ht; [done|].
  cbn [foldl]. apply IH. unfold take_turn.
  assert (Hadv : ∀ {C} so_far (p p' : prog C) cs, advance K so_far p = (p', cs) → Forall data_ok cs).
  { intros C so_far p p' cs Ha. destruct p; injection Ha as _ <-; repeat constructor. apply (answer_data_ok _ _ _ (HK _ _)). }
  destruct who; (destruct (advance _ _ _) as [p' cs] eqn:Ha); cbn [t_calls]; rewrite fmap_app;
    rewrite tagged_calls; apply Forall_app_2; try done; by apply (Hadv _ _ _ _ _ Ha).
Qed.

(** Every answer is what the kernel says after the calls so far. *)
Definition answered (K : kernel) (tr l : trace) : Prop :=
  ∀ l1 c r l2, l = l1 ++ (c, r) :: l2 → r = K (tr ++ l1) c.

Lemma answered_snoc (K : kernel) (tr l : trace) {C} (p p' : prog C) cs :
  answered K tr l → advance K (tr ++ l) p = (p', cs) → answered K tr (l ++ cs).
Proof.
  intros Hl Ha l1 c r l2 Heq. destruct p as [| |c' k]; injection Ha as _ <-.
  1-2: rewrite app_nil_r in Heq; by apply (Hl l1 c r l2).
  destruct l2 as [|x l2] using rev_ind.
  - apply app_inj_tail in Heq as [-> [= -> ->]]. done.
  - clear IHl2. rewrite app_comm_cons, (assoc_L (++)) in Heq. apply app_inj_tail in Heq as [Heq _].
    by apply (Hl l1 c r l2).
Qed.

Lemma interleave_answered (K : kernel) (tr : trace) (p : prog A) (q : prog B) (schedule : list thread) :
  answered K tr (snd <$> t_calls (interleave K tr (Build_threads p q []) schedule)).
Proof.
  unfold interleave. induction schedule as [|who schedule IH] using rev_ind; [by intros [|? []] ????|].
  rewrite foldl_snoc. set (t := foldl _ _ schedule) in *. unfold take_turn.
  destruct who; (destruct (advance _ _ _) as [p' cs] eqn:Ha); cbn [t_calls];
    rewrite fmap_app, tagged_calls; by apply (answered_snoc _ _ _ _ _ _ IH Ha).
Qed.

(** A thread that still has a call to make has made one on each of its turns. *)
Definition turns (who : thread) (schedule : list thread) : nat := length (filter (λ x, x = who) schedule).

Lemma turns_snoc (who who' : thread) (schedule : list thread) :
  turns who (schedule ++ [who']) = (turns who schedule + if decide (who' = who) then 1 else 0)%nat.
Proof. unfold turns. rewrite filter_app, length_app. f_equal. rewrite filter_cons. by case_decide. Qed.

Lemma interleave_turns (K : kernel) (tr : trace) (p : prog A) (q : prog B) (schedule : list thread) :
  let t := interleave K tr (Build_threads p q []) schedule in
  (∀ c k, t_owner t = Call c k → length (part Owner (t_calls t)) = turns Owner schedule) ∧
  (∀ c k, t_reader t = Call c k → length (part Reader (t_calls t)) = turns Reader schedule).
Proof.
  unfold interleave. induction schedule as [|who schedule [IHo IHr]] using rev_ind; [done|].
  rewrite foldl_snoc. cbv zeta. set (t := foldl _ _ schedule) in *. unfold take_turn.
  destruct who; (destruct (advance _ _ _) as [p' cs] eqn:Ha); cbn [t_owner t_reader t_calls];
    rewrite !part_snoc, !turns_snoc, !length_app; cbn [decide]; (split; intros c k Hp).
  - rewrite !decide_True by done. destruct (t_owner t) as [| |c' k']; injection Ha as <- <-; [done..|].
    by rewrite (IHo c' k').
  - rewrite !decide_False by done. by rewrite (IHr c k), !Nat.add_0_r.
  - rewrite !decide_False by done. by rewrite (IHo c k), !Nat.add_0_r.
  - rewrite !decide_True by done. destruct (t_reader t) as [| |c' k']; injection Ha as <- <-; [done..|].
    by rewrite (IHr c' k').
Qed.

(** A call of one thread, among all calls. *)
Lemma part_split (who : thread) (tg : tagged) (tr1 tr2 : trace) (ca : syscall * answer) :
  part who tg = tr1 ++ ca :: tr2 → ∃ tg1 tg2, tg = tg1 ++ (who, ca) :: tg2 ∧ part who tg1 = tr1.
Proof.
  unfold part. revert tr1. induction tg as [|[w x] tg IH]; intros tr1; [by destruct tr1|].
  rewrite filter_cons. cbn [fst]. destruct (decide (w = who)) as [->|Hne]; [rewrite fmap_cons|]; intros Heq.
  - destruct tr1 as [|y tr1]; injection Heq as <- Heq; [by exists [], tg|].
    destruct (IH tr1 Heq) as (tg1 & tg2 & -> & Hp). exists ((who, x) :: tg1), tg2. split; [done|].
    rewrite filter_cons, decide_True, fmap_cons by done. by rewrite Hp.
  - destruct (IH tr1 Heq) as (tg1 & tg2 & -> & Hp). exists ((w, x) :: tg1), tg2. split; [done|].
    by rewrite filter_cons, decide_False.
Qed.
End interleave.
