(* ===== verification/SocketCalls.v ===== *)
(** * The socket classes and the thread helpers as system calls

    Models lib/network/tcp_server_socket.cpp, the constructors, destructors and options of
    tcp_socket.cpp, tcp_client_connection.cpp and udp_socket.cpp, the receive loop of the
    latter, and lib/utility/thread.cpp.  An exception in a constructor means that the
    destructor of the object does not run.  Log statements are left out, also those that
    only name the error. *)
From S2P Require Import Prelude Bytes Syscalls.
Local Open Scope Z_scope.

(** <fcntl.h> and <netinet/in.h>. *)
Definition O_NONBLOCK : Z := 2048.
Definition htons (port : Z) : Z := bswap 2 port.

(** ** TcpServerSocket *)

Record TcpServerSocket := Build_TcpServerSocket { ss_fd : Z; ss_port : Z }.

Definition ServerSocket_optimizeForLatency (fd : Z) : prog unit :=
  _ ← call (Sys_setsockopt fd TCP_NODELAY 1);
  mret tt.

Definition enableReuseAddr (fd : Z) (val : bool) : prog unit :=
  _ ← call (Sys_setsockopt fd SO_REUSEADDR (Z.b2z val));
  mret tt.

(** [flags < 0 || fcntl(fd, F_SETFL, flags | O_NONBLOCK) < 0], after [fcntl(fd, F_GETFL)]. *)
Definition set_nonblocking_fails (fd : Z) : prog bool :=
  flags ← call (Sys_getfl fd);
  if a_res flags <? 0 then mret true
  else
    r ← call (Sys_setfl fd (Z.lor (a_res flags) O_NONBLOCK));
    mret (a_res r <? 0).

Definition TcpServerSocket_new (port : Z) : prog TcpServerSocket :=
  s ← call (Sys_socket SOCK_STREAM);
  let fd := a_res s in
  if fd <? 0 then throw "Failed to create server socket"
  else
    _ ← enableReuseAddr fd true;
    _ ← ServerSocket_optimizeForLatency fd;
    failed ← set_nonblocking_fails fd;
    if (failed : bool) then
      _ ← call (Sys_close fd);
      throw "Failed to set server socket non-blocking"
    else
      b ← call (Sys_bind fd INADDR_ANY (htons port));
      if a_res b <? 0 then
        _ ← call (Sys_close fd);
        throw "Failed to bind server socket"
      else
        l ← call (Sys_listen fd);
        if a_res l <? 0 then
          _ ← call (Sys_close fd);
          throw "Failed to listen on server socket"
        else mret (Build_TcpServerSocket fd port).

(** [if (m_socketFd >= 0) ::close(m_socketFd);], the destructor of all TCP sockets. *)
Definition close_socket (fd : Z) : prog unit :=
  if 0 <=? fd then (_ ← call (Sys_close fd); mret tt) else mret tt.

Definition TcpServerSocket_delete (s : TcpServerSocket) : prog unit := close_socket (ss_fd s).

Definition acceptConnection (s : TcpServerSocket) : prog Z :=
  c ← call (Sys_accept (ss_fd s));
  if a_res c <? 0 then mret (-1) else mret (a_res c).

(** ** TcpSocket *)

Definition enableNoDelay (fd : Z) (val : bool) : prog unit :=
  _ ← call (Sys_setsockopt fd TCP_NODELAY (Z.b2z val));
  mret tt.

Definition enableQuickAck (fd : Z) (val : bool) : prog unit :=
  _ ← call (Sys_setsockopt fd TCP_QUICKACK (Z.b2z val));
  mret tt.

Definition TcpSocket_optimizeForLatency (fd : Z) : prog unit :=
  _ ← enableNoDelay fd true;
  enableQuickAck fd true.

Definition setSocketBufferSizes (fd : Z) (bufSize : Z) : prog unit :=
  _ ← call (Sys_setsockopt fd SO_RCVBUF bufSize);
  _ ← call (Sys_setsockopt fd SO_SNDBUF bufSize);
  mret tt.

(** The function returns at once; what follows the [return] is dead code. *)
Definition enableBusyPolling (fd : Z) : prog unit := mret tt.

(** The constructor does not throw: the object holds the descriptor in any case, also when
    it has been closed. *)
Definition TcpSocket_new (host : list byte) (port : Z) : prog Z :=
  s ← call (Sys_socket SOCK_STREAM);
  let fd := a_res s in
  if fd <? 0 then mret fd
  else
    p ← call (Sys_inet_pton host);
    if a_res p <=? 0 then
      _ ← call (Sys_close fd);
      mret fd
    else
      c ← call (Sys_connect fd (InetAddr host) (htons port));
      if a_res c <? 0 then
        _ ← call (Sys_close fd);
        mret fd
      else mret fd.

Definition TcpSocket_delete (fd : Z) : prog unit := close_socket fd.

(** ** TcpClientConnection *)

Definition Connection_enableNoDelay (fd : Z) (val : bool) : prog unit :=
  _ ← call (Sys_setsockopt fd TCP_NODELAY (Z.b2z val));
  mret tt.

Definition Connection_enableQuickAck (fd : Z) (val : bool) : prog unit :=
  _ ← call (Sys_setsockopt fd TCP_QUICKACK (Z.b2z val));
  mret tt.

Definition Connection_optimizeForLatency (fd : Z) : prog unit :=
  _ ← Connection_enableNoDelay fd true;
  Connection_enableQuickAck fd true.

Definition TcpClientConnection_new (socket_fd : Z) : prog Z :=
  _ ← Connection_optimizeForLatency socket_fd;
  mret socket_fd.

(** [TcpClientConnection::read] into a buffer of [size] bytes: the answer of [::read], and the
    buffer and offset behind it. *)
Definition TcpClientConnection_read (size : nat) (fd : Z) (buffer : list byte) (offset : nat) :
    prog (answer * list byte * nat) :=
  r ← call (Sys_read fd (size - offset));
  if a_res r <? 0 then mret (r, buffer, offset)
  else if a_res r =? 0 then mret (r, buffer, offset)
  else mret (r, splice offset (a_data r) buffer, (offset + Z.to_nat (a_res r))%nat).

Definition TcpClientConnection_delete (fd : Z) : prog unit := close_socket fd.

(** ** UdpMulticastSocket *)

Record UdpMulticastSocket := Build_UdpMulticastSocket {
  us_fd : Z;
  us_dest : in_addr;
  us_dest_port : Z;
}.

Definition UdpMulticastSocket_new (multicast_ip interface_ip : list byte) (multicast_port : Z)
    (unicast_ip : list byte) (unicast_port : Z) : prog UdpMulticastSocket :=
  s ← call (Sys_socket SOCK_DGRAM);
  let fd := a_res s in
  if fd =? -1 then throw "Socket creation failed"
  else
    r ← call (Sys_setsockopt fd SO_REUSEADDR 1);
    if a_res r <? 0 then throw "setsockopt SO_REUSEADDR failed"
    else
      b ← call (Sys_bind fd INADDR_ANY (htons multicast_port));
      if a_res b <? 0 then throw "Bind failed"
      else
        m ← call (Sys_add_membership fd (InetAddr multicast_ip) (InetAddr interface_ip));
        if a_res m <? 0 then throw "setsockopt IP_ADD_MEMBERSHIP failed"
        else
          i ← call (Sys_multicast_if fd (InetAddr interface_ip));
          if a_res i <? 0 then throw "setsockopt IP_MULTICAST_IF failed"
          else
            p ← call (Sys_inet_pton unicast_ip);
            if negb (a_res p =? 1) then throw "Invalid unicast destination address"
            else mret (Build_UdpMulticastSocket fd (InetAddr unicast_ip) (htons unicast_port)).

Definition UdpMulticastSocket_delete (s : UdpMulticastSocket) : prog unit :=
  if negb (us_fd s =? -1) then (_ ← call (Sys_close (us_fd s)); mret tt) else mret tt.

(** The receive loop, for at most [fuel] rounds; nothing is done with a datagram. *)
Fixpoint UdpMulticastSocket_read (fuel : nat) (s : UdpMulticastSocket) : prog unit :=
  match fuel with
  | O => Block
  | S fuel =>
      stop ← call Sys_stopRequested;
      if negb (a_res stop =? 0) then mret tt
      else
        r ← call (Sys_recvfrom (us_fd s) 2048);
        if 0 <? a_res r then UdpMulticastSocket_read fuel s else mret tt
  end.

Definition UdpMulticastSocket_write (s : UdpMulticastSocket) (buffer : list byte) : prog unit :=
  _ ← call (Sys_sendto (us_fd s) buffer (us_dest s) (us_dest_port s));
  mret tt.

(** ** lib/utility/thread.cpp *)

Definition setThreadName (name : list byte) : prog unit :=
  if (15 <? length name)%nat then mret tt
  else
    _ ← call (Sys_setname name);
    mret tt.

(** [CPU_SET] of <sched.h>: a [cpu_set_t] has 1024 bits, a larger number has no effect. *)
Definition CPU_SET (core : Z) (cpus : list Z) : list Z := if core <? 1024 then core :: cpus else cpus.

Definition pinThreadToCore (core : Z) : prog bool :=
  n ← call Sys_hardware_concurrency;
  let numCores := wrap 32 (a_res n) in
  if (core <? 0) || (to_signed 32 numCores <=? core) then mret false
  else
    r ← call (Sys_setaffinity (CPU_SET core []));
    if negb (a_res r =? 0) then mret false else mret true.

Definition SCHED_OTHER : Z := 0.
Definition SCHED_FIFO : Z := 1.
Definition SCHED_RR : Z := 2.

(** The name that is logged. *)
Definition policyName (currentPolicy : Z) : string :=
  if currentPolicy =? SCHED_FIFO then "SCHED_FIFO"
  else if currentPolicy =? SCHED_RR then "SCHED_RR"
  else if currentPolicy =? SCHED_OTHER then "SCHED_OTHER"
  else "Unknown".

(** The result, and the name that is logged on success. *)
Definition setSchedulerPolicy (policy priority : Z) : prog (bool * option string) :=
  s ← call (Sys_setscheduler policy priority);
  if a_res s =? -1 then mret (false, None)
  else
    g ← call Sys_getscheduler;
    if a_res g =? -1 then mret (false, None)
    else mret (true, Some (policyName (a_res g))).

(** ** Specifications *)

(** Setting an option changes no descriptor. *)
Lemma safe_option {A} (h : gset Z) (p : prog unit) (f : prog A) (Q : post A) :
  (∀ Q' : post unit, Q' h (Some (Ret tt)) → safe h p Q') → safe h f Q → safe h (_ ← p; f) Q.
Proof. intros Hp Hf. apply safe_bind. by apply Hp. Qed.

Lemma option_safe (h : gset Z) (fd : Z) (o : sock_option) (v : Z) (Q : post unit) :
  fd ∈ h → Q h (Some (Ret tt)) → safe h (_ ← call (Sys_setsockopt fd o v); mret tt) Q.
Proof. intros. by repeat safe_step. Qed.

Lemma nonblocking_safe {A} (h : gset Z) (fd : Z) (f : bool → prog A) (Q : post A) :
  fd ∈ h → (∀ failed, safe h (f failed) Q) → safe h (set_nonblocking_fails fd ≫= f) Q.
Proof. intros Hfd Hf. apply safe_bind. unfold set_nonblocking_fails. repeat safe_step; apply Hf. Qed.

Lemma connection_new_safe {A} (h : gset Z) (fd : Z) (f : Z → prog A) (Q : post A) :
  fd ∈ h → safe h (f fd) Q → safe h (TcpClientConnection_new fd ≫= f) Q.
Proof.
  intros Hfd Hf. apply safe_bind. unfold TcpClientConnection_new, Connection_optimizeForLatency.
  apply safe_option; [|by apply safe_ret]. intros Q' HQ'.
  apply safe_option; [|by apply option_safe]. intros. by apply option_safe.
Qed.

(** Reading from an open descriptor: an error, the end, or data that fits. *)
Lemma connection_read_safe {A} (h : gset Z) (size : nat) (fd : Z) (buffer : list byte) (offset : nat)
    (f : answer * list byte * nat → prog A) (Q : post A) :
  fd ∈ h →
  (∀ r, a_res r ≤ 0 → safe h (f (r, buffer, offset)) Q) →
  (∀ r, 0 < a_res r → length (a_data r) = Z.to_nat (a_res r) → (length (a_data r) ≤ size - offset)%nat →
     safe h (f (r, splice offset (a_data r) buffer, (offset + length (a_data r))%nat)) Q) →
  safe h (TcpClientConnection_read size fd buffer offset ≫= f) Q.
Proof.
  intros Hfd Hnone Hdata. apply safe_bind. unfold TcpClientConnection_read.
  apply safe_neutral; [done|fds_open|]. intros r [_ Hr]. simpl in Hr.
  destruct (Z.ltb_spec (a_res r) 0); [apply safe_ret, Hnone; lia|].
  destruct (Z.eqb_spec (a_res r) 0); [apply safe_ret, Hnone; lia|].
  destruct (Hr ltac:(lia)) as [Hl Hs]. apply safe_ret. rewrite <- Hl. apply Hdata; (done || lia).
Qed.

(** Closing an open descriptor that the object owns. *)
Lemma close_socket_safe {A} (h : gset Z) (fd : Z) (f : prog A) (Q : post A) :
  0 ≤ fd → fd ∈ h → safe (h ∖ {[fd]}) f Q → safe h (_ ← close_socket fd; f) Q.
Proof.
  intros H0 Hfd Hf. apply safe_bind. unfold close_socket. rewrite (proj2 (Z.leb_le 0 fd)) by done.
  apply safe_close; [done|]. intros _. by apply safe_ret.
Qed.

(** A listening socket is created, or nothing is left open. *)
Lemma server_socket_safe (h : gset Z) (port : Z) :
  safe h (TcpServerSocket_new port) (λ h' r,
    match r with
    | Some (Ret s) => 0 ≤ ss_fd s ∧ ss_fd s ∉ h ∧ h' = {[ss_fd s]} ∪ h
    | Some (Throw _) => h' = h
    | _ => False
    end).
Proof.
  unfold TcpServerSocket_new. safe_step.
  - rewrite (proj2 (Z.ltb_lt _ 0)) by lia. by safe_step.
  - set (fd := a_res a) in *. assert (fd ∈ {[fd]} ∪ h) as Hfd by set_solver.
    assert (({[fd]} ∪ h) ∖ {[fd]} = h) as Hclosed by set_solver.
    rewrite (proj2 (Z.ltb_ge _ 0)) by done.
    apply safe_option; [intros; by apply option_safe|]. apply safe_option; [intros; by apply option_safe|].
    apply nonblocking_safe; [done|]. intros failed. repeat safe_step; done.
Qed.

(** The multicast socket as well, except that every exception but the first leaks. *)
Lemma udp_socket_safe (h : gset Z) (mip iip uip : list byte) (mport uport : Z) :
  safe h (UdpMulticastSocket_new mip iip mport uip uport) (λ h' r,
    match r with
    | Some (Ret s) => 0 ≤ us_fd s ∧ us_fd s ∉ h ∧ h' = {[us_fd s]} ∪ h
    | Some (Throw w) =>
        if decide (w = "Socket creation failed"%string) then h' = h
        else ∃ fd, fd ∉ h ∧ h' = {[fd]} ∪ h
    | _ => False
    end).
Proof.
  unfold UdpMulticastSocket_new. safe_step.
  - rewrite (proj2 (Z.eqb_eq _ (-1))) by done. by safe_step.
  - set (fd := a_res a) in *. rewrite (proj2 (Z.eqb_neq _ (-1))) by lia.
    repeat safe_step; first [done | by exists fd].
Qed.

(** ** Properties *)

(** Whatever the kernel answers, the constructor of the multicast socket works on its
    own descriptor only; but whenever it throws after the socket has been created, because
    an option, the address or joining the group failed, this descriptor stays open for
    good, since the destructor of the object does not run. *)
Theorem udp_socket_leaks (h : gset Z) (K : kernel) (mip iip uip : list byte) (mport uport : Z) (what : string)
    (tr : trace) :
  kernel_ok h K →
  run K [] (UdpMulticastSocket_new mip iip mport uip uport) = (Some (Throw what), tr) →
  uses_ok h tr ∧
  if decide (what = "Socket creation failed"%string) then open_fds h tr = h
  else ∃ fd, fd ∉ h ∧ open_fds h tr = {[fd]} ∪ h.
Proof.
  intros HK Hr. destruct (safe_run h K [] _ _ HK (udp_socket_safe h mip iip uip mport uport)) as (tr' & Ht & Hu & HQ).
  rewrite Hr in Ht, HQ. simpl in Ht. by subst tr'.
Qed.

(** A kernel that hands out descriptor 3 whenever it is free, and lets [bad] fail. *)
Definition lowest_free (h : gset Z) : Z := if decide (3 ∈ h) then if decide (4 ∈ h) then -1 else 4 else 3.
Definition sample_kernel (bad : syscall → bool) : kernel := λ tr c,
  let ans r := Build_answer r EOTHER [] [] in
  if creates c then ans (lowest_free (open_fds ∅ tr))
  else if bad c then ans (-1)
  else match c with
       | Sys_inet_pton _ => ans 1
       | _ => ans 0
       end.

Lemma sample_kernel_ok (bad : syscall → bool) : kernel_ok ∅ (sample_kernel bad).
Proof.
  intros tr c. unfold sample_kernel. split.
  - intros Hc. rewrite Hc. simpl. unfold lowest_free. repeat case_decide; [by left|right; split; [lia|done]..].
  - destruct c; simpl; try done; destruct (bad _); simpl; intros; try lia; split; (done || lia).
Qed.

Lemma udp_socket_leaks_witness :
  let bad c := match c with Sys_add_membership _ _ _ => true | _ => false end in
  ∃ fd, fd ∉ (∅ : gset Z) ∧
    open_fds ∅ (run (sample_kernel bad) [] (UdpMulticastSocket_new [] [] 0 [] 0)).2 = {[fd]} ∪ ∅.
Proof.
  intros bad. destruct (udp_socket_leaks ∅ (sample_kernel bad) [] [] [] 0 0 "setsockopt IP_ADD_MEMBERSHIP failed"
    (run (sample_kernel bad) [] (UdpMulticastSocket_new [] [] 0 [] 0)).2) as [_ He];
    [apply sample_kernel_ok | by vm_compute | exact He].
Defined.

(** The calls of the client socket's constructor when the connection succeeds or not. *)
Lemma run_tcp_socket (K : kernel) (tr : trace) (host : list byte) (port fd : Z) :
  0 ≤ fd → (∀ t, a_res (K tr (Sys_socket t)) = fd) → (∀ tr ip, a_res (K tr (Sys_inet_pton ip)) = 1) →
  ∃ a1 a2 a3, a_res a1 = fd ∧
    let tr' := tr ++ [(Sys_socket SOCK_STREAM, a1); (Sys_inet_pton host, a2); (Sys_connect fd (InetAddr host) (htons port), a3)] in
    (∃ tr'', a3 = K tr'' (Sys_connect fd (InetAddr host) (htons port))) ∧
    run K tr (TcpSocket_new host port) =
      if a_res a3 <? 0 then (Some (Ret fd), tr' ++ [(Sys_close fd, K tr' (Sys_close fd))]) else (Some (Ret fd), tr').
Proof.
  intros H0 Hs Hp. set (a1 := K tr (Sys_socket SOCK_STREAM)).
  set (tr1 := tr ++ [(Sys_socket SOCK_STREAM, a1)]). set (a2 := K tr1 (Sys_inet_pton host)).
  set (tr2 := tr1 ++ [(Sys_inet_pton host, a2)]). set (a3 := K tr2 (Sys_connect fd (InetAddr host) (htons port))).
  exists a1, a2, a3. split; [apply Hs|]. cbv zeta. split; [by exists tr2|].
  unfold TcpSocket_new. rewrite run_call. fold a1 tr1. cbv zeta. assert (a_res a1 = fd) as -> by apply Hs.
  rewrite (proj2 (Z.ltb_ge fd 0)) by done. rewrite run_call. fold a2 tr2.
  rewrite (Hp tr1 host : a_res a2 = 1). change (1 <=? 0) with false. cbv iota. rewrite run_call. fold a3.
  assert (tr2 ++ [(Sys_connect fd (InetAddr host) (htons port), a3)] = tr ++ [(Sys_socket SOCK_STREAM, a1);
    (Sys_inet_pton host, a2); (Sys_connect fd (InetAddr host) (htons port), a3)]) as ->.
  { unfold tr2, tr1. by rewrite <- !(assoc_L (++)). }
  by destruct (a_res a3 <? 0).
Qed.

(** A client socket whose connection fails, another one, and the end of the first. *)
Definition failed_then_connected (host host' : list byte) (port port' : Z) : prog Z :=
  s ← TcpSocket_new host port;
  t ← TcpSocket_new host' port';
  _ ← TcpSocket_delete s;
  mret t.

(** C38. A client socket whose connection fails closes its descriptor but keeps its number,
    reports nothing, and closes it again in the destructor.  When the kernel has given the
    number to another socket in between, as it does with the lowest free one, the
    destructor cuts that socket's connection: it holds a descriptor that is not open. *)
Theorem tcp_socket_double_close (h : gset Z) (K : kernel) (host host' : list byte) (port port' fd : Z) :
  0 ≤ fd → fd ∉ h → host ≠ host' →
  (∀ tr t, fd ∉ open_fds h tr → a_res (K tr (Sys_socket t)) = fd) →
  (∀ tr ip, a_res (K tr (Sys_inet_pton ip)) = 1) →
  (∀ tr f ip p, a_res (K tr (Sys_connect f (InetAddr ip) p)) < 0 ↔ ip = host) →
  ∃ tr, run K [] (failed_then_connected host host' port port') = (Some (Ret fd), tr) ∧
    fd ∉ open_fds h tr ∧
    length (filter (λ ca, ca.1 = Sys_socket SOCK_STREAM) tr) = 2%nat ∧
    length (filter (λ ca, ca.1 = Sys_close fd) tr) = 2%nat.
Proof.
  intros H0 Hfd Hne Hsock Hpton Hconn. unfold failed_then_connected.
  assert (Hopen : (0 <=? fd) = true) by lia.
  destruct (run_tcp_socket K [] host port fd) as (a1 & a2 & a3 & H1 & [tr'' ->] & Hr); [done|auto|done|].
  rewrite run_bind, Hr, (proj2 (Z.ltb_lt _ 0)) by (by apply Hconn). rewrite app_nil_l.
  set (tr1 := _ ++ [(Sys_close fd, _)]).
  assert (Htr : open_fds h tr1 = h).
  { subst tr1. rewrite open_fds_app. unfold open_fds. cbn [foldl fd_step creates andb]. rewrite H1, Hopen. set_solver. }
  destruct (run_tcp_socket K tr1 host' port' fd) as (b1 & b2 & b3 & H2 & [tr3 ->] & Hr').
  { done. } { intros. apply Hsock. by rewrite Htr. } { done. }
  rewrite run_bind, Hr', (proj2 (Z.ltb_ge _ 0)) by (apply Z.nlt_ge; rewrite Hconn; congruence).
  unfold TcpSocket_delete, close_socket. rewrite Hopen. eexists. split; [reflexivity|]. split.
  - rewrite !open_fds_app, Htr. unfold open_fds. cbn [foldl fd_step creates andb]. rewrite H2, Hopen. set_solver.
  - subst tr1. rewrite !filter_app, !length_app. cbn [filter list_filter fst].
    repeat (case_decide; simplify_eq); done.
Qed.

Definition refused_host : list byte := String.list_byte_of_string "10.0.0.1".
Definition other_host : list byte := String.list_byte_of_string "10.0.0.2".
Definition refusing_kernel : kernel :=
  sample_kernel (λ c, match c with Sys_connect _ (InetAddr ip) _ => bool_decide (ip = refused_host) | _ => false end).

Lemma tcp_socket_double_close_witness :
  ∃ tr, run refusing_kernel [] (failed_then_connected refused_host other_host 80 80) = (Some (Ret 3), tr) ∧
    3 ∉ open_fds ∅ tr.
Proof.
  destruct (tcp_socket_double_close ∅ refusing_kernel refused_host other_host 80 80 3) as (tr & Hr & Ho & _);
    [lia | set_solver | by vm_compute | | done | | by exists tr].
  - intros tr t Hf. unfold refusing_kernel, sample_kernel. cbn [creates a_res]. unfold lowest_free.
    by rewrite decide_False.
  - intros tr f ip p. unfold refusing_kernel, sample_kernel. cbn [creates]. case_bool_decide; cbn [a_res]; split; (done || lia).
Defined.

(** ** The receive loop *)

(** An empty datagram ends the receive loop for good, as an error does, although the
    socket goes on to receive; nothing of what was received before is handed on. *)
Lemma udp_read_ends (fuel : nat) (s : UdpMulticastSocket) (K : kernel) (tr : trace) :
  a_res (K tr Sys_stopRequested) = 0 →
  a_res (K (tr ++ [(Sys_stopRequested, K tr Sys_stopRequested)]) (Sys_recvfrom (us_fd s) 2048)) ≤ 0 →
  (run K tr (UdpMulticastSocket_read (S fuel) s)).1 = Some (Ret tt).
Proof.
  intros H0 Hr. cbn [UdpMulticastSocket_read]. rewrite run_call, H0. change (negb (0 =? 0)) with false. cbv iota.
  by rewrite run_call, (proj2 (Z.ltb_ge 0 _)).
Qed.

(** As long as datagrams arrive and nobody asks to stop, the loop goes on. *)
Lemma udp_read_blocks (fuel : nat) (s : UdpMulticastSocket) (K : kernel) (tr : trace) :
  (∀ tr, a_res (K tr Sys_stopRequested) = 0) → (∀ tr, 0 < a_res (K tr (Sys_recvfrom (us_fd s) 2048))) →
  (run K tr (UdpMulticastSocket_read fuel s)).1 = None.
Proof.
  intros H0 Hr. revert tr. induction fuel as [|fuel IH]; intros tr; [done|].
  cbn [UdpMulticastSocket_read]. rewrite run_call, H0. change (negb (0 =? 0)) with false. cbv iota.
  rewrite run_call, (proj2 (Z.ltb_lt 0 _)) by done. apply IH.
Qed.

(** ** Threads *)

(** Pinning succeeds exactly for an existing core to which the kernel lets the thread be
    bound, and then the thread is bound to this core alone. *)
Lemma pinThreadToCore_spec (K : kernel) (core : Z) :
  let n := a_res (K [] Sys_hardware_concurrency) in
  let a := K [(Sys_hardware_concurrency, K [] Sys_hardware_concurrency)] (Sys_setaffinity [core]) in
  0 ≤ n < 2 ^ 31 → core < 1024 →
  (run K [] (pinThreadToCore core)).1 = Some (Ret (bool_decide (0 ≤ core < n) && (a_res a =? 0))).
Proof.
  intros n a Hn Hc. unfold pinThreadToCore. rewrite run_call. fold n. cbv zeta.
  rewrite wrap_id, to_signed_id by lia. case_bool_decide as Hr.
  - rewrite (proj2 (Z.ltb_ge core 0)), (proj2 (Z.leb_gt n core)) by lia. cbn [orb].
    unfold CPU_SET. rewrite (proj2 (Z.ltb_lt core 1024)), run_call by done. rewrite app_nil_l. fold a.
    by destruct (a_res a =? 0).
  - assert ((core <? 0) || (n <=? core) = true) as -> by lia. done.
Qed.

(** The policy is not verified: the function reports success whatever policy it reads. *)
Lemma setSchedulerPolicy_unverified (K : kernel) (policy priority : Z) :
  (run K [] (setSchedulerPolicy policy priority)).1 =
    Some (Ret (let s := K [] (Sys_setscheduler policy priority) in
               let g := K [(Sys_setscheduler policy priority, s)] Sys_getscheduler in
               if (a_res s =? -1) || (a_res g =? -1) then (false, None) else (true, Some (policyName (a_res g))))).
Proof.
  unfold setSchedulerPolicy. rewrite run_call. cbv zeta. destruct (a_res _ =? -1); [done|].
  rewrite run_call, app_nil_l. by destruct (a_res _ =? -1).
Qed.
