(* ===== verification/MarketDataCalls.v ===== *)
(** * The market data client as system calls

    The object of lib/client/market_data_client.hpp with its socket and configuration:
    construction, [run], which is the receive loop of the socket, and destruction.  The
    socket hands nothing to the client, since the call of [parse] is commented out in
    lib/network/udp_socket.cpp; what [parse] does with a datagram is MarketDataClient.v. *)
From S2P Require Import Prelude Bytes ConfigParser Syscalls SocketCalls.
From S2P Require Import ItchMessages SessionMessages L2Orderbook OrderbookBuilder ItchParser MarketDataClient.
Local Open Scope Z_scope.

Record MarketDataObject := Build_MarketDataObject {
  mo_client : MarketDataClient;
  m_config : MarketDataPartitionConfig;
  m_multicastSocket : UdpMulticastSocket;
}.

Definition sys_MarketDataClient_new (config : MarketDataPartitionConfig) : prog MarketDataObject :=
  s ← UdpMulticastSocket_new (mdc_multicast_ip config) (mdc_multicast_interface_ip config) (mdc_multicast_port config)
        (mdc_unicast_destination_ip config) (mdc_unicast_destination_port config);
  mret (Build_MarketDataObject MarketDataClient_new config s).

Definition getPartitionConfig (o : MarketDataObject) : MarketDataPartitionConfig := m_config o.

(** [MarketDataClient::run]. *)
Definition MarketDataClient_run (fuel : nat) (o : MarketDataObject) : prog unit :=
  UdpMulticastSocket_read fuel (m_multicastSocket o).

(** The members are destroyed. *)
Definition MarketDataClient_delete (o : MarketDataObject) : prog unit := UdpMulticastSocket_delete (m_multicastSocket o).

(** Construct, run, destroy. *)
Definition market_data_life (fuel : nat) (config : MarketDataPartitionConfig) : prog MarketDataPartitionConfig :=
  o ← sys_MarketDataClient_new config;
  _ ← MarketDataClient_run fuel o;
  _ ← MarketDataClient_delete o;
  mret (getPartitionConfig o).

Lemma udp_read_safe {A} (h : gset Z) (fuel : nat) (s : UdpMulticastSocket) (f : prog A) (Q : post A) :
  us_fd s ∈ h → Q h None → safe h f Q → safe h (_ ← UdpMulticastSocket_read fuel s; f) Q.
Proof.
  intros Hs Hnone Hf. apply safe_bind. induction fuel as [|fuel IH]; [done|]. cbn [UdpMulticastSocket_read].
  safe_step. safe_step; [by apply safe_ret|]. safe_step. safe_step; [done | by apply safe_ret].
Qed.

(** Over its life the client uses its own descriptor only.  When it ends normally the
    descriptor is closed and the configuration is the one it was given; as long as it runs,
    the descriptor is open; a failed construction leaks it, except when the socket could
    not even be created. *)
Theorem market_data_descriptors (h : gset Z) (K : kernel) (fuel : nat) (config : MarketDataPartitionConfig) :
  kernel_ok h K →
  ∃ tr r, run K [] (market_data_life fuel config) = (r, tr) ∧ uses_ok h tr ∧
    match r with
    | Some (Ret config') => config' = config ∧ open_fds h tr = h
    | Some (Throw w) =>
        if decide (w = "Socket creation failed"%string) then open_fds h tr = h
        else ∃ fd, fd ∉ h ∧ open_fds h tr = {[fd]} ∪ h
    | None => ∃ fd, fd ∉ h ∧ open_fds h tr = {[fd]} ∪ h
    | _ => False
    end.
Proof.
  intros HK.
  assert (Hs : safe h (market_data_life fuel config) (λ h' r,
    match r with
    | Some (Ret config') => config' = config ∧ h' = h
    | Some (Throw w) =>
        if decide (w = "Socket creation failed"%string) then h' = h else ∃ fd, fd ∉ h ∧ h' = {[fd]} ∪ h
    | None => ∃ fd, fd ∉ h ∧ h' = {[fd]} ∪ h
    | _ => False
    end)).
  { unfold market_data_life, sys_MarketDataClient_new. apply safe_bind, safe_bind.
    eapply safe_mono; [apply udp_socket_safe|]. intros h' [[s| | |]|] Hr; try done. destruct Hr as (H0 & Hfd & ->).
    apply safe_ret. apply udp_read_safe; cbn [m_multicastSocket]; [set_solver | by exists (us_fd s)|].
    apply safe_bind. unfold MarketDataClient_delete, UdpMulticastSocket_delete. cbn [m_multicastSocket].
    rewrite (proj2 (Z.eqb_neq _ (-1))) by lia. cbn [negb]. safe_step. apply safe_ret. cbn. split; [done|]. set_solver. }
  destruct (safe_run h K [] _ _ HK Hs) as (tr & Ht & Hu & HQ). exists tr, (run K [] (market_data_life fuel config)).1.
  rewrite app_nil_l in *. split; [by rewrite <- Ht; destruct (run _ _ _) | done].
Qed.
