(* ===== verification/Sockets.v ===== *)
(** * Writing to a socket

    Models the write loops of lib/network/tcp_socket.cpp ([TcpSocket::write], the order
    entry client's end) and lib/network/tcp_client_connection.cpp
    ([TcpClientConnection::write], the server's end).  The kernel's answers to the calls
    of [::write] are the input: a number of bytes taken, which is at most what was
    offered, or an errno.  When there is no further answer the loop is still waiting for
    one.  The effect is the bytes that went onto the wire. *)
From S2P Require Import Prelude Bytes Syscalls.
Local Open Scope Z_scope.

Inductive write_result :=
  | Wrote (n : nat)
  | WriteFailed (e : errno).

(** How a call of [write] ends, with the bytes sent and the answers left over. *)
Inductive write_status := WriteDone | WriteGaveUp | WriteWaiting.

#[export] Instance write_status_eq_dec : EqDecision write_status.
Proof. solve_decision. Defined.

Section write_loop.
(** The errors after which the loop calls [::write] again. *)
Context (retry : errno → bool).

(** [while (bytes_remaining > 0)]: [buffer] is what remains.  [bytes_remaining] is a
    [size_t], so an answer larger than what was offered would wrap it around; the model
    stops there with undefined behaviour. *)
Fixpoint write_loop (results : list write_result) (buffer : list byte) :
    outcome (write_status * list byte * list write_result) :=
  match buffer with
  | [] => Ret (WriteDone, [], results)
  | _ :: _ =>
      match results with
      | [] => Ret (WriteWaiting, [], [])
      | WriteFailed e :: results =>
          if retry e then write_loop results buffer else Ret (WriteGaveUp, [], results)
      | Wrote n :: results =>
          if (n <=? length buffer)%nat then
            '(status, sent, results) ← write_loop results (drop n buffer);
            Ret (status, take n buffer ++ sent, results)
          else Undef OutOfBoundsRead
      end
  end.

(** Several buffers, one after the other, whatever became of the ones before. *)
Fixpoint write_all (results : list write_result) (buffers : list (list byte)) :
    outcome (list write_status * list byte) :=
  match buffers with
  | [] => Ret ([], [])
  | buffer :: buffers =>
      '(status, sent, results) ← write_loop results buffer;
      '(statuses, sent') ← write_all results buffers;
      Ret (status :: statuses, sent ++ sent')
  end.
End write_loop.

(** [TcpSocket::write] tries again only after a signal. *)
Definition TcpSocket_retry (e : errno) : bool :=
  match e with EINTR => true | EAGAIN | EPIPE | EOTHER => false end.
Definition TcpSocket_write (results : list write_result) (buffer : list byte) := write_loop TcpSocket_retry results buffer.

(** [TcpClientConnection::write] also waits, busily, for room. *)
Definition TcpClientConnection_retry (e : errno) : bool :=
  match e with EINTR | EAGAIN => true | EPIPE | EOTHER => false end.
Definition TcpClientConnection_write (results : list write_result) (buffer : list byte) :=
  write_loop TcpClientConnection_retry results buffer.

(** *** The loop as system calls *)

Fixpoint write_calls (retry : errno → bool) (fuel : nat) (fd : Z) (buffer : list byte) : prog unit :=
  match buffer with
  | [] => mret tt
  | _ :: _ =>
      match fuel with
      | O => Block
      | S fuel =>
          r ← call (Sys_write fd buffer);
          if a_res r <? 0 then
            if retry (a_errno r) then write_calls retry fuel fd buffer else mret tt
          else write_calls retry fuel fd (drop (Z.to_nat (a_res r)) buffer)
      end
  end.

(** An answer of the kernel to [::write]. *)
Definition result_of (a : answer) : write_result :=
  if a_res a <? 0 then WriteFailed (a_errno a) else Wrote (Z.to_nat (a_res a)).

Lemma result_of_failed (a : answer) : a_res a < 0 → result_of a = WriteFailed (a_errno a).
Proof. intros H. unfold result_of. by rewrite (proj2 (Z.ltb_lt _ 0)). Qed.

Lemma result_of_wrote (a : answer) : 0 ≤ a_res a → result_of a = Wrote (Z.to_nat (a_res a)).
Proof. intros H. unfold result_of. by rewrite (proj2 (Z.ltb_ge _ 0)). Qed.

(** ** The kernel's side *)

(** The answers as [write(2)] documents them, for a call that has [n] bytes to send:
    never more than was offered. *)
Fixpoint answers_ok (results : list write_result) (n : nat) : Prop :=
  match results with
  | [] => True
  | WriteFailed _ :: results => answers_ok results n
  | Wrote k :: results => (k ≤ n)%nat ∧ (k < n → answers_ok results (n - k))%nat
  end.

Section answers.
Context (retry : errno → bool).

(** No answer makes the loop give up. *)
Definition no_failure (results : list write_result) : Prop :=
  Forall (λ r, match r with Wrote _ => True | WriteFailed e => retry e = true end) results.

(** The bytes the kernel takes in all. *)
Definition total (results : list write_result) : nat :=
  sum_list ((λ r, match r with Wrote n => n | WriteFailed _ => 0%nat end) <$> results).

(** Whatever the answers, a prefix of the buffer is on the wire, and the whole buffer
    exactly when the loop is done. *)
Lemma write_loop_prefix (results results' : list write_result) (buffer sent : list byte) (status : write_status) :
  write_loop retry results buffer = Ret (status, sent, results') →
  ∃ rest, buffer = sent ++ rest ∧ (status = WriteDone ↔ rest = []).
Proof.
  revert buffer sent. induction results as [|[n|e] results IH]; intros [|b buffer] sent; cbn [write_loop];
    try (intros [= <- <- <-]; by eexists).
  - destruct (n <=? _)%nat; [|done].
    intros ([[st sent'] rs] & Hw & [= <- <- <-])%bind_ret_inv. destruct (IH _ _ Hw) as (rest & Hb & Hd).
    exists rest. split; [|done]. by rewrite <- (assoc_L (++)), <- Hb, take_drop.
  - destruct (retry e); [apply IH|]. intros [= <- <- <-]. by eexists.
Qed.

Lemma write_loop_nil (results : list write_result) : write_loop retry results [] = Ret (WriteDone, [], results).
Proof. by destruct results. Qed.

(** With enough answers and no failure the loop is done. *)
Lemma write_loop_done (results : list write_result) (buffer : list byte) :
  answers_ok results (length buffer) → no_failure results → (length buffer ≤ total results)%nat →
  ∃ results', write_loop retry results buffer = Ret (WriteDone, buffer, results').
Proof.
  revert buffer. induction results as [|[n|e] results IH]; intros buffer Hok Hf Ht.
  - destruct buffer; [by exists []|]. change (total []) with 0%nat in Ht. simpl in Ht. lia.
  - destruct buffer as [|b buffer]; [by exists (Wrote n :: results)|]. apply Forall_cons in Hf as [_ Hf].
    cbn [write_loop]. set (buf := b :: buffer) in *. destruct Hok as [Hn Hok].
    rewrite (proj2 (Nat.leb_le _ _) Hn). change (total (Wrote n :: results)) with (n + total results)%nat in Ht.
    destruct (decide (n < length buf)%nat) as [Hlt|Hge].
    + destruct (IH (drop n buf)) as (rs & Hw); [rewrite length_drop; by apply Hok|done|rewrite length_drop; lia|].
      rewrite Hw. exists rs. run_outcome. by rewrite take_drop.
    + rewrite (drop_ge buf), (take_ge buf), write_loop_nil by lia. exists results.
      run_outcome. by rewrite app_nil_r.
  - destruct buffer as [|b buffer]; [by exists (WriteFailed e :: results)|].
    apply Forall_cons in Hf as [He Hf]. cbn [write_loop]. rewrite He. by apply IH.
Qed.
End answers.

(** The calls of the loop are writes to its socket, and with the kernel's answers to them
    [write_loop] does the same: it is done or gives up when the calls are over, and waits
    for an answer when they are not. *)
Lemma write_calls_loop (retry : errno → bool) (h : gset Z) (K : kernel) (fuel : nat) (fd : Z) (buffer : list byte)
    (tr : trace) :
  kernel_ok h K →
  ∃ tr' status sent, (run K tr (write_calls retry fuel fd buffer)).2 = tr ++ tr' ∧
    Forall (λ ca, ∃ bs, ca.1 = Sys_write fd bs) tr' ∧
    write_loop retry ((λ ca, result_of ca.2) <$> tr') buffer = Ret (status, sent, []) ∧
    ((run K tr (write_calls retry fuel fd buffer)).1 = None ↔ status = WriteWaiting).
Proof.
  intros HK. revert buffer tr. induction fuel as [|fuel IH]; intros [|b buffer] tr; cbn [write_calls].
  1,3: exists [], WriteDone, []; by rewrite app_nil_r.
  { exists [], WriteWaiting, []. by rewrite app_nil_r. }
  set (buf := b :: buffer). rewrite run_call. set (a := K tr (Sys_write fd buf)).
  destruct (HK tr (Sys_write fd buf)) as [_ Hw]. fold a in Hw. change (a_res a ≤ Z.of_nat (length buf)) in Hw.
  destruct (Z.ltb_spec (a_res a) 0) as [Hneg|Hpos]; [destruct (retry (a_errno a)) eqn:Hr|].
  - destruct (IH buf (tr ++ [(Sys_write fd buf, a)])) as (tr' & st & sent & Ht & Hf & Hl & Hb).
    exists ((Sys_write fd buf, a) :: tr'), st, sent. rewrite Ht, <- (assoc_L (++)). split_and!; [done| | |done].
    + constructor; [by eexists | done].
    + cbn [fmap list_fmap snd]. rewrite result_of_failed by done. cbn [write_loop buf]. by rewrite Hr.
  - exists [(Sys_write fd buf, a)], WriteGaveUp, []. split_and!; [done|repeat constructor; by eexists| |done].
    cbn [fmap list_fmap snd]. rewrite result_of_failed by done. cbn [write_loop buf]. by rewrite Hr.
  - destruct (IH (drop (Z.to_nat (a_res a)) buf) (tr ++ [(Sys_write fd buf, a)])) as (tr' & st & sent & Ht & Hf & Hl & Hb).
    exists ((Sys_write fd buf, a) :: tr'), st, (take (Z.to_nat (a_res a)) buf ++ sent).
    rewrite Ht, <- (assoc_L (++)). split_and!; [done| | |done].
    + constructor; [by eexists | done].
    + cbn [fmap list_fmap snd]. rewrite result_of_wrote by done. cbn [write_loop buf]. fold buf.
      rewrite (proj2 (Nat.leb_le _ _)) by lia. by rewrite Hl.
Qed.

(** ** Properties *)

(** A write puts the whole buffer onto the wire, whatever the portions in which the
    kernel takes it, as long as no error makes the loop give up and the kernel goes on
    taking bytes: the client's loop survives signals, the server's also a full socket. *)
Theorem write_delivers (results : list write_result) (buffer : list byte) :
  answers_ok results (length buffer) → (length buffer ≤ total results)%nat →
  (no_failure TcpSocket_retry results → ∃ rest, TcpSocket_write results buffer = Ret (WriteDone, buffer, rest)) ∧
  (no_failure TcpClientConnection_retry results →
    ∃ rest, TcpClientConnection_write results buffer = Ret (WriteDone, buffer, rest)).
Proof. intros. split; intros; by apply write_loop_done. Qed.

Lemma write_delivers_witness :
  ∃ rest, TcpClientConnection_write [Wrote 2; WriteFailed EAGAIN; WriteFailed EINTR; Wrote 1] ["a"; "b"; "c"]%byte =
    Ret (WriteDone, ["a"; "b"; "c"]%byte, rest).
Proof.
  apply (write_delivers [Wrote 2; WriteFailed EAGAIN; WriteFailed EINTR; Wrote 1] ["a"; "b"; "c"]%byte);
    [simpl; lia | vm_compute; lia | by repeat constructor].
Defined.

(** Several writes: what is on the wire is made of a prefix of every buffer, in order,
    and of the whole buffers exactly for the writes that were not given up; so if all of
    them were done, the stream is the concatenation of the buffers. *)
Theorem writes_in_order (retry : errno → bool) (results : list write_result) (buffers : list (list byte))
    (statuses : list write_status) (wire : list byte) :
  write_all retry results buffers = Ret (statuses, wire) →
  (∃ sents, wire = concat sents ∧ Forall2 (λ buffer sent, ∃ rest, buffer = sent ++ rest) buffers sents) ∧
  (Forall (λ status, status = WriteDone) statuses ↔ wire = concat buffers).
Proof.
  revert results statuses wire. induction buffers as [|buffer buffers IH]; intros results statuses wire; cbn [write_all].
  { intros [= <- <-]. split; [by exists []|]. split; [done | by constructor]. }
  intros ([[st sent] rs] & Hw & ([sts sent'] & Hws & [= <- <-])%bind_ret_inv)%bind_ret_inv.
  destruct (write_loop_prefix _ _ _ _ _ _ Hw) as (rest & Hb & Hd). destruct (IH _ _ _ Hws) as [(sents & -> & Hs) Hall].
  split; [exists (sent :: sents); split; [done|]; constructor; [by exists rest | done]|].
  assert (Hle : (length (concat sents) ≤ length (concat buffers))%nat).
  { clear -Hs. induction Hs as [|bf sn bfs sns [r ->] _ IHs]; simpl; [lia|]. rewrite !length_app. lia. }
  rewrite Forall_cons, Hall, Hd. simpl. split.
  - intros [-> ->]. by rewrite Hb, app_nil_r.
  - intros He. assert (rest = []) as ->.
    { apply (f_equal length) in He. rewrite Hb, !length_app in He. destruct rest; simpl in He; [done|lia]. }
    rewrite Hb, app_nil_r in He. by apply app_inv_head in He.
Qed.

Lemma writes_in_order_witness :
  ∃ statuses wire, write_all TcpSocket_retry [Wrote 1; WriteFailed EPIPE; Wrote 2] [["a"; "b"]; ["c"; "d"]]%byte =
      Ret (statuses, wire) ∧ wire = ["a"; "c"; "d"]%byte ∧
    (Forall (λ status, status = WriteDone) statuses ↔ wire = ["a"; "b"; "c"; "d"]%byte).
Proof.
  eexists _, _. split; [by vm_compute|]. split; [done|].
  apply (writes_in_order TcpSocket_retry [Wrote 1; WriteFailed EPIPE; Wrote 2] [["a"; "b"]; ["c"; "d"]]%byte).
  by vm_compute.
Defined.
