(* ===== verification/ClientCalls.v ===== *)
(** * The TCP client as system calls

    [TcpSocket::read] of lib/network/tcp_socket.hpp, and over it the read loop of
    lib/network/tcp_client.cpp with the stop flag, the errors of [::read], the end of the
    stream, and the writes a handler makes between two reads.  TcpClient.v has the same
    read loop over the chunks that arrive, with the buffers a handler writes collected in
    its state; [client_program_refines] connects the two, for any answers of the kernel and
    at any point of the loop.

    A handler of TcpClient.v writes at most once, when its work is done
    ([handleMessage_writes]), so its writes follow it here. *)
From S2P Require Import Prelude Bytes Digits Codec Types OuchMessages SessionMessages ConfigParser OrderManager OrderEntryClient.
From S2P Require Import TcpClient Syscalls Interleaving SocketCalls Sockets.
Local Open Scope Z_scope.

(** ** Writing *)

(** What the handler has given to [TcpClient::write], oldest first. *)
Class WritingHandler (A : Type) `{MessageHandler A} := {
  outputs : A → list (list byte);
  outputs_grow (a : A) (data : list byte) (len : Z) (a' : A) :
    handle_message a data len = Ret a' → ∃ new, outputs a' = outputs a ++ new ∧ Forall (.≠ []) new;
}.

(** Calls of [TcpClient::write], one after the other; [fuel] bounds the calls of [::write]
    for one buffer. *)
Fixpoint write_buffers (fuel : nat) (fd : Z) (buffers : list (list byte)) : prog unit :=
  match buffers with
  | [] => mret tt
  | buffer :: buffers =>
      _ ← write_calls TcpSocket_retry fuel fd buffer;
      write_buffers fuel fd buffers
  end.

Section client.
Context {A : Type} `{WritingHandler A}.
Implicit Types (c : TcpClient A).

(** [TcpSocket::read] into the client's buffer at [m_dataSize]: the result of [::read],
    and the buffer and offset behind it. *)
Definition TcpSocket_read (fd : Z) (buffer : list byte) (offset : nat) : prog (Z * list byte * nat) :=
  r ← call (Sys_read fd (BUFFER_SIZE - offset));
  if a_res r <? 0 then mret (a_res r, buffer, offset)
  else mret (a_res r, splice offset (a_data r) buffer, (offset + Z.to_nat (a_res r))%nat).

Definition sys_readFromSocket (fd : Z) c : prog (TcpClient A * Z) :=
  '(bytesRead, buffer, dataSize) ← TcpSocket_read fd (m_buffer c) (m_dataSize c);
  mret (Build_TcpClient buffer dataSize (m_marketAccessor c), bytesRead).

(** What the handler has written on its way from [a] to [a']. *)
Definition new_outputs (a a' : A) : list (list byte) := drop (length (outputs a)) (outputs a').

(** The loops of TcpClient.v, with the writes of the handler; [wfuel] is for these. *)
Fixpoint sys_process_loop (wfuel fuel : nat) (fd : Z) (buffer : list byte) (dataSize offset : nat) (a : A) :
    prog (A * nat) :=
  match fuel with
  | O => throw "out of fuel"
  | S fuel =>
      if (2 <=? dataSize - offset)%nat then
        bs ← Stop (read_mem offset 2 buffer);
        let messageLength := be16toh (le_load bs) in
        if (dataSize - offset <? 2 + Z.to_nat messageLength)%nat then mret (a, offset)
        else
          a' ← Stop (handle_message a (drop offset buffer) (wrap 16 (2 + messageLength)));
          _ ← write_buffers wfuel fd (new_outputs a a');
          sys_process_loop wfuel fuel fd buffer dataSize (offset + (2 + Z.to_nat messageLength)) a'
      else mret (a, offset)
  end.

Definition sys_processBuffer (wfuel : nat) (fd : Z) c : prog (TcpClient A) :=
  '(a, offset) ← sys_process_loop wfuel (S (m_dataSize c)) fd (m_buffer c) (m_dataSize c) 0 (m_marketAccessor c);
  if (0 <? offset)%nat then
    let rest := (m_dataSize c - offset)%nat in
    mret (Build_TcpClient (splice 0 (slice offset rest (m_buffer c)) (m_buffer c)) rest a)
  else mret (Build_TcpClient (m_buffer c) (m_dataSize c) a).

(** [while (!stopRequested.test())] *)
Fixpoint sys_startRead (wfuel fuel : nat) (fd : Z) c : prog (TcpClient A) :=
  match fuel with
  | O => Block
  | S fuel =>
      stop ← call Sys_stopRequested;
      if negb (a_res stop =? 0) then mret c
      else
        '(c, bytesRead) ← sys_readFromSocket fd c;
        if bytesRead <=? 0 then mret c
        else
          c ← sys_processBuffer wfuel fd c;
          sys_startRead wfuel fuel fd c
  end.
End client.

(** The data of the reads of a trace that delivered any. *)
Definition read_data (ca : syscall * answer) : option (list byte) :=
  match ca.1 with
  | Sys_read _ _ => if 0 <? a_res ca.2 then Some (a_data ca.2) else None
  | _ => None
  end.

(** The calls the read loop makes: its flag, its reads, and the writes of the handler. *)
Definition client_call (fd : Z) (ca : syscall * answer) : Prop :=
  ca.1 = Sys_stopRequested ∨ (∃ n, ca.1 = Sys_read fd n) ∨ ∃ bs, ca.1 = Sys_write fd bs.

(** ** What a trace has written *)

(** The bytes the kernel has taken. *)
Definition sent_by (tr : trace) : list byte :=
  tr ≫= λ ca, match ca.1 with Sys_write _ bs => take (Z.to_nat (a_res ca.2)) bs | _ => [] end.

(** The buffers of the calls of [::write]. *)
Definition frames (tr : trace) : list (list byte) :=
  omap (λ ca : syscall * answer, match ca.1 with Sys_write _ bs => Some bs | _ => None end) tr.

(** No call of [::write] fails with an error that makes the loop give up. *)
Definition writes_succeed (tr : trace) : Prop :=
  Forall (λ ca, match ca.1 with
                | Sys_write _ _ => a_res ca.2 < 0 → TcpSocket_retry (a_errno ca.2) = true
                | _ => True
                end) tr.

(** Every call of [::write] takes all it is offered. *)
Definition whole_writes (tr : trace) : Prop :=
  Forall (λ ca, match ca.1 with Sys_write _ bs => a_res ca.2 = Z.of_nat (length bs) | _ => True end) tr.

(** The calls of [tr] are about writing [buffers], in this order, [finished] or not. *)
Record sends (buffers : list (list byte)) (tr : trace) (finished : bool) : Prop := {
  sends_parts : ∃ sents, sent_by tr = concat sents ∧ Forall2 prefix sents buffers;
  sends_prefix : writes_succeed tr → sent_by tr `prefix_of` concat buffers;
  sends_all : writes_succeed tr → finished = true → sent_by tr = concat buffers;
  sends_frames : whole_writes tr → Forall (.≠ []) buffers → frames tr `prefix_of` buffers;
  sends_all_frames : whole_writes tr → Forall (.≠ []) buffers → finished = true → frames tr = buffers;
}.

Definition writes_to (fd : Z) (tr : trace) : Prop := Forall (λ ca, ∃ bs, ca.1 = Sys_write fd bs) tr.

Lemma sent_by_app (tr tr' : trace) : sent_by (tr ++ tr') = sent_by tr ++ sent_by tr'.
Proof. apply bind_app. Qed.

Lemma frames_app (tr tr' : trace) : frames (tr ++ tr') = frames tr ++ frames tr'.
Proof. apply omap_app. Qed.

Lemma Forall2_prefix_app (sents buffers more : list (list byte)) :
  Forall2 prefix sents buffers → Forall2 prefix (sents ++ replicate (length more) []) (buffers ++ more).
Proof.
  intros Hs. apply Forall2_app; [done|]. induction more; [constructor|]. constructor; [apply prefix_nil | done].
Qed.

Lemma concat_replicate_nil {X} (n : nat) : concat (replicate n ([] : list X)) = [].
Proof. by induction n. Qed.

(** A finished piece of work, and the next one. *)
Lemma sends_app (b1 b2 : list (list byte)) (tr1 tr2 : trace) (finished : bool) :
  sends b1 tr1 true → sends b2 tr2 finished → sends (b1 ++ b2) (tr1 ++ tr2) finished.
Proof.
  intros [(s1 & E1 & F1) _ A1 _ C1] [(s2 & E2 & F2) P2 A2 D2 C2].
  split; rewrite ?sent_by_app, ?concat_app.
  - exists (s1 ++ s2). rewrite concat_app, E1, E2. split; [done|]. by apply Forall2_app.
  - intros [W1 W2]%Forall_app. rewrite A1 by done. by apply prefix_app, P2.
  - intros [W1 W2]%Forall_app Hf. by rewrite A1, A2.
  - intros [W1 W2]%Forall_app [N1 N2]%Forall_app. rewrite frames_app.
    rewrite C1 by done. by apply prefix_app, D2.
  - intros [W1 W2]%Forall_app [N1 N2]%Forall_app Hf. rewrite frames_app.
    by rewrite C1, C2.
Qed.

(** Unfinished work, with more of it to come. *)
Lemma sends_more (b1 b2 : list (list byte)) (tr : trace) (finished : bool) :
  sends b1 tr finished → sends (b1 ++ b2) tr false.
Proof.
  intros [(s & E & F) P _ D _]. split; rewrite ?concat_app; try done.
  - eexists. split; [|by apply Forall2_prefix_app]. by rewrite concat_app, concat_replicate_nil, app_nil_r.
  - intros W. by apply prefix_app_r, P.
  - intros W [N1 N2]%Forall_app. by apply prefix_app_r, D.
Qed.

(** Calls other than writes. *)
Lemma sends_none (tr : trace) (finished : bool) :
  sent_by tr = [] → frames tr = [] → sends [] tr finished.
Proof. intros E F. split; rewrite ?E, ?F; try done. by exists []. Qed.

(** One buffer: a part of it is written, all of it if no call fails. *)
Lemma follow_write_calls (fuel : nat) (fd : Z) (buffer : list byte) (tr : trace) (q : prog unit) :
  follow (write_calls TcpSocket_retry fuel fd buffer) tr = Some q → Forall data_ok tr →
  writes_to fd tr ∧ (result q = None ∨ result q = Some (Ret tt)) ∧
  ∃ rest, buffer = sent_by tr ++ rest ∧ (writes_succeed tr → result q = Some (Ret tt) → rest = []).
Proof.
  revert buffer tr. induction fuel as [|fuel IH]; intros [|b buffer] tr Hf Hd; cbn [write_calls] in Hf.
  1,3: apply follow_stop in Hf as [-> ->]; split_and!; [constructor|by right|by exists []].
  { apply follow_block in Hf as [-> ->]. split_and!; [constructor|by left|by eexists]. }
  apply follow_call in Hf as [[-> ->]|(a & tr' & -> & Hf)].
  { split_and!; [constructor|by left|by eexists]. }
  apply Forall_cons in Hd as [Ha Hd]. set (buf := b :: buffer) in *. set (ca := (Sys_write fd buf, a)) in *.
  assert (Hca : ∀ tr, writes_to fd tr → writes_to fd (ca :: tr)) by (constructor; [by eexists | done]).
  destruct (Z.ltb_spec (a_res a) 0) as [Hneg|Hpos].
  - assert (Hsent : ∀ tr, sent_by (ca :: tr) = sent_by tr).
    { intros tr. unfold sent_by. cbn [mbind list_bind ca fst snd]. by rewrite Z2Nat.nonpos by lia. }
    destruct (TcpSocket_retry (a_errno a)) eqn:Hr.
    + destruct (IH buf tr' Hf Hd) as (Hw & Hq & rest & Hb & Hrest). rewrite Hsent. split_and!; [by apply Hca|done|].
      exists rest. split; [done|]. intros [_ Hs]%Forall_cons. by apply Hrest.
    + apply follow_stop in Hf as [-> ->]. rewrite Hsent. split_and!; [by apply Hca; constructor|by right|].
      exists buf. split; [done|]. intros [Hs _]%Forall_cons. cbn [ca fst snd] in Hs. by rewrite Hs in Hr.
  - destruct (IH _ tr' Hf Hd) as (Hw & Hq & rest & Hb & Hrest). split_and!; [by apply Hca|done|].
    exists rest. split; [|by intros [_ Hs]%Forall_cons; apply Hrest].
    unfold sent_by. cbn [mbind list_bind ca fst snd]. fold (sent_by tr'). by rewrite <- (assoc_L (++)), <- Hb, take_drop.
Qed.

Lemma follow_write_frames (fuel : nat) (fd : Z) (buffer : list byte) (tr : trace) (q : prog unit) :
  follow (write_calls TcpSocket_retry fuel fd buffer) tr = Some q → whole_writes tr → buffer ≠ [] →
  frames tr = [buffer] ∧ q = mret tt ∨ frames tr = [] ∧ result q = None.
Proof.
  intros Hf Hw Hb. destruct buffer as [|b buffer]; [done|]. destruct fuel as [|fuel]; cbn [write_calls] in Hf.
  { apply follow_block in Hf as [-> ->]. by right. }
  apply follow_call in Hf as [[-> ->]|(a & tr' & -> & Hf)]; [by right|].
  apply Forall_cons in Hw as [Ha _]. cbn [fst snd] in Ha. rewrite (proj2 (Z.ltb_ge _ 0)) in Hf by lia.
  rewrite Ha, Nat2Z.id, drop_all in Hf.
  assert (Hn : write_calls TcpSocket_retry fuel fd [] = mret tt) by (by destruct fuel). rewrite Hn in Hf.
  apply follow_stop in Hf as [-> ->]. by left.
Qed.

Definition ended {X} (q : prog X) : bool := match result q with Some _ => true | None => false end.

Lemma follow_write_buffers (fuel : nat) (fd : Z) (buffers : list (list byte)) (tr : trace) (q : prog unit) :
  follow (write_buffers fuel fd buffers) tr = Some q → Forall data_ok tr →
  writes_to fd tr ∧ (result q = None ∨ result q = Some (Ret tt)) ∧ sends buffers tr (ended q).
Proof.
  revert tr. induction buffers as [|buffer buffers IH]; intros tr Hf Hd; cbn [write_buffers] in Hf.
  { apply follow_stop in Hf as [-> ->]. split_and!; [constructor|by right|by apply sends_none]. }
  assert (Hone : ∀ tr1 (p : prog unit), follow (write_calls TcpSocket_retry fuel fd buffer) tr1 = Some p →
    Forall data_ok tr1 → writes_to fd tr1 ∧ (result p = None ∨ result p = Some (Ret tt)) ∧ sends [buffer] tr1 (ended p)).
  { intros tr1 p Hp Hd1. destruct (follow_write_calls _ _ _ _ _ Hp Hd1) as (Hw & Hr & rest & Hb & Hrest).
    split_and!; [done..|].
    assert (Hend : ended p = true → result p = Some (Ret tt)) by (destruct Hr as [Hr|Hr]; by destruct p).
    split; cbn [concat]; rewrite ?app_nil_r.
    - exists [sent_by tr1]. simpl. rewrite app_nil_r. split; [done|]. repeat constructor. by exists rest.
    - intros _. by exists rest.
    - intros Hs He. rewrite Hb, Hrest, app_nil_r by auto. done.
    - intros Hs [Hn _]%Forall_cons. destruct (follow_write_frames _ _ _ _ _ Hp Hs Hn) as [[-> _]|[-> _]]; [done|].
      apply prefix_nil.
    - intros Hs [Hn _]%Forall_cons He. destruct (follow_write_frames _ _ _ _ _ Hp Hs Hn) as [[-> _]|[_ Hnone]]; [done|].
      by rewrite (Hend He) in Hnone. }
  apply follow_bind in Hf as [(x & tr1 & tr2 & -> & Hp & Hf)|(p & Hp & -> & Hne)].
  - apply Forall_app in Hd as [Hd1 Hd2]. destruct (Hone _ _ Hp Hd1) as (Hw1 & _ & Hs1).
    destruct (IH tr2 Hf Hd2) as (Hw2 & Hr & Hs2). split_and!; [by apply Forall_app|done|].
    apply (sends_app [buffer] buffers); done.
  - destruct (Hone _ _ Hp Hd) as (Hw & [Hr|Hr] & Hs); [|by destruct (Hne tt), (result_ret _ _ Hr)].
    assert (Hq : result (p ≫= λ _, write_buffers fuel fd buffers) = None) by (by rewrite result_bind, Hr).
    unfold ended in *. rewrite Hq. split_and!; [done|by left|]. by apply (sends_more [buffer] buffers _ _ Hs).
Qed.

(** ** The loops *)

Section loops.
Context {A : Type} `{WritingHandler A}.
Implicit Types (c : TcpClient A) (a : A).

Lemma new_outputs_grow a (data : list byte) (len : Z) a' :
  handle_message a data len = Ret a' →
  outputs a' = outputs a ++ new_outputs a a' ∧ Forall (.≠ []) (new_outputs a a').
Proof.
  intros Hh. destruct (outputs_grow _ _ _ _ Hh) as (new & Hn & Hf). unfold new_outputs. by rewrite Hn, drop_app_length.
Qed.

Lemma process_loop_grows (fuel : nat) (buffer : list byte) (dataSize offset : nat) a a' (offset' : nat) :
  process_loop fuel buffer dataSize offset a = Ret (a', offset') → outputs a `prefix_of` outputs a'.
Proof.
  revert offset a. induction fuel as [|fuel IH]; intros offset a; cbn [process_loop]; [done|].
  destruct (_ <=? _)%nat; [|by intros [= <- <-]]. intros (bs & _ & Hl)%bind_ret_inv.
  destruct (_ <? _)%nat; [by injection Hl as <- <-|]. apply bind_ret_inv in Hl as (a1 & Hh & Hl).
  destruct (new_outputs_grow _ _ _ _ Hh) as [Ho _]. etrans; [|by apply (IH _ _ Hl)]. rewrite Ho. by eexists.
Qed.

(** The program [q] left of a computation from [a], after the calls [tr]: it has ended as
    the computation [pure] without calls has, having written what the handler wanted
    written; or it is on its way, and has written a part of it. *)
Definition carries {X} (acc : X → A) a (pure : outcome X) (tr : trace) (q : prog X) : Prop :=
  ∃ outs, sends outs tr (ended q) ∧ Forall (.≠ []) outs ∧
    match result q with
    | Some o => o = pure ∧ ∀ x, o = Ret x → outputs (acc x) = outputs a ++ outs
    | None => ∀ x, pure = Ret x → outputs a ++ outs `prefix_of` outputs (acc x)
    end.

Lemma carries_stop {X} (acc : X → A) a (o : outcome X) (tr : trace) (q : prog X) :
  follow (Stop o) tr = Some q → (∀ x, o = Ret x → acc x = a) → tr = [] ∧ carries acc a o tr q.
Proof.
  intros [-> ->]%follow_stop Ha. split; [done|]. exists []. split_and!; [by apply sends_none|constructor|].
  cbn [result]. split; [done|]. intros x Hx. by rewrite (Ha x Hx), app_nil_r.
Qed.

Lemma follow_process_loop (wfuel fuel : nat) (fd : Z) (buffer : list byte) (dataSize offset : nat) a (tr : trace) q :
  follow (sys_process_loop wfuel fuel fd buffer dataSize offset a) tr = Some q → Forall data_ok tr →
  writes_to fd tr ∧ carries fst a (process_loop fuel buffer dataSize offset a) tr q.
Proof.
  assert (Hstop : ∀ a (o : outcome (A * nat)) tr q, follow (Stop o) tr = Some q → (∀ x, o = Ret x → x.1 = a) →
    writes_to fd tr ∧ carries fst a o tr q).
  { intros a0 o tr0 q0 Hf Ha. destruct (carries_stop fst a0 o tr0 q0 Hf Ha) as [-> Hc]. split; [constructor | done]. }
  revert offset a tr. induction fuel as [|fuel IH]; intros offset a tr Hf Hd; cbn [sys_process_loop process_loop] in *.
  { by apply Hstop. }
  destruct (_ <=? _)%nat; [|by apply (Hstop a _ _ _ Hf); intros ? [= <-]].
  destruct (read_mem offset 2 buffer) as [bs| | |]; cbn [mbind prog_bind outcome_bind] in Hf |- *; [|by apply Hstop..].
  destruct (_ <? _)%nat; [by apply (Hstop a _ _ _ Hf); intros ? [= <-]|].
  destruct (handle_message _ _ _) as [a'| | |] eqn:Hh; cbn [mbind prog_bind outcome_bind] in Hf |- *; [|by apply Hstop..].
  destruct (new_outputs_grow _ _ _ _ Hh) as [Ho Hn]. set (off' := (offset + _)%nat) in *.
  apply (follow_bind (write_buffers _ _ _)) in Hf as [([] & tr1 & tr2 & -> & Hp & Hf)|(p & Hp & -> & Hne)].
  - apply Forall_app in Hd as [Hd1 Hd2]. destruct (follow_write_buffers _ _ _ _ _ Hp Hd1) as (Hw1 & _ & Hs1).
    destruct (IH off' a' tr2 Hf Hd2) as (Hw2 & outs & Hs2 & Hn2 & Hres). split; [by apply Forall_app|].
    exists (new_outputs a a' ++ outs). split_and!; [by apply sends_app|by apply Forall_app|].
    by rewrite (assoc_L (++)), <- Ho.
  - destruct (follow_write_buffers _ _ _ _ _ Hp Hd) as (Hw & [Hr|Hr] & Hs);
      [|by destruct (Hne tt), (result_ret _ _ Hr)].
    split; [done|]. exists (new_outputs a a').
    unfold ended in *. rewrite result_bind, Hr by done. split_and!; [|done|].
    + rewrite <- (app_nil_r (new_outputs a a')). by apply (sends_more _ [] _ _ Hs).
    + intros [x off] Hx. rewrite <- Ho. by apply process_loop_grows in Hx.
Qed.
Lemma splice_nil (off : nat) (mem : list byte) : splice off [] mem = mem.
Proof. unfold splice. simpl. rewrite Nat.add_0_r. apply take_drop. Qed.

Lemma client_eta c : Build_TcpClient (m_buffer c) (m_dataSize c) (m_marketAccessor c) = c.
Proof. by destruct c. Qed.

(** One chunk is what one read delivered. *)
Lemma readFromSocket_chunk c (chunk : list byte) (chunks : list (list byte)) :
  (length chunk ≤ BUFFER_SIZE - m_dataSize c)%nat →
  readFromSocket c (chunk :: chunks) =
    (Build_TcpClient (splice (m_dataSize c) chunk (m_buffer c)) (m_dataSize c + length chunk) (m_marketAccessor c),
     length chunk, chunks).
Proof. intros Hl. unfold readFromSocket. by rewrite take_ge, drop_ge by done. Qed.

(** One call of [read]: nothing changes, or it delivers a chunk. *)
Lemma follow_readFromSocket {X} (fd : Z) c (f : TcpClient A * Z → prog X) (tr : trace) (q : prog X) :
  follow (sys_readFromSocket fd c ≫= f) tr = Some q → Forall data_ok tr →
  tr = [] ∧ result q = None ∨
  ∃ r tr' c', let rd := (Sys_read fd (BUFFER_SIZE - m_dataSize c), r) in
    tr = rd :: tr' ∧ Forall data_ok tr' ∧ follow (f (c', a_res r)) tr' = Some q ∧
    if a_res r <=? 0 then c' = c ∧ read_data rd = None
    else ∃ chunk, read_data rd = Some chunk ∧ (0 < length chunk)%nat ∧
      ∀ chunks, readFromSocket c (chunk :: chunks) = (c', length chunk, chunks).
Proof.
  intros Hf Hd. unfold sys_readFromSocket, TcpSocket_read in Hf.
  destruct tr as [|[c0 r] tr]; [injection Hf as <-; by left|]. right.
  cbn [follow call mbind prog_bind mret prog_ret] in Hf. case_decide; [|done]. subst c0.
  apply Forall_cons in Hd as [Hr Hd]. unfold data_ok in Hr. cbn [fst snd] in Hr. unfold read_data. cbn [fst snd].
  exists r, tr.
  revert Hf. destruct (a_res r <? 0) eqn:Hres; intros Hf; cbn [mbind prog_bind mret prog_ret] in Hf;
    eexists; (split_and!; [done|done|exact Hf|]).
  { rewrite (proj2 (Z.leb_le _ 0)), (proj2 (Z.ltb_ge 0 _)) by lia. by rewrite client_eta. }
  destruct (Hr ltac:(lia)) as [Hlen Hroom]. destruct (Z.leb_spec (a_res r) 0) as [Hz|Hgt].
  - rewrite (proj2 (Z.ltb_ge 0 _)) by lia. replace (Z.to_nat (a_res r)) with 0%nat in * by lia.
    destruct (a_data r); [|done]. by rewrite splice_nil, Nat.add_0_r, client_eta.
  - rewrite (proj2 (Z.ltb_lt 0 _)) by lia. exists (a_data r). rewrite <- Hlen. split_and!; [done|lia|].
    intros chunks. by apply readFromSocket_chunk.
Qed.

Lemma startRead_chunk (n : nat) c c' (chunk : list byte) (chunks : list (list byte)) :
  (0 < length chunk)%nat → readFromSocket c (chunk :: chunks) = (c', length chunk, chunks) →
  startRead (S n) c (chunk :: chunks) = (c ← processBuffer c'; startRead n c chunks).
Proof. intros Hl Hr. cbn [startRead]. rewrite Hr. by destruct (Nat.eqb_spec (length chunk) 0); [lia|]. Qed.

Lemma follow_processBuffer (wfuel : nat) (fd : Z) c (tr : trace) q :
  follow (sys_processBuffer wfuel fd c) tr = Some q → Forall data_ok tr →
  writes_to fd tr ∧ carries m_marketAccessor (m_marketAccessor c) (processBuffer c) tr q.
Proof.
  intros Hf Hd. rewrite processBuffer_compact. unfold sys_processBuffer in Hf.
  assert (Hcompact : ∀ r : A * nat, m_marketAccessor (compact c r) = r.1) by (intros [a off]; simpl; by case_match).
  apply follow_bind in Hf as [(r & tr1 & tr2 & -> & Hp & Hf)|(p & Hp & -> & Hne)].
  - apply Forall_app in Hd as [Hd1 _]. destruct (follow_process_loop _ _ _ _ _ _ _ _ _ Hp Hd1) as (Hw & outs & Hs & Hn & <- & Ho).
    assert (Hq : tr2 = [] ∧ q = mret (compact c r)).
    { destruct r as [a off]. apply follow_stop. rewrite <- Hf. simpl. by case_match. }
    destruct Hq as [-> ->]. rewrite app_nil_r. split; [done|]. exists outs.
    split_and!; [done|done|]. split; [done|]. intros x [= <-]. rewrite Hcompact. by apply Ho.
  - destruct (follow_process_loop _ _ _ _ _ _ _ _ _ Hp Hd) as (Hw & outs & Hs & Hn & Hres). split; [done|].
    exists outs. unfold ended in *. rewrite result_bind by done.
    revert Hs Hres. destruct (result p) as [[r| | |]|] eqn:Hr; intros Hs Hres;
      [by destruct (Hne r), (result_ret _ _ Hr)| | | |].
    1-3: destruct Hres as [<- _]; split; [done|]; split; [done|]; split; [done|]; by intros.
    split; [done|]. split; [done|]. intros x (r & Hpure & [= <-])%bind_ret_inv. rewrite Hcompact. by apply Hres.
Qed.

Lemma writes_client (fd : Z) (tr : trace) : writes_to fd tr → Forall (client_call fd) tr ∧ omap read_data tr = [].
Proof.
  induction 1 as [|[c a] tr [bs Hc] _ [IH1 IH2]]; [done|]. cbn [fst] in Hc. subst c. split; [|done].
  constructor; [right; right; by exists bs | done].
Qed.

Lemma writes_frames (fd : Z) (tr : trace) : writes_to fd tr → length (frames tr) = length tr.
Proof.
  induction 1 as [|[c a] tr [bs Hc] _ IH]; [done|]. cbn [fst] in Hc. subst c.
  change (S (length (frames tr)) = S (length tr)). by rewrite IH.
Qed.

(** What follows calls that write nothing. *)
Lemma carries_after {X} (acc : X → A) a (pure : outcome X) (tr tr' : trace) (q : prog X) :
  sent_by tr = [] → frames tr = [] → carries acc a pure tr' q → carries acc a pure (tr ++ tr') q.
Proof.
  intros Hs Hf (outs & Ho & Hn & Hr). exists outs. split_and!; [|done..].
  by apply (sends_app [] outs tr tr'); [apply sends_none|].
Qed.

(** The loop at any point, over the chunks it has read. *)
Definition startRead_at (fd : Z) c (tr : trace) (q : prog (TcpClient A)) : Prop :=
  Forall (client_call fd) tr ∧
  let chunks := omap read_data tr in
  Forall (λ chunk, (0 < length chunk)%nat) chunks ∧
  carries m_marketAccessor (m_marketAccessor c) (startRead (length chunks) c chunks) tr q.

Lemma startRead_here (fd : Z) c (tr : trace) (q : prog (TcpClient A)) :
  Forall (client_call fd) tr → omap read_data tr = [] → sent_by tr = [] → frames tr = [] →
  result q = None ∨ q = mret c → startRead_at fd c tr q.
Proof.
  intros Hc Hr Hs Hf Hq. unfold startRead_at. rewrite Hr. split; [done|]. split; [constructor|].
  exists []. split_and!; [by apply sends_none|constructor|]. cbn [length startRead]. rewrite app_nil_r.
  destruct Hq as [->| ->]; [by intros ? [= <-]|]. split; [done|]. by intros ? [= <-].
Qed.

(** A round that delivers a chunk, and what follows it. *)
Lemma startRead_round (wfuel : nat) (fd : Z) c c' (chunk : list byte) (tr : trace) (f : TcpClient A → prog (TcpClient A)) q :
  (0 < length chunk)%nat → (∀ chunks, readFromSocket c (chunk :: chunks) = (c', length chunk, chunks)) →
  m_marketAccessor c' = m_marketAccessor c →
  (∀ c2 tr q, follow (f c2) tr = Some q → Forall data_ok tr → startRead_at fd c2 tr q) →
  follow (sys_processBuffer wfuel fd c' ≫= f) tr = Some q → Forall data_ok tr →
  Forall (client_call fd) tr ∧
  let chunks := omap read_data tr in
  Forall (λ chunk, (0 < length chunk)%nat) chunks ∧
  carries m_marketAccessor (m_marketAccessor c) (startRead (S (length chunks)) c (chunk :: chunks)) tr q.
Proof.
  intros Hl Hread Hacc IH Hf Hd. pose proof (λ k chunks, startRead_chunk k c c' chunk chunks Hl (Hread chunks)) as Hstart.
  apply follow_bind in Hf as [(c2 & tr1 & tr2 & -> & Hp & Hf)|(p & Hp & -> & Hne)].
  - apply Forall_app in Hd as [Hd1 Hd2].
    destruct (follow_processBuffer _ _ _ _ _ Hp Hd1) as (Hw & outs & Hs & Hn & Hpure & Ho).
    destruct (IH c2 tr2 q Hf Hd2) as (Hc2 & Hne2 & outs2 & Hs2 & Hn2 & Hres).
    destruct (writes_client fd tr1 Hw) as [Hc1 Hr1]. split; [by apply Forall_app|].
    rewrite omap_app, Hr1, app_nil_l. split; [done|]. rewrite Hstart, <- Hpure. cbn [mbind outcome_bind].
    exists (outs ++ outs2). specialize (Ho c2 eq_refl). rewrite Hacc in Ho.
    split_and!; [by apply sends_app|by apply Forall_app|]. by rewrite (assoc_L (++)), <- Ho.
  - destruct (follow_processBuffer _ _ _ _ _ Hp Hd) as (Hw & outs & Hs & Hn & Hres).
    destruct (writes_client fd tr Hw) as [Hc Hr]. split; [done|]. rewrite Hr. split; [constructor|].
    rewrite Hstart. exists outs. unfold ended in *. rewrite result_bind by done. rewrite Hacc in Hres.
    revert Hs Hres. destruct (result p) as [[r| | |]|] eqn:Hrp; intros Hs Hres;
      [by destruct (Hne r), (result_ret _ _ Hrp)| | | |].
    1-3: destruct Hres as [<- _]; split; [done|]; split; [done|]; split; [done|]; by intros.
    split; [done|]. split; [done|]. intros x (r & Hpure & [= <-])%bind_ret_inv. by apply Hres.
Qed.

Lemma follow_startRead (wfuel fuel : nat) (fd : Z) c (tr : trace) q :
  follow (sys_startRead wfuel fuel fd c) tr = Some q → Forall data_ok tr → startRead_at fd c tr q.
Proof.
  revert c tr q. induction fuel as [|fuel IH]; intros c tr q Hf Hd; cbn [sys_startRead] in Hf.
  { apply follow_block in Hf as [-> ->]. by apply startRead_here; [constructor|..|left]. }
  apply follow_call in Hf as [[-> ->]|(st & tr1 & -> & Hf)].
  { by apply startRead_here; [constructor|..|left]. }
  apply Forall_cons in Hd as [_ Hd]. set (stop := (Sys_stopRequested, st)).
  assert (Hstop : client_call fd stop) by (by left).
  destruct (negb (a_res st =? 0)).
  { apply follow_stop in Hf as [-> ->]. apply startRead_here; [by repeat constructor|done..|by right]. }
  apply follow_readFromSocket in Hf as [[-> Hq]|(r & tr2 & c' & -> & Hd2 & Hf & Hread)]; [| |done].
  { apply startRead_here; [by repeat constructor|done..|by left]. }
  set (rd := (Sys_read fd (BUFFER_SIZE - m_dataSize c), r)) in *.
  set (two := [stop; rd]). assert (Htwo : Forall (client_call fd) two).
  { constructor; [done|]. constructor; [right; left; by eexists | constructor]. }
  change (stop :: rd :: tr2) with (two ++ tr2). cbv beta iota zeta in Hf. destruct (a_res r <=? 0).
  { destruct Hread as [-> Hnone]. apply follow_stop in Hf as [-> ->]. rewrite app_nil_r.
    apply startRead_here; [done| |done..|by right]. unfold two, omap, list_omap. by rewrite Hnone. }
  destruct Hread as (chunk & Hsome & Hl & Hread).
  destruct (startRead_round wfuel fd c c' chunk tr2 (sys_startRead wfuel fuel fd) q Hl Hread) as (Hc & Hne & Hcar); [|by apply IH|done|done|].
  { specialize (Hread []). unfold readFromSocket in Hread. by injection Hread as <-. }
  split; [by apply Forall_app|]. rewrite omap_app.
  assert (omap read_data two = [chunk]) as -> by (unfold two, omap, list_omap; by rewrite Hsome).
  split; [by constructor|]. by apply carries_after.
Qed.

(** How many calls the loop makes, and how it comes to an end. *)
Lemma startRead_shape (wfuel fuel : nat) (fd : Z) c (tr : trace) q :
  follow (sys_startRead wfuel fuel fd c) tr = Some q → Forall data_ok tr →
  (length tr ≤ 2 * S (length (omap read_data tr)) + length (frames tr))%nat ∧
  ∀ c', q = mret c' → ∃ tr' r, a_res r ≠ 0 ∧ tr = tr' ++ [(Sys_stopRequested, r)] ∨
    a_res r ≤ 0 ∧ tr = tr' ++ [(Sys_read fd (BUFFER_SIZE - m_dataSize c'), r)].
Proof.
  revert c tr q. induction fuel as [|fuel IH]; intros c tr q Hf Hd; cbn [sys_startRead] in Hf.
  { apply follow_block in Hf as [-> ->]. by split; [simpl; lia|]. }
  apply follow_call in Hf as [[-> ->]|(st & tr1 & -> & Hf)]; [by split; [simpl; lia|]|].
  apply Forall_cons in Hd as [_ Hd]. revert Hf. destruct (Z.eqb_spec (a_res st) 0) as [Hz|Hnz]; intros Hf;
    cbn [negb] in Hf; cycle 1.
  { apply follow_stop in Hf as [-> ->]. split; [simpl; lia|]. intros ? _. exists [], st. by left. }
  apply follow_readFromSocket in Hf as [[-> Hq]|(r & tr2 & c' & -> & Hd2 & Hf & Hread)]; [| |done].
  { split; [simpl; lia|]. by intros ? ->. }
  set (rd := (Sys_read fd (BUFFER_SIZE - m_dataSize c), r)) in *. set (stop := (Sys_stopRequested, st)) in *.
  cbv beta iota zeta in Hf. revert Hf Hread. destruct (Z.leb_spec (a_res r) 0) as [Hend|]; intros Hf Hread.
  { destruct Hread as [-> Hnone]. apply follow_stop in Hf as [-> ->]. split; [simpl; lia|].
    intros ? [= <-]. exists [stop], r. by right. }
  destruct Hread as (chunk & Hsome & _ & _).
  assert (Ho : ∀ tr, omap read_data (stop :: rd :: tr) = chunk :: omap read_data tr)
    by (intros ?; unfold omap, list_omap; by rewrite Hsome).
  rewrite Ho. change (frames (stop :: rd :: tr2)) with (frames tr2).
  apply follow_bind in Hf as [(c2 & tr3 & tr4 & -> & Hp & Hf)|(p & Hp & -> & Hne)].
  - apply Forall_app in Hd2 as [Hd3 Hd4]. destruct (follow_processBuffer _ _ _ _ _ Hp Hd3) as [Hw _].
    destruct (writes_client fd tr3 Hw) as [_ Hr3]. destruct (IH c2 tr4 q Hf Hd4) as [Hl He].
    rewrite omap_app, frames_app, Hr3. cbn [length app]. rewrite !length_app, (writes_frames fd tr3 Hw).
    split; [lia|]. intros c3 Hc3. destruct (He c3 Hc3) as (tr' & r' & [[Hr' ->]|[Hr' ->]]);
      exists (stop :: rd :: tr3 ++ tr'), r'; [left|right]; (split; [done|]); by rewrite !app_comm_cons, (assoc_L (++)).
  - destruct (follow_processBuffer _ _ _ _ _ Hp Hd2) as [Hw _]. destruct (writes_client fd tr2 Hw) as [_ Hr2].
    rewrite Hr2. cbn [length]. rewrite (writes_frames fd tr2 Hw). split; [lia|].
    intros c3 Hc3. exfalso. destruct p as [[x| | |]| |c0 k]; try done. by destruct (Hne x).
Qed.

(** ** Fuel *)

Lemma fueled_write_calls (n fuel : nat) (fd : Z) (buffer : list byte) :
  (n ≤ fuel)%nat → fueled n (write_calls TcpSocket_retry fuel fd buffer).
Proof.
  revert n buffer. induction fuel as [|fuel IH]; intros [|n] [|b buffer] Hn; try done; [lia|].
  cbn [write_calls]. intros a. cbn [mbind prog_bind mret prog_ret].
  destruct (_ <? _); [destruct (TcpSocket_retry _); [|by destruct n]|]; apply IH; lia.
Qed.

Lemma fueled_write_buffers (n fuel : nat) (fd : Z) (buffers : list (list byte)) :
  (n ≤ fuel)%nat → fueled n (write_buffers fuel fd buffers).
Proof.
  intros Hn. induction buffers as [|b buffers IH]; [by destruct n|]. cbn [write_buffers].
  apply fueled_bind; [by apply fueled_write_calls | by intros].
Qed.

Lemma fueled_stop {X} (n : nat) (o : outcome X) : fueled n (Stop o).
Proof. by destruct n. Qed.

Lemma fueled_process_loop (n wfuel fuel : nat) (fd : Z) (buffer : list byte) (dataSize offset : nat) a :
  (n ≤ wfuel)%nat → fueled n (sys_process_loop wfuel fuel fd buffer dataSize offset a).
Proof.
  intros Hn. revert offset a. induction fuel as [|fuel IH]; intros offset a; cbn [sys_process_loop]; [apply fueled_stop|].
  destruct (_ <=? _)%nat; [|apply fueled_stop]. apply fueled_bind; [apply fueled_stop|]. intros bs.
  cbv zeta. destruct (_ <? _)%nat; [apply fueled_stop|]. apply fueled_bind; [apply fueled_stop|]. intros a'.
  apply fueled_bind; [by apply fueled_write_buffers|]. intros _. apply IH.
Qed.

Lemma fueled_startRead (n wfuel fuel : nat) (fd : Z) c :
  (n ≤ wfuel)%nat → (n ≤ fuel)%nat → fueled n (sys_startRead wfuel fuel fd c).
Proof.
  revert n c. induction fuel as [|fuel IH]; intros [|n] c Hw Hn; [done|lia|done|]. cbn [sys_startRead].
  intros st. cbn [mbind prog_bind mret prog_ret]. destruct (negb _); [apply fueled_stop|].
  apply fueled_bind.
  - unfold sys_readFromSocket, TcpSocket_read. apply fueled_bind; [apply fueled_bind|].
    + destruct n as [|n]; [done|]. intros r. apply fueled_stop.
    + intros r. destruct (_ <? _); apply fueled_stop.
    + intros [[bytesRead buffer] dataSize]. apply fueled_stop.
  - intros [c' bytesRead]. destruct (_ <=? _); [apply fueled_stop|]. apply fueled_bind; [|intros c2; apply IH; lia].
    unfold sys_processBuffer. apply fueled_bind; [apply fueled_process_loop; lia|].
    intros [a off]. destruct (_ <? _)%nat; apply fueled_stop.
Qed.
End loops.

(** ** The order entry client's handler *)

(** At most one buffer is written, and it is not empty. *)
Definition writes_one (a : BistMarketAccessor) (o : outcome BistMarketAccessor) : Prop :=
  ∀ a', o = Ret a' → ∃ new, written a' = written a ++ new ∧ (length new ≤ 1)%nat ∧ Forall (.≠ []) new.

Lemma writes_one_none (a a' : BistMarketAccessor) : written a' = written a → writes_one a (Ret a').
Proof. intros Hw ? [= <-]. exists []. rewrite app_nil_r. split_and!; [done|simpl; lia|constructor]. Qed.

Lemma writes_one_buffer (a a' : BistMarketAccessor) (buffer : list byte) :
  written a' = written a → buffer ≠ [] → writes_one a (Ret (client_write a' buffer)).
Proof. intros Hw Hb ? [= <-]. exists [buffer]. rewrite <- Hw. split_and!; [by destruct a'|simpl; lia|by repeat constructor]. Qed.

Lemma writes_one_bind {B} (a : BistMarketAccessor) (o : outcome B) (f : B → outcome BistMarketAccessor) :
  (∀ b, o = Ret b → writes_one a (f b)) → writes_one a (b ← o; f b).
Proof. intros Hf a' (b & Ho & Hb)%bind_ret_inv. by apply (Hf b Ho). Qed.

Lemma update_struct_nonempty {B} (c : codec B) (f : B → B) (buf buf' : list byte) :
  update_struct c (c_size UnsequencedData_codec) f buf = Ret buf' → buf' ≠ [].
Proof.
  intros (m & Ho & [= <-])%bind_ret_inv. unfold overlay, read_mem in Ho.
  destruct (Nat.leb_spec (c_size UnsequencedData_codec + c_size c) (length buf)) as [Hl|]; [|done].
  change (c_size UnsequencedData_codec) with 3%nat in *. unfold splice. by destruct buf; [simpl in Hl; lia|].
Qed.

Lemma sendEnterOrder_writes (a : BistMarketAccessor) (ob : Z) (sd : byte) (qty px : Z) :
  writes_one a (sendEnterOrder a ob sd qty px).
Proof.
  unfold sendEnterOrder. destruct (nextToken _) as [om t]. apply writes_one_bind. intros buf Hb%update_struct_nonempty.
  apply writes_one_buffer; by destruct a.
Qed.

Lemma sendReplaceOrder_writes (a : BistMarketAccessor) (t : token) (px : Z) : writes_one a (sendReplaceOrder a t px).
Proof.
  unfold sendReplaceOrder. destruct (nextToken _) as [om r]. apply writes_one_bind. intros buf Hb%update_struct_nonempty.
  apply writes_one_buffer; by destruct a.
Qed.

Lemma sendCancelOrder_writes (a : BistMarketAccessor) (t : token) : writes_one a (sendCancelOrder a t).
Proof.
  unfold sendCancelOrder. apply writes_one_bind. intros buf Hb%update_struct_nonempty.
  apply writes_one_buffer; by destruct a.
Qed.

Lemma writes_one_from (a a' : BistMarketAccessor) (o : outcome BistMarketAccessor) :
  written a' = written a → writes_one a' o → writes_one a o.
Proof. unfold writes_one. by intros ->. Qed.

Lemma handleMessage_writes (slack : nat) (a : BistMarketAccessor) (data : list byte) (len : Z) :
  writes_one a (handleMessage slack a data len).
Proof.
  assert (Hom : ∀ om, written (set_orderManager a om) = written a) by (by destruct a).
  unfold handleMessage. apply writes_one_bind. intros sd _. destruct (is_type _ _).
  - unfold handleSequencedData. apply writes_one_bind. intros tag _.
    repeat (destruct (is_type _ _); [apply writes_one_bind; intros m _|]); try by apply writes_one_none.
    + by eapply writes_one_from, sendReplaceOrder_writes.
    + apply sendCancelOrder_writes.
  - repeat (destruct (is_type _ _); [|]); try by apply writes_one_none.
    + by apply writes_one_buffer.
    + apply writes_one_bind. intros la _. unfold onLoginAccepted. case_match.
      * eapply writes_one_from, sendEnterOrder_writes. by destruct a.
      * apply writes_one_none. by destruct a.
    + apply writes_one_bind. intros lr _. by apply writes_one_none.
Qed.

#[export] Program Instance accessor_writing `{Platform} : WritingHandler BistMarketAccessor := {| outputs := written |}.
Next Obligation.
  intros P a data len a' Hh. destruct (handleMessage_writes struct_slack a data len a' Hh) as (new & Hw & _ & Hn). by exists new.
Qed.

(** ** Properties *)

(** C16. The client's read loop as a program that calls the kernel, at any point and for any
    answers: it uses its stop flag and its socket only; the data of its reads are non-empty
    chunks, and the client is exactly what the read loop of TcpClient.v makes of these
    chunks, or fails as that one does; what it has written is a part of every buffer the
    handler has written for them, all of it in order if no write failed, and whole buffers
    if the kernel took every buffer whole.  Its fuel is not used up before as many calls. *)
Theorem client_program_refines {A : Type} `{WritingHandler A} (wfuel fuel : nat) (fd : Z) (c : TcpClient A)
    (tr : trace) (q : prog (TcpClient A)) :
  follow (sys_startRead wfuel fuel fd c) tr = Some q → Forall data_ok tr →
  Forall (client_call fd) tr ∧
  (let chunks := omap read_data tr in
   Forall (λ chunk, (0 < length chunk)%nat) chunks ∧
   carries m_marketAccessor (m_marketAccessor c) (startRead (length chunks) c chunks) tr q) ∧
  ((length tr < fuel)%nat → (length tr < wfuel)%nat → q ≠ Block).
Proof.
  intros Hf Hd. destruct (follow_startRead _ _ _ _ _ _ Hf Hd) as [Hc Hat]. split; [done|]. split; [done|].
  intros Hn Hw. apply (fueled_follow (S (length tr)) _ _ _ (fueled_startRead (S (length tr)) wfuel fuel fd c ltac:(lia) ltac:(lia)) Hf).
  lia.
Qed.

(** A kernel that delivers the chunks [chunks] one by one and then ends the stream. *)
Definition streaming (chunks : list (list byte)) : kernel := λ tr call,
  match call with
  | Sys_read _ n =>
      let bs := take n (default [] (chunks !! length (omap read_data tr))) in
      Build_answer (Z.of_nat (length bs)) EAGAIN bs []
  | Sys_write _ bs => Build_answer (Z.of_nat (length bs)) EAGAIN [] []
  | Sys_stopRequested => Build_answer 0 EAGAIN [] []
  | _ => Build_answer (-1) EOTHER [] []
  end.

Lemma streaming_ok (chunks : list (list byte)) (h : gset Z) : kernel_ok h (streaming chunks).
Proof.
  intros tr call. split; [destruct call; simpl; auto; discriminate|].
  destruct call; simpl; try done; try lia. intros _. rewrite length_take. lia.
Qed.

(** On a platform with room behind the structs. *)
#[local] Existing Instance padded_platform.

Abbreviation sample_read :=
  (run (streaming sample_session_chunks) [] (sys_startRead 20 20 3 (TcpClient_new sample_accessor))).

(** Two chunks and the end of the stream: the session of TcpClient.v. *)
Lemma client_program_refines_witness :
  ∃ q, sample_read.1 = result q ∧ is_Some (result q) ∧ omap read_data sample_read.2 = sample_session_chunks ∧
    carries m_marketAccessor sample_accessor (startRead 2 (TcpClient_new sample_accessor) sample_session_chunks)
      sample_read.2 q.
Proof.
  destruct (run_follow {[3]} (streaming sample_session_chunks) (sys_startRead 20 20 3 (TcpClient_new sample_accessor)) []
    (streaming_ok _ _)) as (tr & q & Hrun & Hf & Hd & _). rewrite app_nil_l in Hrun.
  assert (Hdata : omap read_data sample_read.2 = sample_session_chunks) by (vm_compute; reflexivity).
  assert (Hs : is_Some sample_read.1) by (apply (bool_decide_unpack _); vm_compute; exact I).
  revert Hdata Hs. rewrite Hrun. cbn [fst snd]. intros Hdata Hs. exists q. split; [reflexivity|]. split; [exact Hs|].
  destruct (client_program_refines 20 20 3 (TcpClient_new sample_accessor) tr q Hf Hd) as (_ & [_ Hc] & _).
  rewrite Hdata in Hc. split; [exact Hdata | exact Hc].
Defined.

(** The same of a run against a kernel. *)
Lemma client_reads_refine {A : Type} `{WritingHandler A} (h : gset Z) (K : kernel) (wfuel fuel : nat) (fd : Z)
    (c : TcpClient A) (r : option (outcome (TcpClient A))) (tr : trace) :
  kernel_ok h K → run K [] (sys_startRead wfuel fuel fd c) = (r, tr) →
  Forall (client_call fd) tr ∧
  let chunks := omap read_data tr in
  Forall (λ chunk, (0 < length chunk)%nat) chunks ∧
  match r with
  | Some o => startRead (length chunks) c chunks = o
  | None => (fuel ≤ length tr ∨ wfuel ≤ length tr)%nat
  end.
Proof.
  intros HK Hr. destruct (run_follow h K (sys_startRead wfuel fuel fd c) [] HK) as (tr' & q & Hrun & Hf & Hd & Hb).
  rewrite Hr, app_nil_l in Hrun. injection Hrun as -> ->.
  destruct (follow_startRead _ _ _ _ _ _ Hf Hd) as (Hc & Hne & outs & _ & _ & Hres). split; [done|]. split; [done|].
  destruct (result q) as [o|] eqn:Hq; [by destruct Hres as [<- _]|].
  destruct (decide (length tr' < fuel ∧ length tr' < wfuel)%nat) as [[H1 H2]|]; [|lia].
  destruct (fueled_follow (S (length tr')) _ _ _ (fueled_startRead (S (length tr')) wfuel fuel fd c ltac:(lia) ltac:(lia)) Hf); [lia|].
  by apply Hb.
Qed.

(** A signal ends the session: [::read] interrupted by one fails with EINTR, which the write
    loop survives but the read loop takes for the end, with the connection still open. *)
Theorem signal_ends_reading {A : Type} `{WritingHandler A} (wfuel fuel : nat) (fd : Z) (c : TcpClient A)
    (stop interrupted : answer) (n : nat) :
  a_res stop = 0 → a_res interrupted = -1 → a_errno interrupted = EINTR → n = (BUFFER_SIZE - m_dataSize c)%nat →
  follow (sys_startRead wfuel (S fuel) fd c) [(Sys_stopRequested, stop); (Sys_read fd n, interrupted)] = Some (mret c).
Proof.
  intros Hst Hr _ ->. cbn [sys_startRead follow call mbind prog_bind mret prog_ret]. rewrite decide_True by done.
  rewrite Hst. change (negb (0 =? 0)) with false. cbv iota.
  unfold sys_readFromSocket, TcpSocket_read. cbn [call mbind prog_bind mret prog_ret].
  rewrite decide_True, Hr by done. cbn. by rewrite client_eta.
Qed.
