(* ===== verification/TradingClient.v ===== *)
(** * The trading client

    The life of a [BistMarketAccessor] as system calls: its constructor connects and starts
    the thread that reads, its owner logs in, its destructor logs out and waits for the
    thread (lib/client/order_entry_client.cpp); and apps/trading_client.cpp, which
    constructs one, logs in, and then spins.  The owner and the reading thread run
    interleaved, against one kernel.

    The login request is made of members that the thread only writes once a login has been
    accepted; a server that accepts before it is asked would make this a data race.
    [std::thread] is assumed to start the thread; the owner's requests other than login and
    logout are OrderEntryClient.v. *)
From S2P Require Import Prelude Bytes Digits Codec Types OuchMessages SessionMessages ConfigParser OrderManager OrderEntryClient.
From S2P Require Import TcpClient Syscalls Interleaving SocketCalls Sockets ClientCalls.
Local Open Scope Z_scope.

Section platform.
Context `{P : Platform}.

(** ** Operations *)

(** The constructor, up to the start of the thread: the socket's descriptor and the rest. *)
Definition sys_accessor_new (partition : OrderEntryPartitionConfig) (client_account exchange_info : list byte)
    (last_order_token_index : Z) : prog (Z * BistMarketAccessor) :=
  fd ← TcpSocket_new (oec_ip partition) (oec_port partition);
  a ← Stop (BistMarketAccessor_new partition client_account exchange_info last_order_token_index);
  mret (fd, a).

Definition sys_login (wfuel : nat) (fd : Z) (a : BistMarketAccessor) : prog unit :=
  write_calls TcpSocket_retry wfuel fd (toByteArray LoginRequest_codec (login_request a)).

Definition sys_logout (wfuel : nat) (fd : Z) : prog unit :=
  write_calls TcpSocket_retry wfuel fd (toByteArray LogoutRequest_codec logout_request).

(** The owner, and the thread [[this]() { m_tcpClient.startRead(); }]. *)
Definition client_threads (wfuel fuel : nat) (fd : Z) (a : BistMarketAccessor) :
    threads unit (TcpClient BistMarketAccessor) :=
  Build_threads (sys_login wfuel fd a) (sys_startRead wfuel fuel fd (TcpClient_new a)) [].

(** [main] until it spins. *)
Definition trading_client (K : kernel) (wfuel fuel : nat) (schedule : list thread) :
    option (threads unit (TcpClient BistMarketAccessor)) :=
  match run K [] (sys_accessor_new sample_config sample_client_account sample_exchange_info 1) with
  | (Some (Ret (fd, a)), tr) => Some (interleave K tr (client_threads wfuel fuel fd a) schedule)
  | _ => None
  end.

(** The destructor while the thread has [reader] left to do: log out, join, and, when the
    thread has returned, close the socket.  [None]: it is still waiting, or a failure in the
    thread has ended the process. *)
Definition accessor_delete (K : kernel) (tr : trace) (wfuel : nat) (fd : Z)
    (reader : prog (TcpClient BistMarketAccessor)) (schedule : list thread) : option trace :=
  let t := interleave K tr (Build_threads (sys_logout wfuel fd) reader []) schedule in
  match result (t_owner t), result (t_reader t) with
  | Some _, Some (Ret _) => Some (run K (tr ++ (snd <$> t_calls t)) (TcpSocket_delete fd)).2
  | _, _ => None
  end.

(** ** A server at the other end *)

(** The kernel takes what is written, every buffer whole, and hands out the bytes of
    [stream] in pieces of its choice, then its end; a piece leaves room in the client's
    buffer for a part of a packet and for what is copied too much of a response
    ([LONGEST_READ]).  Nobody sets the flag that stops the reader. *)
Record peer (K : kernel) (fd : Z) (stream : list byte) : Prop := {
  peer_read tr n rest : stream = concat (omap read_data tr) ++ rest →
    let r := K tr (Sys_read fd n) in
    ((0 < n)%nat → a_res r ≤ 0 → rest = []) ∧
    (0 < a_res r → a_data r `prefix_of` rest ∧ (length (a_data r) ≤ LONGEST_READ)%nat);
  peer_stop tr : a_res (K tr Sys_stopRequested) = 0;
  peer_write tr bs : a_res (K tr (Sys_write fd bs)) = Z.of_nat (length bs);
}.

(** ** The reader's chunks *)

Lemma reads_of_parts (tg : tagged) :
  Forall (λ ca, read_data ca = None) (part Owner tg) →
  omap read_data (snd <$> tg) = omap read_data (part Reader tg).
Proof.
  unfold part. induction tg as [|[[] ca] tg IH]; intros Hf; [done| |]; rewrite !filter_cons in *; cbn [fst] in *.
  - rewrite decide_True in Hf by done. rewrite decide_False by done.
    apply Forall_cons in Hf as [Hca Hf]. cbn [snd] in Hca. rewrite fmap_cons. cbn [omap list_omap snd]. rewrite Hca. by apply IH.
  - rewrite decide_False in Hf by done. rewrite decide_True, !fmap_cons by done. cbn [omap list_omap snd].
    destruct (read_data ca); [f_equal|]; by apply IH.
Qed.

Lemma read_data_none_app (tr tr' : trace) :
  Forall (λ ca, read_data ca = None) tr → omap read_data (tr ++ tr') = omap read_data tr'.
Proof. rewrite omap_app. induction 1 as [|ca tr Hca _ IH]; [done|]. cbn [omap list_omap]. by rewrite Hca. Qed.

(** What a thread reads of a peer's stream. *)
Definition fed (stream : list byte) (fd : Z) (tr : trace) : Prop :=
  ∀ tr1 n r tr2 rest, tr = tr1 ++ (Sys_read fd n, r) :: tr2 → stream = concat (omap read_data tr1) ++ rest →
    ((0 < n)%nat → a_res r ≤ 0 → rest = []) ∧
    (0 < a_res r → a_data r `prefix_of` rest ∧ (length (a_data r) ≤ LONGEST_READ)%nat).

Lemma fed_chunks (stream : list byte) (fd : Z) (tr : trace) :
  fed stream fd tr → Forall (client_call fd) tr →
  (∃ rest, stream = concat (omap read_data tr) ++ rest) ∧
  Forall (λ ch, (length ch ≤ LONGEST_READ)%nat) (omap read_data tr).
Proof.
  intros Hfed Hc. induction tr as [|[c r] tr IH] using rev_ind; [by split; [exists stream|constructor]|].
  apply Forall_app in Hc as [Hc [Hone _]%Forall_cons].
  destruct IH as [[rest Hrest] Hsmall]; [|done|].
  { intros tr1 n r' tr2 rest Heq. apply (Hfed tr1 n r' (tr2 ++ [(c, r)])). by rewrite Heq, <- (assoc_L (++)). }
  rewrite omap_app, concat_app. destruct Hone as [Hs|[[n Hn]|[bs Hb]]]; cbn [fst] in *; subst c;
    [cbn; rewrite !app_nil_r; eauto| |cbn; rewrite !app_nil_r; eauto].
  destruct (Hfed tr n r [] rest eq_refl Hrest) as [_ Hdata]. cbn [omap list_omap read_data fst snd].
  destruct (Z.ltb_spec 0 (a_res r)) as [Hpos|]; [|rewrite !app_nil_r; eauto].
  destruct (Hdata Hpos) as [[rest' ->] Hl]. split; [|by apply Forall_app_2; [|constructor]].
  exists rest'. cbn [concat]. by rewrite app_nil_r, Hrest, (assoc_L (++)).
Qed.

Lemma part_app (who : thread) (tg1 tg2 : tagged) : part who (tg1 ++ tg2) = part who tg1 ++ part who tg2.
Proof. unfold part. by rewrite filter_app, fmap_app. Qed.

Lemma reader_fed (K : kernel) (fd : Z) (stream : list byte) (tr0 : trace) (tg : tagged) :
  peer K fd stream → answered K tr0 (snd <$> tg) → Forall (λ ca, read_data ca = None) (part Owner tg) →
  Forall (λ ca, read_data ca = None) tr0 → fed stream fd (part Reader tg).
Proof.
  intros Hp Ha Ho H0 tr1 n r tr2 rest Heq Hs. destruct (part_split Reader tg tr1 tr2 _ Heq) as (tg1 & tg2 & -> & <-).
  rewrite part_app in Ho. apply Forall_app in Ho as [Ho _].
  rewrite fmap_app, fmap_cons in Ha. rewrite (Ha (snd <$> tg1) (Sys_read fd n) r (snd <$> tg2)) by done.
  apply (peer_read _ _ _ Hp). by rewrite read_data_none_app, reads_of_parts.
Qed.

(** ** The client, part of the way *)

Lemma effect_writes (a : BistMarketAccessor) (sp : server_packet) : writes_one a (effect a sp).
Proof.
  assert (Hom : ∀ om, written (set_orderManager a om) = written a) by (by destruct a).
  destruct sp; cbn [effect]; try by apply writes_one_none.
  - by apply writes_one_buffer.
  - unfold onLoginAccepted. case_match.
    + eapply writes_one_from, sendEnterOrder_writes. by destruct a.
    + apply writes_one_none. by destruct a.
  - by eapply writes_one_from, sendReplaceOrder_writes.
  - apply sendCancelOrder_writes.
Qed.

Lemma react_writes (a : BistMarketAccessor) (sp : server_packet) : writes_one a (react a sp).
Proof. unfold react. destruct (_ && _); [done | apply effect_writes]. Qed.

Lemma fold_react_writes (sps : list server_packet) (a a' : BistMarketAccessor) :
  fold_outcome react a sps = Ret a' → (length (written a') ≤ length (written a) + length sps)%nat.
Proof.
  revert a. induction sps as [|sp sps IH]; intros a Hf; cbn [fold_outcome] in Hf; [injection Hf as <-; simpl; lia|].
  apply bind_ret_inv in Hf as (a1 & H1 & Hf). apply IH in Hf.
  destruct (react_writes a sp a1 H1) as (new & Hw & Hl & _). rewrite Hw, length_app in Hf. simpl. lia.
Qed.

(** After a part of the stream: whole packets have been reacted to, and there is room. *)
Lemma session_prefix (a a' : BistMarketAccessor) (sps : list server_packet) (chunks : list (list byte)) (rest : list byte) :
  Forall (λ sp, server_packet_ok sp = true) sps → fold_outcome react a sps = Ret a' →
  session_stream sps = concat chunks ++ rest → pieces chunks →
  ∃ c' n, startRead (length chunks) (TcpClient_new a) chunks = Ret c' ∧ (m_dataSize c' ≤ LONGEST_PACKET)%nat ∧
    (n ≤ length sps)%nat ∧ fold_outcome react a (take n sps) = Ret (m_marketAccessor c') ∧
    (rest = [] → m_marketAccessor c' = a' ∧ m_dataSize c' = 0%nat).
Proof.
  intros Hok Hf Heq Hch. destruct (pieces_readable (length chunks) chunks Hch ltac:(done)) as [Hne Hrd].
  assert (HM : (LONGEST_PACKET ≤ BUFFER_SIZE)%nat) by (unfold LONGEST_PACKET, BUFFER_SIZE; lia).
  assert (Hlen : Forall (λ p, (length (packet p) ≤ LONGEST_PACKET)%nat) (payload_of <$> sps)).
  { apply Forall_fmap. eapply Forall_impl; [exact Hok|]. apply server_packet_length. }
  assert (Hsmall : Forall (λ p, Z.of_nat (length p) + 2 < 2 ^ 16) (payload_of <$> sps)).
  { eapply Forall_impl; [exact Hlen|]. intros p Hp. cbv beta in Hp. rewrite packet_length in Hp.
    unfold LONGEST_PACKET in Hp. lia. }
  destruct (split_prefix (payload_of <$> sps) [] (concat chunks) rest Hsmall) as (ps1 & ps2 & t & Hps & Hd & Ht & Hrest);
    [left; simpl; lia | by rewrite app_nil_r, <- list_fmap_compose|].
  assert (Hn : ∃ n, (n ≤ length sps)%nat ∧ ps1 = payload_of <$> take n sps ∧ ps2 = payload_of <$> drop n sps).
  { exists (length ps1). pose proof (f_equal length Hps) as Hl. rewrite length_app, length_fmap in Hl.
    rewrite fmap_take, fmap_drop, Hps, take_app_length, drop_app_length. split; [lia | done]. }
  destruct Hn as (n & Hn & -> & ->). rewrite <- (take_drop n sps), fold_outcome_app in Hf.
  apply bind_ret_inv in Hf as (a1 & Hf1 & Hf2). rewrite Hps in Hlen. apply Forall_app in Hlen as [Hlen1 Hlen2].
  destruct (fold_react (take n sps) a) as [Hfr Hp]; [by apply Forall_take|].
  destruct (incomplete_short LONGEST_PACKET _ [] t rest Ht Hrest HM Hlen2) as [Htl _]; [simpl; lia|].
  pose proof (startRead_stream LONGEST_PACKET chunks (payload_of <$> take n sps) [] t (TcpClient_new a) a (length chunks)
    (TcpClient_new_holds a) ltac:(left; simpl; lia) Hd Ht HM Hlen1 Htl Hne Hrd Hp) as Hs.
  rewrite Hfr, Hf1 in Hs. destruct (startRead _ _ _) as [c'| | |] eqn:Hr; try done. destruct Hs as [_ _ Hs Ha].
  exists c', n. rewrite Ha, Hs. split_and!; [done..|].
  intros ->. rewrite !app_nil_r in Hrest.
  destruct (drop n sps) as [|sp sps'] eqn:Hdr; [simpl in Hf2, Hrest; by simplify_eq|]. exfalso.
  assert (payload_of <$> sp :: sps' = []) as [=]. apply (incomplete_no_packet _ []); [|by rewrite app_nil_r, <- Hrest].
  rewrite <- (take_drop n sps), fmap_app, Forall_app, Hdr in Hsmall. apply Hsmall.
Qed.

(** ** The whole client *)

Lemma TcpSocket_new_no_reads (host : list byte) (port fd : Z) (tr : trace) :
  follow (TcpSocket_new host port) tr = Some (mret fd) → Forall (λ ca, read_data ca = None) tr.
Proof.
  unfold TcpSocket_new. intros [[-> Hq]|(a & tr1 & -> & Hf)]%follow_call; [done|].
  constructor; [done|]. cbv zeta in Hf. destruct (a_res a <? 0); [by apply follow_stop in Hf as [-> _]|].
  apply follow_call in Hf as [[-> Hq]|(b & tr2 & -> & Hf)]; [done|]. constructor; [done|].
  destruct (a_res b <=? 0).
  { apply follow_call in Hf as [[-> Hq]|(d & tr3 & -> & Hf)]; [done|]. constructor; [done|].
    by apply follow_stop in Hf as [-> _]. }
  apply follow_call in Hf as [[-> Hq]|(d & tr3 & -> & Hf)]; [done|]. constructor; [done|].
  destruct (a_res d <? 0); [|by apply follow_stop in Hf as [-> _]].
  apply follow_call in Hf as [[-> Hq]|(e & tr4 & -> & Hf)]; [done|]. constructor; [done|].
  by apply follow_stop in Hf as [-> _].
Qed.

(** The constructor reads nothing; its object is that of OrderEntryClient.v. *)
Lemma sys_accessor_new_run (h : gset Z) (K : kernel) (cfg : OrderEntryPartitionConfig) (ca ei : list byte) (last fd : Z)
    (a : BistMarketAccessor) (tr : trace) :
  kernel_ok h K → run K [] (sys_accessor_new cfg ca ei last) = (Some (Ret (fd, a)), tr) →
  Forall (λ ca, read_data ca = None) tr ∧ BistMarketAccessor_new cfg ca ei last = Ret a.
Proof.
  intros HK Hr. destruct (run_follow h K (sys_accessor_new cfg ca ei last) [] HK) as (tr' & q & Hrun & Hf & _ & _).
  rewrite Hr, app_nil_l in Hrun. injection Hrun as Hq <-. symmetry in Hq. apply result_ret in Hq as ->.
  unfold sys_accessor_new in Hf.
  apply follow_bind in Hf as [(fd' & tr1 & tr2 & -> & Hp & Hf)|(p & _ & Hq & Hne)].
  - destruct (BistMarketAccessor_new cfg ca ei last) as [a0| | |]; apply follow_stop in Hf as [-> Hq]; try done.
    injection Hq as -> ->. rewrite app_nil_r. split; [|done]. by apply TcpSocket_new_no_reads in Hp.
  - destruct p as [[x| | |]| |]; try done. by destruct (Hne x).
Qed.

Lemma sent_by_whole (tr : trace) : whole_writes tr → sent_by tr = concat (frames tr).
Proof.
  induction 1 as [|[[] r] tr Ha _ IH]; try done; try exact IH.
  cbn [fst snd] in Ha. unfold sent_by. cbn [mbind list_bind fst snd]. fold (sent_by tr).
  change (frames ((Sys_write fd buffer, r) :: tr)) with (buffer :: frames tr). cbn [concat].
  by rewrite Ha, Nat2Z.id, firstn_all, IH.
Qed.

(** The reader, when it has had more turns than the peer leaves it calls to make. *)
Definition reader_calls (stream : list byte) (sps : list server_packet) : nat := 2 * S (length stream) + length sps.

Section session.
Context (fd : Z) (a a' : BistMarketAccessor) (sps : list server_packet).
Context (Hok : Forall (λ sp, server_packet_ok sp = true) sps) (Hreact : fold_outcome react a sps = Ret a').
Context (Hnew : written a = []).

(** The reader at any point: how many calls it has made, and how it has ended. *)
Lemma reader_at (wfuel fuel : nat) (tr : trace) q :
  follow (sys_startRead wfuel fuel fd (TcpClient_new a)) tr = Some q → Forall data_ok tr →
  fed (session_stream sps) fd tr → whole_writes tr → Forall (λ ca, ca.1 = Sys_stopRequested → a_res ca.2 = 0) tr →
  (length tr ≤ reader_calls (session_stream sps) sps)%nat ∧
  ∀ o, result q = Some o → ∃ c', o = Ret c' ∧ m_marketAccessor c' = a' ∧ m_dataSize c' = 0%nat ∧ frames tr = written a'.
Proof.
  intros Hf Hd Hfed Hw Hstop. destruct (follow_startRead _ _ _ _ _ _ Hf Hd) as (Hc & Hne & outs & Hs & Hn & Hres).
  destruct (startRead_shape _ _ _ _ _ _ Hf Hd) as [Hcalls Hend].
  destruct (fed_chunks _ _ _ Hfed Hc) as [[rest Hrest] Hsmall]. set (chunks := omap read_data tr) in *.
  assert (Hch : pieces chunks) by (apply Forall_and; split; done).
  destruct (session_prefix a a' sps chunks rest Hok Hreact Hrest Hch)
    as (c1 & n & Hstart & Hroom & Hle & Hfold & Hall).
  pose proof (fold_react_writes _ _ _ Hfold) as Hcount. rewrite Hnew, length_take in Hcount. cbn [length] in Hcount.
  cbn [m_marketAccessor TcpClient_new] in Hres. change (@outputs BistMarketAccessor _ _) with written in Hres.
  rewrite Hnew in Hres. cbn [app] in Hres. rewrite Hstart in Hres.
  assert (Hfr : (length (frames tr) ≤ length sps)%nat).
  { pose proof (prefix_length _ _ (sends_frames _ _ _ Hs Hw Hn)) as Hfl.
    destruct (result q) as [o|]; [destruct Hres as [-> Ho]; specialize (Ho c1 eq_refl); rewrite Ho in Hcount; lia|].
    pose proof (prefix_length _ _ (Hres c1 eq_refl)). lia. }
  split.
  { pose proof (length_concat_nonempty chunks Hne). apply (f_equal length) in Hrest. rewrite length_app in Hrest.
    unfold reader_calls. fold chunks in Hcalls. lia. }
  intros o Ho. rewrite Ho in Hres. destruct Hres as [-> Houts]. exists c1. split; [done|].
  assert (rest = []) as ->.
  { apply result_ret in Ho. destruct (Hend c1 Ho) as (tr' & r & [[Hnz ->]|[Hle0 ->]]).
    - apply Forall_app in Hstop as [_ [Hst _]%Forall_cons]. by destruct (Hnz (Hst eq_refl)).
    - unfold chunks in Hrest. rewrite omap_app in Hrest. cbn [omap list_omap read_data fst snd] in Hrest.
      rewrite (proj2 (Z.ltb_ge 0 _)), app_nil_r in Hrest by done.
      apply (Hfed tr' _ r [] rest eq_refl Hrest); [unfold LONGEST_PACKET, BUFFER_SIZE in *; lia | done]. }
  destruct (Hall eq_refl) as [Ha' ->]. split_and!; [done..|].
  rewrite (sends_all_frames _ _ _ Hs Hw Hn); [by rewrite <- Ha', (Houts c1 eq_refl)|]. unfold ended. by rewrite Ho.
Qed.
End session.

Lemma fmap_ret_inv {A B} (f : A → B) (o : outcome A) (b : B) : f <$> o = Ret b → ∃ a, o = Ret a ∧ b = f a.
Proof. destruct o as [a| | |]; intros [= <-]. by exists a. Qed.

Lemma BistMarketAccessor_new_written (cfg : OrderEntryPartitionConfig) (ca ei : list byte) (last : Z) (a : BistMarketAccessor) :
  BistMarketAccessor_new cfg ca ei last = Ret a → written a = [].
Proof.
  unfold BistMarketAccessor_new, prepareEnterOrderBuffer, prepareReplaceOrderBuffer, prepareCancelOrderBuffer.
  intros (a1 & (info & _ & (b1 & _ & ->)%fmap_ret_inv)%bind_ret_inv & (a2 & (b2 & _ & ->)%fmap_ret_inv &
    (b3 & _ & ->)%fmap_ret_inv)%bind_ret_inv)%bind_ret_inv. done.
Qed.

Lemma login_bytes_nonempty (a : BistMarketAccessor) : toByteArray LoginRequest_codec (login_request a) ≠ [].
Proof.
  pose proof (enc_length _ (login_request_ok a)) as Hl. unfold toByteArray. intros Heq. by rewrite Heq in Hl.
Qed.

(** One turn is enough for the owner's request. *)
Lemma owner_at (wfuel : nat) (fd : Z) (buffer : list byte) (tr : trace) q (n : nat) :
  follow (write_calls TcpSocket_retry wfuel fd buffer) tr = Some q → Forall data_ok tr → whole_writes tr →
  buffer ≠ [] → (1 ≤ wfuel)%nat → (1 ≤ n)%nat → (∀ c k, q = Call c k → length tr = n) →
  writes_to fd tr ∧ frames tr = [buffer] ∧ q = mret tt.
Proof.
  intros Hf Hd Hw Hb H1 Hn Hq. destruct (follow_write_calls _ _ _ _ _ Hf Hd) as (Ht & _). split; [done|].
  destruct (follow_write_frames _ _ _ _ _ Hf Hw Hb) as [?|[Hnil Hnone]]; [done|]. exfalso.
  pose proof (writes_frames fd tr Ht) as Hl. rewrite Hnil in Hl. cbn [length] in Hl.
  pose proof (fueled_follow 1 _ _ _ (fueled_write_calls 1 wfuel fd buffer H1) Hf ltac:(lia)) as Hblock.
  destruct q as [| |c k]; [done..|]. specialize (Hq c k eq_refl). lia.
Qed.

Lemma answered_forall (K : kernel) (tr l : trace) (Q : syscall * answer → Prop) :
  answered K tr l → (∀ l1 c, (∃ r, (c, r) ∈ l) → Q (c, K l1 c)) → Forall Q l.
Proof.
  intros Ha HQ. apply Forall_forall. intros [c r] Hin. destruct (list_elem_of_split _ _ Hin) as (l1 & l2 & Heq).
  rewrite (Ha l1 c r l2 Heq). apply HQ. by exists r.
Qed.

(** What a run of the two threads against a peer is like, whatever the schedule. *)
Lemma threads_against_peer (h : gset Z) (K : kernel) (wfuel fuel : nat) (fd : Z) (a : BistMarketAccessor)
    (buffer stream : list byte) (tr0 : trace) (schedule : list thread) :
  kernel_ok h K → Forall (λ ca, read_data ca = None) tr0 → peer K fd stream →
  buffer ≠ [] → (1 ≤ wfuel)%nat → (1 ≤ turns Owner schedule)%nat →
  let t := interleave K tr0 (Build_threads (write_calls TcpSocket_retry wfuel fd buffer)
             (sys_startRead wfuel fuel fd (TcpClient_new a)) []) schedule in
  let calls := snd <$> t_calls t in
  let reads := part Reader (t_calls t) in
  t_owner t = mret tt ∧ frames (part Owner (t_calls t)) = [buffer] ∧
  Forall (client_call fd) calls ∧ whole_writes calls ∧
  Forall data_ok reads ∧ fed stream fd reads ∧ whole_writes reads ∧
  Forall (λ ca, ca.1 = Sys_stopRequested → a_res ca.2 = 0) reads.
Proof.
  intros HK H0 Hp Hb H1 Hown t calls reads.
  destruct (interleave_follow K tr0 (write_calls TcpSocket_retry wfuel fd buffer)
    (sys_startRead wfuel fuel fd (TcpClient_new a)) schedule) as [Ho Hr]. fold t in Ho, Hr.
  destruct (interleave_turns K tr0 (write_calls TcpSocket_retry wfuel fd buffer)
    (sys_startRead wfuel fuel fd (TcpClient_new a)) schedule) as [Hto _]. fold t in Hto.
  pose proof (parts_shuffle (t_calls t)) as Hsh.
  assert (Hd : Forall data_ok calls) by (apply (interleave_answers h K); [done | constructor]).
  pose proof (interleave_answered K tr0 _ _ schedule : answered K tr0 calls) as Ha.
  destruct (shuffle_Forall _ _ _ _ Hsh Hd) as [Hdo Hdr].
  assert (Hlim : Forall (λ ca, ∀ bs, ca.1 = Sys_write fd bs → a_res ca.2 = Z.of_nat (length bs)) calls).
  { apply (answered_forall K tr0); [done|]. intros l c _ bs Hc. cbn in Hc. subst c. apply (peer_write _ _ _ Hp). }
  destruct (shuffle_Forall _ _ _ _ Hsh Hlim) as [Hlo Hlr].
  assert (Hwo : whole_writes (part Owner (t_calls t))).
  { destruct (follow_write_calls _ _ _ _ _ Ho Hdo) as [Ht _]. eapply Forall_impl; [apply Forall_and; split; [exact Ht|exact Hlo]|].
    intros [c r] [[bs Hc] Hl]. cbn [fst snd] in *. subst c. by apply Hl. }
  destruct (follow_startRead _ _ _ _ _ _ Hr Hdr) as [Hcr _].
  assert (Hwr : whole_writes reads).
  { eapply Forall_impl; [apply Forall_and; split; [exact Hcr|exact Hlr]|].
    intros [c r] [[Hc|[[n Hc]|[bs Hc]]] Hl]; cbn [fst snd] in *; subst c; [done..|by apply Hl]. }
  destruct (owner_at wfuel fd buffer _ _ (turns Owner schedule) Ho Hdo Hwo Hb H1 Hown Hto) as (Hwt & Hfr & Hq).
  split; [done|]. split; [done|]. destruct (writes_client fd _ Hwt) as [Hco Hno].
  split; [by apply (shuffle_Forall_2 _ _ _ _ Hsh)|]. split; [by apply (shuffle_Forall_2 _ _ _ _ Hsh)|].
  split; [done|]. split; [|split; [done|]].
  - apply (reader_fed K fd stream tr0); [done..| |done]. eapply Forall_impl; [exact Hwt|].
    intros [c r] [bs Hc]. cbn [fst] in Hc. by subst c.
  - assert (Hs : Forall (λ ca, ca.1 = Sys_stopRequested → a_res ca.2 = 0) calls).
    { apply (answered_forall K tr0); [done|]. intros l c _ Hc. cbn in Hc. subst c. apply (peer_stop _ _ _ Hp). }
    by destruct (shuffle_Forall _ _ _ _ Hsh Hs).
Qed.

(** ** Properties *)

(** C6. The trading client's whole life against a server, for every interleaving of its two
    threads and every kernel that connects, takes each buffer whole, never sets the stop
    flag and hands out the server's packets as a stream of bytes in pieces of any size up
    to [LONGEST_READ] (3,946 bytes: with more in one read, the copy of a response could
    read past the client's buffer).  If the reactions of the accessor to these packets are
    defined, on a platform that tolerates [struct_slack] bytes written behind a local
    struct (none by the letter of C++, which leaves sessions of logins, heartbeats and ends
    of session; two for OUCH responses), then once the owner has had a turn and the reader
    as many as the stream can keep it busy, the owner has logged in, the reader has
    returned, its accessor has reacted to exactly the packets of the server in order, with
    nothing left over, and the wire carries the login request and the reactions in whole
    frames, in some order that keeps the reactions in theirs. *)
Theorem client_session (h : gset Z) (K : kernel) (cfg : OrderEntryPartitionConfig) (ca ei : list byte) (last fd : Z)
    (a a' : BistMarketAccessor) (tr0 : trace) (sps : list server_packet) (wfuel fuel : nat) (schedule : list thread) :
  kernel_ok h K → run K [] (sys_accessor_new cfg ca ei last) = (Some (Ret (fd, a)), tr0) →
  peer K fd (session_stream sps) → Forall (λ sp, server_packet_ok sp = true) sps →
  fold_outcome react a sps = Ret a' →
  let calls_left := reader_calls (session_stream sps) sps in
  (calls_left < turns Reader schedule)%nat → (1 ≤ turns Owner schedule)%nat →
  (calls_left < fuel)%nat → (calls_left < wfuel)%nat →
  let t := interleave K tr0 (client_threads wfuel fuel fd a) schedule in
  let calls := snd <$> t_calls t in
  t_owner t = mret tt ∧
  (∃ c', t_reader t = mret c' ∧ m_marketAccessor c' = a' ∧ m_dataSize c' = 0%nat) ∧
  Forall (client_call fd) calls ∧
  shuffle [toByteArray LoginRequest_codec (login_request a)] (written a') (frames calls) ∧
  sent_by calls = concat (frames calls).
Proof.
  intros HK Hrun Hp Hok Hreact N Hturns Hown Hfuel Hwfuel t calls.
  destruct (sys_accessor_new_run h K cfg ca ei last fd a tr0 HK Hrun) as [H0 Hnew].
  apply BistMarketAccessor_new_written in Hnew.
  destruct (threads_against_peer h K wfuel fuel fd a (toByteArray LoginRequest_codec (login_request a)) _ tr0 schedule
    HK H0 Hp (login_bytes_nonempty a)) as (Ho & Hfo & Hc & Hw & Hdr & Hfed & Hwr & Hst); [lia|done|].
  destruct (interleave_follow K tr0 (sys_login wfuel fd a) (sys_startRead wfuel fuel fd (TcpClient_new a)) schedule)
    as [_ Hr].
  destruct (interleave_turns K tr0 (sys_login wfuel fd a) (sys_startRead wfuel fuel fd (TcpClient_new a)) schedule)
    as [_ Htr].
  destruct (reader_at fd a a' sps Hok Hreact Hnew wfuel fuel _ _ Hr Hdr Hfed Hwr Hst) as [Hcalls Hend].
  assert (Hblock : t_reader t ≠ Block).
  { apply (fueled_follow (S N) _ _ _ (fueled_startRead (S N) wfuel fuel fd (TcpClient_new a) ltac:(lia) ltac:(lia)) Hr).
    lia. }
  assert (Hq : ∃ o, t_reader t = Stop o).
  { destruct (t_reader t) as [o| |c k] eqn:Heq; [by exists o|done|]. specialize (Htr c k Heq). unfold N in *. lia. }
  destruct Hq as [o Hq]. destruct (Hend o) as (c' & -> & Ha' & Hsize & Hfr); [exact (f_equal result Hq)|].
  split; [done|]. split; [by exists c'|]. split; [done|]. split; [|by apply sent_by_whole].
  pose proof (shuffle_omap (λ ca : syscall * answer, match ca.1 with Sys_write _ bs => Some bs | _ => None end)
    _ _ _ (parts_shuffle (t_calls t))) as Hsh.
  change (shuffle (frames (part Owner (t_calls t))) (frames (part Reader (t_calls t))) (frames calls)) in Hsh.
  change (frames (part Owner (t_calls t)) = [toByteArray LoginRequest_codec (login_request a)]) in Hfo.
  change (frames (part Reader (t_calls t)) = written a') in Hfr. by rewrite Hfo, Hfr in Hsh.
Qed.

End platform.

(** A kernel that connects everything to a server that sends [stream]. *)
Definition serving (stream : list byte) : kernel := λ tr c,
  let ans r := Build_answer r EAGAIN [] [] in
  match c with
  | Sys_read _ n =>
      let bs := take (n `min` LONGEST_READ) (drop (length (concat (omap read_data tr))) stream) in
      Build_answer (Z.of_nat (length bs)) EAGAIN bs []
  | Sys_write _ bs => ans (Z.of_nat (length bs))
  | Sys_socket _ | Sys_accept _ | Sys_epoll_create => ans (lowest_free (open_fds ∅ tr))
  | Sys_inet_pton _ => ans 1
  | Sys_recvfrom _ _ => ans (-1)
  | _ => ans 0
  end.

Lemma serving_ok (stream : list byte) : kernel_ok ∅ (serving stream).
Proof.
  intros tr c. split.
  - intros Hc. destruct c; try done; cbn [serving a_res]; unfold lowest_free;
      repeat case_decide; (by left) || (right; split; [lia | done]).
  - destruct c; cbn; try done; try lia. intros _. rewrite length_take. lia.
Qed.

Lemma serving_peer (fd : Z) (stream : list byte) : peer (serving stream) fd stream.
Proof.
  split; [|done|done]. intros tr n rest Hs. cbn [serving a_res a_data].
  assert (Hd : drop (length (concat (omap read_data tr))) stream = rest) by (by rewrite Hs at 1; rewrite drop_app_length).
  rewrite Hd. change LONGEST_READ with 3946%nat. split.
  - intros Hn Hz. rewrite length_take in Hz. destruct rest; [done|]. simpl in Hz. lia.
  - intros _. split; [|rewrite length_take; lia]. exists (drop (n `min` LONGEST_READ) rest). by rewrite take_drop.
Qed.

#[local] Existing Instance padded_platform.

Abbreviation sample_start :=
  (run (serving (session_stream sample_session_packets)) []
     (sys_accessor_new sample_config sample_client_account sample_exchange_info 1)).
Abbreviation sample_started :=
  (match sample_start.1 with Some (Ret (_, a)) => a | _ => sample_accessor end).
Abbreviation sample_reacted :=
  (match fold_outcome (@react padded_platform) sample_started sample_session_packets with Ret a => a | _ => sample_accessor end).
Abbreviation sample_schedule := (concat (replicate 1000 [Reader; Owner])).

(** The client of apps/trading_client.cpp, whose threads take turns. *)
Lemma client_session_witness :
  ∃ t, trading_client (serving (session_stream sample_session_packets)) 1000 1000 sample_schedule = Some t ∧
    t_owner t = mret tt ∧
    (∃ c', t_reader t = mret c' ∧ m_marketAccessor c' = sample_reacted ∧ m_dataSize c' = 0%nat) ∧
    length (written sample_reacted) = 3%nat ∧
    shuffle [toByteArray LoginRequest_codec (login_request sample_started)] (written sample_reacted)
      (frames (snd <$> t_calls t)).
Proof.
  assert (Hstart : sample_start = (Some (Ret (3, sample_started)), sample_start.2)) by (vm_compute; reflexivity).
  destruct (client_session ∅ (serving (session_stream sample_session_packets)) sample_config sample_client_account
    sample_exchange_info 1 3 sample_started sample_reacted sample_start.2 sample_session_packets 1000 1000
    sample_schedule) as (Ho & Hr & _ & Hs & _).
  - apply serving_ok.
  - exact Hstart.
  - apply serving_peer.
  - apply (bool_decide_unpack _). by vm_compute.
  - vm_compute. reflexivity.
  - apply (bool_decide_unpack _). by vm_compute.
  - apply (bool_decide_unpack _). by vm_compute.
  - apply (bool_decide_unpack _). by vm_compute.
  - apply (bool_decide_unpack _). by vm_compute.
  - eexists. split; [unfold trading_client; rewrite Hstart; reflexivity|].
    split; [exact Ho|]. split; [exact Hr|]. split; [vm_compute; reflexivity | exact Hs].
Defined.

(** ** Descriptors *)

Section descriptors.
Context `{P : Platform}.

Lemma client_call_step (fd : Z) (h : gset Z) (ca : syscall * answer) : client_call fd ca → fd_step h ca.1 ca.2 = h.
Proof. destruct ca as [c r]. by intros [Hc|[[n Hc]|[bs Hc]]]; cbn [fst snd] in *; subst c. Qed.

Lemma client_calls_open (fd : Z) (h : gset Z) (tr : trace) : Forall (client_call fd) tr → open_fds h tr = h.
Proof.
  induction 1 as [|[c r] tr Hc _ IH]; [done|]. unfold open_fds. cbn [foldl].
  rewrite (client_call_step fd h (c, r) Hc : fd_step h c r = h). exact IH.
Qed.

(** A write to a descriptor that is not open. *)
Lemma closed_write (fd : Z) (h : gset Z) (tr : trace) (bs : list byte) (r : answer) :
  Forall (client_call fd) tr → fd ∉ h → (Sys_write fd bs, r) ∈ tr → ¬ uses_ok h tr.
Proof.
  intros Hc Hfd. induction Hc as [|[c r'] tr Hca _ IH]; intros Hin; [by apply not_elem_of_nil in Hin|].
  cbn [uses_ok]. rewrite (client_call_step fd h (c, r') Hca : fd_step h c r' = h).
  apply elem_of_cons in Hin as [[= <- <-]|Hin]; intros [Hu Hrest]; [|by apply IH].
  cbn [uses] in Hu. by apply Forall_cons in Hu as [Hu _].
Qed.

(** The calls of the two threads, for any kernel. *)
Lemma threads_calls (h : gset Z) (K : kernel) (wfuel fuel : nat) (fd : Z) (buffer : list byte)
    (c : TcpClient BistMarketAccessor) (reader : prog (TcpClient BistMarketAccessor)) (tr0 tr1 : trace)
    (schedule : list thread) :
  kernel_ok h K → follow (sys_startRead wfuel fuel fd c) tr1 = Some reader → Forall data_ok tr1 →
  let t := interleave K tr0 (Build_threads (write_calls TcpSocket_retry wfuel fd buffer) reader []) schedule in
  writes_to fd (part Owner (t_calls t)) ∧ Forall (client_call fd) (snd <$> t_calls t) ∧
  follow (sys_startRead wfuel fuel fd c) (tr1 ++ part Reader (t_calls t)) = Some (t_reader t) ∧
  Forall data_ok (tr1 ++ part Reader (t_calls t)).
Proof.
  intros HK Hf1 Hd1 t.
  destruct (interleave_follow K tr0 (write_calls TcpSocket_retry wfuel fd buffer) reader schedule) as [Ho Hr].
  fold t in Ho, Hr. pose proof (parts_shuffle (t_calls t)) as Hsh.
  assert (Hd : Forall data_ok (snd <$> t_calls t)) by (apply (interleave_answers h K); [done | constructor]).
  destruct (shuffle_Forall _ _ _ _ Hsh Hd) as [Hdo Hdr].
  destruct (follow_write_calls _ _ _ _ _ Ho Hdo) as [Hw _]. destruct (writes_client fd _ Hw) as [Hco _].
  assert (Hall : follow (sys_startRead wfuel fuel fd c) (tr1 ++ part Reader (t_calls t)) = Some (t_reader t))
    by (by rewrite follow_app, Hf1).
  assert (Hda : Forall data_ok (tr1 ++ part Reader (t_calls t))) by (by apply Forall_app).
  destruct (follow_startRead _ _ _ _ _ _ Hall Hda) as [[_ Hcr]%Forall_app _].
  split; [done|]. split; [by apply (shuffle_Forall_2 _ _ _ _ Hsh) | done].
Qed.

(** The owner's first turn is its first write. *)
Lemma owner_writes (K : kernel) (wfuel : nat) (fd : Z) (buffer : list byte)
    (reader : prog (TcpClient BistMarketAccessor)) (tr0 : trace) (schedule : list thread) :
  buffer ≠ [] → (1 ≤ wfuel)%nat → (1 ≤ turns Owner schedule)%nat →
  part Owner (t_calls (interleave K tr0 (Build_threads (write_calls TcpSocket_retry wfuel fd buffer) reader []) schedule)) ≠ [].
Proof.
  intros Hb Hw Hturn Hp.
  destruct (interleave_follow K tr0 (write_calls TcpSocket_retry wfuel fd buffer) reader schedule) as [Ho _].
  destruct (interleave_turns K tr0 (write_calls TcpSocket_retry wfuel fd buffer) reader schedule) as [Ht _].
  rewrite Hp in Ho, Ht. injection Ho as Ho. destruct buffer as [|b bs]; [done|]. destruct wfuel as [|wfuel]; [lia|].
  specialize (Ht _ _ (eq_sym Ho)). simpl in Ht. lia.
Qed.

Lemma refused_start (h : gset Z) (K : kernel) (cfg : OrderEntryPartitionConfig) (ca ei : list byte) (last fd : Z)
    (a : BistMarketAccessor) :
  BistMarketAccessor_new cfg ca ei last = Ret a → 0 ≤ fd →
  (∀ t, a_res (K [] (Sys_socket t)) = fd) → (∀ tr ip, a_res (K tr (Sys_inet_pton ip)) = 1) →
  (∀ tr ip p, a_res (K tr (Sys_connect fd ip p)) < 0) →
  ∃ tr0, run K [] (sys_accessor_new cfg ca ei last) = (Some (Ret (fd, a)), tr0) ∧ fd ∉ open_fds h tr0.
Proof.
  intros Hnew H0 Hsock Hpton Hconn.
  destruct (run_tcp_socket K [] (oec_ip cfg) (oec_port cfg) fd H0 Hsock Hpton) as (a1 & a2 & a3 & H1 & [tr3 ->] & Hr).
  rewrite (proj2 (Z.ltb_lt _ 0)) in Hr by done. eexists. split.
  - unfold sys_accessor_new. rewrite run_bind, Hr, Hnew. reflexivity.
  - rewrite open_fds_app. unfold open_fds at 1. cbn [foldl fd_step]. set_solver.
Qed.

(** C39. A connection that fails goes unnoticed: the constructor returns an accessor all the
    same, whose descriptor has been closed; the login request is written to this
    descriptor, and so, whatever the schedule, the threads use a descriptor that is not
    theirs (or, by then, somebody else's). *)
Theorem failed_connect_unnoticed (h : gset Z) (K : kernel) (cfg : OrderEntryPartitionConfig) (ca ei : list byte)
    (last fd : Z) (a : BistMarketAccessor) (wfuel fuel : nat) (schedule : list thread) :
  kernel_ok h K → BistMarketAccessor_new cfg ca ei last = Ret a → 0 ≤ fd →
  (∀ t, a_res (K [] (Sys_socket t)) = fd) → (∀ tr ip, a_res (K tr (Sys_inet_pton ip)) = 1) →
  (∀ tr ip p, a_res (K tr (Sys_connect fd ip p)) < 0) → (1 ≤ wfuel)%nat → (1 ≤ turns Owner schedule)%nat →
  ∃ tr0, run K [] (sys_accessor_new cfg ca ei last) = (Some (Ret (fd, a)), tr0) ∧ fd ∉ open_fds h tr0 ∧
    ¬ uses_ok (open_fds h tr0) (snd <$> t_calls (interleave K tr0 (client_threads wfuel fuel fd a) schedule)).
Proof.
  intros HK Hnew H0 Hsock Hpton Hconn Hw Hturn.
  destruct (refused_start h K cfg ca ei last fd a Hnew H0 Hsock Hpton Hconn) as (tr0 & Hr & Hclosed).
  exists tr0. split; [done|]. split; [done|]. unfold client_threads, sys_login.
  set (buffer := toByteArray LoginRequest_codec (login_request a)).
  set (reader := sys_startRead wfuel fuel fd (TcpClient_new a)).
  destruct (threads_calls h K wfuel fuel fd buffer (TcpClient_new a) reader tr0 [] schedule HK eq_refl (List.Forall_nil _))
    as (Hwo & Hcalls & _).
  pose proof (owner_writes K wfuel fd buffer reader tr0 schedule (login_bytes_nonempty a) Hw Hturn) as Hne.
  set (t := interleave _ _ _ _) in *. destruct (part Owner (t_calls t)) as [|[c r] tr] eqn:Hp; [done|].
  apply Forall_cons in Hwo as [[bs Hc] _]. cbn [fst] in Hc. subst c.
  apply (closed_write fd _ _ bs r); [exact Hcalls|done|].
  destruct (part_split Owner (t_calls t) [] tr _ Hp) as (tg1 & tg2 & -> & _). rewrite fmap_app, fmap_cons. set_solver.
Qed.

End descriptors.

(** The connection is refused, and the owner logs in. *)
Lemma failed_connect_unnoticed_witness :
  let K := sample_kernel (λ c, match c with Sys_connect _ _ _ => true | _ => false end) in
  let a := match BistMarketAccessor_new sample_config sample_client_account sample_exchange_info 1 with
           | Ret a => a | _ => sample_accessor end in
  ∃ tr0, run K [] (sys_accessor_new sample_config sample_client_account sample_exchange_info 1) =
      (Some (Ret (3, a)), tr0) ∧ 3 ∉ open_fds ∅ tr0 ∧
    ¬ uses_ok (open_fds ∅ tr0) (snd <$> t_calls (interleave K tr0 (client_threads 9 9 3 a) [Reader; Owner])).
Proof.
  intros K a. apply (failed_connect_unnoticed ∅ K sample_config sample_client_account sample_exchange_info 1 3 a 9 9
    [Reader; Owner]).
  - apply sample_kernel_ok.
  - vm_compute. reflexivity.
  - lia.
  - intros t. vm_compute. reflexivity.
  - intros tr ip. reflexivity.
  - intros tr ip p. change (-1 < 0). lia.
  - lia.
  - vm_compute. lia.
Defined.

(** C34. The destructor waits for the server: it comes to an end only if the reading thread has
    been told to stop or its read has returned nothing more, neither of which the
    destructor brings about, whatever the schedule; then exactly its own descriptor is
    closed, as its last call. *)
Theorem destructor_waits `{P : Platform} (h : gset Z) (K : kernel) (wfuel fuel : nat) (fd : Z) (c : TcpClient BistMarketAccessor)
    (tr1 tr tr' : trace) (reader : prog (TcpClient BistMarketAccessor)) (schedule : list thread) :
  kernel_ok h K → 0 ≤ fd → follow (sys_startRead wfuel fuel fd c) tr1 = Some reader → Forall data_ok tr1 →
  accessor_delete K tr wfuel fd reader schedule = Some tr' →
  ∃ calls r, tr' = tr ++ calls ++ [(Sys_close fd, r)] ∧ Forall (client_call fd) calls ∧
    open_fds h tr' = open_fds h tr ∖ {[fd]} ∧
    ∃ ca, ca ∈ tr1 ++ calls ∧
      (ca.1 = Sys_stopRequested ∧ a_res ca.2 ≠ 0 ∨ (∃ n, ca.1 = Sys_read fd n) ∧ a_res ca.2 ≤ 0).
Proof.
  intros HK H0 Hf1 Hd1 Hdel. unfold accessor_delete in Hdel.
  destruct (threads_calls h K wfuel fuel fd (toByteArray LogoutRequest_codec logout_request) c reader tr tr1 schedule
    HK Hf1 Hd1) as (_ & Hcalls & Hr & Hdr). fold (sys_logout wfuel fd) in Hcalls, Hr, Hdr.
  set (t := interleave _ _ _ _) in *. destruct (result (t_owner t)); [|done].
  destruct (result (t_reader t)) as [[c'| | |]|] eqn:Hres; try done. injection Hdel as <-.
  unfold TcpSocket_delete, close_socket. rewrite (proj2 (Z.leb_le 0 fd)) by done.
  exists (snd <$> t_calls t). eexists. cbn [run call mbind prog_bind mret prog_ret snd].
  split; [by rewrite <- (assoc_L (++))|]. split; [done|]. split.
  { rewrite open_fds_app, open_fds_app, (client_calls_open fd _ _ Hcalls). done. }
  apply result_ret in Hres. destruct (startRead_shape _ _ _ _ _ _ Hr Hdr) as [_ Hend].
  assert (Hin : ∀ ca, ca ∈ tr1 ++ part Reader (t_calls t) → ca ∈ tr1 ++ (snd <$> t_calls t)).
  { intros ca [Hl|(x & -> & [_ Hx]%list_elem_of_filter)%list_elem_of_fmap]%elem_of_app; apply elem_of_app; [by left|].
    right. by apply list_elem_of_fmap_2. }
  destruct (Hend c' Hres) as (tr2 & r & [[Hnz Heq]|[Hle Heq]]); rewrite Heq in Hin; (eexists; split;
    [apply Hin, elem_of_app; right; by apply list_elem_of_singleton|]); [by left|right; by split; [eexists|]].
Qed.

(** The server closes the connection at once. *)
Lemma destructor_waits_witness :
  let reader := sys_startRead 9 9 3 (TcpClient_new sample_accessor) in
  let over := accessor_delete (serving []) sample_start.2 9 3 reader [Owner; Reader; Reader] in
  is_Some over ∧ ∀ tr', over = Some tr' → open_fds ∅ tr' = open_fds ∅ sample_start.2 ∖ {[3]}.
Proof.
  intros reader over. split; [apply (bool_decide_unpack _); vm_compute; exact I|]. intros tr' Hover.
  destruct (destructor_waits ∅ (serving []) 9 9 3 (TcpClient_new sample_accessor) [] sample_start.2 tr' reader
    [Owner; Reader; Reader] (serving_ok _)) as (calls & r & _ & _ & Hopen & _);
    [lia | reflexivity | constructor | exact Hover | exact Hopen].
Defined.
