(* ===== verification/Transport.v ===== *)
(** * From one end of the connection to the other

    Composes the write loops of Sockets.v with the reader of TcpClient.v: a session as it
    crosses the kernel, which takes every buffer in portions of its own and hands the
    stream out in chunks of its own.

    The second half is about the other direction.  The order entry client writes from two
    threads: the one that owns the [BistMarketAccessor] (login, logout and the three
    senders) and the one that reads, which answers heartbeats and order messages from
    within [TcpClient::handleMessage].  Both run the loop of [TcpSocket::write] on the same
    descriptor and nothing excludes one while the other is between two calls of [::write].
    A run of the two is a schedule: whose call comes next, and how many bytes the kernel
    takes of it. *)
From S2P Require Import Prelude Bytes Digits Codec Types OuchMessages SessionMessages ConfigParser OrderManager OrderEntryClient.
From S2P Require Import TcpClient Syscalls Interleaving Sockets.
Local Open Scope Z_scope.

(** ** One writer *)

(** The kernel's answers to the writes of one buffer of [n] bytes, when they take all of
    it: portions of any size and errors after which the loop tries again. *)
Fixpoint takes (retry : errno → bool) (results : list write_result) (n : nat) : bool :=
  match results with
  | [] => (n =? 0)%nat
  | WriteFailed e :: results => (0 <? n)%nat && retry e && takes retry results n
  | Wrote k :: results => (0 <? n)%nat && (k <=? n)%nat && takes retry results (n - k)
  end.

Lemma write_loop_takes (retry : errno → bool) (results more : list write_result) (buffer : list byte) :
  takes retry results (length buffer) = true →
  write_loop retry (results ++ more) buffer = Ret (WriteDone, buffer, more).
Proof.
  revert buffer. induction results as [|[k|e] results IH]; intros buffer; cbn [takes].
  - intros ->%Nat.eqb_eq%nil_length_inv. by rewrite write_loop_nil.
  - intros [[Hn%Nat.ltb_lt Hk]%andb_true_iff Ht]%andb_true_iff.
    destruct buffer as [|b buffer]; [simpl in Hn; lia|]. cbn [write_loop app]. rewrite Hk.
    rewrite IH by (by rewrite length_drop). run_outcome. by rewrite take_drop.
  - intros [[Hn%Nat.ltb_lt He]%andb_true_iff Ht]%andb_true_iff.
    destruct buffer as [|b buffer]; [simpl in Hn; lia|]. cbn [write_loop app]. rewrite He. by apply IH.
Qed.

Lemma write_all_takes (retry : errno → bool) (resultss : list (list write_result)) (buffers : list (list byte)) :
  Forall2 (λ results buffer, takes retry results (length buffer) = true) resultss buffers →
  write_all retry (concat resultss) buffers = Ret (replicate (length buffers) WriteDone, concat buffers).
Proof.
  induction 1 as [|results buffer resultss buffers Ht _ IH]; [done|]. cbn [write_all concat].
  rewrite write_loop_takes by done. run_outcome. by rewrite IH.
Qed.

(** ** Two writers *)

(** What is left to be written by each thread, and what is on the wire. *)
Record writers := Build_writers {
  w_owner : list (list byte);
  w_reader : list (list byte);
  w_wire : list byte;
}.

(** One call of [::write]: the kernel takes [k] bytes, at least one and at most those
    offered, of the buffer the thread is at.  [None]: the thread has nothing to write, or
    the kernel cannot answer this. *)
Definition taken (k : nat) (buffers : list (list byte)) : option (list byte * list (list byte)) :=
  match buffers with
  | [] => None
  | buffer :: buffers =>
      if (0 <? k)%nat && (k <=? length buffer)%nat
      then Some (take k buffer, if (k =? length buffer)%nat then buffers else drop k buffer :: buffers)
      else None
  end.

Definition turn (w : writers) (who : thread) (k : nat) : option writers :=
  match who with
  | Owner =>
      '(sent, rest) ← taken k (w_owner w);
      Some (Build_writers rest (w_reader w) (w_wire w ++ sent))
  | Reader =>
      '(sent, rest) ← taken k (w_reader w);
      Some (Build_writers (w_owner w) rest (w_wire w ++ sent))
  end.

Fixpoint run_writers (w : writers) (schedule : list (thread * nat)) : option writers :=
  match schedule with
  | [] => Some w
  | (who, k) :: schedule => w ← turn w who k; run_writers w schedule
  end.

Lemma taken_concat (k : nat) (buffers rest : list (list byte)) (sent : list byte) :
  taken k buffers = Some (sent, rest) → concat buffers = sent ++ concat rest.
Proof.
  destruct buffers as [|b bs]; [done|]. simpl. destruct (_ && _); [|done]. intros [= <- <-].
  destruct (Nat.eqb_spec k (length b)) as [->|].
  - by rewrite firstn_all.
  - cbn [concat]. by rewrite (assoc_L (++)), take_drop.
Qed.

(** Turns that take the whole buffer. *)
Definition whole (buffers : list (list byte)) (k : nat) : Prop :=
  match buffers with [] => True | b :: _ => k = length b end.

(** Every call of the schedule takes all it is offered. *)
Fixpoint whole_turns (w : writers) (schedule : list (thread * nat)) : Prop :=
  match schedule with
  | [] => True
  | (who, k) :: schedule =>
      whole (match who with Owner => w_owner w | Reader => w_reader w end) k ∧
      ∀ w', turn w who k = Some w' → whole_turns w' schedule
  end.

Lemma taken_whole (k : nat) (buffers rest : list (list byte)) (sent : list byte) :
  whole buffers k → taken k buffers = Some (sent, rest) → buffers = sent :: rest.
Proof.
  destruct buffers as [|b bs]; [done|]. simpl. intros ->. destruct (_ && _); [|done].
  intros [= <- <-]. by rewrite Nat.eqb_refl, firstn_all.
Qed.

Lemma turn_cases (w w' : writers) (who : thread) (k : nat) :
  turn w who k = Some w' →
  ∃ sent rest, w_wire w' = w_wire w ++ sent ∧
    match who with
    | Owner => taken k (w_owner w) = Some (sent, rest) ∧ w_owner w' = rest ∧ w_reader w' = w_reader w
    | Reader => taken k (w_reader w) = Some (sent, rest) ∧ w_reader w' = rest ∧ w_owner w' = w_owner w
    end.
Proof.
  unfold turn. destruct who; intros ([sent rest] & Ht & [= <-])%bind_Some; exists sent, rest; by rewrite Ht.
Qed.

Lemma run_bytes (schedule : list (thread * nat)) (w w' : writers) :
  run_writers w schedule = Some w' →
  ∃ xs ys zs, concat (w_owner w) = xs ++ concat (w_owner w') ∧
    concat (w_reader w) = ys ++ concat (w_reader w') ∧ w_wire w' = w_wire w ++ zs ∧ shuffle xs ys zs.
Proof.
  revert w. induction schedule as [|[who k] schedule IH]; intros w; cbn [run_writers].
  { intros [= <-]. exists [], [], []. rewrite app_nil_r. split_and!; [done..|constructor]. }
  intros (w1 & Ht & Hr)%bind_Some. destruct (IH w1 Hr) as (xs & ys & zs & Ho & Hre & Hw & Hs).
  destruct (turn_cases w w1 who k Ht) as (sent & rest & Hw1 & Hc). rewrite Hw, Hw1, <- (assoc_L (++)).
  destruct who, Hc as (Htk%taken_concat & Hq & Hother); rewrite Htk, <- Hq, <- Hother, Ho, Hre.
  - exists (sent ++ xs), ys, (sent ++ zs). rewrite (assoc_L (++)). split_and!; [done..|].
    apply (shuffle_app sent [] sent), Hs. apply shuffle_left_all.
  - exists xs, (sent ++ ys), (sent ++ zs). rewrite (assoc_L (++)). split_and!; [done..|].
    apply (shuffle_app [] sent sent), Hs. apply shuffle_right_all.
Qed.

Lemma run_frames (schedule : list (thread * nat)) (w w' : writers) :
  whole_turns w schedule → run_writers w schedule = Some w' →
  ∃ xs ys zs, w_owner w = xs ++ w_owner w' ∧ w_reader w = ys ++ w_reader w' ∧
    w_wire w' = w_wire w ++ concat zs ∧ shuffle xs ys zs.
Proof.
  revert w. induction schedule as [|[who k] schedule IH]; intros w Hwh; cbn [run_writers].
  { intros [= <-]. exists [], [], []. rewrite app_nil_r. split_and!; [done..|constructor]. }
  intros (w1 & Ht & Hr)%bind_Some. destruct Hwh as [Hk Hwh].
  destruct (IH w1 (Hwh w1 Ht) Hr) as (xs & ys & zs & Ho & Hre & Hw & Hs).
  destruct (turn_cases w w1 who k Ht) as (sent & rest & Hw1 & Hc). rewrite Hw, Hw1, <- (assoc_L (++)).
  destruct who, Hc as (Htk & Hq & Hother); apply taken_whole in Htk; [|done| |done];
    rewrite Htk, <- Hq, <- Hother, Ho, Hre.
  - exists (sent :: xs), ys, (sent :: zs). split_and!; [done..|by constructor].
  - exists xs, (sent :: ys), (sent :: zs). split_and!; [done..|by constructor].
Qed.

(** A turn is what [write_loop] does with one answer, whatever the thread. *)
Lemma taken_write_loop (retry : errno → bool) (k : nat) (b sent : list byte) (bs rest : list (list byte)) :
  taken k (b :: bs) = Some (sent, rest) →
  ∃ left, rest = match left with [] => bs | _ => left :: bs end ∧
    ∀ results, write_loop retry (Wrote k :: results) b =
      ('(status, sent', results') ← write_loop retry results left; Ret (status, sent ++ sent', results')).
Proof.
  simpl. destruct (Nat.ltb_spec 0 k) as [Hk|]; [|done]. destruct (Nat.leb_spec k (length b)) as [Hl|]; [|done].
  intros [= <- <-]. exists (drop k b). split.
  - destruct (Nat.eqb_spec k (length b)) as [->|Hne]; [by rewrite drop_all|].
    destruct (drop k b) eqn:Hd; [|done]. apply (f_equal length) in Hd. rewrite length_drop in Hd. simpl in Hd. lia.
  - intros results. destruct b as [|x b]; [simpl in Hl; lia|]. cbn [write_loop].
    by destruct (Nat.leb_spec k (length (x :: b))); [|lia].
Qed.

(** The length a packet announces in its first two bytes. *)
Definition length_field (bs : list byte) : Z := be16toh (le_load (slice 0 2 bs)).

(** The owner's first byte, the reader's whole buffer, the rest of the owner's. *)
Definition torn_schedule (b1 b2 : list byte) : list (thread * nat) :=
  [(Owner, 1%nat); (Reader, length b2); (Owner, (length b1 - 1)%nat)].

Lemma taken_part (k : nat) (b : list byte) (bs : list (list byte)) :
  (0 < k < length b)%nat → taken k (b :: bs) = Some (take k b, drop k b :: bs).
Proof.
  intros Hk. unfold taken. destruct (Nat.ltb_spec 0 k); [|lia]. destruct (Nat.leb_spec k (length b)); [|lia].
  by destruct (Nat.eqb_spec k (length b)); [lia|].
Qed.

Lemma taken_all (b : list byte) (bs : list (list byte)) :
  (0 < length b)%nat → taken (length b) (b :: bs) = Some (b, bs).
Proof.
  intros Hk. unfold taken. destruct (Nat.ltb_spec 0 (length b)); [|lia].
  by rewrite Nat.leb_refl, Nat.eqb_refl, firstn_all.
Qed.

Lemma torn_run (x : byte) (b1 b2 : list byte) :
  (0 < length b1)%nat → (0 < length b2)%nat →
  run_writers (Build_writers [x :: b1] [b2] []) (torn_schedule (x :: b1) b2) =
    Some (Build_writers [] [] ([x] ++ b2 ++ b1)).
Proof.
  intros H1 H2. unfold torn_schedule. cbn [run_writers turn w_owner w_reader w_wire].
  rewrite taken_part by (simpl; lia). cbn [mbind option_bind turn w_owner w_reader w_wire].
  rewrite taken_all by done. cbn [mbind option_bind turn w_owner w_reader w_wire].
  replace (length (x :: b1) - 1)%nat with (length b1) by (simpl; lia).
  change (drop 1 (x :: b1)) with b1. by rewrite taken_all.
Qed.

Lemma length_field_small (bs : list byte) :
  (2 ≤ length bs)%nat → length_field bs < 256 → ∃ y rest, bs = x00 :: y :: rest.
Proof.
  intros Hl Hf. destruct bs as [|x [|y rest]]; simpl in Hl; [lia..|]. exists y, rest. do 2 f_equal.
  unfold length_field in Hf. change (slice 0 2 (x :: y :: rest)) with [x; y] in Hf.
  unfold be16toh in Hf. rewrite bswap_le_load in Hf by done.
  change (be_load [x; y]) with ((0 * 256 + u8 x) * 256 + u8 y) in Hf.
  pose proof (u8_bound x). pose proof (u8_bound y). apply u8_inj. change (u8 x00) with 0. lia.
Qed.

(** ** Properties *)

(** C7. A session crosses both sockets intact: the server writes its packets one after the
    other, the kernel takes each in portions of any size and with errors after which the
    server's loop tries again, and hands the stream to the client in pieces of any size up
    to [LONGEST_READ]; every write completes, the stream is the concatenation of the
    packets, and the client has reacted to exactly these, in order, with nothing left over;
    or it fails as the first of its reactions that fails, which on [cxx_platform], that is
    by the letter of C++, the reaction to any OUCH response does. *)
Theorem session_over_sockets `{P : Platform} (a : BistMarketAccessor) (sps : list server_packet)
    (resultss : list (list write_result)) (chunks : list (list byte)) (n : nat) :
  let packets := (λ sp, packet (payload_of sp)) <$> sps in
  Forall2 (λ results p, takes TcpClientConnection_retry results (length p) = true) resultss packets →
  Forall (λ sp, server_packet_ok sp = true) sps →
  ∃ wire, write_all TcpClientConnection_retry (concat resultss) packets =
      Ret (replicate (length sps) WriteDone, wire) ∧
    (concat chunks = wire → pieces chunks → (length chunks < n)%nat →
      match fold_outcome react a sps with
      | Ret a' => ∃ c', startRead n (TcpClient_new a) chunks = Ret c' ∧ m_marketAccessor c' = a' ∧ m_dataSize c' = 0%nat
      | Undef u => startRead n (TcpClient_new a) chunks = Undef u
      | Throw w => startRead n (TcpClient_new a) chunks = Throw w
      | Exit e => startRead n (TcpClient_new a) chunks = Exit e
      end).
Proof.
  intros packets Ht Hok. exists (concat packets). split.
  { rewrite (write_all_takes _ _ _ Ht). unfold packets. by rewrite length_fmap. }
  intros Hch Hp Hn. pose proof (session_reacts_lemma a sps chunks n Hok Hch Hp ltac:(lia)) as Hs.
  destruct (fold_outcome react a sps), (startRead _ _ _) as [c'| | |]; simpl in Hs; try done; [by exists c' | by subst..].
Qed.

(** The kernel takes a byte, is interrupted, is full, then takes the rest. *)
Definition sample_answers (p : list byte) : list write_result :=
  [Wrote 1; WriteFailed EINTR; WriteFailed EAGAIN; Wrote (length p - 1)].

(** With two bytes behind the structs, and by the letter of C++. *)
Lemma session_over_sockets_witness :
  let packets := (λ sp, packet (payload_of sp)) <$> sample_session_packets in
  let read (P : Platform) := startRead (H := @accessor_handler P) 3 (TcpClient_new sample_accessor) sample_session_chunks in
  ∃ wire, write_all TcpClientConnection_retry (concat (sample_answers <$> packets)) packets =
      Ret (replicate 4 WriteDone, wire) ∧ concat sample_session_chunks = wire ∧
    (∃ c', read padded_platform = Ret c' ∧ m_marketAccessor c' = sample_session_end ∧ m_dataSize c' = 0%nat) ∧
    read cxx_platform = Undef OutOfBoundsWrite.
Proof.
  intros packets read.
  assert (Ht : Forall2 (λ results p, takes TcpClientConnection_retry results (length p) = true)
    (sample_answers <$> packets) packets) by (by apply (bool_decide_unpack _); vm_compute).
  assert (Hok : Forall (λ sp, server_packet_ok sp = true) sample_session_packets)
    by (by apply (bool_decide_unpack _); vm_compute).
  assert (Hp : pieces sample_session_chunks) by (by apply (bool_decide_unpack _); vm_compute).
  destruct (@session_over_sockets padded_platform sample_accessor sample_session_packets (sample_answers <$> packets)
    sample_session_chunks 3 Ht Hok) as (wire & Hw & Hr).
  destruct (@session_over_sockets cxx_platform sample_accessor sample_session_packets (sample_answers <$> packets)
    sample_session_chunks 3 Ht Hok) as (wire' & Hw' & Hr').
  assert (wire' = wire) as -> by (rewrite Hw in Hw'; by injection Hw').
  assert (Hwire : concat sample_session_chunks = wire).
  { apply (f_equal (λ o, match o with Ret (_, w) => w | _ => [] end)) in Hw. cbv beta iota in Hw. rewrite <- Hw. by vm_compute. }
  exists wire. split; [exact Hw|]. split; [exact Hwire|].
  specialize (Hr Hwire Hp ltac:(simpl; lia)). specialize (Hr' Hwire Hp ltac:(simpl; lia)).
  assert (Hf : fold_outcome (@react padded_platform) sample_accessor sample_session_packets = Ret sample_session_end)
    by (by vm_compute).
  assert (Hf' : fold_outcome (@react cxx_platform) sample_accessor sample_session_packets = Undef OutOfBoundsWrite)
    by (by vm_compute).
  rewrite Hf in Hr. rewrite Hf' in Hr'. split; [exact Hr | exact Hr'].
Defined.

(** Two threads on one socket lose nothing and keep their own order: after any schedule
    the wire is a shuffle of what each has written so far, and each has the rest of its
    stream before it.  If the kernel takes every buffer whole, the shuffle is one of whole
    buffers: every frame arrives in one piece. *)
Theorem concurrent_writes (owner reader : list (list byte)) (schedule : list (thread * nat)) (w : writers) :
  run_writers (Build_writers owner reader []) schedule = Some w →
  (∃ xs ys, concat owner = xs ++ concat (w_owner w) ∧ concat reader = ys ++ concat (w_reader w) ∧
    shuffle xs ys (w_wire w)) ∧
  (whole_turns (Build_writers owner reader []) schedule →
    ∃ xs ys frames, owner = xs ++ w_owner w ∧ reader = ys ++ w_reader w ∧
      shuffle xs ys frames ∧ w_wire w = concat frames).
Proof.
  intros Hr. split.
  - destruct (run_bytes _ _ _ Hr) as (xs & ys & zs & ? & ? & -> & ?). by exists xs, ys.
  - intros Hw. destruct (run_frames _ _ _ Hw Hr) as (xs & ys & zs & ? & ? & -> & ?). by exists xs, ys, zs.
Qed.

Definition sample_logout : list byte := toByteArray LogoutRequest_codec logout_request.
Definition sample_heartbeat : list byte := toByteArray ClientHeartbeat_codec client_heartbeat.

Lemma concurrent_writes_witness :
  let w := Build_writers [] [] (sample_heartbeat ++ sample_logout ++ sample_heartbeat) in
  (∃ xs ys, concat [sample_logout] = xs ++ concat (w_owner w) ∧
    concat [sample_heartbeat; sample_heartbeat] = ys ++ concat (w_reader w) ∧ shuffle xs ys (w_wire w)) ∧
  (whole_turns (Build_writers [sample_logout] [sample_heartbeat; sample_heartbeat] [])
      [(Reader, 3%nat); (Owner, 3%nat); (Reader, 3%nat)] →
    ∃ xs ys frames, [sample_logout] = xs ++ w_owner w ∧ [sample_heartbeat; sample_heartbeat] = ys ++ w_reader w ∧
      shuffle xs ys frames ∧ w_wire w = concat frames).
Proof.
  apply (concurrent_writes [sample_logout] [sample_heartbeat; sample_heartbeat]
    [(Reader, 3%nat); (Owner, 3%nat); (Reader, 3%nat)]).
  vm_compute. reflexivity.
Defined.

(** C37. Nothing keeps the threads apart between two calls of [::write]: if the kernel takes
    one byte of the owner's buffer first, the reader's buffer ends up inside it.  For all
    buffers with a length below 256, which is every message of this client, the peer then
    reads a length field of zero, a packet nobody has sent, and the framing of all that
    follows is lost. *)
Theorem concurrent_write_tears (b1 b2 : list byte) :
  (2 ≤ length b1)%nat → (2 ≤ length b2)%nat → 0 < length_field b1 < 256 → 0 < length_field b2 < 256 →
  ∃ w, run_writers (Build_writers [b1] [b2] []) (torn_schedule b1 b2) = Some w ∧
    w_owner w = [] ∧ w_reader w = [] ∧ length_field (w_wire w) = 0 ∧
    w_wire w ≠ b1 ++ b2 ∧ w_wire w ≠ b2 ++ b1.
Proof.
  intros Hl1 Hl2 H1 H2.
  destruct (length_field_small b1 Hl1 ltac:(lia)) as (y1 & r1 & ->).
  destruct (length_field_small b2 Hl2 ltac:(lia)) as (y2 & r2 & ->).
  eexists. split; [apply torn_run; simpl; lia|]. cbn [w_owner w_reader w_wire].
  assert (Hz : ∀ bs : list byte, length_field (x00 :: x00 :: bs) = 0) by (intros bs; vm_compute; done).
  assert (Hf : ∀ bs cs : list byte, length_field (x00 :: y1 :: bs) = length_field (x00 :: y1 :: cs)) by done.
  split_and!; [done..|apply Hz| |]; intros Heq; injection Heq; intros; subst; rewrite Hz in *; lia.
Qed.

Lemma concurrent_write_tears_witness :
  ∃ w, run_writers (Build_writers [sample_logout] [sample_heartbeat] [])
      (torn_schedule sample_logout sample_heartbeat) = Some w ∧
    w_owner w = [] ∧ w_reader w = [] ∧ length_field (w_wire w) = 0 ∧
    w_wire w ≠ sample_logout ++ sample_heartbeat ∧ w_wire w ≠ sample_heartbeat ++ sample_logout.
Proof. apply (concurrent_write_tears sample_logout sample_heartbeat); vm_compute; [lia|lia|done|done]. Defined.
