(* ===== verification/TcpServer.v ===== *)
(** * The TCP server

    Models lib/network/tcp_server.hpp and .cpp: an epoll loop over a listening socket and
    the connected clients, with a message handler and a connection handler.

    What the kernel reports is the input of the model: a batch of [epoll_event]s, for the
    listening socket the connections that [accept] returns and whether they could be made
    non-blocking and registered, for a client the results of its reads until EAGAIN.
    A registration that fails leaves the client connected and unregistered
    ([acc_registered]).  Removing a descriptor from epoll is taken to succeed, since closing
    it right behind does the same.  The effects are the state: the clients, the descriptors registered with epoll, the calls of the connection
    handler and the buffers given to [TcpClientConnection::write].  An iterator into
    [m_clients] is valid as long as its entry is there. *)
From S2P Require Import Prelude Bytes.
Local Open Scope Z_scope.

Definition SERVER_BUFFER_SIZE : nat := 4096.

Record TcpServer := Build_TcpServer {
  m_clients : gset Z;
  m_epoll : gset Z;
  m_running : bool;
  connections : list (Z * bool);
  outgoing : list (Z * list byte);
}.

(** The constructor creates the epoll instance; the server is not running. *)
Definition TcpServer_new : TcpServer := Build_TcpServer ∅ ∅ false [] [].

(** A message handler gets the server, a client, the receive buffer and a length. *)
Abbreviation MessageHandlerFn := (TcpServer → Z → list byte → nat → outcome TcpServer).

(** ** Clients *)

(** [epoll_ctl] may fail, which is only logged: [registered] is the kernel's answer. *)
Definition addClientToEpoll (s : TcpServer) (client_fd : Z) (registered : bool) : TcpServer :=
  if registered
  then Build_TcpServer (m_clients s) ({[client_fd]} ∪ m_epoll s) (m_running s) (connections s) (outgoing s)
  else s.

Definition removeClient (s : TcpServer) (client_fd : Z) : TcpServer :=
  if decide (client_fd ∈ m_clients s)
  then Build_TcpServer (m_clients s ∖ {[client_fd]}) (m_epoll s ∖ {[client_fd]}) (m_running s)
         (connections s ++ [(client_fd, false)]) (outgoing s)
  else s.

Definition disconnectClient (s : TcpServer) (client_fd : Z) : TcpServer := removeClient s client_fd.

Definition sendToClient (s : TcpServer) (client_fd : Z) (buffer : list byte) : TcpServer :=
  if decide (client_fd ∈ m_clients s)
  then Build_TcpServer (m_clients s) (m_epoll s) (m_running s) (connections s)
         (outgoing s ++ [(client_fd, buffer)])
  else s.

Definition broadcastToAll (s : TcpServer) (buffer : list byte) : TcpServer :=
  Build_TcpServer (m_clients s) (m_epoll s) (m_running s) (connections s)
    (outgoing s ++ ((λ fd, (fd, buffer)) <$> elements (m_clients s))).

(** ** Events *)

(** A connection that [accept] returns, whether [fcntl] made it non-blocking, and whether
    [epoll_ctl] then registered it. *)
Record accepted := Build_accepted { acc_fd : Z; acc_nonblocking : bool; acc_registered : bool }.

Definition accept_one (s : TcpServer) (c : accepted) : TcpServer :=
  if acc_nonblocking c
  then
    let s := Build_TcpServer ({[acc_fd c]} ∪ m_clients s) (m_epoll s) (m_running s) (connections s) (outgoing s) in
    let s := addClientToEpoll s (acc_fd c) (acc_registered c) in
    Build_TcpServer (m_clients s) (m_epoll s) (m_running s) (connections s ++ [(acc_fd c, true)]) (outgoing s)
  else s.

(** [handleNewConnection]: all pending connections, until [accept] fails. *)
Definition handleNewConnection (s : TcpServer) (pending : list accepted) : TcpServer :=
  foldl accept_one s pending.

(** The result of a [read]: bytes, EAGAIN, another error, or the end of the stream. *)
Inductive read_result :=
  | ReadBytes (bs : list byte)
  | ReadAgain
  | ReadError
  | ReadClosed.

Section loop.
Context (m_messageHandler : MessageHandlerFn).

(** The loop of [handleClientData].  [buffer] is reused by all reads, each of which
    starts at offset 0; no further result means EAGAIN. *)
Fixpoint client_loop (s : TcpServer) (client_fd : Z) (buffer : list byte) (reads : list read_result) :
    outcome TcpServer :=
  if negb (bool_decide (client_fd ∈ m_clients s)) then Undef DanglingReference
  else
    match reads with
    | [] | ReadAgain :: _ => Ret s
    | ReadError :: _ | ReadClosed :: _ => Ret (removeClient s client_fd)
    | ReadBytes bs :: reads =>
        let buffer := splice 0 bs buffer in
        s ← m_messageHandler s client_fd buffer (length bs);
        client_loop s client_fd buffer reads
    end.

Definition handleClientData (s : TcpServer) (client_fd : Z) (reads : list read_result) : outcome TcpServer :=
  if decide (client_fd ∈ m_clients s)
  then client_loop s client_fd (repeat x00 SERVER_BUFFER_SIZE) reads
  else Ret s.

(** An [epoll_event]: for the listening socket, or for a client. *)
Inductive server_event :=
  | EventAccept (pending : list accepted)
  | EventClient (client_fd : Z) (epollin : bool) (reads : list read_result) (hangup : bool).

(** The body of [serverLoop] for one event; several batches of events are one list. *)
Definition handle_event (s : TcpServer) (ev : server_event) : outcome TcpServer :=
  match ev with
  | EventAccept pending => Ret (handleNewConnection s pending)
  | EventClient fd epollin reads hangup =>
      s ← (if epollin then handleClientData s fd reads else Ret s);
      Ret (if hangup then removeClient s fd else s)
  end.

Definition serverLoop (s : TcpServer) (events : list server_event) : outcome TcpServer :=
  fold_outcome handle_event s events.
End loop.

(** [start] and [stop], as far as the state goes: the listening socket and the thread are
    not part of it; closing a client's socket also removes it from epoll. *)
Definition start (s : TcpServer) : TcpServer :=
  if m_running s then s
  else Build_TcpServer (m_clients s) (m_epoll s) true (connections s) (outgoing s).

Definition stop (s : TcpServer) : TcpServer :=
  if m_running s then Build_TcpServer ∅ (m_epoll s ∖ m_clients s) false (connections s) (outgoing s)
  else s.

(** ** Invariant *)

(** The descriptors registered with epoll are those of connected clients; a client whose
    registration failed stays connected without it. *)
Definition server_ok (s : TcpServer) : Prop := m_epoll s ⊆ m_clients s.

(** Every connected client is registered as well. *)
Definition all_registered (s : TcpServer) : Prop := m_epoll s = m_clients s.

Lemma removeClient_ok (s : TcpServer) (fd : Z) : server_ok s → server_ok (removeClient s fd).
Proof. unfold server_ok, removeClient. case_decide; simpl; set_solver. Qed.

Lemma sendToClient_ok (s : TcpServer) (fd : Z) (buffer : list byte) : server_ok s → server_ok (sendToClient s fd buffer).
Proof. unfold server_ok, sendToClient. by case_decide. Qed.

Lemma accept_one_ok (s : TcpServer) (c : accepted) : server_ok s → server_ok (accept_one s c).
Proof.
  unfold server_ok, accept_one, addClientToEpoll. destruct (acc_nonblocking c), (acc_registered c); simpl; set_solver.
Qed.

#[export] Hint Resolve removeClient_ok sendToClient_ok accept_one_ok : algocor.

(** The connections that an event brings. *)
Definition event_accepts (ev : server_event) : list accepted :=
  match ev with EventAccept pending => pending | EventClient _ _ _ _ => [] end.

(** A property that connecting, removing a client and the message handler keep, where the
    handler copes with any data in a buffer of the server's size, is kept by the loop, and
    the only way in which the loop does not return is that the handler has removed the
    client whose data is being read. *)
Section loop_invariant.
Context (h : MessageHandlerFn) (P : TcpServer → Prop) (ok : accepted → Prop)
  (Haccept : ∀ s c, ok c → P s → P (accept_one s c)) (Hremove : ∀ s fd, P s → P (removeClient s fd))
  (Hh : ∀ s fd buffer n, P s → (SERVER_BUFFER_SIZE ≤ length buffer)%nat → ∃ s', h s fd buffer n = Ret s' ∧ P s').

(** The data that makes the handler remove its client. *)
Definition removed_by (s : TcpServer) (fd : Z) (bs : list byte) : Prop :=
  P s ∧ fd ∈ m_clients s ∧ ∃ rest s', (SERVER_BUFFER_SIZE ≤ length (bs ++ rest))%nat ∧
    h s fd (bs ++ rest) (length bs) = Ret s' ∧ fd ∉ m_clients s'.

Lemma handleNewConnection_keeps (s : TcpServer) (pending : list accepted) :
  Forall ok pending → P s → P (handleNewConnection s pending).
Proof using Haccept.
  unfold handleNewConnection. intros Hok. revert s. induction Hok as [|c pending Hc _ IH]; intros s Hs; simpl; [done|].
  by apply IH, Haccept.
Qed.

Lemma client_loop_cases (reads : list read_result) (s : TcpServer) (fd : Z) (buffer : list byte) :
  P s → fd ∈ m_clients s → (SERVER_BUFFER_SIZE ≤ length buffer)%nat →
  (∃ s', client_loop h s fd buffer reads = Ret s' ∧ P s') ∨
  (client_loop h s fd buffer reads = Undef DanglingReference ∧
   ∃ reads1 bs reads2 s1, reads = reads1 ++ ReadBytes bs :: reads2 ∧
     client_loop h s fd buffer reads1 = Ret s1 ∧ removed_by s1 fd bs).
Proof using Hremove Hh.
  revert s buffer. induction reads as [|r reads IH]; intros s buffer Hs Hin Hl; cbn [client_loop];
    rewrite bool_decide_true by done; cbn [negb]; [left; eauto|].
  destruct r as [bs| | |]; [|left; eauto..].
  assert (Hl' : (SERVER_BUFFER_SIZE ≤ length (splice 0 bs buffer))%nat)
    by (unfold splice; rewrite !length_app, length_take, length_drop; lia).
  assert (Hsp : splice 0 bs buffer = bs ++ drop (length bs) buffer) by (unfold splice; by rewrite take_0).
  destruct (Hh s fd (splice 0 bs buffer) (length bs) Hs Hl') as (s1 & H1 & Hs1). rewrite H1. run_outcome.
  destruct (decide (fd ∈ m_clients s1)) as [Hin1|Hout].
  - destruct (IH s1 _ Hs1 Hin1 Hl') as [Hret|(Hu & reads1 & bs1 & reads2 & s2 & -> & Hr & Hrem)]; [by left|]. right.
    split; [done|]. exists (ReadBytes bs :: reads1), bs1, reads2, s2. split; [done|]. split; [|done].
    cbn [client_loop]. rewrite bool_decide_true by done. cbn [negb]. rewrite H1. exact Hr.
  - right. split; [destruct reads; cbn [client_loop]; by rewrite bool_decide_false|].
    exists [], bs, reads, s. split; [done|]. split; [cbn [client_loop]; by rewrite bool_decide_true|].
    split; [done|]. split; [done|]. exists (drop (length bs) buffer), s1. by rewrite <- Hsp.
Qed.

Lemma handle_event_cases (s : TcpServer) (ev : server_event) :
  P s → Forall ok (event_accepts ev) →
  (∃ s', handle_event h s ev = Ret s' ∧ P s') ∨
  (handle_event h s ev = Undef DanglingReference ∧
   ∃ fd reads1 bs reads2 hangup s1, ev = EventClient fd true (reads1 ++ ReadBytes bs :: reads2) hangup ∧
     handle_event h s (EventClient fd true reads1 false) = Ret s1 ∧ removed_by s1 fd bs).
Proof using Haccept Hremove Hh.
  intros Hs Hok. destruct ev as [pending|fd epollin reads hangup]; cbn [handle_event].
  { left. eexists. split; [done|]. by apply handleNewConnection_keeps. }
  assert (Hend : ∀ s', P s' → P (if hangup then removeClient s' fd else s')) by (intros; destruct hangup; auto).
  destruct epollin; [|left; run_outcome; eauto]. unfold handleClientData.
  case_decide as Hin; [|left; run_outcome; eauto].
  destruct (client_loop_cases reads s fd (repeat x00 SERVER_BUFFER_SIZE) Hs Hin)
    as [(s' & Hr & Hs')|(Hu & reads1 & bs & reads2 & s1 & -> & Hr & Hrem)]; [by rewrite repeat_length| |].
  - left. rewrite Hr. run_outcome. eauto.
  - right. rewrite Hu. split; [done|]. exists fd, reads1, bs, reads2, hangup, s1. split; [done|].
    split; [|done]. cbn [handle_event]. unfold handleClientData. rewrite decide_True by done. by rewrite Hr.
Qed.

Lemma serverLoop_cases (events : list server_event) (s : TcpServer) :
  P s → Forall ok (events ≫= event_accepts) →
  (∃ s', serverLoop h s events = Ret s' ∧ P s') ∨
  (serverLoop h s events = Undef DanglingReference ∧
   ∃ events1 fd reads1 bs reads2 hangup events2 s1,
     events = events1 ++ EventClient fd true (reads1 ++ ReadBytes bs :: reads2) hangup :: events2 ∧
     serverLoop h s (events1 ++ [EventClient fd true reads1 false]) = Ret s1 ∧ removed_by s1 fd bs).
Proof using Haccept Hremove Hh.
  revert s. induction events as [|ev events IH]; intros s Hs; [left; by exists s|]. cbn [mbind list_bind].
  intros [Hok1 Hok2]%Forall_app. unfold serverLoop in *. cbn [fold_outcome].
  destruct (handle_event_cases s ev Hs Hok1)
    as [(s' & Hr & Hs')|(Hu & fd & reads1 & bs & reads2 & hangup & s1 & -> & Hr & Hrem)].
  - rewrite Hr. run_outcome.
    destruct (IH s' Hs' Hok2) as [Hret|(Hu & ev1 & fd & rs1 & bs & rs2 & hup & ev2 & s1 & -> & Hr' & Hrem)]; [by left|].
    right. split; [done|]. exists (ev :: ev1), fd, rs1, bs, rs2, hup, ev2, s1. split; [done|]. split; [|done].
    cbn [app fold_outcome]. by rewrite Hr.
  - right. rewrite Hu. split; [done|]. exists [], fd, reads1, bs, reads2, hangup, events, s1. split; [done|].
    split; [|done]. cbn [app fold_outcome]. by rewrite Hr.
Qed.
End loop_invariant.

(** After a handler that removed the client, the next read goes through a dangling
    iterator. *)
Lemma client_loop_dangling (h : MessageHandlerFn) (s s' : TcpServer) (fd : Z) (buffer bs : list byte)
    (reads : list read_result) :
  fd ∈ m_clients s → h s fd (splice 0 bs buffer) (length bs) = Ret s' → fd ∉ m_clients s' →
  client_loop h s fd buffer (ReadBytes bs :: reads) = Undef DanglingReference.
Proof.
  intros Hin Hh Hout. cbn [client_loop]. rewrite bool_decide_true by done. cbn [negb]. rewrite Hh.
  run_outcome. destruct reads; cbn [client_loop]; by rewrite bool_decide_false.
Qed.
