(* ===== verification/ServerTrace.v ===== *)
(** * What a trace shows of a server

    TcpServer.v takes what the kernel reports as its input; TcpServerCalls.v makes the
    system calls.  This file reads the former off the latter: [heard] and [reported] are
    what the kernel said, [changes], [epoll_step] and [delivered] what was asked of it.
    [rounds] says that the trace of an event loop is what the loop of TcpServer.v does with
    given events, call by call; [rounds_loop] and [rounds_moved] say what follows. *)
From S2P Require Import Prelude Bytes Syscalls SocketCalls Sockets TcpServer.
Local Open Scope Z_scope.

(** ** What the kernel says *)

Inductive observation :=
  | Accepted (fd : Z)
  | StaysBlocking (fd : Z)
  | Registration (fd : Z) (succeeded : bool)
  | Received (fd : Z) (r : read_result).

Definition read_result_of (a : answer) : read_result :=
  if a_res a <? 0 then if bool_decide (a_errno a = EAGAIN) then ReadAgain else ReadError
  else if a_res a =? 0 then ReadClosed
  else ReadBytes (a_data a).

Definition observe (ca : syscall * answer) : list observation :=
  match ca.1 with
  | Sys_accept _ => if 0 <=? a_res ca.2 then [Accepted (a_res ca.2)] else []
  | Sys_getfl fd | Sys_setfl fd _ => if a_res ca.2 <? 0 then [StaysBlocking fd] else []
  | Sys_epoll_add _ fd => [Registration fd (0 <=? a_res ca.2)]
  | Sys_read fd _ => [Received fd (read_result_of ca.2)]
  | _ => []
  end.

Definition heard (tr : trace) : list observation := tr ≫= observe.

(** The events that an [epoll_wait] has filled in. *)
Definition reported (e : answer) : list epoll_event := take (Z.to_nat (a_res e)) (a_events e).

(** ** What is asked of it *)

(** The connections that are taken up and given up. *)
Definition change (ca : syscall * answer) : list (Z * bool) :=
  match ca.1 with
  | Sys_epoll_add _ fd => [(fd, true)]
  | Sys_epoll_del _ fd => [(fd, false)]
  | _ => []
  end.
Definition changes (tr : trace) : list (Z * bool) := tr ≫= change.

(** The descriptors registered with epoll. *)
Definition epoll_step (registered : gset Z) (ca : syscall * answer) : gset Z :=
  match ca.1 with
  | Sys_epoll_add _ fd => if 0 <=? a_res ca.2 then {[fd]} ∪ registered else registered
  | Sys_epoll_del _ fd => registered ∖ {[fd]}
  | _ => registered
  end.

Definition is_writing (c : syscall) : bool := match c with Sys_write _ _ => true | _ => false end.
Definition writes (tr : trace) : trace := filter (λ ca, is_writing ca.1 = true) tr.

(** The calls that write a buffer to a client: each offers what is left, and when they are
    over everything has been taken or an error has ended them. *)
Inductive sends (fd : Z) : list byte → trace → Prop :=
  | sends_nothing : sends fd [] []
  | sends_some buffer a tr :
      buffer ≠ [] → 0 ≤ a_res a → sends fd (drop (Z.to_nat (a_res a)) buffer) tr →
      sends fd buffer ((Sys_write fd buffer, a) :: tr)
  | sends_again buffer a tr :
      buffer ≠ [] → a_res a < 0 → TcpClientConnection_retry (a_errno a) = true → sends fd buffer tr →
      sends fd buffer ((Sys_write fd buffer, a) :: tr)
  | sends_failed buffer a :
      buffer ≠ [] → a_res a < 0 → TcpClientConnection_retry (a_errno a) = false →
      sends fd buffer [(Sys_write fd buffer, a)].

(** The messages that a list of writes carries, in their order. *)
Inductive delivered : list (Z * list byte) → trace → Prop :=
  | delivered_nil : delivered [] []
  | delivered_cons fd buffer msgs tr tr' :
      sends fd buffer tr → delivered msgs tr' → delivered ((fd, buffer) :: msgs) (tr ++ tr').

(** ** A server along a trace *)

(** Between two states of the server of TcpServer.v the kernel says [obs], and what the
    state records as done is what the trace asks for. *)
Record moved (a a' : TcpServer) (obs : list observation) (tr : trace) : Prop := {
  moved_heard : heard tr = obs;
  moved_epoll : m_epoll a' = foldl epoll_step (m_epoll a) tr;
  moved_connections : connections a' = connections a ++ changes tr;
  moved_outgoing : ∃ msgs, outgoing a' = outgoing a ++ msgs ∧ delivered msgs (writes tr);
}.

Definition accepted_observations (c : accepted) : list observation :=
  Accepted (acc_fd c) ::
  if acc_nonblocking c then [Registration (acc_fd c) (acc_registered c)] else [StaysBlocking (acc_fd c)].

Definition event_observations (ev : server_event) : list observation :=
  match ev with
  | EventAccept pending => pending ≫= accepted_observations
  | EventClient fd _ reads _ => Received fd <$> reads
  end.

(** Reading ends with the first result that is not data. *)
Definition reads_end (reads : list read_result) : Prop :=
  ∃ bss r, reads = (ReadBytes <$> bss) ++ [r] ∧ match r with ReadBytes _ => False | _ => True end.

(** The event of TcpServer.v that a reported one stands for, in a server that listens on
    [l]: only a known client with data is read, and it is read to the end. *)
Definition concerns (l : Z) (a : TcpServer) (e : epoll_event) (ev : server_event) : Prop :=
  match ev with
  | EventAccept _ => ev_fd e = l
  | EventClient fd epollin reads hangup =>
      fd ≠ l ∧ e = Build_epoll_event fd epollin hangup ∧
      if epollin && bool_decide (fd ∈ m_clients a) then reads_end reads else reads = []
  end.

Section accounts.
Context (amh : MessageHandlerFn) (l : Z).

(** A batch of reported events, each with its own part of the trace. *)
Inductive accounts : TcpServer → list server_event → list epoll_event → trace → TcpServer → Prop :=
  | accounts_nil a : accounts a [] [] [] a
  | accounts_cons a a1 a' ev evs e es tr tr' :
      handle_event amh a ev = Ret a1 → concerns l a e ev → moved a a1 (event_observations ev) tr →
      accounts a1 evs es tr' a' → accounts a (ev :: evs) (e :: es) (tr ++ tr') a'.

(** The loop: while it is to run it waits, and serves what is reported; it ends when it is
    told to, or when waiting fails other than by a signal. *)
Inductive rounds (epfd : Z) (n : nat) : TcpServer → list server_event → trace → TcpServer → Prop :=
  | rounds_stopped a r : a_res r = 0 → rounds epfd n a [] [(Sys_running, r)] a
  | rounds_failed a r e :
      a_res r ≠ 0 → a_res e < 0 → a_errno e ≠ EINTR →
      rounds epfd n a [] [(Sys_running, r); (Sys_epoll_wait epfd n, e)] a
  | rounds_interrupted a a' evs r e tr :
      a_res r ≠ 0 → a_res e < 0 → a_errno e = EINTR → rounds epfd n a evs tr a' →
      rounds epfd n a evs ((Sys_running, r) :: (Sys_epoll_wait epfd n, e) :: tr) a'
  | rounds_served a a1 a' evs evs' r e tr tr' :
      a_res r ≠ 0 → 0 ≤ a_res e → accounts a evs (reported e) tr a1 → rounds epfd n a1 evs' tr' a' →
      rounds epfd n a (evs ++ evs') ((Sys_running, r) :: (Sys_epoll_wait epfd n, e) :: tr ++ tr') a'.
End accounts.

(** ** Lemmas *)

Lemma changes_app (tr tr' : trace) : changes (tr ++ tr') = changes tr ++ changes tr'.
Proof. apply bind_app. Qed.

Lemma heard_app (tr tr' : trace) : heard (tr ++ tr') = heard tr ++ heard tr'.
Proof. apply bind_app. Qed.

Lemma delivered_app (msgs msgs' : list (Z * list byte)) (tr tr' : trace) :
  delivered msgs tr → delivered msgs' tr' → delivered (msgs ++ msgs') (tr ++ tr').
Proof.
  intros Hd Hd'. induction Hd as [|fd buffer msgs tr1 tr2 Hs _ IH]; [done|].
  rewrite <- (assoc_L (++)). cbn [app]. by constructor.
Qed.

Lemma moved_refl (a : TcpServer) : moved a a [] [].
Proof. split; try done; [by rewrite app_nil_r|]. exists []. split; [by rewrite app_nil_r | constructor]. Qed.

Lemma moved_trans (a a1 a2 : TcpServer) (obs obs' : list observation) (tr tr' : trace) :
  moved a a1 obs tr → moved a1 a2 obs' tr' → moved a a2 (obs ++ obs') (tr ++ tr').
Proof.
  intros [<- He Hc (ms & Ho & Hd)] [<- He' Hc' (ms' & Ho' & Hd')]. split.
  - apply heard_app.
  - by rewrite foldl_app, <- He.
  - by rewrite Hc', Hc, changes_app, (assoc_L (++)).
  - exists (ms ++ ms'). split; [by rewrite Ho', Ho, (assoc_L (++))|]. unfold writes. rewrite filter_app.
    by apply delivered_app.
Qed.

(** A call and what follows. *)
Lemma moved_cons (a a1 a2 : TcpServer) (obs obs' : list observation) (ca : syscall * answer) (tr : trace) :
  moved a a1 obs [ca] → moved a1 a2 obs' tr → moved a a2 (obs ++ obs') (ca :: tr).
Proof. intros. by apply (moved_trans a a1 a2 obs obs' [ca] tr). Qed.

(** A call that is neither heard nor asks for anything. *)
Definition silent (ca : syscall * answer) : bool :=
  match ca.1 with
  | Sys_accept _ => a_res ca.2 <? 0
  | Sys_getfl _ | Sys_setfl _ _ => 0 <=? a_res ca.2
  | Sys_epoll_add _ _ | Sys_epoll_del _ _ | Sys_read _ _ | Sys_write _ _ => false
  | _ => true
  end.

Lemma moved_silent (a a' : TcpServer) (obs : list observation) (ca : syscall * answer) (tr : trace) :
  silent ca = true → moved a a' obs tr → moved a a' obs (ca :: tr).
Proof.
  destruct ca as [c r]. intros Hs Hm. rewrite <- (app_nil_l obs). eapply moved_cons; [|exact Hm].
  assert (observe (c, r) = [] ∧ change (c, r) = [] ∧ is_writing c = false ∧ ∀ e, epoll_step e (c, r) = e)
    as (Hob & Hch & Hw & He).
  { destruct c; try done; cbn [silent fst snd] in Hs; unfold observe; cbn [fst snd].
    - rewrite (proj2 (Z.ltb_ge _ _)) by lia. done.
    - rewrite (proj2 (Z.ltb_ge _ _)) by lia. done.
    - rewrite (proj2 (Z.leb_gt _ _)) by lia. done. }
  split; unfold heard, changes, writes; cbn [mbind list_bind foldl]; rewrite ?Hob, ?Hch, ?He, ?app_nil_r; try done.
  exists []. rewrite app_nil_r. split; [done|]. rewrite filter_cons. cbn [fst].
  rewrite decide_False by congruence. constructor.
Qed.

(** Writing a buffer to a client. *)
Lemma sends_writes (fd : Z) (buffer : list byte) (tr : trace) :
  sends fd buffer tr → heard tr = [] ∧ changes tr = [] ∧ writes tr = tr ∧ ∀ e, foldl epoll_step e tr = e.
Proof.
  induction 1 as [|? ? ? ? ? _ (? & ? & Hw & ?)|? ? ? ? ? ? _ (? & ? & Hw & ?)|]; split_and!; try done;
    unfold writes in *; rewrite filter_cons, decide_True by done; by rewrite ?Hw.
Qed.

Lemma moved_sends (a : TcpServer) (fd : Z) (buffer : list byte) (tr : trace) :
  fd ∈ m_clients a → sends fd buffer tr → moved a (sendToClient a fd buffer) [] tr.
Proof.
  intros Hin Hs. destruct (sends_writes _ _ _ Hs) as (Hh & Hc & Hw & He). unfold sendToClient.
  rewrite decide_True by done. split; cbn [m_epoll connections outgoing]; [done|by rewrite He|by rewrite Hc, app_nil_r|].
  exists [(fd, buffer)]. split; [done|]. rewrite Hw, <- (app_nil_r tr). constructor; [done | constructor].
Qed.

(** Removing a client. *)
Lemma moved_remove (a : TcpServer) (fd epfd : Z) (r r' : answer) :
  fd ∈ m_clients a → moved a (removeClient a fd) [] [(Sys_epoll_del epfd fd, r); (Sys_close fd, r')].
Proof.
  intros Hin. unfold removeClient. rewrite decide_True by done.
  split; cbn [m_epoll connections outgoing]; try done. exists []. split; [by rewrite app_nil_r | constructor].
Qed.

(** A new connection that is registered, or not. *)
Lemma moved_accept (a : TcpServer) (fd epfd : Z) (r : answer) :
  moved a (accept_one a (Build_accepted fd true (0 <=? a_res r))) [Registration fd (0 <=? a_res r)]
    [(Sys_epoll_add epfd fd, r)].
Proof.
  unfold accept_one, addClientToEpoll. cbn [acc_nonblocking acc_fd acc_registered]. split.
  - done.
  - unfold foldl, epoll_step. cbn [fst snd]. by destruct (0 <=? a_res r).
  - by destruct (0 <=? a_res r).
  - exists []. split; [|constructor]. rewrite app_nil_r. by destruct (0 <=? a_res r).
Qed.

(** One call that is heard and changes nothing. *)
Lemma moved_heard_one (a : TcpServer) (ca : syscall * answer) :
  match ca.1 with Sys_epoll_add _ _ | Sys_epoll_del _ _ | Sys_write _ _ => False | _ => True end →
  moved a a (observe ca) [ca].
Proof.
  destruct ca as [c r]. intros Hc.
  split; unfold heard, changes, writes; cbn [mbind list_bind foldl]; [apply app_nil_r|by destruct c|by destruct c; try done; rewrite app_nil_r|].
  exists []. rewrite filter_cons, decide_False by (by destruct c). split; [by rewrite app_nil_r | constructor].
Qed.

(** ** What follows from an account *)

Section loop.
Context (amh : MessageHandlerFn) (l epfd : Z) (n : nat).

Lemma accounts_loop (a a' : TcpServer) (evs : list server_event) (es : list epoll_event) (tr : trace) :
  accounts amh l a evs es tr a' → serverLoop amh a evs = Ret a' ∧ moved a a' (evs ≫= event_observations) tr.
Proof.
  induction 1 as [a|a a1 a' ev evs e es tr tr' Hev _ Hm _ [IHl IHm]]; [split; [done | apply moved_refl]|].
  split; [|by eapply moved_trans]. unfold serverLoop in *. cbn [fold_outcome]. by rewrite Hev.
Qed.

(** The events of a loop lead the server of TcpServer.v through it. *)
Lemma rounds_loop (a a' : TcpServer) (evs : list server_event) (tr : trace) :
  rounds amh l epfd n a evs tr a' → serverLoop amh a evs = Ret a'.
Proof.
  induction 1 as [| | |a a1 a' evs evs' r e tr tr' _ _ Ha _ IH]; try done.
  apply accounts_loop in Ha as [Hl _]. unfold serverLoop in *. by rewrite fold_outcome_app, Hl.
Qed.

(** All that was heard is in the events, and all that was done is in the trace. *)
Lemma rounds_moved (a a' : TcpServer) (evs : list server_event) (tr : trace) :
  rounds amh l epfd n a evs tr a' → moved a a' (evs ≫= event_observations) tr.
Proof.
  induction 1 as [| | |a a1 a' evs evs' r e tr tr' _ _ Ha _ IH]; repeat (apply moved_silent; [done|]);
    try apply moved_refl; [done|].
  apply accounts_loop in Ha as [_ Hm]. rewrite bind_app. by eapply moved_trans.
Qed.
End loop.
