(* ===== verification/TcpServerCalls.v ===== *)
(** * The TCP server as system calls

    lib/network/tcp_server.cpp once more, with the sockets as objects that own descriptors
    and every system call made explicit: the constructor and destructor, [start], [stop],
    the event loop and the operations on clients.  TcpServer.v has the same loop over what
    the kernel reports; [serverLoop_log] connects the two along the trace, in the terms of
    ServerTrace.v, and [with_server_safe] says what becomes of the descriptors over the life
    of a server.

    Loops have fuel; a program that runs out of it is still in the loop ([Block]), so that
    what comes after the loop does not run.  The message handler is a program over the
    server, the connection handler (which the emulator uses to log) a program that is not
    given the server. *)
From S2P Require Import Prelude Bytes Syscalls SocketCalls Sockets TcpServer ServerTrace.
Local Open Scope Z_scope.

Record Server := Build_Server {
  sv_port : Z;
  sv_maxEvents : nat;
  sv_epollFd : Z;
  sv_serverSocket : option TcpServerSocket;
  sv_running : bool;
  sv_clients : gset Z;
}.

(** Assignments to one member. *)
Definition with_serverSocket (s : Server) (x : option TcpServerSocket) : Server :=
  Build_Server (sv_port s) (sv_maxEvents s) (sv_epollFd s) x (sv_running s) (sv_clients s).
Definition with_running (s : Server) (x : bool) : Server :=
  Build_Server (sv_port s) (sv_maxEvents s) (sv_epollFd s) (sv_serverSocket s) x (sv_clients s).
Definition with_clients (s : Server) (x : gset Z) : Server :=
  Build_Server (sv_port s) (sv_maxEvents s) (sv_epollFd s) (sv_serverSocket s) (sv_running s) x.

Abbreviation MessageHandlerCalls := (Server → Z → list byte → nat → prog Server).
Abbreviation ConnectionHandlerCalls := (Z → bool → prog unit).

(** [TcpClientConnection::write]. *)
Definition connection_write (fuel : nat) (fd : Z) (buffer : list byte) : prog unit :=
  write_calls TcpClientConnection_retry fuel fd buffer.

Definition sys_sendToClient (fuel : nat) (s : Server) (client_fd : Z) (buffer : list byte) : prog Server :=
  if decide (client_fd ∈ sv_clients s) then
    _ ← connection_write fuel client_fd buffer;
    mret s
  else mret s.

(** The clients in the order in which the map lists them. *)
Definition sys_broadcastToAll (fuel : nat) (s : Server) (buffer : list byte) : prog Server :=
  foldr (λ fd p, _ ← connection_write fuel fd buffer; p) (mret s) (elements (sv_clients s)).

Definition sys_addClientToEpoll (s : Server) (client_fd : Z) : prog unit :=
  _ ← call (Sys_epoll_add (sv_epollFd s) client_fd);
  mret tt.

(** Destroying the connections of a map of clients, one by one. *)
Definition close_clients (clients : gset Z) : prog unit :=
  foldr (λ fd p, _ ← TcpClientConnection_delete fd; p) (mret tt) (elements clients).

Definition close_server_socket (x : option TcpServerSocket) : prog unit :=
  match x with
  | Some l => TcpServerSocket_delete l
  | None => mret tt
  end.

Section handlers.
Context (m_messageHandler : MessageHandlerCalls) (m_connectionHandler : ConnectionHandlerCalls).

Definition sys_removeClient (s : Server) (client_fd : Z) : prog Server :=
  if decide (client_fd ∈ sv_clients s) then
    _ ← m_connectionHandler client_fd false;
    _ ← call (Sys_epoll_del (sv_epollFd s) client_fd);
    _ ← TcpClientConnection_delete client_fd;
    mret (with_clients s (sv_clients s ∖ {[client_fd]}))
  else mret s.

Definition sys_disconnectClient (s : Server) (client_fd : Z) : prog Server := sys_removeClient s client_fd.

(** [accept] failing ends the loop, whatever [errno] says.  Assigning to an entry of the
    map destroys the connection that was there. *)
Fixpoint sys_handleNewConnection (fuel : nat) (s : Server) : prog Server :=
  match fuel with
  | O => Block
  | S fuel =>
      match sv_serverSocket s with
      | None => Stop (Undef NullPointer)
      | Some l =>
          client_fd ← acceptConnection l;
          if client_fd <? 0 then mret s
          else
            failed ← set_nonblocking_fails client_fd;
            if (failed : bool) then
              _ ← call (Sys_close client_fd);
              sys_handleNewConnection fuel s
            else
              _ ← TcpClientConnection_new client_fd;
              _ ← (if decide (client_fd ∈ sv_clients s) then TcpClientConnection_delete client_fd else mret tt);
              let s := with_clients s ({[client_fd]} ∪ sv_clients s) in
              _ ← sys_addClientToEpoll s client_fd;
              _ ← m_connectionHandler client_fd true;
              sys_handleNewConnection fuel s
      end
  end.

(** The loop of [handleClientData]; the iterator is valid as long as the client is there. *)
Fixpoint sys_client_loop (fuel : nat) (s : Server) (client_fd : Z) (buffer : list byte) : prog Server :=
  match fuel with
  | O => Block
  | S fuel =>
      if decide (client_fd ∈ sv_clients s) then
        '(r, buffer, offset) ← TcpClientConnection_read SERVER_BUFFER_SIZE client_fd buffer 0;
        if a_res r <? 0 then
          if decide (a_errno r = EAGAIN) then mret s else sys_removeClient s client_fd
        else if a_res r =? 0 then sys_removeClient s client_fd
        else
          s ← (if (0 <? offset)%nat then m_messageHandler s client_fd buffer offset else mret s);
          sys_client_loop fuel s client_fd buffer
      else Stop (Undef DanglingReference)
  end.

Definition sys_handleClientData (fuel : nat) (s : Server) (client_fd : Z) : prog Server :=
  if decide (client_fd ∈ sv_clients s) then sys_client_loop fuel s client_fd (repeat x00 SERVER_BUFFER_SIZE)
  else mret s.

(** The body of the loop over the reported events. *)
Definition sys_handle_event (fuel : nat) (s : Server) (ev : epoll_event) : prog Server :=
  match sv_serverSocket s with
  | None => Stop (Undef NullPointer)
  | Some l =>
      if ev_fd ev =? ss_fd l then sys_handleNewConnection fuel s
      else
        s ← (if ev_in ev then sys_handleClientData fuel s (ev_fd ev) else mret s);
        if ev_hup ev then sys_removeClient s (ev_fd ev) else mret s
  end.

Fixpoint sys_handle_events (fuel : nat) (s : Server) (evs : list epoll_event) : prog Server :=
  match evs with
  | [] => mret s
  | ev :: evs => s ← sys_handle_event fuel s ev; sys_handle_events fuel s evs
  end.

(** [m_running] is read at every round: [stop] sets it from another thread. *)
Fixpoint sys_serverLoop (fuel : nat) (s : Server) : prog Server :=
  match fuel with
  | O => Block
  | S fuel =>
      running ← call Sys_running;
      if a_res running =? 0 then mret s
      else
        e ← call (Sys_epoll_wait (sv_epollFd s) (sv_maxEvents s));
        if a_res e <? 0 then
          if decide (a_errno e = EINTR) then sys_serverLoop fuel s else mret s
        else
          s ← sys_handle_events fuel s (take (Z.to_nat (a_res e)) (a_events e));
          sys_serverLoop fuel s
  end.

Definition sys_TcpServer_new (port : Z) (max_events : nat) : prog Server :=
  e ← call Sys_epoll_create;
  if a_res e <? 0 then throw "Failed to create epoll"
  else mret (Build_Server port max_events (a_res e) None false ∅).

(** [start] may throw after it has changed the server: the server, and what was thrown.
    Assigning [m_serverSocket] destroys the socket that was there. *)
Definition sys_start (s : Server) : prog (Server * option string) :=
  if sv_running s then mret (s, None)
  else
    l ← catch (TcpServerSocket_new (sv_port s));
    match l with
    | inr what => mret (s, Some what)
    | inl l =>
        _ ← close_server_socket (sv_serverSocket s);
        let s := with_serverSocket s (Some l) in
        r ← call (Sys_epoll_add (sv_epollFd s) (ss_fd l));
        if a_res r <? 0 then mret (s, Some "Failed to add server socket to epoll"%string)
        else mret (with_running s true, None)
    end.

(** [stop], once the server thread has been joined. *)
Definition sys_stop (s : Server) : prog Server :=
  if sv_running s then
    let s := with_running s false in
    _ ← close_clients (sv_clients s);
    let s := with_clients s ∅ in
    _ ← close_server_socket (sv_serverSocket s);
    mret (with_serverSocket s None)
  else mret s.

(** The destructor: its body, then the members that own descriptors. *)
Definition sys_TcpServer_delete (s : Server) : prog unit :=
  s ← sys_stop s;
  _ ← (if 0 <=? sv_epollFd s then (_ ← call (Sys_close (sv_epollFd s)); mret tt) else mret tt);
  _ ← close_clients (sv_clients s);
  close_server_socket (sv_serverSocket s).

(** A server that is started, with its thread in the event loop, and what is done with it
    once the loop is over; an exception of [start] destroys it on its way out. *)
Definition with_server (fuel : nat) (port : Z) (max_events : nat) (k : Server → prog unit) : prog unit :=
  s ← sys_TcpServer_new port max_events;
  '(s, what) ← sys_start s;
  match what with
  | Some w =>
      _ ← sys_TcpServer_delete s;
      throw w
  | None => s ← sys_serverLoop fuel s; k s
  end.

(** The life of a server, to its destruction. *)
Definition server_life (fuel : nat) (port : Z) (max_events : nat) : prog unit :=
  with_server fuel port max_events (λ s, s ← sys_stop s; sys_TcpServer_delete s).
End handlers.

(** ** The descriptors of a server *)

Definition server_socket_fds (x : option TcpServerSocket) : gset Z :=
  match x with Some l => {[ss_fd l]} | None => ∅ end.

Definition fds (s : Server) : gset Z :=
  {[sv_epollFd s]} ∪ server_socket_fds (sv_serverSocket s) ∪ sv_clients s.

(** Besides [h0] the open descriptors are those of the server, all different. *)
Record owns (h0 : gset Z) (s : Server) (h : gset Z) : Prop := {
  own_open : h = fds s ∪ h0;
  own_disjoint : fds s ## h0;
  own_nonneg : ∀ fd, fd ∈ fds s → 0 ≤ fd;
  own_epoll : sv_epollFd s ∉ server_socket_fds (sv_serverSocket s) ∪ sv_clients s;
  own_socket : server_socket_fds (sv_serverSocket s) ## sv_clients s;
}.

(** A client comes and goes. *)
Lemma owns_add (h0 h : gset Z) (s : Server) (fd : Z) :
  owns h0 s h → 0 ≤ fd → fd ∉ h → owns h0 (with_clients s ({[fd]} ∪ sv_clients s)) ({[fd]} ∪ h).
Proof.
  intros [-> Hd Hn He Hs] H0 Hfd. unfold fds in *. split; unfold fds in *; cbn [with_clients sv_epollFd sv_serverSocket sv_clients];
    [set_solver..| | set_solver | set_solver].
  intros x Hx. destruct (decide (x = fd)); [by subst|]. apply Hn. set_solver.
Qed.

Lemma owns_remove (h0 h : gset Z) (s : Server) (fd : Z) :
  owns h0 s h → fd ∈ sv_clients s → owns h0 (with_clients s (sv_clients s ∖ {[fd]})) (h ∖ {[fd]}).
Proof.
  intros [-> Hd Hn He Hs] Hfd.
  assert (fd ∈ fds s) as Hin by (unfold fds; set_solver).
  split; unfold fds in *; cbn [with_clients sv_epollFd sv_serverSocket sv_clients]; [|set_solver| |set_solver|set_solver].
  - apply set_eq. intros x. destruct (decide (x = fd)); set_solver.
  - intros x Hx. apply Hn. set_solver.
Qed.

Lemma owns_client (h0 h : gset Z) (s : Server) (fd : Z) :
  owns h0 s h → fd ∈ sv_clients s → fd ∈ h ∧ 0 ≤ fd ∧ sv_epollFd s ∈ h.
Proof. intros [-> Hd Hn He Hs] Hfd. split_and!; [| apply Hn |]; unfold fds; set_solver. Qed.

(** How an operation on clients ends: it changes nothing else, keeps the descriptors in
    order, and establishes [P] of the server and the trace; or it is not over yet, or
    undefined. *)
Definition good (h0 : gset Z) (s : Server) (P : Server → trace → Prop) : log_post Server := λ h' r tr,
  match r with
  | Some (Ret s') => (∃ C, s' = with_clients s C) ∧ owns h0 s' h' ∧ P s' tr
  | Some (Undef _) | None => True
  | Some (Exit _) | Some (Throw _) => False
  end.

Lemma good_bind (h0 h : gset Z) (s : Server) (p : prog Server) (f : Server → prog Server) (P P' : Server → trace → Prop) :
  safe_log h p (good h0 s P) →
  (∀ C h' tr, owns h0 (with_clients s C) h' → P (with_clients s C) tr →
    safe_log h' (f (with_clients s C)) (good h0 (with_clients s C) (λ s' tr', P' s' (tr ++ tr')))) →
  safe_log h (p ≫= f) (good h0 s P').
Proof.
  intros Hp Hf. apply safe_log_bind. eapply safe_log_mono; [exact Hp|]. intros h' [[s'|c|w|u]|] tr; try done.
  intros ([C ->] & Ho & HP). eapply safe_log_mono; [by apply Hf|]. by intros h'' [[s''|c|w|u]|] tr'.
Qed.

Lemma good_ret (h0 h : gset Z) (s : Server) (P : Server → trace → Prop) :
  owns h0 s h → P s [] → safe_log h (mret s) (good h0 s P).
Proof. intros Ho HP. split; [exists (sv_clients s); by destruct s | done]. Qed.

(** Behind the calls [pre], what is established may depend on them. *)
Lemma good_after (pre : trace) (h0 h : gset Z) (s : Server) (p : prog Server) (P P' : Server → trace → Prop) :
  safe_log h p (good h0 s P) → (∀ s' tr, P s' tr → P' s' (pre ++ tr)) →
  safe_log h p (λ h' r tr, good h0 s P' h' r (pre ++ tr)).
Proof.
  intros Hp HP. eapply safe_log_mono; [exact Hp|]. intros h' [[s'|c|w|u]|] tr; try done.
  intros (? & ? & ?). split_and!; auto.
Qed.

Lemma good_weaken (h0 h : gset Z) (s : Server) (p : prog Server) (P P' : Server → trace → Prop) :
  safe_log h p (good h0 s P) → (∀ s' tr, P s' tr → P' s' tr) → safe_log h p (good h0 s P').
Proof. apply (good_after []). Qed.

(** ** The calls of the connection's operations *)

(** [set_nonblocking_fails] is heard when it fails. *)
Lemma nonblocking_log (h : gset Z) (fd : Z) (f : bool → prog Server) (Q : log_post Server) :
  fd ∈ h →
  (∀ failed tr, (∀ a, moved a a (if failed : bool then [StaysBlocking fd] else []) tr) →
     safe_log h (f failed) (λ h' r tr', Q h' r (tr ++ tr'))) →
  safe_log h (set_nonblocking_fails fd ≫= f) Q.
Proof.
  intros Hfd Hf. apply safe_log_bind. unfold set_nonblocking_fails.
  apply safe_log_neutral; [done|fds_open|]. intros r _. destruct (a_res r <? 0) eqn:Hr.
  - apply (Hf true). intros a. pose proof (moved_heard_one a (Sys_getfl fd, r) I) as Hm.
    unfold observe in Hm. cbn [fst snd] in Hm. by rewrite Hr in Hm.
  - apply safe_log_neutral; [done|fds_open|]. intros r' _. apply (Hf (a_res r' <? 0)). intros a.
    apply moved_silent; [unfold silent; cbn [fst snd]; lia|].
    exact (moved_heard_one a (Sys_setfl fd _, r') I).
Qed.

(** The options of a new connection, which owns its descriptor. *)
Lemma connection_new_log (h : gset Z) (fd : Z) (f : Z → prog Server) (Q : log_post Server) :
  fd ∈ h →
  (∀ tr, (∀ a, moved a a [] tr) → safe_log h (f fd) (λ h' r tr', Q h' r (tr ++ tr'))) →
  safe_log h (TcpClientConnection_new fd ≫= f) Q.
Proof.
  intros Hfd Hf. apply safe_log_bind. unfold TcpClientConnection_new, Connection_optimizeForLatency.
  apply safe_log_bind, safe_log_bind, safe_log_neutral; [done|fds_open|]. intros r1 _.
  apply safe_log_neutral; [done|fds_open|]. intros r2 _. apply Hf. intros a.
  do 2 (apply moved_silent; [done|]). apply moved_refl.
Qed.

Lemma connection_read_log (h : gset Z) (size : nat) (fd : Z) (buffer : list byte)
    (f : answer * list byte * nat → prog Server) (Q : log_post Server) :
  fd ∈ h →
  (∀ r, a_res r ≤ 0 → safe_log h (f (r, buffer, 0%nat)) (λ h' r' tr, Q h' r' ((Sys_read fd size, r) :: tr))) →
  (∀ r, 0 < a_res r → length (a_data r) = Z.to_nat (a_res r) →
     safe_log h (f (r, splice 0 (a_data r) buffer, length (a_data r)))
       (λ h' r' tr, Q h' r' ((Sys_read fd size, r) :: tr))) →
  safe_log h (TcpClientConnection_read size fd buffer 0 ≫= f) Q.
Proof.
  intros Hfd Hnone Hdata. apply safe_log_bind. unfold TcpClientConnection_read. rewrite Nat.sub_0_r.
  apply safe_log_neutral; [done|fds_open|]. intros r [_ Hr]. simpl in Hr.
  destruct (Z.ltb_spec (a_res r) 0); [apply Hnone; lia|].
  destruct (Z.eqb_spec (a_res r) 0); [apply Hnone; lia|].
  destruct (Hr ltac:(lia)) as [Hl Hs]. rewrite <- Hl. apply Hdata; (done || lia).
Qed.

Lemma write_log (fuel : nat) (h : gset Z) (fd : Z) (buffer : list byte) :
  fd ∈ h → safe_log h (connection_write fuel fd buffer) (λ h' r tr,
    match r with
    | Some (Ret _) => h' = h ∧ sends fd buffer tr
    | None => True
    | Some _ => False
    end).
Proof.
  intros Hfd. unfold connection_write. revert buffer.
  induction fuel as [|fuel IH]; intros [|b buffer]; cbn [write_calls]; [split; [done|constructor]|done|split; [done|constructor]|].
  apply safe_log_neutral; [done|fds_open|]. intros r _.
  destruct (Z.ltb_spec (a_res r) 0) as [Hneg|Hpos]; [destruct (TcpClientConnection_retry (a_errno r)) eqn:Hre|].
  - eapply safe_log_mono; [apply IH|]. intros h' [[]|] tr; try done. intros [-> Hs]. split; [done|]. by constructor.
  - split; [done|]. by constructor.
  - eapply safe_log_mono; [apply IH|]. intros h' [[]|] tr; try done. intros [-> Hs]. split; [done|]. by constructor.
Qed.

Section loops.
Context (mh : MessageHandlerCalls) (ch : ConnectionHandlerCalls) (amh : MessageHandlerFn) (h0 : gset Z).

(** The connection handler makes no call. *)
Context (Hch : ∀ h fd b, safe_log h (ch fd b) (λ h' r tr, r = Some (Ret tt) ∧ h' = h ∧ tr = [])).

(** A server has the clients of the server of TcpServer.v that it stands for; what both
    have done is compared along the trace. *)
Definition stands_for (s : Server) (a : TcpServer) : Prop := sv_clients s = m_clients a.

(** The descriptor a server listens on. *)
Definition listening (s : Server) : Z := match sv_serverSocket s with Some l => ss_fd l | None => -1 end.

(** The message handler does what the handler of TcpServer.v does. *)
Context (Hmh : ∀ h s a fd buffer n, owns h0 s h → stands_for s a → fd ∈ sv_clients s →
  safe_log h (mh s fd buffer n)
    (good h0 s (λ s' tr, ∃ a', amh a fd buffer n = Ret a' ∧ stands_for s' a' ∧ moved a a' [] tr))).

Lemma connection_handler_log (h : gset Z) (fd : Z) (b : bool) (f : prog Server) (Q : log_post Server) :
  safe_log h f Q → safe_log h (_ ← ch fd b; f) Q.
Proof using Hch.
  intros Hf. apply safe_log_bind. eapply safe_log_mono; [apply Hch|]. by intros h' r tr (-> & -> & ->).
Qed.

Lemma removeClient_log (h : gset Z) (s : Server) (a : TcpServer) (fd : Z) :
  owns h0 s h → stands_for s a →
  safe_log h (sys_removeClient ch s fd)
    (good h0 s (λ s' tr, stands_for s' (removeClient a fd) ∧ moved a (removeClient a fd) [] tr)).
Proof using Hch.
  intros Ho Ha. unfold sys_removeClient. case_decide as Hin.
  2: { apply good_ret; [done|]. unfold removeClient. rewrite <- Ha, decide_False by done. split; [done | apply moved_refl]. }
  destruct (owns_client h0 h s fd Ho Hin) as (Hh & H0 & He). pose proof Hin as Hin'. rewrite Ha in Hin'.
  apply connection_handler_log. apply safe_log_neutral; [done|fds_open|]. intros r _.
  apply safe_log_bind. unfold TcpClientConnection_delete, close_socket. rewrite (proj2 (Z.leb_le 0 fd)) by done.
  apply safe_log_close; [done|]. intros r'. split; [by eexists|]. split; [by apply owns_remove|]. split.
  - unfold stands_for, removeClient. rewrite decide_True by done. simpl. by rewrite Ha.
  - by apply moved_remove.
Qed.

Lemma client_loop_log (fuel : nat) (h : gset Z) (s : Server) (a : TcpServer) (fd : Z) (buffer : list byte) :
  owns h0 s h → stands_for s a →
  safe_log h (sys_client_loop mh ch fuel s fd buffer)
    (good h0 s (λ s' tr, ∃ reads a', client_loop amh a fd buffer reads = Ret a' ∧ stands_for s' a' ∧
       reads_end reads ∧ moved a a' (Received fd <$> reads) tr)).
Proof using Hch Hmh.
  revert h s a buffer. induction fuel as [|fuel IH]; intros h s a buffer Ho Ha; [done|]. cbn [sys_client_loop].
  case_decide as Hin; [|done]. pose proof Hin as Hin'. rewrite Ha in Hin'.
  destruct (owns_client h0 h s fd Ho Hin) as (Hh & H0 & He).
  apply connection_read_log; [done| |]; cbv beta iota.
  - intros r Hle. pose proof (moved_heard_one a (Sys_read fd SERVER_BUFFER_SIZE, r) I) as Hm.
    change (observe _) with [Received fd (read_result_of r)] in Hm. unfold read_result_of in Hm.
    destruct (Z.ltb_spec (a_res r) 0) as [Hneg|Hpos]; [case_decide as Herr|].
    + rewrite bool_decide_true in Hm by done. split; [exists (sv_clients s); by destruct s|]. split; [done|].
      exists [ReadAgain], a. split; [cbn; by rewrite bool_decide_true|]. split; [done|].
      split; [by exists [], ReadAgain | exact Hm].
    + rewrite bool_decide_false in Hm by done. apply (good_after [_] _ _ _ _ _ _ (removeClient_log h s a fd Ho Ha)).
      intros s' tr [Hs' Hmr]. exists [ReadError], (removeClient a fd).
      split; [cbn; by rewrite bool_decide_true|]. split; [done|]. split; [by exists [], ReadError|].
      by apply (moved_trans a a _ [Received fd ReadError] [] [_] tr).
    + rewrite (proj2 (Z.eqb_eq _ 0)) in * by lia. apply (good_after [_] _ _ _ _ _ _ (removeClient_log h s a fd Ho Ha)).
      intros s' tr [Hs' Hmr]. exists [ReadClosed], (removeClient a fd).
      split; [cbn; by rewrite bool_decide_true|]. split; [done|]. split; [by exists [], ReadClosed|].
      by apply (moved_trans a a _ [Received fd ReadClosed] [] [_] tr).
  - intros r Hpos Hl. pose proof (moved_heard_one a (Sys_read fd SERVER_BUFFER_SIZE, r) I) as Hm.
    change (observe _) with [Received fd (read_result_of r)] in Hm. unfold read_result_of in Hm.
    rewrite (proj2 (Z.ltb_ge _ 0)), (proj2 (Z.eqb_neq _ 0)) in * by lia.
    rewrite (proj2 (Nat.ltb_lt 0 _)) by lia.
    apply (good_after [_] h0 h s _ (λ s' tr, ∃ a1 reads a', amh a fd (splice 0 (a_data r) buffer) (length (a_data r)) = Ret a1 ∧
      client_loop amh a1 fd (splice 0 (a_data r) buffer) reads = Ret a' ∧ stands_for s' a' ∧ reads_end reads ∧
      moved a a' (Received fd <$> reads) tr)).
    + eapply good_bind; [by apply Hmh|]. intros C h' tr Ho' (a1 & Ha1 & Hs1 & Hm1).
      eapply good_weaken; [exact (IH h' _ a1 _ Ho' Hs1)|].
      intros s' tr' (reads & a' & Hc & Hs' & Hend & Hm2). exists a1, reads, a'. split_and!; try done.
      by apply (moved_trans a a1 a' [] _ tr tr').
    + intros s' tr (a1 & reads & a' & Ha1 & Hc & Hs' & (bss & last & -> & Hlast) & Hm1).
      exists (ReadBytes (a_data r) :: (ReadBytes <$> bss) ++ [last]), a'. split.
      { cbn [client_loop]. rewrite bool_decide_true by done. cbn [negb]. rewrite Ha1. exact Hc. }
      split; [done|]. split; [by exists (a_data r :: bss), last|].
      by apply (moved_trans a a _ [Received fd (ReadBytes (a_data r))] _ [_] tr).
Qed.

Lemma handleClientData_log (fuel : nat) (h : gset Z) (s : Server) (a : TcpServer) (fd : Z) :
  owns h0 s h → stands_for s a →
  safe_log h (sys_handleClientData mh ch fuel s fd)
    (good h0 s (λ s' tr, ∃ reads a', handleClientData amh a fd reads = Ret a' ∧ stands_for s' a' ∧
       (if bool_decide (fd ∈ m_clients a) then reads_end reads else reads = []) ∧
       moved a a' (Received fd <$> reads) tr)).
Proof using Hch Hmh.
  intros Ho Ha. unfold sys_handleClientData, handleClientData. rewrite <- Ha.
  case_decide as Hin.
  - rewrite bool_decide_true by done. by apply client_loop_log.
  - rewrite bool_decide_false by done. apply good_ret; [done|]. exists [], a. split_and!; try done. apply moved_refl.
Qed.

Lemma handleNewConnection_log (fuel : nat) (h : gset Z) (s : Server) (a : TcpServer) :
  owns h0 s h → stands_for s a →
  safe_log h (sys_handleNewConnection ch fuel s)
    (good h0 s (λ s' tr, ∃ pending, stands_for s' (handleNewConnection a pending) ∧
       moved a (handleNewConnection a pending) (pending ≫= accepted_observations) tr)).
Proof using Hch.
  clear Hmh mh amh. revert h s a. induction fuel as [|fuel IH]; intros h s a Ho Ha; [done|].
  cbn [sys_handleNewConnection].
  destruct (sv_serverSocket s) as [l|] eqn:Hl; [|done].
  assert (ss_fd l ∈ h) as Hlh by (destruct Ho as [-> _ _ _ _]; unfold fds; rewrite Hl; set_solver).
  apply safe_log_bind. unfold acceptConnection. apply safe_log_create; [done|fds_open| |]; intros r Hr.
  - rewrite (proj2 (Z.ltb_lt _ 0)) by lia. cbn [mret prog_ret safe_log].
    split; [exists (sv_clients s); by destruct s|]. split; [done|]. exists []. split; [done|].
    apply moved_silent; [unfold silent; cbn [fst snd]; lia | apply moved_refl].
  - intros Hnew. pose proof (moved_heard_one a (Sys_accept (ss_fd l), r) I) as Hm. unfold observe in Hm. cbn [fst snd] in Hm.
    rewrite (proj2 (Z.leb_le _ _)) in Hm by done.
    set (fd := a_res r) in *. rewrite (proj2 (Z.ltb_ge _ 0)) by done. cbn [mret prog_ret safe_log].
    rewrite (proj2 (Z.ltb_ge _ 0)) by done. apply nonblocking_log; [set_solver|]. intros [] tr1 Hm1.
    + apply safe_log_close; [set_solver|]. intros r'. replace (({[fd]} ∪ h) ∖ {[fd]}) with h by set_solver.
      eapply safe_log_mono; [by apply (IH h s a)|].
      intros h' [[s'|c|w|u]|] tr; try done. intros (HC & Ho' & pending & Hs' & Hmp). split; [done|]. split; [done|].
      exists (Build_accepted fd false false :: pending). split; [exact Hs'|].
      eapply (moved_cons a a _ [Accepted fd] (StaysBlocking fd :: _)); [exact Hm|].
      eapply (moved_trans a a _ [StaysBlocking fd] _ tr1); [apply Hm1|]. by apply moved_silent.
    + apply connection_new_log; [set_solver|]. intros tr2 Hm2. apply safe_log_bind. rewrite decide_False.
      2: { intros Hin. destruct (owns_client h0 h s fd Ho Hin). done. }
      cbn [mret prog_ret safe_log]. set (s1 := with_clients s _).
      assert (Ho1 : owns h0 s1 ({[fd]} ∪ h)) by (by apply owns_add).
      assert (Hin1 : fd ∈ sv_clients s1) by (simpl; set_solver). destruct (owns_client _ _ s1 fd Ho1 Hin1) as (? & _ & ?).
      apply safe_log_bind. unfold sys_addClientToEpoll. apply safe_log_neutral; [done|fds_open|]. intros r' _.
      cbn [mret prog_ret safe_log]. apply connection_handler_log.
      set (c := Build_accepted fd true (0 <=? a_res r')).
      eapply safe_log_mono; [apply (IH _ s1 (accept_one a c)); [done|]|].
      { unfold stands_for, accept_one, addClientToEpoll. subst s1 c. cbn [with_clients sv_clients acc_nonblocking acc_registered acc_fd].
        destruct (0 <=? a_res r'); cbn [m_clients]; by rewrite Ha. }
      intros h' [[s'|e|w|u]|] tr; try done. intros ([C ->] & Ho' & pending & Hs' & Hmp).
      split; [by exists C|]. split; [done|]. exists (c :: pending). split; [exact Hs'|].
      eapply (moved_cons a a _ [Accepted fd] (Registration fd _ :: _)); [exact Hm|].
      eapply (moved_trans a a _ [] _ tr1); [apply Hm1|].
      eapply (moved_trans a a _ [] _ tr2); [apply Hm2|].
      eapply (moved_cons a _ _ [Registration fd _]); [apply moved_accept|exact Hmp].
Qed.

(** What becomes of a reported event. *)
Definition accounted (a : TcpServer) (l : Z) (e : epoll_event) (s' : Server) (tr : trace) : Prop :=
  ∃ ev a', handle_event amh a ev = Ret a' ∧ concerns l a e ev ∧ moved a a' (event_observations ev) tr ∧ stands_for s' a'.

Lemma handle_event_log (fuel : nat) (h : gset Z) (s : Server) (a : TcpServer) (e : epoll_event) :
  owns h0 s h → stands_for s a →
  safe_log h (sys_handle_event mh ch fuel s e) (good h0 s (accounted a (listening s) e)).
Proof using Hch Hmh.
  intros Ho Ha. unfold sys_handle_event, listening. destruct (sv_serverSocket s) as [l|]; [|done].
  destruct (Z.eqb_spec (ev_fd e) (ss_fd l)) as [Heq|Hne].
  { eapply good_weaken; [by apply handleNewConnection_log|]. intros s' tr (pending & Hs' & Hm).
    by exists (EventAccept pending), (handleNewConnection a pending). }
  eapply (good_bind _ _ _ _ _ (λ s' tr, ∃ reads a1,
    (if ev_in e then handleClientData amh a (ev_fd e) reads else Ret a) = Ret a1 ∧ stands_for s' a1 ∧
    (if ev_in e && bool_decide (ev_fd e ∈ m_clients a) then reads_end reads else reads = []) ∧
    moved a a1 (Received (ev_fd e) <$> reads) tr)).
  - destruct (ev_in e); [by apply handleClientData_log|]. apply good_ret; [done|]. exists [], a.
    split_and!; try done. apply moved_refl.
  - intros C h' tr Ho' (reads & a1 & H1 & Hs1 & Hend & Hm1).
    assert (He : e = Build_epoll_event (ev_fd e) (ev_in e) (ev_hup e)) by (by destruct e).
    destruct (ev_hup e) eqn:Hh.
    + eapply good_weaken; [by apply removeClient_log|]. intros s' tr' [Hs' Hm2].
      exists (EventClient (ev_fd e) (ev_in e) reads true), (removeClient a1 (ev_fd e)).
      split; [cbn [handle_event]; by rewrite H1|]. split; [done|]. split; [|done].
      rewrite <- (app_nil_r (event_observations _)). by eapply moved_trans.
    + apply good_ret; [done|]. exists (EventClient (ev_fd e) (ev_in e) reads false), a1.
      split; [cbn [handle_event]; by rewrite H1|]. rewrite app_nil_r. done.
Qed.

Lemma handle_events_log (fuel : nat) (es : list epoll_event) (h : gset Z) (s : Server) (a : TcpServer) :
  owns h0 s h → stands_for s a →
  safe_log h (sys_handle_events mh ch fuel s es)
    (good h0 s (λ s' tr, ∃ events a', accounts amh (listening s) a events es tr a' ∧ stands_for s' a')).
Proof using Hch Hmh.
  revert h s a. induction es as [|e es IH]; intros h s a Ho Ha; cbn [sys_handle_events].
  { apply good_ret; [done|]. exists [], a. split; [constructor | done]. }
  eapply good_bind; [by apply handle_event_log|]. intros C h' tr Ho' (ev & a1 & Hev & Hc & Hm & Ha1).
  eapply good_weaken; [by apply IH|]. intros s' tr' (events & a' & Hacc & Ha'). exists (ev :: events), a'. split; [|done].
  by eapply accounts_cons.
Qed.

Lemma serverLoop_log (fuel : nat) (h : gset Z) (s : Server) (a : TcpServer) :
  owns h0 s h → stands_for s a →
  safe_log h (sys_serverLoop mh ch fuel s)
    (good h0 s (λ s' tr, ∃ events a', rounds amh (listening s) (sv_epollFd s) (sv_maxEvents s) a events tr a' ∧
       stands_for s' a')).
Proof using Hch Hmh.
  revert h s a. induction fuel as [|fuel IH]; intros h s a Ho Ha; [done|]. cbn [sys_serverLoop].
  assert (Hsame : ∃ C, s = with_clients s C) by (exists (sv_clients s); by destruct s).
  apply safe_log_neutral; [done|fds_open|]. intros r _. destruct (Z.eqb_spec (a_res r) 0) as [Hr|Hr].
  { split; [done|]. split; [done|]. exists [], a. split; [by constructor | done]. }
  assert (sv_epollFd s ∈ h) as He by (destruct Ho as [-> _ _ _ _]; unfold fds; set_solver).
  apply safe_log_neutral; [done|fds_open|]. intros e _. destruct (Z.ltb_spec (a_res e) 0) as [Hneg|Hpos]; [case_decide|].
  - apply (good_after [_; _] _ _ _ _ _ _ (IH h s a Ho Ha)). intros s' tr (events & a' & Hro & Ha').
    exists events, a'. split; [|done]. by constructor.
  - split; [done|]. split; [done|]. exists [], a. split; [by constructor | done].
  - fold (reported e). apply (good_after [_; _] h0 h s _ (λ s' tr, ∃ tr1 tr2 events events' a1 a', tr = tr1 ++ tr2 ∧
      accounts amh (listening s) a events (reported e) tr1 a1 ∧
      rounds amh (listening s) (sv_epollFd s) (sv_maxEvents s) a1 events' tr2 a' ∧ stands_for s' a')).
    + eapply good_bind; [by apply handle_events_log|]. intros C h' tr Ho' (events & a1 & Hacc & Ha1).
      eapply good_weaken; [by apply IH|]. intros s' tr' (events' & a' & Hro & Ha').
      by exists tr, tr', events, events', a1, a'.
    + intros s' tr (tr1 & tr2 & events & events' & a1 & a' & -> & Hacc & Hro & Ha').
      exists (events ++ events'), a'. split; [|done].
      exact (rounds_served _ _ _ _ a a1 a' events events' r e tr1 tr2 Hr Hpos Hacc Hro).
Qed.
End loops.

(** ** Creating and destroying a server *)

(** A program that returns and leaves [h0] open. *)
Definition leaves (h0 : gset Z) : post unit := λ h' r, r = Some (Ret tt) ∧ h' = h0.

Lemma leaves_bind {A} (h h0 : gset Z) (p : prog unit) (f : prog A) (Q : post A) :
  safe h p (leaves h0) → safe h0 f Q → safe h (_ ← p; f) Q.
Proof. intros Hp Hf. apply safe_bind. eapply safe_mono; [exact Hp|]. by intros h' r [-> ->]. Qed.

Lemma close_clients_safe (C h : gset Z) :
  C ⊆ h → (∀ fd, fd ∈ C → 0 ≤ fd) → safe h (close_clients C) (leaves (h ∖ C)).
Proof.
  intros Hsub Hn. unfold close_clients.
  assert (Hgen : ∀ (l : list Z) h, NoDup l → (∀ fd, fd ∈ l → fd ∈ h ∧ 0 ≤ fd) →
    safe h (foldr (λ fd p, _ ← TcpClientConnection_delete fd; p) (mret tt) l) (leaves (h ∖ list_to_set l))).
  { clear h Hsub. intros l. induction l as [|fd l IH]; intros h Hnd Hl; cbn [foldr].
    - apply safe_ret. split; [done | set_solver].
    - apply NoDup_cons in Hnd as [Hni Hnd]. destruct (Hl fd) as [Hh H0]; [by left|].
      apply close_socket_safe; [done..|].
      replace (h ∖ list_to_set (fd :: l)) with ((h ∖ {[fd]}) ∖ list_to_set l) by set_solver.
      apply IH; [done|]. intros x Hx. destruct (Hl x) as [? ?]; [by right|]. set_solver. }
  replace C with (list_to_set (C := gset Z) (elements C)) at 2 by apply list_to_set_elements_L.
  apply Hgen; [apply NoDup_elements | set_solver].
Qed.

Lemma close_server_socket_safe (x : option TcpServerSocket) (h : gset Z) :
  server_socket_fds x ⊆ h → (∀ fd, fd ∈ server_socket_fds x → 0 ≤ fd) →
  safe h (close_server_socket x) (leaves (h ∖ server_socket_fds x)).
Proof.
  destruct x as [l|]; simpl; intros Hsub Hn; [|apply safe_ret; split; [done | set_solver]].
  unfold TcpServerSocket_delete, close_socket. rewrite (proj2 (Z.leb_le 0 _)) by set_solver.
  safe_step. by apply safe_ret.
Qed.

Lemma owns_sub (h0 h : gset Z) (s : Server) :
  owns h0 s h → sv_epollFd s ∈ h ∧ server_socket_fds (sv_serverSocket s) ⊆ h ∧ sv_clients s ⊆ h.
Proof. intros [-> _ _ _ _]. unfold fds. set_solver. Qed.

Lemma owns_nonneg (h0 h : gset Z) (s : Server) :
  owns h0 s h → 0 ≤ sv_epollFd s ∧ (∀ fd, fd ∈ server_socket_fds (sv_serverSocket s) → 0 ≤ fd) ∧
  (∀ fd, fd ∈ sv_clients s → 0 ≤ fd).
Proof. intros [_ _ Hn _ _]. unfold fds in Hn. set_solver. Qed.

(** Stopping a server closes its clients and its socket. *)
Lemma stop_safe (h0 h : gset Z) (s : Server) :
  owns h0 s h → safe h (sys_stop s) (λ h' r, ∃ s', r = Some (Ret s') ∧ owns h0 s' h').
Proof.
  intros Ho. unfold sys_stop. destruct (sv_running s); [|apply safe_ret; eauto].
  destruct (owns_sub _ _ _ Ho) as (He & Hl & Hc). destruct (owns_nonneg _ _ _ Ho) as (Ne & Nl & Nc).
  destruct Ho as [-> Hd Hn Hne Hs].
  eapply leaves_bind; [by apply close_clients_safe|]. cbn [with_running with_clients sv_clients sv_serverSocket].
  eapply leaves_bind; [apply close_server_socket_safe; [set_solver | done]|].
  apply safe_ret. eexists. split; [done|]. unfold fds in *.
  split; unfold fds; cbn [with_running with_clients with_serverSocket sv_epollFd sv_serverSocket sv_clients server_socket_fds];
    [|set_solver..].
  apply set_eq. intros x. set_solver.
Qed.

(** Destroying a server closes all its descriptors. *)
Lemma delete_safe (h0 h : gset Z) (s : Server) : owns h0 s h → safe h (sys_TcpServer_delete s) (leaves h0).
Proof.
  intros Ho. unfold sys_TcpServer_delete. apply safe_bind. eapply safe_mono; [by apply stop_safe|].
  clear h s Ho. intros h r (s & -> & Ho).
  destruct (owns_sub _ _ _ Ho) as (He & Hl & Hc). destruct (owns_nonneg _ _ _ Ho) as (Ne & Nl & Nc).
  destruct Ho as [-> Hd Hn Hne Hs]. rewrite (proj2 (Z.leb_le 0 _)) by done.
  apply (leaves_bind _ ((fds s ∪ h0) ∖ {[sv_epollFd s]})); [safe_step; by apply safe_ret|].
  unfold fds in *.
  eapply leaves_bind; [apply close_clients_safe; [set_solver | done]|].
  eapply safe_mono; [apply close_server_socket_safe; [set_solver | done]|].
  intros h' r [-> ->]. split; [done|]. apply set_eq. intros x. set_solver.
Qed.

Lemma new_safe (h0 : gset Z) (port : Z) (max_events : nat) :
  safe h0 (sys_TcpServer_new port max_events) (λ h' r,
    match r with
    | Some (Ret s) => owns h0 s h' ∧ sv_serverSocket s = None ∧ sv_clients s = ∅
    | Some (Throw _) => h' = h0
    | _ => False
    end).
Proof.
  unfold sys_TcpServer_new. safe_step.
  - rewrite (proj2 (Z.ltb_lt _ 0)) by lia. by apply safe_throw.
  - rewrite (proj2 (Z.ltb_ge _ 0)) by done. apply safe_ret. split; [|done].
    split; unfold fds; cbn [sv_epollFd sv_serverSocket sv_clients server_socket_fds]; set_solver.
Qed.

(** [start] of a server without a socket. *)
Lemma start_safe (h0 h : gset Z) (s : Server) :
  owns h0 s h → sv_serverSocket s = None →
  safe h (sys_start s) (λ h' r, ∃ s' what, r = Some (Ret (s', what)) ∧ owns h0 s' h' ∧ sv_clients s' = sv_clients s).
Proof.
  intros Ho Hnone. unfold sys_start. destruct (sv_running s); [apply safe_ret; eauto 6|].
  apply safe_bind, safe_catch. eapply safe_mono; [apply server_socket_safe|].
  intros h' [[l|c|w|u]|]; try done; [|intros ->; apply safe_ret; eauto 6].
  intros (H0 & Hl & ->). rewrite Hnone. apply (leaves_bind _ ({[ss_fd l]} ∪ h)); [apply safe_ret; done|].
  assert (Ho' : owns h0 (with_serverSocket s (Some l)) ({[ss_fd l]} ∪ h)).
  { destruct Ho as [-> Hd Hn He Hs]. unfold fds in *. rewrite Hnone in *. simpl in *.
    split; unfold fds; cbn [with_serverSocket sv_epollFd sv_serverSocket sv_clients server_socket_fds]; set_solver. }
  assert (sv_epollFd s ∈ h) by (by destruct (owns_sub _ _ _ Ho)). cbv zeta.
  apply safe_neutral; [done|fds_open|]. intros r _. destruct (a_res r <? 0); apply safe_ret; eexists _, _; [done|].
  split; [done|]. split; [|done]. by destruct Ho'.
Qed.

(** Where a life ends: what has been returned or thrown, exactly [h0] is open. *)
Definition closed (h0 : gset Z) : post unit := λ h' r,
  match r with
  | Some (Ret _) | Some (Throw _) => h' = h0
  | Some (Undef _) | None => True
  | Some (Exit _) => False
  end.

Lemma with_server_safe (mh : MessageHandlerCalls) (ch : ConnectionHandlerCalls) (amh : MessageHandlerFn) (h0 : gset Z)
    (fuel : nat) (port : Z) (max_events : nat) (k : Server → prog unit) :
  (∀ h fd b, safe_log h (ch fd b) (λ h' r tr, r = Some (Ret tt) ∧ h' = h ∧ tr = [])) →
  (∀ h s a fd buffer n, owns h0 s h → stands_for s a → fd ∈ sv_clients s →
    safe_log h (mh s fd buffer n)
      (good h0 s (λ s' tr, ∃ a', amh a fd buffer n = Ret a' ∧ stands_for s' a' ∧ moved a a' [] tr))) →
  (∀ h s, owns h0 s h → safe h (k s) (closed h0)) →
  safe h0 (with_server mh ch fuel port max_events k) (closed h0).
Proof.
  intros Hch Hmh Hk. unfold with_server. apply safe_bind. eapply safe_mono; [apply new_safe|].
  intros h [[s|c|w|u]|]; try done. intros (Ho & Hnone & Hcl).
  apply safe_bind. eapply safe_mono; [by apply start_safe|]. intros h' r (s' & what & -> & Ho' & Hcl').
  destruct what as [w|].
  { eapply leaves_bind; [by apply delete_safe|]. by apply safe_throw. }
  apply safe_bind. eapply safe_log_safe.
  { apply (serverLoop_log mh ch amh h0 Hch Hmh fuel h' s' TcpServer_new); [done|]. unfold stands_for. by rewrite Hcl', Hcl. }
  intros h'' [[s''|c|w|u]|] tr; try done. intros (_ & Ho'' & _). by apply Hk.
Qed.

Lemma end_of_life_safe (h0 h : gset Z) (s : Server) :
  owns h0 s h → safe h (s ← sys_stop s; sys_TcpServer_delete s) (closed h0).
Proof.
  intros Ho. apply safe_bind. eapply safe_mono; [by apply stop_safe|]. intros h3 r (s3 & -> & Ho3).
  eapply safe_mono; [by apply delete_safe|]. by intros h4 r [-> ->].
Qed.
