(* ===== verification/ExchangeEmulator.v ===== *)
(** * The exchange emulator and the login handshake

    Models apps/exchange_emulator.cpp: [handleSoupBinTcpMessage], the message handler the
    emulator installs in its TcpServer.  The handshake theorems put it together with the
    order entry client: the bytes one side writes are the bytes the other side reads.
    [emulator_invariant] follows the event loop over any events, to its end or to the data
    on which it fails. *)
From S2P Require Import Prelude Bytes Digits Codec Types OuchMessages.
From S2P Require Import SessionMessages ConfigParser OrderManager OrderEntryClient TcpClient TcpServer.
Local Open Scope Z_scope.

(** [str.erase(str.find_last_not_of(' ') + 1)] *)
Fixpoint drop_spaces (rstr : list byte) : list byte :=
  match rstr with
  | c :: rstr' => if Byte.eqb c " " then drop_spaces rstr' else rstr
  | [] => []
  end.
Definition trimString (arr : list byte) : list byte := rev (drop_spaces (rev arr)).

Definition TEST : list byte := String.list_byte_of_string "TEST".
Definition TEST_PWD : list byte := String.list_byte_of_string "TEST_PWD".

(** [length] bytes were received into [data]. *)
Definition handleSoupBinTcpMessage (server : TcpServer) (client_fd : Z) (data : list byte) (length : nat) :
    outcome TcpServer :=
  if (length <? 3)%nat then Ret server
  else
    bs ← read_mem 0 2 data;
    let packet_length := be16toh (le_load bs) in
    if (length <? 2 + Z.to_nat packet_length)%nat then Ret server
    else
      packet_type ← overlay enum1 2 data;
      if is_type packet_type PacketType_LoginRequest then
        if (length <? c_size LoginRequest_codec)%nat then Ret server
        else
          login_req ← overlay LoginRequest_codec 0 data;
          let username := trimString (lr_username login_req) in
          let password := trimString (lr_password login_req) in
          let session_name := trimString (lr_sessionName login_req) in
          if bool_decide (username = TEST) && bool_decide (password = TEST_PWD) then
            let session_name :=
              match session_name with
              | [] => String.list_byte_of_string "SES_" ++ to_string client_fd
              | _ :: _ => session_name
              end in
            let login_accepted := Build_LoginAccepted
              (htobe16 (Z.of_nat (c_size LoginAccepted_codec - c_size PacketLength)))
              (enum_byte PacketType_LoginAccepted)
              (toPaddedArray 10 session_name " ")
              (toPaddedArray 20 (to_string 1) " ") in
            Ret (sendToClient server client_fd (c_enc LoginAccepted_codec login_accepted))
          else Ret (disconnectClient server client_fd)
      else if is_type packet_type PacketType_ClientHeartbeat then Ret server
      else if is_type packet_type PacketType_LogoutRequest then Ret (disconnectClient server client_fd)
      else if is_type packet_type PacketType_UnsequencedData then Ret server
      else Ret server.

(** ** Lemmas *)

Lemma slice_lookup (off : nat) (bs : list byte) (b : byte) : bs !! off = Some b → slice off 1 bs = [b].
Proof. intros H. unfold slice. by rewrite (drop_S _ b) by done. Qed.

Lemma drop_spaces_repeat (n : nat) (l : list byte) : drop_spaces (repeat " "%byte n ++ l) = drop_spaces l.
Proof. induction n as [|n IH]; [done|]. exact IH. Qed.

Lemma rev_repeat {A} (x : A) (n : nat) : rev (repeat x n) = repeat x n.
Proof.
  induction n as [|n IH]; [done|]. simpl. rewrite IH. clear IH. induction n as [|n IH]; [done|].
  simpl. by rewrite IH.
Qed.

(** Padding and trimming are inverse on a string that fits and does not end in a space. *)
Lemma trim_padded (n : nat) (s : list byte) :
  (length s ≤ n)%nat → last s ≠ Some " "%byte → trimString (toPaddedArray n s " ") = s.
Proof.
  intros Hl Hs. unfold trimString, toPaddedArray. rewrite Nat.min_l, firstn_all, drop_replicate by done.
  rewrite rev_app_distr. replace (replicate (n - length s) " "%byte) with (repeat " "%byte (n - length s)).
  2: { generalize (n - length s)%nat. intros k. induction k as [|k IH]; [done|]. simpl. by f_equal. }
  rewrite rev_repeat, drop_spaces_repeat. destruct s as [|c s _] using rev_ind; [done|].
  rewrite last_snoc in Hs. rewrite rev_app_distr. simpl.
  destruct (Byte.eqb c " ") eqn:E; [apply Byte.byte_dec_bl in E; by subst|].
  simpl. by rewrite rev_involutive.
Qed.

(** The credentials the emulator accepts, as the login request carries them. *)
Definition good_credentials (cfg : OrderEntryPartitionConfig) : bool :=
  bool_decide (trimString (toPaddedArray 6 (oec_username cfg) " ") = TEST) &&
  bool_decide (trimString (toPaddedArray 10 (oec_password cfg) " ") = TEST_PWD).

(** It holds when the padded fields are those of TEST and TEST_PWD. *)
Lemma good_credentials_test (cfg : OrderEntryPartitionConfig) :
  toPaddedArray 6 (oec_username cfg) " " = toPaddedArray 6 TEST " " →
  toPaddedArray 10 (oec_password cfg) " " = toPaddedArray 10 TEST_PWD " " →
  good_credentials cfg = true.
Proof. intros Hu Hp. unfold good_credentials. rewrite Hu, Hp. by vm_compute. Qed.

(** The session name of a login without one. *)
Definition new_session_name (client_fd : Z) : list byte :=
  toPaddedArray 10 (String.list_byte_of_string "SES_" ++ to_string client_fd) " ".

Definition login_response (client_fd : Z) : list byte :=
  packet (payload_of (SpLoginAccepted (new_session_name client_fd) (toPaddedArray 20 (to_string 1) " "))).

Lemma login_response_enc (fd : Z) :
  login_response fd = c_enc LoginAccepted_codec (Build_LoginAccepted (htobe16 31)
    (enum_byte PacketType_LoginAccepted) (new_session_name fd) (toPaddedArray 20 (to_string 1) " ")).
Proof.
  unfold login_response, packet, payload_of. cbn [length]. unfold new_session_name.
  autorewrite with algocor_bytes. reflexivity.
Qed.

Lemma handle_login (s : TcpServer) (fd : Z) (a : BistMarketAccessor) (rest : list byte) :
  m_sessionName a = [] →
  handleSoupBinTcpMessage s fd (c_enc LoginRequest_codec (login_request a) ++ rest) 49 =
    Ret (if good_credentials (m_partition a) then sendToClient s fd (login_response fd) else disconnectClient s fd).
Proof.
  intros Hss. pose proof (login_request_ok a) as Hok. pose proof (enc_length _ Hok) as Hlen.
  change (c_size LoginRequest_codec) with 49%nat in Hlen.
  set (bytes := c_enc LoginRequest_codec (login_request a)) in *.
  pose proof (overlay_enc LoginRequest_codec (login_request a) [] rest Hok) as Hov.
  rewrite app_nil_l in Hov. fold bytes in Hov. change (length []) with 0%nat in Hov.
  pose proof (LoginRequest_layout _ _ (dec_enc _ Hok)) as (_ & Hpl & Hpt & _). fold bytes in Hpl, Hpt.
  unfold handleSoupBinTcpMessage. change (49 <? 3)%nat with false. cbn iota.
  rewrite read_mem_ok by (rewrite length_app, Hlen; lia). run_outcome.
  assert (Hpk : be16toh (le_load (slice 0 2 (bytes ++ rest))) = 47).
  { rewrite slice_app_l by lia. unfold be16toh. rewrite bswap_le_load by (apply length_slice; lia).
    rewrite <- Hpl. reflexivity. }
  rewrite Hpk.
  change (49 <? 2 + Z.to_nat 47)%nat with false. cbn iota.
  assert (Ht : overlay enum1 2 (bytes ++ rest) = Ret "L"%byte).
  { unfold overlay. change (c_size enum1) with 1%nat.
    rewrite read_mem_ok by (rewrite length_app, Hlen; lia). run_outcome.
    rewrite slice_app_l by lia. by rewrite (slice_lookup 2 bytes "L"%byte). }
  rewrite Ht. run_outcome. change (is_type "L" PacketType_LoginRequest) with true. cbn iota.
  change (49 <? c_size LoginRequest_codec)%nat with false. cbn iota. rewrite Hov. run_outcome.
  change (lr_username (login_request a)) with (toPaddedArray USERNAME_LENGTH (oec_username (m_partition a)) " ").
  change (lr_password (login_request a)) with (toPaddedArray PASSWORD_LENGTH (oec_password (m_partition a)) " ").
  change (lr_sessionName (login_request a)) with (toPaddedArray SESSION_NAME_LENGTH (m_sessionName a) " ").
  rewrite Hss.
  change (trimString (toPaddedArray SESSION_NAME_LENGTH [] " ")) with ([] : list byte). cbn iota.
  unfold good_credentials. change USERNAME_LENGTH with 6%nat. change PASSWORD_LENGTH with 10%nat.
  destruct (_ && _); [|done]. by rewrite login_response_enc.
Qed.

(** ** The handshake *)

(** The server with one client connected and registered. *)
Definition connected (fd : Z) : TcpServer := accept_one TcpServer_new (Build_accepted fd true true).

Lemma read_one (h : MessageHandlerFn) (s : TcpServer) (fd : Z) (bs : list byte) :
  fd ∈ m_clients s → (length bs ≤ SERVER_BUFFER_SIZE)%nat →
  handleClientData h s fd [ReadBytes bs] =
    s ← h s fd (bs ++ repeat x00 (SERVER_BUFFER_SIZE - length bs)) (length bs);
    client_loop h s fd (bs ++ repeat x00 (SERVER_BUFFER_SIZE - length bs)) [].
Proof.
  intros Hin Hl. unfold handleClientData. rewrite decide_True by done. cbn [client_loop].
  rewrite bool_decide_true by done. cbn [negb].
  assert (Hs : splice 0 bs (repeat x00 SERVER_BUFFER_SIZE) = bs ++ repeat x00 (SERVER_BUFFER_SIZE - length bs)).
  { unfold splice. rewrite take_0, app_nil_l, Nat.add_0_l. f_equal.
    rewrite <- (Nat.sub_add (length bs) SERVER_BUFFER_SIZE) at 1 by done. rewrite Nat.add_comm, repeat_app.
    rewrite drop_app_length'; [done|]. by rewrite repeat_length. }
  by rewrite Hs.
Qed.

(** One event with one read that keeps the client: its handler runs once. *)
Lemma serverLoop_one (h : MessageHandlerFn) (s s' : TcpServer) (fd : Z) (bs : list byte) :
  fd ∈ m_clients s → (length bs ≤ SERVER_BUFFER_SIZE)%nat →
  (∀ rest, h s fd (bs ++ rest) (length bs) = Ret s') → fd ∈ m_clients s' →
  serverLoop h s [EventClient fd true [ReadBytes bs] false] = Ret s'.
Proof.
  intros Hin Hl Hh Hin'. unfold serverLoop. cbn [fold_outcome handle_event].
  rewrite read_one by assumption. rewrite Hh. cbn [mbind outcome_bind client_loop].
  by rewrite bool_decide_true by assumption.
Qed.

(** One event with one read whose handler drops the client: the loop goes on with an
    iterator to the erased entry. *)
Lemma serverLoop_drop (h : MessageHandlerFn) (s s' : TcpServer) (fd : Z) (bs : list byte) (hangup : bool) :
  fd ∈ m_clients s → (length bs ≤ SERVER_BUFFER_SIZE)%nat →
  (∀ rest, h s fd (bs ++ rest) (length bs) = Ret s') → fd ∉ m_clients s' →
  serverLoop h s [EventClient fd true [ReadBytes bs] hangup] = Undef DanglingReference.
Proof.
  intros Hin Hl Hh Hin'. unfold serverLoop. cbn [fold_outcome handle_event].
  rewrite read_one by assumption. rewrite Hh. cbn [mbind outcome_bind client_loop].
  by rewrite bool_decide_false by assumption.
Qed.

Lemma connected_in (fd : Z) : fd ∈ m_clients (connected fd).
Proof. simpl. set_solver. Qed.

Lemma send_connected (fd : Z) (bs : list byte) : outgoing (sendToClient (connected fd) fd bs) = [(fd, bs)].
Proof. unfold sendToClient. by rewrite decide_True by apply connected_in. Qed.

Lemma request_fits : (49 ≤ SERVER_BUFFER_SIZE)%nat.
Proof. unfold SERVER_BUFFER_SIZE. lia. Qed.

Lemma sendToClient_clients (s : TcpServer) (fd : Z) (bs : list byte) :
  m_clients (sendToClient s fd bs) = m_clients s.
Proof. unfold sendToClient. by case_decide. Qed.

Lemma disconnected (s : TcpServer) (fd : Z) : fd ∉ m_clients (disconnectClient s fd).
Proof. unfold disconnectClient, removeClient. case_decide; simpl; set_solver. Qed.

(** The client that was constructed and has written its login request. *)
Definition logged_in (cfg : OrderEntryPartitionConfig) (ca ei : list byte) (last : Z) : outcome BistMarketAccessor :=
  login <$> BistMarketAccessor_new cfg ca ei last.

(** A logout request: three bytes that announce three more. *)
Definition logout_bytes : list byte := toByteArray LogoutRequest_codec logout_request.

Lemma announced_too_long (s : TcpServer) (fd : Z) (bs rest : list byte) :
  (2 ≤ length bs)%nat → (length bs < 2 + Z.to_nat (be_load (slice 0 2 bs)))%nat →
  handleSoupBinTcpMessage s fd (bs ++ rest) (length bs) = Ret s.
Proof.
  intros H2 Hl. unfold handleSoupBinTcpMessage. destruct (length bs <? 3)%nat; [done|].
  rewrite read_mem_ok by (rewrite length_app; lia). run_outcome.
  assert (Hpk : be16toh (le_load (slice 0 2 (bs ++ rest))) = be_load (slice 0 2 bs)).
  { rewrite slice_app_l by lia. unfold be16toh. by rewrite bswap_le_load by (apply length_slice; lia). }
  rewrite Hpk. by rewrite (proj2 (Nat.ltb_lt _ _) Hl).
Qed.

(** The first packet of the buffer is complete, and a login request is long enough. *)
Definition complete_packet (p : list byte) : bool :=
  (3 <=? length p)%nat && (length p =? 2 + Z.to_nat (be_load (slice 0 2 p)))%nat &&
  (negb (bool_decide (slice 2 1 p = [enum_byte PacketType_LoginRequest])) || (49 <=? length p)%nat).

Lemma overlay_app {A} (C : codec A) (off : nat) (p q q' : list byte) :
  (off + c_size C ≤ length p)%nat → overlay C off (p ++ q) = overlay C off (p ++ q').
Proof.
  intros Hl. unfold overlay. rewrite !read_mem_ok by (rewrite length_app; lia). run_outcome.
  by rewrite !slice_app_l by lia.
Qed.

Lemma overlay_enum1_app (off : nat) (p q : list byte) (t : byte) :
  (off < length p)%nat → overlay enum1 off (p ++ q) = Ret t → slice off 1 p = [t].
Proof.
  intros Hl. unfold overlay. change (c_size enum1) with 1%nat.
  rewrite read_mem_ok by (rewrite length_app; lia). run_outcome.
  rewrite slice_app_l by lia. pose proof (length_slice off 1 p) as Hs.
  destruct (slice off 1 p) as [|x [|y l]]; [done| |done]. cbn. by intros [= ->].
Qed.

Lemma handle_first_packet (s : TcpServer) (fd : Z) (p q q' : list byte) (extra : nat) :
  complete_packet p = true →
  handleSoupBinTcpMessage s fd (p ++ q) (length p + extra) = handleSoupBinTcpMessage s fd (p ++ q') (length p).
Proof.
  unfold complete_packet. intros [[H3%Nat.leb_le Hl%Nat.eqb_eq]%andb_prop Ht]%andb_prop.
  unfold handleSoupBinTcpMessage.
  rewrite !(proj2 (Nat.ltb_ge _ 3)) by lia. rewrite !read_mem_ok by (rewrite length_app; lia).
  run_outcome. rewrite !slice_app_l by lia.
  assert (Hpk : be16toh (le_load (slice 0 2 p)) = be_load (slice 0 2 p))
    by (unfold be16toh; apply bswap_le_load, length_slice; lia).
  rewrite Hpk, !(proj2 (Nat.ltb_ge _ (2 + _))) by lia.
  rewrite (overlay_app enum1 2 p q q') by (change (c_size enum1) with 1%nat; lia).
  destruct (overlay enum1 2 (p ++ q')) as [t| | |] eqn:Hov; try done. run_outcome.
  destruct (is_type t PacketType_LoginRequest) eqn:Hlog; try done.
  assert (Hlen : (49 ≤ length p)%nat).
  { apply overlay_enum1_app in Hov; [|lia]. apply orb_prop in Ht as [Ht|Ht]; [|by apply Nat.leb_le].
    apply negb_true_iff, bool_decide_eq_false in Ht. apply Byte.byte_dec_bl in Hlog. by subst. }
  change (c_size LoginRequest_codec) with 49%nat.
  rewrite !(proj2 (Nat.ltb_ge _ 49)) by lia. by rewrite (overlay_app LoginRequest_codec 0 p q q').
Qed.

(** What the emulator sends: a login response with some session name. *)
Definition is_login_response (b : list byte) : Prop :=
  ∃ session, length session = 10%nat ∧
    b = packet (payload_of (SpLoginAccepted session (toPaddedArray 20 (to_string 1) " "))).

Definition emulator_ok (s : TcpServer) : Prop :=
  server_ok s ∧ Forall (λ out, is_login_response (snd out)) (outgoing s).

Lemma login_accepted_is_response (session : list byte) :
  is_login_response (c_enc LoginAccepted_codec (Build_LoginAccepted
    (htobe16 (Z.of_nat (c_size LoginAccepted_codec - c_size PacketLength))) (enum_byte PacketType_LoginAccepted)
    (toPaddedArray 10 session " ") (toPaddedArray 20 (to_string 1) " "))).
Proof.
  exists (toPaddedArray 10 session " "). split; [apply toPaddedArray_length|].
  unfold packet, payload_of. cbn [length]. by autorewrite with algocor_bytes.
Qed.

Lemma removeClient_emulator (s : TcpServer) (fd : Z) : emulator_ok s → emulator_ok (removeClient s fd).
Proof.
  intros [Hs Hf]. split; [auto with algocor|]. unfold removeClient. by case_decide.
Qed.

Lemma accept_one_emulator (s : TcpServer) (c : accepted) : emulator_ok s → emulator_ok (accept_one s c).
Proof.
  intros [Hs Hf]. split; [auto with algocor|]. unfold accept_one, addClientToEpoll. by destruct (acc_nonblocking c), (acc_registered c).
Qed.

Lemma sendToClient_emulator (s : TcpServer) (fd : Z) (b : list byte) :
  is_login_response b → emulator_ok s → emulator_ok (sendToClient s fd b).
Proof.
  intros Hb [Hs Hf]. split; [auto with algocor|]. unfold sendToClient. case_decide; [|done].
  cbn [outgoing]. apply Forall_app. split; [done|]. by constructor.
Qed.

#[export] Hint Resolve removeClient_emulator accept_one_emulator sendToClient_emulator : algocor.

(** With a buffer of the server's size the handler always returns: it leaves the server
    as it is, sends a login response to the client, or removes it. *)
Lemma handler_total (s : TcpServer) (fd : Z) (data : list byte) (n : nat) :
  (SERVER_BUFFER_SIZE ≤ length data)%nat →
  ∃ s', handleSoupBinTcpMessage s fd data n = Ret s' ∧
    (s' = s ∨ (∃ b, is_login_response b ∧ s' = sendToClient s fd b) ∨ s' = disconnectClient s fd).
Proof.
  intros Hl. change SERVER_BUFFER_SIZE with 4096%nat in Hl. unfold handleSoupBinTcpMessage.
  destruct (n <? 3)%nat; [eauto|]. rewrite read_mem_ok by lia. run_outcome. cbv zeta.
  destruct (n <? _)%nat; [eauto|].
  destruct (overlay_total enum1 2 data) as (t & -> & _); [change (c_size enum1) with 1%nat; lia|]. run_outcome.
  destruct (is_type t PacketType_LoginRequest).
  - destruct (n <? _)%nat; [eauto|].
    destruct (overlay_total LoginRequest_codec 0 data) as (req & -> & _); [change (c_size LoginRequest_codec) with 49%nat; lia|].
    run_outcome. destruct (_ && _); eexists; (split; [done|]); [|auto].
    right. left. eexists. split; [apply login_accepted_is_response | done].
  - repeat (destruct (is_type t _); [eauto|]). eauto.
Qed.

Lemma handler_keeps (P : TcpServer → Prop) (s : TcpServer) (fd : Z) (data : list byte) (n : nat) :
  (∀ s b, is_login_response b → P s → P (sendToClient s fd b)) → (∀ s, P s → P (removeClient s fd)) →
  P s → (SERVER_BUFFER_SIZE ≤ length data)%nat → ∃ s', handleSoupBinTcpMessage s fd data n = Ret s' ∧ P s'.
Proof.
  intros Hsend Hremove Hs Hl. destruct (handler_total s fd data n Hl) as (s' & Hr & Hcases). exists s'. split; [done|].
  destruct Hcases as [->|[(b & Hb & ->)| ->]]; [done| by apply Hsend | by apply Hremove].
Qed.

(** When all clients could be registered, all are. *)
Definition registers (c : accepted) : Prop := acc_nonblocking c = true → acc_registered c = true.

Lemma registered_server (events : list server_event) (s : TcpServer) :
  Forall registers (events ≫= event_accepts) → serverLoop handleSoupBinTcpMessage TcpServer_new events = Ret s →
  all_registered s.
Proof.
  intros Hreg Hs. destruct (serverLoop_cases handleSoupBinTcpMessage all_registered registers) with events TcpServer_new
    as [(s' & Hr & Hs')|[Hu _]]; try done.
  - intros s' c Hc Ha. unfold all_registered, registers, accept_one, addClientToEpoll in *.
    destruct (acc_nonblocking c); [|done]. rewrite Hc by done. simpl. by rewrite Ha.
  - intros s' fd Ha. unfold all_registered, removeClient in *. case_decide; simpl; by rewrite ?Ha.
  - intros. apply handler_keeps; [|..]; try done.
    + intros s' b _. unfold all_registered, sendToClient. by case_decide.
    + intros s' Ha. unfold all_registered, removeClient in *. case_decide; simpl; by rewrite ?Ha.
  - rewrite Hr in Hs. by injection Hs as <-.
  - by rewrite Hu in Hs.
Qed.

(** ** Properties *)

(** The login handshake succeeds end to end: the login request of a client with the
    emulator's credentials makes the emulator send exactly one packet, to that client;
    when the client receives these bytes, in any chunks, it becomes Continuous with the
    session name SES_fd and sends its first order. *)
Theorem login_handshake `{P : Platform} (cfg : OrderEntryPartitionConfig) (ca ei : list byte) (last fd : Z)
    (chunks : list (list byte)) (n : nat) :
  0 ≤ last < 2 ^ 31 - 1 → (length ei ≤ 32)%nat → oec_instrumentType cfg = Equity →
  toPaddedArray 6 (oec_username cfg) " " = toPaddedArray 6 TEST " " →
  toPaddedArray 10 (oec_password cfg) " " = toPaddedArray 10 TEST_PWD " " →
  concat chunks = login_response fd → pieces chunks → (length chunks < n)%nat →
  ∃ a request s c,
    logged_in cfg ca ei last = Ret a ∧ written a = [request] ∧
    serverLoop handleSoupBinTcpMessage (connected fd) [EventClient fd true [ReadBytes request] false] = Ret s ∧
    outgoing s = [(fd, login_response fd)] ∧
    startRead n (TcpClient_new a) chunks = Ret c ∧
    m_accState (m_marketAccessor c) = AccContinuous ∧
    m_sessionName (m_marketAccessor c) = new_session_name fd ∧
    written (m_marketAccessor c) = [request; ouch_frame EnterOrder_codec
      (enter_order (padded_info ei) (nextToken (OrderManager_new last)).2 78436 "S" 5000 770000)].
Proof.
  intros Hl He Heq Hu Hp Hch Hchs Hn.
  destruct (BistMarketAccessor_new_ok cfg ca ei last Hl He)
    as (a0 & Hnew & Hok0 & Hei & Hcfg & _ & Hw & Hss & _ & Hom).
  set (request := c_enc LoginRequest_codec (login_request a0)).
  assert (Hok : accessor_ok (login a0)) by (destruct Hok0; destruct a0; by split).
  assert (Hlog : m_exchangeInfo (login a0) = ei ∧ m_partition (login a0) = cfg ∧ written (login a0) = [request] ∧
    m_orderManager (login a0) = OrderManager_new last)
    by (unfold request; destruct a0; simpl in *; by subst).
  destruct Hlog as (Hei' & Hcfg' & Hw' & Hom').
  set (la := Build_LoginAccepted (bswap 2 31) "A" (new_session_name fd) (toPaddedArray 20 (to_string 1) " ")).
  destruct (onLoginAccepted_lemma (login a0) la Hok) as (a1 & Hr & _ & Hst & Hsn & Hwr); [by rewrite Hei'|].
  rewrite Hcfg', Heq, Hei', Hw', Hom' in Hwr.
  destruct (session_reacts (login a0) a1 [SpLoginAccepted (new_session_name fd) (toPaddedArray 20 (to_string 1) " ")]
    chunks n) as (c & Hc & Ha & _).
  - constructor; [|done]. cbn [server_packet_ok]. unfold new_session_name. by rewrite !toPaddedArray_length.
  - cbn [fold_outcome react effect is_response andb]. fold la. by rewrite Hr.
  - rewrite Hch. cbn. by rewrite app_nil_r.
  - done.
  - done.
  - assert (Hreq : length request = 49%nat) by (apply (enc_length (c := LoginRequest_codec)), login_request_ok).
    eexists (login a0), request, (sendToClient (connected fd) fd (login_response fd)), c.
    unfold logged_in. rewrite Hnew. split; [done|]. split; [done|]. split; [|split; [|split; [exact Hc|]]].
    + apply serverLoop_one; [apply connected_in | rewrite Hreq; apply request_fits | |].
      2: { rewrite sendToClient_clients. apply connected_in. }
      intros rest. rewrite Hreq. unfold request. rewrite handle_login by assumption.
      by rewrite good_credentials_test by (by rewrite Hcfg).
    + apply send_connected.
    + rewrite Ha. split; [exact Hst|]. split; [exact Hsn | exact Hwr].
Qed.

Lemma login_handshake_witness :
  ∃ s c request,
    serverLoop handleSoupBinTcpMessage (connected 5) [EventClient 5 true [ReadBytes request] false] = Ret s ∧
    outgoing s = [(5, login_response 5)] ∧
    m_accState (m_marketAccessor c) = AccContinuous ∧
    m_sessionName (m_marketAccessor c) = String.list_byte_of_string "SES_5     ".
Proof.
  destruct (@login_handshake cxx_platform sample_config sample_client_account sample_exchange_info 1 5
    [take 7 (login_response 5); drop 7 (login_response 5)] 3)
    as (a & request & s & c & _ & _ & Hs & Ho & _ & Hst & Hsn & _).
  - lia.
  - apply (bool_decide_unpack _). by vm_compute.
  - done.
  - done.
  - done.
  - by vm_compute.
  - apply (bool_decide_unpack _). by vm_compute.
  - apply (bool_decide_unpack _). by vm_compute.
  - exists s, c, request. split; [exact Hs|]. split; [exact Ho|]. split; [exact Hst|]. rewrite Hsn. by vm_compute.
Defined.

(** C25. The emulator's server: whatever the clients send, whenever they come and go, and
    whichever of the kernel's calls for a new connection fail, the descriptors registered
    with epoll are those of connected clients (of all of them when the registrations
    succeed) and nothing but well-formed LoginAccepted packets is ever sent.  The event
    loop returns on any events, with one exception: data for which the handler removes the
    client that sent it, such as a rejected login, is undefined behaviour as soon as the
    next read is attempted, and the invariant holds up to that data. *)
Theorem emulator_invariant (events : list server_event) :
  match serverLoop handleSoupBinTcpMessage TcpServer_new events with
  | Ret s =>
      server_ok s ∧ Forall (λ out, is_login_response (snd out)) (outgoing s) ∧
      (Forall registers (events ≫= event_accepts) → all_registered s)
  | Undef u =>
      u = DanglingReference ∧
      ∃ events1 fd reads bs reads' hangup events2 s rest,
        events = events1 ++ EventClient fd true (reads ++ ReadBytes bs :: reads') hangup :: events2 ∧
        serverLoop handleSoupBinTcpMessage TcpServer_new (events1 ++ [EventClient fd true reads false]) = Ret s ∧
        server_ok s ∧ Forall (λ out, is_login_response (snd out)) (outgoing s) ∧ fd ∈ m_clients s ∧
        handleSoupBinTcpMessage s fd (bs ++ rest) (length bs) = Ret (disconnectClient s fd)
  | Exit _ | Throw _ => False
  end.
Proof.
  destruct (serverLoop_cases handleSoupBinTcpMessage emulator_ok (λ _, True)) with events TcpServer_new
    as [(s & Hr & Hs)|(Hu & ev1 & fd & reads & bs & reads' & hangup & ev2 & s & -> & Hr & Hrem)].
  - intros; auto with algocor.
  - intros; auto with algocor.
  - intros. apply handler_keeps; auto with algocor.
  - by split; [|constructor].
  - by apply Forall_true.
  - rewrite Hr. destruct Hs as [Hs Hf]. split_and!; [done..|]. intros. by eapply registered_server.
  - rewrite Hu. split; [done|]. destruct Hrem as ([Hs Hf] & Hin & rest & s' & Hl & Hh & Hout).
    exists ev1, fd, reads, bs, reads', hangup, ev2, s, rest. split_and!; try done.
    destruct (handler_total s fd (bs ++ rest) (length bs) Hl) as (s2 & Hr2 & Hcases).
    rewrite Hh in Hr2. injection Hr2 as <-. destruct Hcases as [->|[(b & _ & ->)| ->]]; [done| |done].
    by rewrite sendToClient_clients in Hout.
Qed.

Definition sample_login : list byte :=
  x00 :: x2f :: "L"%byte :: String.list_byte_of_string "TEST  TEST_PWD            1                   ".

Definition sample_events : list server_event :=
  [EventAccept [Build_accepted 5 true true; Build_accepted 6 false false; Build_accepted 7 true false];
   EventClient 5 true [ReadBytes sample_login; ReadAgain] false; EventClient 7 true [ReadClosed] true].

(** Two clients connect, one logs in, the other, which could not be registered, hangs up. *)
Lemma emulator_invariant_witness :
  ∃ s, serverLoop handleSoupBinTcpMessage TcpServer_new sample_events = Ret s ∧
    outgoing s = [(5, login_response 5)] ∧ m_epoll s = {[5]} ∧
    server_ok s ∧ Forall (λ out, is_login_response (snd out)) (outgoing s).
Proof.
  pose proof (emulator_invariant sample_events) as Hinv.
  destruct (serverLoop handleSoupBinTcpMessage TcpServer_new sample_events) as [s| | |] eqn:Hs; [|by vm_compute in Hs..].
  exists s. split; [done|]. destruct Hinv as (Hok & Hf & _). vm_compute in Hs. injection Hs as <-. split_and!; try done.
Defined.

(** Of several packets that arrive in one read only the first is handled: a complete
    first packet is handled as if the bytes behind it had not been received. *)
Theorem first_packet_only (s : TcpServer) (fd : Z) (p q rest : list byte) :
  complete_packet p = true →
  handleSoupBinTcpMessage s fd (p ++ q ++ rest) (length p + length q) =
  handleSoupBinTcpMessage s fd (p ++ rest) (length p).
Proof. intros Hp. by apply handle_first_packet. Qed.

(** A heartbeat and a login request in one read: the login is lost. *)
Lemma first_packet_only_witness :
  let heartbeat := [x00; x01; "R"%byte] in
  let login_bytes := x00 :: x2f :: repeat "L"%byte 47 in
  handleSoupBinTcpMessage (connected 5) 5 (heartbeat ++ login_bytes ++ repeat x00 8) (3 + 49) = Ret (connected 5).
Proof.
  cbv zeta.
  etransitivity; [apply (first_packet_only (connected 5) 5 [x00; x01; "R"%byte] (x00 :: x2f :: repeat "L"%byte 47)) |];
    by vm_compute.
Defined.

(** C35. A client with other credentials is removed while its data is being read, and the
    loop of handleClientData goes on with an iterator to the erased entry. *)
Theorem rejected_login_dangling (cfg : OrderEntryPartitionConfig) (ca ei : list byte) (last fd : Z) (hangup : bool) :
  0 ≤ last < 2 ^ 31 - 1 → (length ei ≤ 32)%nat → good_credentials cfg = false →
  ∃ a request, logged_in cfg ca ei last = Ret a ∧ written a = [request] ∧
    serverLoop handleSoupBinTcpMessage (connected fd) [EventClient fd true [ReadBytes request] hangup] =
    Undef DanglingReference.
Proof.
  intros Hl He Hg.
  destruct (BistMarketAccessor_new_ok cfg ca ei last Hl He) as (a & Hnew & _ & _ & Hcfg & _ & Hw & Hss & _ & _).
  exists (login a), (c_enc LoginRequest_codec (login_request a)).
  pose proof (enc_length _ (login_request_ok a)) as Hreq. change (c_size LoginRequest_codec) with 49%nat in Hreq.
  split; [unfold logged_in; by rewrite Hnew|]. split; [destruct a; simpl in *; by subst|].
  apply (serverLoop_drop _ (connected fd) (disconnectClient (connected fd) fd)).
  - apply connected_in.
  - rewrite Hreq. apply request_fits.
  - intros rest. rewrite Hreq, handle_login by assumption. by rewrite Hcfg, Hg.
  - apply disconnected.
Qed.

Lemma rejected_login_dangling_witness :
  let cfg := Build_OrderEntryPartitionConfig (oec_name sample_config) Equity (oec_ip sample_config) 6642
    (oec_port_str sample_config) (String.list_byte_of_string "TEST") (String.list_byte_of_string "WRONG") in
  ∃ request, serverLoop handleSoupBinTcpMessage (connected 5) [EventClient 5 true [ReadBytes request] false] =
    Undef DanglingReference.
Proof.
  intros cfg. destruct (rejected_login_dangling cfg sample_client_account sample_exchange_info 1 5 false)
    as (a & request & _ & _ & H).
  - lia.
  - apply (bool_decide_unpack _). by vm_compute.
  - by vm_compute.
  - exists request. exact H.
Defined.

(** A logout is ignored: the client's logout request announces three bytes and
    carries one, so the emulator takes it for incomplete, and the client stays
    connected until it closes the connection. *)
Theorem logout_ignored (s : TcpServer) (fd : Z) :
  fd ∈ m_clients s →
  serverLoop handleSoupBinTcpMessage s [EventClient fd true [ReadBytes logout_bytes] false] = Ret s.
Proof.
  intros Hin. apply serverLoop_one; [done| |intros rest; by apply announced_too_long; vm_compute; lia|done].
  change (length logout_bytes) with 3%nat. pose proof request_fits. lia.
Qed.

Lemma logout_ignored_witness :
  serverLoop handleSoupBinTcpMessage (connected 5) [EventClient 5 true [ReadBytes logout_bytes] false] =
  Ret (connected 5).
Proof. apply (logout_ignored (connected 5) 5). apply connected_in. Defined.
