(* ===== verification/EmulatorCalls.v ===== *)
(** * The exchange emulator against the kernel

    apps/exchange_emulator.cpp on top of the server of TcpServerCalls.v: what the handler
    does with a message is a [reaction], which the handler of ExchangeEmulator.v applies to
    the server of TcpServer.v and [sys_handleSoupBinTcpMessage] carries out with system
    calls.  The emulator then runs against any kernel that answers as documented:
    [emulator_main] as the code has it, [emulator_life] with the end that the code never
    comes to. *)
From S2P Require Import Prelude Bytes Digits Codec Types SessionMessages OrderEntryClient TcpClient TcpServer.
From S2P Require Import ExchangeEmulator.
From S2P Require Import Syscalls SocketCalls Sockets ServerTrace TcpServerCalls.
Local Open Scope Z_scope.

(** What a message makes the emulator do with the client that sent it. *)
Inductive reaction :=
  | Nothing
  | Reply (buffer : list byte)
  | Disconnect.

(** The decisions of [handleSoupBinTcpMessage]. *)
Definition soupbin_reaction (client_fd : Z) (data : list byte) (length : nat) : outcome reaction :=
  if (length <? 3)%nat then Ret Nothing
  else
    bs ← read_mem 0 2 data;
    let packet_length := be16toh (le_load bs) in
    if (length <? 2 + Z.to_nat packet_length)%nat then Ret Nothing
    else
      packet_type ← overlay enum1 2 data;
      if is_type packet_type PacketType_LoginRequest then
        if (length <? c_size LoginRequest_codec)%nat then Ret Nothing
        else
          login_req ← overlay LoginRequest_codec 0 data;
          let username := trimString (lr_username login_req) in
          let password := trimString (lr_password login_req) in
          let session_name := trimString (lr_sessionName login_req) in
          if bool_decide (username = TEST) && bool_decide (password = TEST_PWD) then
            let session_name :=
              match session_name with
              | [] => String.list_byte_of_string "SES_" ++ to_string client_fd
              | _ :: _ => session_name
              end in
            Ret (Reply (c_enc LoginAccepted_codec (Build_LoginAccepted
              (htobe16 (Z.of_nat (c_size LoginAccepted_codec - c_size PacketLength)))
              (enum_byte PacketType_LoginAccepted)
              (toPaddedArray 10 session_name " ")
              (toPaddedArray 20 (to_string 1) " "))))
          else Ret Disconnect
      else if is_type packet_type PacketType_ClientHeartbeat then Ret Nothing
      else if is_type packet_type PacketType_LogoutRequest then Ret Disconnect
      else if is_type packet_type PacketType_UnsequencedData then Ret Nothing
      else Ret Nothing.

Definition react (server : TcpServer) (client_fd : Z) (r : reaction) : TcpServer :=
  match r with
  | Nothing => server
  | Reply buffer => sendToClient server client_fd buffer
  | Disconnect => disconnectClient server client_fd
  end.

Lemma handler_reaction (server : TcpServer) (client_fd : Z) (data : list byte) (length : nat) :
  handleSoupBinTcpMessage server client_fd data length =
    r ← soupbin_reaction client_fd data length; Ret (react server client_fd r).
Proof.
  unfold handleSoupBinTcpMessage, soupbin_reaction. destruct (length <? 3)%nat; [done|].
  rewrite outcome_bind_assoc. destruct (read_mem 0 2 data); run_outcome; try done. cbv zeta.
  destruct (length <? _)%nat; [done|]. rewrite outcome_bind_assoc.
  destruct (overlay enum1 2 data) as [t|?|?|?]; run_outcome; try done.
  destruct (is_type t PacketType_LoginRequest).
  - destruct (length <? _)%nat; [done|]. rewrite outcome_bind_assoc.
    destruct (overlay LoginRequest_codec 0 data) as [req|?|?|?]; run_outcome; try done. cbv zeta.
    by destruct (_ && _).
  - by repeat destruct (is_type t _).
Qed.

(** The connection handler logs. *)
Definition log_connection (client_fd : Z) (connected : bool) : prog unit := mret tt.

(** The message handler of the running emulator. *)
Definition sys_handleSoupBinTcpMessage (fuel : nat) (server : Server) (client_fd : Z) (data : list byte) (length : nat) :
    prog Server :=
  match soupbin_reaction client_fd data length with
  | Ret Nothing => mret server
  | Ret (Reply buffer) => sys_sendToClient fuel server client_fd buffer
  | Ret Disconnect => sys_disconnectClient log_connection server client_fd
  | Exit c => Stop (Exit c)
  | Throw w => Stop (Throw w)
  | Undef u => Stop (Undef u)
  end.

(** [main]: the server on port 6642, with the default of 1024 events, and once it has been
    started the endless sleep, which outlives the event loop.  An exception of the
    constructor or of [start] leaves [main]; the server is destroyed on the way, which C++
    leaves open when nothing catches it. *)
Definition emulator_main (fuel : nat) : prog unit :=
  with_server (sys_handleSoupBinTcpMessage fuel) log_connection fuel 6642 1024 (λ _, Block).

(** The life of the same server with its end, which [main] never comes to: stopped and
    destroyed when the event loop is over. *)
Definition emulator_life (fuel : nat) : prog unit :=
  server_life (sys_handleSoupBinTcpMessage fuel) log_connection fuel 6642 1024.

(** ** Lemmas *)

Lemma reaction_fails (client_fd : Z) (data : list byte) (length : nat) :
  match soupbin_reaction client_fd data length with Exit _ | Throw _ => False | _ => True end.
Proof.
  unfold soupbin_reaction, overlay, read_mem. destruct (length <? 3)%nat; [done|].
  repeat (run_outcome; cbv zeta; match goal with |- context [if ?b then _ else _] => destruct b | |- context [match c_dec ?c ?x with _ => _ end] => destruct (c_dec c x) end; try done).
Qed.

Lemma log_connection_log (h : gset Z) (fd : Z) (b : bool) :
  safe_log h (log_connection fd b) (λ h' r tr, r = Some (Ret tt) ∧ h' = h ∧ tr = []).
Proof. done. Qed.

(** The running handler does what the handler of ExchangeEmulator.v does: the same to the
    clients, and what that one sends is what this one writes. *)
Lemma sys_handler_log (h0 : gset Z) (fuel : nat) (h : gset Z) (s : Server) (a : TcpServer) (fd : Z) (buffer : list byte)
    (n : nat) :
  owns h0 s h → stands_for s a → fd ∈ sv_clients s →
  safe_log h (sys_handleSoupBinTcpMessage fuel s fd buffer n)
    (good h0 s (λ s' tr, ∃ a', handleSoupBinTcpMessage a fd buffer n = Ret a' ∧ stands_for s' a' ∧ moved a a' [] tr)).
Proof.
  intros Ho Ha Hin. unfold sys_handleSoupBinTcpMessage. rewrite handler_reaction.
  pose proof (reaction_fails fd buffer n) as Hr.
  destruct (soupbin_reaction fd buffer n) as [r|c|w|u]; try done. run_outcome.
  destruct r as [|b|]; cbn [react].
  - apply good_ret; [done|]. exists a. split_and!; try done. apply moved_refl.
  - unfold sys_sendToClient. rewrite decide_True by done. destruct (owns_client _ _ _ _ Ho Hin) as [Hh _].
    apply safe_log_bind. eapply safe_log_mono; [by apply write_log|]. intros h' [[]|] tr; try done. intros [-> Hs].
    split; [exists (sv_clients s); by destruct s|]. rewrite app_nil_r. split; [done|]. eexists. split; [done|]. split.
    + unfold stands_for. by rewrite sendToClient_clients.
    + apply moved_sends; [by rewrite <- Ha | done].
  - eapply good_weaken; [apply (removeClient_log log_connection h0 log_connection_log); [done|exact Ha]|].
    intros s' tr [Hs' Hm]. by eexists.
Qed.

(** ** Properties *)

(** C10. Whatever the kernel answers and however long the emulator runs, in [main] as in the
    whole life of its server ([emulator_life]), every system call works on a descriptor
    that is open at that time and belongs to it; once the server has been stopped and
    destroyed, or has not come up because of an exception and has been unwound, exactly the
    descriptors that were open before are open.  Nothing is said of a run after undefined
    behaviour, into which a rejected login leads. *)
Theorem emulator_descriptors (h0 : gset Z) (K : kernel) (fuel : nat) (program : prog unit)
    (r : option (outcome unit)) (tr : trace) :
  kernel_ok h0 K → program = emulator_main fuel ∨ program = emulator_life fuel → run K [] program = (r, tr) →
  uses_ok h0 tr ∧
  match r with
  | Some (Ret _) | Some (Throw _) => open_fds h0 tr = h0
  | Some (Undef _) | None => True
  | Some (Exit _) => False
  end.
Proof.
  intros HK Hp Hr. assert (Hs : safe h0 program (closed h0)).
  { destruct Hp as [-> | ->]; apply (with_server_safe _ _ handleSoupBinTcpMessage); try apply log_connection_log;
      try apply sys_handler_log; [done | apply end_of_life_safe]. }
  destruct (safe_run h0 K [] _ _ HK Hs) as (tr' & Ht & Hu & HQ). rewrite Hr in Ht, HQ. simpl in Ht. by subst tr'.
Qed.

(** C17. The event loop against the kernel refines the event loop of TcpServer.v with the
    handler of ExchangeEmulator.v, call by call: whenever it returns, its trace determines
    events that lead that loop from the same clients to the same clients.  Event by event
    these are the ones [epoll_wait] reported, with the connections that [accept] returned,
    what became of [fcntl] and [epoll_ctl] for each, and the results of the reads, which
    go on to the first that is not data; and what the server of TcpServer.v records as
    registered, connected, disconnected and sent in each event is what was asked of the
    kernel while it was served, every message in portions that make up all of it unless
    an error ended them.  The server still owns exactly its descriptors. *)
Theorem serverLoop_refines (h0 h : gset Z) (K : kernel) (fuel : nat) (s s' : Server) (a : TcpServer) (tr : trace) :
  kernel_ok h K → owns h0 s h → stands_for s a →
  run K [] (sys_serverLoop (sys_handleSoupBinTcpMessage fuel) log_connection fuel s) = (Some (Ret s'), tr) →
  ∃ events a',
    serverLoop handleSoupBinTcpMessage a events = Ret a' ∧
    rounds handleSoupBinTcpMessage (listening s) (sv_epollFd s) (sv_maxEvents s) a events tr a' ∧
    heard tr = (events ≫= event_observations) ∧
    m_epoll a' = foldl epoll_step (m_epoll a) tr ∧
    connections a' = connections a ++ changes tr ∧
    (∃ msgs, outgoing a' = outgoing a ++ msgs ∧ delivered msgs (writes tr)) ∧
    stands_for s' a' ∧ owns h0 s' (open_fds h tr).
Proof.
  intros HK Ho Ha Hr.
  destruct (safe_log_run h K [] _ _ HK
    (serverLoop_log _ _ _ h0 log_connection_log (sys_handler_log h0 fuel) fuel h s a Ho Ha)) as (tr' & Ht & HQ).
  rewrite Hr in Ht, HQ. simpl in Ht. subst tr'. destruct HQ as (_ & Ho' & events & a' & Hro & Ha').
  destruct (rounds_moved _ _ _ _ _ _ _ _ Hro) as [Hh He Hc Hm]. exists events, a'.
  split; [by eapply rounds_loop|]. by split_and!.
Qed.

(** ** A kernel for the witnesses

    It has descriptors 3, 4 and 5 to give; one connection arrives, then one login request
    on it, then the server is asked to stop. *)

Definition free_fd (h : gset Z) : Z := default (-1) (head (filter (λ fd, fd ∉ h) [3; 4; 5])).

Definition seen (p : syscall → bool) (tr : trace) : nat := length (filter (λ ca, p ca.1 = true) tr).

Definition is_accept (c : syscall) : bool := match c with Sys_accept _ => true | _ => false end.
Definition is_wait (c : syscall) : bool := match c with Sys_epoll_wait _ _ => true | _ => false end.
Definition is_read (c : syscall) : bool := match c with Sys_read _ _ => true | _ => false end.

Definition one_login (h : gset Z) : kernel := λ tr c,
  let ans r := Build_answer r EAGAIN [] [] in
  match c with
  | Sys_socket _ | Sys_epoll_create => ans (free_fd (open_fds h tr))
  | Sys_accept _ => ans (if (seen is_accept tr =? 0)%nat then free_fd (open_fds h tr) else -1)
  | Sys_running => ans (if (seen is_wait tr <? 2)%nat then 1 else 0)
  | Sys_epoll_wait _ _ =>
      Build_answer 1 EAGAIN [] [Build_epoll_event (if (seen is_wait tr =? 0)%nat then 4 else 5) true false]
  | Sys_read _ n =>
      if (seen is_read tr =? 0)%nat
      then let bs := take n sample_login in Build_answer (Z.of_nat (length bs)) EAGAIN bs []
      else ans (-1)
  | Sys_recvfrom _ _ => ans (-1)
  | Sys_write _ bs => ans (Z.of_nat (length bs))
  | _ => ans 0
  end.

Lemma free_fd_ok (h : gset Z) : free_fd h = -1 ∨ 0 ≤ free_fd h ∧ free_fd h ∉ h.
Proof.
  unfold free_fd. destruct (filter _ _) as [|fd l] eqn:E; [by left|]. right.
  assert (fd ∈ filter (λ fd, fd ∉ h) [3; 4; 5]) as [Hn Hin]%list_elem_of_filter by (rewrite E; left).
  split; [|done]. simpl. set_unfold. lia.
Qed.

Lemma one_login_ok (h : gset Z) : kernel_ok h (one_login h).
Proof.
  intros tr c. split; [|destruct c; simpl; try done; try lia].
  - destruct c; simpl; try done; intros _; try apply free_fd_ok. destruct (_ =? 0)%nat; [apply free_fd_ok | by left].
  - destruct (_ =? 0)%nat; simpl; [|lia]. intros _. rewrite length_take. lia.
Qed.

Definition sample_run : option (outcome unit) * trace := run (one_login ∅) [] (emulator_life 5).

Lemma emulator_descriptors_witness :
  sample_run.1 = Some (Ret tt) ∧ open_fds ∅ sample_run.2 = ∅ ∧
  seen (λ c, match c with Sys_write 5 bs => (length bs =? 33)%nat | _ => false end) sample_run.2 = 1%nat.
Proof.
  assert (Hr : sample_run.1 = Some (Ret tt)) by (by vm_compute).
  split; [exact Hr|]. split; [|by vm_compute].
  destruct (emulator_descriptors ∅ (one_login ∅) 5 (emulator_life 5) sample_run.1 sample_run.2 (one_login_ok ∅)) as [_ Ho].
  { by right. }
  { apply surjective_pairing. }
  rewrite Hr in Ho. exact Ho.
Defined.

(** A server that listens on descriptor 4 and has client 5. *)
Definition sample_server : Server := Build_Server 6642 1024 3 (Some (Build_TcpServerSocket 4 6642)) true {[5]}.

Lemma sample_server_owns : owns ∅ sample_server {[3; 4; 5]}.
Proof.
  assert (fds sample_server = {[3; 4; 5]}) as Hf by (apply (bool_decide_unpack _); by vm_compute).
  split; rewrite ?Hf.
  - by rewrite (right_id_L ∅ (∪)).
  - apply disjoint_empty_r.
  - intros fd Hfd. rewrite !elem_of_union, !elem_of_singleton in Hfd. lia.
  - apply (bool_decide_unpack _). by vm_compute.
  - apply (bool_decide_unpack _). by vm_compute.
Qed.

(** The login request that the kernel delivers is answered, and the answer is written. *)
Lemma serverLoop_refines_witness :
  ∃ s' tr events a', run (one_login {[3; 4; 5]}) [] (sys_serverLoop (sys_handleSoupBinTcpMessage 5) log_connection 5 sample_server) =
      (Some (Ret s'), tr) ∧
    serverLoop handleSoupBinTcpMessage (connected 5) events = Ret a' ∧
    (events ≫= event_observations) = [Received 5 (ReadBytes sample_login); Received 5 ReadAgain] ∧
    delivered (outgoing a') (writes tr) ∧ length (writes tr) = 1%nat ∧ stands_for s' a'.
Proof.
  set (res := run _ _ _). assert (Hr : ∃ s', res.1 = Some (Ret s')) by (eexists; by vm_compute).
  destruct Hr as [s' Hr]. assert (Hres : res = (Some (Ret s'), res.2)) by (rewrite <- Hr; apply surjective_pairing).
  destruct (serverLoop_refines ∅ {[3; 4; 5]} (one_login {[3; 4; 5]}) 5 sample_server s' (connected 5) res.2)
    as (events & a' & He & _ & Hh & _ & _ & (msgs & Ho & Hd) & Ha & _); [apply one_login_ok|apply sample_server_owns| |exact Hres|].
  - unfold stands_for. apply (bool_decide_unpack _). by vm_compute.
  - exists s', res.2, events, a'. split; [exact Hres|]. split; [exact He|]. rewrite <- Hh, Ho.
    split; [by vm_compute|]. split; [exact Hd|]. split; [by vm_compute | exact Ha].
Defined.
