(* ===== verification/System.v ===== *)
(** * Trading clients and the emulator

    The two programs of apps/ put together: any number of trading clients and one emulator,
    each pair joined by a TCP connection, that is by two byte streams in flight.  A client
    is the accessor of OrderEntryClient.v behind the read loop of TcpClient.v, the emulator
    is the event loop of TcpServer.v with the handler of ExchangeEmulator.v; a step of the
    system is a connection or its end, an event of the emulator with its reads, or one
    iteration of a client's read loop.  How many bytes a read takes is the network's choice,
    limited by a relation [cut].

    The theorems: under which cuts every session is established, and what happens under
    those that are excluded. *)
From S2P Require Import Prelude Bytes Digits Codec Types OuchMessages SessionMessages ConfigParser OrderManager OrderEntryClient.
From S2P Require Import TcpClient TcpServer ExchangeEmulator.
From stdpp Require Import relations.
Local Open Scope Z_scope.

(** ** The system *)

(** What a trading client is started with. *)
Record trader := Build_trader {
  t_partition : OrderEntryPartitionConfig;
  t_account : list byte;
  t_info : list byte;
  t_last : Z;
}.

(** The accessor when it has been constructed and has written its login request. *)
Definition starts (t : trader) : outcome BistMarketAccessor :=
  logged_in (t_partition t) (t_account t) (t_info t) (t_last t).

(** A client process, what is in flight on its connection, and all that the emulator has
    sent on it. *)
Record process := Build_process {
  p_trader : trader;
  p_client : TcpClient BistMarketAccessor;
  to_server : list byte;
  to_client : list byte;
  p_answers : list (list byte);
}.

(** A process is known by the descriptor that the emulator has for its connection. *)
Record system := Build_system {
  sys_server : TcpServer;
  sys_processes : gmap Z process;
}.

Definition system_start : system := Build_system TcpServer_new ∅.

(** The bytes an accessor has written since it was [a]. *)
Definition sent_since (a a' : BistMarketAccessor) : list byte :=
  concat (drop (length (written a)) (written a')).

(** The buffers in [out] for client [fd]. *)
Definition replies (fd : Z) (out : list (Z * list byte)) : list (list byte) :=
  snd <$> filter (λ o, o.1 = fd) out.

Definition receive (p : process) (bufs : list (list byte)) : process :=
  Build_process (p_trader p) (p_client p) (to_server p) (to_client p ++ concat bufs) (p_answers p ++ bufs).

(** Every client gets what the server has sent it since it was [s]. *)
Definition deliver (s s' : TcpServer) (ps : gmap Z process) : gmap Z process :=
  map_imap (λ fd p, Some (receive p (replies fd (drop (length (outgoing s)) (outgoing s'))))) ps.

(** The emulator has taken bytes from the connection and [rest] is left of them. *)
Definition taken (p : process) (rest : list byte) : process :=
  Build_process (p_trader p) (p_client p) rest (to_client p) (p_answers p).

(** The client has become [c'], which has written something, and [rest] is left to read. *)
Definition advanced (p : process) (c' : TcpClient BistMarketAccessor) (rest : list byte) : process :=
  Build_process (p_trader p) c'
    (to_server p ++ sent_since (m_marketAccessor (p_client p)) (m_marketAccessor c')) rest (p_answers p).

(** A client that has connected and written its login request. *)
Definition started (t : trader) (a : BistMarketAccessor) : process :=
  Build_process t (TcpClient_new a) (concat (written a)) [] [].

(** One event of the emulator's loop. *)
Definition emulate (s : TcpServer) (ev : server_event) : outcome TcpServer :=
  serverLoop handleSoupBinTcpMessage s [ev].

(** A login is copied into its struct as it is, so nothing here depends on what the
    platform leaves behind a local struct. *)
Section platform.
Context `{P : Platform}.

Section steps.
Context (admits : trader → Prop) (cut : process → list (list byte) → Prop).

(** The network delivers: the emulator reads from a client until EAGAIN, or a client
    reads once and processes its buffer. *)
Inductive delivery : system → system → Prop :=
  | server_reads S fd p chunks rest s' :
      sys_processes S !! fd = Some p → to_server p = concat chunks ++ rest →
      chunks ≠ [] → Forall (λ ch, (0 < length ch ≤ SERVER_BUFFER_SIZE)%nat) chunks → cut p chunks →
      emulate (sys_server S) (EventClient fd true (ReadBytes <$> chunks) false) = Ret s' →
      delivery S (Build_system s' (deliver (sys_server S) s'
        (<[fd := taken p rest]> (sys_processes S))))
  | client_reads S fd p chunk rest c got left c' :
      sys_processes S !! fd = Some p → to_client p = chunk ++ rest →
      readFromSocket (p_client p) [chunk] = (c, Datatypes.S got, left) → processBuffer c = Ret c' →
      delivery S (Build_system (sys_server S) (<[fd := advanced p c' (concat left ++ rest)]> (sys_processes S))).

(** Besides, clients come and go: one connects, under a descriptor that is free and can be
    registered with epoll, and writes its login request; or one is gone, with what was in flight, and the emulator sees the
    end of its connection. *)
Inductive system_step : system → system → Prop :=
  | delivers S S' : delivery S S' → system_step S S'
  | connects S fd t a s' :
      sys_processes S !! fd = None → admits t → starts t = Ret a →
      emulate (sys_server S) (EventAccept [Build_accepted fd true true]) = Ret s' →
      system_step S (Build_system s' (deliver (sys_server S) s' (<[fd := started t a]> (sys_processes S))))
  | leaves S fd p hangup s' :
      sys_processes S !! fd = Some p →
      emulate (sys_server S) (EventClient fd true [ReadClosed] hangup) = Ret s' →
      system_step S (Build_system s' (deliver (sys_server S) s' (delete fd (sys_processes S)))).
End steps.

(** ** Well-behaved runs *)

(** A byte that is the type of neither a login nor a logout. *)
Definition plain_byte (b : byte) : Prop :=
  b ≠ enum_byte PacketType_LoginRequest ∧ b ≠ enum_byte PacketType_LogoutRequest.
#[export] Instance plain_byte_dec (b : byte) : Decision (plain_byte b).
Proof. unfold plain_byte. apply _. Defined.

(** Exchange info no piece of which can be taken for a login or a logout: its first two
    characters, which follow zeros in the message, are no such type, and there are no
    zeros in it. *)
Definition plain_info (info : list byte) : Prop :=
  Forall plain_byte (take 2 info) ∧ Forall (λ b, b ≠ x00) info.
#[export] Instance plain_info_dec (info : list byte) : Decision (plain_info info).
Proof. unfold plain_info. apply _. Defined.

(** A client with the emulator's credentials, and tokens that last. *)
Definition trader_ok (t : trader) : Prop :=
  0 ≤ t_last t < 2 ^ 31 - 1 ∧ (length (t_info t) ≤ 32)%nat ∧ plain_info (t_info t) ∧
  good_credentials (t_partition t) = true.
#[export] Instance trader_ok_dec (t : trader) : Decision (trader_ok t).
Proof. unfold trader_ok. apply _. Defined.

(** The login request arrives in one read. *)
Definition login_whole (p : process) (chunks : list (list byte)) : Prop :=
  length (written (m_marketAccessor (p_client p))) = 1%nat → chunks = [to_server p].

(** The session of client [fd]: logged in, its first order sent, nothing in flight. *)
Definition established (fd : Z) (p : process) : Prop :=
  ∃ a, starts (p_trader p) = Ret a ∧
    m_accState (m_marketAccessor (p_client p)) = AccContinuous ∧
    m_sessionName (m_marketAccessor (p_client p)) = new_session_name fd ∧
    m_dataSize (p_client p) = 0%nat ∧ to_server p = [] ∧ to_client p = [] ∧
    written (m_marketAccessor (p_client p)) = written a ++
      match oec_instrumentType (t_partition (p_trader p)) with
      | Equity => [ouch_frame EnterOrder_codec (enter_order (padded_info (t_info (p_trader p)))
          (nextToken (OrderManager_new (t_last (p_trader p)))).2 78436 "S" 5000 770000)]
      | Derivative => []
      end.

(** How much is still to be delivered. *)
Definition process_backlog (p : process) : nat :=
  length (to_server p) + length (to_client p) + 200 * (2 - length (written (m_marketAccessor (p_client p)))).
Definition backlog (S : system) : Z := map_sum (λ _ p, Z.of_nat (process_backlog p)) (sys_processes S).

(** ** The order on the wire *)

(** The byte that decides what the emulator takes a packet for is never that of a login or
    logout, wherever behind its OUCH type an order is cut. *)
Lemma order_frame_bytes (info : list byte) (t : token) :
  ouch_frame EnterOrder_codec (enter_order info t 78436 "S" 5000 770000) =
    [x00; "s"; "U"; "O"]%byte ++ t ++ (le_store 4 (bswap 4 78436) ++ ["S"%byte] ++ le_store 8 (bswap 8 5000) ++
      le_store 4 (to_signed 32 (bswap 4 770000)) ++ [enum_byte OuchTimeInForce_Day;
        enum_byte OuchOpenClose_DefaultForTheAccount] ++ repeat x00 31) ++ info ++
      (le_store 8 (bswap 8 0) ++ [enum_byte OuchClientCategory_Client; enum_byte OuchOffHours_NormalHours] ++
        repeat x00 7).
Proof.
  unfold ouch_frame. rewrite <- !(assoc_L (++)). cbn [c_enc EnterOrder_codec isoc pairc fst snd]. reflexivity.
Qed.

Lemma is_digit_plain (b : byte) : is_digit b → plain_byte b.
Proof. intros Hd. split; intros ->; revert Hd; unfold is_digit; vm_compute; intros [? ?]; congruence. Qed.

Lemma padded_info_app (info : list byte) :
  (length info ≤ 32)%nat → padded_info info = info ++ repeat x00 (32 - length info).
Proof.
  intros Hi. unfold padded_info, splice. rewrite take_0, app_nil_l, Nat.add_0_l. f_equal.
  replace 32%nat with (length info + (32 - length info))%nat at 1 by lia.
  rewrite repeat_app, drop_app_length'; [done | by rewrite repeat_length].
Qed.

Definition order_frame (info : list byte) (om : OrderManager) : list byte :=
  ouch_frame EnterOrder_codec (enter_order (padded_info info) (nextToken om).2 78436 "S" 5000 770000).

(** The info of an order, 68 bytes behind its beginning, between plain bytes. *)
Lemma order_frame_split (info : list byte) (om : OrderManager) :
  (length info ≤ 32)%nat → manager_ok om →
  ∃ front rear, order_frame info om = [x00; "s"; "U"; "O"]%byte ++ front ++ info ++ rear ∧
    length front = 64%nat ∧ Forall plain_byte front ∧ Forall plain_byte rear.
Proof.
  intros Hi Hm. destruct (nextToken_ok om Hm) as [_ [Hl Ht]]. unfold order_frame.
  rewrite order_frame_bytes, padded_info_app by done. rewrite <- (assoc_L (++) info).
  eexists ((nextToken om).2 ++ _), _. split; [by rewrite <- (assoc_L (++) (nextToken om).2)|].
  split; [rewrite length_app, Hl; by vm_compute|]. rewrite !Forall_app. split_and!.
  all: first [by eapply Forall_impl, is_digit_plain | by apply (bool_decide_unpack _); vm_compute
    | apply Forall_forall; intros b Hb; apply list_elem_of_In, repeat_spec in Hb as ->;
      by apply (bool_decide_unpack _); vm_compute].
Qed.

(** A byte behind the OUCH type is plain, or the second byte before it is not zero. *)
Lemma order_frame_plain (info : list byte) (om : OrderManager) (k : nat) (b0 b2 : byte) :
  (length info ≤ 32)%nat → plain_info info → manager_ok om →
  order_frame info om !! S (S k) = Some b0 → order_frame info om !! S (S (S (S k))) = Some b2 →
  plain_byte b2 ∨ b0 ≠ x00.
Proof.
  intros Hi [Hp2 Hnz] Hm. destruct (order_frame_split info om Hi Hm) as (front & rear & -> & Hf & Hpf & Hpr).
  intros H0 H2. change ((front ++ info ++ rear) !! k = Some b2) in H2.
  destruct (Nat.ltb_spec k (length front)) as [|Hk].
  { rewrite lookup_app_l in H2 by done. left. exact (Forall_lookup_1 _ _ _ _ Hpf H2). }
  rewrite lookup_app_r in H2 by done.
  destruct (Nat.ltb_spec (k - length front) (length info)) as [Hin|Hout].
  2: { rewrite lookup_app_r in H2 by done. left. exact (Forall_lookup_1 _ _ _ _ Hpr H2). }
  rewrite lookup_app_l in H2 by done.
  destruct (Nat.ltb_spec (k - length front) 2) as [Hlt|Hge].
  - left. eapply Forall_lookup_1; [exact Hp2|]. by rewrite lookup_take_lt by done.
  - right. destruct k as [|[|k]]; [lia..|]. change ((front ++ info ++ rear) !! k = Some b0) in H0.
    rewrite lookup_app_r, lookup_app_l in H0 by lia. exact (Forall_lookup_1 _ _ _ _ Hnz H0).
Qed.

Lemma order_frame_length (info : list byte) (om : OrderManager) :
  (length info ≤ 32)%nat → manager_ok om → length (order_frame info om) = 117%nat.
Proof.
  intros Hi Hm. destruct (nextToken_ok om Hm) as [_ [Ht _]]. unfold order_frame. rewrite order_frame_bytes.
  rewrite !length_app, Ht, padded_info_length by done. by vm_compute.
Qed.

(** ** The emulator, read by read *)

(** A chunk that the emulator's handler lets pass, whatever else is in its buffer. *)
Definition ignored (s : TcpServer) (fd : Z) (chunk : list byte) : Prop :=
  ∀ rest, handleSoupBinTcpMessage s fd (chunk ++ rest) (length chunk) = Ret s.

(** One whose third byte is the type of neither a login nor a logout. *)
Lemma plain_ignored (s : TcpServer) (fd : Z) (chunk : list byte) :
  (∀ b, chunk !! 2%nat = Some b → plain_byte b) → ignored s fd chunk.
Proof.
  intros Hb rest. unfold handleSoupBinTcpMessage.
  destruct (Nat.ltb_spec (length chunk) 3) as [|H3]; [done|].
  rewrite read_mem_ok by (rewrite length_app; lia). run_outcome. case_match; [done|].
  destruct (lookup_lt_is_Some_2 chunk 2 H3) as [b Hlook]. destruct (Hb b Hlook) as [Hl Ho].
  assert (Hov : overlay enum1 2 (chunk ++ rest) = Ret b).
  { unfold overlay. change (c_size enum1) with 1%nat. rewrite read_mem_ok by (rewrite length_app; lia).
    run_outcome. rewrite slice_app_l by lia. by rewrite (slice_lookup 2 chunk b). }
  rewrite Hov. run_outcome. unfold is_type.
  assert (Hne : ∀ e : PacketType, b ≠ enum_byte e → Byte.eqb b (enum_byte e) = false).
  { intros e He. destruct (Byte.eqb b (enum_byte e)) eqn:E; [|done]. by apply Byte.byte_dec_bl in E. }
  rewrite (Hne PacketType_LoginRequest Hl), (Hne PacketType_LogoutRequest Ho). by repeat case_match.
Qed.

Lemma short_ignored (s : TcpServer) (fd : Z) (chunk : list byte) :
  (2 ≤ length chunk → length chunk < 2 + Z.to_nat (be_load (slice 0 2 chunk)))%nat → ignored s fd chunk.
Proof.
  intros Hs rest. destruct (Nat.leb_spec 2 (length chunk)) as [H2|H2]; [by apply announced_too_long; auto|].
  unfold handleSoupBinTcpMessage. by rewrite (proj2 (Nat.ltb_lt _ 3)) by lia.
Qed.

(** Chunks that are let pass leave the server as it was. *)
Lemma client_loop_ignored (s : TcpServer) (fd : Z) (chunks : list (list byte)) (buffer : list byte) :
  fd ∈ m_clients s → length buffer = SERVER_BUFFER_SIZE →
  Forall (λ ch, (length ch ≤ SERVER_BUFFER_SIZE)%nat ∧ ignored s fd ch) chunks →
  client_loop handleSoupBinTcpMessage s fd buffer (ReadBytes <$> chunks) = Ret s.
Proof.
  intros Hin Hb Hall. revert buffer Hb.
  induction Hall as [|ch chunks [Hl Hch] _ IH]; intros buffer Hb; cbn [fmap list_fmap client_loop];
    rewrite bool_decide_true by done; [done|]. cbn [negb].
  rewrite splice_prefix, Hch by lia. run_outcome. apply IH. rewrite length_app, length_drop. lia.
Qed.

Lemma emulate_ignored (s : TcpServer) (fd : Z) (chunks : list (list byte)) :
  fd ∈ m_clients s → Forall (λ ch, (length ch ≤ SERVER_BUFFER_SIZE)%nat ∧ ignored s fd ch) chunks →
  emulate s (EventClient fd true (ReadBytes <$> chunks) false) = Ret s.
Proof.
  intros Hin Hall. unfold emulate, serverLoop. cbn [fold_outcome handle_event]. unfold handleClientData.
  rewrite decide_True by done. by rewrite client_loop_ignored by (rewrite ?repeat_length; done).
Qed.

(** A length field that begins with a nonzero byte announces more than these messages have. *)
Lemma big_length (b0 b1 : byte) (n : nat) :
  b0 ≠ x00 → (n ≤ 117)%nat → (n < 2 + Z.to_nat (be_load [b0; b1]))%nat.
Proof.
  intros H0 Hn. assert (u8 b0 ≠ 0) by (intros Hz; apply H0; by apply u8_inj).
  unfold be_load. cbn [foldl]. pose proof (u8_bound b0). pose proof (u8_bound b1). lia.
Qed.

(** However an order is cut, no piece of it is taken for a login or a logout: at its
    beginning the type is that of unsequenced data, one byte further on the length is far
    beyond what was received. *)
Lemma order_piece_ignored (s : TcpServer) (fd : Z) (info : list byte) (om : OrderManager) (k : nat)
    (chunk rest : list byte) :
  (length info ≤ 32)%nat → plain_info info → manager_ok om →
  drop k (order_frame info om) = chunk ++ rest → ignored s fd chunk.
Proof.
  intros Hl Hi Hm Heq. pose proof (order_frame_length info om Hl Hm) as Hlen.
  assert (Hle : (length chunk ≤ 117 - k)%nat).
  { apply (f_equal length) in Heq. rewrite length_drop, Hlen, length_app in Heq. lia. }
  assert (Hlook : ∀ i b, chunk !! i = Some b → order_frame info om !! (k + i)%nat = Some b).
  { intros i b Hb. rewrite <- lookup_drop, Heq. by apply lookup_app_l_Some. }
  destruct (order_frame_split info om Hl Hm) as (front & rear & Hf & _).
  destruct chunk as [|b0 [|b1 [|b2 chunk]]]; [by apply plain_ignored..|].
  destruct k as [|[|k]].
  - apply plain_ignored. intros b [= <-]. specialize (Hlook 2%nat b2 eq_refl). rewrite Hf in Hlook.
    injection Hlook as <-. by apply (bool_decide_unpack _); vm_compute.
  - apply short_ignored. intros _. pose proof (Hlook 0%nat b0 eq_refl) as H0. pose proof (Hlook 1%nat b1 eq_refl) as H1.
    rewrite Hf in H0, H1. injection H0 as <-. injection H1 as <-. unfold slice. cbn [drop take].
    change (be_load ["s"; "U"]%byte) with 29525. lia.
  - destruct (order_frame_plain info om k b0 b2 Hl Hi Hm) as [Hb2|Hb0].
    + rewrite <- (Hlook 0%nat b0 eq_refl). f_equal. lia.
    + rewrite <- (Hlook 2%nat b2 eq_refl). f_equal. lia.
    + apply plain_ignored. by intros b [= <-].
    + apply short_ignored. intros _. unfold slice. cbn [drop take]. apply big_length; [done | lia].
Qed.

Lemma order_pieces_ignored (s : TcpServer) (fd : Z) (info : list byte) (om : OrderManager) (k : nat)
    (chunks : list (list byte)) (rest : list byte) :
  (length info ≤ 32)%nat → plain_info info → manager_ok om →
  drop k (order_frame info om) = concat chunks ++ rest → Forall (ignored s fd) chunks.
Proof.
  intros Hl Hi Hm. revert k. induction chunks as [|ch chunks IH]; intros k Heq; [done|].
  cbn [concat] in Heq. rewrite <- (assoc_L (++)) in Heq. constructor; [by eapply order_piece_ignored|].
  apply (IH (k + length ch)%nat). by rewrite <- drop_drop, Heq, drop_app_length.
Qed.

(** An event of a client that is not there (any more) is ignored. *)
Lemma emulate_unknown (s : TcpServer) (fd : Z) (reads : list read_result) (hangup : bool) :
  fd ∉ m_clients s → emulate s (EventClient fd true reads hangup) = Ret s.
Proof.
  intros Hnin. unfold emulate, serverLoop. cbn [fold_outcome handle_event]. unfold handleClientData.
  rewrite decide_False by done. run_outcome. destruct hangup; [|done]. unfold removeClient.
  by rewrite decide_False.
Qed.

(** ** What the emulator sends *)

Lemma replies_app (fd : Z) (out1 out2 : list (Z * list byte)) :
  replies fd (out1 ++ out2) = replies fd out1 ++ replies fd out2.
Proof. unfold replies. by rewrite filter_app, fmap_app. Qed.

Lemma replies_same (fd : Z) (bufs : list (list byte)) : replies fd ((fd,.) <$> bufs) = bufs.
Proof.
  unfold replies. induction bufs as [|b bufs IH]; [done|]. rewrite fmap_cons, filter_cons_True by done.
  by rewrite fmap_cons, IH.
Qed.

Lemma replies_other (fd fd' : Z) (bufs : list (list byte)) : fd ≠ fd' → replies fd' ((fd,.) <$> bufs) = [].
Proof.
  intros Hne. unfold replies. induction bufs as [|b bufs IH]; [done|].
  by rewrite fmap_cons, filter_cons_False by done.
Qed.

(** The server has sent [bufs] to [fd] and nothing to anybody else. *)
Definition sends_only (fd : Z) (s s' : TcpServer) : Prop := ∃ bufs, outgoing s' = outgoing s ++ ((fd,.) <$> bufs).

Lemma sends_only_refl (fd : Z) (s s' : TcpServer) : outgoing s' = outgoing s → sends_only fd s s'.
Proof. intros Heq. exists []. by rewrite Heq, app_nil_r. Qed.

Lemma sends_only_trans (fd : Z) (s1 s2 s3 : TcpServer) :
  sends_only fd s1 s2 → sends_only fd s2 s3 → sends_only fd s1 s3.
Proof. intros [b1 H1] [b2 H2]. exists (b1 ++ b2). by rewrite H2, H1, fmap_app, (assoc_L (++)). Qed.

Lemma removeClient_outgoing (s : TcpServer) (fd : Z) : outgoing (removeClient s fd) = outgoing s.
Proof. unfold removeClient. by case_decide. Qed.

Lemma handler_sends_only (s s' : TcpServer) (fd : Z) (data : list byte) (n : nat) :
  handleSoupBinTcpMessage s fd data n = Ret s' → sends_only fd s s'.
Proof.
  unfold handleSoupBinTcpMessage.
  destruct (n <? 3)%nat; [by intros [= <-]; apply sends_only_refl|]. intros (bs & _ & H)%bind_ret_inv. revert H.
  cbv zeta. destruct (n <? _)%nat; [by intros [= <-]; apply sends_only_refl|].
  intros (t & _ & H)%bind_ret_inv. revert H. destruct (is_type t PacketType_LoginRequest).
  - destruct (n <? _)%nat; [by intros [= <-]; apply sends_only_refl|]. intros (req & _ & H)%bind_ret_inv. revert H.
    destruct (_ && _); intros [= <-]; [|by apply sends_only_refl, removeClient_outgoing].
    unfold sendToClient. case_decide; [|by apply sends_only_refl]. by eexists [_].
  - repeat (destruct (is_type t _); [intros [= <-]; apply sends_only_refl; try done; apply removeClient_outgoing|]).
    by intros [= <-]; apply sends_only_refl.
Qed.

Lemma client_loop_sends_only (fd : Z) (reads : list read_result) (s s' : TcpServer) (buffer : list byte) :
  client_loop handleSoupBinTcpMessage s fd buffer reads = Ret s' → sends_only fd s s'.
Proof.
  revert s buffer. induction reads as [|r reads IH]; intros s buffer; cbn [client_loop];
    (case_bool_decide; cbn [negb]; [|done]); [by intros [= <-]; apply sends_only_refl|].
  destruct r; try by intros [= <-]; apply sends_only_refl; rewrite ?removeClient_outgoing.
  intros (s1 & H1%handler_sends_only & H2%IH)%bind_ret_inv. by eapply sends_only_trans.
Qed.

Lemma emulate_sends_only (s s' : TcpServer) (fd : Z) (reads : list read_result) :
  emulate s (EventClient fd true reads false) = Ret s' → sends_only fd s s'.
Proof.
  unfold emulate, serverLoop. cbn [fold_outcome handle_event]. intros (s1 & H1 & [= <-])%bind_ret_inv.
  apply bind_ret_inv in H1 as (s2 & H2 & [= <-]). unfold handleClientData in H2.
  case_decide; [by eapply client_loop_sends_only | injection H2 as <-; by apply sends_only_refl].
Qed.

(** ** Delivery to the clients *)

Lemma deliver_lookup (s s' : TcpServer) (ps : gmap Z process) (fd fd' : Z) (bufs : list (list byte)) :
  outgoing s' = outgoing s ++ ((fd,.) <$> bufs) →
  deliver s s' ps !! fd' = (λ p, if decide (fd = fd') then receive p bufs else p) <$> ps !! fd'.
Proof.
  intros Ho. unfold deliver. rewrite map_lookup_imap, Ho, drop_app_length.
  destruct (ps !! fd') as [p|]; [|done]. cbn [mbind option_bind fmap option_fmap option_map]. f_equal.
  case_decide as Hd; [subst; by rewrite replies_same|]. rewrite replies_other by done. simpl.
  unfold receive. rewrite !app_nil_r. by destruct p.
Qed.

Lemma deliver_nothing (s s' : TcpServer) (ps : gmap Z process) : outgoing s' = outgoing s → deliver s s' ps = ps.
Proof.
  intros Ho. apply map_eq. intros fd. rewrite (deliver_lookup s s' ps fd fd []) by (by rewrite Ho, app_nil_r).
  destruct (ps !! fd) as [p|]; [|done]. cbn [fmap option_fmap option_map]. rewrite decide_True by done.
  unfold receive. simpl. rewrite !app_nil_r. by destruct p.
Qed.

(** ** One session *)

Definition accepted_packet (fd : Z) : server_packet :=
  SpLoginAccepted (new_session_name fd) (toPaddedArray 20 (to_string 1) " ").

Lemma accepted_packet_ok (fd : Z) : server_packet_ok (accepted_packet fd) = true.
Proof. cbn [server_packet_ok accepted_packet]. unfold new_session_name. by rewrite !toPaddedArray_length. Qed.

Lemma login_response_packet (fd : Z) : login_response fd = packet (payload_of (accepted_packet fd)).
Proof. done. Qed.

Lemma login_response_length (fd : Z) : length (login_response fd) = 33%nat.
Proof.
  rewrite login_response_packet, packet_length. cbn [accepted_packet payload_of length]. unfold new_session_name.
  by autorewrite with algocor_bytes.
Qed.

Lemma answer_small (fd : Z) : Forall (λ q, Z.of_nat (length q) + 2 < 2 ^ 16) [payload_of (accepted_packet fd)].
Proof.
  constructor; [|done]. pose proof (login_response_length fd) as H33.
  rewrite login_response_packet, packet_length in H33. lia.
Qed.

Lemma answer_complete (fd : Z) : ¬ incomplete (login_response fd).
Proof.
  intros Hinc. enough ([payload_of (accepted_packet fd)] = []) by done.
  apply (incomplete_no_packet _ [] (answer_small fd)). cbn [fmap list_fmap concat]. by rewrite !app_nil_r.
Qed.

(** A client that has just written its login request. *)
Record just_started (t : trader) (a : BistMarketAccessor) (request : list byte) : Prop := {
  js_accessor : accessor_ok a;
  js_info : m_exchangeInfo a = t_info t;
  js_partition : m_partition a = t_partition t;
  js_manager : m_orderManager a = OrderManager_new (t_last t);
  js_written : written a = [request];
  js_request : ∃ a0, request = c_enc LoginRequest_codec (login_request a0) ∧ m_partition a0 = t_partition t ∧
    m_sessionName a0 = [] ∧ m_sequenceNumber a0 = 0;
}.

Lemma starts_ok (t : trader) :
  0 ≤ t_last t < 2 ^ 31 - 1 → (length (t_info t) ≤ 32)%nat →
  ∃ a request, starts t = Ret a ∧ just_started t a request ∧ m_accState a = AccDisconnected.
Proof.
  intros Hl Hi. destruct (BistMarketAccessor_new_ok (t_partition t) (t_account t) (t_info t) (t_last t) Hl Hi)
    as (a & Hnew & Hok & Hei & Hcfg & Hst & Hw & Hss & Hsn & Hom).
  exists (login a), (c_enc LoginRequest_codec (login_request a)). unfold starts, logged_in. rewrite Hnew.
  split; [done|]. split; [|by destruct a].
  split; [by destruct Hok, a; split | by destruct a | by destruct a | by destruct a
    | by destruct a; simpl in *; subst | by exists a].
Qed.

Lemma request_length (t : trader) (a : BistMarketAccessor) (request : list byte) :
  just_started t a request → length request = 49%nat.
Proof. intros [_ _ _ _ _ (a0 & -> & _)]. apply (enc_length (c := LoginRequest_codec)), login_request_ok. Qed.

(** The emulator answers a login request that it reads whole. *)
Lemma emulate_login (s : TcpServer) (fd : Z) (t : trader) (a : BistMarketAccessor) (request : list byte) :
  just_started t a request → good_credentials (t_partition t) = true → fd ∈ m_clients s →
  emulate s (EventClient fd true [ReadBytes request] false) = Ret (sendToClient s fd (login_response fd)).
Proof.
  intros Hjs Hg Hin. pose proof (request_length _ _ _ Hjs) as Hlen.
  destruct Hjs as [_ _ _ _ _ (a0 & -> & Hp & Hss & _)].
  apply serverLoop_one; [done | rewrite Hlen; apply request_fits | | by rewrite sendToClient_clients].
  intros rest. rewrite Hlen, handle_login by done. by rewrite Hp, Hg.
Qed.

(** What the client does with the answer. *)
Lemma reaction (t : trader) (a : BistMarketAccessor) (request : list byte) (fd : Z) :
  just_started t a request → (length (t_info t) ≤ 32)%nat →
  ∃ a', fold_outcome on_packet a [payload_of (accepted_packet fd)] = Ret a' ∧
    m_accState a' = AccContinuous ∧ m_sessionName a' = new_session_name fd ∧
    written a' = request :: match oec_instrumentType (t_partition t) with
      | Equity => [order_frame (t_info t) (OrderManager_new (t_last t))]
      | Derivative => []
      end.
Proof.
  intros [Hok Hi Hp Hom Hw _] Hlen.
  destruct (onLoginAccepted_lemma a (Build_LoginAccepted (bswap 2 31) "A" (new_session_name fd)
    (toPaddedArray 20 (to_string 1) " ")) Hok) as (a' & Hr & _ & Hst & Hsn & Hwr); [by rewrite Hi|].
  exists a'. cbn [fold_outcome]. rewrite on_packet_react by apply accepted_packet_ok.
  cbn [react effect is_response andb accepted_packet]. rewrite Hr. split; [done|]. split; [done|]. split; [done|].
  rewrite Hwr, Hw, Hp, Hi, Hom. by case_match.
Qed.

(** Where the session of client [fd] can be. *)
Inductive phase (fd : Z) (p : process) : Prop :=
  | Requested a request :
      starts (p_trader p) = Ret a → just_started (p_trader p) a request → holds (p_client p) [] a →
      to_server p = request → to_client p = [] → p_answers p = [] → phase fd p
  | Answered a request left :
      starts (p_trader p) = Ret a → just_started (p_trader p) a request → holds (p_client p) left a →
      incomplete left → to_server p = [] → left ++ to_client p = login_response fd →
      p_answers p = [login_response fd] → phase fd p
  | Ordering a a' request orders k :
      starts (p_trader p) = Ret a → just_started (p_trader p) a request → holds (p_client p) [] a' →
      m_accState a' = AccContinuous → m_sessionName a' = new_session_name fd →
      written a' = request :: orders → orders = match oec_instrumentType (t_partition (p_trader p)) with
        | Equity => [order_frame (t_info (p_trader p)) (OrderManager_new (t_last (p_trader p)))]
        | Derivative => []
        end →
      to_server p = drop k (concat orders) → to_client p = [] →
      p_answers p = [login_response fd] → phase fd p.

(** The invariant of well-behaved runs: the emulator's clients are the processes, each in
    one of the three phases. *)
Record system_ok (S : system) : Prop := {
  so_clients fd : fd ∈ m_clients (sys_server S) ↔ is_Some (sys_processes S !! fd);
  so_phase fd p : sys_processes S !! fd = Some p → trader_ok (p_trader p) ∧ phase fd p;
}.

Lemma holds_accessor_eq (c : TcpClient BistMarketAccessor) (data : list byte) (a : BistMarketAccessor) :
  holds c data a → m_marketAccessor c = a.
Proof. by intros []. Qed.

(** The emulator's reads move a session on, and never fail. *)
Lemma server_read_phase (s : TcpServer) (fd : Z) (p : process)
    (chunks : list (list byte)) (rest : list byte) :
  phase fd p → trader_ok (p_trader p) → fd ∈ m_clients s →
  to_server p = concat chunks ++ rest → chunks ≠ [] →
  Forall (λ ch, (0 < length ch ≤ SERVER_BUFFER_SIZE)%nat) chunks → login_whole p chunks →
  ∃ s' bufs, emulate s (EventClient fd true (ReadBytes <$> chunks) false) = Ret s' ∧
    m_clients s' = m_clients s ∧ outgoing s' = outgoing s ++ ((fd,.) <$> bufs) ∧
    phase fd (receive (taken p rest) bufs) ∧
    (process_backlog (receive (taken p rest) bufs) < process_backlog p)%nat.
Proof.
  intros Hph (Hl & Hi & Hpl & Hg) Hin Heq Hne Hch Hcut.
  assert (Hpos : (length rest < length (to_server p))%nat).
  { rewrite Heq, length_app. destruct chunks as [|ch chunks]; [done|]. apply Forall_cons in Hch as [Hch _].
    cbn [concat]. rewrite length_app. lia. }
  destruct Hph as [a request Hst Hjs Hh Hts Htc Han | a request left Hst Hjs Hh _ Hts Htc Han
    | a a' request orders k Hst Hjs Hh Hac Hsn Hw Hor Hts Htc Han].
  - unfold login_whole in Hcut. rewrite (holds_accessor_eq _ _ _ Hh), (js_written _ _ _ Hjs), Hts in Hcut.
    assert (chunks = [request]) as -> by (by apply Hcut). cbn [concat] in Heq. rewrite Hts, app_nil_r in Heq.
    assert (rest = []) as -> by (apply (app_inv_head request); by rewrite app_nil_r).
    exists (sendToClient s fd (login_response fd)), [login_response fd].
    split; [by eapply emulate_login|]. split; [apply sendToClient_clients|].
    split; [unfold sendToClient; by rewrite decide_True|]. split.
    + eapply (Answered _ _ a request []); [done|done|done| | | |]; cbn [taken receive to_client p_answers concat];
        [left; simpl; lia | done | by rewrite Htc, !app_nil_r | by rewrite Han].
    + unfold process_backlog. cbn [taken receive to_client to_server p_client concat].
      rewrite app_nil_r, Htc, Hts, app_nil_l. cbn [length].
      rewrite login_response_length, (request_length _ _ _ Hjs). lia.
  - rewrite Hts in Hpos. simpl in Hpos. lia.
  - exists s, []. split.
    { apply emulate_ignored; [done|]. rewrite Hts in Heq.
      assert (Hig : Forall (ignored s fd) chunks).
      { subst orders. destruct (oec_instrumentType _); cbn [concat] in Heq.
        - rewrite app_nil_r in Heq. eapply order_pieces_ignored; [done|done| |done]. by apply OrderManager_new_ok.
        - rewrite Hts in Hpos. cbn in Hpos. rewrite drop_nil in Hpos. simpl in Hpos. lia. }
      apply Forall_and. split; [|done]. eapply Forall_impl; [exact Hch|]. simpl. lia. }
    split; [done|]. split; [by rewrite app_nil_r|]. split.
    + eapply (Ordering _ _ a a' request orders (k + length (concat chunks))); try done.
      * cbn [taken receive to_server]. rewrite <- drop_drop, <- Hts, Heq. by rewrite drop_app_length.
      * cbn [taken receive to_client]. by rewrite Htc.
      * cbn [taken receive p_answers]. by rewrite Han.
    + unfold process_backlog. cbn [taken receive to_client to_server p_client concat]. rewrite app_nil_r. lia.
Qed.

(** A client that waits for the rest of the answer reads part of it: it waits on, or has
    the whole answer and reacts. *)
Lemma client_reads_answer (fd : Z) (c : TcpClient BistMarketAccessor) (a a' : BistMarketAccessor)
    (lft chunk rest : list byte) :
  holds c lft a → lft ++ chunk ++ rest = login_response fd →
  fold_outcome on_packet a [payload_of (accepted_packet fd)] = Ret a' →
  ∃ c1 c', readFromSocket c [chunk] = (c1, length chunk, []) ∧ processBuffer c1 = Ret c' ∧
    ((holds c' (lft ++ chunk) a ∧ incomplete (lft ++ chunk)) ∨ (holds c' [] a' ∧ rest = [])).
Proof.
  intros Hh Heq Hf. pose proof (login_response_length fd) as H33.
  assert (Hfit : (length lft + length chunk ≤ 33)%nat) by (rewrite <- Heq, !length_app in H33; lia).
  destruct (read_holds c lft chunk [] a Hh) as (c1 & Hr & Hc1); [unfold BUFFER_SIZE; lia|].
  exists c1. rewrite Hr. rewrite (assoc_L (++)) in Heq.
  destruct (split_prefix [payload_of (accepted_packet fd)] [] (lft ++ chunk) rest (answer_small fd))
    as (ps1 & ps2 & t & Hps & Hd & Ht & Hmore); [left; simpl; lia | by rewrite Heq; cbn; rewrite !app_nil_r |].
  assert (Hlen : (length (concat (packet <$> ps1) ++ t) + 2 ≤ BUFFER_SIZE)%nat)
    by (rewrite <- Hd, length_app; unfold BUFFER_SIZE; lia).
  rewrite Hd in Hc1. destruct ps1 as [|p1 [|p2 ps1]]; [| |by destruct ps1].
  - destruct (process_holds_ret c1 [] t a a) as (c' & Hp & Hc'); [done..|]. exists c'. split; [done|]. split; [done|].
    left. by rewrite Hd.
  - destruct ps2 as [|p2 ps2]; [|done]. injection Hps as <-.
    cbn [fmap list_fmap concat app] in Hmore. apply app_nil in Hmore as [-> ->].
    destruct (process_holds_ret c1 [payload_of (accepted_packet fd)] [] a a') as (c' & Hp & Hc'); try done; [|apply answer_small|].
    { split; [exists (accepted_packet fd); split; [apply accepted_packet_ok | done] | done]. }
    exists c'. split; [done|]. split; [done|]. by right.
Qed.

(** A client's read moves its session on, and never fails. *)
Lemma client_read_phase (fd : Z) (p : process) (chunk rest : list byte)
    (c : TcpClient BistMarketAccessor) (got : nat) (left : list (list byte)) :
  phase fd p → trader_ok (p_trader p) → to_client p = chunk ++ rest →
  readFromSocket (p_client p) [chunk] = (c, Datatypes.S got, left) →
  ∃ c', processBuffer c = Ret c' ∧ phase fd (advanced p c' (concat left ++ rest)) ∧
    (process_backlog (advanced p c' (concat left ++ rest)) < process_backlog p)%nat.
Proof.
  intros Hph (Hl & Hi & _) Heq Hr.
  assert (Hne : to_client p ≠ []).
  { rewrite Heq. intros [-> ->]%app_nil. unfold readFromSocket in Hr. by rewrite take_nil in Hr. }
  destruct Hph as [a request Hst Hjs Hh Hts Htc Han | a request lft Hst Hjs Hh Hinc Hts Htc Han
    | a a' request orders k Hst Hjs Hh Hac Hsn Hw Hor Hts Htc Han]; [done| |done].
  destruct (reaction _ _ _ fd Hjs Hi) as (a' & Hf & Hac & Hsn & Hw).
  rewrite Heq in Htc.
  destruct (client_reads_answer fd _ _ _ _ _ _ Hh Htc Hf) as (c1 & c' & Hr1 & Hp & Hcase).
  rewrite Hr1 in Hr. injection Hr as -> Hgot <-. cbn [concat]. rewrite app_nil_l. exists c'. split; [done|].
  unfold process_backlog, advanced, sent_since. cbn [to_server to_client p_client].
  rewrite (holds_accessor_eq _ _ _ Hh), Hts, Heq, (length_app chunk), (js_written _ _ _ Hjs).
  destruct Hcase as [[Hc' Hinc']|[Hc' ->]]; rewrite (holds_accessor_eq _ _ _ Hc').
  - rewrite (js_written _ _ _ Hjs). split; [|simpl; lia].
    eapply (Answered _ _ a request (lft ++ chunk)); try done. cbn [to_client]. by rewrite <- (assoc_L (++)).
  - rewrite Hw. split; [eapply (Ordering _ _ a a' request _ 0); by try done|].
    destruct (oec_instrumentType _); cbn [concat drop length app]; rewrite ?app_nil_r; [|lia].
    rewrite order_frame_length by (done || by apply OrderManager_new_ok). lia.
Qed.

(** ** Runs *)

Lemma start_ok : system_ok system_start.
Proof. split; cbn; [|done]. intros fd. rewrite lookup_empty. split; [set_solver | by intros []]. Qed.

(** Changing one process within its phase. *)
Lemma update_ok (S : system) (s' : TcpServer) (fd : Z) (p p' : process) :
  system_ok S → sys_processes S !! fd = Some p → m_clients s' = m_clients (sys_server S) →
  p_trader p' = p_trader p → phase fd p' → system_ok (Build_system s' (<[fd := p']> (sys_processes S))).
Proof.
  intros [Hc Hp] Hlook Hcl Htr Hph. split; cbn [sys_server sys_processes].
  - intros fd'. rewrite Hcl, Hc. destruct (decide (fd = fd')) as [<-|Hne].
    + rewrite lookup_insert_eq, Hlook. split; by eexists.
    + by rewrite lookup_insert_ne.
  - intros fd' q Hq. destruct (decide (fd = fd')) as [<-|Hne].
    + rewrite lookup_insert_eq in Hq. injection Hq as <-. rewrite Htr. by split; [apply (Hp fd)|].
    + rewrite lookup_insert_ne in Hq by done. by apply Hp.
Qed.

Lemma backlog_update (S : system) (s' : TcpServer) (fd : Z) (p p' : process) :
  sys_processes S !! fd = Some p → (process_backlog p' < process_backlog p)%nat →
  backlog (Build_system s' (<[fd := p']> (sys_processes S))) < backlog S.
Proof.
  intros Hlook Hlt. unfold backlog. cbn [sys_processes]. rewrite (map_sum_update _ _ _ _ _ Hlook). lia.
Qed.

Lemma backlog_nonneg (S : system) : 0 ≤ backlog S.
Proof. apply map_sum_nonneg. lia. Qed.

(** The processes after one was changed and the server has answered it. *)
Lemma deliver_insert (s s' : TcpServer) (ps : gmap Z process) (fd : Z) (p : process) (bufs : list (list byte)) :
  outgoing s' = outgoing s ++ ((fd,.) <$> bufs) →
  deliver s s' (<[fd := p]> ps) = <[fd := receive p bufs]> ps.
Proof.
  intros Ho. apply map_eq. intros fd'. rewrite (deliver_lookup _ _ _ _ _ _ Ho).
  destruct (decide (fd = fd')) as [<-|Hne]; [by rewrite !lookup_insert_eq|].
  rewrite !lookup_insert_ne by done. by destruct (ps !! fd').
Qed.

Lemma delivery_ok (S S' : system) :
  system_ok S → delivery login_whole S S' → system_ok S' ∧ backlog S' < backlog S.
Proof.
  intros Hok Hd. revert Hok.
  destruct Hd as [S fd p chunks rest s' Hlook Hts Hne Hch Hcut Hem | S fd p chunk rest c got left c' Hlook Htc Hr Hp];
    intros Hok.
  - destruct (so_phase _ Hok fd p Hlook) as [Htr Hph].
    destruct (server_read_phase (sys_server S) fd p chunks rest Hph Htr) as (s1 & bufs & Hs1 & Hcl & Hout & Hph' & Hlt);
      try done; [by apply Hok; eexists|].
    rewrite Hem in Hs1. injection Hs1 as <-. rewrite (deliver_insert _ _ _ _ _ _ Hout).
    split; [by eapply update_ok | by eapply backlog_update].
  - destruct (so_phase _ Hok fd p Hlook) as [Htr Hph].
    destruct (client_read_phase fd p chunk rest c got left Hph Htr Htc Hr) as (c1 & Hp1 & Hph' & Hlt).
    rewrite Hp in Hp1. injection Hp1 as <-.
    split; [by eapply update_ok | by eapply backlog_update].
Qed.

Lemma connects_ok (S : system) (fd : Z) (t : trader) (a : BistMarketAccessor) (s' : TcpServer) :
  system_ok S → sys_processes S !! fd = None → trader_ok t → starts t = Ret a →
  emulate (sys_server S) (EventAccept [Build_accepted fd true true]) = Ret s' →
  system_ok (Build_system s' (deliver (sys_server S) s' (<[fd := started t a]> (sys_processes S)))).
Proof.
  intros [Hc Hp] Hlook Htr Hst Hem. injection Hem as <-. rewrite deliver_nothing by done.
  pose proof Htr as (Hl & Hi & _). destruct (starts_ok t Hl Hi) as (a1 & request & Hst1 & Hjs & _).
  rewrite Hst in Hst1. injection Hst1 as <-.
  split; cbn [sys_server sys_processes accept_one acc_nonblocking handleNewConnection foldl m_clients outgoing
    addClientToEpoll acc_registered acc_fd].
  - intros fd'. rewrite elem_of_union, elem_of_singleton, Hc. destruct (decide (fd = fd')) as [<-|Hne].
    + rewrite lookup_insert_eq. split; [by eexists | by left].
    + rewrite lookup_insert_ne by done. split; [by intros [->|] | by right].
  - intros fd' q Hq. destruct (decide (fd = fd')) as [<-|Hne].
    + rewrite lookup_insert_eq in Hq. injection Hq as <-. split; [done|].
      apply (Requested fd (started t a) a request Hst Hjs); try done; [apply TcpClient_new_holds|].
      cbn [to_server started]. rewrite (js_written _ _ _ Hjs). cbn. apply app_nil_r.
    + rewrite lookup_insert_ne in Hq by done. by apply Hp.
Qed.

(** The end of a connection removes the client, and nothing is sent. *)
Lemma emulate_closed (s s' : TcpServer) (fd : Z) (hangup : bool) :
  fd ∈ m_clients s → emulate s (EventClient fd true [ReadClosed] hangup) = Ret s' →
  m_clients s' = m_clients s ∖ {[fd]} ∧ outgoing s' = outgoing s.
Proof.
  intros Hin. unfold emulate, serverLoop. cbn [fold_outcome handle_event]. unfold handleClientData.
  rewrite decide_True by done. cbn [client_loop]. rewrite bool_decide_true by done. cbn [negb]. run_outcome.
  assert (Hrm : m_clients (removeClient s fd) = m_clients s ∖ {[fd]})
    by (unfold removeClient; by rewrite decide_True).
  assert (Hagain : removeClient (removeClient s fd) fd = removeClient s fd).
  { unfold removeClient at 1. rewrite decide_False; [done | apply (disconnected s fd)]. }
  intros [= <-]. rewrite <- Hrm. destruct hangup; rewrite ?Hagain, removeClient_outgoing; done.
Qed.

Lemma leaves_ok (S : system) (fd : Z) (p : process) (hangup : bool) (s' : TcpServer) :
  system_ok S → sys_processes S !! fd = Some p →
  emulate (sys_server S) (EventClient fd true [ReadClosed] hangup) = Ret s' →
  system_ok (Build_system s' (deliver (sys_server S) s' (delete fd (sys_processes S)))).
Proof.
  intros [Hc Hp] Hlook Hem. assert (Hin : fd ∈ m_clients (sys_server S)) by (apply Hc; by eexists).
  destruct (emulate_closed _ _ _ _ Hin Hem) as [Hcl Hout]. rewrite deliver_nothing by done.
  split; cbn [sys_server sys_processes].
  - intros fd'. rewrite Hcl, elem_of_difference, elem_of_singleton, Hc, lookup_delete_is_Some. clear. intuition congruence.
  - intros fd' q [_ Hq]%lookup_delete_Some. by apply Hp.
Qed.

Lemma reachable_ok (S : system) : rtc (system_step trader_ok login_whole) system_start S → system_ok S.
Proof.
  apply (rtc_ind_r system_ok); [apply start_ok|]. intros S1 S2 _ Hstep. destruct Hstep; intros Hok;
    [by eapply delivery_ok | by eapply connects_ok | by eapply leaves_ok].
Qed.

Lemma deliveries_ok (k : nat) (S S' : system) :
  system_ok S → nsteps (delivery login_whole) k S S' → system_ok S' ∧ Z.of_nat k + backlog S' ≤ backlog S.
Proof.
  intros Hok Hk. induction Hk as [S|k S1 S2 S3 Hd Hk IH]; [split; [done|lia]|].
  destruct (delivery_ok _ _ Hok Hd) as [Hok2 Hlt]. destruct (IH Hok2). split; [done|lia].
Qed.

(** Where a session is not established yet, something is in flight and can be delivered. *)
Lemma session_progress (S : system) (fd : Z) (p : process) :
  system_ok S → sys_processes S !! fd = Some p →
  (established fd p ∧ p_answers p = [login_response fd]) ∨
  ∃ S', delivery login_whole S S'.
Proof.
  intros Hok Hlook. destruct (so_phase _ Hok fd p Hlook) as [Htr Hph].
  assert (Hin : fd ∈ m_clients (sys_server S)) by (apply Hok; by eexists).
  assert (Hread : (0 < length (to_server p) ≤ SERVER_BUFFER_SIZE)%nat → ∃ S', delivery login_whole S S').
  { intros Hlen. destruct (server_read_phase (sys_server S) fd p [to_server p] [] Hph Htr Hin)
      as (s' & bufs & Hem & _); [by cbn; rewrite !app_nil_r | done | by constructor | done |].
    eexists. eapply (server_reads _ S fd p [to_server p] []); try done; [by cbn; rewrite !app_nil_r | by constructor]. }
  pose proof Htr as (Hl & Hi & _).
  destruct Hph as [a request Hst Hjs Hh Hts Htc Hout | a request lft Hst Hjs Hh Hinc Hts Htc Hout
    | a a' request orders k Hst Hjs Hh Hac Hsn Hw Hor Hts Htc Hout].
  - right. apply Hread. rewrite Hts, (request_length _ _ _ Hjs). pose proof request_fits. lia.
  - right. destruct (reaction _ _ _ fd Hjs Hi) as (a' & Hf & _).
    destruct (client_reads_answer fd (p_client p) a a' lft (to_client p) [] Hh) as (c & c' & Hr & Hp & _);
      [by rewrite app_nil_r, Htc | exact Hf |].
    destruct (to_client p) as [|b bytes] eqn:Hbytes.
    { rewrite app_nil_r in Htc. subst lft. by destruct (answer_complete fd). }
    eexists. eapply (client_reads _ S fd p (b :: bytes) []); [done | by rewrite app_nil_r | exact Hr | exact Hp].
  - destruct (to_server p) as [|b bytes] eqn:Hbytes.
    + left. split; [|done]. exists a. rewrite (holds_accessor_eq _ _ _ Hh), (holds_size _ _ _ Hh), Hw, Hor.
      rewrite (js_written _ _ _ Hjs). by split_and!.
    + right. apply Hread. split; [simpl; lia|]. rewrite Hts, length_drop. subst orders.
      change SERVER_BUFFER_SIZE with 4096%nat. destruct (oec_instrumentType _); cbn [concat]; [|simpl; lia].
      rewrite app_nil_r, order_frame_length by (done || by apply OrderManager_new_ok). lia.
Qed.

(** Nothing can be delivered once nothing is in flight. *)
Lemma empty_quiet (cut : process → list (list byte) → Prop) (S : system) :
  map_Forall (λ _ p, to_server p = [] ∧ to_client p = []) (sys_processes S) → nf (delivery cut) S.
Proof.
  intros Hall [S' Hd]. destruct Hd as [S fd p chunks rest s' Hlook Heq Hne Hch | S fd p chunk rest c got left c' Hlook Heq Hr];
    destruct (Hall fd p Hlook) as [Hts Htc].
  - rewrite Hts in Heq. destruct chunks as [|ch chunks]; [done|]. apply Forall_cons in Hch as [Hch _].
    destruct ch; [simpl in Hch; lia | done].
  - rewrite Htc in Heq. symmetry in Heq. apply app_nil in Heq as [-> _]. unfold readFromSocket in Hr.
    by rewrite take_nil in Hr.
Qed.

(** A well-behaved system can always run until nothing is left to deliver. *)
Lemma runs_to_quiet (S : system) :
  system_ok S → ∃ k S', nsteps (delivery login_whole) k S S' ∧ nf (delivery login_whole) S'.
Proof.
  remember (Z.to_nat (backlog S)) as n eqn:Hn. revert S Hn.
  induction (lt_wf n) as [n _ IH]. intros S -> Hok.
  destruct (decide (map_Forall (λ _ p, to_server p = [] ∧ to_client p = []) (sys_processes S))) as [Hall|Hnot];
    [exists 0%nat, S; split; [constructor | by apply empty_quiet]|].
  apply map_not_Forall in Hnot as (fd & p & Hlook & Hne); [|apply _].
  destruct (session_progress S fd p Hok Hlook) as [[(a & _ & _ & _ & _ & Hts & Htc & _) _]|[S1 Hd]]; [by destruct Hne|].
  destruct (delivery_ok S S1 Hok Hd) as [Hok1 Hlt]. pose proof (backlog_nonneg S1).
  destruct (IH (Z.to_nat (backlog S1)) ltac:(lia) S1 eq_refl Hok1) as (k & S' & Hk & Hq).
  exists (Datatypes.S k), S'. split; [by eapply nsteps_l | done].
Qed.

Lemma deliveries_keep (cut : process → list (list byte) → Prop) (k : nat) (S S' : system) (fd : Z) :
  nsteps (delivery cut) k S S' → is_Some (sys_processes S !! fd) → is_Some (sys_processes S' !! fd).
Proof.
  induction 1 as [|k S1 S2 S3 Hd _ IH]; [done|]. intros Hsome. apply IH. clear IH.
  destruct Hd as [S fd' p chunks rest s' Hlook _ _ _ _ Hem | S fd' p chunk rest c got left c' Hlook _ _ _];
    cbn [sys_processes].
  - destruct (emulate_sends_only _ _ _ _ Hem) as [bufs Hout]. rewrite (deliver_insert _ _ _ _ _ _ Hout).
    rewrite lookup_insert_is_Some. by destruct (decide (fd' = fd)); [left|right].
  - rewrite lookup_insert_is_Some. by destruct (decide (fd' = fd)); [left|right].
Qed.

(** No reading that [login_whole] admits fails, on either side. *)
Definition no_failure (S : system) : Prop :=
  ∀ fd p, sys_processes S !! fd = Some p →
    (∀ chunks rest, to_server p = concat chunks ++ rest → chunks ≠ [] →
      Forall (λ ch, (0 < length ch ≤ SERVER_BUFFER_SIZE)%nat) chunks → login_whole p chunks →
      is_ret (emulate (sys_server S) (EventClient fd true (ReadBytes <$> chunks) false)) = true) ∧
    (∀ chunk rest c got left, to_client p = chunk ++ rest →
      readFromSocket (p_client p) [chunk] = (c, Datatypes.S got, left) → is_ret (processBuffer c) = true).

Lemma system_ok_no_failure (S : system) : system_ok S → no_failure S.
Proof.
  intros Hok fd p Hlook. destruct (so_phase _ Hok fd p Hlook) as [Htr Hph].
  assert (Hin : fd ∈ m_clients (sys_server S)) by (apply Hok; by eexists). split.
  - intros chunks rest Heq Hne Hch Hcut.
    destruct (server_read_phase _ fd p chunks rest Hph Htr Hin Heq Hne Hch Hcut) as (s' & bufs & -> & _). done.
  - intros chunk rest c got left Heq Hr.
    destruct (client_read_phase fd p chunk rest c got left Hph Htr Heq Hr) as (c' & -> & _). done.
Qed.

(** ** A login request that arrives in two reads *)

(** No read begins with the login request of trader [t] and takes all of it. *)
Definition login_split (t : trader) (p : process) (chunks : list (list byte)) : Prop :=
  p_trader p = t → to_server p = concat (written (m_marketAccessor (p_client p))) → chunks ≠ [to_server p].

(** Credentials without a zero byte. *)
Definition printable (t : trader) : Prop :=
  0 ≤ t_last t < 2 ^ 31 - 1 ∧ (length (t_info t) ≤ 32)%nat ∧
  Forall (λ b, b ≠ x00) (oec_username (t_partition t)) ∧ Forall (λ b, b ≠ x00) (oec_password (t_partition t)).
#[export] Instance printable_dec (t : trader) : Decision (printable t).
Proof. unfold printable. apply _. Defined.

Lemma toPaddedArray_nonzero (n : nat) (s : list byte) :
  Forall (λ b, b ≠ x00) s → Forall (λ b, b ≠ x00) (toPaddedArray n s " ").
Proof.
  intros Hs. unfold toPaddedArray. apply Forall_app. split; [by apply Forall_take|].
  apply Forall_drop, Forall_replicate. done.
Qed.

Lemma request_bytes (t : trader) (a : BistMarketAccessor) (request : list byte) :
  just_started t a request → printable t →
  ∃ bytes, request = x00 :: x2f :: bytes ∧ Forall (λ b, b ≠ x00) bytes.
Proof.
  intros [_ _ _ _ _ (a0 & -> & Hp & Hss & Hsn)] (_ & _ & Hu & Hpw).
  eexists. split; [reflexivity|]. cbn [fst snd enum1 char1 chars c_enc app].
  constructor; [done|]. cbn. rewrite Hp, Hss, Hsn. rewrite !Forall_app.
  split; [by apply toPaddedArray_nonzero|]. split; [by apply toPaddedArray_nonzero|].
  split; by apply (bool_decide_unpack _); vm_compute.
Qed.

(** A piece of a login request is let pass: its first part lacks what its length field
    announces, every other part begins with a length far beyond what was received. *)
Lemma request_piece_ignored (s : TcpServer) (fd : Z) (t : trader) (a : BistMarketAccessor) (request : list byte)
    (k : nat) (chunk rest : list byte) :
  just_started t a request → printable t → drop k request = chunk ++ rest → (k = 0 → length chunk < 49)%nat →
  ignored s fd chunk.
Proof.
  intros Hjs Hpr Heq Hfirst. destruct (request_bytes _ _ _ Hjs Hpr) as (bytes & Hreq & Hb).
  pose proof (request_length _ _ _ Hjs) as Hlen. apply short_ignored. intros H2.
  destruct chunk as [|b1 [|b2 chunk]]; [simpl in H2; lia..|]. unfold slice. cbn [drop take].
  destruct k as [|k].
  - rewrite Hreq in Heq. injection Heq as <- <- _. specialize (Hfirst eq_refl).
    change (be_load _) with 47. lia.
  - apply (f_equal length) in Heq as Hle. rewrite length_drop, length_app, Hlen in Hle.
    assert (Hnz : Forall (λ b, b ≠ x00) (drop (S k) request)).
    { rewrite Hreq. cbn [drop]. apply Forall_drop. by constructor. }
    rewrite Heq in Hnz. apply Forall_cons in Hnz as [Hb1 _]. apply big_length; [done | lia].
Qed.

Lemma request_pieces_ignored (s : TcpServer) (fd : Z) (t : trader) (a : BistMarketAccessor) (request : list byte)
    (chunks : list (list byte)) (k : nat) (rest : list byte) :
  just_started t a request → printable t → drop k request = concat chunks ++ rest →
  Forall (λ ch, (0 < length ch ≤ SERVER_BUFFER_SIZE)%nat) chunks → (k = 0%nat → chunks ≠ [request]) →
  Forall (ignored s fd) chunks.
Proof.
  intros Hjs Hpr. pose proof (request_length _ _ _ Hjs) as Hlen. revert k.
  induction chunks as [|ch chunks IH]; intros k Heq Hch Hk; [done|].
  apply Forall_cons in Hch as [Hch1 Hch]. cbn [concat] in Heq. rewrite <- (assoc_L (++)) in Heq. constructor.
  - eapply request_piece_ignored; [done|done|exact Heq|]. intros ->. specialize (Hk eq_refl).
    rewrite drop_0 in Heq. rewrite Heq, length_app in Hlen.
    destruct (Nat.ltb_spec (length ch) 49); [done|]. exfalso.
    assert (Hnil : concat chunks ++ rest = []) by (apply length_zero_iff_nil; lia).
    destruct chunks as [|ch2 chunks]; [|by apply Forall_cons in Hch as [Hch2 _]; destruct ch2; simpl in Hch2; [lia|]].
    apply Hk. by rewrite Heq, Hnil, app_nil_r.
  - apply (IH (k + length ch)%nat); [by rewrite <- drop_drop, Heq, drop_app_length | done | lia].
Qed.

(** A client whose request was never read whole: it waits, and has been sent nothing. *)
Definition waiting (t : trader) (p : process) : Prop :=
  ∃ a request k, starts t = Ret a ∧ just_started t a request ∧ m_accState a = AccDisconnected ∧
    p_client p = TcpClient_new a ∧ to_client p = [] ∧ to_server p = drop k request ∧ p_answers p = [].

Definition all_waiting (t : trader) (S : system) : Prop :=
  ∀ fd p, sys_processes S !! fd = Some p → p_trader p = t → waiting t p.

(** Whatever happens to another connection, a waiting client goes on waiting. *)
Lemma all_waiting_insert (t : trader) (S : system) (s' : TcpServer) (fd : Z) (p : process) :
  all_waiting t S → (p_trader p = t → waiting t p) →
  all_waiting t (Build_system s' (<[fd := p]> (sys_processes S))).
Proof.
  intros Haw Hp fd' q Hq Ht. cbn [sys_processes] in Hq. apply lookup_insert_Some in Hq as [[<- <-]|[_ Hq]]; [auto|].
  by apply (Haw fd').
Qed.

(** What the emulator does with a part of a waiting client's request: nothing. *)
Lemma waiting_reads (t : trader) (s s' : TcpServer) (fd : Z) (p : process) (chunks : list (list byte))
    (rest : list byte) :
  printable t → p_trader p = t → waiting t p → to_server p = concat chunks ++ rest →
  Forall (λ ch, (0 < length ch ≤ SERVER_BUFFER_SIZE)%nat) chunks → login_split t p chunks →
  emulate s (EventClient fd true (ReadBytes <$> chunks) false) = Ret s' → s' = s ∧ waiting t (taken p rest).
Proof.
  intros Hpr Ht (a & request & k & Hst & Hjs & Hac & Hcl & Htc & Hts & Han) Heq Hch Hcut Hem.
  assert (Hig : Forall (ignored s fd) chunks).
  { apply (request_pieces_ignored s fd t a request chunks k rest Hjs Hpr); [by rewrite <- Hts | done|].
    intros -> ->. cbn [concat] in Heq. rewrite Hts, drop_0, app_nil_r in Heq.
    apply (Hcut Ht); rewrite Hts, drop_0; [|done]. rewrite Hcl. cbn [m_marketAccessor TcpClient_new].
    rewrite (js_written _ _ _ Hjs). cbn. by rewrite app_nil_r. }
  split.
  - destruct (decide (fd ∈ m_clients s)) as [Hin|Hnin].
    + rewrite emulate_ignored in Hem; [by injection Hem as <- | done|].
      apply Forall_and. split; [|done]. eapply Forall_impl; [exact Hch|]. simpl. lia.
    + rewrite emulate_unknown in Hem by done. by injection Hem as <-.
  - exists a, request, (k + length (concat chunks))%nat. cbn [p_client to_client to_server p_answers taken].
    split_and!; try done. by rewrite <- drop_drop, <- Hts, Heq, drop_app_length.
Qed.

Lemma all_waiting_delivery (t : trader) (S S' : system) :
  printable t → all_waiting t S → delivery (login_split t) S S' → all_waiting t S'.
Proof.
  intros Hpr Haw Hd. revert Haw.
  destruct Hd as [S fd p chunks rest s' Hlook Heq Hne Hch Hcut Hem | S fd p chunk rest c got left c' Hlook Heq Hr Hp];
    intros Haw.
  - destruct (emulate_sends_only _ _ _ _ Hem) as [bufs Hout]. rewrite (deliver_insert _ _ _ _ _ _ Hout).
    apply all_waiting_insert; [done|]. intros Ht. cbn [p_trader receive taken] in Ht.
    destruct (waiting_reads t _ s' fd p chunks rest Hpr Ht (Haw fd p Hlook Ht) Heq Hch Hcut Hem) as [-> Hw].
    assert (bufs = []) as ->.
    { rewrite <- (app_nil_r (outgoing _)) in Hout at 1. apply app_inv_head in Hout. by destruct bufs. }
    unfold receive. cbn [concat]. rewrite !app_nil_r. by destruct (taken p rest).
  - apply all_waiting_insert; [done|]. intros Ht.
    destruct (Haw fd p Hlook Ht) as (_ & _ & _ & _ & _ & _ & _ & Htc & _).
    rewrite Htc in Heq. symmetry in Heq. apply app_nil in Heq as [-> ->]. unfold readFromSocket in Hr.
    by rewrite take_nil in Hr.
Qed.

Lemma all_waiting_step (admits : trader → Prop) (t : trader) (S S' : system) :
  printable t → all_waiting t S → system_step admits (login_split t) S S' → all_waiting t S'.
Proof.
  intros Hpr Haw Hstep. revert Haw.
  destruct Hstep as [S S' Hd | S fd t' a s' Hlook _ Hst Hem | S fd p hangup s' Hlook Hem]; intros Haw.
  - by eapply all_waiting_delivery.
  - injection Hem as <-. rewrite deliver_nothing by done. apply all_waiting_insert; [done|].
    cbn [p_trader started]. intros ->.
    destruct (starts_ok t) as (a1 & request & Hst1 & Hjs & Hac); [apply Hpr..|].
    rewrite Hst in Hst1. injection Hst1 as <-. exists a, request, 0%nat.
    split_and!; try done. cbn [to_server started]. rewrite (js_written _ _ _ Hjs), drop_0. cbn. apply app_nil_r.
  - intros fd' q Hq Ht. rewrite deliver_nothing in Hq.
    2: { destruct (decide (fd ∈ m_clients (sys_server S))) as [Hin|Hnin]; [by apply (emulate_closed _ _ fd hangup)|].
      rewrite emulate_unknown in Hem by done. by injection Hem as <-. }
    cbn [sys_processes] in Hq. apply lookup_delete_Some in Hq as [_ Hq]. by apply (Haw fd').
Qed.

Lemma all_waiting_reachable (admits : trader → Prop) (t : trader) (S : system) :
  printable t → rtc (system_step admits (login_split t)) system_start S → all_waiting t S.
Proof.
  intros Hpr. apply (rtc_ind_r (all_waiting t)).
  - intros fd p Hp. cbn in Hp. by rewrite lookup_empty in Hp.
  - intros S1 S2 _ Hstep Haw. by eapply all_waiting_step.
Qed.

(** ** Properties *)

(** C3. Sessions are established, for any number of clients at once.  The clients have the
    emulator's credentials and exchange info of at most 32 characters no piece of which can
    be taken for a login or a logout ([trader_ok]; [order_taken_for_logout] shows what other
    info does, [rejected_login_dangling] what other credentials do).  As long as every login
    request arrives in one read, then wherever else the network cuts, in whatever order
    clients connect and the two sides get their turn, nothing fails on either side; there is
    a bound on the deliveries still to come; and when none is left, every client is
    Continuous under its own session name, has sent its first order if it trades equities
    and none if it trades derivatives, with nothing in flight, and the emulator keeps it
    connected and has answered it exactly once. *)
Theorem sessions_established (S S' : system) (k : nat) :
  rtc (system_step trader_ok login_whole) system_start S → nsteps (delivery login_whole) k S S' →
  no_failure S' ∧ Z.of_nat k ≤ backlog S ∧
  (nf (delivery login_whole) S' → ∀ fd p, sys_processes S' !! fd = Some p →
    established fd p ∧ fd ∈ m_clients (sys_server S') ∧ p_answers p = [login_response fd]).
Proof.
  intros Hreach Hk. destruct (deliveries_ok k S S' (reachable_ok S Hreach) Hk) as [Hok Hle].
  split; [by apply system_ok_no_failure|]. split; [pose proof (backlog_nonneg S'); lia|].
  intros Hquiet fd p Hlook. destruct (session_progress S' fd p Hok Hlook) as [[He Hr]|[S'' Hd]].
  - split; [done|]. split; [apply Hok; by eexists | done].
  - destruct Hquiet. by exists S''.
Qed.

(** C18. A login request that is not read whole is lost for good: the emulator drops its first
    part as incomplete and takes the rest for the beginning of a huge packet.  The client,
    whatever its credentials, as long as they contain no zero bytes and its exchange info
    and last token are within bounds ([printable]), is never answered, never becomes
    Continuous and never sends an order, whatever the other clients and the network do. *)
Theorem split_login_never_starts (admits : trader → Prop) (t : trader) (S : system) (fd : Z) (p : process) :
  printable t → rtc (system_step admits (login_split t)) system_start S →
  sys_processes S !! fd = Some p → p_trader p = t →
  ∃ a request, starts t = Ret a ∧ written a = [request] ∧ m_accState a = AccDisconnected ∧
    p_client p = TcpClient_new a ∧ to_client p = [] ∧ p_answers p = [].
Proof.
  intros Hpr Hreach Hlook Ht.
  destruct (all_waiting_reachable admits t S Hpr Hreach fd p Hlook Ht)
    as (a & request & k & Hst & Hjs & Hac & Hcl & Htc & _ & Han).
  exists a, request. split_and!; try done. apply (js_written _ _ _ Hjs).
Qed.

End platform.

(** By the letter of C++. *)
#[local] Existing Instance cxx_platform.

(** The client of apps/trading_client.cpp, connected as descriptor 5. *)
Definition sample_trader : trader := Build_trader sample_config sample_client_account sample_exchange_info 1.
Definition sample_start : BistMarketAccessor :=
  match starts sample_trader with Ret a => a | _ => sample_accessor end.
Definition sample_system (fds : list Z) : system :=
  foldl (λ S fd, Build_system (accept_one (sys_server S) (Build_accepted fd true true))
    (<[fd := started sample_trader sample_start]> (sys_processes S))) system_start fds.

Lemma sample_trader_ok : trader_ok sample_trader ∧ printable sample_trader.
Proof. by apply (bool_decide_unpack _); vm_compute. Qed.

Lemma sample_starts : starts sample_trader = Ret sample_start.
Proof.
  destruct (starts_ok sample_trader) as (a & _ & Ha & _); [apply sample_trader_ok..|].
  unfold sample_start. by rewrite Ha.
Qed.

Lemma sample_connects (cut : process → list (list byte) → Prop) (S : system) (fd : Z) :
  sys_processes S !! fd = None →
  system_step trader_ok cut S (Build_system (accept_one (sys_server S) (Build_accepted fd true true))
    (<[fd := started sample_trader sample_start]> (sys_processes S))).
Proof.
  intros Hnone. pose proof (connects trader_ok cut S fd sample_trader sample_start _ Hnone (proj1 sample_trader_ok)
    sample_starts eq_refl) as Hc. by rewrite deliver_nothing in Hc.
Qed.

Lemma sample_reachable (cut : process → list (list byte) → Prop) :
  rtc (system_step trader_ok cut) system_start (sample_system [5; 7]).
Proof.
  eapply rtc_l; [apply (sample_connects cut system_start 5); apply lookup_empty|].
  eapply rtc_l; [|apply rtc_refl]. apply sample_connects. cbn [sys_processes]. by rewrite lookup_insert_ne.
Qed.

(** Two clients: every run ends, with both sessions established. *)
Lemma sessions_established_witness :
  ∃ k S' p5 p7, nsteps (delivery login_whole) k (sample_system [5; 7]) S' ∧
    sys_processes S' !! 5 = Some p5 ∧ sys_processes S' !! 7 = Some p7 ∧ established 5 p5 ∧ established 7 p7.
Proof.
  destruct (runs_to_quiet _ (reachable_ok _ (sample_reachable _))) as (k & S' & Hk & Hq).
  destruct (sessions_established (sample_system [5; 7]) S' k (sample_reachable _) Hk) as (_ & _ & He).
  destruct (deliveries_keep _ _ _ _ 5 Hk) as [p5 H5]; [by eexists|].
  destruct (deliveries_keep _ _ _ _ 7 Hk) as [p7 H7]; [by eexists|].
  exists k, S', p5, p7. split_and!; try done; by apply He.
Defined.

(** The first twenty bytes of the request arrive alone. *)
Definition sample_split : system :=
  Build_system (sys_server (sample_system [5])) (deliver (sys_server (sample_system [5])) (sys_server (sample_system [5]))
    (<[5 := taken (started sample_trader sample_start) (drop 20 (concat (written sample_start)))]>
      (sys_processes (sample_system [5])))).

Lemma sample_split_reachable :
  rtc (system_step trader_ok (login_split sample_trader)) system_start sample_split.
Proof.
  eapply rtc_l; [apply (sample_connects _ system_start 5); apply lookup_empty|].
  eapply rtc_l; [|apply rtc_refl]. apply delivers.
  apply (server_reads _ (sample_system [5]) 5 (started sample_trader sample_start) [take 20 (concat (written sample_start))]
    (drop 20 (concat (written sample_start)))).
  - apply lookup_insert_eq.
  - cbn [concat]. by rewrite app_nil_r, take_drop.
  - done.
  - by apply (bool_decide_unpack _); vm_compute.
  - intros _ _ Hl. apply (f_equal (λ l, length (concat l))) in Hl. by vm_compute in Hl.
  - apply emulate_ignored; [apply connected_in|].
    constructor; [|done]. split; [by apply (bool_decide_unpack _); vm_compute|].
    apply short_ignored. by vm_compute; lia.
Qed.

Lemma split_login_never_starts_witness :
  ∃ p, sys_processes sample_split !! 5 = Some p ∧ m_accState (m_marketAccessor (p_client p)) = AccDisconnected ∧
    to_client p = [].
Proof.
  eexists. assert (Hlook : sys_processes sample_split !! 5 = Some (taken (started sample_trader sample_start)
    (drop 20 (concat (written sample_start))))).
  { cbn [sample_split sys_processes]. rewrite deliver_nothing by done. apply lookup_insert_eq. }
  split; [exact Hlook|].
  destruct (split_login_never_starts trader_ok sample_trader sample_split 5 _ (proj2 sample_trader_ok)
    sample_split_reachable Hlook eq_refl) as (a & request & _ & _ & Hac & Hcl & Htc & _).
  rewrite Hcl. by split.
Defined.

(** A piece that announces nothing and has the type of a logout is taken for one. *)
Lemma logout_piece (s : TcpServer) (fd : Z) (more rest : list byte) :
  let piece := x00 :: x00 :: enum_byte PacketType_LogoutRequest :: more in
  handleSoupBinTcpMessage s fd (piece ++ rest) (length piece) = Ret (disconnectClient s fd).
Proof.
  unfold handleSoupBinTcpMessage. cbn [length app].
  rewrite (read_mem_ok 0 2) by (cbn [length]; lia). run_outcome.
  change (be16toh (le_load _)) with 0. unfold overlay. change (c_size enum1) with 1%nat.
  rewrite (read_mem_ok 2 1) by (cbn [length]; lia).
  by destruct more.
Qed.

(** Two zeros come before the exchange info of an order. *)
Lemma order_frame_zeros (info : list byte) (om : OrderManager) :
  (length info ≤ 32)%nat → manager_ok om →
  ∃ piece rear, order_frame info om = piece ++ x00 :: x00 :: info ++ rear ∧ length piece = 66%nat ∧
    piece !! 2%nat = Some "U"%byte.
Proof.
  intros Hi Hm. destruct (nextToken_ok om Hm) as [_ [Hl _]].
  unfold order_frame. rewrite order_frame_bytes, padded_info_app by done. set (front := (le_store 4 _ ++ _)).
  assert (Hf : ∃ front', front = front' ++ [x00; x00] ∧ length front' = 48%nat) by (by eexists (take 48 front)).
  destruct Hf as (front' & -> & Hf). exists ([x00; "s"; "U"; "O"]%byte ++ (nextToken om).2 ++ front').
  eexists. split; [by rewrite <- !(assoc_L (++))|]. by rewrite !length_app, Hl, Hf.
Qed.

(** An order can be taken for a logout: if the exchange info begins with an O and a read of
    the emulator begins with the two zeros before it, the piece announces no payload and has
    the type of a logout request; the emulator removes the client while it reads from it,
    and goes on with a dangling iterator. *)
Theorem order_taken_for_logout (s : TcpServer) (fd : Z) (info : list byte) (om : OrderManager) :
  (length info ≤ 32)%nat → head info = Some (enum_byte PacketType_LogoutRequest) → manager_ok om → fd ∈ m_clients s →
  emulate s (EventClient fd true (ReadBytes <$> [take 66 (order_frame info om); drop 66 (order_frame info om)]) false) =
    Undef DanglingReference.
Proof.
  intros Hi Ho Hm Hin. destruct info as [|b info]; [done|]. injection Ho as ->.
  pose proof (order_frame_length _ om Hi Hm) as Hlen.
  destruct (order_frame_zeros _ om Hi Hm) as (piece & rear & Heq & H1 & H2). rewrite Heq in *.
  rewrite length_app, H1 in Hlen. rewrite take_app_length', drop_app_length' by done.
  unfold emulate, serverLoop. cbn [fold_outcome handle_event fmap list_fmap]. unfold handleClientData.
  rewrite decide_True by done. pose proof (repeat_length x00 SERVER_BUFFER_SIZE) as Hb. revert Hb.
  generalize (repeat x00 SERVER_BUFFER_SIZE) as buffer. intros buffer Hb. change SERVER_BUFFER_SIZE with 4096%nat in Hb.
  cbn [client_loop]. rewrite bool_decide_true by done. cbn [negb].
  rewrite (splice_prefix piece) by (rewrite H1, Hb; apply Nat.leb_le; reflexivity).
  rewrite (plain_ignored s fd piece).
  2: { rewrite H2. intros b [= <-]. by apply (bool_decide_unpack _); vm_compute. }
  run_outcome. rewrite bool_decide_true by done. cbn [negb app].
  rewrite splice_prefix by (rewrite (length_app piece), length_drop, H1, Hb; cbn [length app] in *; lia).
  rewrite logout_piece. run_outcome. by rewrite bool_decide_false by apply disconnected.
Qed.

(** Concretely: the client of apps/trading_client.cpp with OWN for its exchange info. *)
Lemma order_taken_for_logout_witness :
  let order := order_frame (String.list_byte_of_string "OWN") (OrderManager_new 1) in
  emulate (connected 5) (EventClient 5 true (ReadBytes <$> [take 66 order; drop 66 order]) false) =
    Undef DanglingReference.
Proof.
  apply (order_taken_for_logout (connected 5) 5 (String.list_byte_of_string "OWN") (OrderManager_new 1));
    [simpl; lia | done | by apply OrderManager_new_ok | apply connected_in].
Defined.
